(* ===== verification/_CoqProject ===== *)
-Q . S2P
Prelude.v
Base64.v
Json.v
Crypto.v
Store.v
Common.v
Wire.v
SkTypes.v
ExTypes.v
Expected.v
Keeper.v
AnteHandler.v
VoteExtension.v
AppModule.v
ExampleModule.v
Chain.v
Registry.v
Lifecycle.v
Gateway.v
Services.v
AppConfig.v
Cobra.v
Docs.v
App.v
StateExport.v
Path.v
Testnet.v
TestnetFiles.v
TestnetCmd.v
InPlace.v
Commands.v
