(* ===== verification/Prelude.v ===== *)
(** A verification of the secondary-keys chain ([example]), a Cosmos SDK
    application in Go in which an account or a validator proves possession of a
    second secp256k1 key: accounts in the memo of a transaction, checked by an
    ante decorator, validators in their vote extensions.

    * The program and the files that model it (paths under [src/])

    - [Prelude] (this file): bytes, machine integers, Go errors, panics and
      effects, slices with their capacity, and the helpers of the standard
      library the code calls ([strings], [strconv]).
    - [Base64], [Json]: [encoding/base64] and [encoding/json] as far as the code
      depends on them: the parser, the printer, and the decoding of documents into
      Go structs with its case-insensitive fields and its treatment of [null].
    - [Crypto]: the interface of go-ethereum's [crypto], its documented laws, and
      a small scheme that satisfies them.
    - [Store]: the interfaces of [collections], of the value codecs and of the
      address codec, with an in-memory store that can be told to fail.
    - [Common]: [common/helper_functions.go], [common/helpers.go].
    - [Wire], [SkTypes], [ExTypes]: the generated protobuf code of
      [x/*/types/*.pb.go]; [Wire] holds what all generated functions share.
    - [Expected]: [x/*/types/expected_keepers.go], the interfaces of other modules.
    - [Keeper]: [x/secondarykeys/keeper]: message server, queries, genesis.
    - [AnteHandler]: [app/ante_handler.go].
    - [VoteExtension]: [x/secondarykeys/VoteExtension].
    - [AppModule]: [x/secondarykeys/module], [x/secondarykeys/simulation].
    - [ExampleModule]: [x/example/keeper], [x/example/module].
    - [Chain]: the handlers put together as a state machine.
    - [Registry]: the abstract specification of that machine, and the refinement.
    - [Lifecycle]: the same machine over a chain's life: stores that fail, nodes
      that saw different votes, restarts, votes whose writes are thrown away, and
      proposals that carry the extensions of another block.
    - [Gateway]: [x/*/types/query.pb.gw.go] and the query clients.
    - [Services]: [x/*/types/codec.go], [x/*/module/autocli.go], the service
      descriptors and their registration.
    - [AppConfig]: [app/app_config.go], [app/config.go], [app/genesis_account.go],
      [app/genesis.go] and the account tables of [app/app.go].
    - [Docs]: [docs/docs.go].
    - [App]: the construction of the application, [app/app.go], [app/ibc.go].
    - [StateExport]: [app/export.go].
    - [Cobra]: the interface of [cobra] and [pflag], commands and their flags.
    - [Path]: [path/filepath] on slash-separated paths.
    - [Testnet], [TestnetCmd]: [cmd/exampled/cmd/testnet_multi_node.go], its
      operations and its command; [TestnetFiles]: what a run leaves on disk, from
      the documented effects of the helpers on files; [InPlace]:
      [cmd/exampled/cmd/testnet.go].
    - [Commands]: [cmd/exampled]: [main.go], [root.go], [commands.go], [config.go],
      with the two testnet commands in the tree.

    * How Go is modelled

    A call gives an [outcome]: a value, an error or a panic.  A function that
    changes state is a [GoM S A], which returns the state it leaves on all three
    branches; [let? x := m else e => h in k] is [x, err := m; if err != nil { h }],
    and panics go through it.  Integers are [Z] with their width written out
    ([uint64], [int64], [int32]).  Byte strings are lists of bytes, and a slice
    keeps the spare elements of its array, which reslicing reaches.  Maps are
    [gmap]; where the code ranges over one, the order is an argument.  Library code
    is a class of operations, with the documented behaviour a theorem needs as a
    class of laws or a hypothesis, and each has a concrete instance on which the
    properties are evaluated.

    The state of the module is its key-value store: the item [p_secondarykeys]
    and the maps of account keys and of validator keys; a [Node] adds the package
    variable with the validator's own key.  [Chain] runs handlers as [baseapp]
    does: a message that fails or panics writes nothing, and the vote and proposal
    handlers run on a branch of the state that an event may keep or drop.

    * What the theorems show

    - Invariants of every reachable state ([Chain]): where the stored keys come
      from, that the store is well typed, that a validator's key never changes;
      and that an accepted memo carries a key its signer proved before.
    - Refinement ([Registry]): on a store that works the chain implements a pair
      of maps with one transition per event; an account whose key is registered
      keeps passing.
    - The ante chain ([AnteHandler]) lets nothing through that the registered keys
      do not authorize, when the SDK's decorators around the check succeed only by
      calling the next one.
    - Simulation and lifetimes ([Lifecycle]): on a store that fails anywhere
      the chain never does what the registry may not do; accounts' keys depend
      on the broadcasts alone, so that nodes agree on them and on every
      proposal; a validator whose own extension was kept stays accepted, while
      nodes that verified the extensions of two keys in different orders
      disagree for good; the signing key is the one genesis generated until the
      first restart; when vote handlers' writes are thrown away any key passes
      for any validator; and a proposal can lock an honest validator out.
    - Per handler, every branch: [Keeper], [AnteHandler], [VoteExtension],
      [AppModule], [ExampleModule].
    - Round trips: memos, vote extensions and proposals through their JSON
      texts, every protobuf message through its encoding, base64, varints.
      Unmarshalling any input returns or fails, and never panics.
    - The application: its tables and orders ([AppConfig]), that it answers with
      these handlers ([App]), that its services, clients and commands fit
      together ([Services], [Gateway]: local and remote gateways agree), that map
      orders do not show ([App], [Commands]), and how it is exported
      ([StateExport], [Commands]).
    - The testnet commands: the flags and their defaults, the tables the arguments
      give, distinct valid ports; what every validator's files hold after a run of
      [initTestnetFiles] that succeeds, and that every genesis transaction and every
      balance is in the state all start from ([TestnetFiles]); which options the
      in-place command refuses, and with which error ([InPlace]).

    * Fuel and bounds

    A varint loop has 11 rounds: the tenth byte either ends or overflows.  The
    unmarshal and skip loops have the length of their input as fuel, since every
    round reads a byte ([sk_unmarshal_total] shows that it is never used up).
    The JSON parser has twice the length of its input as fuel, and more would give
    the same result ([Json.parse_fuel_irrelevant]); every printed text parses back
    ([Json.parse_print]).  Decimal printing has
    the binary logarithm of the number.  The wire theorems ask for messages
    shorter than 2^63 bytes, the length of a Go slice.  Default testnet ports are
    valid and distinct up to 1317 validators.

    * Not modelled

    Consensus, gossip and [baseapp] are outside this repository; so are the SDK's
    modules and decorators, ibc-go, grpc, viper and cobra, which are interfaces.
    Protobuf descriptors and reflection, logging, the lines that only assert that
    a type implements an interface, methods without a body, and the tests and the
    load generator ([testutil], [Benchmark]) are left out: they hold no logic of
    the program, or only exercise it.  Contexts are not passed where a call only uses them to reach its
    store.  Goroutines appear only where a connection is closed when a context is
    done ([Gateway]). *)
From stdpp Require Export prelude gmap strings list numbers.
From Stdlib Require Export Strings.Byte ZArith Lia.
From Stdlib Require Export Init.Byte.

#[global] Set Default Goal Selector "!".
#[export] Set Warnings "-clear-no-such-hyp".

(** * Notations, hint databases *)

Declare Scope go_scope.
Delimit Scope go_scope with go.

Create HintDb go discriminated.
Create Rewrite HintDb go_simp.

(** * Bytes and strings *)

Abbreviation byte := Init.Byte.byte.
(** A Go [string] or the contents of a Go [[]byte]. *)
Abbreviation bytes := (list byte).

#[global] Instance byte_eq_dec : EqDecision byte := Byte.byte_eq_dec.

#[global] Program Instance byte_countable : Countable byte :=
  {| encode b := encode (Byte.to_N b); decode p := decode p ≫= Byte.of_N |}.
Next Obligation.
  intros b; cbn -[encode decode]. rewrite decode_encode. cbn. apply Byte.of_to_N.
Qed.

(** The bytes of a string literal. *)
Definition str (s : string) : bytes := String.list_byte_of_string s.
Arguments str s%_string_scope.

Definition Z_of_byte (b : byte) : Z := Z.of_N (Byte.to_N b).

(** The conversion [uint8(z)]: the low eight bits. *)
Definition byte_of_Z (z : Z) : byte :=
  match Byte.of_N (Z.to_N (z mod 256)) with
  | Some b => b
  | None => x00
  end.

(** * Machine integers *)

Definition uint64 (z : Z) : Z := z mod 2 ^ 64.
(** Two's complement reinterpretation at width [w]. *)
Definition signed (w z : Z) : Z := (z + 2 ^ (w - 1)) mod 2 ^ w - 2 ^ (w - 1).
Definition int64 (z : Z) : Z := signed 64 z.
Definition int32 (z : Z) : Z := signed 32 z.

(** * Errors, panics, effects *)

(** Go error values.  [Sentinel] is a registered or package-level error,
    compared by identity; [ErrorString] is [errors.New] or [fmt.Errorf];
    [Wrapped] keeps the error it wraps, which [errors.Is] looks through;
    [RuntimeError] is the value of a run-time panic. *)
Inductive error :=
| Sentinel (codespace name : string)
| ErrorString (msg : string)
| Wrapped (msg : string) (inner : error)
| RuntimeError (msg : string).

Arguments Sentinel (codespace name)%_string_scope.
Arguments ErrorString msg%_string_scope.
Arguments Wrapped msg%_string_scope inner.
Arguments RuntimeError msg%_string_scope.

#[global] Instance error_eq_dec : EqDecision error.
Proof. solve_decision. Defined.

(** [errors.Is]: the target occurs in the chain of wrapped errors. *)
Fixpoint errors_Is (err target : error) : bool :=
  bool_decide (err = target) ||
  match err with
  | Wrapped _ inner => errors_Is inner target
  | _ => false
  end.

(** The outcome of a Go call: a value, a non-nil error, or a panic. *)
Inductive outcome (A : Type) :=
| Ok (a : A)
| Err (e : error)
| Panic (v : error).
Arguments Ok {A} a.
Arguments Err {A} e.
Arguments Panic {A} v.

#[global] Instance outcome_ret : MRet outcome := fun A a => Ok a.
#[global] Instance outcome_bind : MBind outcome := fun A B f m =>
  match m with
  | Ok a => f a
  | Err e => Err e
  | Panic v => Panic v
  end.
#[global] Instance outcome_eq_dec `{EqDecision A} : EqDecision (outcome A).
Proof. solve_decision. Defined.

(** [is_Ok m]: the call returned without error and without panic. *)
Definition is_Ok {A} (m : outcome A) : bool :=
  match m with Ok _ => true | _ => false end.

Definition not_panic {A} (m : outcome A) : Prop :=
  match m with Panic _ => False | _ => True end.

(** A computation over a mutable state [S]: the state it leaves is kept
    whether it returns, fails or panics, as a Go function leaves its store. *)
Definition GoM (S A : Type) : Type := S → outcome A * S.

#[global] Instance gom_ret {S} : MRet (GoM S) := fun A a s => (Ok a, s).
#[global] Instance gom_bind {S} : MBind (GoM S) := fun A B f m s =>
  match m s with
  | (Ok a, s') => f a s'
  | (Err e, s') => (Err e, s')
  | (Panic v, s') => (Panic v, s')
  end.

Definition fail {S A} (e : error) : GoM S A := fun s => (Err e, s).
Definition panic {S A} (v : error) : GoM S A := fun s => (Panic v, s).
Definition lift {S A} (m : outcome A) : GoM S A := fun s => (m, s).
(** A call that only reads the state. *)
Definition reads {S A} (f : S → outcome A) : GoM S A := fun s => (f s, s).

(** An assignment to the state. *)
Definition modify {S} (f : S → S) : GoM S unit := fun s => (Ok tt, f s).
(** A computation on a part of the state. *)
Definition zoom {S P A} (get : S → P) (put : P → S → S) (m : GoM P A) : GoM S A :=
  fun s => let '(r, p) := m (get s) in (r, put p s).

(** [x, err := m; if err != nil { h } ; k]: panics propagate. *)
Definition catch {S A B} (m : GoM S A) (h : error → GoM S B) (k : A → GoM S B) : GoM S B :=
  fun s => match m s with
           | (Ok a, s') => k a s'
           | (Err e, s') => h e s'
           | (Panic v, s') => (Panic v, s')
           end.

(** [for _, x := range l], with what the body accumulates. *)
Fixpoint foldM {S A X} (f : A → X → GoM S A) (l : list X) (a : A) : GoM S A :=
  match l with
  | [] => mret a
  | x :: l => a' ← f a x; foldM f l a'
  end.

Definition catch_o {A B} (m : outcome A) (h : error → outcome B) (k : A → outcome B) : outcome B :=
  match m with
  | Ok a => k a
  | Err e => h e
  | Panic v => Panic v
  end.

Notation "'let?' x ':=' m 'else' e '=>' h 'in' k" :=
  (catch m (fun e => h) (fun x => k))
  (at level 10, x name, e name, m at level 100, h at level 200, k at level 200,
   format "'let?'  x  ':='  m  'else'  e  '=>'  h  'in' '//' k") : go_scope.
Notation "'let!' x ':=' m 'else' e '=>' h 'in' k" :=
  (catch_o m (fun e => h) (fun x => k))
  (at level 10, x name, e name, m at level 100, h at level 200, k at level 200,
   format "'let!'  x  ':='  m  'else'  e  '=>'  h  'in' '//' k") : go_scope.

(** The value of a result, when there is one. *)
Definition ok_value {A} (r : outcome A) : option A := match r with Ok a => Some a | _ => None end.

Lemma ok_value_Some {A} (r : outcome A) a : ok_value r = Some a ↔ r = Ok a.
Proof. destruct r; cbn; naive_solver. Qed.

(** * Slices *)

(** A Go slice: nil, or the elements in range and the spare elements of the
    backing array after them, which reslicing can reach up to the capacity. *)
Inductive slice (A : Type) :=
| NilSlice
| MkSlice (elems spare : list A).
Arguments NilSlice {A}.
Arguments MkSlice {A} elems spare.

#[global] Instance slice_eq_dec `{EqDecision A} : EqDecision (slice A).
Proof. solve_decision. Defined.

Definition elems {A} (s : slice A) : list A :=
  match s with NilSlice => [] | MkSlice l _ => l end.
Definition spare {A} (s : slice A) : list A :=
  match s with NilSlice => [] | MkSlice _ l => l end.
Definition len {A} (s : slice A) : nat := length (elems s).
Definition cap {A} (s : slice A) : nat := length (elems s) + length (spare s).
(** A slice literal or a freshly made slice: no spare capacity. *)
Definition mk {A} (l : list A) : slice A := MkSlice l [].

(** [s[:n]]: bounded by the capacity, not by the length. *)
Definition reslice {A} (s : slice A) (n : nat) : outcome (slice A) :=
  if decide (n ≤ cap s) then
    match s with
    | NilSlice => Ok NilSlice
    | MkSlice l r => Ok (MkSlice (take n (l ++ r)) (drop n (l ++ r)))
    end
  else Panic (RuntimeError "slice bounds out of range").

(** * Standard-library helpers on strings *)

(** [strings.CutPrefix]. *)
Definition CutPrefix (s prefix : bytes) : bytes * bool :=
  if decide (take (length prefix) s = prefix) then (drop (length prefix) s, true)
  else (s, false).

Fixpoint trim_left (cutset s : bytes) : bytes :=
  match s with
  | c :: s' => if decide (c ∈ cutset) then trim_left cutset s' else s
  | [] => []
  end.

(** [strings.Trim] with an ASCII cutset: every leading and trailing byte that
    occurs in the cutset goes. *)
Definition Trim (s cutset : bytes) : bytes :=
  rev (trim_left cutset (rev (trim_left cutset s))).

(** [bytes.Equal]: nil and empty are equal. *)
Definition bytes_Equal (a b : bytes) : bool := bool_decide (a = b).

(** [strconv.ParseUint(s, 10, 64)]: the value comes with the error, 0 for a
    syntax error and the largest value for a range error. *)
Definition ErrSyntax : error := Sentinel "strconv" "invalid syntax".
Definition ErrRange : error := Sentinel "strconv" "value out of range".

Fixpoint parse_uint_loop (n : Z) (s : bytes) : Z * option error :=
  match s with
  | [] => (n, None)
  | c :: s' =>
      let d := (Z_of_byte c - 48)%Z in
      if ((0 <=? d)%Z && (d <=? 9)%Z) then
        let n1 := (n * 10 + d)%Z in
        if (n1 <? 2 ^ 64)%Z then parse_uint_loop n1 s' else ((2 ^ 64 - 1)%Z, Some ErrRange)
      else (0%Z, Some ErrSyntax)
  end.

Definition ParseUint (s : bytes) : Z * option error :=
  match s with
  | [] => (0%Z, Some ErrSyntax)
  | _ => parse_uint_loop 0 s
  end.

(** [strconv.Itoa] on non-negative numbers, and on all integers. *)
Fixpoint digits_loop (fuel : nat) (n : Z) (acc : bytes) : bytes :=
  match fuel with
  | O => acc
  | S f =>
      let acc' := byte_of_Z (48 + n mod 10) :: acc in
      if (n / 10 =? 0)%Z then acc' else digits_loop f (n / 10) acc'
  end.

Definition Itoa (n : Z) : bytes :=
  if (n <? 0)%Z then "-"%byte :: digits_loop (S (Z.to_nat (Z.log2 (- n)))) (- n) []
  else digits_loop (S (Z.to_nat (Z.log2 n))) n [].

(** [strings.Split] on a one-byte separator. *)
Fixpoint Split (sep : byte) (s : bytes) : list bytes :=
  match s with
  | [] => [[]]
  | c :: s' =>
      if decide (c = sep) then [] :: Split sep s'
      else match Split sep s' with
           | w :: ws => (c :: w) :: ws
           | [] => [[c]]
           end
  end.

(** * Tactics *)

(** [lia] reasons about division and remainder by constants. *)
Ltac Zify.zify_post_hook ::= Z.to_euclidean_division_equations.

(** Evaluate the literal powers of two of the goal and the hypotheses, which
    lets [lia] see the moduli as constants. *)
Ltac zpow :=
  repeat match goal with
  | |- context [(2 ^ Zpos ?n)%Z] =>
      let v := eval vm_compute in (2 ^ Zpos n)%Z in change (2 ^ Zpos n)%Z with v
  | H : context [(2 ^ Zpos ?n)%Z] |- _ =>
      let v := eval vm_compute in (2 ^ Zpos n)%Z in change (2 ^ Zpos n)%Z with v in H
  end.

(** * Generic lemmas *)

Lemma Z_of_byte_range b : (0 ≤ Z_of_byte b < 256)%Z.
Proof. unfold Z_of_byte. pose proof (Byte.to_N_bounded b). lia. Qed.

Lemma byte_of_Z_of_byte b : byte_of_Z (Z_of_byte b) = b.
Proof.
  unfold byte_of_Z. rewrite Z.mod_small by apply Z_of_byte_range.
  unfold Z_of_byte. by rewrite N2Z.id, Byte.of_to_N.
Qed.

Lemma Z_of_byte_of_Z z : Z_of_byte (byte_of_Z z) = (z mod 256)%Z.
Proof.
  unfold byte_of_Z. pose proof (Z.mod_pos_bound z 256 ltac:(lia)) as Hb.
  destruct (Byte.of_N _) as [b|] eqn:E.
  - apply Byte.to_of_N in E. unfold Z_of_byte. rewrite E. lia.
  - apply Byte.of_N_None_iff in E. lia.
Qed.

#[global] Instance Z_of_byte_inj : Inj (=) (=) Z_of_byte.
Proof. intros a b E. by rewrite <-(byte_of_Z_of_byte a), <-(byte_of_Z_of_byte b), E. Qed.

(** Bitwise or of disjoint bit ranges is addition: the shape of every
    multi-byte assembly in the code. *)
Lemma lor_shiftl_add a b n :
  (0 ≤ n)%Z → (0 ≤ b < 2 ^ n)%Z → Z.lor (Z.shiftl a n) b = (a * 2 ^ n + b)%Z.
Proof.
  intros Hn Hb. rewrite <-Z.shiftl_mul_pow2 by done.
  rewrite Z.add_nocarry_lxor, Z.lxor_lor; try done;
    apply Z.bits_inj'; intros i Hi; rewrite Z.land_spec, Z.bits_0;
    (destruct (decide (i < n)%Z);
      [ by rewrite Z.shiftl_spec_low by lia
      | rewrite <-(Z.mod_small b (2 ^ n)), Z.mod_pow2_bits_high by lia; apply andb_false_r ]).
Qed.

Lemma land_ones_mod a n : (0 ≤ n)%Z → Z.land a (Z.ones n) = (a mod 2 ^ n)%Z.
Proof. apply Z.land_ones. Qed.

Lemma shiftr_div a n : (0 ≤ n)%Z → Z.shiftr a n = (a / 2 ^ n)%Z.
Proof. apply Z.shiftr_div_pow2. Qed.

Lemma uint64_small z : (0 ≤ z < 2 ^ 64)%Z → uint64 z = z.
Proof. apply Z.mod_small. Qed.

Lemma int64_small z : (- 2 ^ 63 ≤ z < 2 ^ 63)%Z → int64 z = z.
Proof. intros H. unfold int64, signed. rewrite Z.mod_small; lia. Qed.

Lemma int32_small z : (- 2 ^ 31 ≤ z < 2 ^ 31)%Z → int32 z = z.
Proof. intros H. unfold int32, signed. rewrite Z.mod_small; lia. Qed.

Lemma uint64_range z : (0 ≤ uint64 z < 2 ^ 64)%Z.
Proof. apply Z.mod_pos_bound. lia. Qed.

Lemma int64_range z : (- 2 ^ 63 ≤ int64 z < 2 ^ 63)%Z.
Proof.
  unfold int64, signed. pose proof (Z.mod_pos_bound (z + 2 ^ (64 - 1)) (2 ^ 64)). lia.
Qed.

(** ** Trimming *)

Lemma trim_left_stop cutset c s : c ∉ cutset → trim_left cutset (c :: s) = c :: s.
Proof. intros H. cbn. by rewrite decide_False. Qed.

Lemma trim_left_app cutset p s :
  Forall (fun c => c ∈ cutset) p → trim_left cutset (p ++ s) = trim_left cutset s.
Proof. induction 1; cbn; [done|]. by rewrite decide_True. Qed.

(** A string framed by cutset bytes, whose body starts and ends outside the
    cutset, is trimmed to its body. *)
Lemma Trim_frame cutset p body q :
  Forall (fun c => c ∈ cutset) p → Forall (fun c => c ∈ cutset) q →
  (∃ a m, body = a :: m ∧ a ∉ cutset) → (∃ m z, body = m ++ [z] ∧ z ∉ cutset) →
  Trim (p ++ body ++ q) cutset = body.
Proof.
  intros Hp Hq (a & m & Ha & Hna) (m' & z & Hz & Hnz). unfold Trim.
  rewrite trim_left_app by done. rewrite Ha. cbn [app].
  rewrite trim_left_stop by done.
  change (a :: m ++ q) with ((a :: m) ++ q). rewrite <-Ha, rev_app_distr.
  rewrite trim_left_app by (by apply Forall_rev).
  rewrite Hz, rev_app_distr. cbn [rev app]. rewrite trim_left_stop by done.
  cbn [rev]. by rewrite rev_involutive.
Qed.

Lemma CutPrefix_app p s : CutPrefix (p ++ s) p = (s, true).
Proof.
  unfold CutPrefix. rewrite take_app_length, decide_True by done. by rewrite drop_app_length.
Qed.

Lemma bytes_Equal_true a b : bytes_Equal a b = true ↔ a = b.
Proof. apply bool_decide_eq_true. Qed.

Lemma bytes_Equal_refl a : bytes_Equal a a = true.
Proof. by apply bytes_Equal_true. Qed.
#[export] Hint Rewrite bytes_Equal_refl CutPrefix_app : go_simp.

(** ** Runs that return *)

Section Runs.
Context {S : Type}.
Implicit Types s : S.

Lemma ret_Ok {A} (x y : A) s s' : (mret x : GoM S A) s = (Ok y, s') ↔ x = y ∧ s = s'.
Proof. unfold mret, gom_ret. split; [by intros [= -> ->]|by intros [-> ->]]. Qed.

Lemma bind_Ok {A B} (m : GoM S A) (f : A → GoM S B) s y s' :
  (m ≫= f) s = (Ok y, s') ↔ ∃ x s1, m s = (Ok x, s1) ∧ f x s1 = (Ok y, s').
Proof.
  unfold mbind, gom_bind. destruct (m s) as [[x|e|v] s1].
  - split; [by eauto|]. by intros (x' & s1' & [= <- <-] & ?).
  - split; [done|]. by intros (? & ? & ? & _).
  - split; [done|]. by intros (? & ? & ? & _).
Qed.

Lemma lift_Ok {A} (m : outcome A) s y s' : (lift m : GoM S A) s = (Ok y, s') ↔ m = Ok y ∧ s = s'.
Proof. unfold lift. split; [by intros [= -> ->]|by intros [-> ->]]. Qed.

Lemma reads_Ok {A} (f : S → outcome A) s y s' : reads f s = (Ok y, s') ↔ f s = Ok y ∧ s = s'.
Proof. unfold reads. split; [by intros [= -> ->]|by intros [-> ->]]. Qed.

(** An error handler that panics or fails never returns. *)
Lemma catch_Ok {A B} (m : GoM S A) h (k : A → GoM S B) s y s' :
  (∀ e t, (h e t).1 ≠ Ok y) →
  catch m h k s = (Ok y, s') ↔ ∃ x s1, m s = (Ok x, s1) ∧ k x s1 = (Ok y, s').
Proof.
  intros Hh. unfold catch. destruct (m s) as [[x|e|v] s1].
  - split; [by eauto|]. by intros (x' & s1' & [= <- <-] & ?).
  - split; [|by intros (? & ? & ? & _)]. intros E. destruct (Hh e s1). by rewrite E.
  - split; [done|]. by intros (? & ? & ? & _).
Qed.

(** A loop whose body does the same in any order of two elements does the same
    in any order of all: what a [range] over a map relies on. *)
Lemma foldM_permute {X} (f : X → GoM S unit) l l' :
  (∀ x y t, (f x ;; f y) t = (f y ;; f x) t) → l ≡ₚ l' →
  ∀ s, foldM (λ _ x, f x) l tt s = foldM (λ _ x, f x) l' tt s.
Proof.
  intros Hc. induction 1 as [|x l l' _ IH|x y l|l1 l2 l3 _ IH1 _ IH2]; intros s; [done| | |].
  - cbn [foldM]. unfold mbind, gom_bind. destruct (f x s) as [[[]|?|?] s1]; [apply IH|done..].
  - specialize (Hc y x s). revert Hc. cbn [foldM]. unfold mbind, gom_bind.
    destruct (f y s) as [[[]|?|?] s1], (f x s) as [[[]|?|?] s2];
      try destruct (f x s1) as [[[]|?|?] ?]; try destruct (f y s2) as [[[]|?|?] ?];
      intros E; congruence.
  - by rewrite IH1.
Qed.
End Runs.

(** ** Decimal numbers *)

Definition is_decimal (c : byte) : Prop := (48 ≤ Z_of_byte c ≤ 57)%Z.

Definition digits_value (s : bytes) (n : Z) : Z :=
  foldl (λ n c, n * 10 + (Z_of_byte c - 48))%Z n s.

Lemma digits_loop_value fuel n acc :
  (0 ≤ n < 2 ^ Z.of_nat fuel)%Z → (0 < fuel)%nat →
  digits_value (digits_loop fuel n acc) 0 = digits_value acc n.
Proof.
  revert n acc. induction fuel as [|fuel IH]; intros n acc Hn Hf; [lia|]. cbn [digits_loop].
  assert (Hd : ∀ a, digits_value (byte_of_Z (48 + n mod 10) :: acc) a = digits_value acc (a * 10 + n mod 10)).
  { intros a. unfold digits_value. cbn [foldl]. f_equal. rewrite Z_of_byte_of_Z. lia. }
  rewrite Nat2Z.inj_succ, Z.pow_succ_r in Hn by lia.
  destruct (Z.eqb_spec (n / 10) 0) as [E|E].
  - rewrite Hd. f_equal. lia.
  - rewrite IH, Hd; [f_equal; lia|lia|]. destruct fuel; [|lia]. cbn in Hn. lia.
Qed.

Lemma digits_loop_decimal fuel n acc :
  (0 ≤ n)%Z → (0 < fuel)%nat → Forall is_decimal acc →
  digits_loop fuel n acc ≠ [] ∧ Forall is_decimal (digits_loop fuel n acc).
Proof.
  revert n acc. induction fuel as [|fuel IH]; intros n acc Hn Hf Ha; [lia|]. cbn [digits_loop].
  assert (Hd : Forall is_decimal (byte_of_Z (48 + n mod 10) :: acc)).
  { constructor; [|done]. unfold is_decimal. rewrite Z_of_byte_of_Z. lia. }
  destruct (Z.eqb_spec (n / 10) 0) as [E|E]; [done|].
  destruct fuel as [|fuel]; [done|]. apply IH; [lia|lia|done].
Qed.

Lemma Itoa_value n : (0 ≤ n)%Z → digits_value (Itoa n) 0 = n.
Proof.
  intros Hn. unfold Itoa. destruct (Z.ltb_spec n 0); [lia|].
  rewrite digits_loop_value; [done| |lia]. split; [done|].
  rewrite Nat2Z.inj_succ, Z2Nat.id by apply Z.log2_nonneg.
  destruct (decide (n = 0)%Z) as [->|?]; [done|]. apply Z.log2_spec. lia.
Qed.

Lemma Itoa_inj a b : (0 ≤ a)%Z → (0 ≤ b)%Z → Itoa a = Itoa b → a = b.
Proof. intros Ha Hb E. by rewrite <-(Itoa_value a), E, Itoa_value. Qed.

Lemma Itoa_decimal n : (0 ≤ n)%Z → Itoa n ≠ [] ∧ Forall is_decimal (Itoa n).
Proof.
  intros Hn. unfold Itoa. destruct (Z.ltb_spec n 0); [lia|].
  apply digits_loop_decimal; [done|lia|constructor].
Qed.
