(* ===== verification/Base64.v ===== *)
(** [encoding/base64]: the standard padded alphabet, as [encoding/json] uses
    it for [[]byte] fields.  [EncodeToString], [Decode] (carriage returns and
    line feeds are skipped, trailing data after the padding is an error) and
    [DecodedLen], and the round trip. *)
From S2P Require Import Prelude.

Module Base64.

Definition alphabet : bytes :=
  str "ABCDEFGHIJKLMNOPQRSTUVWXYZabcdefghijklmnopqrstuvwxyz0123456789+/".

Definition pad : byte := "="%byte.

Definition enc_char (z : Z) : byte := nth (Z.to_nat z) alphabet pad.

Fixpoint index_of (c : byte) (l : bytes) (i : Z) : option Z :=
  match l with
  | [] => None
  | d :: l' => if decide (c = d) then Some i else index_of c l' (i + 1)%Z
  end.

Definition dec_char (c : byte) : option Z := index_of c alphabet 0.

(** The four characters of a 24-bit group, and back. *)
Definition enc_group (v : Z) : list byte :=
  [enc_char (Z.land (Z.shiftr v 18) 63); enc_char (Z.land (Z.shiftr v 12) 63);
   enc_char (Z.land (Z.shiftr v 6) 63); enc_char (Z.land v 63)].

Definition group3 (a b c : byte) : Z :=
  Z.lor (Z.shiftl (Z_of_byte a) 16) (Z.lor (Z.shiftl (Z_of_byte b) 8) (Z_of_byte c)).

Fixpoint EncodeToString (s : bytes) : bytes :=
  match s with
  | [] => []
  | [a] => take 2 (enc_group (group3 a x00 x00)) ++ [pad; pad]
  | [a; b] => take 3 (enc_group (group3 a b x00)) ++ [pad]
  | a :: b :: c :: s' => enc_group (group3 a b c) ++ EncodeToString s'
  end.

Definition ungroup (d0 d1 d2 d3 : Z) : list byte :=
  let v := Z.lor (Z.shiftl d0 18)
             (Z.lor (Z.shiftl d1 12) (Z.lor (Z.shiftl d2 6) d3)) in
  [byte_of_Z (Z.shiftr v 16); byte_of_Z (Z.shiftr v 8); byte_of_Z v].

Fixpoint decode_quads (s : bytes) : option bytes :=
  match s with
  | [] => Some []
  | a :: b :: c :: d :: s' =>
      match dec_char a, dec_char b, dec_char c, dec_char d with
      | Some va, Some vb, Some vc, Some vd =>
          r ← decode_quads s'; Some (ungroup va vb vc vd ++ r)
      | Some va, Some vb, Some vc, None =>
          if decide (d = pad ∧ s' = []) then Some (take 2 (ungroup va vb vc 0)) else None
      | Some va, Some vb, None, _ =>
          if decide (c = pad ∧ d = pad ∧ s' = []) then Some (take 1 (ungroup va vb 0 0))
          else None
      | _, _, _, _ => None
      end
  | _ => None
  end.

Definition is_newline (c : byte) : bool := bool_decide (c = x0a ∨ c = x0d).

Definition CorruptInputError : error := ErrorString "illegal base64 data".

Definition Decode (s : bytes) : outcome bytes :=
  match decode_quads (List.filter (fun c => negb (is_newline c)) s) with
  | Some r => Ok r
  | None => Err CorruptInputError
  end.

Definition DecodedLen (n : nat) : nat := n / 4 * 3.

(** ** Round trip *)

Lemma dec_enc_char z : (0 ≤ z < 64)%Z → dec_char (enc_char z) = Some z.
Proof.
  intros H.
  assert (forallb (fun n => bool_decide (dec_char (enc_char (Z.of_nat n)) = Some (Z.of_nat n)))
            (List.seq 0 64) = true) as Hall by (vm_compute; reflexivity).
  rewrite forallb_forall in Hall. specialize (Hall (Z.to_nat z)).
  rewrite Z2Nat.id in Hall by lia. eapply bool_decide_eq_true_1, Hall, in_seq. lia.
Qed.

Lemma sextet_range v : (0 ≤ Z.land v 63 < 64)%Z.
Proof. change 63%Z with (Z.ones 6). rewrite land_ones_mod by lia. apply Z.mod_pos_bound. lia. Qed.

Lemma dec_sextet v : dec_char (enc_char (Z.land v 63)) = Some (Z.land v 63).
Proof. apply dec_enc_char, sextet_range. Qed.

Lemma pad_not_char : dec_char pad = None.
Proof. reflexivity. Qed.

Lemma group3_eq a b c :
  group3 a b c = (Z_of_byte a * 65536 + (Z_of_byte b * 256 + Z_of_byte c))%Z.
Proof.
  unfold group3. pose proof (Z_of_byte_range b). pose proof (Z_of_byte_range c).
  rewrite (lor_shiftl_add (Z_of_byte b) _ 8) by lia.
  rewrite (lor_shiftl_add (Z_of_byte a) _ 16) by lia. lia.
Qed.

Lemma ungroup_group v :
  (0 ≤ v < 2 ^ 24)%Z →
  ungroup (Z.land (Z.shiftr v 18) 63) (Z.land (Z.shiftr v 12) 63)
    (Z.land (Z.shiftr v 6) 63) (Z.land v 63)
  = [byte_of_Z (v / 65536); byte_of_Z (v / 256); byte_of_Z v].
Proof.
  intros Hv. unfold ungroup. change 63%Z with (Z.ones 6).
  rewrite !land_ones_mod, !shiftr_div by lia. zpow.
  rewrite (lor_shiftl_add _ _ 6), (lor_shiftl_add _ _ 12), (lor_shiftl_add _ _ 18)
    by (zpow; lia).
  zpow. repeat f_equal; lia.
Qed.

Lemma byte_of_Z_eq z b : (z mod 256 = Z_of_byte b)%Z → byte_of_Z z = b.
Proof. intros H. apply (inj Z_of_byte). by rewrite Z_of_byte_of_Z. Qed.

Lemma ungroup_bytes a b c :
  ungroup (Z.land (Z.shiftr (group3 a b c) 18) 63) (Z.land (Z.shiftr (group3 a b c) 12) 63)
    (Z.land (Z.shiftr (group3 a b c) 6) 63) (Z.land (group3 a b c) 63) = [a; b; c].
Proof.
  pose proof (Z_of_byte_range a). pose proof (Z_of_byte_range b). pose proof (Z_of_byte_range c).
  rewrite group3_eq, ungroup_group by lia. repeat f_equal; apply byte_of_Z_eq; lia.
Qed.

Lemma low_bits_0 v n : (0 ≤ n)%Z → (v mod 2 ^ n = 0)%Z → Z.land v (Z.ones n) = 0%Z.
Proof. intros. by rewrite land_ones_mod. Qed.

Lemma enc_group_not_newline v c : c ∈ enc_group v → is_newline c = false.
Proof.
  assert (∀ z, (0 ≤ z < 64)%Z → is_newline (enc_char z) = false) as Hc.
  { intros z Hz. apply bool_decide_eq_false. intros Hnl.
    pose proof (dec_enc_char z Hz) as Hd. destruct Hnl as [E|E]; rewrite E in Hd; discriminate. }
  unfold enc_group. intros Hin. set_unfold in Hin.
  destruct_or! Hin; subst; apply Hc, sextet_range.
Qed.

Lemma decode_quads_encode s : decode_quads (EncodeToString s) = Some s.
Proof.
  induction s as [s IH] using (induction_ltof1 _ (@length byte)). unfold ltof in IH.
  destruct s as [|a [|b [|c s']]]; [reflexivity| | |].
  - cbn -[Z.land Z.shiftr Z.shiftl Z.lor group3 dec_char ungroup enc_char pad].
    rewrite !dec_sextet, pad_not_char, decide_True by done.
    pose proof (ungroup_bytes a x00 x00) as E.
    rewrite group3_eq in *. change (Z_of_byte x00) with 0%Z in *.
    change 63%Z with (Z.ones 6) in *.
    rewrite (low_bits_0 (Z.shiftr (_ + (0 * _ + 0)) 6) 6 ltac:(lia)) in E
      by (rewrite shiftr_div by lia; zpow; lia).
    rewrite (low_bits_0 (_ + (0 * _ + 0)) 6 ltac:(lia)) in E by (zpow; lia). by rewrite E.
  - cbn -[Z.land Z.shiftr Z.shiftl Z.lor group3 dec_char ungroup enc_char pad].
    rewrite !dec_sextet, pad_not_char, decide_True by done.
    pose proof (ungroup_bytes a b x00) as E.
    rewrite group3_eq in *. change (Z_of_byte x00) with 0%Z in *.
    change 63%Z with (Z.ones 6) in *.
    rewrite (low_bits_0 (_ + (_ + 0)) 6 ltac:(lia)) in E by (zpow; lia). by rewrite E.
  - cbn -[Z.land Z.shiftr Z.shiftl Z.lor group3 dec_char ungroup enc_char pad].
    rewrite !dec_sextet, IH, ungroup_bytes by (cbn; lia). done.
Qed.

Lemma EncodeToString_chars s c :
  c ∈ EncodeToString s → c = pad ∨ ∃ z, (0 ≤ z < 64)%Z ∧ c = enc_char z.
Proof.
  induction s as [s IH] using (induction_ltof1 _ (@length byte)). unfold ltof in IH.
  assert (∀ v k d, d ∈ take k (enc_group v) → ∃ z, (0 ≤ z < 64)%Z ∧ d = enc_char z) as Hg.
  { intros v k d Hd%subseteq_take.
    unfold enc_group in Hd. set_unfold in Hd.
    destruct_or! Hd; subst; eexists; (split; [apply sextet_range|done]). }
  destruct s as [|x [|y [|w s']]]; cbn -[enc_group group3 take].
  - by intros ?%not_elem_of_nil.
  - rewrite elem_of_app. intros [Hc|Hc]; [right; eauto|]. left.
    by repeat (apply elem_of_cons in Hc as [Hc|Hc]; [done|]); apply not_elem_of_nil in Hc.
  - rewrite elem_of_app. intros [Hc|Hc]; [right; eauto|]. left.
    by repeat (apply elem_of_cons in Hc as [Hc|Hc]; [done|]); apply not_elem_of_nil in Hc.
  - rewrite elem_of_app. intros [Hc|Hc]; [right|apply (IH s'); [cbn; lia|done]].
    apply (Hg (group3 x y w) 4). by rewrite take_ge by (cbn; lia).
Qed.

Lemma filter_newline_id (s : bytes) :
  (∀ c, c ∈ s → is_newline c = false) → List.filter (fun c => negb (is_newline c)) s = s.
Proof.
  induction s as [|c s IH]; intros H; cbn; [done|].
  rewrite H by set_solver. cbn. rewrite IH; [done|]. set_solver.
Qed.

(** Decoding what was encoded gives the bytes back. *)
Lemma Decode_EncodeToString s : Decode (EncodeToString s) = Ok s.
Proof.
  unfold Decode. rewrite filter_newline_id, decode_quads_encode; [done|].
  intros c [->|(z & Hz & ->)]%EncodeToString_chars; [reflexivity|].
  apply (enc_group_not_newline (Z.shiftl z 0)). rewrite Z.shiftl_0_r. unfold enc_group.
  change 63%Z with (Z.ones 6). rewrite (land_ones_mod z), Z.mod_small by (zpow; lia).
  rewrite !elem_of_cons. auto.
Qed.

Lemma EncodeToString_length s : length (EncodeToString s) = (length s + 2) / 3 * 4.
Proof.
  induction s as [s IH] using (induction_ltof1 _ (@length byte)). unfold ltof in IH.
  destruct s as [|a [|b [|c s']]]; [reflexivity..|].
  cbn -[Nat.div Nat.mul enc_group]. rewrite length_app, IH by (cbn; lia).
  change (length (enc_group _)) with 4.
  replace (S (S (S (length s' + 2)))) with (length s' + 2 + 1 * 3) by lia.
  rewrite Nat.div_add by lia. lia.
Qed.

End Base64.
