(* ===== verification/Json.v ===== *)
(** [encoding/json] as far as the program uses it: the validating scanner
    (with its nesting limit), string unquoting with UTF-8 and UTF-16 repair,
    field matching by exact and by case-folded name, decoding into structs,
    byte slices and slices of structs (type errors are saved and decoding goes
    on), and the compact encoder, with the print/parse round trip. *)
From S2P Require Import Prelude Base64.

Module Json.

#[local] Set Warnings "-register-all".

(** ** Syntax *)

(** A validated document; strings keep their raw bytes, between the quotes. *)
Inductive json :=
| JNull
| JBool (b : bool)
| JNum (raw : bytes)
| JStr (raw : bytes)
| JArr (l : list json)
| JObj (l : list (bytes * json)).

Definition dquote : byte := x22.
Definition backslash : byte := x5c.

(** The input after a given first byte. *)
Definition eat (c : byte) (s : bytes) : option bytes :=
  match s with
  | d :: s' => if decide (d = c) then Some s' else None
  | [] => None
  end.

Definition is_one_of (l : bytes) (c : byte) : bool := existsb (Byte.eqb c) l.

Definition is_space : byte → bool := is_one_of [x20; x09; x0d; x0a].

Definition in_range (lo hi : Z) (c : byte) : bool :=
  (lo <=? Z_of_byte c)%Z && (Z_of_byte c <=? hi)%Z.

Definition is_digit (c : byte) : bool := in_range 48 57 c.

Definition hex_val (c : byte) : option Z :=
  let z := Z_of_byte c in
  if in_range 48 57 c then Some (z - 48)%Z
  else if in_range 97 102 c then Some (z - 87)%Z
  else if in_range 65 70 c then Some (z - 55)%Z
  else None.

Definition is_hex (c : byte) : bool := match hex_val c with Some _ => true | None => false end.

Definition is_escape : byte → bool :=
  is_one_of ["b"; "f"; "n"; "r"; "t"; backslash; "/"; dquote]%byte.

(** [maxNestingDepth] of the scanner. *)
Definition maxNestingDepth : N := 10000.

Fixpoint skip_space (s : bytes) : bytes :=
  match s with
  | c :: s' => if is_space c then skip_space s' else s
  | [] => []
  end.

(** The rest of a string literal after its opening quote. *)
Fixpoint scan_string (s : bytes) : option (bytes * bytes) :=
  match s with
  | [] => None
  | c :: s1 =>
      if decide (c = dquote) then Some ([], s1)
      else if decide (c = backslash) then
        match s1 with
        | [] => None
        | e :: s2 =>
            if is_escape e then
              '(r, rest) ← scan_string s2; Some (c :: e :: r, rest)
            else if decide (e = "u"%byte) then
              match s2 with
              | h1 :: h2 :: h3 :: h4 :: s3 =>
                  if is_hex h1 && is_hex h2 && is_hex h3 && is_hex h4 then
                    '(r, rest) ← scan_string s3;
                    Some (c :: e :: h1 :: h2 :: h3 :: h4 :: r, rest)
                  else None
              | _ => None
              end
            else None
        end
      else if (Z_of_byte c <? 32)%Z then None
      else '(r, rest) ← scan_string s1; Some (c :: r, rest)
  end.

Fixpoint scan_digits (s : bytes) : bytes * bytes :=
  match s with
  | c :: s' => if is_digit c then let '(d, rest) := scan_digits s' in (c :: d, rest) else ([], s)
  | [] => ([], [])
  end.

(** At least one digit. *)
Definition scan_digits1 (s : bytes) : option (bytes * bytes) :=
  match scan_digits s with
  | ([], _) => None
  | r => Some r
  end.

Definition scan_fraction (s : bytes) : option (bytes * bytes) :=
  match eat "." s with
  | Some s' => '(d, rest) ← scan_digits1 s'; Some ("."%byte :: d, rest)
  | None => Some ([], s)
  end.

(** An optional sign out of a set. *)
Definition scan_sign (signs s : bytes) : bytes * bytes :=
  match s with
  | c :: s' => if is_one_of signs c then ([c], s') else ([], s)
  | [] => ([], [])
  end.

Definition scan_exponent (s : bytes) : option (bytes * bytes) :=
  match s with
  | c :: s' =>
      if is_one_of ["e"; "E"]%byte c then
        let '(sg, s'') := scan_sign ["+"; "-"]%byte s' in
        '(d, rest) ← scan_digits1 s''; Some (c :: sg ++ d, rest)
      else Some ([], s)
  | [] => Some ([], [])
  end.

Definition scan_number (s : bytes) : option (bytes * bytes) :=
  let '(sg, s1) := scan_sign ["-"%byte] s in
  '(ip, s2) ← match eat "0" s1 with
              | Some s' => Some (["0"%byte], s')
              | None => scan_digits1 s1
              end;
  '(fr, s3) ← scan_fraction s2;
  '(ex, s4) ← scan_exponent s3;
  Some (sg ++ ip ++ fr ++ ex, s4).

Definition strip (p s : bytes) : option bytes :=
  let '(rest, ok) := CutPrefix s p in if ok then Some rest else None.

(** One value, after leading white space, and the input after it.  [depth] is
    the number of enclosing arrays and objects.  Every call consumes input, so
    a fuel above the length of the input is never exhausted. *)
Fixpoint parse_value (fuel : nat) (depth : N) (s : bytes) : option (json * bytes) :=
  match fuel with
  | O => None
  | S f =>
      match skip_space s with
      | [] => None
      | c :: s1 =>
          if decide (c = "{"%byte) then
            if (maxNestingDepth <=? depth)%N then None else
            match eat "}" (skip_space s1) with
            | Some s2 => Some (JObj [], s2)
            | None => '(ms, rest) ← parse_members f (depth + 1) s1; Some (JObj ms, rest)
            end
          else if decide (c = "["%byte) then
            if (maxNestingDepth <=? depth)%N then None else
            match eat "]" (skip_space s1) with
            | Some s2 => Some (JArr [], s2)
            | None => '(vs, rest) ← parse_elements f (depth + 1) s1; Some (JArr vs, rest)
            end
          else if decide (c = dquote) then
            '(r, rest) ← scan_string s1; Some (JStr r, rest)
          else if decide (c = "n"%byte) then rest ← strip (str "ull") s1; Some (JNull, rest)
          else if decide (c = "t"%byte) then rest ← strip (str "rue") s1; Some (JBool true, rest)
          else if decide (c = "f"%byte) then rest ← strip (str "alse") s1; Some (JBool false, rest)
          else '(r, rest) ← scan_number (c :: s1); Some (JNum r, rest)
      end
  end
with parse_elements (fuel : nat) (depth : N) (s : bytes) : option (list json * bytes) :=
  match fuel with
  | O => None
  | S f =>
      '(v, s1) ← parse_value f depth s;
      match eat "," (skip_space s1) with
      | Some s2 => '(vs, rest) ← parse_elements f depth s2; Some (v :: vs, rest)
      | None => s2 ← eat "]" (skip_space s1); Some ([v], s2)
      end
  end
with parse_members (fuel : nat) (depth : N) (s : bytes) : option (list (bytes * json) * bytes) :=
  match fuel with
  | O => None
  | S f =>
      s0 ← eat dquote (skip_space s);
      '(k, s1) ← scan_string s0;
      s2 ← eat ":" (skip_space s1);
      '(v, s3) ← parse_value f depth s2;
      match eat "," (skip_space s3) with
      | Some s4 => '(ms, rest) ← parse_members f depth s4; Some ((k, v) :: ms, rest)
      | None => s4 ← eat "}" (skip_space s3); Some ([(k, v)], s4)
      end
  end.

(** A whole document: one value and white space. *)
Definition parse_fuel (s : bytes) : nat := S (2 * length s).
Definition parse (s : bytes) : option json :=
  '(v, rest) ← parse_value (parse_fuel s) 0 s;
  match skip_space rest with [] => Some v | _ => None end.

(** ** Strings *)

(** The width of the valid UTF-8 sequence at the head, or 0. *)
Definition utf8_width (s : bytes) : nat :=
  match s with
  | [] => 0
  | c0 :: s1 =>
      let z := Z_of_byte c0 in
      if (z <? 128)%Z then 1 else
      let cont := in_range 128 191 in
      match s1 with
      | [] => 0
      | c1 :: s2 =>
          if in_range 194 223 c0 then (if cont c1 then 2 else 0) else
          match s2 with
          | [] => 0
          | c2 :: s3 =>
              if in_range 224 239 c0 then
                let lo := if (z =? 224)%Z then 160%Z else 128%Z in
                let hi := if (z =? 237)%Z then 159%Z else 191%Z in
                if in_range lo hi c1 && cont c2 then 3 else 0
              else
              match s3 with
              | [] => 0
              | c3 :: _ =>
                  if in_range 240 244 c0 then
                    let lo := if (z =? 240)%Z then 144%Z else 128%Z in
                    let hi := if (z =? 244)%Z then 143%Z else 191%Z in
                    if in_range lo hi c1 && cont c2 && cont c3 then 4 else 0
                  else 0
              end
          end
      end
  end.

(** [utf8.EncodeRune]. *)
Definition RuneError : bytes := [xef; xbf; xbd].
Definition EncodeRune (r : Z) : bytes :=
  let tail k := byte_of_Z (Z.lor 128 (Z.land (Z.shiftr r k) 63)) in
  if (r <? 128)%Z then [byte_of_Z r]
  else if (r <? 2048)%Z then [byte_of_Z (Z.lor 192 (Z.shiftr r 6)); tail 0%Z]
  else if ((55296 <=? r)%Z && (r <=? 57343)%Z) || (1114111 <? r)%Z then RuneError
  else if (r <? 65536)%Z then [byte_of_Z (Z.lor 224 (Z.shiftr r 12)); tail 6%Z; tail 0%Z]
  else [byte_of_Z (Z.lor 240 (Z.shiftr r 18)); tail 12%Z; tail 6%Z; tail 0%Z].

(** [getu4]: the code unit of a leading [\uXXXX]. *)
Definition getu4 (s : bytes) : option Z :=
  match s with
  | b :: u :: h1 :: h2 :: h3 :: h4 :: _ =>
      guard (b = backslash ∧ u = "u"%byte);;
      a ← hex_val h1; b ← hex_val h2; c ← hex_val h3; d ← hex_val h4;
      Some (((a * 16 + b) * 16 + c) * 16 + d)%Z
  | _ => None
  end.

Definition is_surrogate (r : Z) : bool := (55296 <=? r)%Z && (r <? 57344)%Z.

(** [utf16.DecodeRune], when the pair is valid. *)
Definition surrogate_pair (r1 r2 : Z) : option Z :=
  if ((55296 <=? r1)%Z && (r1 <? 56320)%Z) && ((56320 <=? r2)%Z && (r2 <? 57344)%Z)
  then Some (Z.lor (Z.shiftl (r1 - 55296) 10) (r2 - 56320) + 65536)%Z else None.

Definition unescape (c : byte) : byte :=
  (if decide (c = "b") then x08 else if decide (c = "f") then x0c
   else if decide (c = "n") then x0a else if decide (c = "r") then x0d
   else if decide (c = "t") then x09 else c)%byte.

(** [unquoteBytes] on the raw contents of a validated string literal. *)
Fixpoint unquote_go (fuel : nat) (s : bytes) : bytes :=
  match fuel, s with
  | O, _ | _, [] => []
  | S f, c :: s1 =>
      if decide (c = backslash) then
        match getu4 s with
        | Some r1 =>
            let s6 := drop 6 s in
            if is_surrogate r1 then
              match getu4 s6 ≫= surrogate_pair r1 with
              | Some r => EncodeRune r ++ unquote_go f (drop 6 s6)
              | None => RuneError ++ unquote_go f s6
              end
            else EncodeRune r1 ++ unquote_go f s6
        | None =>
            match s1 with
            | e :: s2 => unescape e :: unquote_go f s2
            | [] => []
            end
        end
      else match utf8_width s with
           | O => RuneError ++ unquote_go f s1
           | n => take n s ++ unquote_go f (drop n s)
           end
  end.

Definition unquote (s : bytes) : bytes := unquote_go (length s) s.

(** [foldName], exact on every name that can fold to ASCII: the long s and
    the Kelvin sign are the only other members of an ASCII letter's orbit. *)
Fixpoint foldName (s : bytes) : bytes :=
  match s with
  | [] => []
  | c :: s1 =>
      let plain := (if in_range 97 122 c then byte_of_Z (Z_of_byte c - 32) else c) :: foldName s1 in
      match s1 with
      | c1 :: s2 =>
          if decide (c = xc5 ∧ c1 = xbf) then "S"%byte :: foldName s2
          else match s2 with
               | c2 :: s3 =>
                   if decide (c = xe2 ∧ c1 = x84 ∧ c2 = xaa) then "K"%byte :: foldName s3
                   else plain
               | [] => plain
               end
      | [] => plain
      end
  end.

(** ** Decoding *)

(** The first type error met is kept; decoding goes on after it. *)
Definition saved := option error.
Definition save (old new : saved) : saved := match old with Some _ => old | None => new end.

Definition SyntaxError : error := ErrorString "json: invalid document".
Definition UnmarshalTypeError : error := ErrorString "json: cannot unmarshal value into Go type".

(** How the runtime grows a slice of elements of some size by one: the new
    capacity is larger than the old one, and otherwise unspecified. *)
Class GoRuntime := {
  grow_cap : nat → nat → nat;
  grow_cap_gt : ∀ size c, c < grow_cap size c
}.

Section Decode.
Context `{!GoRuntime}.

(** [array] on a slice: the existing elements and the spare ones are decoded
    into in place, so what they held shows through a [null] or a missing field. *)
Fixpoint decode_elems {A} (size : nat) (zero : A) (dec : json → A → A * saved)
    (l : list json) (done rest : list A) : (list A * list A) * saved :=
  match l with
  | [] => ((done, rest), None)
  | v :: l' =>
      let rest := match rest with
                  | [] => replicate (grow_cap size (length done) - length done) zero
                  | _ => rest
                  end in
      let '(old, rest') := match rest with a :: r => (a, r) | [] => (zero, []) end in
      let '(a, e) := dec v old in
      let '(r, e') := decode_elems size zero dec l' (done ++ [a]) rest' in
      (r, save e e')
  end.

Definition decode_slice {A} (size : nat) (zero : A) (dec : json → A → A * saved)
    (v : json) (old : slice A) : slice A * saved :=
  match v with
  | JNull => (NilSlice, None)
  | JArr [] => (MkSlice [] [], None)
  | JArr l =>
      let '((done, rest), e) := decode_elems size zero dec l [] (elems old ++ spare old) in
      (MkSlice done rest, e)
  | _ => (old, Some UnmarshalTypeError)
  end.

Definition decode_uint8 (v : json) (old : byte) : byte * saved :=
  match v with
  | JNull => (old, None)
  | JNum raw =>
      match ParseUint raw with
      | (n, None) => if (n <? 256)%Z then (byte_of_Z n, None) else (old, Some UnmarshalTypeError)
      | (_, Some _) => (old, Some UnmarshalTypeError)
      end
  | _ => (old, Some UnmarshalTypeError)
  end.

(** A [[]byte]: base64 text, or an array of numbers. *)
Definition decode_bytes (v : json) (old : slice byte) : slice byte * saved :=
  match v with
  | JStr raw =>
      let s := unquote raw in
      match Base64.Decode s with
      | Ok b => (MkSlice b (replicate (Base64.DecodedLen (length s) - length b) x00), None)
      | Err e | Panic e => (old, Some e)
      end
  | _ => decode_slice 1 x00 decode_uint8 v old
  end.

Definition decode_string (v : json) (old : bytes) : bytes * saved :=
  match v with
  | JNull => (old, None)
  | JStr raw => (unquote raw, None)
  | _ => (old, Some UnmarshalTypeError)
  end.

(** A struct is given by its fields: name and decoder into the struct. *)
Definition fields (T : Type) := list (bytes * (json → T → T * saved)).

Definition find_field {T} (fs : fields T) (key : bytes) : option (json → T → T * saved) :=
  match List.find (fun f => bytes_Equal f.1 key) fs with
  | Some f => Some f.2
  | None => snd <$> List.find (fun f => bytes_Equal (foldName f.1) (foldName key)) fs
  end.

Fixpoint decode_members {T} (fs : fields T) (ms : list (bytes * json)) (t : T) : T * saved :=
  match ms with
  | [] => (t, None)
  | (k, v) :: ms' =>
      let '(t1, e) := match find_field fs (unquote k) with
                      | Some dec => dec v t
                      | None => (t, None)
                      end in
      let '(t2, e') := decode_members fs ms' t1 in
      (t2, save e e')
  end.

Definition decode_struct {T} (fs : fields T) (v : json) (t : T) : T * saved :=
  match v with
  | JNull => (t, None)
  | JObj ms => decode_members fs ms t
  | _ => (t, Some UnmarshalTypeError)
  end.

(** [json.Unmarshal(data, &t)]: nothing is decoded unless all of [data] is a
    valid document; the target is only handed back when no error was saved. *)
Definition Unmarshal {T} (dec : json → T → T * saved) (data : bytes) (t : T) : outcome T :=
  match parse data with
  | None => Err SyntaxError
  | Some v => match dec v t with
              | (t', None) => Ok t'
              | (_, Some e) => Err e
              end
  end.

End Decode.

(** ** Encoding *)

Fixpoint sep_by (sep : bytes) (l : list bytes) : bytes :=
  match l with
  | [] => []
  | [x] => x
  | x :: l' => x ++ sep ++ sep_by sep l'
  end.

(** Compact text of a document, raw strings printed as they are. *)
Fixpoint print (v : json) : bytes :=
  match v with
  | JNull => str "null"
  | JBool true => str "true"
  | JBool false => str "false"
  | JNum raw => raw
  | JStr raw => dquote :: raw ++ [dquote]
  | JArr l => "["%byte :: sep_by (str ",") (map print l) ++ ["]"%byte]
  | JObj ms =>
      "{"%byte :: sep_by (str ",")
        (map (fun m => (dquote :: m.1 ++ [dquote]) ++ ":"%byte :: print m.2) ms) ++ ["}"%byte]
  end.

(** The escaped contents of an encoded string: control characters, quotes,
    backslashes, HTML characters, the two line separators and invalid UTF-8. *)
Definition hex_digit (z : Z) : byte := nth (Z.to_nat z) (str "0123456789abcdef") x00.

Definition u_escape (c : byte) : bytes :=
  backslash :: str "u00" ++ [hex_digit (Z.shiftr (Z_of_byte c) 4); hex_digit (Z.land (Z_of_byte c) 15)].

Definition escape_char (c : byte) : bytes :=
  if is_one_of [backslash; dquote] c then [backslash; c]
  else if decide (c = x08) then backslash :: str "b"
  else if decide (c = x0c) then backslash :: str "f"
  else if decide (c = x0a) then backslash :: str "n"
  else if decide (c = x0d) then backslash :: str "r"
  else if decide (c = x09) then backslash :: str "t"
  else if (Z_of_byte c <? 32)%Z || is_one_of (str "<>&") c then u_escape c
  else [c].

Fixpoint quote_go (fuel : nat) (s : bytes) : bytes :=
  match fuel, s with
  | O, _ | _, [] => []
  | S f, c :: s1 =>
      match utf8_width s with
      | O => backslash :: str "ufffd" ++ quote_go f s1
      | 1 => escape_char c ++ quote_go f s1
      | n =>
          (if decide (take n s = [xe2; x80; xa8]) then backslash :: str "u2028"
           else if decide (take n s = [xe2; x80; xa9]) then backslash :: str "u2029"
           else take n s) ++ quote_go f (drop n s)
      end
  end.

Definition encode_string (s : bytes) : json := JStr (quote_go (length s) s).

(** A [[]byte] field: nil is null, anything else base64 text. *)
Definition encode_bytes (s : slice byte) : json :=
  match s with
  | NilSlice => JNull
  | MkSlice l _ => JStr (Base64.EncodeToString l)
  end.

(** ** The scanner consumes input, and its fuel is always enough *)

Lemma skip_space_length s : length (skip_space s) ≤ length s.
Proof. induction s as [|c s IH]; cbn -[is_space]; [done|]. destruct (is_space c); cbn; lia. Qed.

Lemma scan_string_length s r rest : scan_string s = Some (r, rest) → length rest < length s.
Proof.
  revert r rest. induction s as [s IH] using (induction_ltof1 _ (@length byte)).
  unfold ltof in IH. intros r rest.
  destruct s as [|c s1]; cbn -[is_escape]; [done|]. repeat case_decide; [naive_solver lia| |].
  - destruct s1 as [|e s2]; [done|]. destruct (is_escape e).
    + intros ([r' rest'] & E & [= <- <-])%bind_Some. apply IH in E; cbn; lia.
    + case_decide; [|done]. destruct s2 as [|h1 [|h2 [|h3 [|h4 s3]]]]; try done.
      destruct (_ && _); [|done].
      intros ([r' rest'] & E & [= <- <-])%bind_Some. apply IH in E; cbn; lia.
  - destruct (_ <? _)%Z; [done|].
    intros ([r' rest'] & E & [= <- <-])%bind_Some. apply IH in E; cbn; lia.
Qed.

Lemma scan_digits_length s d rest :
  scan_digits s = (d, rest) → length rest + length d = length s.
Proof.
  revert d rest. induction s as [|c s IH]; cbn; intros d rest; [naive_solver|].
  destruct (is_digit c); [|naive_solver].
  destruct (scan_digits s) as [d' rest']. intros [= <- <-].
  cbn. specialize (IH _ _ eq_refl). lia.
Qed.

Lemma scan_digits1_length s d rest : scan_digits1 s = Some (d, rest) → length rest < length s.
Proof.
  unfold scan_digits1. destruct (scan_digits s) as [[|c d'] rest'] eqn:E; [done|].
  apply scan_digits_length in E. intros [= <- <-]. cbn in E. lia.
Qed.

Lemma eat_length c s rest : eat c s = Some rest → length s = S (length rest).
Proof. destruct s; cbn; [done|]. case_decide; naive_solver. Qed.

Lemma scan_fraction_length s d rest : scan_fraction s = Some (d, rest) → length rest ≤ length s.
Proof.
  unfold scan_fraction. destruct (eat _ s) as [s'|] eqn:E; [|naive_solver].
  apply eat_length in E.
  intros ([? ?] & Ed%scan_digits1_length & [= <- <-])%bind_Some. lia.
Qed.

Lemma scan_sign_length signs s : length (scan_sign signs s).2 ≤ length s.
Proof. destruct s; cbn; [done|]. destruct (is_one_of _ _); cbn; lia. Qed.

Lemma scan_exponent_length s d rest : scan_exponent s = Some (d, rest) → length rest ≤ length s.
Proof.
  unfold scan_exponent. destruct s as [|c s']; [naive_solver|].
  destruct (is_one_of _ _); [|naive_solver].
  pose proof (scan_sign_length ["+"; "-"]%byte s'). destruct (scan_sign _ s') as [sg s2].
  intros ([? ?] & E%scan_digits1_length & [= <- <-])%bind_Some. cbn in *. lia.
Qed.

Lemma scan_number_length s d rest : scan_number s = Some (d, rest) → length rest < length s.
Proof.
  unfold scan_number. pose proof (scan_sign_length ["-"%byte] s).
  destruct (scan_sign _ s) as [sg s1]. cbn in *.
  intros ([ip s2] & Ei & ([fr s3] & Ef%scan_fraction_length
    & ([ex s4] & Ee%scan_exponent_length & [= <- <-])%bind_Some)%bind_Some)%bind_Some.
  assert (length s2 < length s1); [|lia].
  destruct (eat _ s1) eqn:E; [apply eat_length in E; naive_solver lia|].
  by apply scan_digits1_length in Ei.
Qed.

Lemma strip_length p s rest : strip p s = Some rest → length rest ≤ length s.
Proof.
  unfold strip, CutPrefix. case_decide; [|done]. intros [= <-]. rewrite length_drop. lia.
Qed.

(** Every parser leaves strictly less than it was given. *)
Lemma parse_consumes f :
  (∀ d s v r, parse_value f d s = Some (v, r) → length r < length s) ∧
  (∀ d s v r, parse_elements f d s = Some (v, r) → length r < length s) ∧
  (∀ d s v r, parse_members f d s = Some (v, r) → length r < length s).
Proof.
  induction f as [|f (IHv & IHe & IHm)]; [done|].
  assert (∀ d s v r, parse_value (S f) d s = Some (v, r) → length r < length s) as Hv.
  { intros d s v r. cbn. pose proof (skip_space_length s).
    destruct (skip_space s) as [|c s1]; [done|]. cbn in *.
    pose proof (skip_space_length s1).
    repeat case_decide.
    1,2: destruct (_ <=? _)%N; [done|]; destruct (eat _ _) as [s2|] eqn:E;
         [apply eat_length in E; naive_solver lia|].
    - intros ([ms r'] & E1%IHm & [= <- <-])%bind_Some. lia.
    - intros ([ms r'] & E1%IHe & [= <- <-])%bind_Some. lia.
    - intros ([x r'] & E1%scan_string_length & [= <- <-])%bind_Some. lia.
    - intros (r' & E1%strip_length & [= <- <-])%bind_Some. lia.
    - intros (r' & E1%strip_length & [= <- <-])%bind_Some. lia.
    - intros (r' & E1%strip_length & [= <- <-])%bind_Some. lia.
    - intros ([x r'] & E1%scan_number_length & [= <- <-])%bind_Some. cbn in *. lia. }
  split_and!; [done| |].
  - intros d s v r. cbn -[eat]. intros ([x s1] & E1%IHv & E)%bind_Some.
    pose proof (skip_space_length s1). destruct (eat "," _) as [s2|] eqn:Ec.
    + apply eat_length in Ec. apply bind_Some in E as ([y r'] & E2%IHe & [= <- <-]). lia.
    + apply bind_Some in E as (r' & E2%eat_length & [= <- <-]). lia.
  - intros d s v r. cbn -[eat].
    intros (s0 & E0%eat_length & ([k s1] & E1%scan_string_length & (s2 & E2%eat_length
      & ([x s3] & E3%IHv & E)%bind_Some)%bind_Some)%bind_Some)%bind_Some.
    pose proof (skip_space_length s). pose proof (skip_space_length s1).
    pose proof (skip_space_length s3). destruct (eat "," _) as [s4|] eqn:Ec.
    + apply eat_length in Ec. apply bind_Some in E as ([y r'] & E4%IHm & [= <- <-]). lia.
    + apply bind_Some in E as (r' & E4%eat_length & [= <- <-]). lia.
Qed.

Lemma bind_ext_some {A B} (m1 m2 : option A) (k1 k2 : A → option B) :
  m1 = m2 → (∀ a, m1 = Some a → k1 a = k2 a) → (m1 ≫= k1) = (m2 ≫= k2).
Proof. intros <-. destruct m1; cbn; auto. Qed.

(** The result does not depend on the fuel once there is twice the length of
    the input of it: [parse_fuel] loses nothing. *)
Lemma parse_fuel_irrelevant f : ∀ f',
  (∀ d s, 2 * length s < f → 2 * length s < f' →
     parse_value f d s = parse_value f' d s) ∧
  (∀ d s, 2 * length s + 1 < f → 2 * length s + 1 < f' →
     parse_elements f d s = parse_elements f' d s) ∧
  (∀ d s, 2 * length s + 1 < f → 2 * length s + 1 < f' →
     parse_members f d s = parse_members f' d s).
Proof.
  induction f as [|f IH]; intros [|f']; try (split_and!; intros; lia).
  destruct (IH f') as (IHv & IHe & IHm). split_and!; intros d s H1 H2; cbn -[eat].
  - pose proof (skip_space_length s). destruct (skip_space s) as [|c s1]; [done|].
    cbn -[eat] in *. repeat case_decide; try done.
    + destruct (_ <=? _)%N; [done|]. destruct (eat _ _); [done|].
      apply bind_ext_some; [apply IHm; lia|done].
    + destruct (_ <=? _)%N; [done|]. destruct (eat _ _); [done|].
      apply bind_ext_some; [apply IHe; lia|done].
  - apply bind_ext_some; [apply IHv; lia|]. intros [v s1] E1%(proj1 (parse_consumes f)).
    pose proof (skip_space_length s1). destruct (eat "," _) as [s2|] eqn:E; [|done].
    apply eat_length in E. apply bind_ext_some; [apply IHe; lia|done].
  - apply bind_ext_some; [done|]. intros s0 E0%eat_length.
    apply bind_ext_some; [done|]. intros [k s1] E1%scan_string_length.
    apply bind_ext_some; [done|]. intros s2 E2%eat_length.
    pose proof (skip_space_length s). pose proof (skip_space_length s1).
    apply bind_ext_some; [apply IHv; lia|]. intros [v s3] E3%(proj1 (parse_consumes f)).
    pose proof (skip_space_length s3). destruct (eat "," _) as [s4|] eqn:E; [|done].
    apply eat_length in E. apply bind_ext_some; [apply IHm; lia|done].
Qed.

(** ** Printing and parsing *)

Section json_induction.
  Context (P : json → Prop) (Pnull : P JNull) (Pbool : ∀ b, P (JBool b))
    (Pnum : ∀ r, P (JNum r)) (Pstr : ∀ r, P (JStr r))
    (Parr : ∀ l, Forall P l → P (JArr l)) (Pobj : ∀ l, Forall (fun m => P m.2) l → P (JObj l)).

Fixpoint json_nested_ind (v : json) : P v :=
    match v with
    | JNull => Pnull
    | JBool b => Pbool b
    | JNum r => Pnum r
    | JStr r => Pstr r
    | JArr l => Parr l ((fix go l := match l return Forall P l with
                         | [] => List.Forall_nil P
                         | x :: l' => List.Forall_cons P x l' (json_nested_ind x) (go l')
                         end) l)
    | JObj l => Pobj l ((fix go l := match l return Forall (fun m => P m.2) l with
                         | [] => List.Forall_nil _
                         | x :: l' => List.Forall_cons _ x l' (json_nested_ind x.2) (go l')
                         end) l)
    end.
End json_induction.

(** A raw character no unquoting touches: printable ASCII but the quote and
    the backslash. *)
Definition plain_char (c : byte) : Prop :=
  (32 ≤ Z_of_byte c < 128)%Z ∧ c ≠ dquote ∧ c ≠ backslash.

#[global] Instance plain_char_dec c : Decision (plain_char c).
Proof. unfold plain_char. apply _. Defined.

(** Documents without numbers, with plain strings, nested at most up to the
    scanner's limit below [d] open brackets. *)
Inductive plain : N → json → Prop :=
| plain_null d : plain d JNull
| plain_bool d b : plain d (JBool b)
| plain_str d r : Forall plain_char r → plain d (JStr r)
| plain_arr d l : (d < maxNestingDepth)%N → Forall (plain (d + 1)) l → plain d (JArr l)
| plain_obj d l : (d < maxNestingDepth)%N → Forall (fun m => Forall plain_char m.1) l →
    Forall (fun m => plain (d + 1) m.2) l → plain d (JObj l).

Lemma scan_string_plain r rest :
  Forall plain_char r → scan_string (r ++ dquote :: rest) = Some (r, rest).
Proof.
  induction 1 as [|c r (Hr & Hq & Hb) _ IH]; cbn; [done|].
  rewrite !decide_False by done. rewrite (proj2 (Z.ltb_ge _ _)) by lia. by rewrite IH.
Qed.

Lemma unquote_go_plain f r : Forall plain_char r → length r ≤ f → unquote_go f r = r.
Proof.
  intros H. revert f. induction H as [|c r (Hr & Hq & Hb) _ IH]; intros [|f] Hf; cbn in *;
    try done; [lia|].
  rewrite decide_False by done. rewrite (proj2 (Z.ltb_lt _ _)) by lia. cbn.
  rewrite take_0, drop_0. cbn. f_equal. apply IH. lia.
Qed.

Lemma unquote_plain r : Forall plain_char r → unquote r = r.
Proof. intros H. by apply unquote_go_plain. Qed.

(** The first byte of a printed document is not white space. *)
Definition value_start (c : byte) : Prop := is_space c = false ∧ c ≠ "]"%byte.

Lemma print_start d v : plain d v → ∃ c s, print v = c :: s ∧ value_start c.
Proof. destruct 1 as [|? []| | |]; cbn; eexists _, _; (split; [reflexivity|done]). Qed.

Lemma print_nonempty d v : plain d v → 0 < length (print v).
Proof. intros (c & s & -> & _)%print_start. cbn. lia. Qed.

Lemma sep_by_cons sep x l :
  l ≠ [] → sep_by sep (x :: l) = x ++ sep ++ sep_by sep l.
Proof. by destruct l. Qed.

(** One round of the element and member loops. *)
Lemma parse_elements_S f d s :
  parse_elements (S f) d s =
    ('(v, s1) ← parse_value f d s;
     match eat "," (skip_space s1) with
     | Some s2 => '(vs, rest) ← parse_elements f d s2; Some (v :: vs, rest)
     | None => s2 ← eat "]" (skip_space s1); Some ([v], s2)
     end).
Proof. reflexivity. Qed.

Lemma parse_members_S f d s :
  parse_members (S f) d s =
    (s0 ← eat dquote (skip_space s);
     '(k, s1) ← scan_string s0;
     s2 ← eat ":" (skip_space s1);
     '(v, s3) ← parse_value f d s2;
     match eat "," (skip_space s3) with
     | Some s4 => '(ms, rest) ← parse_members f d s4; Some ((k, v) :: ms, rest)
     | None => s4 ← eat "}" (skip_space s3); Some ([(k, v)], s4)
     end).
Proof. reflexivity. Qed.

Lemma skip_space_stop c s : is_space c = false → skip_space (c :: s) = c :: s.
Proof. intros H. cbn -[is_space]. by rewrite H. Qed.

Lemma eat_same c s : eat c (c :: s) = Some s.
Proof. cbn. by rewrite decide_True. Qed.

Lemma bind_some {A B} (a : A) (k : A → option B) : Some a ≫= k = k a.
Proof. done. Qed.

Lemma parse_elements_more f d s v s1 l rest :
  parse_value f d s = Some (v, ","%byte :: s1) → parse_elements f d s1 = Some (l, rest) →
  parse_elements (S f) d s = Some (v :: l, rest).
Proof.
  intros H1 H2.
  rewrite parse_elements_S, H1, bind_some, skip_space_stop, eat_same by done.
  by rewrite H2.
Qed.

Lemma parse_elements_last f d s v rest :
  parse_value f d s = Some (v, "]"%byte :: rest) → parse_elements (S f) d s = Some ([v], rest).
Proof. intros H1. by rewrite parse_elements_S, H1. Qed.

(** The key and the colon of a member, up to its value. *)
Lemma parse_members_key f d k s :
  Forall plain_char k →
  parse_members (S f) d (dquote :: k ++ dquote :: ":"%byte :: s) =
    ('(v, s3) ← parse_value f d s;
     match eat "," (skip_space s3) with
     | Some s4 => '(ms, rest) ← parse_members f d s4; Some ((k, v) :: ms, rest)
     | None => s4 ← eat "}" (skip_space s3); Some ([(k, v)], s4)
     end).
Proof.
  intros Hk. rewrite parse_members_S, skip_space_stop, eat_same, bind_some by done.
  by rewrite scan_string_plain, bind_some, skip_space_stop, eat_same, bind_some by done.
Qed.

Lemma parse_members_more f d k s v s1 l rest :
  Forall plain_char k → parse_value f d s = Some (v, ","%byte :: s1) →
  parse_members f d s1 = Some (l, rest) →
  parse_members (S f) d (dquote :: k ++ dquote :: ":"%byte :: s) = Some ((k, v) :: l, rest).
Proof.
  intros H0 H1 H2. rewrite parse_members_key, H1, bind_some, skip_space_stop, eat_same by done.
  by rewrite H2.
Qed.

Lemma parse_members_last f d k s v rest :
  Forall plain_char k → parse_value f d s = Some (v, "}"%byte :: rest) →
  parse_members (S f) d (dquote :: k ++ dquote :: ":"%byte :: s) = Some ([(k, v)], rest).
Proof. intros H0 H1. by rewrite parse_members_key, H1. Qed.

(** What the induction hypothesis says of one element. *)
Definition parses (d : N) (v : json) : Prop := ∀ fuel rest,
  2 * length (print v) ≤ S fuel → parse_value fuel d (print v ++ rest) = Some (v, rest).

Lemma parse_elements_print d l fuel rest :
  l ≠ [] → Forall (plain d) l → Forall (parses d) l →
  2 * length (sep_by (str ",") (map print l)) ≤ fuel →
  parse_elements fuel d (sep_by (str ",") (map print l) ++ "]"%byte :: rest) = Some (l, rest).
Proof.
  intros Hne Hpl. revert fuel Hne. induction Hpl as [|v l Hv Hl IH]; intros fuel Hne Hp Hf;
    [done|]. inv Hp as [|? ? Hpv Hpl']. pose proof (print_nonempty _ _ Hv).
  destruct fuel as [|fuel]; [destruct l; cbn in Hf; rewrite ?length_app in Hf; lia|].
  destruct l as [|w l]; cbn [map] in Hf |- *.
  - apply parse_elements_last, Hpv. cbn in Hf. lia.
  - rewrite sep_by_cons, !length_app in Hf by done. change (length (str ",")) with 1 in Hf.
    rewrite sep_by_cons, <-!app_assoc by done.
    eapply parse_elements_more; [apply Hpv; lia|]. apply IH; [done|done|]. cbn in Hf |- *. lia.
Qed.

Definition print_member (m : bytes * json) : bytes :=
  (dquote :: m.1 ++ [dquote]) ++ ":"%byte :: print m.2.

Lemma print_member_app k v rest :
  print_member (k, v) ++ rest = dquote :: k ++ dquote :: ":"%byte :: print v ++ rest.
Proof. unfold print_member. cbn. by rewrite <-!app_assoc. Qed.

Lemma parse_members_print d l fuel rest :
  l ≠ [] → Forall (fun m => Forall plain_char m.1) l → Forall (fun m => parses d m.2) l →
  2 * length (sep_by (str ",") (map print_member l)) ≤ fuel →
  parse_members fuel d (sep_by (str ",") (map print_member l) ++ "}"%byte :: rest)
    = Some (l, rest).
Proof.
  intros Hne Hpl. revert fuel Hne. induction Hpl as [|[k v] l Hv Hl IH]; intros fuel Hne Hp Hf;
    [done|]. inv Hp as [|? ? Hpv Hpl']. cbn in Hv, Hpv.
  assert (length (print_member (k, v)) = length k + 3 + length (print v)) as Hm.
  { unfold print_member. cbn. rewrite !length_app. cbn. lia. }
  destruct fuel as [|fuel]; [destruct l; cbn -[print_member] in Hf; rewrite ?length_app in Hf; lia|].
  destruct l as [|w l]; cbn [map] in Hf |- *.
  - cbn [sep_by] in Hf |- *. rewrite print_member_app.
    apply parse_members_last; [done|]. apply Hpv. lia.
  - rewrite sep_by_cons, !length_app in Hf by done. change (length (str ",")) with 1 in Hf.
    rewrite sep_by_cons, <-!app_assoc, print_member_app by done.
    eapply parse_members_more; [done|apply Hpv; lia|]. apply IH; [done|done|].
    cbn -[print_member] in Hf |- *. lia.
Qed.

(** Parsing a printed document, whatever follows it, gives it back. *)
Lemma parse_value_print v d : plain d v → parses d v.
Proof.
  revert d. induction v as [|b|r|r|l IH|l IH] using json_nested_ind;
    intros d H fuel rest Hf; pose proof (print_nonempty _ _ H) as Hn;
    (destruct fuel as [|fuel]; [lia|]); clear Hn; inv H.
  - reflexivity.
  - destruct b; reflexivity.
  - cbn -[scan_string]. rewrite <-app_assoc. cbn. by rewrite scan_string_plain.
  - destruct l as [|v l].
    + cbn. rewrite (proj2 (N.leb_gt _ _)) by done. reflexivity.
    + cbn [print]. cbn [print] in Hf.
      cbn -[parse_elements sep_by map eat]. rewrite (proj2 (N.leb_gt _ _)) by done.
      assert (eat "]" (skip_space (sep_by (str ",") (map print (v :: l)) ++ "]"%byte :: rest)) = None)
        as E.
      { match goal with H : Forall (plain _) _ |- _ => inv H as [|?? Hv Hl] end.
        apply print_start in Hv as (c & s & E & Hs & Hc).
        assert (∃ s', sep_by (str ",") (map print (v :: l)) = c :: s') as [s' ->].
        { destruct l; cbn; rewrite E; eauto. }
        cbn [app]. rewrite skip_space_stop by done. cbn. by rewrite decide_False. }
      rewrite <-app_assoc. cbn [app]. rewrite E. rewrite parse_elements_print; [done|done|done| |].
      * rewrite Forall_forall in *. eauto.
      * cbn in Hf. rewrite length_app in Hf. cbn in *. lia.
  - destruct l as [|v l].
    + cbn. rewrite (proj2 (N.leb_gt _ _)) by done. reflexivity.
    + cbn [print]. cbn [print] in Hf. change (map _ (v :: l)) with (map print_member (v :: l)) in *.
      cbn -[parse_members sep_by map eat]. rewrite (proj2 (N.leb_gt _ _)) by done.
      rewrite <-app_assoc. cbn [app].
      assert (eat "}" (skip_space (sep_by (str ",") (map print_member (v :: l)) ++ "}"%byte :: rest))
              = None) as -> by by destruct l.
      rewrite parse_members_print; [done|done|done| |].
      * rewrite Forall_forall in *. eauto.
      * cbn in Hf. rewrite length_app in Hf. cbn in *. lia.
Qed.

Lemma parse_print v : plain 0 v → parse (print v) = Some v.
Proof.
  intros H. unfold parse. pose proof (parse_value_print v 0 H (parse_fuel (print v)) []) as E.
  rewrite app_nil_r in E. rewrite E; [done|]. unfold parse_fuel. lia.
Qed.

(** Base64 text is plain and survives unquoting. *)
Lemma plain_base64 l : Forall plain_char (Base64.EncodeToString l).
Proof.
  apply list.Forall_forall. intros c [->|(z & Hz & ->)]%Base64.EncodeToString_chars.
  - unfold plain_char. by vm_compute.
  - assert (forallb (fun n => bool_decide (plain_char (Base64.enc_char (Z.of_nat n))))
              (List.seq 0 64) = true) as Hall by (vm_compute; reflexivity).
    rewrite forallb_forall in Hall. specialize (Hall (Z.to_nat z)).
    rewrite Z2Nat.id in Hall by lia. eapply bool_decide_eq_true_1, Hall, in_seq. lia.
Qed.

Lemma plain_encode_bytes d s : plain d (encode_bytes s).
Proof. destruct s; constructor. apply plain_base64. Qed.

(** Decoding an encoded byte slice gives the same bytes, whatever the target
    held before. *)
Lemma decode_encode_bytes `{!GoRuntime} s old :
  ∃ s', decode_bytes (encode_bytes s) old = (s', None) ∧ elems s' = elems s
        ∧ (s = NilSlice → s' = NilSlice).
Proof.
  destruct s as [|l r]; cbn.
  - by exists NilSlice.
  - rewrite unquote_plain by apply plain_base64. rewrite Base64.Decode_EncodeToString.
    by eexists.
Qed.

End Json.

(** A runtime that doubles, for evaluation. *)
Module DoublingRuntime.
#[export] Instance doubling : Json.GoRuntime.
Proof. refine {| Json.grow_cap _ c := S (2 * c) |}. lia. Defined.
End DoublingRuntime.
