(* ===== verification/Crypto.v ===== *)
(** The part of go-ethereum's [crypto] package the program calls, as an
    interface: the operations, the documented behaviour the theorems rely on,
    and a small concrete scheme that satisfies it, used to evaluate the
    development on inputs. *)
From S2P Require Import Prelude.

Class EthCrypto := {
  ecdsa_PublicKey : Type;
  ecdsa_PrivateKey : Type;
  (** the zero value of [ecdsa.PrivateKey] *)
  zeroPrivateKey : ecdsa_PrivateKey;
  (** the [PublicKey] field of a private key *)
  PublicKeyOf : ecdsa_PrivateKey → ecdsa_PublicKey;
  Sign : bytes → ecdsa_PrivateKey → outcome bytes;
  SigToPub : bytes → bytes → outcome ecdsa_PublicKey;
  (** on a possibly nil key *)
  FromECDSAPub : option ecdsa_PublicKey → bytes;
  VerifySignature : bytes → bytes → bytes → bool;
  Keccak256 : bytes → bytes
}.

(** Documented behaviour: signatures are 65 bytes [R || S || V] over 32-byte
    hashes; what [Sign] returns recovers to its key and verifies without its
    last byte; [VerifySignature] wants 64 bytes of signature and a serialized
    key; usable and recovered keys serialize to 65 bytes; hashes have 32 bytes. *)
Class EthCryptoLaws `{!EthCrypto} (good : ecdsa_PrivateKey → Prop) : Prop := {
  Sign_total : ∀ h k, good k → length h = 32 → ∃ s, Sign h k = Ok s;
  Sign_length : ∀ h k s, Sign h k = Ok s → length s = 65;
  Sign_recover : ∀ h k s, Sign h k = Ok s → SigToPub h s = Ok (PublicKeyOf k);
  Sign_verify : ∀ h k s, Sign h k = Ok s →
    VerifySignature (FromECDSAPub (Some (PublicKeyOf k))) h (take 64 s) = true;
  SigToPub_no_panic : ∀ h s, not_panic (SigToPub h s);
  SigToPub_length : ∀ h s pk, SigToPub h s = Ok pk → length s = 65;
  Verify_length : ∀ pk h s, VerifySignature pk h s = true → length s = 64;
  Verify_pubkey : ∀ pk h s, VerifySignature pk h s = true → pk ≠ [];
  good_length : ∀ k, good k → length (FromECDSAPub (Some (PublicKeyOf k))) = 65;
  recovered_length : ∀ h s pk, SigToPub h s = Ok pk → length (FromECDSAPub (Some pk)) = 65;
  Keccak256_length : ∀ s, length (Keccak256 s) = 32
}.

(** ** A concrete scheme *)
Module ToyCrypto.

(** A key is one byte; the zero key has none.  A signature is the hash, the
    key byte thirty-two times, and a recovery byte. *)
Definition sign (h : bytes) (k : option byte) : outcome bytes :=
  match k with
  | None => Panic (RuntimeError "invalid memory address or nil pointer dereference")
  | Some b => if decide (length h = 32) then Ok (h ++ replicate 32 b ++ [x00])
              else Err (ErrorString "hash is required to be exactly 32 bytes")
  end.

Definition recover (h s : bytes) : outcome byte :=
  if decide (length h = 32 ∧ length s = 65 ∧ take 32 s = h) then
    match s !! 32 with
    | Some b => Ok b
    | None => Err (ErrorString "recovery failed")
    end
  else Err (ErrorString "recovery failed").

Definition serialize (pk : option byte) : bytes :=
  match pk with Some b => x04 :: replicate 64 b | None => [] end.

Definition verify (pk h s : bytes) : bool :=
  match pk with
  | _ :: b :: _ => bool_decide (pk = x04 :: replicate 64 b ∧ s = h ++ replicate 32 b ∧ length h = 32)
  | _ => false
  end.

#[export] Instance toy_crypto : EthCrypto := {|
  ecdsa_PublicKey := byte;
  ecdsa_PrivateKey := option byte;
  zeroPrivateKey := None;
  PublicKeyOf k := default x00 k;
  Sign := sign;
  SigToPub := recover;
  FromECDSAPub := serialize;
  VerifySignature := verify;
  Keccak256 s := take 32 (s ++ replicate 32 x00)
|}.

Lemma sign_Ok h k s :
  sign h k = Ok s → ∃ b, k = Some b ∧ length h = 32 ∧ s = h ++ replicate 32 b ++ [x00].
Proof.
  destruct k as [b|]; cbn -[replicate]; [|done]. case_decide; [|done].
  intros H1. exists b. split_and!; [done|done|]. congruence.
Qed.

Lemma body_length h (b : byte) : length h = 32 → length (h ++ replicate 32 b) = 64.
Proof. intros H. rewrite length_app, length_replicate. lia. Qed.

#[export] Instance toy_laws : EthCryptoLaws (λ k : @ecdsa_PrivateKey toy_crypto, is_Some k).
Proof.
  split; unfold Sign, SigToPub, VerifySignature, FromECDSAPub, Keccak256, toy_crypto.
  - intros h k [b ->] Hh. unfold sign. rewrite decide_True by done. eauto.
  - intros h k s (b & -> & Hh & ->)%sign_Ok. rewrite app_assoc, length_app, body_length by done.
    done.
  - intros h k s (b & -> & Hh & ->)%sign_Ok. unfold recover.
    rewrite decide_True; [by rewrite lookup_app_r, Hh by lia|].
    rewrite app_assoc, length_app, body_length, <-app_assoc, take_app_le, take_ge by lia. done.
  - intros h k s (b & -> & Hh & ->)%sign_Ok.
    rewrite app_assoc, take_app_le, take_ge by (rewrite body_length; lia).
    by apply bool_decide_eq_true.
  - intros h s. unfold recover. case_decide; [|done]. by destruct (s !! 32).
  - intros h s pk. unfold recover. case_decide as H; [by destruct H as (_ & -> & _)|done].
  - intros pk h s. unfold verify. destruct pk as [|? [|b ?]]; [done..|].
    intros (_ & -> & Hh)%bool_decide_eq_true. by apply body_length.
  - by intros [|??] h s.
  - done.
  - done.
  - intros s. rewrite length_take, length_app, length_replicate. lia.
Qed.

End ToyCrypto.
