(* ===== verification/Store.v ===== *)
(** The interfaces of the state libraries: [cosmossdk.io/collections] over the
    module's key-value store, and the address codec, each with the documented
    behaviour the theorems rely on and concrete instances.  A collection is a
    prefix and a name; the raw key of an entry is the prefix followed by the
    encoded key ([sdk.AccAddressKey] encodes an address as its bytes, the key
    of an item is empty). *)
From S2P Require Import Prelude.

#[local] Open Scope go_scope.

Definition ErrNotFound : error := Sentinel "collections" "collections: not found".

Class Collections (Store : Type) := {
  coll_has : Store → bytes → bytes → outcome bool;
  coll_get : Store → bytes → bytes → outcome bytes;
  coll_set : bytes → bytes → bytes → GoM Store unit;
  (** [SchemaBuilder.Build] on the declared prefixes and names *)
  SchemaBuilder_Build : list (bytes * bytes) → outcome unit
}.

(** [a] is a prefix of [b]. *)
Definition is_prefix (a b : bytes) : bool := bool_decide (take (length a) b = a).

(** No declared prefix is a prefix of another, and no two names are equal. *)
Definition schema_ok (l : list (bytes * bytes)) : Prop :=
  ∀ i j a b, i ≠ j → l !! i = Some a → l !! j = Some b →
    is_prefix a.1 b.1 = false ∧ a.2 ≠ b.2.

Class CollectionsLaws (Store : Type) `{!Collections Store} : Prop := {
  set_get : ∀ p k v s s', coll_set p k v s = (Ok tt, s') → coll_get s' p k = Ok v;
  set_get_ne : ∀ p k v s r s' p' k', coll_set p k v s = (r, s') →
    p ++ k ≠ p' ++ k' → coll_get s' p' k' = coll_get s p' k';
  set_fail : ∀ p k v s r s' p' k', coll_set p k v s = (r, s') → r ≠ Ok tt →
    coll_get s' p' k' = coll_get s p' k';
  has_true : ∀ s p k, coll_has s p k = Ok true → ∃ v, coll_get s p k = Ok v;
  has_false : ∀ s p k, coll_has s p k = Ok false → coll_get s p k = Err ErrNotFound;
  get_has : ∀ s p k v, coll_get s p k = Ok v → coll_has s p k = Ok true;
  build_ok : ∀ l, schema_ok l → SchemaBuilder_Build l = Ok tt
}.

(** The value codec of an item, [codec.CollValue], and the item it makes. *)
Class CollValue (V : Type) := {
  value_encode : V → outcome bytes;
  value_decode : bytes → outcome V
}.

Class CollValueLaws (V : Type) `{!CollValue V} : Prop := {
  value_roundtrip : ∀ v b, value_encode v = Ok b → value_decode b = Ok v
}.

Section Item.
Context {Store V : Type} `{!Collections Store, !CollValue V}.

Definition item_get (p : bytes) (s : Store) : outcome V :=
  bz ← coll_get s p []; value_decode bz.
Definition item_set (p : bytes) (v : V) : GoM Store unit :=
  bz ← lift (value_encode v); coll_set p [] bz.
End Item.

(** [codec.JSONCodec] on one genesis type. *)
Class JSONCodec (G : Type) := {
  MarshalJSON : G → outcome bytes;
  UnmarshalJSON : bytes → outcome G
}.

Class JSONCodecLaws (G : Type) `{!JSONCodec G} : Prop := {
  JSON_roundtrip : ∀ g b, MarshalJSON g = Ok b → UnmarshalJSON b = Ok g
}.

(** [MustMarshalJSON] *)
Definition MustMarshalJSON {G} `{!JSONCodec G} (g : G) : outcome bytes :=
  let! bz := MarshalJSON g else e => Panic e in Ok bz.

(** The address codec of the account module, [sdk.AccAddressFromBech32], and
    the module-account addresses of [x/auth]. *)
Class AddressCodec := {
  StringToBytes : bytes → outcome bytes;
  BytesToString : bytes → outcome bytes;
  AccAddressFromBech32 : bytes → outcome bytes;
  AccAddress_String : bytes → bytes;
  NewModuleAddress : bytes → bytes;
  NewModuleAddressOrBech32Address : bytes → bytes
}.

Class AddressCodecLaws `{!AddressCodec} : Prop := {
  Address_roundtrip : ∀ a s, BytesToString a = Ok s → StringToBytes s = Ok a
}.

(** ** Frame lemmas *)

Section Frame.
Context {Store : Type} `{!Collections Store, !CollectionsLaws Store}.

(** Two collections whose prefixes start with different bytes never meet. *)
Lemma set_get_other_prefix a b p p' k k' v s r s' :
  a ≠ b → coll_set (a :: p) k v s = (r, s') →
  coll_get s' (b :: p') k' = coll_get s (b :: p') k'.
Proof. intros Hab H. eapply set_get_ne; [done|]. cbn. congruence. Qed.

Lemma set_get_other_key p k k' v s r s' :
  k ≠ k' → coll_set p k v s = (r, s') → coll_get s' p k' = coll_get s p k'.
Proof.
  intros Hk H. eapply set_get_ne; [done|]. intros E. apply Hk. by eapply app_inv_head.
Qed.

(** Whatever a write does, another entry either keeps its value or is the
    entry written. *)
Lemma set_get_inv p k v s r s' k' v' :
  coll_set p k v s = (r, s') → coll_get s' p k' = Ok v' →
  coll_get s p k' = Ok v' ∨ (r = Ok tt ∧ k' = k ∧ v' = v).
Proof.
  intros H Hg. destruct (decide (r = Ok tt)) as [->|Hr].
  - destruct (decide (k = k')) as [->|Hk]; [|left; by rewrite <-(set_get_other_key _ _ _ _ _ _ _ Hk H)].
    rewrite (set_get _ _ _ _ _ H) in Hg. naive_solver.
  - left. by rewrite <-(set_fail _ _ _ _ _ _ p k' H Hr).
Qed.
End Frame.

(** ** An in-memory store, which can be told to fail *)
Module MemStore.

Record store := MkStore {
  mem : gmap bytes bytes;
  readable : bool;
  writable : bool
}.

Definition ErrIO : error := ErrorString "store failure".

Definition get (s : store) (p k : bytes) : outcome bytes :=
  if readable s then
    match mem s !! (p ++ k) with
    | Some v => Ok v
    | None => Err ErrNotFound
    end
  else Err ErrIO.

Definition has (s : store) (p k : bytes) : outcome bool :=
  if readable s then Ok (bool_decide (is_Some (mem s !! (p ++ k)))) else Err ErrIO.

Definition set (p k v : bytes) : GoM store unit := fun s =>
  if readable s && writable s then (Ok tt, MkStore (<[p ++ k := v]> (mem s)) true true)
  else (Err ErrIO, s).

Fixpoint schema_check (l : list (bytes * bytes)) : bool :=
  match l with
  | [] => true
  | a :: l' =>
      forallb (fun b => negb (is_prefix a.1 b.1) && negb (is_prefix b.1 a.1)
                        && negb (bool_decide (a.2 = b.2))) l' && schema_check l'
  end.

#[export] Instance mem_collections : Collections store := {|
  coll_has := has;
  coll_get := get;
  coll_set := set;
  SchemaBuilder_Build l :=
    if schema_check l then Ok tt else Err (ErrorString "overlapping collections")
|}.

Lemma schema_check_ok l : schema_ok l → schema_check l = true.
Proof.
  induction l as [|a l IH]; intros H; cbn; [done|]. apply andb_true_iff. split.
  - apply forallb_forall. intros b Hb%list_elem_of_In. apply list_elem_of_lookup in Hb as [i Hi].
    destruct (H 0 (S i) a b) as [E1 E2]; [done..|].
    destruct (H (S i) 0 b a) as [E3 _]; [done..|].
    rewrite E1, E3. cbn. by rewrite bool_decide_false.
  - apply IH. intros i j b c Hij. apply (H (S i) (S j)). lia.
Qed.

#[export] Instance mem_laws : CollectionsLaws store.
Proof.
  split; cbn; unfold get, has, set.
  - intros p k v [m [] []] s'; cbn; intros [= <-]; cbn. by rewrite lookup_insert_eq.
  - intros p k v [m [] []] r s' p' k'; cbn; intros [= <- <-] Hne; cbn;
      by rewrite ?lookup_insert_ne.
  - intros p k v [m [] []] r s' p' k'; cbn; intros [= <- <-]; naive_solver.
  - intros [m [] w] p k; cbn; intros [= [v E]%bool_decide_eq_true]. rewrite E. eauto.
  - intros [m [] w] p k; cbn; intros [= E%bool_decide_eq_false].
    apply eq_None_not_Some in E. by rewrite E.
  - intros [m [] w] p k v; cbn; [|done]. destruct (m !! _); [|done]. done.
  - intros l H. by rewrite schema_check_ok.
Qed.

Definition empty : store := MkStore ∅ true true.

End MemStore.

(** ** A concrete address codec: the textual form is the address itself with
    the chain's prefix. *)
Module ToyCodec.

Definition hrp : bytes := str "cosmos1".

Definition parse (s : bytes) : outcome bytes :=
  let '(a, ok) := CutPrefix s hrp in
  if ok && negb (bool_decide (a = [])) then Ok a else Err (ErrorString "decoding bech32 failed").

Definition render (a : bytes) : outcome bytes :=
  if decide (a = []) then Err (ErrorString "empty address") else Ok (hrp ++ a).

#[export] Instance toy_codec : AddressCodec := {|
  StringToBytes := parse;
  BytesToString := render;
  AccAddressFromBech32 := parse;
  AccAddress_String a := hrp ++ a;
  NewModuleAddress name := str "module/" ++ name;
  NewModuleAddressOrBech32Address s :=
    match parse s with Ok a => a | _ => str "module/" ++ s end
|}.

#[export] Instance toy_codec_laws : AddressCodecLaws.
Proof.
  split. intros a s. cbn -[hrp]. unfold render, parse. case_decide; [done|].
  intros E. assert (s = hrp ++ a) as -> by congruence. rewrite CutPrefix_app. cbn. by rewrite bool_decide_false.
Qed.

End ToyCodec.
