(* ===== verification/Common.v ===== *)
(** [common/helper_functions.go] and [common/helpers.go]: the signer address
    of a transaction, the secondary signature carried in memos (validation,
    encoding, decoding, creation), and the client helpers of the benchmark
    (faucet, account numbers, transaction building, broadcast). *)
From S2P Require Import Prelude Base64 Json Crypto Store.

#[local] Open Scope go_scope.

(** ** Transactions, as the SDK hands them to the code *)

(** A [cryptotypes.PubKey], through the one method the code calls, which panics
    on a key of the wrong length: [inl] holds the value it panics with. *)
Record SdkPubKey := { Address : error + bytes }.

Record SignatureV2 := { PubKey : option SdkPubKey }.

(** An [sdk.Tx]; the two optional interfaces the code asserts are [None] when
    the transaction does not implement them. *)
Record Tx := {
  (** [authsigning.SigVerifiableTx], through [GetSignaturesV2()] *)
  sigTx : option (outcome (list SignatureV2));
  (** [sdk.TxWithMemo], through [GetMemo()] *)
  memoTx : option bytes
}.

(** ** Errors of the SDK *)

Definition ErrTxDecode : error := Sentinel "sdk" "tx parse error".
Definition ErrPanic : error := Sentinel "undefined" "panic".
Definition ErrNoSignatures : error := Sentinel "sdk" "no signatures supplied".
Definition ErrInvalidPubKey : error := Sentinel "sdk" "invalid pubkey".
Definition ErrInvalidRequest : error := Sentinel "sdk" "invalid request".
Definition ErrLogic : error := Sentinel "sdk" "internal logic error".
Definition SdkErrNotFound : error := Sentinel "sdk" "not found".

(** ** [helpers.go] *)

Record SecondarySignature := {
  PublicKey : slice byte;
  Signature : slice byte
}.

Definition ErrInvalidSecondaryPublicKey : error := ErrorString "INVALID_SECONDARY_PUBLIC_KEY".

Definition chainID : bytes := str "example".
Definition rpcURL : bytes := str "http://localhost:26657".
Definition toAddrStr : bytes := str "cosmos1yguqe63ekq7e3vnkmpc3gr0n9h43zf53cemrrt".
Definition sendAmount : Z := 1.
Definition txFee : Z := 0.
Definition faucetRequestAmount : bytes := str "100000stake".

Record FaucetReq := { FaucetReq_Address : bytes; Coins : list bytes }.

(** A [json.RawMessage]: nil, or a document the decoder found valid. *)
Definition RawMessage : Type := option Json.json.

Record AccountResp := { Account : RawMessage }.
Record BaseAccount := { AccountNumber : bytes; Sequence : bytes }.
Record VestingAccount := { VestingAccount_BaseAccount : BaseAccount }.

(** ** JSON shapes of the records *)

Section Shapes.
Context `{!Json.GoRuntime}.

Definition set_PublicKey (v : Json.json) (s : SecondarySignature) :=
  let '(b, e) := Json.decode_bytes v (PublicKey s) in
  ({| PublicKey := b; Signature := Signature s |}, e).
Definition set_Signature (v : Json.json) (s : SecondarySignature) :=
  let '(b, e) := Json.decode_bytes v (Signature s) in
  ({| PublicKey := PublicKey s; Signature := b |}, e).

Definition SecondarySignature_fields : Json.fields SecondarySignature :=
  [(str "public_key", set_PublicKey); (str "signature", set_Signature)].

Definition set_AccountNumber (v : Json.json) (a : BaseAccount) :=
  let '(b, e) := Json.decode_string v (AccountNumber a) in
  ({| AccountNumber := b; Sequence := Sequence a |}, e).
Definition set_Sequence (v : Json.json) (a : BaseAccount) :=
  let '(b, e) := Json.decode_string v (Sequence a) in
  ({| AccountNumber := AccountNumber a; Sequence := b |}, e).

Definition BaseAccount_fields : Json.fields BaseAccount :=
  [(str "account_number", set_AccountNumber); (str "sequence", set_Sequence)].

(** The anonymous struct with one field ["base_account"], and [VestingAccount]
    under ["base_vesting_account"]. *)
Definition nested_fields : Json.fields BaseAccount :=
  [(str "base_account", Json.decode_struct BaseAccount_fields)].

Definition VestingAccount_fields : Json.fields VestingAccount :=
  [(str "base_account", fun v a =>
      let '(b, e) := Json.decode_struct BaseAccount_fields v (VestingAccount_BaseAccount a) in
      ({| VestingAccount_BaseAccount := b |}, e))].

Definition vesting_fields : Json.fields VestingAccount :=
  [(str "base_vesting_account", Json.decode_struct VestingAccount_fields)].

Definition AccountResp_fields : Json.fields AccountResp :=
  [(str "account", fun v a => ({| Account := Some v |}, None))].

Definition SecondarySignature_json (s : SecondarySignature) : Json.json :=
  Json.JObj [(str "public_key", Json.encode_bytes (PublicKey s));
             (str "signature", Json.encode_bytes (Signature s))].

Definition FaucetReq_json (r : FaucetReq) : Json.json :=
  Json.JObj [(str "address", Json.encode_string (FaucetReq_Address r));
             (str "coins", Json.JArr (map Json.encode_string (Coins r)))].

(** ** [helper_functions.go] *)

Definition GetAddr (tx : Tx) : outcome bytes :=
  match sigTx tx with
  | None => Err ErrTxDecode
  | Some getSignatures =>
      let! signers := getSignatures else e => Err ErrPanic in
      match signers with
      | [] => Err ErrNoSignatures
      | signer :: _ =>
          match PubKey signer with
          | None => Err (Wrapped "signature has no public key" ErrInvalidPubKey)
          | Some pubKey => match Address pubKey with inl v => Panic v | inr a => Ok a end
          end
      end
  end.

Definition Validate (s : SecondarySignature) : outcome unit :=
  if decide (len (PublicKey s) = 0) then Err (ErrorString "missing public key")
  else if decide (len (Signature s) = 0) then Err (ErrorString "missing signature")
  else Ok tt.

(** The encoder cannot fail on this struct. *)
Definition EncodeMemoWithSecondSig (secondSig : SecondarySignature) : outcome bytes :=
  Ok (Json.print (SecondarySignature_json secondSig)).

Definition zero_SecondarySignature : SecondarySignature :=
  {| PublicKey := NilSlice; Signature := NilSlice |}.

Definition DecodeSecondSigFromMemo (memo : slice byte) : outcome SecondarySignature :=
  match memo with
  | NilSlice => Err (ErrorString "empty memo")
  | MkSlice data _ =>
      let! memoData :=
        Json.Unmarshal (Json.decode_struct SecondarySignature_fields) data zero_SecondarySignature
      else e => Err (Wrapped "invalid memo format" e) in
      let sig := Signature memoData in
      sig ← (if decide (len sig = 65) then reslice sig 64 else Ok sig);
      Ok {| PublicKey := PublicKey memoData; Signature := sig |}
  end.

Definition ExtractBaseAccount (raw : RawMessage) : outcome BaseAccount :=
  let zero := {| AccountNumber := []; Sequence := [] |} in
  let attempt {T} (fs : Json.fields T) (t : T) (base : T → BaseAccount) : option BaseAccount :=
    match raw with
    | None => None
    | Some v =>
        match Json.decode_struct fs v t with
        | (t', None) => if decide (AccountNumber (base t') = []) then None else Some (base t')
        | (_, Some _) => None
        end
    end in
  match attempt BaseAccount_fields zero id with
  | Some b => Ok b
  | None =>
      match attempt nested_fields zero id with
      | Some b => Ok b
      | None =>
          match attempt vesting_fields {| VestingAccount_BaseAccount := zero |}
                  VestingAccount_BaseAccount with
          | Some b => Ok b
          | None => Err (ErrorString "failed to extract base account")
          end
      end
  end.

(** ** Client helpers; the network is given by its responses *)

(** [http.Post]: URL, content type and body to a status code. *)
Definition FundFromFaucet (post : bytes → bytes → bytes → outcome Z) (addr : bytes)
    : outcome unit :=
  let req := {| FaucetReq_Address := addr; Coins := [faucetRequestAmount] |} in
  let body := Json.print (FaucetReq_json req) in
  let! status := post (str "http://0.0.0.0:4500/") (str "application/json") body
    else e => Err e in
  if (status =? 200)%Z then Ok tt else Err (ErrorString "faucet failed").

(** [http.Get] and [json.NewDecoder(resp.Body).Decode]: the body is read up to
    the end of its first document. *)
Definition GetAccountNumbers (get : bytes → outcome bytes) (addr : bytes) : outcome (Z * Z) :=
  let url := str "http://0.0.0.0:1317/cosmos/auth/v1beta1/accounts/" ++ addr in
  let! body := get url else e => Err e in
  match Json.parse_value (Json.parse_fuel body) 0 body with
  | None => Err Json.SyntaxError
  | Some (v, _) =>
      match Json.decode_struct AccountResp_fields v {| Account := None |} with
      | (_, Some e) => Err e
      | (accResp, None) =>
          let! base := ExtractBaseAccount (Account accResp) else e => Err e in
          Ok ((ParseUint (AccountNumber base)).1, (ParseUint (Sequence base)).1)
      end
  end.

Definition BroadcastTx (get : bytes → outcome bytes) (txHex : bytes) : outcome unit :=
  let url := rpcURL ++ str "/broadcast_tx_async?tx=0x" ++ txHex in
  let! body := get url else e => Err e in
  Ok tt.

End Shapes.

Section CreateValidMemo.
Context `{!EthCrypto}.

(** [GenerateKey()] is the call's result.  When the fresh signature does not
    verify, [err] is nil: the empty memo is returned without an error. *)
Definition CreateValidMemo (generated : outcome ecdsa_PrivateKey) : outcome bytes :=
  let! secondaryPrivKey := generated else e => Err e in
  let secondaryPubKey := FromECDSAPub (Some (PublicKeyOf secondaryPrivKey)) in
  let hsh := Keccak256 secondaryPubKey in
  let! signature := Sign hsh secondaryPrivKey else e => Err e in
  sigNoV ← reslice (mk signature) 64;
  let secondSig := {| PublicKey := mk secondaryPubKey; Signature := sigNoV |} in
  let! memoBytes := EncodeMemoWithSecondSig secondSig else e => Err e in
  if VerifySignature (elems (PublicKey secondSig)) hsh (elems (Signature secondSig)) then
    Ok (str "SECONDARY" ++ memoBytes)
  else Ok [].

End CreateValidMemo.

(** ** [CreateTX] *)

Record Coin := { Denom : bytes; Amount : Z }.
Record MsgSend := { FromAddress : bytes; ToAddress : bytes; MsgSend_Amount : list Coin }.
Inductive SignMode := SIGN_MODE_DIRECT.
Record SignerInfo (Any : Type) := { SignerInfo_PublicKey : Any; Mode : SignMode; SignerInfo_Sequence : Z }.
Record Fee := { Fee_Amount : list Coin; GasLimit : Z }.
Record TxBody (Any : Type) := { Messages : list Any; Memo : bytes }.
Record AuthInfo (Any : Type) := { SignerInfos : list (SignerInfo Any); AuthInfo_Fee : Fee }.
Record SignDoc := {
  BodyBytes : bytes; AuthInfoBytes : bytes; ChainId : bytes; SignDoc_AccountNumber : Z
}.
Arguments SignerInfo_PublicKey {Any}.
Arguments SignerInfo_Sequence {Any}.
Arguments Mode {Any}.
Arguments Messages {Any}.
Arguments Memo {Any}.
Arguments SignerInfos {Any}.
Arguments AuthInfo_Fee {Any}.

(** The SDK's coin constructor (which may panic), [codectypes.NewAnyWithValue]
    and [proto.Marshal] on the messages built here. *)
Class TxEncoding := {
  Any : Type;
  NewCoins : list Coin → outcome (list Coin);
  NewAny_MsgSend : MsgSend → outcome Any;
  NewAny_PubKey : bytes → outcome Any;
  Marshal_TxBody : TxBody Any → outcome bytes;
  Marshal_AuthInfo : AuthInfo Any → outcome bytes
}.

Section CreateTX.
Context `{!AddressCodec, !TxEncoding}.

(** The error of the last [Marshal] is dropped: its bytes are then nil. *)
Definition CreateTX (fromAddr memo sdkPub : bytes) (accNum seq : Z) : outcome SignDoc :=
  let! toAddr := AccAddressFromBech32 toAddrStr else e => Err e in
  amount ← NewCoins [{| Denom := str "stake"; Amount := sendAmount |}];
  let msg := {| FromAddress := AccAddress_String fromAddr;
                ToAddress := AccAddress_String toAddr; MsgSend_Amount := amount |} in
  let! msgAny := NewAny_MsgSend msg else e => Err e in
  let body := {| Messages := [msgAny]; Memo := memo |} in
  let! bodyBytes := Marshal_TxBody body else e => Err e in
  let! pubAny := NewAny_PubKey sdkPub else e => Err e in
  fee ← NewCoins [{| Denom := str "stake"; Amount := txFee |}];
  let signerInfo := {| SignerInfo_PublicKey := pubAny; Mode := SIGN_MODE_DIRECT;
                       SignerInfo_Sequence := seq |} in
  let authInfo := {| SignerInfos := [signerInfo];
                     AuthInfo_Fee := {| Fee_Amount := fee; GasLimit := 200000 |} |} in
  let! authBytes := catch_o (Marshal_AuthInfo authInfo) (fun _ => Ok []) Ok else e => Err e in
  Ok {| BodyBytes := bodyBytes; AuthInfoBytes := authBytes; ChainId := chainID;
        SignDoc_AccountNumber := accNum |}.

End CreateTX.

(** ** Secondary signatures in memos *)

Section MemoFacts.
Context `{!Json.GoRuntime}.

Lemma find_public_key :
  Json.find_field SecondarySignature_fields (Json.unquote (str "public_key")) = Some set_PublicKey.
Proof. reflexivity. Qed.

Lemma find_signature :
  Json.find_field SecondarySignature_fields (Json.unquote (str "signature")) = Some set_Signature.
Proof. reflexivity. Qed.

Lemma plain_memo d s :
  (d < Json.maxNestingDepth)%N → Json.plain d (SecondarySignature_json s).
Proof.
  intros Hd. constructor; [done|by repeat constructor|].
  repeat constructor; apply Json.plain_encode_bytes.
Qed.

(** What decoding does with the two fields the encoder writes. *)
Lemma decode_memo_json s t :
  ∃ s', Json.decode_struct SecondarySignature_fields (SecondarySignature_json s) t = (s', None) ∧
    elems (PublicKey s') = elems (PublicKey s) ∧ elems (Signature s') = elems (Signature s).
Proof.
  destruct t as [pk0 sg0]. cbn -[Json.find_field Json.unquote str Json.encode_bytes].
  rewrite find_public_key, find_signature. unfold set_PublicKey, set_Signature. cbn [PublicKey Signature].
  destruct (Json.decode_encode_bytes (PublicKey s) pk0) as (p & -> & Ep & _).
  cbn [PublicKey Signature].
  destruct (Json.decode_encode_bytes (Signature s) sg0) as (g & -> & Eg & _).
  by eexists.
Qed.

(** The signature the code keeps of a decoded one. *)
Definition without_recovery_byte (sig : bytes) : bytes :=
  if decide (length sig = 65) then take 64 sig else sig.

Lemma reslice_le {A} (s : slice A) n :
  n ≤ len s → ∃ s', reslice s n = Ok s' ∧ elems s' = take n (elems s).
Proof.
  unfold reslice, len, cap. intros Hn. rewrite decide_True by lia.
  destruct s as [|l r]; cbn in *; eexists; (split; [done|]); cbn.
  - by rewrite take_nil.
  - by rewrite take_app_le.
Qed.

Lemma cut_recovery_byte (s : slice byte) :
  ∃ s', (if decide (len s = 65) then reslice s 64 else Ok s) = Ok s' ∧
    elems s' = without_recovery_byte (elems s).
Proof.
  unfold without_recovery_byte, len. case_decide.
  - apply reslice_le. unfold len. lia.
  - eauto.
Qed.

(** Decoding the text of a struct, in any surrounding. *)
Lemma DecodeSecondSig_print s spare :
  ∃ s', DecodeSecondSigFromMemo (MkSlice (Json.print (SecondarySignature_json s)) spare) = Ok s' ∧
    elems (PublicKey s') = elems (PublicKey s) ∧
    elems (Signature s') = without_recovery_byte (elems (Signature s)).
Proof.
  unfold DecodeSecondSigFromMemo, Json.Unmarshal.
  rewrite Json.parse_print by by apply plain_memo.
  destruct (decode_memo_json s zero_SecondarySignature) as (t & -> & Ep & Eg). cbn.
  destruct (cut_recovery_byte (Signature t)) as (g & -> & Eg'). cbn.
  eexists. split; [done|]. cbn. by rewrite Ep, Eg', Eg.
Qed.

(** C34. Encoding a secondary signature into a memo and decoding it back gives
    the same public key, and the same signature without its recovery byte. *)
Theorem memo_roundtrip s :
  ∃ memo s', EncodeMemoWithSecondSig s = Ok memo ∧
    DecodeSecondSigFromMemo (mk memo) = Ok s' ∧
    elems (PublicKey s') = elems (PublicKey s) ∧
    elems (Signature s') = without_recovery_byte (elems (Signature s)).
Proof.
  destruct (DecodeSecondSig_print s []) as (s' & E & Ep & Eg).
  by eexists _, s'.
Qed.

(** Decoding never hands out a 65-byte signature and never panics; it
    fails exactly on a nil memo, on text that is not a valid document, and on
    a document that does not fit the struct. *)
Theorem DecodeSecondSig_total memo :
  not_panic (DecodeSecondSigFromMemo memo) ∧
  (∀ s, DecodeSecondSigFromMemo memo = Ok s → len (Signature s) ≠ 65) ∧
  (is_Ok (DecodeSecondSigFromMemo memo) = true ↔
     ∃ v t, memo ≠ NilSlice ∧ Json.parse (elems memo) = Some v ∧
       Json.decode_struct SecondarySignature_fields v zero_SecondarySignature = (t, None)).
Proof.
  destruct memo as [|data r].
  { split_and!; [done|done|]. split; [done|]. by intros (? & ? & ? & _). }
  unfold DecodeSecondSigFromMemo, Json.Unmarshal, elems.
  destruct (Json.parse data) as [v|]; cbn [catch_o].
  2: { split_and!; [done|done|]. split; [done|]. by intros (? & ? & _ & ? & _). }
  destruct (Json.decode_struct _ v _) as [t [e|]] eqn:Ed; cbn [catch_o].
  { split_and!; [done|done|]. split; [done|]. intros (? & ? & _ & [= <-] & E).
    congruence. }
  destruct (cut_recovery_byte (Signature t)) as (g & -> & Eg). cbn.
  split_and!; [done| |].
  - intros s [= <-]. cbn. unfold len. rewrite Eg. unfold without_recovery_byte.
    case_decide; [rewrite length_take|]; lia.
  - split; [|done]. intros _. by exists v, t.
Qed.

(** [Validate] accepts exactly the pairs of non-empty fields, and names the
    first one missing. *)
Theorem Validate_spec s :
  Validate s =
    match elems (PublicKey s), elems (Signature s) with
    | [], _ => Err (ErrorString "missing public key")
    | _, [] => Err (ErrorString "missing signature")
    | _, _ => Ok tt
    end.
Proof. unfold Validate, len. by destruct (elems (PublicKey s)), (elems (Signature s)). Qed.

(** [GetAddr] returns the address of the first signer's key exactly when
    the transaction is verifiable, its signatures can be read, there is one,
    and it has a key of which the address can be made. *)
Theorem GetAddr_Ok tx addr :
  GetAddr tx = Ok addr ↔
  ∃ sigs pk rest, sigTx tx = Some (Ok sigs) ∧ sigs = {| PubKey := Some pk |} :: rest ∧
    Address pk = inr addr.
Proof.
  unfold GetAddr. split.
  - destruct (sigTx tx) as [[[|[[pk|]] rest]|e|v]|]; cbn; try done.
    destruct (Address pk) as [v|a] eqn:E; [done|]. intros [= <-]. by eexists _, _, _.
  - intros (sigs & pk & rest & -> & -> & E). cbn. by rewrite E.
Qed.

End MemoFacts.

(** ** Memo creation *)

Section CreateFacts.
Context `{!Json.GoRuntime, !EthCrypto}.

(** A decoded pair that carries a valid proof of possession: the signature is
    one of the key over its own hash. *)
Definition proves_possession (pk sig : bytes) : Prop :=
  VerifySignature pk (Keccak256 pk) sig = true.

(** What [CreateValidMemo] prints. *)
Lemma CreateValidMemo_shape `{!EthCryptoLaws good} k :
  good k →
  ∃ s, CreateValidMemo (Ok k) = Ok (str "SECONDARY" ++ Json.print (SecondarySignature_json s)) ∧
    elems (PublicKey s) = FromECDSAPub (Some (PublicKeyOf k)) ∧
    length (elems (Signature s)) = 64 ∧
    proves_possession (elems (PublicKey s)) (elems (Signature s)).
Proof.
  intros Hk. unfold CreateValidMemo. cbn [catch_o].
  set (pk := FromECDSAPub (Some (PublicKeyOf k))).
  destruct (Sign_total (Keccak256 pk) k Hk) as [sig Hs]; [apply Keccak256_length|].
  pose proof (Sign_length _ _ _ Hs) as Hl. pose proof (Sign_verify _ _ _ Hs) as Hv.
  rewrite Hs. cbn [catch_o].
  destruct (reslice_le (mk sig) 64) as (g & Eg & Egs); [unfold len; cbn; lia|].
  rewrite Eg. cbn [mbind outcome_bind]. unfold EncodeMemoWithSecondSig. cbn [catch_o].
  cbn [PublicKey Signature]. rewrite Egs. cbn [elems mk]. fold pk in Hv. rewrite Hv.
  eexists. split_and!; [done|done|..]; cbn [PublicKey Signature]; rewrite Egs.
  - rewrite length_take. change (elems (mk sig)) with sig. lia.
  - done.
Qed.

(** Reading a memo that was printed from a pair with a 64-byte signature. *)
Lemma DecodeSecondSig_own s spare :
  length (elems (Signature s)) = 64 → elems (PublicKey s) ≠ [] →
  ∃ s', DecodeSecondSigFromMemo (MkSlice (Json.print (SecondarySignature_json s)) spare) = Ok s' ∧
    elems (PublicKey s') = elems (PublicKey s) ∧
    elems (Signature s') = elems (Signature s) ∧ Validate s' = Ok tt.
Proof.
  intros Hl Hp. destruct (DecodeSecondSig_print s spare) as (s' & Ed & Ep & Es).
  unfold without_recovery_byte in Es. rewrite decide_False in Es by lia.
  exists s'. split_and!; [done..|]. unfold Validate, len. rewrite Ep, Es, Hl.
  by destruct (elems (PublicKey s)).
Qed.

(** With a freshly generated usable key, [CreateValidMemo] returns the
    prefix followed by a text that decodes to that key and to a signature of
    it that verifies. *)
Theorem CreateValidMemo_ok `{!EthCryptoLaws good} k :
  good k →
  ∃ memo s, CreateValidMemo (Ok k) = Ok (str "SECONDARY" ++ memo) ∧
    DecodeSecondSigFromMemo (mk memo) = Ok s ∧
    elems (PublicKey s) = FromECDSAPub (Some (PublicKeyOf k)) ∧
    proves_possession (elems (PublicKey s)) (elems (Signature s)).
Proof.
  intros Hk. destruct (CreateValidMemo_shape k Hk) as (s & E & Ep & Hl & Hv).
  destruct (DecodeSecondSig_own s [] Hl) as (s' & Ed & Ep' & Es' & _).
  { intros E0. rewrite E0 in Hv. by apply Verify_pubkey in Hv. }
  exists (Json.print (SecondarySignature_json s)), s'. split_and!; [done|done|congruence|].
  unfold proves_possession. by rewrite Ep', Es'.
Qed.

(** A fresh signature that fails its verification is not reported: the
    function returns the empty memo and a nil error. *)
Theorem CreateValidMemo_silent_failure k sig :
  Sign (Keccak256 (FromECDSAPub (Some (PublicKeyOf k)))) k = Ok sig → 64 ≤ length sig →
  VerifySignature (FromECDSAPub (Some (PublicKeyOf k)))
    (Keccak256 (FromECDSAPub (Some (PublicKeyOf k)))) (take 64 sig) = false →
  CreateValidMemo (Ok k) = Ok [].
Proof.
  intros Hs Hl Hv. unfold CreateValidMemo. cbn [catch_o]. rewrite Hs. cbn [catch_o].
  destruct (reslice_le (mk sig) 64) as (g & -> & Egs); [done|].
  cbn [mbind outcome_bind]. unfold EncodeMemoWithSecondSig. cbn [catch_o PublicKey Signature].
  rewrite Egs. cbn [elems mk]. by rewrite Hv.
Qed.

End CreateFacts.

(** ** Account extraction *)

Section AccountFacts.
Context `{!Json.GoRuntime}.

Definition BaseAccount_json (b : BaseAccount) : Json.json :=
  Json.JObj [(str "account_number", Json.JStr (AccountNumber b));
             (str "sequence", Json.JStr (Sequence b))].

Definition plain_account (b : BaseAccount) : Prop :=
  Forall Json.plain_char (AccountNumber b) ∧ Forall Json.plain_char (Sequence b) ∧
  AccountNumber b ≠ [].

Lemma decode_BaseAccount b t :
  plain_account b → Json.decode_struct BaseAccount_fields (BaseAccount_json b) t = (b, None).
Proof.
  intros (Ha & Hs & _). destruct b as [a s], t as [a0 s0]. cbn in Ha, Hs.
  change (Json.decode_struct BaseAccount_fields (BaseAccount_json _) _) with
    (({| AccountNumber := Json.unquote a; Sequence := Json.unquote s |}, None : Json.saved)).
  by rewrite !Json.unquote_plain.
Qed.

(** The three shapes the node's account endpoint answers with. *)
Inductive account_document (b : BaseAccount) : Json.json → Prop :=
| doc_direct : account_document b (BaseAccount_json b)
| doc_nested : account_document b (Json.JObj [(str "base_account", BaseAccount_json b)])
| doc_vesting : account_document b
    (Json.JObj [(str "base_vesting_account",
                 Json.JObj [(str "base_account", BaseAccount_json b)])]).

(** A document whose only name is unknown leaves the struct as it is. *)
Lemma unknown_field {T} (fs : Json.fields T) k v t :
  Json.find_field fs (Json.unquote k) = None →
  Json.decode_struct fs (Json.JObj [(k, v)]) t = (t, None).
Proof. intros E. cbn -[Json.find_field Json.unquote]. by rewrite E. Qed.

Lemma find_base_account :
  Json.find_field BaseAccount_fields (Json.unquote (str "base_account")) = None.
Proof. reflexivity. Qed.

Lemma find_vesting_base :
  Json.find_field BaseAccount_fields (Json.unquote (str "base_vesting_account")) = None.
Proof. reflexivity. Qed.

Lemma find_vesting_nested :
  Json.find_field nested_fields (Json.unquote (str "base_vesting_account")) = None.
Proof. reflexivity. Qed.

(** The base account is found in each of the three shapes. *)
Theorem ExtractBaseAccount_shapes b v :
  plain_account b → account_document b v → ExtractBaseAccount (Some v) = Ok b.
Proof.
  intros Hb Hv. pose proof (λ t, decode_BaseAccount b t Hb) as E.
  assert (AccountNumber b ≠ []) as Hne by apply Hb.
  set (j := BaseAccount_json b) in *.
  assert (∀ t, Json.decode_struct nested_fields (Json.JObj [(str "base_account", j)]) t = (b, None))
    as En.
  { intros t. change (Json.decode_struct nested_fields _ _) with
      (let '(t2, e') := Json.decode_struct BaseAccount_fields j t in (t2, Json.save e' None)).
    by rewrite E. }
  assert (∀ t, Json.decode_struct VestingAccount_fields (Json.JObj [(str "base_account", j)]) t =
               ({| VestingAccount_BaseAccount := b |}, None)) as Ev.
  { intros t. transitivity
      (let '(t2, e') :=
         (let '(x, e) := Json.decode_struct BaseAccount_fields j (VestingAccount_BaseAccount t) in
          ({| VestingAccount_BaseAccount := x |}, e)) in (t2, Json.save e' None)); [reflexivity|].
    by rewrite E. }
  assert (∀ d t, Json.decode_struct vesting_fields
      (Json.JObj [(str "base_vesting_account", Json.JObj [(str "base_account", j)])]) t = d →
      d = ({| VestingAccount_BaseAccount := b |}, None)) as Ew.
  { intros d t <-. transitivity
      (let '(t2, e') := Json.decode_struct VestingAccount_fields
         (Json.JObj [(str "base_account", j)]) t in (t2, Json.save e' None)); [reflexivity|].
    by rewrite Ev. }
  destruct Hv; unfold ExtractBaseAccount.
  - rewrite E. unfold id. by rewrite decide_False.
  - rewrite (unknown_field BaseAccount_fields _ _ _ find_base_account), En.
    unfold id. cbn [AccountNumber]. by rewrite decide_True, decide_False.
  - rewrite (unknown_field BaseAccount_fields _ _ _ find_vesting_base),
      (unknown_field nested_fields _ _ _ find_vesting_nested), (Ew _ _ eq_refl).
    unfold id. cbn [AccountNumber VestingAccount_BaseAccount].
    by rewrite decide_True, decide_False.
Qed.

(** What is found always has an account number. *)
Lemma ExtractBaseAccount_number raw b :
  ExtractBaseAccount raw = Ok b → AccountNumber b ≠ [].
Proof.
  unfold ExtractBaseAccount. destruct raw as [v|]; [|done].
  destruct (Json.decode_struct BaseAccount_fields v _) as [t1 [e1|]],
           (Json.decode_struct nested_fields v _) as [t2 [e2|]],
           (Json.decode_struct vesting_fields v _) as [t3 [e3|]]; cbn;
    repeat case_decide; intros E; (done || (injection E as <-; done)).
Qed.

Lemma parse_uint_loop_range n s :
  (0 ≤ n < 2 ^ 64)%Z → (0 ≤ (parse_uint_loop n s).1 < 2 ^ 64)%Z.
Proof.
  revert n. induction s as [|c s IH]; intros n Hn; cbn [parse_uint_loop]; [done|].
  destruct (_ && _) eqn:Hd; [|done]. destruct (_ <? _)%Z eqn:Hlt; [|done].
  apply IH. apply andb_true_iff in Hd as [?%Z.leb_le ?%Z.leb_le]. apply Z.ltb_lt in Hlt. lia.
Qed.

Lemma ParseUint_range s : (0 ≤ (ParseUint s).1 < 2 ^ 64)%Z.
Proof.
  unfold ParseUint. destruct s; [done|]. apply parse_uint_loop_range. done.
Qed.

(** The account and sequence numbers handed out always fit [uint64]; the
    parse errors of the two texts are dropped, so that a text that is no number
    counts as 0 and one out of range as the largest value. *)
Theorem GetAccountNumbers_spec get addr :
  match GetAccountNumbers get addr with
  | Ok (accNum, seq) => (0 ≤ accNum < 2 ^ 64)%Z ∧ (0 ≤ seq < 2 ^ 64)%Z ∧
      ∃ base, AccountNumber base ≠ [] ∧ accNum = (ParseUint (AccountNumber base)).1 ∧
        seq = (ParseUint (Sequence base)).1
  | _ => True
  end.
Proof.
  unfold GetAccountNumbers. destruct (get _) as [body|e|v]; cbn [catch_o]; [|done..].
  destruct (Json.parse_value _ _ _) as [[v rest]|]; [|done].
  destruct (Json.decode_struct AccountResp_fields _ _) as [resp [e|]]; [done|].
  destruct (ExtractBaseAccount (Account resp)) as [base|e|p] eqn:E; cbn [catch_o]; [|done..].
  split_and!; try apply ParseUint_range.
  exists base. split; [by eapply ExtractBaseAccount_number|done].
Qed.

End AccountFacts.

(** ** The properties at concrete inputs *)

Section Witnesses.
Import ToyCrypto DoublingRuntime.

Definition sample_key : @ecdsa_PrivateKey toy_crypto := Some x2a.

Lemma CreateValidMemo_ok_witness :
  is_Some (Some x2a) ∧
  ∃ memo s, CreateValidMemo (Ok sample_key) = Ok (str "SECONDARY" ++ memo) ∧
    DecodeSecondSigFromMemo (mk memo) = Ok s ∧
    elems (PublicKey s) = x04 :: replicate 64 x2a ∧
    proves_possession (elems (PublicKey s)) (elems (Signature s)).
Proof.
  split; [by eexists|]. apply (CreateValidMemo_ok sample_key). by eexists.
Defined.

(** A scheme whose signatures never verify. *)
Definition broken_crypto : EthCrypto := {|
  ecdsa_PublicKey := byte;
  ecdsa_PrivateKey := byte;
  zeroPrivateKey := x00;
  PublicKeyOf k := k;
  Sign h k := Ok (replicate 65 k);
  SigToPub h s := Err (ErrorString "recovery failed");
  FromECDSAPub pk := match pk with Some b => [b] | None => [] end;
  VerifySignature pk h s := false;
  Keccak256 s := s
|}.

Lemma CreateValidMemo_silent_failure_witness :
  @CreateValidMemo broken_crypto (Ok x01) = Ok [].
Proof.
  apply (@CreateValidMemo_silent_failure broken_crypto x01 (replicate 65 x01)).
  - reflexivity.
  - rewrite length_replicate. lia.
  - reflexivity.
Defined.

Lemma ExtractBaseAccount_shapes_witness :
  ExtractBaseAccount (Some (Json.JObj [(str "base_vesting_account",
    Json.JObj [(str "base_account",
      BaseAccount_json {| AccountNumber := str "7"; Sequence := str "12" |})])])) =
    Ok {| AccountNumber := str "7"; Sequence := str "12" |}.
Proof.
  apply ExtractBaseAccount_shapes.
  - split_and!; repeat constructor; try done.
  - constructor.
Defined.

End Witnesses.
