(* ===== verification/Wire.v ===== *)
(** The protobuf code that gogoproto generates, once: every [*.pb.go] file of
    the two modules is an instance of the same text.  [encodeVarint], [sov],
    [skip] and the parts [Marshal], [MarshalTo], [MarshalToSizedBuffer] and
    [Unmarshal] of a message are made of; the field order and the field names
    come from the messages, the error values from the file.  The reference
    encoding states what the generated code computes. *)
From S2P Require Import Prelude.
From stdpp Require Import pretty.

#[local] Open Scope go_scope.
#[local] Open Scope Z_scope.

(** ** Errors; each generated file has its own three *)

Definition pb_file : Type := string.
Definition ErrInvalidLength (f : pb_file) : error :=
  Sentinel f "proto: negative length found during unmarshaling".
Definition ErrIntOverflow (f : pb_file) : error := Sentinel f "proto: integer overflow".
Definition ErrUnexpectedEndOfGroup (f : pb_file) : error :=
  Sentinel f "proto: unexpected end of group".
Definition ErrUnexpectedEOF : error := Sentinel "io" "unexpected EOF".
Definition ErrWireType (w : Z) (field : string) : error :=
  ErrorString (String.app "proto: wrong wireType = "
    (String.app (pretty w) (String.app " for field " field))).
Definition ErrEndGroup (message : string) : error :=
  ErrorString (String.app "proto: "
    (String.app message ": wiretype end group for non-group")).
Definition ErrIllegalTag (message : string) (fieldNum wire : Z) : error :=
  ErrorString (String.app "proto: " (String.app message (String.app ": illegal tag "
    (String.app (pretty fieldNum) (String.app " (wire type "
      (String.app (pretty wire) ")")))))).
Definition ErrIllegalWireType (w : Z) : error :=
  ErrorString (String.app "proto: illegal wireType " (pretty w)).
(** The value of a loop the model stopped; no call returns it. *)
Definition OutOfFuel : error := ErrorString "out of fuel".
Definition IndexOutOfRange : error := RuntimeError "index out of range".

Definition Zlen (s : bytes) : Z := Z.of_nat (length s).

(** ** Encoding *)

(** [math/bits.Len64]. *)
Definition Len64 (x : Z) : Z := if x =? 0 then 0 else Z.log2 x + 1.

Definition sov (x : Z) : Z := (Len64 (Z.lor x 1) + 6) / 7.
Definition soz (x : Z) : Z :=
  sov (uint64 (Z.lxor (uint64 (Z.shiftl x 1)) (uint64 (Z.shiftr (int64 x) 63)))).

(** [dAtA[i] = b] *)
Definition store_byte (i : Z) (b : byte) : GoM bytes unit := fun dAtA =>
  if (0 <=? i) && (i <? Zlen dAtA) then (Ok tt, <[Z.to_nat i := b]> dAtA)
  else (Panic IndexOutOfRange, dAtA).

(** [copy(dAtA[i:], src)] *)
Definition copy_at (i : Z) (src : bytes) : GoM bytes unit := fun dAtA =>
  if (0 <=? i) && (i <=? Zlen dAtA) then
    let n := Z.to_nat i in
    let src' := take (length dAtA - n) src in
    (Ok tt, take n dAtA ++ src' ++ drop (n + length src') dAtA)
  else (Panic (RuntimeError "slice bounds out of range"), dAtA).

(** The loop of [encodeVarint]; [v] loses seven bits each round, so ten rounds
    do for 64 bits. *)
Fixpoint encodeVarint_loop (fuel : nat) (offset v : Z) : GoM bytes unit :=
  match fuel with
  | O => fail OutOfFuel
  | S fuel =>
      if 2 ^ 7 <=? v then
        store_byte offset (byte_of_Z (Z.lor (Z.land v 127) 128)) ;;
        encodeVarint_loop fuel (offset + 1) (Z.shiftr v 7)
      else store_byte offset (byte_of_Z v)
  end.

Definition encodeVarint (offset v : Z) : GoM bytes Z :=
  let offset := offset - sov v in
  let base := offset in
  encodeVarint_loop 10 offset v ;;
  mret base.

(** [if len(m.F) > 0 { i -= len(m.F); copy(dAtA[i:], m.F);
    i = encodeVarint(dAtA, i, uint64(len(m.F))); i--; dAtA[i] = tag }] *)
Definition put_string (encodeVarint : Z → Z → GoM bytes Z) (tag : byte) (s : bytes) (i : Z)
    : GoM bytes Z :=
  if 0 <? Zlen s then
    let i := i - Zlen s in
    copy_at i s ;;
    i ← encodeVarint i (uint64 (Zlen s));
    let i := i - 1 in
    store_byte i tag ;;
    mret i
  else mret i.

(** The embedded, non-nullable message: [size, err :=
    m.F.MarshalToSizedBuffer(dAtA[:i])] works on the first [i] bytes of the
    same buffer. *)
Definition put_message (encodeVarint : Z → Z → GoM bytes Z) (tag : byte) (marshal : GoM bytes Z) (i : Z)
    : GoM bytes Z :=
  size ← (fun dAtA =>
            if (0 <=? i) && (i <=? Zlen dAtA) then
              let '(r, sub) := marshal (take (Z.to_nat i) dAtA) in
              (r, sub ++ drop (Z.to_nat i) dAtA)
            else (Panic (RuntimeError "slice bounds out of range"), dAtA));
  let i := i - size in
  i ← encodeVarint i (uint64 size);
  let i := i - 1 in
  store_byte i tag ;;
  mret i.

(** [MarshalToSizedBuffer]: from [i := len(dAtA)] down, the fields last to
    first, to [return len(dAtA) - i]. *)
Definition to_sized_buffer (body : Z → GoM bytes Z) : GoM bytes Z := fun dAtA =>
  (i ← body (Zlen dAtA); mret (Zlen dAtA - i)) dAtA.

(** [make([]byte, size)] and [dAtA[:n]] *)
Definition make_bytes (size : Z) : bytes := replicate (Z.to_nat size) x00.

Definition Marshal (size : Z) (toSized : GoM bytes Z) : outcome bytes :=
  match toSized (make_bytes size) with
  | (Ok n, dAtA) =>
      if (0 <=? n) && (n <=? Zlen dAtA) then Ok (take (Z.to_nat n) dAtA)
      else Panic (RuntimeError "slice bounds out of range")
  | (Err e, _) => Err e
  | (Panic v, _) => Panic v
  end.

(** [m.MarshalToSizedBuffer(dAtA[:size])] on the caller's slice, whose
    capacity bounds [size]. *)
Definition MarshalTo (size : Z) (toSized : GoM bytes Z) : GoM bytes Z := fun dAtA =>
  if (0 <=? size) && (size <=? Zlen dAtA) then
    let '(r, sub) := toSized (take (Z.to_nat size) dAtA) in
    (r, sub ++ drop (Z.to_nat size) dAtA)
  else (Panic (RuntimeError "slice bounds out of range"), dAtA).

(** [XXX_Marshal], given the library's deterministic marshaller: the other
    branch fills [b] from the end of its capacity and returns its first [n]
    bytes. *)
Definition XXX_Marshal (deterministic_marshal : slice byte → outcome bytes)
    (toSized : GoM bytes Z) (b : slice byte) (deterministic : bool) : outcome bytes :=
  if deterministic then deterministic_marshal b
  else
    match toSized (elems b ++ spare b) with
    | (Ok n, dAtA) =>
        if (0 <=? n) && (n <=? Zlen dAtA) then Ok (take (Z.to_nat n) dAtA)
        else Panic (RuntimeError "slice bounds out of range")
    | (Err e, _) => Err e
    | (Panic v, _) => Panic v
    end.

(** The terms of [Size]. *)
Definition size_string (sov : Z → Z) (s : bytes) : Z :=
  let l := Zlen s in if 0 <? l then 1 + l + sov (uint64 l) else 0.
Definition size_message (sov : Z → Z) (l : Z) : Z := 1 + l + sov (uint64 l).

(** ** Decoding *)

Definition index (dAtA : bytes) (i : Z) : outcome byte :=
  if i <? 0 then Panic IndexOutOfRange
  else match dAtA !! Z.to_nat i with
       | Some b => Ok b
       | None => Panic IndexOutOfRange
       end.

(** [for shift := uint(0); ; shift += 7 { ... }] from index [iNdEx]: the value
    and the index after it.  [conv] is the integer type that accumulates. *)
Fixpoint varint_loop (conv : Z → Z) (f : pb_file) (dAtA : bytes) (fuel : nat)
    (shift acc iNdEx : Z) : outcome (Z * Z) :=
  match fuel with
  | O => Err OutOfFuel
  | S fuel =>
      if 64 <=? shift then Err (ErrIntOverflow f)
      else if Zlen dAtA <=? iNdEx then Err ErrUnexpectedEOF
      else
        b ← index dAtA iNdEx;
        let iNdEx := iNdEx + 1 in
        let acc := conv (Z.lor acc (Z.shiftl (Z.land (Z_of_byte b) 127) shift)) in
        if Z_of_byte b <? 128 then Ok (acc, iNdEx)
        else varint_loop conv f dAtA fuel (shift + 7) acc iNdEx
  end.

(** Ten rounds read a value, the eleventh meets the [shift >= 64] test. *)
Definition varint (conv : Z → Z) (f : pb_file) (dAtA : bytes) (iNdEx : Z) : outcome (Z * Z) :=
  varint_loop conv f dAtA 11 0 0 iNdEx.

(** The same loop without a value. *)
Fixpoint skip_varint (f : pb_file) (dAtA : bytes) (fuel : nat) (shift iNdEx : Z) : outcome Z :=
  match fuel with
  | O => Err OutOfFuel
  | S fuel =>
      if 64 <=? shift then Err (ErrIntOverflow f)
      else if Zlen dAtA <=? iNdEx then Err ErrUnexpectedEOF
      else
        let iNdEx := iNdEx + 1 in
        b ← index dAtA (iNdEx - 1);
        if Z_of_byte b <? 128 then Ok iNdEx
        else skip_varint f dAtA fuel (shift + 7) iNdEx
  end.

(** One turn of [skip]'s loop: the index and the group depth after one tag and
    its value. *)
Definition skip_step (f : pb_file) (dAtA : bytes) (iNdEx depth : Z) : outcome (Z * Z) :=
  '(wire, iNdEx) ← varint uint64 f dAtA iNdEx;
  let wireType := Z.land wire 7 in
  if wireType =? 0 then iNdEx ← skip_varint f dAtA 11 0 iNdEx; Ok (iNdEx, depth)
  else if wireType =? 1 then Ok (int64 (iNdEx + 8), depth)
  else if wireType =? 2 then
    '(length, iNdEx) ← varint int64 f dAtA iNdEx;
    if length <? 0 then Err (ErrInvalidLength f) else Ok (int64 (iNdEx + length), depth)
  else if wireType =? 3 then Ok (iNdEx, depth + 1)
  else if wireType =? 4 then
    if depth =? 0 then Err (ErrUnexpectedEndOfGroup f) else Ok (iNdEx, depth - 1)
  else if wireType =? 5 then Ok (int64 (iNdEx + 4), depth)
  else Err (ErrIllegalWireType wireType).

Fixpoint skip_loop (f : pb_file) (dAtA : bytes) (fuel : nat) (iNdEx depth : Z) : outcome Z :=
  if iNdEx <? Zlen dAtA then
    match fuel with
    | O => Err OutOfFuel
    | S fuel =>
        '(iNdEx, depth) ← skip_step f dAtA iNdEx depth;
        if iNdEx <? 0 then Err (ErrInvalidLength f)
        else if depth =? 0 then Ok iNdEx
        else skip_loop f dAtA fuel iNdEx depth
    end
  else Err ErrUnexpectedEOF.

(** Each turn reads at least one byte. *)
Definition skip (f : pb_file) (dAtA : bytes) : outcome Z :=
  skip_loop f dAtA (length dAtA) 0 0.

(** [dAtA[i:j]] *)
Definition subslice (dAtA : bytes) (i j : Z) : outcome bytes :=
  if (0 <=? i) && (i <=? j) && (j <=? Zlen dAtA)
  then Ok (take (Z.to_nat (j - i)) (drop (Z.to_nat i) dAtA))
  else Panic (RuntimeError "slice bounds out of range").

(** The [default] case: [iNdEx = preIndex] and the unknown field is skipped. *)
Definition skip_field (f : pb_file) (skip : bytes → outcome Z) (dAtA : bytes) (iNdEx : Z) : outcome Z :=
  rest ← subslice dAtA iNdEx (Zlen dAtA);
  skippy ← skip rest;
  if (skippy <? 0) || (int64 (iNdEx + skippy) <? 0) then Err (ErrInvalidLength f)
  else if Zlen dAtA <? int64 (iNdEx + skippy) then Err ErrUnexpectedEOF
  else Ok (int64 (iNdEx + skippy)).

Section Decode.
Context {M : Type}.

(** A [case] of the switch on the field number; it may assign to the message. *)
Definition field_case : Type := Z → bytes → Z → GoM M Z.

(** The checks between a length and the contents it announces. *)
Definition bounded (f : pb_file) (dAtA : bytes) (iNdEx length : Z) : outcome Z :=
  if length <? 0 then Err (ErrInvalidLength f)
  else
    let postIndex := int64 (iNdEx + length) in
    if postIndex <? 0 then Err (ErrInvalidLength f)
    else if Zlen dAtA <? postIndex then Err ErrUnexpectedEOF
    else Ok postIndex.

Definition string_case (f : pb_file) (field : string) (assign : bytes → M → M) : field_case :=
  fun wireType dAtA iNdEx =>
    if negb (wireType =? 2) then fail (ErrWireType wireType field)
    else
      '(stringLen, iNdEx) ← lift (varint uint64 f dAtA iNdEx);
      let intStringLen := int64 stringLen in
      postIndex ← lift (bounded f dAtA iNdEx intStringLen);
      s ← lift (subslice dAtA iNdEx postIndex);
      modify (assign s) ;;
      mret postIndex.

(** [m.F.Unmarshal(dAtA[iNdEx:postIndex])] works on the field in place. *)
Definition message_case {P} (f : pb_file) (field : string) (get : M → P) (assign : P → M → M)
    (unmarshal : bytes → GoM P unit) : field_case :=
  fun wireType dAtA iNdEx =>
    if negb (wireType =? 2) then fail (ErrWireType wireType field)
    else
      '(msglen, iNdEx) ← lift (varint int64 f dAtA iNdEx);
      postIndex ← lift (bounded f dAtA iNdEx msglen);
      s ← lift (subslice dAtA iNdEx postIndex);
      zoom get assign (unmarshal s) ;;
      mret postIndex.

(** The [switch fieldNum]; a number without a case goes to [default]. *)
Definition switch (cases : list (Z * field_case)) (fieldNum : Z) : option field_case :=
  snd <$> List.find (fun c => c.1 =? fieldNum) cases.

Fixpoint unmarshal_loop (f : pb_file) (skip : bytes → outcome Z) (message : string)
    (cases : list (Z * field_case)) (dAtA : bytes) (fuel : nat) (iNdEx : Z) : GoM M unit :=
  if iNdEx <? Zlen dAtA then
    match fuel with
    | O => fail OutOfFuel
    | S fuel =>
        let preIndex := iNdEx in
        '(wire, iNdEx) ← lift (varint uint64 f dAtA iNdEx);
        let fieldNum := int32 (Z.shiftr wire 3) in
        let wireType := Z.land wire 7 in
        if wireType =? 4 then fail (ErrEndGroup message)
        else if fieldNum <=? 0 then fail (ErrIllegalTag message fieldNum wire)
        else
          iNdEx ← match switch cases fieldNum with
                  | Some c => c wireType dAtA iNdEx
                  | None => lift (skip_field f skip dAtA preIndex)
                  end;
          unmarshal_loop f skip message cases dAtA fuel iNdEx
    end
  else if Zlen dAtA <? iNdEx then fail ErrUnexpectedEOF
  else mret tt.

(** Each turn moves on by at least one byte. *)
Definition unmarshal (f : pb_file) (skip : bytes → outcome Z) (message : string)
    (cases : list (Z * field_case)) (dAtA : bytes) : GoM M unit :=
  unmarshal_loop f skip message cases dAtA (length dAtA) 0.

End Decode.

(** ** The reference encoding *)

Fixpoint varint_bytes_loop (fuel : nat) (v : Z) : bytes :=
  match fuel with
  | O => []
  | S fuel =>
      if v <? 128 then [byte_of_Z v]
      else byte_of_Z (128 + v mod 128) :: varint_bytes_loop fuel (v / 128)
  end.

(** Base 128, least significant digit first, every byte but the last marked. *)
Definition varint_bytes (v : Z) : bytes := varint_bytes_loop 10 v.

(** Tag, length and contents of a length-delimited field. *)
Definition delimited (tag : byte) (s : bytes) : bytes := tag :: varint_bytes (Zlen s) ++ s.

(** proto3: an empty string field is left out. *)
Definition string_field (tag : byte) (s : bytes) : bytes :=
  match s with [] => [] | _ => delimited tag s end.

(** ** Encoding facts *)

Lemma Zlen_app s t : Zlen (s ++ t) = Zlen s + Zlen t.
Proof. unfold Zlen. rewrite length_app. lia. Qed.

Lemma Zlen_cons b s : Zlen (b :: s) = 1 + Zlen s.
Proof. unfold Zlen. cbn. lia. Qed.

Lemma Zlen_nonneg s : 0 ≤ Zlen s.
Proof. unfold Zlen. lia. Qed.
#[export] Hint Resolve Zlen_nonneg : go.
#[export] Hint Rewrite Zlen_app Zlen_cons : go_simp.

Lemma lor_128 v : Z.lor (Z.land v 127) 128 = 128 + v mod 128.
Proof.
  change 127 with (Z.ones 7). rewrite land_ones_mod by done. change (2 ^ 7) with 128.
  rewrite Z.lor_comm. change 128 with (Z.shiftl 1 7) at 1.
  rewrite lor_shiftl_add by (zpow; lia). zpow. lia.
Qed.

Lemma shiftr_7 v : Z.shiftr v 7 = v / 128.
Proof. by rewrite shiftr_div. Qed.

Lemma pow_7S fuel : 2 ^ (7 * Z.of_nat (S fuel)) = 128 * 2 ^ (7 * Z.of_nat fuel).
Proof. replace (7 * Z.of_nat (S fuel)) with (7 + 7 * Z.of_nat fuel) by lia.
  rewrite Z.pow_add_r by lia. done. Qed.

Lemma Len64_step v : 128 ≤ v → Len64 (Z.lor v 1) = Len64 (Z.lor (v / 128) 1) + 7.
Proof.
  intros Hv. unfold Len64.
  assert (∀ w, 0 < w → (Z.lor w 1 =? 0) = false) as E0.
  { intros w Hw. apply Z.eqb_neq. intros [-> _]%Z.lor_eq_0_iff. lia. }
  rewrite !E0 by lia. rewrite !Z.log2_lor by lia. change (Z.log2 1) with 0.
  rewrite !Z.max_l by apply Z.log2_nonneg.
  replace (v / 128) with (Z.shiftr v 7) by apply shiftr_7.
  rewrite Z.log2_shiftr by lia.
  assert (Z.log2 128 ≤ Z.log2 v) by (apply Z.log2_le_mono; lia).
  change (Z.log2 128) with 7 in *. lia.
Qed.

Lemma sov_loop fuel v :
  0 ≤ v < 2 ^ (7 * Z.of_nat (S fuel)) →
  sov v = Zlen (varint_bytes_loop (S fuel) v).
Proof.
  revert v. induction fuel as [|fuel IH]; intros v Hv.
  all: cbn [varint_bytes_loop]; destruct (v <? 128) eqn:E.
  1,3: unfold sov, Len64; apply Z.ltb_lt in E;
    assert (Z.lor v 1 ≠ 0) by (intros [_ ?]%Z.lor_eq_0_iff; lia);
    rewrite (proj2 (Z.eqb_neq _ _)), Z.log2_lor by lia; change (Z.log2 1) with 0;
    rewrite Z.max_l by apply Z.log2_nonneg;
    assert (Z.log2 v ≤ Z.log2 127) by (apply Z.log2_le_mono; lia);
    pose proof (Z.log2_nonneg v); change (Z.log2 127) with 6 in *;
    change (Zlen [byte_of_Z v]) with 1; lia.
  - apply Z.ltb_ge in E. change (2 ^ (7 * Z.of_nat 1)) with 128 in Hv. lia.
  - apply Z.ltb_ge in E. rewrite pow_7S in Hv. rewrite Zlen_cons.
    change (if v / 128 <? 128 then _ else _) with (varint_bytes_loop (S fuel) (v / 128)).
    rewrite <-IH by (split; [|apply Z.div_lt_upper_bound]; lia).
    unfold sov. rewrite Len64_step by done. lia.
Qed.

(** [sov] is the number of bytes the encoding takes. *)
Lemma sov_length v : 0 ≤ v < 2 ^ 64 → sov v = Zlen (varint_bytes v).
Proof. intros Hv. apply (sov_loop 9). zpow. lia. Qed.

Lemma store_byte_app p b c q :
  store_byte (Zlen p) b (p ++ c :: q) = (Ok tt, p ++ b :: q).
Proof.
  unfold store_byte. rewrite Zlen_app, Zlen_cons.
  rewrite (proj2 (Z.leb_le _ _)), (proj2 (Z.ltb_lt _ _)) by (pose proof (Zlen_nonneg q); unfold Zlen in *; lia).
  cbn [andb]. unfold Zlen. rewrite Nat2Z.id. by rewrite insert_app_r_alt, Nat.sub_diag.
Qed.

Lemma encodeVarint_loop_S fuel offset v :
  encodeVarint_loop (S fuel) offset v =
    if 128 <=? v then
      store_byte offset (byte_of_Z (Z.lor (Z.land v 127) 128)) ;;
      encodeVarint_loop fuel (offset + 1) (Z.shiftr v 7)
    else store_byte offset (byte_of_Z v).
Proof. reflexivity. Qed.

Lemma varint_bytes_loop_S fuel v :
  varint_bytes_loop (S fuel) v =
    if v <? 128 then [byte_of_Z v]
    else byte_of_Z (128 + v mod 128) :: varint_bytes_loop fuel (v / 128).
Proof. reflexivity. Qed.

Lemma bind_ok {S A B} (m : GoM S A) (k : A → GoM S B) s a s' :
  m s = (Ok a, s') → (m ≫= k) s = k a s'.
Proof. intros E. unfold mbind, gom_bind. by rewrite E. Qed.

Lemma encodeVarint_loop_spec fuel v p hole q :
  0 ≤ v < 2 ^ (7 * Z.of_nat (S fuel)) →
  length hole = length (varint_bytes_loop (S fuel) v) →
  encodeVarint_loop (S fuel) (Zlen p) v (p ++ hole ++ q) =
    (Ok tt, p ++ varint_bytes_loop (S fuel) v ++ q).
Proof.
  revert v p hole. induction fuel as [|fuel IH]; intros v p hole Hv Hl;
    rewrite encodeVarint_loop_S; rewrite varint_bytes_loop_S in Hl |- *;
    rewrite Z.leb_antisym; destruct (v <? 128) eqn:E; cbn [negb].
  1,3: destruct hole as [|c [|]]; try done; apply store_byte_app.
  - apply Z.ltb_ge in E. change (2 ^ (7 * Z.of_nat 1)) with 128 in Hv. lia.
  - apply Z.ltb_ge in E. rewrite pow_7S in Hv. destruct hole as [|c hole]; [done|].
    cbn [app]. erewrite bind_ok by apply store_byte_app. rewrite lor_128, shiftr_7.
    set (b := byte_of_Z (128 + v mod 128)).
    replace (Zlen p + 1) with (Zlen (p ++ [b])) by (rewrite Zlen_app; done).
    replace (p ++ b :: hole ++ q) with ((p ++ [b]) ++ hole ++ q) by (by rewrite <-app_assoc).
    rewrite IH; [by rewrite <-app_assoc|split; [|apply Z.div_lt_upper_bound]; lia|].
    cbn [length] in Hl. congruence.
Qed.

(** ** Writing backwards

    [writes_back m w]: called with the index [i], [m] fills the bytes just
    before [i] with [w], leaves every other byte alone, and returns the index
    where [w] starts. *)
Definition writes_back (m : Z → GoM bytes Z) (w : bytes) : Prop :=
  ∀ pre hole suf, length hole = length w →
    m (Zlen (pre ++ hole)) (pre ++ hole ++ suf) = (Ok (Zlen pre), pre ++ w ++ suf).

(** [fills m w]: on a buffer at least as long as [w], [m] writes [w] at its end
    and returns the length of [w]. *)
Definition fills (m : GoM bytes Z) (w : bytes) : Prop :=
  ∀ pre hole, length hole = length w → m (pre ++ hole) = (Ok (Zlen w), pre ++ w).

Lemma writes_back_ret : writes_back mret [].
Proof. intros pre [|] suf; [|done]. intros _. by rewrite app_nil_r. Qed.

Lemma writes_back_bind m1 m2 w1 w2 :
  writes_back m1 w1 → writes_back m2 w2 →
  writes_back (fun i => i ← m1 i; m2 i) (w2 ++ w1).
Proof.
  intros H1 H2 pre hole suf Hl. rewrite length_app in Hl.
  rewrite <-(take_drop (length w2) hole).
  set (h2 := take _ hole). set (h1 := drop _ hole).
  assert (length h2 = length w2) by (unfold h2; rewrite length_take; lia).
  assert (length h1 = length w1) by (unfold h1; rewrite length_drop; lia).
  rewrite (app_assoc pre h2 h1), <-(app_assoc h2 h1 suf), (app_assoc pre h2 (h1 ++ suf)).
  erewrite bind_ok by (by apply H1). rewrite <-app_assoc, H2 by done.
  by rewrite <-!app_assoc.
Qed.

Lemma writes_back_ext m m' w :
  (∀ i s, m i s = m' i s) → writes_back m w → writes_back m' w.
Proof. intros E H pre hole suf Hl. rewrite <-E. by apply H. Qed.

Lemma store_back tag : writes_back (fun i => store_byte (i - 1) tag ;; mret (i - 1)) [tag].
Proof.
  intros pre hole suf Hl. destruct hole as [|c [|]]; try done.
  replace (Zlen (pre ++ [c]) - 1) with (Zlen pre) by (rewrite Zlen_app; unfold Zlen; cbn; lia).
  cbn [app]. by erewrite bind_ok by apply store_byte_app.
Qed.

Lemma encodeVarint_back v :
  0 ≤ v < 2 ^ 64 → writes_back (fun i => encodeVarint i v) (varint_bytes v).
Proof.
  intros Hv pre hole suf Hl. unfold encodeVarint.
  replace (Zlen (pre ++ hole) - sov v) with (Zlen pre).
  2: { rewrite sov_length, Zlen_app by done. unfold Zlen. lia. }
  erewrite bind_ok; [done|]. apply (encodeVarint_loop_spec 9); [zpow; lia|done].
Qed.

Lemma copy_back s : writes_back (fun i => copy_at (i - Zlen s) s ;; mret (i - Zlen s)) s.
Proof.
  intros pre hole suf Hl.
  assert (Zlen (pre ++ hole) - Zlen s = Zlen pre) as -> by (rewrite Zlen_app; unfold Zlen; lia).
  erewrite bind_ok; [done|]. unfold copy_at. rewrite !Zlen_app.
  rewrite !(proj2 (Z.leb_le _ _)) by (unfold Zlen; lia). cbn [andb]. unfold Zlen.
  rewrite Nat2Z.id, !length_app, (take_ge s) by lia. rewrite take_app_length, <-Hl.
  by rewrite drop_app_add, drop_app_length.
Qed.

(** The largest length a Go slice can have. *)
Definition fits (s : bytes) : Prop := Zlen s < 2 ^ 63.

(** The tag and the length, before the contents. *)
Lemma header_back tag s :
  fits s →
  writes_back (fun i => i ← encodeVarint i (uint64 (Zlen s)); store_byte (i - 1) tag ;; mret (i - 1))
    ([tag] ++ varint_bytes (Zlen s)).
Proof.
  unfold fits. intros Hs. pose proof (Zlen_nonneg s). rewrite uint64_small by (zpow; lia).
  eapply writes_back_bind; [apply encodeVarint_back; zpow; lia|]. apply store_back.
Qed.

Lemma delimited_back tag s m :
  fits s → writes_back m s →
  writes_back (fun i => i ← m i; i ← encodeVarint i (uint64 (Zlen s));
                        store_byte (i - 1) tag ;; mret (i - 1)) (delimited tag s).
Proof.
  intros Hs Hm. change (delimited tag s) with (([tag] ++ varint_bytes (Zlen s)) ++ s).
  apply (writes_back_bind m); [done|by apply header_back].
Qed.

Lemma put_string_back tag s : fits s → writes_back (put_string encodeVarint tag s) (string_field tag s).
Proof.
  intros Hs. destruct s as [|c s']; [apply writes_back_ret|]. set (s := c :: s') in *.
  eapply writes_back_ext; [|eapply delimited_back; [done|apply copy_back]].
  intros i b. unfold put_string. rewrite (proj2 (Z.ltb_lt 0 _)) by (unfold Zlen; cbn; lia).
  unfold mbind, gom_bind. by destruct (copy_at _ _ _) as [[] ?].
Qed.

Lemma fills_to_sized body w : writes_back body w → fills (to_sized_buffer body) w.
Proof.
  intros H pre hole Hl. unfold to_sized_buffer.
  specialize (H pre hole []  Hl). rewrite !app_nil_r in H.
  erewrite bind_ok by done. rewrite Zlen_app.
  assert (Zlen hole = Zlen w) as -> by (unfold Zlen; lia).
  by replace (Zlen pre + Zlen w - Zlen pre) with (Zlen w) by lia.
Qed.

Lemma Zlen_to_nat s : Z.to_nat (Zlen s) = length s.
Proof. apply Nat2Z.id. Qed.

Lemma put_message_back tag m w :
  fits w → fills m w → writes_back (put_message encodeVarint tag m) (delimited tag w).
Proof.
  intros Hw Hm pre hole suf Hl.
  change (delimited tag w) with (([tag] ++ varint_bytes (Zlen w)) ++ w) in *.
  set (hd := [tag] ++ varint_bytes (Zlen w)) in *. rewrite length_app in Hl.
  rewrite <-(take_drop (length hd) hole).
  set (h2 := take _ hole). set (h1 := drop _ hole).
  assert (length h2 = length hd) as H2 by (unfold h2; rewrite length_take; lia).
  assert (length h1 = length w) as H1 by (unfold h1; rewrite length_drop; lia).
  replace (pre ++ (h2 ++ h1) ++ suf) with ((pre ++ h2 ++ h1) ++ suf) by (by rewrite <-!app_assoc).
  unfold put_message. erewrite bind_ok.
  2: { rewrite (Zlen_app (pre ++ _)).
       rewrite !(proj2 (Z.leb_le _ _)) by (unfold Zlen; lia). cbn [andb].
       rewrite Zlen_to_nat, take_app_length, drop_app_length, app_assoc, Hm by done. done. }
  cbv zeta. replace (Zlen (pre ++ h2 ++ h1) - Zlen w) with (Zlen (pre ++ h2))
    by (rewrite !Zlen_app; unfold Zlen; lia).
  rewrite <-!app_assoc. by apply header_back.
Qed.

(** ** What the three entry points return *)

Lemma fills_whole m w hole : fills m w → length hole = length w → m hole = (Ok (Zlen w), w).
Proof. intros H. by apply (H []). Qed.

Lemma Marshal_fills m w : fills m w → Marshal (Zlen w) m = Ok w.
Proof.
  intros H. unfold Marshal, make_bytes. rewrite Zlen_to_nat.
  rewrite (fills_whole m w) by (done || apply length_replicate).
  rewrite !(proj2 (Z.leb_le _ _)) by (unfold Zlen; lia). cbn [andb].
  by rewrite Zlen_to_nat, take_ge.
Qed.

(** [MarshalTo] fills the front of the buffer and leaves the rest, and panics
    on a buffer that is too small. *)
Lemma MarshalTo_fills m w buf :
  fills m w →
  MarshalTo (Zlen w) m buf =
    if decide (length w ≤ length buf)%nat then (Ok (Zlen w), w ++ drop (length w) buf)
    else (Panic (RuntimeError "slice bounds out of range"), buf).
Proof.
  intros H. unfold MarshalTo. rewrite (proj2 (Z.leb_le 0 _)) by (unfold Zlen; lia).
  rewrite Zlen_to_nat. case_decide.
  - rewrite (proj2 (Z.leb_le _ _)) by (unfold Zlen; lia). cbn [andb].
    by rewrite (fills_whole m w) by (done || (rewrite length_take; lia)).
  - by rewrite (proj2 (Z.leb_gt _ _)) by (unfold Zlen; lia).
Qed.

(** [XXX_Marshal] is right on a slice whose capacity is the size. *)
Lemma XXX_Marshal_fills det m w b :
  fills m w → cap b = length w → XXX_Marshal det m b false = Ok w.
Proof.
  intros H Hc. unfold XXX_Marshal. unfold cap in Hc.
  rewrite (fills_whole m w) by (done || (rewrite length_app; lia)).
  rewrite !(proj2 (Z.leb_le _ _)) by (unfold Zlen; lia). cbn [andb].
  by rewrite Zlen_to_nat, take_ge.
Qed.

Lemma size_string_length tag s : fits s → size_string sov s = Zlen (string_field tag s).
Proof.
  unfold fits. intros Hs. destruct s as [|c s']; [done|]. set (s := c :: s') in *.
  change (string_field tag s) with (tag :: varint_bytes (Zlen s) ++ s).
  unfold size_string. pose proof (Zlen_nonneg s).
  rewrite (proj2 (Z.ltb_lt 0 _)) by (unfold Zlen; cbn; lia).
  rewrite uint64_small, sov_length, Zlen_cons, Zlen_app by (zpow; lia). lia.
Qed.

Lemma size_message_length tag s : fits s → size_message sov (Zlen s) = Zlen (delimited tag s).
Proof.
  unfold fits, size_message, delimited. intros Hs. pose proof (Zlen_nonneg s).
  rewrite uint64_small, sov_length, Zlen_cons, Zlen_app by (zpow; lia). lia.
Qed.

(** ** Decoding never panics and always ends

    [safe P r]: [r] is a value in [P] or an error the code returns; it is not a
    panic, and the model did not stop it. *)
Definition safe {A} (P : A → Prop) (r : outcome A) : Prop :=
  match r with
  | Ok a => P a
  | Err e => e ≠ OutOfFuel
  | Panic _ => False
  end.

Lemma safe_bind {A B} (P : A → Prop) (Q : B → Prop) m (k : A → outcome B) :
  safe P m → (∀ a, P a → safe Q (k a)) → safe Q (m ≫= k).
Proof. destruct m; cbn; auto. Qed.

Lemma safe_mono {A} (P Q : A → Prop) r : (∀ a, P a → Q a) → safe P r → safe Q r.
Proof. destruct r; cbn; auto. Qed.

Lemma index_ok dAtA i : 0 ≤ i < Zlen dAtA → ∃ b, index dAtA i = Ok b.
Proof.
  intros Hi. unfold index. rewrite (proj2 (Z.ltb_ge _ _)) by lia.
  destruct (lookup_lt_is_Some_2 dAtA (Z.to_nat i)) as [b E]; [unfold Zlen in *; lia|].
  rewrite E. eauto.
Qed.

(** The indices a varint read may end at. *)
Definition after (dAtA : bytes) (i i' : Z) : Prop := i < i' ≤ Zlen dAtA.

Lemma varint_loop_safe conv f dAtA fuel shift acc i :
  0 ≤ i → 64 ≤ shift + 7 * (Z.of_nat fuel - 1) → (0 < fuel)%nat →
  safe (λ r, (∃ x, r.1 = conv x) ∧ after dAtA i r.2) (varint_loop conv f dAtA fuel shift acc i).
Proof.
  revert shift acc i. induction fuel as [|fuel IH]; intros shift acc i Hi Hs Hf; [lia|].
  cbn [varint_loop]. destruct (64 <=? shift) eqn:E1; [done|]. apply Z.leb_gt in E1.
  destruct (Zlen dAtA <=? i) eqn:E2; [done|]. apply Z.leb_gt in E2.
  destruct (index_ok dAtA i) as [b ->]; [lia|]. cbn [mbind outcome_bind]. unfold after.
  case_match; cbn [safe fst snd]; [split; [eauto|lia]|].
  eapply safe_mono; [|apply IH; lia]. intros r [? Ha]. unfold after in Ha. split; [done|lia].
Qed.

Lemma varint_safe conv f dAtA i :
  0 ≤ i → safe (λ r, (∃ x, r.1 = conv x) ∧ after dAtA i r.2) (varint conv f dAtA i).
Proof. intros Hi. apply varint_loop_safe; lia. Qed.

Lemma skip_varint_safe f dAtA fuel shift i :
  0 ≤ i → 64 ≤ shift + 7 * (Z.of_nat fuel - 1) → (0 < fuel)%nat →
  safe (after dAtA i) (skip_varint f dAtA fuel shift i).
Proof.
  revert shift i. induction fuel as [|fuel IH]; intros shift i Hi Hs Hf; [lia|].
  cbn [skip_varint]. destruct (64 <=? shift) eqn:E1; [done|]. apply Z.leb_gt in E1.
  destruct (Zlen dAtA <=? i) eqn:E2; [done|]. apply Z.leb_gt in E2.
  replace (i + 1 - 1) with i by lia. destruct (index_ok dAtA i) as [b ->]; [lia|].
  cbn [mbind outcome_bind]. unfold after. case_match; cbn [safe]; [lia|].
  eapply safe_mono; [|apply IH; lia]. unfold after. lia.
Qed.

(** A wrapped sum of two non-negative [int]s is negative or no smaller. *)
Lemma int64_add a b :
  0 ≤ a < 2 ^ 63 → 0 ≤ b < 2 ^ 63 → int64 (a + b) < 0 ∨ int64 (a + b) = a + b.
Proof. unfold int64, signed. zpow. lia. Qed.

Lemma skip_step_safe f dAtA i depth :
  0 ≤ i → 0 ≤ depth → fits dAtA →
  safe (λ r, (r.1 < 0 ∨ i < r.1) ∧ r.1 < 2 ^ 63 ∧ 0 ≤ r.2) (skip_step f dAtA i depth).
Proof.
  unfold fits. intros Hi Hd Hl. unfold skip_step.
  eapply safe_bind; [by apply varint_safe|]. intros [wire i1] [_ Ha]. cbn in Ha. unfold after in Ha.
  pose proof (int64_range (i1 + 8)). pose proof (int64_range (i1 + 4)).
  destruct (Z.land wire 7 =? 0).
  { eapply safe_bind; [apply skip_varint_safe; lia|]. intros i2 Hi2. unfold after in Hi2.
    cbn. lia. }
  destruct (_ =? 1); [cbn; destruct (int64_add i1 8); zpow; lia|].
  destruct (_ =? 2).
  { eapply safe_bind; [apply varint_safe; lia|]. intros [n i2] [[x E] Hi2]. cbn in E, Hi2.
    unfold after in Hi2. pose proof (int64_range x). destruct (n <? 0) eqn:En; [done|].
    apply Z.ltb_ge in En. pose proof (int64_range (i2 + n)). cbn. subst n.
    destruct (int64_add i2 (int64 x)); lia. }
  destruct (_ =? 3); [cbn; lia|].
  destruct (_ =? 4).
  { destruct (depth =? 0) eqn:E0; [done|]. apply Z.eqb_neq in E0. cbn. lia. }
  destruct (_ =? 5); [cbn; destruct (int64_add i1 4); zpow; lia|]. done.
Qed.

Lemma skip_loop_safe f dAtA fuel i depth :
  0 ≤ i → 0 ≤ depth → fits dAtA → Zlen dAtA - i ≤ Z.of_nat fuel →
  safe (λ n, i < n < 2 ^ 63) (skip_loop f dAtA fuel i depth).
Proof.
  revert i depth. induction fuel as [|fuel IH]; intros i depth Hi Hd Hl Hf; cbn [skip_loop].
  - rewrite (proj2 (Z.ltb_ge _ _)) by lia. done.
  - destruct (i <? Zlen dAtA) eqn:E; [|done].
    eapply safe_bind; [by apply skip_step_safe|]. intros [i1 d1] (H1 & H2 & H3). cbn in H1, H2, H3.
    destruct (i1 <? 0) eqn:E1; [done|]. apply Z.ltb_ge in E1.
    destruct (d1 =? 0); [cbn; lia|].
    eapply safe_mono; [|apply IH; done || lia]. cbn. lia.
Qed.

Lemma skip_safe f dAtA : fits dAtA → safe (λ n, 0 < n < 2 ^ 63) (skip f dAtA).
Proof. intros Hl. apply skip_loop_safe; unfold Zlen; lia || done. Qed.

Lemma subslice_ok dAtA i j :
  0 ≤ i ≤ j → j ≤ Zlen dAtA →
  subslice dAtA i j = Ok (take (Z.to_nat (j - i)) (drop (Z.to_nat i) dAtA)).
Proof. intros Hi Hj. unfold subslice. by rewrite !(proj2 (Z.leb_le _ _)) by lia. Qed.

Lemma skip_field_safe f dAtA i :
  0 ≤ i ≤ Zlen dAtA → fits dAtA → safe (after dAtA i) (skip_field f (skip f) dAtA i).
Proof.
  unfold fits. intros Hi Hl. unfold skip_field. rewrite subslice_ok by lia.
  cbn [mbind outcome_bind]. eapply safe_bind.
  { apply skip_safe. unfold fits, Zlen in *. rewrite length_take, length_drop. lia. }
  intros n Hn. cbn beta in Hn |- *. destruct (int64_add i n ltac:(lia) ltac:(lia)) as [E|E].
  - rewrite (proj2 (Z.ltb_lt (int64 _) 0)), orb_true_r by done. done.
  - rewrite E, !(proj2 (Z.ltb_ge _ 0)) by lia. cbn [orb].
    destruct (_ <? _) eqn:E2; [done|]. apply Z.ltb_ge in E2. cbn. unfold after. lia.
Qed.

Lemma bounded_safe f dAtA i n :
  0 ≤ i ≤ Zlen dAtA → fits dAtA → n < 2 ^ 63 →
  safe (λ j, i ≤ j ≤ Zlen dAtA) (bounded f dAtA i n).
Proof.
  unfold fits. intros Hi Hl Hn. unfold bounded. destruct (n <? 0) eqn:E; [done|].
  apply Z.ltb_ge in E. destruct (int64_add i n ltac:(lia) ltac:(lia)) as [E1|E1]; cbv zeta.
  - by rewrite (proj2 (Z.ltb_lt _ 0)).
  - rewrite E1, (proj2 (Z.ltb_ge _ 0)) by lia. destruct (_ <? _) eqn:E2; [done|].
    apply Z.ltb_ge in E2. cbn. lia.
Qed.

(** The same for computations that assign to a message: whatever the message. *)
Definition safeM {S A} (P : A → Prop) (m : GoM S A) : Prop := ∀ s, safe P (m s).1.

Lemma safeM_bind {S A B} (P : A → Prop) (Q : B → Prop) (m : GoM S A) (k : A → GoM S B) :
  safeM P m → (∀ a, P a → safeM Q (k a)) → safeM Q (m ≫= k).
Proof.
  intros Hm Hk s. unfold mbind, gom_bind. specialize (Hm s).
  destruct (m s) as [[a|e|v] s']; cbn in *; [by apply Hk|done..].
Qed.

Lemma safeM_lift {S A} (P : A → Prop) r : safe P r → safeM (S:=S) P (lift r).
Proof. by intros H s. Qed.

Lemma safeM_fail {S A} (P : A → Prop) e : e ≠ OutOfFuel → safeM (S:=S) P (fail e).
Proof. by intros H s. Qed.

Definition case_safe {M} (c : @field_case M) : Prop := ∀ wireType dAtA i,
  0 ≤ i ≤ Zlen dAtA → fits dAtA → safeM (λ i', i ≤ i' ≤ Zlen dAtA) (c wireType dAtA i).

Lemma string_case_safe {M} f field (assign : bytes → M → M) :
  case_safe (string_case f field assign).
Proof.
  intros w dAtA i Hi Hl. unfold string_case. destruct (negb _); [by apply safeM_fail|].
  eapply safeM_bind; [apply safeM_lift, varint_safe; lia|]. intros [n i1] [_ Ha].
  cbn in Ha. unfold after in Ha. pose proof (int64_range n).
  eapply safeM_bind; [apply safeM_lift, bounded_safe; [lia|done|lia]|]. intros j Hj. cbn beta in Hj.
  cbn beta in Hj. rewrite subslice_ok by lia.
  intros m. change (i ≤ j ≤ Zlen dAtA). lia.
Qed.

Lemma message_case_safe {M P} f field (get : M → P) assign unmarshal :
  (∀ s, fits s → safeM (λ _, True) (unmarshal s)) →
  case_safe (message_case f field get assign unmarshal).
Proof.
  intros Hu w dAtA i Hi Hl. unfold message_case. destruct (negb _); [by apply safeM_fail|].
  eapply safeM_bind; [apply safeM_lift, varint_safe; lia|]. intros [n i1] [[x Ex] Ha].
  cbn in Ha, Ex. unfold after in Ha. pose proof (int64_range x).
  eapply safeM_bind; [apply safeM_lift, bounded_safe; [lia|done|lia]|]. intros j Hj. cbn beta in Hj.
  rewrite subslice_ok by lia. set (c := take _ _).
  apply (safeM_bind (λ s, s = c)); [by apply safeM_lift|]. intros s ->. eapply (safeM_bind (λ _, True)).
  - intros m. unfold zoom.
    assert (fits c) as Hs by (unfold c, fits, Zlen in *; rewrite length_take, length_drop; lia).
    specialize (Hu _ Hs (get m)). by destruct (unmarshal _ _).
  - intros _ _ m. change (i ≤ j ≤ Zlen dAtA). lia.
Qed.

Lemma unmarshal_loop_safe {M} f message (cases : list (Z * @field_case M)) dAtA fuel i :
  Forall (λ c, case_safe c.2) cases → 0 ≤ i → fits dAtA → Zlen dAtA - i ≤ Z.of_nat fuel →
  safeM (λ _, True) (unmarshal_loop f (skip f) message cases dAtA fuel i).
Proof.
  intros Hc. revert i. induction fuel as [|fuel IH]; intros i Hi Hl Hf; cbn [unmarshal_loop].
  - rewrite (proj2 (Z.ltb_ge i _)) by lia. intros m. by destruct (_ <? _).
  - destruct (i <? Zlen dAtA) eqn:E; [|by intros m; destruct (Zlen dAtA <? i)].
    apply Z.ltb_lt in E.
    eapply safeM_bind; [by apply safeM_lift, varint_safe|]. intros [wire i1] [_ Ha].
    cbn in Ha. unfold after in Ha. cbv zeta.
    destruct (_ =? 4); [by apply safeM_fail|]. destruct (_ <=? 0); [by apply safeM_fail|].
    apply (safeM_bind (after dAtA i)); [|unfold after; intros i2 ?; apply IH; done || lia].
    unfold switch. destruct (List.find _ cases) as [[k c]|] eqn:Ef; cbn.
    + apply List.find_some in Ef as [Hin _]. rewrite list.Forall_forall in Hc.
      intros m. eapply safe_mono, (Hc (k, c)); [|by apply list_elem_of_In|lia|done].
      cbn. unfold after. lia.
    + apply safeM_lift, skip_field_safe; [lia|done].
Qed.

(** Decoding any input ends with a message or one of the code's errors. *)
Lemma unmarshal_safe {M} f message (cases : list (Z * @field_case M)) dAtA :
  Forall (λ c, case_safe c.2) cases → fits dAtA →
  safeM (λ _, True) (unmarshal f (skip f) message cases dAtA).
Proof. intros Hc Hl. apply unmarshal_loop_safe; unfold Zlen; done || lia. Qed.

(** ** Decoding what was encoded *)

Lemma index_app p b q : index (p ++ b :: q) (Zlen p) = Ok b.
Proof.
  unfold index. rewrite (proj2 (Z.ltb_ge _ _)) by apply Zlen_nonneg.
  unfold Zlen. by rewrite Nat2Z.id, list_lookup_middle.
Qed.

(** The integer types that accumulate a varint, on the values they hold. *)
Definition keeps (conv : Z → Z) (bound : Z) : Prop := ∀ x, 0 ≤ x < bound → conv x = x.

Lemma keeps_uint64 : keeps uint64 (2 ^ 64).
Proof. intros x Hx. by apply uint64_small. Qed.

Lemma keeps_uint64_int : keeps uint64 (2 ^ 63).
Proof. intros x Hx. apply uint64_small. lia. Qed.

Lemma keeps_int64 : keeps int64 (2 ^ 63).
Proof. intros x Hx. apply int64_small. lia. Qed.
#[export] Hint Resolve keeps_uint64 keeps_uint64_int keeps_int64 : go.

Lemma land_127 b : Z.land b 127 = b mod 128.
Proof. change 127 with (Z.ones 7). by rewrite land_ones_mod. Qed.

Lemma lor_above acc b shift :
  0 ≤ shift → 0 ≤ acc < 2 ^ shift → Z.lor acc (Z.shiftl b shift) = acc + b * 2 ^ shift.
Proof. intros Hs Ha. rewrite Z.lor_comm, lor_shiftl_add by done. lia. Qed.

Lemma varint_loop_S conv f dAtA fuel shift acc i :
  varint_loop conv f dAtA (S fuel) shift acc i =
    if 64 <=? shift then Err (ErrIntOverflow f)
    else if Zlen dAtA <=? i then Err ErrUnexpectedEOF
    else
      b ← index dAtA i;
      let acc := conv (Z.lor acc (Z.shiftl (Z.land (Z_of_byte b) 127) shift)) in
      if Z_of_byte b <? 128 then Ok (acc, i + 1)
      else varint_loop conv f dAtA fuel (shift + 7) acc (i + 1).
Proof. reflexivity. Qed.

Lemma varint_loop_bytes conv bound f fuel k shift acc v p q :
  keeps conv bound → 0 ≤ shift → shift + 7 * Z.of_nat fuel ≤ 63 →
  0 ≤ v < 2 ^ (7 * Z.of_nat (S fuel)) → 0 ≤ acc < 2 ^ shift → acc + v * 2 ^ shift < bound →
  varint_loop conv f (p ++ varint_bytes_loop (S fuel) v ++ q) (S fuel + k) shift acc (Zlen p) =
    Ok (acc + v * 2 ^ shift, Zlen (p ++ varint_bytes_loop (S fuel) v)).
Proof.
  intros Hc. revert shift acc v p.
  induction fuel as [|fuel IH]; intros shift acc v p Hs Hf Hv Ha Hlt;
    rewrite varint_bytes_loop_S; cbn [Nat.add]; rewrite varint_loop_S;
    rewrite (proj2 (Z.leb_gt 64 _)) by lia;
    (rewrite (proj2 (Z.leb_gt (Zlen _) _)) by
       (rewrite !Zlen_app; case_match; rewrite Zlen_cons; unfold Zlen; lia)).
  all: destruct (v <? 128) eqn:E; [apply Z.ltb_lt in E|apply Z.ltb_ge in E].
  1,3: cbn [app]; rewrite index_app; cbn [mbind outcome_bind]; cbv zeta;
    rewrite Z_of_byte_of_Z, (Z.mod_small v 256), land_127, (Z.mod_small v 128) by lia;
    rewrite (proj2 (Z.ltb_lt v 128)), lor_above, Hc by nia;
    by rewrite Zlen_app.
  - change (2 ^ (7 * Z.of_nat 1)) with 128 in Hv. lia.
  - rewrite pow_7S in Hv. cbn [app]. rewrite index_app. cbn [mbind outcome_bind]. cbv zeta.
    assert (0 ≤ v mod 128 < 128) as Hm by lia.
    rewrite Z_of_byte_of_Z, (Z.mod_small (128 + _) 256), land_127 by lia.
    replace ((128 + v mod 128) mod 128) with (v mod 128) by lia.
    rewrite (proj2 (Z.ltb_ge _ 128)), lor_above by lia.
    assert (0 < 2 ^ shift) by lia.
    assert (v = 128 * (v / 128) + v mod 128) as Ev by lia.
    assert (0 ≤ v mod 128 * 2 ^ shift ≤ v * 2 ^ shift) by nia.
    rewrite Hc by lia. set (b := byte_of_Z (128 + v mod 128)).
    replace (Zlen p + 1) with (Zlen (p ++ [b])) by (rewrite Zlen_app; done).
    assert (2 ^ (shift + 7) = 128 * 2 ^ shift) as Ep by (rewrite Z.pow_add_r by lia; lia).
    set (X := varint_bytes_loop (S fuel) (v / 128)).
    replace (p ++ b :: X ++ q) with ((p ++ [b]) ++ X ++ q) by (by rewrite <-app_assoc).
    replace (p ++ b :: X) with ((p ++ [b]) ++ X) by (by rewrite <-app_assoc).
    change (S (fuel + k)) with (S fuel + k)%nat. unfold X.
    rewrite IH; rewrite ?Ep; [| |lia| |nia|nia].
    + f_equal. f_equal. nia.
    + lia.
    + split; [|apply Z.div_lt_upper_bound]; lia.
Qed.

(** A varint is read back by either loop. *)
Lemma varint_read_upto conv bound f v p q :
  keeps conv bound → 0 ≤ v < bound → bound ≤ 2 ^ 64 →
  varint conv f (p ++ varint_bytes v ++ q) (Zlen p) = Ok (v, Zlen (p ++ varint_bytes v)).
Proof.
  intros Hc Hv Hb. pose proof (varint_loop_bytes conv bound f 9 1 0 0 v p q Hc) as E.
  unfold varint, varint_bytes. cbn [Nat.add] in E. rewrite E; zpow; [|lia..].
  f_equal. f_equal. lia.
Qed.

Lemma varint_read conv f v p q :
  keeps conv (2 ^ 63) → 0 ≤ v < 2 ^ 63 →
  varint conv f (p ++ varint_bytes v ++ q) (Zlen p) = Ok (v, Zlen (p ++ varint_bytes v)).
Proof. intros Hc Hv. by apply (varint_read_upto _ (2 ^ 63)). Qed.

Lemma varint_bytes_nonempty v : 0 < Zlen (varint_bytes v).
Proof. unfold varint_bytes. rewrite varint_bytes_loop_S. case_match; unfold Zlen; cbn; lia. Qed.

(** *** Skipping fields *)

(** The tag of field [num] with wire type [w]. *)
Definition tag_bytes (num w : Z) : bytes := varint_bytes (num * 8 + w).

Definition valid_num (num : Z) : Prop := 0 < num < 2 ^ 29.

(** A byte of a varint after which another one comes. *)
Definition continues (c : byte) : Prop := 128 ≤ Z_of_byte c.

(** The fields the wire format allows, groups included.  A varint value is any
    sequence of up to ten bytes of which exactly the last does not continue: all
    64-bit values, in their shortest form or a longer one. *)
Inductive wire_field : bytes → Prop :=
| wire_varint num l b : valid_num num → Forall continues l → (length l ≤ 9)%nat → ¬ continues b →
    wire_field (tag_bytes num 0 ++ l ++ [b])
| wire_fixed64 num s : valid_num num → length s = 8%nat → wire_field (tag_bytes num 1 ++ s)
| wire_delimited num s : valid_num num →
    wire_field (tag_bytes num 2 ++ varint_bytes (Zlen s) ++ s)
| wire_fixed32 num s : valid_num num → length s = 4%nat → wire_field (tag_bytes num 5 ++ s)
| wire_group num s : valid_num num → wire_fields s →
    wire_field (tag_bytes num 3 ++ s ++ tag_bytes num 4)
with wire_fields : bytes → Prop :=
| wire_nil : wire_fields []
| wire_cons w s : wire_field w → wire_fields s → wire_fields (w ++ s).

Scheme wire_field_ind' := Induction for wire_field Sort Prop
  with wire_fields_ind' := Induction for wire_fields Sort Prop.
Combined Scheme wire_field_mutind from wire_field_ind', wire_fields_ind'.

Lemma land_7 z : Z.land z 7 = z mod 8.
Proof. change 7 with (Z.ones 3). by rewrite land_ones_mod. Qed.

Lemma fits_suffix p q : fits (p ++ q) → fits q.
Proof. unfold fits. rewrite Zlen_app. pose proof (Zlen_nonneg p). lia. Qed.

Lemma skip_varint_S f dAtA fuel shift i :
  skip_varint f dAtA (S fuel) shift i =
    if 64 <=? shift then Err (ErrIntOverflow f)
    else if Zlen dAtA <=? i then Err ErrUnexpectedEOF
    else
      b ← index dAtA (i + 1 - 1);
      if Z_of_byte b <? 128 then Ok (i + 1) else skip_varint f dAtA fuel (shift + 7) (i + 1).
Proof. reflexivity. Qed.

(** Passing over bytes that continue. *)
Lemma skip_varint_continues f l fuel shift p q :
  Forall continues l → shift + 7 * (Zlen l - 1) < 64 →
  skip_varint f (p ++ l ++ q) (length l + fuel) shift (Zlen p) =
    skip_varint f (p ++ l ++ q) fuel (shift + 7 * Zlen l) (Zlen (p ++ l)).
Proof.
  intros Hl. revert shift p. induction Hl as [|c l Hc Hl IH]; intros shift p Hs.
  { cbn [length Nat.add]. rewrite app_nil_r. f_equal. unfold Zlen. cbn. lia. }
  rewrite Zlen_cons in Hs |- *. pose proof (Zlen_nonneg l). cbn [length Nat.add].
  rewrite skip_varint_S, (proj2 (Z.leb_gt 64 _)) by lia.
  rewrite (proj2 (Z.leb_gt (Zlen _) _)) by
    (rewrite !Zlen_app, Zlen_cons; pose proof (Zlen_nonneg q); lia).
  replace (Zlen p + 1 - 1) with (Zlen p) by lia. cbn [app]. rewrite index_app. cbn [mbind outcome_bind].
  rewrite (proj2 (Z.ltb_ge _ 128)) by exact Hc.
  replace (Zlen p + 1) with (Zlen (p ++ [c])) by (rewrite Zlen_app; done).
  replace (p ++ c :: l ++ q) with ((p ++ [c]) ++ l ++ q) by (by rewrite <-app_assoc).
  rewrite IH by lia. rewrite <-(app_assoc p [c] l). f_equal. lia.
Qed.

(** The loop ends after the first byte that does not continue, if it is one of
    the first ten; *)
Lemma skip_varint_ends f l b p q :
  Forall continues l → (length l ≤ 9)%nat → ¬ continues b →
  skip_varint f (p ++ (l ++ [b]) ++ q) 11 0 (Zlen p) = Ok (Zlen (p ++ l ++ [b])).
Proof.
  intros Hl Hn Hb. replace 11%nat with (length l + S (10 - length l))%nat by lia.
  rewrite <-app_assoc, skip_varint_continues by (unfold Zlen; lia || done).
  rewrite skip_varint_S, (proj2 (Z.leb_gt 64 _)) by (unfold Zlen; lia).
  cbn [app]. rewrite (proj2 (Z.leb_gt (Zlen _) _)) by
    (rewrite !Zlen_app, Zlen_cons; pose proof (Zlen_nonneg q); lia).
  replace (Zlen (p ++ l) + 1 - 1) with (Zlen (p ++ l)) by lia.
  rewrite (app_assoc p l), index_app. cbn [mbind outcome_bind].
  rewrite (proj2 (Z.ltb_lt _ 128)) by (unfold continues in Hb; lia).
  f_equal. rewrite (app_assoc p l), (Zlen_app (p ++ l)). done.
Qed.

(** and overflows after ten that do. *)
Lemma skip_varint_overflows f l p q :
  Forall continues l → length l = 10%nat →
  skip_varint f (p ++ l ++ q) 11 0 (Zlen p) = Err (ErrIntOverflow f).
Proof.
  intros Hl Hn. change 11%nat with (10 + 1)%nat. rewrite <-Hn.
  rewrite skip_varint_continues by (unfold Zlen; lia || done).
  rewrite skip_varint_S. by rewrite (proj2 (Z.leb_le 64 _)) by (unfold Zlen; lia).
Qed.

(** One turn of the loop on the tag of a field. *)
Lemma skip_step_tag f num w p q depth :
  valid_num num → 0 ≤ w < 8 →
  skip_step f (p ++ tag_bytes num w ++ q) (Zlen p) depth =
    (let dAtA := p ++ tag_bytes num w ++ q in
     let i := Zlen (p ++ tag_bytes num w) in
     if w =? 0 then i ← skip_varint f dAtA 11 0 i; Ok (i, depth)
     else if w =? 1 then Ok (int64 (i + 8), depth)
     else if w =? 2 then
       '(length, i) ← varint int64 f dAtA i;
       if length <? 0 then Err (ErrInvalidLength f) else Ok (int64 (i + length), depth)
     else if w =? 3 then Ok (i, depth + 1)
     else if w =? 4 then
       if depth =? 0 then Err (ErrUnexpectedEndOfGroup f) else Ok (i, depth - 1)
     else if w =? 5 then Ok (int64 (i + 4), depth)
     else Err (ErrIllegalWireType w)).
Proof.
  unfold valid_num. intros Hn Hw. unfold skip_step, tag_bytes.
  rewrite varint_read by (auto with go || lia). cbn [mbind outcome_bind]. cbv beta iota.
  rewrite land_7. by replace ((num * 8 + w) mod 8) with w by lia.
Qed.

(** [skips f w d d']: reading [w] anywhere in a buffer, from group depth [d],
    is some turns of the loop that end after [w] at depth [d']. *)
Definition skips (f : pb_file) (w : bytes) (d d' : Z) : Prop := ∀ dAtA p q fuel,
  dAtA = p ++ w ++ q → fits dAtA → (length w + length q ≤ fuel)%nat →
  ∃ fuel', (length q ≤ fuel')%nat ∧
    skip_loop f dAtA fuel (Zlen p) d =
      if d' =? 0 then Ok (Zlen (p ++ w)) else skip_loop f dAtA fuel' (Zlen (p ++ w)) d'.

Lemma skips_step f w d d' :
  0 < Zlen w →
  (∀ p q, fits (p ++ w ++ q) → skip_step f (p ++ w ++ q) (Zlen p) d = Ok (Zlen (p ++ w), d')) →
  skips f w d d'.
Proof.
  intros Hw Hs dAtA p q fuel -> Hl Hf. unfold Zlen in Hw.
  destruct fuel as [|fuel]; [lia|]. exists fuel. split; [lia|]. cbn [skip_loop].
  rewrite (proj2 (Z.ltb_lt _ _)) by (rewrite !Zlen_app; unfold Zlen; lia).
  rewrite Hs by done. cbn [mbind outcome_bind]. cbv beta iota.
  by rewrite (proj2 (Z.ltb_ge _ 0)) by apply Zlen_nonneg.
Qed.

Lemma skips_app f w1 w2 d1 d2 d3 :
  d2 ≠ 0 → skips f w1 d1 d2 → skips f w2 d2 d3 → skips f (w1 ++ w2) d1 d3.
Proof.
  intros Hd H1 H2 dAtA p q fuel -> Hl Hf. rewrite length_app in Hf.
  destruct (H1 (p ++ (w1 ++ w2) ++ q) p (w2 ++ q) fuel) as (f1 & Hf1 & ->);
    [by rewrite <-!app_assoc|done|rewrite length_app; lia|].
  rewrite (proj2 (Z.eqb_neq _ _)) by done. rewrite length_app in Hf1.
  destruct (H2 (p ++ (w1 ++ w2) ++ q) (p ++ w1) q f1) as (f2 & Hf2 & ->);
    [by rewrite <-!app_assoc|done|lia|].
  exists f2. split; [done|]. by rewrite <-app_assoc.
Qed.

Lemma tag_bytes_nonempty num w s : 0 < Zlen (tag_bytes num w ++ s).
Proof.
  rewrite Zlen_app. pose proof (varint_bytes_nonempty (num * 8 + w)).
  pose proof (Zlen_nonneg s). unfold tag_bytes. lia.
Qed.

Lemma skips_field_fields f :
  (∀ w, wire_field w → ∀ d, 0 ≤ d → skips f w d d) ∧
  (∀ s, wire_fields s → ∀ d, 0 < d → s = [] ∨ skips f s d d).
Proof.
  apply wire_field_mutind.
  - intros num l b Hn Hl Hle Hb d Hd. apply skips_step; [apply tag_bytes_nonempty|]. intros p q Hfit.
    rewrite <-app_assoc, skip_step_tag by done. cbn -[tag_bytes varint_bytes skip_varint varint].
    rewrite (app_assoc p), skip_varint_ends by done. cbn [mbind outcome_bind].
    by rewrite <-app_assoc.
  - intros num s Hn Hs d Hd. apply skips_step; [apply tag_bytes_nonempty|]. intros p q Hl.
    rewrite <-app_assoc, skip_step_tag by done. cbn -[tag_bytes varint_bytes skip_varint varint].
    unfold fits in Hl. rewrite !Zlen_app in *. assert (Zlen s = 8) by (unfold Zlen; lia).
    pose proof (Zlen_nonneg p). pose proof (Zlen_nonneg q). pose proof (Zlen_nonneg (tag_bytes num 1)).
    rewrite int64_small by lia. f_equal. f_equal. lia.
  - intros num s Hn d Hd. apply skips_step; [apply tag_bytes_nonempty|]. intros p q Hl.
    rewrite <-!app_assoc, skip_step_tag by done. cbn -[tag_bytes varint_bytes skip_varint varint].
    unfold fits in Hl. rewrite !Zlen_app in Hl.
    pose proof (Zlen_nonneg p). pose proof (Zlen_nonneg q). pose proof (Zlen_nonneg s).
    pose proof (Zlen_nonneg (tag_bytes num 2)). pose proof (Zlen_nonneg (varint_bytes (Zlen s))).
    rewrite (app_assoc p), varint_read by (auto with go || lia). cbn [mbind outcome_bind]. cbv beta iota.
    rewrite (proj2 (Z.ltb_ge _ 0)) by lia. rewrite !Zlen_app, int64_small by lia.
    f_equal. f_equal. lia.
  - intros num s Hn Hs d Hd. apply skips_step; [apply tag_bytes_nonempty|]. intros p q Hl.
    rewrite <-app_assoc, skip_step_tag by done. cbn -[tag_bytes varint_bytes skip_varint varint].
    unfold fits in Hl. rewrite !Zlen_app in *. assert (Zlen s = 4) by (unfold Zlen; lia).
    pose proof (Zlen_nonneg p). pose proof (Zlen_nonneg q). pose proof (Zlen_nonneg (tag_bytes num 5)).
    rewrite int64_small by lia. f_equal. f_equal. lia.
  - intros num s Hn _ IH d Hd.
    assert (∀ w, w = 3 ∨ w = 4 → skips f (tag_bytes num w) (if w =? 3 then d else d + 1)
              (if w =? 3 then d + 1 else d)) as Htag.
    { intros w Hw. apply skips_step.
      { rewrite <-(app_nil_r (tag_bytes num w)). apply tag_bytes_nonempty. }
      intros p q Hl. rewrite skip_step_tag by (done || lia).
      destruct Hw as [-> | ->]; cbn -[tag_bytes varint_bytes skip_varint varint]; [done|].
      rewrite (proj2 (Z.eqb_neq _ _)) by lia. f_equal. f_equal. lia. }
    apply (skips_app f _ _ d (d + 1)); [lia|apply (Htag 3); lia|].
    destruct (IH (d + 1)) as [->|Hs]; [lia|apply (Htag 4); lia|].
    apply (skips_app f _ _ _ (d + 1)); [lia|done|apply (Htag 4); lia].
  - by left.
  - intros w s _ IHw _ IHs d Hd. right.
    destruct (IHs d Hd) as [->|Hs]; [rewrite app_nil_r; apply IHw; lia|].
    apply (skips_app f _ _ _ d); [lia|apply IHw; lia|done].
Qed.

(** [skip] on a well-formed field, groups and all, returns its length. *)
Lemma skip_field_length f w q :
  wire_field w → fits (w ++ q) → skip f (w ++ q) = Ok (Zlen w).
Proof.
  intros Hw Hl. destruct (proj1 (skips_field_fields f) w Hw 0 (Z.le_refl 0) (w ++ q) [] q
    (length (w ++ q))) as (f' & _ & E); [done|done|by rewrite length_app|].
  apply E.
Qed.

(** *** Decoding fields

    [decodes seg upd]: reading [seg] anywhere in a buffer is some turns of the
    loop that end after [seg] with the message updated by [upd]. *)
Section Decodes.
Context {M : Type} (f : pb_file) (message : string) (cases : list (Z * @field_case M)).

Definition decodes (seg : bytes) (upd : M → M) : Prop := ∀ dAtA p q fuel m,
  dAtA = p ++ seg ++ q → fits dAtA → (length seg + length q ≤ fuel)%nat →
  ∃ fuel', (length q ≤ fuel')%nat ∧
    unmarshal_loop f (skip f) message cases dAtA fuel (Zlen p) m =
      unmarshal_loop f (skip f) message cases dAtA fuel' (Zlen (p ++ seg)) (upd m).

Lemma decodes_nil : decodes [] id.
Proof. intros dAtA p q fuel m -> Hl Hf. exists fuel. by rewrite app_nil_r. Qed.

Lemma decodes_app s1 s2 u1 u2 :
  decodes s1 u1 → decodes s2 u2 → decodes (s1 ++ s2) (u2 ∘ u1).
Proof.
  intros H1 H2 dAtA p q fuel m -> Hl Hf. rewrite length_app in Hf.
  destruct (H1 (p ++ (s1 ++ s2) ++ q) p (s2 ++ q) fuel m) as (f1 & Hf1 & ->);
    [by rewrite <-!app_assoc|done|rewrite length_app; lia|]. rewrite length_app in Hf1.
  destruct (H2 (p ++ (s1 ++ s2) ++ q) (p ++ s1) q f1 (u1 m)) as (f2 & Hf2 & ->);
    [by rewrite <-!app_assoc|done|lia|].
  exists f2. split; [done|]. by rewrite <-!app_assoc.
Qed.

(** Reading a whole input, field by field. *)
Lemma unmarshal_decodes seg upd m :
  decodes seg upd → fits seg → unmarshal f (skip f) message cases seg m = (Ok tt, upd m).
Proof.
  intros H Hl. destruct (H seg [] [] (length seg) m) as (f' & _ & E);
    [by rewrite app_nil_r|done|cbn; lia|].
  unfold unmarshal. change (Zlen []) with 0 in E. rewrite E. cbn [app].
  destruct f'; cbn [unmarshal_loop]; by rewrite Z.ltb_irrefl.
Qed.

(** One turn of the loop on a field's tag. *)
Lemma unmarshal_tag num w p q fuel m :
  valid_num num → 0 ≤ w < 8 → w ≠ 4 →
  unmarshal_loop f (skip f) message cases (p ++ tag_bytes num w ++ q) (S fuel) (Zlen p) m =
    (i ← match switch cases num with
         | Some c => c w (p ++ tag_bytes num w ++ q) (Zlen (p ++ tag_bytes num w))
         | None => lift (skip_field f (skip f) (p ++ tag_bytes num w ++ q) (Zlen p))
         end;
     unmarshal_loop f (skip f) message cases (p ++ tag_bytes num w ++ q) fuel i) m.
Proof.
  unfold valid_num. intros Hn Hw Hw4. cbn [unmarshal_loop].
  pose proof (varint_bytes_nonempty (num * 8 + w)).
  rewrite (proj2 (Z.ltb_lt _ _))
    by (rewrite !Zlen_app; pose proof (Zlen_nonneg q); unfold tag_bytes; lia).
  erewrite bind_ok by (unfold lift, tag_bytes; rewrite varint_read by (auto with go || lia); done).
  cbv beta iota zeta. rewrite land_7, shiftr_div by done. change (2 ^ 3) with 8.
  replace ((num * 8 + w) mod 8) with w by lia. replace ((num * 8 + w) / 8) with num by lia.
  rewrite int32_small by lia.
  rewrite (proj2 (Z.eqb_neq w 4)), (proj2 (Z.leb_gt num 0)) by lia. done.
Qed.

Lemma decodes_case num w s c upd :
  valid_num num → 0 ≤ w < 8 → w ≠ 4 → switch cases num = Some c →
  (∀ p q m, fits (p ++ s ++ q) →
     c w (p ++ s ++ q) (Zlen p) m = (Ok (Zlen (p ++ s)), upd m)) →
  decodes (tag_bytes num w ++ s) upd.
Proof.
  intros Hn Hw Hw4 Hc Hs dAtA p q fuel m -> Hl Hf.
  pose proof (tag_bytes_nonempty num w s) as Ht. unfold Zlen in Ht.
  destruct fuel as [|fuel]; [lia|]. exists fuel. split; [lia|].
  rewrite <-app_assoc, unmarshal_tag, Hc by done. rewrite <-app_assoc in Hl.
  erewrite (bind_ok _ _ _ (Zlen (p ++ tag_bytes num w ++ s)) (upd m)); [done|].
  rewrite !(app_assoc p (tag_bytes num w)) in Hl |- *. rewrite (app_assoc p). by apply Hs.
Qed.

Lemma decodes_unknown num w s :
  valid_num num → 0 ≤ w < 8 → w ≠ 4 → switch cases num = None →
  wire_field (tag_bytes num w ++ s) → decodes (tag_bytes num w ++ s) id.
Proof.
  intros Hn Hw Hw4 Hc Hs dAtA p q fuel m -> Hl Hf.
  pose proof (tag_bytes_nonempty num w s) as Ht. unfold Zlen in Ht.
  destruct fuel as [|fuel]; [lia|]. exists fuel. split; [lia|].
  rewrite <-app_assoc, unmarshal_tag, Hc by done.
  set (i' := Zlen (p ++ tag_bytes num w ++ s)).
  erewrite (bind_ok _ _ _ i' m); [done|]. unfold lift, skip_field. f_equal.
  set (seg := tag_bytes num w ++ s) in *. pose proof Hl as Hl'. unfold fits in Hl.
  rewrite !Zlen_app in Hl. pose proof (Zlen_nonneg q). pose proof (Zlen_nonneg p).
  pose proof (Zlen_nonneg seg).
  replace (p ++ tag_bytes num w ++ s ++ q) with (p ++ seg ++ q)
    by (unfold seg; by rewrite <-!app_assoc).
  rewrite subslice_ok by (rewrite ?Zlen_app; lia). rewrite Zlen_to_nat, drop_app_length.
  rewrite take_ge by (rewrite !Zlen_app, !length_app; unfold Zlen; lia).
  cbn [mbind outcome_bind]. rewrite skip_field_length by (done || by eapply fits_suffix).
  cbn [mbind outcome_bind]. rewrite int64_small by lia.
  rewrite !(proj2 (Z.ltb_ge _ 0)) by lia. cbn [orb].
  rewrite (proj2 (Z.ltb_ge _ _)) by (rewrite !Zlen_app; lia).
  unfold i'. by rewrite Zlen_app.
Qed.

End Decodes.

Lemma bounded_exact f p s q :
  fits (p ++ s ++ q) → bounded f (p ++ s ++ q) (Zlen p) (Zlen s) = Ok (Zlen (p ++ s)).
Proof.
  unfold fits, bounded. rewrite !Zlen_app. intros Hl. pose proof (Zlen_nonneg q).
  pose proof (Zlen_nonneg p). pose proof (Zlen_nonneg s). cbv zeta.
  rewrite int64_small, !(proj2 (Z.ltb_ge _ _)) by lia. done.
Qed.

Lemma subslice_exact p s q : subslice (p ++ s ++ q) (Zlen p) (Zlen (p ++ s)) = Ok s.
Proof.
  pose proof (Zlen_nonneg q). pose proof (Zlen_nonneg p). pose proof (Zlen_nonneg s).
  rewrite subslice_ok by (rewrite ?Zlen_app; lia). rewrite Zlen_to_nat, drop_app_length.
  rewrite Zlen_app. replace (Zlen p + Zlen s - Zlen p) with (Zlen s) by lia.
  by rewrite Zlen_to_nat, take_app_length.
Qed.

Lemma string_case_exact {M} f field (assign : bytes → M → M) s p q m :
  fits (p ++ (varint_bytes (Zlen s) ++ s) ++ q) →
  string_case f field assign 2 (p ++ (varint_bytes (Zlen s) ++ s) ++ q) (Zlen p) m =
    (Ok (Zlen (p ++ varint_bytes (Zlen s) ++ s)), assign s m).
Proof.
  intros Hl. pose proof Hl as Hs. unfold fits in Hs. rewrite !Zlen_app in Hs.
  pose proof (Zlen_nonneg q). pose proof (Zlen_nonneg p). pose proof (Zlen_nonneg s).
  pose proof (Zlen_nonneg (varint_bytes (Zlen s))).
  unfold string_case. cbn [Z.eqb Pos.eqb negb]. rewrite <-app_assoc in *.
  erewrite bind_ok by (unfold lift; rewrite varint_read by (auto with go || lia); done).
  cbv beta iota zeta. rewrite int64_small by lia. rewrite (app_assoc p) in Hl |- *.
  erewrite bind_ok by (unfold lift; rewrite bounded_exact by done; done).
  erewrite bind_ok by (unfold lift; rewrite subslice_exact by done; done).
  by rewrite <-app_assoc.
Qed.

Lemma message_case_exact {M P} f field (get : M → P) assign (unm : bytes → GoM P unit) s p q m x :
  unm s (get m) = (Ok tt, x) →
  fits (p ++ (varint_bytes (Zlen s) ++ s) ++ q) →
  message_case f field get assign unm 2 (p ++ (varint_bytes (Zlen s) ++ s) ++ q) (Zlen p) m =
    (Ok (Zlen (p ++ varint_bytes (Zlen s) ++ s)), assign x m).
Proof.
  intros Hu Hl. pose proof Hl as Hs. unfold fits in Hs. rewrite !Zlen_app in Hs.
  pose proof (Zlen_nonneg q). pose proof (Zlen_nonneg p). pose proof (Zlen_nonneg s).
  pose proof (Zlen_nonneg (varint_bytes (Zlen s))).
  unfold message_case. cbn [Z.eqb Pos.eqb negb]. rewrite <-app_assoc in *.
  erewrite bind_ok by (unfold lift; rewrite varint_read by (auto with go || lia); done).
  cbv beta iota zeta. rewrite (app_assoc p) in Hl |- *.
  erewrite bind_ok by (unfold lift; rewrite bounded_exact by done; done).
  erewrite bind_ok by (unfold lift; rewrite subslice_exact by done; done).
  erewrite bind_ok by (unfold zoom; rewrite Hu; done).
  by rewrite <-app_assoc.
Qed.

Section DecodesCases.
Context {M : Type} (f : pb_file) (message : string) (cases : list (Z * @field_case M)).

Lemma decodes_string num tag field assign s :
  valid_num num → tag_bytes num 2 = [tag] → switch cases num = Some (string_case f field assign) →
  decodes f message cases (string_field tag s) (λ m, match s with [] => m | _ => assign s m end).
Proof.
  intros Hn Ht Hc. destruct s as [|c s']; [apply decodes_nil|]. set (s := c :: s').
  change (string_field tag s) with ([tag] ++ varint_bytes (Zlen s) ++ s). rewrite <-Ht.
  eapply decodes_case; [done..|]. intros p q m Hl. by apply string_case_exact.
Qed.

Lemma decodes_message {P} num tag field (get : M → P) assign unm s u :
  valid_num num → tag_bytes num 2 = [tag] →
  switch cases num = Some (message_case f field get assign unm) →
  (∀ x, unm s x = (Ok tt, u x)) →
  decodes f message cases (delimited tag s) (λ m, assign (u (get m)) m).
Proof.
  intros Hn Ht Hc Hu.
  change (delimited tag s) with ([tag] ++ varint_bytes (Zlen s) ++ s). rewrite <-Ht.
  eapply decodes_case; [done..|]. intros p q m Hl. by apply message_case_exact.
Qed.

End DecodesCases.

(** ** What a generated message promises its users

    [encoding] is the reference encoding; messages too long for a Go slice
    cannot exist, which is the only hypothesis. *)
Class PbCodec (M : Type) := {
  pb_zero : M;
  pb_Size : M → Z;
  pb_ToSized : M → GoM bytes Z;
  pb_Unmarshal : bytes → GoM M unit;
  encoding : M → bytes;
  pb_fills : ∀ m, fits (encoding m) → fills (pb_ToSized m) (encoding m);
  pb_size : ∀ m, fits (encoding m) → pb_Size m = Zlen (encoding m);
  pb_roundtrip : ∀ m, fits (encoding m) → pb_Unmarshal (encoding m) pb_zero = (Ok tt, m);
  pb_safe : ∀ data, fits data → safeM (λ _, True) (pb_Unmarshal data)
}.

Section Codec.
Context {M : Type} `{!PbCodec M}.

(** [Marshal] returns the reference encoding. *)
Lemma pb_Marshal m : fits (encoding m) → Marshal (pb_Size m) (pb_ToSized m) = Ok (encoding m).
Proof. intros H. rewrite pb_size by done. by apply Marshal_fills, pb_fills. Qed.

Lemma pb_MarshalTo m buf :
  fits (encoding m) →
  MarshalTo (pb_Size m) (pb_ToSized m) buf =
    if decide (length (encoding m) ≤ length buf)%nat
    then (Ok (Zlen (encoding m)), encoding m ++ drop (length (encoding m)) buf)
    else (Panic (RuntimeError "slice bounds out of range"), buf).
Proof. intros H. rewrite pb_size by done. by apply MarshalTo_fills, pb_fills. Qed.

(** What a user of a message relies on: [Marshal] gives the reference
    encoding, [Unmarshal] reads it back, and [MarshalTo] writes it to the front
    of a buffer that is long enough and panics on a shorter one. *)
Definition codec_spec (marshal : M → outcome bytes) (marshalTo : M → GoM bytes Z)
    (unmarshal : bytes → GoM M unit) (zero : M) : Prop :=
  ∀ m buf, fits (encoding m) →
    marshal m = Ok (encoding m) ∧
    unmarshal (encoding m) zero = (Ok tt, m) ∧
    marshalTo m buf =
      if decide (length (encoding m) ≤ length buf)%nat
      then (Ok (Zlen (encoding m)), encoding m ++ drop (length (encoding m)) buf)
      else (Panic (RuntimeError "slice bounds out of range"), buf).

Lemma codec_ok :
  codec_spec (fun m => Marshal (pb_Size m) (pb_ToSized m))
    (fun m => MarshalTo (pb_Size m) (pb_ToSized m)) pb_Unmarshal pb_zero.
Proof. intros m buf H. split_and!; [by apply pb_Marshal|by apply pb_roundtrip|by apply pb_MarshalTo]. Qed.

End Codec.

(** Length bounds of the parts of an encoding. *)
Lemma fits_app p q : fits (p ++ q) ↔ Zlen p + Zlen q < 2 ^ 63.
Proof. unfold fits. by rewrite Zlen_app. Qed.

Lemma fits_prefix p q : fits (p ++ q) → fits p.
Proof. unfold fits. rewrite Zlen_app. pose proof (Zlen_nonneg q). lia. Qed.

Lemma fits_delimited tag s : fits (delimited tag s) → fits s.
Proof.
  unfold fits, delimited. rewrite Zlen_cons, Zlen_app.
  pose proof (Zlen_nonneg (varint_bytes (Zlen s))). lia.
Qed.

Lemma fits_string_field tag s : fits (string_field tag s) → fits s.
Proof. destruct s; [done|]. apply fits_delimited. Qed.

Lemma fits_nil : fits [].
Proof. done. Qed.

#[export] Hint Resolve fits_nil writes_back_ret : go.

(** ** Automation for the messages *)

(** The parts of an encoding that fits a slice fit one. *)
Ltac split_fits :=
  repeat match goal with
  | H : fits (_ ++ _) |- _ => pose proof (fits_prefix _ _ H); apply fits_suffix in H
  end.
Ltac solve_fits :=
  split_fits;
  match goal with
  | H : fits ?s |- fits ?s => exact H
  | H : fits (string_field _ ?s) |- fits ?s => exact (fits_string_field _ _ H)
  end.

(** [fills (M_MarshalToSizedBuffer m) (M_encoding m)], field by field. *)
Ltac solve_fills :=
  apply fills_to_sized;
  repeat first [ apply put_string_back; solve_fits
               | apply put_message_back;
                 [exact fits_nil | match goal with |- fills _ (encoding ?p) => exact (pb_fills p fits_nil) end]
               | apply writes_back_bind ].

(** [M_Size (Some m) = Zlen (M_encoding m)]. *)
Ltac solve_size :=
  repeat (rewrite Zlen_app; f_equal);
  first [ apply size_string_length; solve_fits | exact (size_message_length _ [] fits_nil) ].

(** Any input is safe to decode, given that the embedded message is. *)
Ltac solve_safe embedded :=
  apply unmarshal_safe; [|assumption];
  repeat match goal with
  | |- Forall _ [] => constructor
  | |- Forall _ (_ :: _) => constructor; cbn [snd]
  | |- case_safe (string_case _ _ _) => apply string_case_safe
  | |- case_safe (message_case _ _ _ _ _) => apply message_case_safe; exact embedded
  | |- Forall _ ?cases => unfold cases
  end.

(** ** Varints and skipping *)

(** The varint code is right on every [uint64]: [sov] is the number of
    bytes [encodeVarint] writes, it writes the base-128 digits just before the
    index and nothing else, and the decoding loop reads the value back. *)
Theorem varint_codec_spec f v p hole q :
  0 ≤ v < 2 ^ 64 → Zlen hole = sov v →
  encodeVarint (Zlen (p ++ hole)) v (p ++ hole ++ q) = (Ok (Zlen p), p ++ varint_bytes v ++ q) ∧
  varint uint64 f (p ++ varint_bytes v ++ q) (Zlen p) = Ok (v, Zlen (p ++ varint_bytes v)).
Proof.
  intros Hv Hl. split.
  - apply encodeVarint_back; [done|]. rewrite sov_length in Hl by done. unfold Zlen in Hl. lia.
  - apply (varint_read_upto _ (2 ^ 64)); auto with go. done.
Qed.

Lemma varint_codec_spec_witness :
  (0 ≤ 300 < 2 ^ 64 ∧ Zlen [x00; x00] = sov 300) ∧
  (encodeVarint 3 300 [x07; x00; x00; x09] = (Ok 1, [x07; xac; x02; x09]) ∧
   varint uint64 "tx" [x07; xac; x02; x09] 1 = Ok (300, 3)).
Proof.
  split; [done|]. apply (varint_codec_spec "tx" 300 [x07] [x00; x00] [x09]); done.
Defined.

(** The bytes in front that continue a varint, and what bytes stand for. *)
Fixpoint continuing (s : bytes) : bytes :=
  match s with
  | [] => []
  | b :: s => if Z_of_byte b <? 128 then [] else b :: continuing s
  end.
Fixpoint digits (s : bytes) : Z :=
  match s with
  | [] => 0
  | b :: s => Z_of_byte b mod 128 + 128 * digits s
  end.

(** What a loop at [7 k] bits finds, with [n] the length of what continues. *)
Definition varint_result (conv : Z → Z) (f : pb_file) (k : nat) (acc i : Z) (t : bytes)
    : outcome (Z * Z) :=
  let s := continuing t in
  if decide (10 ≤ k + length s)%nat then Err (ErrIntOverflow f)
  else match t !! length s with
       | None => Err ErrUnexpectedEOF
       | Some b => Ok (conv (acc + 2 ^ (7 * Z.of_nat k) * digits (s ++ [b])), i + Zlen s + 1)
       end.

Lemma varint_result_cons conv f k acc i b t :
  128 ≤ Z_of_byte b →
  varint_result conv f k acc i (b :: t) =
  varint_result conv f (S k) (acc + 2 ^ (7 * Z.of_nat k) * (Z_of_byte b mod 128)) (i + 1) t.
Proof.
  intros Hb. unfold varint_result. cbn [continuing]. rewrite (proj2 (Z.ltb_ge _ 128)) by done.
  cbn [length app digits lookup list_lookup].
  destruct (decide (10 ≤ k + S (length (continuing t)))%nat),
    (decide (10 ≤ S k + length (continuing t))%nat); try lia; [done|].
  destruct (t !! length (continuing t)) as [c|]; [|done]. rewrite pow_7S, Zlen_cons.
  do 2 f_equal; [f_equal|]; lia.
Qed.

Lemma varint_loop_result conv f t :
  keeps conv (2 ^ 63) →
  ∀ k acc p, (k ≤ 10)%nat → ((k ≤ 9)%nat → 0 ≤ acc < 2 ^ (7 * Z.of_nat k)) →
  varint_loop conv f (p ++ t) (11 - k) (7 * Z.of_nat k) acc (Zlen p) =
    varint_result conv f k acc (Zlen p) t.
Proof.
  intros Hc. induction t as [|b t IH]; intros k acc p Hk Ha;
    (replace (11 - k)%nat with (S (10 - k)) by lia); rewrite varint_loop_S;
    (destruct (64 <=? 7 * Z.of_nat k) eqn:E;
      [apply Z.leb_le in E; unfold varint_result; by rewrite decide_True by lia|apply Z.leb_gt in E]).
  - rewrite app_nil_r, Z.leb_refl. unfold varint_result. cbn. by rewrite decide_False by lia.
  - pose proof (Zlen_nonneg t). specialize (Ha ltac:(lia)).
    rewrite (proj2 (Z.leb_gt (Zlen _) _)) by (rewrite !Zlen_app, Zlen_cons; lia).
    rewrite index_app. cbn [mbind outcome_bind]. cbv zeta. rewrite land_127, lor_above by lia.
    destruct (Z_of_byte b <? 128) eqn:Eb.
    + unfold varint_result. cbn [continuing]. rewrite Eb. cbn [length lookup list_lookup app digits].
      rewrite decide_False by lia. change (Zlen []) with 0. do 2 f_equal; [f_equal; lia|lia].
    + apply Z.ltb_ge in Eb. rewrite varint_result_cons by done.
      replace (Zlen p + 1) with (Zlen (p ++ [b])) by (rewrite Zlen_app; done).
      replace (p ++ b :: t) with ((p ++ [b]) ++ t) by (by rewrite <-app_assoc).
      replace (7 * Z.of_nat k + 7) with (7 * Z.of_nat (S k)) by lia.
      replace (10 - k)%nat with (11 - S k)%nat by lia.
      assert (0 ≤ Z_of_byte b mod 128 < 128) as Hd by (apply Z.mod_pos_bound; done).
      pose proof (pow_7S k) as Hp.
      assert ((S k ≤ 9)%nat → 0 ≤ acc + Z_of_byte b mod 128 * 2 ^ (7 * Z.of_nat k) < 2 ^ (7 * Z.of_nat (S k)))
        as Hb by (intros _; nia).
      destruct (decide (S k ≤ 9)%nat) as [H9|H9].
      * specialize (Hb H9).
        assert (2 ^ (7 * Z.of_nat (S k)) ≤ 2 ^ 63) by (apply Z.pow_le_mono_r; lia).
        rewrite Hc by lia. rewrite IH by (lia || done). f_equal. lia.
      * rewrite IH by lia. unfold varint_result. by rewrite !decide_True by lia.
Qed.

(** C38. The varint decoder on any input, from any position: ten bytes that
    continue are refused with the file's overflow error, whatever follows; an
    input that ends while bytes continue is an unexpected end; and otherwise the
    bytes up to the first that does not continue are read, and the result is
    their base-128 value brought into the integer's range. *)
Theorem varint_spec conv f p t :
  keeps conv (2 ^ 63) →
  let s := continuing t in
  ((10 ≤ length s)%nat → varint conv f (p ++ t) (Zlen p) = Err (ErrIntOverflow f)) ∧
  ((length s < 10)%nat → t !! length s = None →
     varint conv f (p ++ t) (Zlen p) = Err ErrUnexpectedEOF) ∧
  (∀ b, (length s < 10)%nat → t !! length s = Some b →
     varint conv f (p ++ t) (Zlen p) = Ok (conv (digits (s ++ [b])), Zlen p + Zlen s + 1)).
Proof.
  intros Hc s. unfold varint.
  pose proof (varint_loop_result conv f t Hc 0 0 p ltac:(lia) ltac:(intros; cbn; lia)) as E.
  change (varint_loop conv f (p ++ t) 11 0 0 (Zlen p) = varint_result conv f 0 0 (Zlen p) t) in E.
  rewrite E.
  unfold varint_result. fold s. split; [|split].
  - intros Hl. by rewrite decide_True by lia.
  - intros Hl ->. by rewrite decide_False by lia.
  - intros b Hl ->. rewrite decide_False by lia. do 3 f_equal. change (7 * Z.of_nat 0) with 0. lia.
Qed.

(** Eleven marked bytes; an input that ends; and a tenth byte of which only the
    lowest bit is read. *)
Lemma varint_spec_witness :
  varint int64 "tx" ([x08] ++ replicate 11 xff) 1 = Err (ErrIntOverflow "tx") ∧
  varint int64 "tx" ([x08] ++ [xff]) 1 = Err ErrUnexpectedEOF ∧
  varint uint64 "tx" ([x08] ++ replicate 9 x80 ++ [x7f]) 1 = Ok (2 ^ 63, 11).
Proof.
  pose proof keeps_int64 as Hi. pose proof keeps_uint64_int as Hu.
  split; [|split].
  - apply (varint_spec int64 "tx" [x08] (replicate 11 xff) Hi). cbn. lia.
  - apply (varint_spec int64 "tx" [x08] [xff] Hi); [cbn; lia|reflexivity].
  - refine (eq_trans (proj2 (proj2 (varint_spec uint64 "tx" [x08] (replicate 9 x80 ++ [x7f]) Hu)) x7f _ _) _);
      [cbn; lia|reflexivity|vm_compute; reflexivity].
Defined.

(** C37. [skip] returns exactly the length of the field in front of it, for
    every well-formed field, all varints of up to ten bytes and nested groups
    included; it refuses a varint of more than ten bytes as an overflow; on any
    input it returns a positive length or an error, it never panics and never
    loops. *)
Theorem skip_spec f :
  (∀ w q, wire_field w → fits (w ++ q) → skip f (w ++ q) = Ok (Zlen w)) ∧
  (∀ num l q, valid_num num → Forall continues l → length l = 10%nat →
     skip f (tag_bytes num 0 ++ l ++ q) = Err (ErrIntOverflow f)) ∧
  (∀ data, fits data → safe (λ n, 0 < n < 2 ^ 63) (skip f data)).
Proof.
  split_and!; [intros; by apply skip_field_length| |intros; by apply skip_safe].
  intros num l q Hn Hl Hlen. unfold skip.
  pose proof (tag_bytes_nonempty num 0 (l ++ q)) as Ht. unfold Zlen in Ht.
  destruct (length (tag_bytes num 0 ++ l ++ q)) as [|fuel] eqn:E; [lia|]. cbn [skip_loop].
  rewrite (proj2 (Z.ltb_lt _ _)) by (unfold Zlen; lia).
  pose proof (skip_step_tag f num 0 [] (l ++ q) 0 Hn ltac:(lia)) as Es. cbn [app] in Es.
  change (Zlen []) with 0 in Es. rewrite Es. cbn -[tag_bytes skip_varint].
  by rewrite skip_varint_overflows.
Qed.

Lemma skip_spec_witness :
  wire_field [x1b; x08; x05; x1c] ∧ skip "tx" [x1b; x08; x05; x1c; x00] = Ok 4 ∧
  skip "tx" ([x08] ++ replicate 9 xff ++ [x01] ++ [x00]) = Ok 11 ∧
  skip "tx" ([x08] ++ replicate 10 xff ++ [x01]) = Err (ErrIntOverflow "tx").
Proof.
  assert (wire_field [x1b; x08; x05; x1c]) as H.
  { apply (wire_group 3 [x08; x05]); [done|]. apply (wire_cons [x08; x05] []); [|constructor].
    apply (wire_varint 1 [] x05); [done|constructor|cbn; lia|by vm_compute]. }
  assert (wire_field ([x08] ++ replicate 9 xff ++ [x01])) as H10.
  { apply (wire_varint 1 (replicate 9 xff) x01); [done|repeat constructor; by vm_compute|cbn; lia|by vm_compute]. }
  split_and!; [exact H|..].
  - apply (proj1 (skip_spec "tx") [x1b; x08; x05; x1c] [x00]); [exact H|done].
  - apply (proj1 (skip_spec "tx") _ [x00] H10). done.
  - apply (proj1 (proj2 (skip_spec "tx")) 1 (replicate 10 xff) [x01]);
      [done|repeat constructor; by vm_compute|reflexivity].
Defined.
