(* ===== verification/ExTypes.v ===== *)
(** [x/example/types/*.pb.go]: the messages of the template module with their
    generated methods, as instances of [Wire] like those of the other module. *)
From S2P Require Import Prelude Wire.

#[local] Open Scope go_scope.
#[local] Open Scope Z_scope.

(** ** [params.pb.go] *)

Definition params_pb : pb_file := "example/params".
Definition encodeVarintParams : Z → Z → GoM bytes Z := encodeVarint.
Definition sovParams : Z → Z := sov.
Definition sozParams : Z → Z := soz.
Definition skipParams : bytes → outcome Z := skip params_pb.

Record Params := MkParams {}.
(** [Params{}] *)
Definition Params_zero : Params := MkParams.
#[global] Instance Params_eq_dec : EqDecision Params.
Proof. solve_decision. Defined.

(** The argument of [Equal]: an [interface{}] that is nil, a possibly nil
    pointer, a value, or something else. *)
Inductive any_Params := AnyNil | AnyPtr (p : option Params) | AnyValue (p : Params) | AnyOther.

Definition Params_Equal (this : option Params) (that : any_Params) : bool :=
  match that with
  | AnyNil => match this with None => true | Some _ => false end
  | AnyOther => false
  | AnyPtr None => match this with None => true | Some _ => false end
  | AnyPtr (Some _) | AnyValue _ => match this with None => false | Some _ => true end
  end.

Definition Params_MarshalToSizedBuffer (m : Params) : GoM bytes Z :=
  to_sized_buffer (fun i => mret i).
Definition Params_Size (m : option Params) : Z :=
  match m with
  | None => 0
  | Some m => 0
  end.
Definition Params_Marshal (m : Params) : outcome bytes :=
  Marshal (Params_Size (Some m)) (Params_MarshalToSizedBuffer m).
Definition Params_MarshalTo (m : Params) : GoM bytes Z :=
  MarshalTo (Params_Size (Some m)) (Params_MarshalToSizedBuffer m).
Definition Params_cases : list (Z * @field_case Params) :=
  [].
Definition Params_Unmarshal : bytes → GoM Params unit :=
  unmarshal params_pb skipParams "Params" Params_cases.
Definition Params_XXX_Unmarshal (b : bytes) : GoM Params unit := Params_Unmarshal b.
Definition Params_XXX_Marshal (det : Params → slice byte → outcome bytes) (m : Params) :
  slice byte → bool → outcome bytes :=
  XXX_Marshal (det m) (Params_MarshalToSizedBuffer m).
Definition Params_XXX_Size (m : option Params) : Z := Params_Size m.

(** ** [module.pb.go] *)

Definition module_pb : pb_file := "example/module".
Definition encodeVarintModule : Z → Z → GoM bytes Z := encodeVarint.
Definition sovModule : Z → Z := sov.
Definition sozModule : Z → Z := soz.
Definition skipModule : bytes → outcome Z := skip module_pb.

Record Module := MkModule { Module_Authority : bytes }.
(** [Module{}] *)
Definition Module_zero : Module := MkModule [].
#[global] Instance Module_eq_dec : EqDecision Module.
Proof. solve_decision. Defined.
Definition Module_GetAuthority (m : option Module) : bytes :=
  match m with Some m => Module_Authority m | None => [] end.
Definition Module_MarshalToSizedBuffer (m : Module) : GoM bytes Z :=
  to_sized_buffer (fun i =>
    put_string encodeVarintModule x0a (Module_Authority m) i).
Definition Module_Size (m : option Module) : Z :=
  match m with
  | None => 0
  | Some m => size_string sovModule (Module_Authority m)
  end.
Definition Module_Marshal (m : Module) : outcome bytes :=
  Marshal (Module_Size (Some m)) (Module_MarshalToSizedBuffer m).
Definition Module_MarshalTo (m : Module) : GoM bytes Z :=
  MarshalTo (Module_Size (Some m)) (Module_MarshalToSizedBuffer m).
Definition Module_cases : list (Z * @field_case Module) :=
  [(1, string_case module_pb "Authority" (fun s m => MkModule s))].
Definition Module_Unmarshal : bytes → GoM Module unit :=
  unmarshal module_pb skipModule "Module" Module_cases.
Definition Module_XXX_Unmarshal (b : bytes) : GoM Module unit := Module_Unmarshal b.
Definition Module_XXX_Marshal (det : Module → slice byte → outcome bytes) (m : Module) :
  slice byte → bool → outcome bytes :=
  XXX_Marshal (det m) (Module_MarshalToSizedBuffer m).
Definition Module_XXX_Size (m : option Module) : Z := Module_Size m.

(** ** [genesis.pb.go] *)

Definition genesis_pb : pb_file := "example/genesis".
Definition encodeVarintGenesis : Z → Z → GoM bytes Z := encodeVarint.
Definition sovGenesis : Z → Z := sov.
Definition sozGenesis : Z → Z := soz.
Definition skipGenesis : bytes → outcome Z := skip genesis_pb.

Record GenesisState := MkGenesisState { GenesisState_Params : Params }.
(** [GenesisState{}] *)
Definition GenesisState_zero : GenesisState := MkGenesisState MkParams.
#[global] Instance GenesisState_eq_dec : EqDecision GenesisState.
Proof. solve_decision. Defined.
Definition GenesisState_GetParams (m : option GenesisState) : Params :=
  match m with Some m => GenesisState_Params m | None => Params_zero end.
Definition GenesisState_MarshalToSizedBuffer (m : GenesisState) : GoM bytes Z :=
  to_sized_buffer (fun i =>
    put_message encodeVarintGenesis x0a (Params_MarshalToSizedBuffer (GenesisState_Params m)) i).
Definition GenesisState_Size (m : option GenesisState) : Z :=
  match m with
  | None => 0
  | Some m => size_message sovGenesis (Params_Size (Some (GenesisState_Params m)))
  end.
Definition GenesisState_Marshal (m : GenesisState) : outcome bytes :=
  Marshal (GenesisState_Size (Some m)) (GenesisState_MarshalToSizedBuffer m).
Definition GenesisState_MarshalTo (m : GenesisState) : GoM bytes Z :=
  MarshalTo (GenesisState_Size (Some m)) (GenesisState_MarshalToSizedBuffer m).
Definition GenesisState_cases : list (Z * @field_case GenesisState) :=
  [(1, message_case genesis_pb "Params" GenesisState_Params (fun p m => MkGenesisState p) Params_Unmarshal)].
Definition GenesisState_Unmarshal : bytes → GoM GenesisState unit :=
  unmarshal genesis_pb skipGenesis "GenesisState" GenesisState_cases.
Definition GenesisState_XXX_Unmarshal (b : bytes) : GoM GenesisState unit := GenesisState_Unmarshal b.
Definition GenesisState_XXX_Marshal (det : GenesisState → slice byte → outcome bytes) (m : GenesisState) :
  slice byte → bool → outcome bytes :=
  XXX_Marshal (det m) (GenesisState_MarshalToSizedBuffer m).
Definition GenesisState_XXX_Size (m : option GenesisState) : Z := GenesisState_Size m.

(** ** [query.pb.go] *)

Definition query_pb : pb_file := "example/query".
Definition encodeVarintQuery : Z → Z → GoM bytes Z := encodeVarint.
Definition sovQuery : Z → Z := sov.
Definition sozQuery : Z → Z := soz.
Definition skipQuery : bytes → outcome Z := skip query_pb.

Record QueryParamsRequest := MkQueryParamsRequest {}.
(** [QueryParamsRequest{}] *)
Definition QueryParamsRequest_zero : QueryParamsRequest := MkQueryParamsRequest.
#[global] Instance QueryParamsRequest_eq_dec : EqDecision QueryParamsRequest.
Proof. solve_decision. Defined.
Definition QueryParamsRequest_MarshalToSizedBuffer (m : QueryParamsRequest) : GoM bytes Z :=
  to_sized_buffer (fun i => mret i).
Definition QueryParamsRequest_Size (m : option QueryParamsRequest) : Z :=
  match m with
  | None => 0
  | Some m => 0
  end.
Definition QueryParamsRequest_Marshal (m : QueryParamsRequest) : outcome bytes :=
  Marshal (QueryParamsRequest_Size (Some m)) (QueryParamsRequest_MarshalToSizedBuffer m).
Definition QueryParamsRequest_MarshalTo (m : QueryParamsRequest) : GoM bytes Z :=
  MarshalTo (QueryParamsRequest_Size (Some m)) (QueryParamsRequest_MarshalToSizedBuffer m).
Definition QueryParamsRequest_cases : list (Z * @field_case QueryParamsRequest) :=
  [].
Definition QueryParamsRequest_Unmarshal : bytes → GoM QueryParamsRequest unit :=
  unmarshal query_pb skipQuery "QueryParamsRequest" QueryParamsRequest_cases.
Definition QueryParamsRequest_XXX_Unmarshal (b : bytes) : GoM QueryParamsRequest unit := QueryParamsRequest_Unmarshal b.
Definition QueryParamsRequest_XXX_Marshal (det : QueryParamsRequest → slice byte → outcome bytes) (m : QueryParamsRequest) :
  slice byte → bool → outcome bytes :=
  XXX_Marshal (det m) (QueryParamsRequest_MarshalToSizedBuffer m).
Definition QueryParamsRequest_XXX_Size (m : option QueryParamsRequest) : Z := QueryParamsRequest_Size m.

Record QueryParamsResponse := MkQueryParamsResponse { QueryParamsResponse_Params : Params }.
(** [QueryParamsResponse{}] *)
Definition QueryParamsResponse_zero : QueryParamsResponse := MkQueryParamsResponse MkParams.
#[global] Instance QueryParamsResponse_eq_dec : EqDecision QueryParamsResponse.
Proof. solve_decision. Defined.
Definition QueryParamsResponse_GetParams (m : option QueryParamsResponse) : Params :=
  match m with Some m => QueryParamsResponse_Params m | None => Params_zero end.
Definition QueryParamsResponse_MarshalToSizedBuffer (m : QueryParamsResponse) : GoM bytes Z :=
  to_sized_buffer (fun i =>
    put_message encodeVarintQuery x0a (Params_MarshalToSizedBuffer (QueryParamsResponse_Params m)) i).
Definition QueryParamsResponse_Size (m : option QueryParamsResponse) : Z :=
  match m with
  | None => 0
  | Some m => size_message sovQuery (Params_Size (Some (QueryParamsResponse_Params m)))
  end.
Definition QueryParamsResponse_Marshal (m : QueryParamsResponse) : outcome bytes :=
  Marshal (QueryParamsResponse_Size (Some m)) (QueryParamsResponse_MarshalToSizedBuffer m).
Definition QueryParamsResponse_MarshalTo (m : QueryParamsResponse) : GoM bytes Z :=
  MarshalTo (QueryParamsResponse_Size (Some m)) (QueryParamsResponse_MarshalToSizedBuffer m).
Definition QueryParamsResponse_cases : list (Z * @field_case QueryParamsResponse) :=
  [(1, message_case query_pb "Params" QueryParamsResponse_Params (fun p m => MkQueryParamsResponse p) Params_Unmarshal)].
Definition QueryParamsResponse_Unmarshal : bytes → GoM QueryParamsResponse unit :=
  unmarshal query_pb skipQuery "QueryParamsResponse" QueryParamsResponse_cases.
Definition QueryParamsResponse_XXX_Unmarshal (b : bytes) : GoM QueryParamsResponse unit := QueryParamsResponse_Unmarshal b.
Definition QueryParamsResponse_XXX_Marshal (det : QueryParamsResponse → slice byte → outcome bytes) (m : QueryParamsResponse) :
  slice byte → bool → outcome bytes :=
  XXX_Marshal (det m) (QueryParamsResponse_MarshalToSizedBuffer m).
Definition QueryParamsResponse_XXX_Size (m : option QueryParamsResponse) : Z := QueryParamsResponse_Size m.

(** ** [tx.pb.go] *)

Definition tx_pb : pb_file := "example/tx".
Definition encodeVarintTx : Z → Z → GoM bytes Z := encodeVarint.
Definition sovTx : Z → Z := sov.
Definition sozTx : Z → Z := soz.
Definition skipTx : bytes → outcome Z := skip tx_pb.

Record MsgUpdateParams := MkMsgUpdateParams { MsgUpdateParams_Authority : bytes; MsgUpdateParams_Params : Params }.
(** [MsgUpdateParams{}] *)
Definition MsgUpdateParams_zero : MsgUpdateParams := MkMsgUpdateParams [] MkParams.
#[global] Instance MsgUpdateParams_eq_dec : EqDecision MsgUpdateParams.
Proof. solve_decision. Defined.
Definition MsgUpdateParams_GetAuthority (m : option MsgUpdateParams) : bytes :=
  match m with Some m => MsgUpdateParams_Authority m | None => [] end.
Definition MsgUpdateParams_GetParams (m : option MsgUpdateParams) : Params :=
  match m with Some m => MsgUpdateParams_Params m | None => Params_zero end.
Definition MsgUpdateParams_MarshalToSizedBuffer (m : MsgUpdateParams) : GoM bytes Z :=
  to_sized_buffer (fun i =>
    i ← put_message encodeVarintTx x12 (Params_MarshalToSizedBuffer (MsgUpdateParams_Params m)) i;
    put_string encodeVarintTx x0a (MsgUpdateParams_Authority m) i).
Definition MsgUpdateParams_Size (m : option MsgUpdateParams) : Z :=
  match m with
  | None => 0
  | Some m => size_string sovTx (MsgUpdateParams_Authority m) + size_message sovTx (Params_Size (Some (MsgUpdateParams_Params m)))
  end.
Definition MsgUpdateParams_Marshal (m : MsgUpdateParams) : outcome bytes :=
  Marshal (MsgUpdateParams_Size (Some m)) (MsgUpdateParams_MarshalToSizedBuffer m).
Definition MsgUpdateParams_MarshalTo (m : MsgUpdateParams) : GoM bytes Z :=
  MarshalTo (MsgUpdateParams_Size (Some m)) (MsgUpdateParams_MarshalToSizedBuffer m).
Definition MsgUpdateParams_cases : list (Z * @field_case MsgUpdateParams) :=
  [(1, string_case tx_pb "Authority" (fun s m => MkMsgUpdateParams s (MsgUpdateParams_Params m)));
   (2, message_case tx_pb "Params" MsgUpdateParams_Params (fun p m => MkMsgUpdateParams (MsgUpdateParams_Authority m) p) Params_Unmarshal)].
Definition MsgUpdateParams_Unmarshal : bytes → GoM MsgUpdateParams unit :=
  unmarshal tx_pb skipTx "MsgUpdateParams" MsgUpdateParams_cases.
Definition MsgUpdateParams_XXX_Unmarshal (b : bytes) : GoM MsgUpdateParams unit := MsgUpdateParams_Unmarshal b.
Definition MsgUpdateParams_XXX_Marshal (det : MsgUpdateParams → slice byte → outcome bytes) (m : MsgUpdateParams) :
  slice byte → bool → outcome bytes :=
  XXX_Marshal (det m) (MsgUpdateParams_MarshalToSizedBuffer m).
Definition MsgUpdateParams_XXX_Size (m : option MsgUpdateParams) : Z := MsgUpdateParams_Size m.

Record MsgUpdateParamsResponse := MkMsgUpdateParamsResponse {}.
(** [MsgUpdateParamsResponse{}] *)
Definition MsgUpdateParamsResponse_zero : MsgUpdateParamsResponse := MkMsgUpdateParamsResponse.
#[global] Instance MsgUpdateParamsResponse_eq_dec : EqDecision MsgUpdateParamsResponse.
Proof. solve_decision. Defined.
Definition MsgUpdateParamsResponse_MarshalToSizedBuffer (m : MsgUpdateParamsResponse) : GoM bytes Z :=
  to_sized_buffer (fun i => mret i).
Definition MsgUpdateParamsResponse_Size (m : option MsgUpdateParamsResponse) : Z :=
  match m with
  | None => 0
  | Some m => 0
  end.
Definition MsgUpdateParamsResponse_Marshal (m : MsgUpdateParamsResponse) : outcome bytes :=
  Marshal (MsgUpdateParamsResponse_Size (Some m)) (MsgUpdateParamsResponse_MarshalToSizedBuffer m).
Definition MsgUpdateParamsResponse_MarshalTo (m : MsgUpdateParamsResponse) : GoM bytes Z :=
  MarshalTo (MsgUpdateParamsResponse_Size (Some m)) (MsgUpdateParamsResponse_MarshalToSizedBuffer m).
Definition MsgUpdateParamsResponse_cases : list (Z * @field_case MsgUpdateParamsResponse) :=
  [].
Definition MsgUpdateParamsResponse_Unmarshal : bytes → GoM MsgUpdateParamsResponse unit :=
  unmarshal tx_pb skipTx "MsgUpdateParamsResponse" MsgUpdateParamsResponse_cases.
Definition MsgUpdateParamsResponse_XXX_Unmarshal (b : bytes) : GoM MsgUpdateParamsResponse unit := MsgUpdateParamsResponse_Unmarshal b.
Definition MsgUpdateParamsResponse_XXX_Marshal (det : MsgUpdateParamsResponse → slice byte → outcome bytes) (m : MsgUpdateParamsResponse) :
  slice byte → bool → outcome bytes :=
  XXX_Marshal (det m) (MsgUpdateParamsResponse_MarshalToSizedBuffer m).
Definition MsgUpdateParamsResponse_XXX_Size (m : option MsgUpdateParamsResponse) : Z := MsgUpdateParamsResponse_Size m.

(** ** The generated codecs keep their promises *)

Lemma ex_tag_1 : tag_bytes 1 2 = [x0a].
Proof. reflexivity. Qed.
Lemma ex_tag_2 : tag_bytes 2 2 = [x12].
Proof. reflexivity. Qed.

Lemma ex_num_1 : valid_num 1.
Proof. done. Qed.
Lemma ex_num_2 : valid_num 2.
Proof. done. Qed.
#[local] Hint Resolve ex_tag_1 ex_tag_2 ex_num_1 ex_num_2 : go.

#[global] Instance Params_codec : PbCodec Params.
Proof.
  refine {| pb_zero := Params_zero; pb_Size m := Params_Size (Some m);
            pb_ToSized := Params_MarshalToSizedBuffer; pb_Unmarshal := Params_Unmarshal;
            encoding _ := [] |}.
  - intros m _. apply fills_to_sized, writes_back_ret.
  - done.
  - by intros [] _.
  - intros data Hd. apply unmarshal_safe; [constructor|done].
Defined.

(** The fields in the order of their numbers. *)
Definition Module_encoding (m : Module) : bytes :=
  string_field x0a (Module_Authority m).

Lemma ex_Module_decodes m :
  decodes module_pb "Module" Module_cases (Module_encoding m)
    ((λ x, match Module_Authority m with [] => x | _ => (fun v m => MkModule v) (Module_Authority m) x end)).
Proof.
  by apply (decodes_string _ _ _ 1 _ "Authority" (fun v m => MkModule v)).
Qed.

#[global] Instance Module_codec : PbCodec Module.
Proof.
  refine {| pb_zero := Module_zero; pb_Size m := Module_Size (Some m);
            pb_ToSized := Module_MarshalToSizedBuffer; pb_Unmarshal := Module_Unmarshal;
            encoding := Module_encoding |}; unfold Module_encoding.
  - intros m Hm. solve_fills.
  - intros m Hm. cbn [Module_Size]. solve_size.
  - intros m Hm. unfold Module_Unmarshal. erewrite unmarshal_decodes by (done || apply ex_Module_decodes).
    by destruct m as [[|? ?]].
  - intros data Hd. solve_safe (pb_safe (M:=Params)).
Defined.

(** The fields in the order of their numbers. *)
Definition GenesisState_encoding (m : GenesisState) : bytes :=
  delimited x0a (encoding (GenesisState_Params m)).

Lemma ex_GenesisState_decodes m :
  decodes genesis_pb "GenesisState" GenesisState_cases (GenesisState_encoding m)
    ((λ x, (fun v m => MkGenesisState v) (GenesisState_Params x) x)).
Proof.
  by apply (decodes_message _ _ _ 1 _ "Params" GenesisState_Params
      (fun v m => MkGenesisState v) Params_Unmarshal [] id).
Qed.

#[global] Instance GenesisState_codec : PbCodec GenesisState.
Proof.
  refine {| pb_zero := GenesisState_zero; pb_Size m := GenesisState_Size (Some m);
            pb_ToSized := GenesisState_MarshalToSizedBuffer; pb_Unmarshal := GenesisState_Unmarshal;
            encoding := GenesisState_encoding |}; unfold GenesisState_encoding.
  - intros m Hm. solve_fills.
  - intros m Hm. cbn [GenesisState_Size]. solve_size.
  - intros m Hm. unfold GenesisState_Unmarshal. erewrite unmarshal_decodes by (done || apply ex_GenesisState_decodes).
    by destruct m as [[]].
  - intros data Hd. solve_safe (pb_safe (M:=Params)).
Defined.

#[global] Instance QueryParamsRequest_codec : PbCodec QueryParamsRequest.
Proof.
  refine {| pb_zero := QueryParamsRequest_zero; pb_Size m := QueryParamsRequest_Size (Some m);
            pb_ToSized := QueryParamsRequest_MarshalToSizedBuffer; pb_Unmarshal := QueryParamsRequest_Unmarshal;
            encoding _ := [] |}.
  - intros m _. apply fills_to_sized, writes_back_ret.
  - done.
  - by intros [] _.
  - intros data Hd. apply unmarshal_safe; [constructor|done].
Defined.

(** The fields in the order of their numbers. *)
Definition QueryParamsResponse_encoding (m : QueryParamsResponse) : bytes :=
  delimited x0a (encoding (QueryParamsResponse_Params m)).

Lemma ex_QueryParamsResponse_decodes m :
  decodes query_pb "QueryParamsResponse" QueryParamsResponse_cases (QueryParamsResponse_encoding m)
    ((λ x, (fun v m => MkQueryParamsResponse v) (QueryParamsResponse_Params x) x)).
Proof.
  by apply (decodes_message _ _ _ 1 _ "Params" QueryParamsResponse_Params
      (fun v m => MkQueryParamsResponse v) Params_Unmarshal [] id).
Qed.

#[global] Instance QueryParamsResponse_codec : PbCodec QueryParamsResponse.
Proof.
  refine {| pb_zero := QueryParamsResponse_zero; pb_Size m := QueryParamsResponse_Size (Some m);
            pb_ToSized := QueryParamsResponse_MarshalToSizedBuffer; pb_Unmarshal := QueryParamsResponse_Unmarshal;
            encoding := QueryParamsResponse_encoding |}; unfold QueryParamsResponse_encoding.
  - intros m Hm. solve_fills.
  - intros m Hm. cbn [QueryParamsResponse_Size]. solve_size.
  - intros m Hm. unfold QueryParamsResponse_Unmarshal. erewrite unmarshal_decodes by (done || apply ex_QueryParamsResponse_decodes).
    by destruct m as [[]].
  - intros data Hd. solve_safe (pb_safe (M:=Params)).
Defined.

(** The fields in the order of their numbers. *)
Definition MsgUpdateParams_encoding (m : MsgUpdateParams) : bytes :=
  string_field x0a (MsgUpdateParams_Authority m) ++ delimited x12 (encoding (MsgUpdateParams_Params m)).

Lemma ex_MsgUpdateParams_decodes m :
  decodes tx_pb "MsgUpdateParams" MsgUpdateParams_cases (MsgUpdateParams_encoding m)
    ((λ x, (fun v m => MkMsgUpdateParams (MsgUpdateParams_Authority m) v) (MsgUpdateParams_Params x) x) ∘
     (λ x, match MsgUpdateParams_Authority m with [] => x | _ => (fun v m => MkMsgUpdateParams v (MsgUpdateParams_Params m)) (MsgUpdateParams_Authority m) x end)).
Proof.
  apply decodes_app.
  - by apply (decodes_string _ _ _ 1 _ "Authority" (fun v m => MkMsgUpdateParams v (MsgUpdateParams_Params m))).
  - by apply (decodes_message _ _ _ 2 _ "Params" MsgUpdateParams_Params
      (fun v m => MkMsgUpdateParams (MsgUpdateParams_Authority m) v) Params_Unmarshal [] id).
Qed.

#[global] Instance MsgUpdateParams_codec : PbCodec MsgUpdateParams.
Proof.
  refine {| pb_zero := MsgUpdateParams_zero; pb_Size m := MsgUpdateParams_Size (Some m);
            pb_ToSized := MsgUpdateParams_MarshalToSizedBuffer; pb_Unmarshal := MsgUpdateParams_Unmarshal;
            encoding := MsgUpdateParams_encoding |}; unfold MsgUpdateParams_encoding.
  - intros m Hm. solve_fills.
  - intros m Hm. cbn [MsgUpdateParams_Size]. solve_size.
  - intros m Hm. unfold MsgUpdateParams_Unmarshal. erewrite unmarshal_decodes by (done || apply ex_MsgUpdateParams_decodes).
    by destruct m as [[|? ?] []].
  - intros data Hd. solve_safe (pb_safe (M:=Params)).
Defined.

#[global] Instance MsgUpdateParamsResponse_codec : PbCodec MsgUpdateParamsResponse.
Proof.
  refine {| pb_zero := MsgUpdateParamsResponse_zero; pb_Size m := MsgUpdateParamsResponse_Size (Some m);
            pb_ToSized := MsgUpdateParamsResponse_MarshalToSizedBuffer; pb_Unmarshal := MsgUpdateParamsResponse_Unmarshal;
            encoding _ := [] |}.
  - intros m _. apply fills_to_sized, writes_back_ret.
  - done.
  - by intros [] _.
  - intros data Hd. apply unmarshal_safe; [constructor|done].
Defined.

(** ** Properties *)

(** Every message of the example module marshals to its reference encoding,
    which unmarshals to the same message, and [MarshalTo] writes it to the front
    of a buffer that is long enough and panics on a shorter one. *)
Theorem ex_messages_roundtrip :
  codec_spec Params_Marshal Params_MarshalTo Params_Unmarshal Params_zero ∧
  codec_spec Module_Marshal Module_MarshalTo Module_Unmarshal Module_zero ∧
  codec_spec GenesisState_Marshal GenesisState_MarshalTo GenesisState_Unmarshal GenesisState_zero ∧
  codec_spec QueryParamsRequest_Marshal QueryParamsRequest_MarshalTo QueryParamsRequest_Unmarshal QueryParamsRequest_zero ∧
  codec_spec QueryParamsResponse_Marshal QueryParamsResponse_MarshalTo QueryParamsResponse_Unmarshal QueryParamsResponse_zero ∧
  codec_spec MsgUpdateParams_Marshal MsgUpdateParams_MarshalTo MsgUpdateParams_Unmarshal MsgUpdateParams_zero ∧
  codec_spec MsgUpdateParamsResponse_Marshal MsgUpdateParamsResponse_MarshalTo MsgUpdateParamsResponse_Unmarshal MsgUpdateParamsResponse_zero.
Proof.
  split_and!;
    [exact (codec_ok (M:=Params))
    |exact (codec_ok (M:=Module))
    |exact (codec_ok (M:=GenesisState))
    |exact (codec_ok (M:=QueryParamsRequest))
    |exact (codec_ok (M:=QueryParamsResponse))
    |exact (codec_ok (M:=MsgUpdateParams))
    |exact (codec_ok (M:=MsgUpdateParamsResponse))].
Qed.

Lemma ex_messages_roundtrip_witness :
  MsgUpdateParams_Marshal (MkMsgUpdateParams (str "gov") MkParams) = Ok [x0a; x03; "g"; "o"; "v"; x12; x00]%byte ∧
  MsgUpdateParams_Unmarshal [x0a; x03; "g"; "o"; "v"; x12; x00]%byte MsgUpdateParams_zero =
    (Ok tt, (MkMsgUpdateParams (str "gov") MkParams)).
Proof.
  destruct ex_messages_roundtrip as (_ & _ & _ & _ & _ & H & _).
  destruct (H (MkMsgUpdateParams (str "gov") MkParams) []) as (H1 & H2 & _); [done|].
  split; [exact H1|exact H2].
Defined.

(** Unmarshalling any bytes into any message of the example module ends
    with a message or one of the code's own errors: it never panics and never
    loops. *)
Theorem ex_unmarshal_total data :
  fits data →
  safeM (λ _, True) (Params_Unmarshal data) ∧
  safeM (λ _, True) (Module_Unmarshal data) ∧
  safeM (λ _, True) (GenesisState_Unmarshal data) ∧
  safeM (λ _, True) (QueryParamsRequest_Unmarshal data) ∧
  safeM (λ _, True) (QueryParamsResponse_Unmarshal data) ∧
  safeM (λ _, True) (MsgUpdateParams_Unmarshal data) ∧
  safeM (λ _, True) (MsgUpdateParamsResponse_Unmarshal data).
Proof.
  intros Hd. split_and!;
    [exact (pb_safe (M:=Params) data Hd)
    |exact (pb_safe (M:=Module) data Hd)
    |exact (pb_safe (M:=GenesisState) data Hd)
    |exact (pb_safe (M:=QueryParamsRequest) data Hd)
    |exact (pb_safe (M:=QueryParamsResponse) data Hd)
    |exact (pb_safe (M:=MsgUpdateParams) data Hd)
    |exact (pb_safe (M:=MsgUpdateParamsResponse) data Hd)].
Qed.

Lemma ex_unmarshal_total_witness :
  fits [x0a; xff; xff; xff; xff; xff; xff; xff; xff; xff; x01] ∧
  (MsgUpdateParams_Unmarshal [x0a; xff; xff; xff; xff; xff; xff; xff; xff; xff; x01] MsgUpdateParams_zero).1 = Err (ErrInvalidLength tx_pb) ∧
  safeM (λ _, True) (MsgUpdateParams_Unmarshal [x0a; xff; xff; xff; xff; xff; xff; xff; xff; xff; x01]).
Proof.
  split; [done|]. split; [vm_compute; reflexivity|].
  destruct (ex_unmarshal_total [x0a; xff; xff; xff; xff; xff; xff; xff; xff; xff; x01]) as (_ & _ & _ & _ & _ & H & _); [done|].
  exact H.
Defined.
