(* ===== verification/Expected.v ===== *)
(** [x/*/types/expected_keepers.go]: what a module expects of the auth and bank
    modules and of a parameter subspace.  The two modules declare the same
    interfaces, so they are written once.  An interface value carries the state
    its methods run on, which a context gives access to, and the types of other
    packages that its methods mention. *)
From S2P Require Import Prelude.

Record AuthKeeper := {
  AuthKeeper_State : Type;
  address_Codec : Type;
  AccountI : Type;
  AuthKeeper_AddressCodec : address_Codec;
  GetAccount : bytes → GoM AuthKeeper_State AccountI
}.

Record BankKeeper := {
  BankKeeper_State : Type;
  Coins : Type;
  SpendableCoins : bytes → GoM BankKeeper_State Coins
}.

(** [Get] fills the value its last argument points to. *)
Record ParamSubspace := {
  Subspace_State : Type;
  Subspace_Value : Type;
  Subspace_Get : bytes → Subspace_Value → GoM Subspace_State Subspace_Value;
  Subspace_Set : bytes → Subspace_Value → GoM Subspace_State unit
}.

(** ** Interfaces over a given state *)

Section Constant.
Context {S : Type}.

(** Keepers that know one account, of one codec, and its coins. *)
Definition constant_AuthKeeper : AuthKeeper := {|
  AuthKeeper_State := S; AuthKeeper_AddressCodec := tt; GetAccount addr := mret addr |}.
Definition constant_BankKeeper : BankKeeper := {|
  BankKeeper_State := S; SpendableCoins addr := mret (0 : Z)%Z |}.

End Constant.
