(* ===== verification/Keeper.v ===== *)
(** [x/secondarykeys/keeper]: the state of the module (its parameters and the
    two key maps, in one key-value store), the message and query handlers, and
    genesis.  [ctx] is the store; [cdc] and [addressCodec] are the interfaces of
    [Store]; [types/tx.pb.go]'s and [types/query.pb.go]'s service handlers call
    the servers. *)
From S2P Require Import Prelude Json Crypto Store Common Wire SkTypes.

#[local] Open Scope go_scope.

(** ** [types] *)

Definition ModuleName : bytes := str "secondarykeys".
Definition StoreKey : bytes := ModuleName.
Definition GovModuleName : bytes := str "gov".
Definition ParamsKey : bytes := str "p_secondarykeys".
Definition ErrInvalidSigner : error := Sentinel "secondarykeys" "1100".

Definition NewParams : Params := MkParams.
Definition DefaultParams : Params := NewParams.
Definition Params_Validate (p : Params) : outcome unit := Ok tt.

Definition DefaultGenesis : GenesisState := MkGenesisState DefaultParams.
Definition GenesisState_Validate (gs : GenesisState) : outcome unit :=
  Params_Validate (GenesisState_Params gs).

(** ** [keeper.go] *)

Record Keeper := { authority : bytes; Schema : list (bytes * bytes) }.

(** [collections.NewPrefix(0)] and [collections.NewPrefix(1)] *)
Definition AnteHandlerMap : bytes := [x00].
Definition VoteExtensionMap : bytes := [x01].

(** The collections [NewKeeper] declares, prefixes and names. *)
Definition collections_decl : list (bytes * bytes) :=
  [(ParamsKey, str "params"); (AnteHandlerMap, str "ante_handler_map");
   (VoteExtensionMap, str "vote_extension_map")].

Definition status_InvalidArgument (msg : string) : error := Wrapped "InvalidArgument" (ErrorString msg).
Definition status_Internal (msg : string) : error := Wrapped "Internal" (ErrorString msg).
Definition status_Unimplemented (msg : string) : error := Wrapped "Unimplemented" (ErrorString msg).

Section Keeper.
Context {Store : Type} `{!Collections Store, !AddressCodec, !CollValue Params}.

Definition NewKeeper (authority : bytes) : outcome Keeper :=
  let! _ := BytesToString authority
    else e => Panic (Wrapped "invalid authority address" e) in
  let! _ := SchemaBuilder_Build (Store := Store) collections_decl else e => Panic e in
  Ok {| authority := authority; Schema := collections_decl |}.

Definition GetAuthority (k : Keeper) : bytes := authority k.

Definition Params_Get (s : Store) : outcome Params := item_get ParamsKey s.
Definition Params_Set (p : Params) : GoM Store unit := item_set ParamsKey p.

Definition SetSecondaryPubKeyAnteHandler (addr pubKey : bytes) : GoM Store unit :=
  coll_set AnteHandlerMap addr pubKey.

Definition GetSecondaryPubKeyAnteHandler (s : Store) (addr : bytes) : outcome bytes :=
  let! bz := coll_get s AnteHandlerMap addr else err => Err err in Ok bz.

Definition SetSecondaryPubKeyVoteExtension (addr pubKey : bytes) : GoM Store unit :=
  coll_set VoteExtensionMap addr pubKey.

Definition GetSecondaryPubKeyVoteExtension (s : Store) (addr : bytes) : outcome bytes :=
  let! bz := coll_get s VoteExtensionMap addr else err => Err err in Ok bz.

(** ** [genesis.go] *)

Definition InitGenesis (genState : GenesisState) : GoM Store unit :=
  Params_Set (GenesisState_Params genState).

Definition ExportGenesis (s : Store) : outcome GenesisState :=
  let genesis := DefaultGenesis in
  let! params := Params_Get s else err => Err err in
  Ok (MkGenesisState params).

(** ** [query_params.go]; the request pointer may be nil *)

Definition Query_Params (s : Store) (req : option QueryParamsRequest)
    : outcome QueryParamsResponse :=
  match req with
  | None => Err (status_InvalidArgument "invalid request")
  | Some _ =>
      match Params_Get s with
      | Panic v => Panic v
      | Err err =>
          if negb (errors_Is err ErrNotFound) then Err (status_Internal "internal error")
          else Ok (MkQueryParamsResponse Params_zero)
      | Ok params => Ok (MkQueryParamsResponse params)
      end
  end.

(** ** [msg_update_params.go] *)

Definition UpdateParams (k : Keeper) (req : MsgUpdateParams)
    : GoM Store MsgUpdateParamsResponse :=
  let? authority := lift (StringToBytes (MsgUpdateParams_Authority req))
    else err => fail (Wrapped "invalid authority address" err) in
  if negb (bytes_Equal (GetAuthority k) authority) then
    fail (Wrapped "invalid authority" ErrInvalidSigner)
  else
    let? _ := lift (Params_Validate (MsgUpdateParams_Params req)) else err => fail err in
    let? _ := Params_Set (MsgUpdateParams_Params req) else err => fail err in
    mret MkMsgUpdateParamsResponse.

(** ** [msg_server_broadcast_data.go] *)

Context `{!Json.GoRuntime, !EthCrypto}.

(** [msg.Data] is trimmed in the message itself, which the handler does not
    hand to anyone afterwards. *)
Definition BroadcastData (k : Keeper) (msg : MsgBroadcastData)
    : GoM Store MsgBroadcastDataResponse :=
  let? _ := lift (StringToBytes (MsgBroadcastData_Sender msg))
    else err => fail (Wrapped "invalid authority address" err) in
  let msg := MkMsgBroadcastData (MsgBroadcastData_Sender msg)
               (Trim (MsgBroadcastData_Data msg) (str "SECONDARY")) in
  let? secondSig := lift (DecodeSecondSigFromMemo (mk (MsgBroadcastData_Data msg)))
    else err => panic err in
  let? _ := lift (Validate secondSig) else err => panic err in
  let hsh := Keccak256 (elems (PublicKey secondSig)) in
  if VerifySignature (elems (PublicKey secondSig)) hsh (elems (Signature secondSig)) then
    let? f := lift (AccAddressFromBech32 (MsgBroadcastData_Sender msg))
      else err => panic err in
    let? _ := SetSecondaryPubKeyAnteHandler f (elems (PublicKey secondSig))
      else err => panic err in
    mret MkMsgBroadcastDataResponse
  else mret MkMsgBroadcastDataResponse.

(** ** The service handlers of [types/tx.pb.go] and [types/query.pb.go]

    [dec] decodes the request the transport holds; an interceptor, when there is
    one, gets the request and the handler. *)

Section Handlers.
Context {Req Resp : Type}.

Definition unary_handler (zero : Req) (dec : GoM Req unit)
    (interceptor : option (Req → (Req → GoM Store Resp) → GoM Store Resp))
    (serve : Req → GoM Store Resp) : GoM Store Resp := fun s =>
  match dec zero with
  | (Err e, _) => (Err e, s)
  | (Panic v, _) => (Panic v, s)
  | (Ok _, msg) =>
      match interceptor with
      | None => serve msg s
      | Some i => i msg serve s
      end
  end.

End Handlers.

Definition Msg_UpdateParams_Handler (srv : Keeper) (dec : GoM MsgUpdateParams unit) interceptor :=
  unary_handler MsgUpdateParams_zero dec interceptor (UpdateParams srv).

Definition Msg_BroadcastData_Handler (srv : Keeper) (dec : GoM MsgBroadcastData unit) interceptor :=
  unary_handler MsgBroadcastData_zero dec interceptor (BroadcastData srv).

Definition Query_Params_Handler (dec : GoM QueryParamsRequest unit) interceptor :=
  unary_handler QueryParamsRequest_zero dec interceptor
    (fun req => reads (fun s => Query_Params s (Some req))).

End Keeper.

Arguments NewKeeper Store {_ _} authority.

(** The servers to embed for forward compatibility. *)
Definition Unimplemented_UpdateParams (req : MsgUpdateParams) : outcome MsgUpdateParamsResponse :=
  Err (status_Unimplemented "method UpdateParams not implemented").
Definition Unimplemented_BroadcastData (req : MsgBroadcastData) : outcome MsgBroadcastDataResponse :=
  Err (status_Unimplemented "method BroadcastData not implemented").
Definition Unimplemented_Query_Params (req : QueryParamsRequest) : outcome QueryParamsResponse :=
  Err (status_Unimplemented "method Params not implemented").

(** ** The two maps and the parameters do not meet *)

Section Frame.
Context {Store : Type} `{!Collections Store, !CollectionsLaws Store, !AddressCodec,
  !CollValue Params, !Json.GoRuntime, !EthCrypto}.

Lemma schema_disjoint : schema_ok collections_decl.
Proof.
  intros i j a b Hij Ha Hb.
  destruct i as [|[|[|]]], j as [|[|[|]]]; cbn in Ha, Hb; try done;
    injection Ha as <-; injection Hb as <-; (split; [reflexivity|done]).
Qed.

Lemma set_ante_vote addr pk s r s' a :
  SetSecondaryPubKeyAnteHandler addr pk s = (r, s') →
  coll_get s' VoteExtensionMap a = coll_get s VoteExtensionMap a.
Proof. by apply set_get_other_prefix. Qed.

Lemma set_ante_params addr pk s r s' :
  SetSecondaryPubKeyAnteHandler addr pk s = (r, s') →
  coll_get s' ParamsKey [] = coll_get s ParamsKey [].
Proof. by apply set_get_other_prefix. Qed.

Lemma set_vote_ante addr pk s r s' a :
  SetSecondaryPubKeyVoteExtension addr pk s = (r, s') →
  coll_get s' AnteHandlerMap a = coll_get s AnteHandlerMap a.
Proof. by apply set_get_other_prefix. Qed.

Lemma set_vote_params addr pk s r s' :
  SetSecondaryPubKeyVoteExtension addr pk s = (r, s') →
  coll_get s' ParamsKey [] = coll_get s ParamsKey [].
Proof. by apply set_get_other_prefix. Qed.

Lemma item_set_frame p s r s' q a :
  Params_Set p s = (r, s') → ParamsKey ++ [] ≠ q ++ a → coll_get s' q a = coll_get s q a.
Proof.
  unfold Params_Set, item_set, mbind, gom_bind, lift.
  destruct (value_encode p); [|congruence..]. intros Hs Hne. by eapply set_get_ne.
Qed.

Lemma params_set_ante p s r s' a :
  Params_Set p s = (r, s') → coll_get s' AnteHandlerMap a = coll_get s AnteHandlerMap a.
Proof. intros Hs. by eapply item_set_frame. Qed.

Lemma params_set_vote p s r s' a :
  Params_Set p s = (r, s') → coll_get s' VoteExtensionMap a = coll_get s VoteExtensionMap a.
Proof. intros Hs. by eapply item_set_frame. Qed.

Lemma params_set_get `{!CollValueLaws Params} p s s' :
  Params_Set p s = (Ok tt, s') → Params_Get s' = Ok p.
Proof.
  unfold Params_Set, item_set, Params_Get, item_get, mbind, gom_bind, lift.
  destruct (value_encode p) as [b| |] eqn:E; [|congruence..]. intros Hs.
  rewrite (set_get _ _ _ _ _ Hs). by apply value_roundtrip.
Qed.

(** An update of the parameters writes neither key map. *)
Lemma UpdateParams_maps k req s r s' :
  UpdateParams k req s = (r, s') →
  ∀ a, coll_get s' AnteHandlerMap a = coll_get s AnteHandlerMap a ∧
       coll_get s' VoteExtensionMap a = coll_get s VoteExtensionMap a.
Proof.
  unfold UpdateParams, catch, lift, fail. intros Hr a.
  destruct (StringToBytes _) as [b|e|v]; [|injection Hr as <- <-; done..].
  destruct (negb _); [injection Hr as <- <-; done|].
  destruct (Params_Validate _); [|injection Hr as <- <-; done..].
  destruct (Params_Set _ s) as [[[]|e|v] s1] eqn:Es; injection Hr as <- <-;
    (split; [by eapply params_set_ante|by eapply params_set_vote]).
Qed.

(** An update that succeeds stores its parameters. *)
Lemma UpdateParams_stored `{!CollValueLaws Params} k req s x s' :
  UpdateParams k req s = (Ok x, s') → Params_Get s' = Ok (MsgUpdateParams_Params req).
Proof.
  unfold UpdateParams. rewrite catch_Ok by done. intros (a & s1 & _ & E).
  destruct (negb _); [done|]. rewrite catch_Ok in E by done. destruct E as ([] & s2 & _ & E).
  rewrite catch_Ok in E by done. destruct E as ([] & s3 & Es & [_ <-]%ret_Ok).
  by eapply params_set_get.
Qed.

(** ** What a broadcast registers *)

(** [BroadcastData] either leaves the store alone, or writes one entry to the
    ante-handler map: the sender's, with a key whose possession the data
    proves. *)
Lemma BroadcastData_effect k msg s r s' :
  BroadcastData k msg s = (r, s') →
  s' = s ∨
  ∃ addr sig, AccAddressFromBech32 (MsgBroadcastData_Sender msg) = Ok addr ∧
    DecodeSecondSigFromMemo (mk (Trim (MsgBroadcastData_Data msg) (str "SECONDARY"))) = Ok sig ∧
    proves_possession (elems (PublicKey sig)) (elems (Signature sig)) ∧
    Validate sig = Ok tt ∧
    ∃ r', SetSecondaryPubKeyAnteHandler addr (elems (PublicKey sig)) s = (r', s') ∧
      (r = Ok MkMsgBroadcastDataResponse → r' = Ok tt).
Proof.
  unfold BroadcastData, catch, lift. cbn [MsgBroadcastData_Sender MsgBroadcastData_Data].
  destruct (StringToBytes _) as [a|e|v]; [|intros [= <- <-]; auto..].
  destruct (DecodeSecondSigFromMemo _) as [sig|e|v] eqn:Ed; [|intros [= <- <-]; auto..].
  destruct (Validate sig) as [[]|e|v] eqn:Ev; [|intros [= <- <-]; auto..].
  destruct (VerifySignature _ _ _) eqn:Eq; [|intros [= <- <-]; auto].
  destruct (AccAddressFromBech32 _) as [addr|e|v] eqn:Ea; [|intros [= <- <-]; auto..].
  destruct (SetSecondaryPubKeyAnteHandler _ _ s) as [r' s''] eqn:Es.
  intros Hr. right. exists addr, sig. split_and!; try done. exists r'.
  destruct r' as [[]|e|v]; injection Hr as <- <-; done.
Qed.

End Frame.

(** The text the program writes into memos is framed by braces, so that
    trimming the prefix's letters removes the prefix and nothing else. *)
Lemma print_memo_frame s :
  ∃ m, Json.print (SecondarySignature_json s) = "{"%byte :: m ++ ["}"%byte].
Proof. eexists. cbn [Json.print SecondarySignature_json]. reflexivity. Qed.

Lemma Trim_memo s :
  Trim (str "SECONDARY" ++ Json.print (SecondarySignature_json s)) (str "SECONDARY") =
  Json.print (SecondarySignature_json s).
Proof.
  destruct (print_memo_frame s) as [m E].
  rewrite <-(app_nil_r (Json.print _)) at 1. apply Trim_frame.
  - apply list.Forall_forall. by intros c Hc.
  - constructor.
  - exists "{"%byte, (m ++ ["}"%byte]). split; [done|]. by apply (bool_decide_unpack _); vm_compute.
  - exists ("{"%byte :: m), "}"%byte. split; [done|]. by apply (bool_decide_unpack _); vm_compute.
Qed.

(** A memo made with a usable key, as the two places that read memos see it. *)
Lemma own_memo `{!Json.GoRuntime, !EthCrypto, !EthCryptoLaws good} sk memo :
  good sk → CreateValidMemo (Ok sk) = Ok memo →
  ∃ m t, memo = str "SECONDARY" ++ m ∧ Trim memo (str "SECONDARY") = m ∧
    DecodeSecondSigFromMemo (mk m) = Ok t ∧ Validate t = Ok tt ∧
    elems (PublicKey t) = FromECDSAPub (Some (PublicKeyOf sk)) ∧
    proves_possession (elems (PublicKey t)) (elems (Signature t)).
Proof.
  intros Hk Hm. destruct (CreateValidMemo_shape sk Hk) as (sig & E & Ep & Hl & Hv).
  rewrite E in Hm. assert (memo = str "SECONDARY" ++ Json.print (SecondarySignature_json sig)) as ->
    by congruence.
  destruct (DecodeSecondSig_own sig [] Hl) as (t & Ed & Ept & Est & Hval).
  { intros E0. rewrite E0 in Hv. by apply Verify_pubkey in Hv. }
  eexists _, t. split; [done|]. split; [apply Trim_memo|]. split_and!; [done..|congruence|].
  by rewrite Ept, Est.
Qed.

(** The codec of the stored parameters, made of the generated methods as the
    SDK's [ProtoCodec] uses them. *)
Module ProtoValue.

Definition decode_params (bz : bytes) : outcome Params :=
  match Params_Unmarshal bz Params_zero with
  | (Ok _, p) => Ok p
  | (Err e, _) => Err e
  | (Panic v, _) => Panic v
  end.

#[export] Instance params_value : CollValue Params :=
  {| value_encode := Params_Marshal; value_decode := decode_params |}.

#[export] Instance params_value_laws : CollValueLaws Params.
Proof.
  split. intros p b. unfold value_encode, value_decode, params_value, decode_params.
  pose proof (codec_ok (M:=Params) p [] fits_nil) as (Hm & Hu & _).
  change (Params_Marshal p = Ok (encoding p)) in Hm.
  change (Params_Unmarshal (encoding p) Params_zero = (Ok tt, p)) in Hu.
  rewrite Hm. intros [= <-]. unfold encoding in Hu. cbn in Hu |- *. by rewrite Hu.
Qed.

End ProtoValue.

(** ** Concrete instances, to evaluate the module *)
Module Concrete.
Export MemStore ToyCodec ToyCrypto ProtoValue DoublingRuntime.

Definition gov : bytes := str "module/gov".
Definition k0 : Keeper := {| authority := gov; Schema := collections_decl |}.
Definition alice : bytes := str "alice".
Definition alice_bech32 : bytes := hrp ++ alice.
Definition alice_key : ecdsa_PrivateKey := Some x2a.
(** What [CreateValidMemo] makes with the key above. *)
Definition alice_memo : bytes :=
  match CreateValidMemo (Ok alice_key) with Ok m => m | _ => [] end.
Definition alice_pub : bytes := FromECDSAPub (Some (PublicKeyOf alice_key)).
Definition alice_msg : MsgBroadcastData := MkMsgBroadcastData alice_bech32 alice_memo.

End Concrete.

(** ** Properties of the handlers *)

Section Theorems.
Context {Store : Type} `{!Collections Store, !CollectionsLaws Store, !AddressCodec,
  !CollValue Params, !CollValueLaws Params, !Json.GoRuntime, !EthCrypto}.
Implicit Types (s : Store) (k : Keeper).

(** A memo made by [CreateValidMemo] with a usable key, sent as the data of
    a broadcast by an account with a valid address, registers that key for the
    account, when the store takes the write. *)
Theorem BroadcastData_registers `{!EthCryptoLaws good} k sk sender a addr memo s s' :
  good sk → StringToBytes sender = Ok a → AccAddressFromBech32 sender = Ok addr →
  CreateValidMemo (Ok sk) = Ok memo →
  SetSecondaryPubKeyAnteHandler addr (FromECDSAPub (Some (PublicKeyOf sk))) s = (Ok tt, s') →
  BroadcastData k (MkMsgBroadcastData sender memo) s = (Ok MkMsgBroadcastDataResponse, s') ∧
  GetSecondaryPubKeyAnteHandler s' addr = Ok (FromECDSAPub (Some (PublicKeyOf sk))).
Proof.
  intros Hk Ha Haddr Hm Hset. destruct (own_memo sk memo Hk Hm) as (m & t & -> & Et & Ed & Hval & Ep & Hv).
  split.
  - unfold BroadcastData, catch, lift. cbn [MsgBroadcastData_Sender MsgBroadcastData_Data].
    rewrite Ha, Et, Ed, Hval. unfold proves_possession in Hv. by rewrite Hv, Haddr, Ep, Hset.
  - unfold GetSecondaryPubKeyAnteHandler. by rewrite (set_get _ _ _ _ _ Hset).
Qed.

(** Whatever a broadcast is given, and whether it returns, fails or panics:
    the validators' keys and the parameters keep their values, and an account's
    key is either the one it had or one whose possession the data proves, set by
    that account. *)
Theorem BroadcastData_frame k msg s r s' :
  BroadcastData k msg s = (r, s') →
  (∀ a, coll_get s' VoteExtensionMap a = coll_get s VoteExtensionMap a) ∧
  Params_Get s' = Params_Get s ∧
  (∀ a pk, coll_get s' AnteHandlerMap a = Ok pk →
     coll_get s AnteHandlerMap a = Ok pk ∨
     (AccAddressFromBech32 (MsgBroadcastData_Sender msg) = Ok a ∧
      ∃ sig, proves_possession pk sig)).
Proof.
  intros [-> | (addr & sig & Ha & _ & Hv & _ & r' & Hs & _)]%BroadcastData_effect; [by auto|].
  split_and!.
  - intros a. by eapply set_ante_vote.
  - unfold Params_Get, item_get. by rewrite (set_ante_params _ _ _ _ _ Hs).
  - intros a pk Hg. destruct (set_get_inv _ _ _ _ _ _ _ _ Hs Hg) as [?|(_ & -> & ->)]; eauto.
Qed.

(** C31. Every outcome of a broadcast, in the order of the checks.  A sender the
    codec does not read is an error, the only one there is; data that is no
    key-signature pair, a pair without key bytes and one without signature bytes
    panic; a signature that does not verify is answered like a registration
    although nothing is stored; and otherwise the key is stored for the sender's
    address, where a bad address and a failing write panic. *)
Theorem BroadcastData_outcomes k msg s :
  let sender := MsgBroadcastData_Sender msg in
  let data := mk (Trim (MsgBroadcastData_Data msg) (str "SECONDARY")) in
  let result r := BroadcastData k msg s = (r, s) in
  (∀ e, StringToBytes sender = Err e → result (Err (Wrapped "invalid authority address" e))) ∧
  (∀ v, StringToBytes sender = Panic v → result (Panic v)) ∧
  (∀ a, StringToBytes sender = Ok a →
    (∀ e, (BroadcastData k msg s).1 ≠ Err e) ∧
    (∀ e, DecodeSecondSigFromMemo data = Err e → result (Panic e)) ∧
    (∀ sig, DecodeSecondSigFromMemo data = Ok sig →
      let pk := elems (PublicKey sig) in
      (pk = [] → result (Panic (ErrorString "missing public key"))) ∧
      (pk ≠ [] → elems (Signature sig) = [] → result (Panic (ErrorString "missing signature"))) ∧
      (pk ≠ [] → elems (Signature sig) ≠ [] →
        (¬ proves_possession pk (elems (Signature sig)) → result (Ok MkMsgBroadcastDataResponse)) ∧
        (proves_possession pk (elems (Signature sig)) →
          (∀ e, AccAddressFromBech32 sender = Err e → result (Panic e)) ∧
          (∀ addr, AccAddressFromBech32 sender = Ok addr →
            ∀ r s', coll_set AnteHandlerMap addr pk s = (r, s') →
              (r = Ok tt → BroadcastData k msg s = (Ok MkMsgBroadcastDataResponse, s') ∧
                           coll_get s' AnteHandlerMap addr = Ok pk) ∧
              (∀ e, r = Err e → BroadcastData k msg s = (Panic e, s'))))))).
Proof.
  cbv zeta. unfold BroadcastData, catch, lift, proves_possession, panic, fail, Validate, len,
    SetSecondaryPubKeyAnteHandler.
  cbn [MsgBroadcastData_Sender MsgBroadcastData_Data].
  split; [by intros e ->|]. split; [by intros v ->|]. intros a ->.
  split.
  { intros e. destruct (DecodeSecondSigFromMemo _) as [sig|?|?]; [|done..].
    case_decide; [done|]. case_decide; [done|]. destruct (VerifySignature _ _ _); [|done].
    destruct (AccAddressFromBech32 _) as [addr|?|?]; [|done..]. by destruct (coll_set _ _ _ s) as [[]]. }
  split; [by intros e ->|]. intros sig ->. split_and!.
  - intros ->. by rewrite decide_True.
  - intros Hp ->. rewrite decide_False by (by destruct (elems (PublicKey sig))). by rewrite decide_True.
  - intros Hp Hs. rewrite !decide_False by
      (first [by destruct (elems (PublicKey sig))|by destruct (elems (Signature sig))]).
    split; [by intros ->%not_true_is_false|]. intros ->. split; [by intros e ->|].
    intros addr -> r s' E. rewrite E. split; [|by intros e ->].
    intros ->. split; [done|]. by apply (set_get _ _ _ _ _ E).
Qed.

(** C32. Parameters change only on the authority's request: a request from
    another valid address is refused with [ErrInvalidSigner] and no write; an
    accepted one stores its parameters and touches neither key map. *)
Theorem UpdateParams_authority k req s r s' :
  UpdateParams k req s = (r, s') →
  (∀ a, StringToBytes (MsgUpdateParams_Authority req) = Ok a → a ≠ authority k →
     s' = s ∧ ∃ e, r = Err e ∧ errors_Is e ErrInvalidSigner = true) ∧
  (r = Ok MkMsgUpdateParamsResponse →
     StringToBytes (MsgUpdateParams_Authority req) = Ok (authority k) ∧
     Params_Get s' = Ok (MsgUpdateParams_Params req)) ∧
  (∀ a, coll_get s' AnteHandlerMap a = coll_get s AnteHandlerMap a ∧
        coll_get s' VoteExtensionMap a = coll_get s VoteExtensionMap a).
Proof.
  intros Hr. pose proof (UpdateParams_maps _ _ _ _ _ Hr) as Hm. revert Hr.
  unfold UpdateParams, catch, lift, fail. intros Hr.
  destruct (StringToBytes _) as [a|e|v]; [|injection Hr as <- <-; done..].
  destruct (bytes_Equal _ _) eqn:Ea; cbn [negb] in Hr.
  - apply bytes_Equal_true in Ea. unfold GetAuthority in Ea.
    destruct (Params_Validate _); [|injection Hr as <- <-; split_and!; [congruence|done..]..].
    destruct (Params_Set _ s) as [[[]|e|v] s1] eqn:Es; injection Hr as <- <-;
      (split_and!; [congruence| |done]); try done.
    intros _. split; [congruence|]. by eapply params_set_get.
  - injection Hr as <- <-. split_and!; [|done..]. intros a' [= <-] Hne. split; [done|].
    eexists. split; [done|]. done.
Qed.

(** C33. Exporting the module's genesis and importing it into a fresh store
    keeps the parameters and forgets every key: no account and no validator has
    a registered key afterwards. *)
Theorem genesis_forgets_keys s gs fresh s' :
  ExportGenesis s = Ok gs → InitGenesis gs fresh = (Ok tt, s') →
  (∀ a, coll_get fresh AnteHandlerMap a = Err ErrNotFound) →
  (∀ a, coll_get fresh VoteExtensionMap a = Err ErrNotFound) →
  Params_Get s' = Params_Get s ∧ ExportGenesis s' = Ok gs ∧
  (∀ a, GetSecondaryPubKeyAnteHandler s' a = Err ErrNotFound) ∧
  (∀ a, GetSecondaryPubKeyVoteExtension s' a = Err ErrNotFound).
Proof.
  unfold ExportGenesis, InitGenesis. intros He Hi Hf1 Hf2.
  destruct (Params_Get s) as [p|e|v]; cbn in He; try done. assert (gs = MkGenesisState p) as -> by congruence.
  cbn in Hi.
  rewrite (params_set_get _ _ _ Hi). split_and!; [done..| |]; intros a.
  - unfold GetSecondaryPubKeyAnteHandler. by rewrite (params_set_ante _ _ _ _ _ Hi), Hf1.
  - unfold GetSecondaryPubKeyVoteExtension. by rewrite (params_set_vote _ _ _ _ _ Hi), Hf2.
Qed.

(** [NewKeeper] returns a keeper exactly for the authorities the address
    codec can write, and panics for the others: the declared collections never
    conflict. *)
Theorem NewKeeper_total auth :
  match BytesToString auth with
  | Ok _ => NewKeeper Store auth = Ok {| authority := auth; Schema := collections_decl |}
  | Err e => NewKeeper Store auth = Panic (Wrapped "invalid authority address" e)
  | Panic v => NewKeeper Store auth = Panic v
  end.
Proof.
  unfold NewKeeper. destruct (BytesToString auth); cbn; [|done..].
  by rewrite (build_ok (Store:=Store)) by apply schema_disjoint.
Qed.

(** The parameters query: a nil request is invalid, parameters never set
    read as the zero value, a store failure is hidden behind an internal error,
    and after an accepted update the query returns what was written. *)
Theorem Query_Params_spec s :
  Query_Params s None = Err (status_InvalidArgument "invalid request") ∧
  (coll_get s ParamsKey [] = Err ErrNotFound →
     Query_Params s (Some MkQueryParamsRequest) = Ok (MkQueryParamsResponse Params_zero)) ∧
  (∀ e, coll_get s ParamsKey [] = Err e → errors_Is e ErrNotFound = false →
     Query_Params s (Some MkQueryParamsRequest) = Err (status_Internal "internal error")) ∧
  (∀ k req s0, UpdateParams k req s0 = (Ok MkMsgUpdateParamsResponse, s) →
     Query_Params s (Some MkQueryParamsRequest) =
       Ok (MkQueryParamsResponse (MsgUpdateParams_Params req))).
Proof.
  unfold Query_Params. split_and!; [done|..].
  - intros E. unfold Params_Get, item_get. by rewrite E.
  - intros e E Hn. unfold Params_Get, item_get. rewrite E. cbn. by rewrite Hn.
  - unfold UpdateParams, catch, lift, fail. intros k req s0.
    destruct (StringToBytes _); [|done..]. destruct (bytes_Equal _ _); [|done]. cbn [negb].
    destruct (Params_Validate _); [|done..].
    destruct (Params_Set _ s0) as [[[]|?|?] s1] eqn:Es; intros [=]. subst s1.
    by rewrite (params_set_get _ _ _ Es).
Qed.

(** The service handler of a broadcast runs [BroadcastData] on the message
    the transport bytes encode, and bytes that do not decode leave the store
    alone and report the decoder's error. *)
Theorem Msg_BroadcastData_Handler_wire k s data :
  (∀ m, fits (encoding m) → data = encoding m →
     Msg_BroadcastData_Handler k (MsgBroadcastData_Unmarshal data) None s = BroadcastData k m s) ∧
  (∀ e m, MsgBroadcastData_Unmarshal data MsgBroadcastData_zero = (Err e, m) →
     Msg_BroadcastData_Handler k (MsgBroadcastData_Unmarshal data) None s = (Err e, s)).
Proof.
  unfold Msg_BroadcastData_Handler, unary_handler. split.
  - intros m Hf ->. pose proof (pb_roundtrip (M:=MsgBroadcastData) m Hf) as E.
    cbn [pb_Unmarshal pb_zero MsgBroadcastData_codec] in E. by rewrite E.
  - intros e m E. by rewrite E.
Qed.

End Theorems.

(** ** The properties at concrete inputs *)

Section Witnesses.
Import Concrete.

(** The store after alice's broadcast. *)
Definition alice_store : store := (BroadcastData k0 alice_msg MemStore.empty).2.

Lemma BroadcastData_registers_witness :
  BroadcastData k0 (MkMsgBroadcastData alice_bech32 alice_memo) MemStore.empty =
    (Ok MkMsgBroadcastDataResponse, alice_store) ∧
  GetSecondaryPubKeyAnteHandler alice_store alice = Ok alice_pub.
Proof.
  apply (BroadcastData_registers k0 alice_key alice_bech32 alice alice alice_memo).
  - by eexists.
  - vm_compute. reflexivity.
  - vm_compute. reflexivity.
  - vm_compute. reflexivity.
  - vm_compute. reflexivity.
Defined.

Lemma BroadcastData_frame_witness :
  coll_get alice_store AnteHandlerMap alice = Ok alice_pub ∧
  (coll_get MemStore.empty AnteHandlerMap alice = Ok alice_pub ∨
   (AccAddressFromBech32 alice_bech32 = Ok alice ∧ ∃ sig, proves_possession alice_pub sig)).
Proof.
  assert (coll_get alice_store AnteHandlerMap alice = Ok alice_pub) as E
    by (vm_compute; reflexivity).
  split; [exact E|].
  destruct (BroadcastData_frame k0 alice_msg MemStore.empty
    (Ok MkMsgBroadcastDataResponse) alice_store) as (_ & _ & H).
  - vm_compute. reflexivity.
  - exact (H alice alice_pub E).
Defined.

(** Data that is not a JSON document, and data whose signature is a byte off. *)
Definition junk_msg : MsgBroadcastData := MkMsgBroadcastData alice_bech32 (str "hello").
Definition forged_msg : MsgBroadcastData := MkMsgBroadcastData alice_bech32
  (Json.print (SecondarySignature_json
    {| PublicKey := mk alice_pub; Signature := mk (replicate 64 x00) |})).

Definition forged_sig : SecondarySignature :=
  match DecodeSecondSigFromMemo
          (mk (Trim (MsgBroadcastData_Data forged_msg) (str "SECONDARY"))) with
  | Ok sig => sig
  | _ => zero_SecondarySignature
  end.

Lemma BroadcastData_outcomes_witness :
  BroadcastData k0 junk_msg MemStore.empty =
    (Panic (Wrapped "invalid memo format" Json.SyntaxError), MemStore.empty) ∧
  BroadcastData k0 forged_msg MemStore.empty = (Ok MkMsgBroadcastDataResponse, MemStore.empty) ∧
  BroadcastData k0 (MkMsgBroadcastData alice_bech32 (str "{}")) MemStore.empty =
    (Panic (ErrorString "missing public key"), MemStore.empty).
Proof.
  assert (∀ msg, MsgBroadcastData_Sender msg = alice_bech32 →
    StringToBytes (MsgBroadcastData_Sender msg) = Ok alice) as Ha by (intros msg ->; vm_compute; reflexivity).
  split_and!.
  - refine (proj1 (proj2 (proj2 (proj2 (BroadcastData_outcomes k0 junk_msg MemStore.empty)) alice _)) _ _);
      [by apply Ha|vm_compute; reflexivity].
  - refine (proj1 (proj2 (proj2 (proj2 (proj2 (proj2 (proj2
      (BroadcastData_outcomes k0 forged_msg MemStore.empty)) alice _)) forged_sig _)) _ _) _).
    + by apply Ha.
    + vm_compute. reflexivity.
    + by vm_compute.
    + by vm_compute.
    + by vm_compute.
  - refine (proj1 (proj2 (proj2 (proj2 (proj2
      (BroadcastData_outcomes k0 (MkMsgBroadcastData alice_bech32 (str "{}")) MemStore.empty)) alice _))
      zero_SecondarySignature _) _).
    + by apply Ha.
    + vm_compute. reflexivity.
    + reflexivity.
Defined.

Definition gov_req : MsgUpdateParams := MkMsgUpdateParams (hrp ++ gov) MkParams.
Definition alice_req : MsgUpdateParams := MkMsgUpdateParams alice_bech32 MkParams.
Definition gov_store : store := (UpdateParams k0 gov_req MemStore.empty).2.

Lemma UpdateParams_authority_witness :
  (∃ e, (UpdateParams k0 alice_req MemStore.empty).1 = Err e ∧ errors_Is e ErrInvalidSigner = true) ∧
  Params_Get gov_store = Ok MkParams.
Proof.
  split.
  - refine (proj2 (proj1 (UpdateParams_authority k0 alice_req MemStore.empty
      (UpdateParams k0 alice_req MemStore.empty).1 (UpdateParams k0 alice_req MemStore.empty).2 _)
      alice _ _)); [apply surjective_pairing|vm_compute; reflexivity|by vm_compute].
  - refine (proj2 (proj1 (proj2 (UpdateParams_authority k0 gov_req MemStore.empty
      (Ok MkMsgUpdateParamsResponse) gov_store _)) _)); vm_compute; reflexivity.
Defined.

Lemma genesis_forgets_keys_witness :
  let s := (Params_Set MkParams alice_store).2 in
  GetSecondaryPubKeyAnteHandler s alice = Ok alice_pub ∧
  GetSecondaryPubKeyAnteHandler (Params_Set MkParams MemStore.empty).2 alice = Err ErrNotFound.
Proof.
  intros s. split; [vm_compute; reflexivity|].
  refine (proj1 (proj2 (proj2 (genesis_forgets_keys s (MkGenesisState MkParams) MemStore.empty
    _ _ _ _ _))) alice).
  - vm_compute. reflexivity.
  - vm_compute. reflexivity.
  - reflexivity.
  - reflexivity.
Defined.

Lemma Query_Params_spec_witness :
  Query_Params MemStore.empty (Some MkQueryParamsRequest) = Ok (MkQueryParamsResponse MkParams) ∧
  Query_Params (MkStore ∅ false true) (Some MkQueryParamsRequest) =
    Err (status_Internal "internal error").
Proof.
  split.
  - refine (proj1 (proj2 (Query_Params_spec MemStore.empty)) _). vm_compute. reflexivity.
  - refine (proj1 (proj2 (proj2 (Query_Params_spec (MkStore ∅ false true)))) ErrIO _ _);
      vm_compute; reflexivity.
Defined.

Lemma Msg_BroadcastData_Handler_wire_witness :
  Msg_BroadcastData_Handler k0 (MsgBroadcastData_Unmarshal (encoding alice_msg)) None
    MemStore.empty = BroadcastData k0 alice_msg MemStore.empty.
Proof.
  apply (proj1 (Msg_BroadcastData_Handler_wire k0 MemStore.empty (encoding alice_msg))).
  - vm_compute. reflexivity.
  - reflexivity.
Defined.

End Witnesses.
