(* ===== verification/AnteHandler.v ===== *)
(** [app/ante_handler.go]: the decorator that checks the secondary signature in
    a transaction's memo, and the chain of decorators it is put in.  A
    [sdk.Context] is the state the handlers thread; the decorator reads the
    module's store in it. *)
From S2P Require Import Prelude Json Crypto Store Common Wire SkTypes Keeper.

#[local] Open Scope go_scope.

(** [secondarykeys.AnteHandlerPrefix], of [module/module.go] *)
Definition AnteHandlerPrefix : bytes := str "SECONDARY".

Definition AnteHandlerFn (Ctx : Type) : Type := Tx → bool → GoM Ctx unit.
(** The method [AnteHandle] of a decorator: its last argument is the rest of
    the chain. *)
Definition AnteDecorator (Ctx : Type) : Type := Tx → bool → AnteHandlerFn Ctx → GoM Ctx unit.

(** The ante package of the SDK: its decorators' constructors, the types of
    their options, and the function that chains decorators. *)
Class AnteLib (Ctx : Type) := {
  AccountKeeper_t : Type;
  BankKeeper_t : Type;
  FeegrantKeeper_t : Type;
  SignModeHandler_t : Type;
  SigGasConsumer_t : Type;
  TxFeeChecker_t : Type;
  ExtensionOptionChecker_t : Type;
  NewSetUpContextDecorator : AnteDecorator Ctx;
  NewExtensionOptionsDecorator : ExtensionOptionChecker_t → AnteDecorator Ctx;
  NewValidateBasicDecorator : AnteDecorator Ctx;
  NewTxTimeoutHeightDecorator : AnteDecorator Ctx;
  NewValidateMemoDecorator : AccountKeeper_t → AnteDecorator Ctx;
  NewConsumeGasForTxSizeDecorator : AccountKeeper_t → AnteDecorator Ctx;
  NewDeductFeeDecorator :
    AccountKeeper_t → BankKeeper_t → FeegrantKeeper_t → TxFeeChecker_t → AnteDecorator Ctx;
  NewSetPubKeyDecorator : AccountKeeper_t → AnteDecorator Ctx;
  NewValidateSigCountDecorator : AccountKeeper_t → AnteDecorator Ctx;
  NewSigGasConsumeDecorator : AccountKeeper_t → SigGasConsumer_t → AnteDecorator Ctx;
  NewSigVerificationDecorator : AccountKeeper_t → SignModeHandler_t → AnteDecorator Ctx;
  NewIncrementSequenceDecorator : AccountKeeper_t → AnteDecorator Ctx;
  ChainAnteDecorators : list (AnteDecorator Ctx) → AnteHandlerFn Ctx
}.

(** The handler that ends every chain. *)
Definition terminator {Ctx} : AnteHandlerFn Ctx := fun tx simulate => mret tt.

(** Each decorator wraps the rest of the chain. *)
Fixpoint chain {Ctx} (ds : list (AnteDecorator Ctx)) : AnteHandlerFn Ctx :=
  match ds with
  | [] => terminator
  | d :: ds => fun tx simulate => d tx simulate (chain ds)
  end.

(** Documented behaviour of [sdk.ChainAnteDecorators]. *)
Class AnteLibLaws (Ctx : Type) `{!AnteLib Ctx} : Prop := {
  ChainAnteDecorators_chain : ∀ ds tx simulate ctx, ds ≠ [] →
    ChainAnteDecorators ds tx simulate ctx = chain ds tx simulate ctx
}.

Section AnteHandler.
Context {Ctx Store : Type} (KVStore : Ctx → Store) `{!Collections Store, !Json.GoRuntime, !EthCrypto}.

(** The decorator's keeper is the store the context gives access to. *)
Definition AnteHandle (tx : Tx) (simulate : bool) (next : AnteHandlerFn Ctx) : GoM Ctx unit :=
  match memoTx tx with
  | None => fail ErrTxDecode
  | Some memo =>
      if negb (bool_decide (memo = [])) then
        let '(memo, foundPrefix) := CutPrefix memo AnteHandlerPrefix in
        if negb foundPrefix then next tx simulate
        else
          let? secondSig := lift (DecodeSecondSigFromMemo (mk memo))
            else err => fail ErrInvalidRequest in
          let? addr := lift (GetAddr tx) else err => fail ErrLogic in
          let? found := reads (fun ctx => coll_has (KVStore ctx) AnteHandlerMap addr)
            else err => fail ErrInvalidSecondaryPublicKey in
          if negb found then fail SdkErrNotFound
          else
            let? mappedVal := reads (fun ctx => GetSecondaryPubKeyAnteHandler (KVStore ctx) addr)
              else err => fail err in
            if negb (bytes_Equal mappedVal (elems (PublicKey secondSig)))
            then fail ErrInvalidSecondaryPublicKey
            else
              let? _ := lift (Validate secondSig) else err => fail ErrInvalidRequest in
              let hsh := Keccak256 (elems (PublicKey secondSig)) in
              if negb (VerifySignature (elems (PublicKey secondSig)) hsh (elems (Signature secondSig)))
              then fail (ErrorString "signature verification failed")
              else next tx simulate
      else next tx simulate
  end.

Definition NewSecondarySignatureVerificationDecorator : AnteDecorator Ctx := AnteHandle.

Context `{!AnteLib Ctx}.

(** [ante.HandlerOptions]: interfaces and functions may be nil; the ones the
    code checks are options. *)
Record HandlerOptions := {
  AccountKeeper : option AccountKeeper_t;
  BankKeeper : option BankKeeper_t;
  SignModeHandler : option SignModeHandler_t;
  ExtensionOptionChecker : ExtensionOptionChecker_t;
  FeegrantKeeper : FeegrantKeeper_t;
  SigGasConsumer : SigGasConsumer_t;
  TxFeeChecker : TxFeeChecker_t
}.

Definition anteDecorators (options : HandlerOptions) (ak : AccountKeeper_t) (bk : BankKeeper_t)
    (smh : SignModeHandler_t) : list (AnteDecorator Ctx) :=
  [NewSetUpContextDecorator;
   NewExtensionOptionsDecorator (ExtensionOptionChecker options);
   NewValidateBasicDecorator;
   NewTxTimeoutHeightDecorator;
   NewValidateMemoDecorator ak;
   NewConsumeGasForTxSizeDecorator ak;
   NewDeductFeeDecorator ak bk (FeegrantKeeper options) (TxFeeChecker options);
   NewSetPubKeyDecorator ak;
   NewValidateSigCountDecorator ak;
   NewSigGasConsumeDecorator ak (SigGasConsumer options);
   NewSigVerificationDecorator ak smh;
   NewSecondarySignatureVerificationDecorator;
   NewIncrementSequenceDecorator ak].

(** The keeper the code also gets has one use, its map of the accounts' keys,
    which the decorator reaches through [KVStore]. *)
Definition NewAnteHandler (options : HandlerOptions) : outcome (AnteHandlerFn Ctx) :=
  match AccountKeeper options with
  | None => Err (ErrorString "account keeper is required for ante builder")
  | Some ak =>
      match BankKeeper options with
      | None => Err (ErrorString "bank keeper is required for ante builder")
      | Some bk =>
          match SignModeHandler options with
          | None => Err (ErrorString "sign mode handler is required for ante builder")
          | Some smh => Ok (ChainAnteDecorators (anteDecorators options ak bk smh))
          end
      end
  end.

(** ** The specification of the check *)

(** The memo does not ask for the check: it is empty or has no prefix. *)
Definition unmarked (memo : bytes) : Prop := (CutPrefix memo AnteHandlerPrefix).2 = false.

(** The memo carries the key registered for the first signer of the
    transaction and a signature of that key over its own hash. *)
Definition carries_registered_key (s : Store) (tx : Tx) (m : bytes) : Prop :=
  ∃ sig addr,
    DecodeSecondSigFromMemo (mk m) = Ok sig ∧ Validate sig = Ok tt ∧
    GetAddr tx = Ok addr ∧ coll_get s AnteHandlerMap addr = Ok (elems (PublicKey sig)) ∧
    proves_possession (elems (PublicKey sig)) (elems (Signature sig)).

Definition authorized (s : Store) (tx : Tx) : Prop :=
  ∃ memo, memoTx tx = Some memo ∧
    (unmarked memo ∨ ∃ m, memo = AnteHandlerPrefix ++ m ∧ carries_registered_key s tx m).

Lemma CutPrefix_spec s p m found :
  CutPrefix s p = (m, found) →
  if found then s = p ++ m else m = s ∧ take (length p) s ≠ p.
Proof.
  unfold CutPrefix. case_decide as E; intros [= <- <-]; [|done].
  rewrite <-E at 1. by rewrite take_drop.
Qed.

Lemma unmarked_nil : unmarked [].
Proof. reflexivity. Qed.

Lemma CutPrefix_marked m : CutPrefix (AnteHandlerPrefix ++ m) AnteHandlerPrefix = (m, true).
Proof. apply CutPrefix_app. Qed.

Context `{!CollectionsLaws Store}.

Lemma AnteHandle_pass tx simulate next ctx :
  authorized (KVStore ctx) tx → AnteHandle tx simulate next ctx = next tx simulate ctx.
Proof.
  intros (memo & Em & Hm). unfold AnteHandle. rewrite Em.
  destruct (decide (memo = [])) as [->|Hne]; [done|].
  rewrite bool_decide_false by done. cbn [negb].
  destruct Hm as [Hu|(m & -> & sig & addr & Ed & Ev & Ea & Eg & Hp)].
  { unfold unmarked in Hu. destruct (CutPrefix _ _) as [m b]. cbn in Hu. by subst b. }
  rewrite CutPrefix_marked. cbn [negb]. unfold catch, lift, reads.
  rewrite Ed, Ea. rewrite (get_has _ _ _ _ Eg). cbn [negb].
  unfold GetSecondaryPubKeyAnteHandler. rewrite Eg. cbn [catch_o].
  rewrite bytes_Equal_refl. cbn [negb]. rewrite Ev.
  unfold proves_possession in Hp. by rewrite Hp.
Qed.

(** Either the transaction is authorized, or the rest of the chain does not run. *)
Lemma AnteHandle_cases tx simulate next ctx :
  authorized (KVStore ctx) tx ∨
  ∃ r, AnteHandle tx simulate next ctx = (r, ctx) ∧ is_Ok r = false.
Proof.
  unfold AnteHandle. destruct (memoTx tx) as [memo|] eqn:Em; [|right; by eexists].
  destruct (decide (memo = [])) as [->|Hne].
  { left. exists []. split; [done|]. left. apply unmarked_nil. }
  rewrite bool_decide_false by done. cbn [negb].
  destruct (CutPrefix memo AnteHandlerPrefix) as [m [|]] eqn:Ec; cbn [negb].
  2: { left. exists memo. split; [done|]. left. unfold unmarked. by rewrite Ec. }
  apply CutPrefix_spec in Ec as ->. unfold catch, lift, reads, fail.
  destruct (DecodeSecondSigFromMemo (mk m)) as [sig|e|v] eqn:Ed; [|right; by eexists..].
  destruct (GetAddr tx) as [addr|e|v] eqn:Ea; [|right; by eexists..].
  destruct (coll_has _ _ _) as [[]|e|v] eqn:Eh; cbn [negb]; [|right; by eexists..].
  unfold GetSecondaryPubKeyAnteHandler.
  destruct (coll_get _ _ _) as [pk|e|v] eqn:Eg; cbn [catch_o]; [|right; by eexists..].
  destruct (bytes_Equal _ _) eqn:Eb; cbn [negb]; [|right; by eexists..].
  destruct (Validate sig) as [[]|e|v] eqn:Ev; [|right; by eexists..].
  destruct (VerifySignature _ _ _) eqn:Ep; cbn [negb]; [|right; by eexists..].
  left. exists (AnteHandlerPrefix ++ m). split; [done|]. right. exists m. split; [done|].
  exists sig, addr. apply bytes_Equal_true in Eb. split_and!; congruence || done.
Qed.

Lemma AnteHandle_block tx simulate next ctx :
  ¬ authorized (KVStore ctx) tx →
  ∃ r, AnteHandle tx simulate next ctx = (r, ctx) ∧ is_Ok r = false.
Proof. intros Hn. by destruct (AnteHandle_cases tx simulate next ctx). Qed.

Lemma AnteHandle_Ok tx simulate next ctx :
  is_Ok (AnteHandle tx simulate next ctx).1 = true → authorized (KVStore ctx) tx.
Proof.
  intros Hok. destruct (AnteHandle_cases tx simulate next ctx) as [?|(r & E & Hr)]; [done|].
  rewrite E in Hok. cbn in Hok. congruence.
Qed.

(** A decorator that succeeds only by calling the rest of the chain, on a
    context with the same keys, and writes none itself. *)
Definition wraps (d : AnteDecorator Ctx) : Prop :=
  ∀ tx simulate next ctx ctx', d tx simulate next ctx = (Ok tt, ctx') →
    ∃ c1 c2, KVStore c1 = KVStore ctx ∧ next tx simulate c1 = (Ok tt, c2) ∧ KVStore ctx' = KVStore c2.

Lemma chain_app ds1 ds2 tx simulate ctx ctx' :
  Forall wraps ds1 → chain (ds1 ++ ds2) tx simulate ctx = (Ok tt, ctx') →
  ∃ c1 c2, KVStore c1 = KVStore ctx ∧ chain ds2 tx simulate c1 = (Ok tt, c2) ∧
    KVStore ctx' = KVStore c2.
Proof.
  intros Hd. revert ctx ctx'. induction Hd as [|d ds1 Hd _ IH]; intros ctx ctx' E; [by exists ctx, ctx'|].
  apply Hd in E as (c1 & c2 & E1 & (c3 & c4 & E3 & E4 & E5)%IH & E2).
  exists c3, c4. split_and!; congruence.
Qed.

Lemma chain_wraps ds tx simulate ctx ctx' :
  Forall wraps ds → chain ds tx simulate ctx = (Ok tt, ctx') → KVStore ctx' = KVStore ctx.
Proof.
  intros Hd. rewrite <-(app_nil_r ds). intros (c1 & c2 & E1 & [= <-] & E2)%chain_app; congruence.
Qed.

End AnteHandler.

(** ** Properties *)

Section Theorems.
Context {Ctx Store : Type} (KVStore : Ctx → Store) `{!Collections Store, !CollectionsLaws Store,
  !AddressCodec, !CollValue Params, !Json.GoRuntime, !EthCrypto}.
Implicit Types (next : AnteHandlerFn Ctx) (ctx : Ctx).

(** C13. The decorator lets a transaction through, to the rest of the chain and
    in the same context, exactly when its memo has no prefix or carries the key
    registered for its first signer together with a signature of that key over
    its own hash; otherwise the rest of the chain does not run, nothing is
    written, and the result is not a success. *)
Theorem AnteHandle_spec tx simulate next ctx :
  (authorized (KVStore ctx) tx →
     AnteHandle KVStore tx simulate next ctx = next tx simulate ctx) ∧
  (¬ authorized (KVStore ctx) tx →
     ∃ r, AnteHandle KVStore tx simulate next ctx = (r, ctx) ∧ is_Ok r = false).
Proof. split; intros; [by apply AnteHandle_pass|by apply AnteHandle_block]. Qed.


(** From key creation to acceptance: after the account broadcast the memo
    that [CreateValidMemo] made, every transaction it signs first with that memo
    passes the decorator. *)
Theorem registered_memo_accepted `{!EthCryptoLaws good} k sk sender a addr memo s s' tx
    simulate next ctx :
  good sk → StringToBytes sender = Ok a → AccAddressFromBech32 sender = Ok addr →
  CreateValidMemo (Ok sk) = Ok memo →
  BroadcastData k (MkMsgBroadcastData sender memo) s = (Ok MkMsgBroadcastDataResponse, s') →
  KVStore ctx = s' → memoTx tx = Some memo → GetAddr tx = Ok addr →
  AnteHandle KVStore tx simulate next ctx = next tx simulate ctx.
Proof.
  intros Hk Ha Haddr Hm Hb Hctx Hmemo Htx.
  destruct (own_memo sk memo Hk Hm) as (m & t & -> & Et & Ed & Hval & Ep & Hv).
  refine (AnteHandle_pass KVStore _ _ _ _ _). exists (str "SECONDARY" ++ m).
  split; [done|]. right. exists m. split; [done|]. exists t, addr. split_and!; try done.
  unfold BroadcastData, catch, lift in Hb. cbn [MsgBroadcastData_Sender MsgBroadcastData_Data] in Hb.
  unfold proves_possession in Hv. rewrite Ha, Et, Ed, Hval, Hv, Haddr in Hb.
  destruct (SetSecondaryPubKeyAnteHandler _ _ s) as [[[]|e|v] s2] eqn:Es; [|discriminate Hb..].
  unfold mret, gom_ret in Hb. assert (s2 = s') as -> by congruence. rewrite Hctx.
  by rewrite (set_get _ _ _ _ _ Es).
Qed.

(** C30. A memo that passed once is a ticket.  The check does not look at what
    else the transaction says, so the memo passes again in any transaction, in any
    state and simulated or not, whose first signer's registered key is the one it
    passed with, whoever made the signature in it; and in no other: where the
    signer has another key, or none, the memo is refused. *)
Theorem AnteHandle_replay tx tx' simulate simulate' next next' ctx ctx' m addr addr' :
  memoTx tx = Some (AnteHandlerPrefix ++ m) → memoTx tx' = memoTx tx →
  GetAddr tx = Ok addr → GetAddr tx' = Ok addr' →
  is_Ok (AnteHandle KVStore tx simulate next ctx).1 = true →
  ∃ pk, coll_get (KVStore ctx) AnteHandlerMap addr = Ok pk ∧
    (coll_get (KVStore ctx') AnteHandlerMap addr' = Ok pk →
       AnteHandle KVStore tx' simulate' next' ctx' = next' tx' simulate' ctx') ∧
    (coll_get (KVStore ctx') AnteHandlerMap addr' ≠ Ok pk →
       ∃ r, AnteHandle KVStore tx' simulate' next' ctx' = (r, ctx') ∧ is_Ok r = false).
Proof.
  intros Hm Hm' Ha Ha' (memo & E & Hc)%(AnteHandle_Ok KVStore tx simulate next ctx).
  assert (memo = AnteHandlerPrefix ++ m) as -> by congruence. rewrite Hm in Hm'.
  destruct Hc as [Hu|(m' & Em & sig & ad & Ed & Ev & Ea & Eg & Hp)].
  { unfold unmarked in Hu. by rewrite CutPrefix_marked in Hu. }
  apply app_inv_head in Em as <-. assert (ad = addr) as -> by congruence.
  exists (elems (PublicKey sig)). split; [done|]. split; intros Hg.
  - apply (AnteHandle_pass KVStore). exists (AnteHandlerPrefix ++ m). split; [done|]. right.
    exists m. split; [done|]. by exists sig, addr'.
  - apply AnteHandle_block. intros (memo & E' & [Hu|(m' & -> & sig' & ad & Ed' & _ & Ea' & Eg' & _)]).
    + assert (memo = AnteHandlerPrefix ++ m) as -> by congruence.
      unfold unmarked in Hu. by rewrite CutPrefix_marked in Hu.
    + assert (m' = m) as -> by (apply (app_inv_head AnteHandlerPrefix); congruence). congruence.
Qed.

(** The builder wants an account keeper, a bank keeper and a sign mode
    handler, in this order; the handler it returns runs the secondary check
    after every decorator of the SDK but the one that increments the sequence
    number, which runs only if the check passes. *)
Theorem NewAnteHandler_order `{!AnteLib Ctx, !AnteLibLaws Ctx} (options : @HandlerOptions Ctx _) :
  match AccountKeeper options, BankKeeper options, SignModeHandler options with
  | None, _, _ => NewAnteHandler KVStore options =
      Err (ErrorString "account keeper is required for ante builder")
  | _, None, _ => NewAnteHandler KVStore options =
      Err (ErrorString "bank keeper is required for ante builder")
  | _, _, None => NewAnteHandler KVStore options =
      Err (ErrorString "sign mode handler is required for ante builder")
  | Some ak, Some bk, Some smh =>
      ∃ handler before, NewAnteHandler KVStore options = Ok handler ∧
        before = take 11 (anteDecorators KVStore options ak bk smh) ∧
        ∀ tx simulate ctx,
          handler tx simulate ctx =
            foldr (fun d rest tx simulate => d tx simulate rest)
              (fun tx simulate => AnteHandle KVStore tx simulate
                 (fun tx simulate => NewIncrementSequenceDecorator ak tx simulate terminator))
              before tx simulate ctx
  end.
Proof.
  unfold NewAnteHandler. destruct (AccountKeeper options) as [ak|]; [|done].
  destruct (BankKeeper options) as [bk|]; [|done].
  destruct (SignModeHandler options) as [smh|]; [|done].
  eexists _, _. split_and!; [done|done|]. intros tx simulate ctx.
  by rewrite ChainAnteDecorators_chain.
Qed.

(** C14. The chain is a guard: when the SDK's decorators succeed only by calling
    the rest of the chain and leave the registered keys alone, a transaction that
    the handler built by [NewAnteHandler] lets through is authorized by the keys
    it found, with or without simulation, and the run registers no key. *)
Theorem NewAnteHandler_guards `{!AnteLib Ctx, !AnteLibLaws Ctx} (options : @HandlerOptions Ctx _)
    ak bk smh handler tx simulate ctx ctx' :
  AccountKeeper options = Some ak → BankKeeper options = Some bk →
  SignModeHandler options = Some smh →
  (let ds := anteDecorators KVStore options ak bk smh in
   Forall (wraps KVStore) (take 11 ds ++ drop 12 ds)) →
  NewAnteHandler KVStore options = Ok handler → handler tx simulate ctx = (Ok tt, ctx') →
  authorized (KVStore ctx) tx ∧ KVStore ctx' = KVStore ctx.
Proof.
  unfold NewAnteHandler. intros -> -> -> [Hb Ha]%Forall_app [= <-]. rewrite ChainAnteDecorators_chain by done.
  rewrite <-(take_drop 11 (anteDecorators KVStore options ak bk smh)).
  intros (c1 & c2 & E1 & E & E2)%(chain_app KVStore); [|done].
  change (chain _) with (chain [NewSecondarySignatureVerificationDecorator KVStore;
    NewIncrementSequenceDecorator ak]) in E. cbn [chain] in E.
  assert (authorized (KVStore c1) tx) as Hau.
  { refine (AnteHandle_Ok KVStore tx simulate _ c1 _). unfold NewSecondarySignatureVerificationDecorator in E.
    by rewrite E. }
  rewrite <-E1. split; [done|]. unfold NewSecondarySignatureVerificationDecorator in E.
  rewrite AnteHandle_pass in E by done.
  rewrite E2. by apply (chain_wraps KVStore [NewIncrementSequenceDecorator ak]) in E.
Qed.

End Theorems.

(** ** A concrete chain, whose decorators leave a trace *)
Module ToyAnte.

Definition ctx : Type := MemStore.store * list nat.

Definition trace (n : nat) : AnteDecorator ctx :=
  fun tx simulate next => modify (fun c => (c.1, c.2 ++ [n])) ;; next tx simulate.

#[export] Instance toy_ante : AnteLib ctx := {|
  AccountKeeper_t := unit; BankKeeper_t := unit; FeegrantKeeper_t := unit;
  SignModeHandler_t := unit; SigGasConsumer_t := unit; TxFeeChecker_t := unit;
  ExtensionOptionChecker_t := unit;
  NewSetUpContextDecorator := trace 1;
  NewExtensionOptionsDecorator _ := trace 2;
  NewValidateBasicDecorator := trace 3;
  NewTxTimeoutHeightDecorator := trace 4;
  NewValidateMemoDecorator _ := trace 5;
  NewConsumeGasForTxSizeDecorator _ := trace 6;
  NewDeductFeeDecorator _ _ _ _ := trace 7;
  NewSetPubKeyDecorator _ := trace 8;
  NewValidateSigCountDecorator _ := trace 9;
  NewSigGasConsumeDecorator _ _ := trace 10;
  NewSigVerificationDecorator _ _ := trace 11;
  NewIncrementSequenceDecorator _ := trace 13;
  ChainAnteDecorators := chain
|}.

#[export] Instance toy_ante_laws : AnteLibLaws ctx.
Proof. by split. Qed.

Definition options : @HandlerOptions ctx _ := {|
  AccountKeeper := Some tt; BankKeeper := Some tt; SignModeHandler := Some tt;
  ExtensionOptionChecker := tt; FeegrantKeeper := tt; SigGasConsumer := tt; TxFeeChecker := tt
|}.

End ToyAnte.

Section Witnesses.
Import Concrete.

Definition signed_by (addr : bytes) (memo : bytes) : Tx := {|
  sigTx := Some (Ok [{| PubKey := Some {| Address := inr addr |} |}]);
  memoTx := Some memo
|}.

Definition alice_tx : Tx := signed_by alice alice_memo.
Definition mallory : bytes := str "mallory".

Lemma alice_authorized : authorized alice_store alice_tx.
Proof.
  exists alice_memo. split; [reflexivity|]. right.
  exists (drop 9 alice_memo). split; [vm_compute; reflexivity|].
  exists (match DecodeSecondSigFromMemo (mk (drop 9 alice_memo)) with
          | Ok sig => sig | _ => zero_SecondarySignature end), alice.
  split_and!; vm_compute; reflexivity.
Qed.

Lemma AnteHandle_spec_witness :
  AnteHandle id alice_tx false (fun _ _ => mret tt) alice_store = (Ok tt, alice_store).
Proof.
  exact (proj1 (AnteHandle_spec id alice_tx false (fun _ _ => mret tt) alice_store)
    alice_authorized).
Defined.

Definition alice_sig : SecondarySignature :=
  match DecodeSecondSigFromMemo (mk (drop 9 alice_memo)) with
  | Ok sig => sig | _ => zero_SecondarySignature end.


Lemma registered_memo_accepted_witness :
  AnteHandle id alice_tx false (fun _ _ => mret tt) alice_store = (Ok tt, alice_store).
Proof.
  refine (registered_memo_accepted id k0 alice_key alice_bech32 alice alice alice_memo
    MemStore.empty alice_store alice_tx false (fun _ _ => mret tt) alice_store _ _ _ _ _ _ _ _).
  - by eexists.
  - vm_compute. reflexivity.
  - vm_compute. reflexivity.
  - vm_compute. reflexivity.
  - vm_compute. reflexivity.
  - reflexivity.
  - reflexivity.
  - reflexivity.
Defined.

(** Mallory copies alice's memo: broadcasting it registers alice's key for
    mallory, whose transactions then pass with it. *)
Definition mallory_store : store :=
  (BroadcastData k0 (MkMsgBroadcastData (hrp ++ mallory) alice_memo) alice_store).2.

Lemma AnteHandle_replay_witness :
  AnteHandle id (signed_by mallory alice_memo) true (fun _ _ => mret tt) mallory_store =
    (Ok tt, mallory_store) ∧
  ∃ r, AnteHandle id (signed_by mallory alice_memo) true (fun _ _ => mret tt) alice_store =
    (r, alice_store) ∧ is_Ok r = false.
Proof.
  assert (memoTx alice_tx = Some (AnteHandlerPrefix ++ drop 9 alice_memo)) as Hm by (vm_compute; reflexivity).
  assert (is_Ok (AnteHandle id alice_tx false (fun _ _ => mret tt) alice_store).1 = true) as Hok
    by (vm_compute; reflexivity).
  assert (coll_get alice_store AnteHandlerMap alice = Ok alice_pub) as Hpub by (vm_compute; reflexivity).
  split.
  - destruct (AnteHandle_replay id alice_tx (signed_by mallory alice_memo) false true (fun _ _ => mret tt)
      (fun _ _ => mret tt) alice_store mallory_store (drop 9 alice_memo) alice mallory
      Hm eq_refl eq_refl eq_refl Hok) as (pk & Hg & Hp & _).
    refine (Hp _). rewrite <-Hg. vm_compute. reflexivity.
  - destruct (AnteHandle_replay id alice_tx (signed_by mallory alice_memo) false true (fun _ _ => mret tt)
      (fun _ _ => mret tt) alice_store alice_store (drop 9 alice_memo) alice mallory
      Hm eq_refl eq_refl eq_refl Hok) as (pk & Hg & _ & Hb).
    refine (Hb _). vm_compute. discriminate.
Defined.

Import ToyAnte.

Lemma NewAnteHandler_order_witness :
  match NewAnteHandler fst options with
  | Ok handler =>
      (handler alice_tx false (alice_store, [])).2.2 = [1; 2; 3; 4; 5; 6; 7; 8; 9; 10; 11; 13] ∧
      (handler (signed_by mallory alice_memo) false (alice_store, [])).2.2 = seq 1 11
  | _ => False
  end.
Proof.
  pose proof (NewAnteHandler_order fst options) as (handler & before & -> & -> & H).
  rewrite !H. split; vm_compute; reflexivity.
Defined.

Lemma trace_wraps n : wraps fst (trace n).
Proof. intros tx simulate next ctx ctx' E. by exists (ctx.1, ctx.2 ++ [n]), ctx'. Qed.

Lemma NewAnteHandler_guards_witness :
  authorized alice_store alice_tx ∧
  ∃ handler, NewAnteHandler fst options = Ok handler ∧
    (handler alice_tx true (alice_store, [])).2.1 = alice_store.
Proof.
  assert (∃ handler, NewAnteHandler fst options = Ok handler) as [handler E] by (by eexists).
  destruct (NewAnteHandler_guards fst options tt tt tt handler alice_tx true (alice_store, [])
    (alice_store, [1; 2; 3; 4; 5; 6; 7; 8; 9; 10; 11; 13])) as [Hau _].
  - reflexivity.
  - reflexivity.
  - reflexivity.
  - repeat (constructor; [apply trace_wraps|]). constructor.
  - exact E.
  - revert E. intros [= <-]. vm_compute. reflexivity.
  - split; [exact Hau|]. exists handler. split; [exact E|]. revert E. intros [= <-].
    vm_compute. reflexivity.
Defined.

End Witnesses.
