(* ===== verification/VoteExtension.v ===== *)
(** [x/secondarykeys/VoteExtension]: the vote extension a validator signs with
    its secondary key, its verification with trust on first use, and the
    proposal handlers that inject the extensions of the last commit as the
    first transaction and check them.  A request is a record of the fields the
    code reads; the store is the module's, in the request's context. *)
From S2P Require Import Prelude Json Crypto Store Common Wire SkTypes Keeper.

#[local] Open Scope go_scope.

(** ** ABCI data *)

Record RequestExtendVote := { ExtendVote_Hash : bytes; ExtendVote_Height : Z }.

Record RequestVerifyVoteExtension := {
  Verify_Hash : bytes;
  Verify_ValidatorAddress : bytes;
  Verify_Height : Z;
  Verify_VoteExtension : bytes
}.

Inductive VerifyStatus := VERIFY_UNKNOWN | VERIFY_ACCEPT | VERIFY_REJECT.
Inductive ProposalStatus := PROPOSAL_ACCEPT | PROPOSAL_REJECT.

(** [ExtendedVoteInfo]: the validator's address and its extension. *)
Record ExtendedVoteInfo := { Vote_Address : slice byte; Vote_VoteExtension : bytes }.

Record RequestPrepareProposal := {
  LocalLastCommit_Votes : list ExtendedVoteInfo;
  Prepare_Txs : list bytes
}.

(** [ctx.HeaderHash()] and [req.Txs] *)
Record RequestProcessProposal := { Process_HeaderHash : bytes; Process_Txs : list bytes }.

(** ** The JSON structures *)

Record SignatureVoteExtend := { VoteExt_Signature : slice byte }.

Record ValidatorSignature := {
  ValidatorAddress : slice byte;
  ValSig_Signature : slice byte
}.

Record InjectedVoteExtTx := { ValidatorSignatures : slice ValidatorSignature }.

Definition SignatureVoteExtend_zero : SignatureVoteExtend := {| VoteExt_Signature := NilSlice |}.
Definition ValidatorSignature_zero : ValidatorSignature :=
  {| ValidatorAddress := NilSlice; ValSig_Signature := NilSlice |}.
Definition InjectedVoteExtTx_zero : InjectedVoteExtTx := {| ValidatorSignatures := NilSlice |}.

Definition SignatureVoteExtend_json (v : SignatureVoteExtend) : Json.json :=
  Json.JObj [(str "Signature", Json.encode_bytes (VoteExt_Signature v))].

Definition ValidatorSignature_json (v : ValidatorSignature) : Json.json :=
  Json.JObj [(str "validator_address", Json.encode_bytes (ValidatorAddress v));
             (str "signature", Json.encode_bytes (ValSig_Signature v))].

Definition InjectedVoteExtTx_json (t : InjectedVoteExtTx) : Json.json :=
  Json.JObj [(str "validator_signatures",
    match ValidatorSignatures t with
    | NilSlice => Json.JNull
    | MkSlice l _ => Json.JArr (map ValidatorSignature_json l)
    end)].

Section Shapes.
Context `{!Json.GoRuntime}.

Definition SignatureVoteExtend_fields : Json.fields SignatureVoteExtend :=
  [(str "Signature", fun v t =>
      let '(b, e) := Json.decode_bytes v (VoteExt_Signature t) in
      ({| VoteExt_Signature := b |}, e))].

Definition ValidatorSignature_fields : Json.fields ValidatorSignature :=
  [(str "validator_address", fun v t =>
      let '(b, e) := Json.decode_bytes v (ValidatorAddress t) in
      ({| ValidatorAddress := b; ValSig_Signature := ValSig_Signature t |}, e));
   (str "signature", fun v t =>
      let '(b, e) := Json.decode_bytes v (ValSig_Signature t) in
      ({| ValidatorAddress := ValidatorAddress t; ValSig_Signature := b |}, e))].

(** An element takes two slice headers: 48 bytes. *)
Definition InjectedVoteExtTx_fields : Json.fields InjectedVoteExtTx :=
  [(str "validator_signatures", fun v t =>
      let '(l, e) := Json.decode_slice 48 ValidatorSignature_zero
                       (Json.decode_struct ValidatorSignature_fields) v (ValidatorSignatures t) in
      ({| ValidatorSignatures := l |}, e))].

Definition decode_vote_extension (data : bytes) : outcome SignatureVoteExtend :=
  Json.Unmarshal (Json.decode_struct SignatureVoteExtend_fields) data SignatureVoteExtend_zero.

Definition decode_injected (data : bytes) : outcome InjectedVoteExtTx :=
  Json.Unmarshal (Json.decode_struct InjectedVoteExtTx_fields) data InjectedVoteExtTx_zero.

End Shapes.

(** ** [vote_extend.go] *)

Section Handlers.
Context {Store : Type} `{!Collections Store, !Json.GoRuntime, !EthCrypto}.

(** The key is the package variable [secondarykeys.SecondaryPrivateKey]. *)
Definition ExtendVoteHandler (SecondaryPrivateKey : ecdsa_PrivateKey) (req : RequestExtendVote)
    : outcome bytes :=
  let! signature := Sign (ExtendVote_Hash req) SecondaryPrivateKey else err => Err err in
  Ok (Json.print (SignatureVoteExtend_json {| VoteExt_Signature := mk signature |})).

(** A call whose error is dropped. *)
Definition ignore_error {A} (m : GoM Store A) (default : A) : GoM Store A :=
  catch m (fun _ => mret default) mret.

(** The end of the handler: the registered key, nil when it cannot be read,
    against the first 64 bytes of the signature. *)
Definition verify_registered (req : RequestVerifyVoteExtension) (signature : slice byte)
    : GoM Store VerifyStatus :=
  pubBytes ← ignore_error
    (reads (fun s => coll_get s VoteExtensionMap (Verify_ValidatorAddress req))) [];
  sig64 ← lift (reslice signature 64);
  if negb (VerifySignature pubBytes (Verify_Hash req) (elems sig64))
  then mret VERIFY_REJECT else mret VERIFY_ACCEPT.

Definition VerifyVoteExtensionHandler (req : RequestVerifyVoteExtension)
    : GoM Store VerifyStatus :=
  let? voteExtension := lift (decode_vote_extension (Verify_VoteExtension req))
    else err => mret VERIFY_REJECT in
  let? found := reads (fun s => coll_has s VoteExtensionMap (Verify_ValidatorAddress req))
    else err => mret VERIFY_UNKNOWN in
  let signature := VoteExt_Signature voteExtension in
  if negb found then
    let? pk := lift (SigToPub (Verify_Hash req) (elems signature)) else err => mret VERIFY_REJECT in
    let pubBytes := FromECDSAPub (Some pk) in
    ignore_error (coll_set VoteExtensionMap (Verify_ValidatorAddress req) pubBytes) tt ;;
    verify_registered req signature
  else verify_registered req signature.

(** ** [propose_handler.go] *)

Fixpoint collect_signatures (votes : list ExtendedVoteInfo) : list ValidatorSignature :=
  match votes with
  | [] => []
  | vote :: votes =>
      if decide (length (Vote_VoteExtension vote) = 0) then collect_signatures votes
      else
        match decode_vote_extension (Vote_VoteExtension vote) with
        | Ok voteExt =>
            {| ValidatorAddress := Vote_Address vote;
               ValSig_Signature := VoteExt_Signature voteExt |} :: collect_signatures votes
        | _ => collect_signatures votes
        end
  end.

(** The encoder cannot fail on the injected structure. *)
Definition PrepareProposal (req : RequestPrepareProposal) : outcome (list bytes) :=
  let validatorSignatures := collect_signatures (LocalLastCommit_Votes req) in
  if decide (length validatorSignatures = 0) then Ok (Prepare_Txs req)
  else
    let injectedTx := {| ValidatorSignatures := mk validatorSignatures |} in
    let tx := Json.print (InjectedVoteExtTx_json injectedTx) in
    Ok (tx :: Prepare_Txs req).

(** The loop over the injected signatures. *)
Fixpoint process_signatures (blockHash : bytes) (l : list ValidatorSignature)
    : GoM Store ProposalStatus :=
  match l with
  | [] => mret PROPOSAL_ACCEPT
  | valSig :: l =>
      let? pk := lift (SigToPub blockHash (elems (ValSig_Signature valSig)))
        else err => mret PROPOSAL_REJECT in
      let publicKey := FromECDSAPub (Some pk) in
      let? found := reads (fun s => coll_has s VoteExtensionMap (elems (ValidatorAddress valSig)))
        else err => mret PROPOSAL_REJECT in
      if negb found then
        let? _ := coll_set VoteExtensionMap (elems (ValidatorAddress valSig)) publicKey
          else err => mret PROPOSAL_REJECT in
        process_signatures blockHash l
      else process_signatures blockHash l
  end.

Definition ProcessProposal (req : RequestProcessProposal) : GoM Store ProposalStatus :=
  match Process_Txs req with
  | [] => mret PROPOSAL_ACCEPT
  | firstTx :: _ =>
      let? injectedTx := lift (decode_injected firstTx) else err => mret PROPOSAL_REJECT in
      if decide (len (ValidatorSignatures injectedTx) = 0) then mret PROPOSAL_REJECT
      else process_signatures (Process_HeaderHash req) (elems (ValidatorSignatures injectedTx))
  end.

End Handlers.

(** ** Trust on first use *)

Section Tofu.
Context {Store : Type} `{!Collections Store, !CollectionsLaws Store, !Json.GoRuntime, !EthCrypto}.

(** A serialized key that some signature recovers to. *)
Definition recovered (pk : bytes) : Prop :=
  ∃ h sig key, SigToPub h sig = Ok key ∧ pk = FromECDSAPub (Some key).

(** What every handler of this file does to the store: validators' keys are
    written once, only with recovered keys, and nothing else changes. *)
Record tofu (s s' : Store) : Prop := {
  tofu_keeps : ∀ a pk, coll_get s VoteExtensionMap a = Ok pk →
    coll_get s' VoteExtensionMap a = Ok pk;
  tofu_new : ∀ a pk, coll_get s' VoteExtensionMap a = Ok pk →
    coll_get s VoteExtensionMap a = Ok pk ∨ recovered pk;
  tofu_ante : ∀ a, coll_get s' AnteHandlerMap a = coll_get s AnteHandlerMap a;
  tofu_params : coll_get s' ParamsKey [] = coll_get s ParamsKey []
}.

#[export] Instance tofu_preorder : PreOrder tofu.
Proof.
  split.
  - intros s. split; auto.
  - intros s1 s2 s3 [K1 N1 A1 P1] [K2 N2 A2 P2]. split.
    + auto.
    + intros a pk [?|?]%N2; auto.
    + intros a. by rewrite A2, A1.
    + by rewrite P2, P1.
Qed.

(** Writing an entry that is not there. *)
Lemma tofu_set a pk s r s' :
  coll_has s VoteExtensionMap a = Ok false → recovered pk →
  coll_set VoteExtensionMap a pk s = (r, s') → tofu s s'.
Proof.
  intros Hh Hr Hs. split.
  - intros a' pk' Hg. destruct (decide (a = a')) as [->|Hne].
    + apply has_false in Hh. congruence.
    + by rewrite (set_get_other_key _ _ _ _ _ _ _ Hne Hs).
  - intros a' pk' Hg. destruct (set_get_inv _ _ _ _ _ _ _ _ Hs Hg) as [?|(_ & _ & ->)]; auto.
  - intros a'. exact (set_vote_ante a pk s r s' a' Hs).
  - exact (set_vote_params a pk s r s' Hs).
Qed.

Lemma ignore_error_state {A} (m : GoM Store A) d s : (ignore_error m d s).2 = (m s).2.
Proof. unfold ignore_error, catch. by destruct (m s) as [[]]. Qed.

Lemma process_signatures_tofu h l s : tofu s (process_signatures h l s).2.
Proof.
  revert s. induction l as [|v l IH]; intros s; cbn [process_signatures]; [reflexivity|].
  unfold catch, lift, reads. destruct (SigToPub _ _) as [key|e|p] eqn:Er; [|reflexivity..].
  destruct (coll_has _ _ _) as [[]|e|p] eqn:Eh; cbn [negb]; [apply IH| |reflexivity..].
  destruct (coll_set _ _ _ s) as [r s1] eqn:Es.
  assert (tofu s s1) as H1 by (eapply tofu_set; [done| |done]; by eexists _, _, _).
  destruct r as [[]|e|p]; [|done..]. etrans; [exact H1|apply IH].
Qed.

Lemma ProcessProposal_tofu req s : tofu s (ProcessProposal req s).2.
Proof.
  unfold ProcessProposal. destruct (Process_Txs req) as [|tx txs]; [reflexivity|].
  unfold catch, lift. destruct (decode_injected tx); [|reflexivity..].
  case_decide; [reflexivity|]. apply process_signatures_tofu.
Qed.

(** What the end of the verification returns; it leaves the store alone. *)
Lemma verify_registered_spec req sig s :
  ∃ r, verify_registered req sig s = (r, s) ∧
    match coll_get s VoteExtensionMap (Verify_ValidatorAddress req) with
    | Panic v => r = Panic v
    | g =>
        let pubBytes := match g with Ok b => b | _ => [] end in
        r = if decide (64 ≤ cap sig) then
              Ok (if VerifySignature pubBytes (Verify_Hash req) (take 64 (elems sig ++ spare sig))
                  then VERIFY_ACCEPT else VERIFY_REJECT)
            else Panic (RuntimeError "slice bounds out of range")
    end.
Proof.
  unfold verify_registered, ignore_error, catch, reads, lift, mbind, gom_bind, mret, gom_ret.
  assert (64 ≤ cap sig → ∃ s', reslice sig 64 = Ok s' ∧ elems s' = take 64 (elems sig ++ spare sig))
    as Hr.
  { intros Hc. unfold reslice. rewrite decide_True by done. destruct sig; [cbn in Hc; lia|].
    by eexists. }
  destruct (coll_get _ _ _) as [pk|e|v]; [| |by eexists];
    (destruct (decide (64 ≤ cap sig)) as [Hc|Hc];
      [destruct (Hr Hc) as (g & -> & ->)|unfold reslice; rewrite (decide_False (P:=64 ≤ cap sig)) by done]);
    eexists; (split; [|reflexivity]); cbn; try done; by destruct (VerifySignature _ _ _).
Qed.

Lemma Verify_tofu req s : tofu s (VerifyVoteExtensionHandler req s).2.
Proof.
  unfold VerifyVoteExtensionHandler, catch, lift, reads.
  destruct (decode_vote_extension _) as [v|e|p]; [|reflexivity..].
  destruct (coll_has _ _ _) as [[]|e|p] eqn:Eh; cbn [negb]; [| |reflexivity..].
  { by destruct (verify_registered_spec req (VoteExt_Signature v) s) as (r & -> & _). }
  destruct (SigToPub _ _) as [key|e|p] eqn:Er; [|reflexivity..].
  unfold mbind, gom_bind. pose proof (ignore_error_state (coll_set VoteExtensionMap
    (Verify_ValidatorAddress req) (FromECDSAPub (Some key))) tt s) as E.
  destruct (ignore_error _ tt s) as [r s1]. cbn in E. subst s1.
  destruct (coll_set _ _ _ s) as [r' s'] eqn:Es. cbn [snd].
  assert (tofu s s') as H1 by (eapply tofu_set; [done| |exact Es]; by eexists _, _, _).
  destruct r as [[]|e|p]; [|done..].
  by destruct (verify_registered_spec req (VoteExt_Signature v) s') as (r & -> & _).
Qed.

End Tofu.

(** ** The JSON texts read back *)

Section Texts.
Context `{!Json.GoRuntime}.

Lemma decode_vote_extension_own sig :
  ∃ v, decode_vote_extension (Json.print (SignatureVoteExtend_json {| VoteExt_Signature := mk sig |}))
         = Ok v ∧ elems (VoteExt_Signature v) = sig.
Proof.
  unfold decode_vote_extension, Json.Unmarshal. rewrite Json.parse_print.
  2: { constructor; [done|by repeat constructor|]. repeat constructor. apply Json.plain_base64. }
  destruct (Json.decode_encode_bytes (mk sig) NilSlice) as (b & E & Eb & _).
  exists {| VoteExt_Signature := b |}. split; [|done].
  change (Json.decode_struct SignatureVoteExtend_fields
    (SignatureVoteExtend_json {| VoteExt_Signature := mk sig |}) SignatureVoteExtend_zero)
    with (let '(t2, e') := (let '(b, e) := Json.decode_bytes (Json.encode_bytes (mk sig)) NilSlice in
            ({| VoteExt_Signature := b |}, e)) in (t2, Json.save e' None)).
  by rewrite E.
Qed.

(** Two pairs with the same contents, whatever their spare capacity. *)
Definition same_contents (v v' : ValidatorSignature) : Prop :=
  elems (ValidatorAddress v') = elems (ValidatorAddress v) ∧
  elems (ValSig_Signature v') = elems (ValSig_Signature v).

Lemma decode_ValidatorSignature v old :
  ∃ v', Json.decode_struct ValidatorSignature_fields (ValidatorSignature_json v) old = (v', None) ∧
    same_contents v v'.
Proof.
  destruct (Json.decode_encode_bytes (ValidatorAddress v) (ValidatorAddress old)) as (a & Ea & Ha & _).
  destruct (Json.decode_encode_bytes (ValSig_Signature v) (ValSig_Signature old)) as (g & Eg & Hg & _).
  exists {| ValidatorAddress := a; ValSig_Signature := g |}. split; [|done].
  transitivity (let '(t1, e1) := (let '(b, e) := Json.decode_bytes
      (Json.encode_bytes (ValidatorAddress v)) (ValidatorAddress old) in
      ({| ValidatorAddress := b; ValSig_Signature := ValSig_Signature old |}, e)) in
    let '(t2, e2) := (let '(t3, e3) := (let '(b, e) := Json.decode_bytes
      (Json.encode_bytes (ValSig_Signature v)) (ValSig_Signature t1) in
      ({| ValidatorAddress := ValidatorAddress t1; ValSig_Signature := b |}, e)) in
      (t3, Json.save e3 None)) in (t2, Json.save e1 e2)); [reflexivity|].
  rewrite Ea. cbn [ValSig_Signature]. by rewrite Eg.
Qed.

Lemma decode_signatures l : ∀ done rest,
  ∃ l' rest', Json.decode_elems 48 ValidatorSignature_zero
      (Json.decode_struct ValidatorSignature_fields) (map ValidatorSignature_json l) done rest =
    ((done ++ l', rest'), None) ∧ Forall2 same_contents l l'.
Proof.
  induction l as [|v l IH]; intros done rest; cbn [map Json.decode_elems].
  - exists [], rest. by rewrite app_nil_r.
  - destruct (match _ with [] => _ | _ :: _ => _ end) as [old rest1].
    destruct (decode_ValidatorSignature v old) as (v' & -> & Hv).
    destruct (IH (done ++ [v']) rest1) as (l' & rest' & -> & Hl).
    exists (v' :: l'), rest'. split; [by rewrite <-app_assoc|by constructor].
Qed.

Lemma plain_ValidatorSignature d v :
  (d < Json.maxNestingDepth)%N → Json.plain d (ValidatorSignature_json v).
Proof.
  intros Hd. constructor; [done|by repeat constructor|].
  repeat constructor; apply Json.plain_encode_bytes.
Qed.

Lemma decode_injected_own l :
  l ≠ [] →
  ∃ t, decode_injected (Json.print (InjectedVoteExtTx_json {| ValidatorSignatures := mk l |})) = Ok t ∧
    Forall2 same_contents l (elems (ValidatorSignatures t)).
Proof.
  intros Hne. unfold decode_injected, Json.Unmarshal. rewrite Json.parse_print.
  2: { constructor; [done|by repeat constructor|]. repeat constructor. cbn [snd].
       apply list.Forall_forall. intros x (v & -> & _)%list_elem_of_fmap.
       by apply plain_ValidatorSignature. }
  destruct (decode_signatures l [] []) as (l' & rest' & E & Hl).
  exists {| ValidatorSignatures := MkSlice l' rest' |}. split; [|done].
  transitivity (match
    (let '(t2, e') := (let '(l0, e) := Json.decode_slice 48 ValidatorSignature_zero
        (Json.decode_struct ValidatorSignature_fields)
        (Json.JArr (map ValidatorSignature_json l)) NilSlice in
        ({| ValidatorSignatures := l0 |}, e)) in (t2, Json.save e' None)) with
    | (t', None) => Ok t' | (_, Some e) => Err e end); [reflexivity|].
  destruct l as [|v l]; [done|]. unfold Json.decode_slice. cbn [map elems spare app].
  cbn [map] in E. by rewrite E.
Qed.

End Texts.

(** ** Properties *)

Section Theorems.
Context {Store : Type} `{!Collections Store, !CollectionsLaws Store, !Json.GoRuntime, !EthCrypto}.
Implicit Types (s : Store).

(** [W] holds of stores that answer and take every write. *)
Definition working (W : Store → Prop) : Prop := ∀ s, W s →
  (∀ p k, ∃ b, coll_has s p k = Ok b) ∧
  (∀ p k v, ∃ s', coll_set p k v s = (Ok tt, s') ∧ W s').

(** A store whose calls may fail but do not panic. *)
Definition calm : Prop := ∀ s p k,
  not_panic (coll_has s p k) ∧ not_panic (coll_get s p k) ∧
  ∀ v, not_panic (coll_set p k v s).1.

(** C15. Validators' keys are trusted on first use: whatever votes and proposals
    are verified, and whatever the outcome, a registered key is never replaced,
    a new one is a key some signature recovers to, and the accounts' keys and
    the parameters do not change. *)
Theorem vote_handlers_tofu s :
  (∀ req, tofu s (VerifyVoteExtensionHandler req s).2) ∧
  (∀ req, tofu s (ProcessProposal req s).2).
Proof. split; intros req; [apply Verify_tofu|apply ProcessProposal_tofu]. Qed.

Lemma Verify_accepted `{!EthCryptoLaws good} req s s' :
  VerifyVoteExtensionHandler req s = (Ok VERIFY_ACCEPT, s') →
  ∃ v pk, decode_vote_extension (Verify_VoteExtension req) = Ok v ∧
    coll_get s' VoteExtensionMap (Verify_ValidatorAddress req) = Ok pk ∧
    VerifySignature pk (Verify_Hash req)
      (take 64 (elems (VoteExt_Signature v) ++ spare (VoteExt_Signature v))) = true ∧
    (∀ pk0, coll_get s VoteExtensionMap (Verify_ValidatorAddress req) = Ok pk0 → pk = pk0).
Proof.
  intros Hacc. pose proof (Verify_tofu req s) as Ht. rewrite Hacc in Ht. cbn in Ht. revert Hacc.
  unfold VerifyVoteExtensionHandler, catch, lift, reads.
  destruct (decode_vote_extension _) as [v|e|p]; [|done..].
  assert (∀ s0, verify_registered req (VoteExt_Signature v) s0 = (Ok VERIFY_ACCEPT, s') →
    ∃ pk, coll_get s' VoteExtensionMap (Verify_ValidatorAddress req) = Ok pk ∧
      VerifySignature pk (Verify_Hash req)
        (take 64 (elems (VoteExt_Signature v) ++ spare (VoteExt_Signature v))) = true) as Hv.
  { intros s0. destruct (verify_registered_spec req (VoteExt_Signature v) s0) as (r & -> & Hr).
    intros E. assert (r = Ok VERIFY_ACCEPT) as -> by congruence. assert (s0 = s') as -> by congruence.
    destruct (coll_get _ _ _) as [pk|e|p]; [| |done]; cbv zeta in Hr; (case_decide; [|done]);
      match type of Hr with context [VerifySignature ?a ?b ?c] =>
        destruct (VerifySignature a b c) eqn:Ev end; try done; [by exists pk|].
    by apply Verify_pubkey in Ev. }
  intros Hacc.
  assert (∃ s0, verify_registered req (VoteExt_Signature v) s0 = (Ok VERIFY_ACCEPT, s'))
    as (s0 & (pk & Hg & Hs)%Hv).
  { destruct (coll_has _ _ _) as [[]|e|p]; cbn [negb] in Hacc; [by eexists| |done..].
    destruct (SigToPub _ _) as [key|e|p]; [|done..]. unfold mbind, gom_bind in Hacc.
    destruct (ignore_error _ tt s) as [[[]|e|p] s1]; [by eexists|done..]. }
  exists v, pk. split_and!; [done..|]. intros pk0 Hk.
  apply (tofu_keeps _ _ Ht) in Hk. congruence.
Qed.

(** C16. An extension that is accepted is signed with the key the validator has
    in the store afterwards, which is the key it had before if it had one. *)
Theorem Verify_accept_sound `{!EthCryptoLaws good} req s s' :
  VerifyVoteExtensionHandler req s = (Ok VERIFY_ACCEPT, s') →
  ∃ v pk, decode_vote_extension (Verify_VoteExtension req) = Ok v ∧
    coll_get s' VoteExtensionMap (Verify_ValidatorAddress req) = Ok pk ∧
    VerifySignature pk (Verify_Hash req)
      (take 64 (elems (VoteExt_Signature v) ++ spare (VoteExt_Signature v))) = true ∧
    (∀ pk0, coll_get s VoteExtensionMap (Verify_ValidatorAddress req) = Ok pk0 → pk = pk0).
Proof. apply Verify_accepted. Qed.

Lemma extension_accepted `{!EthCryptoLaws good} (W : Store → Prop) sk hash height addr s :
  working W → W s → good sk → length hash = 32 →
  let pub := FromECDSAPub (Some (PublicKeyOf sk)) in
  coll_has s VoteExtensionMap addr = Ok false ∨ coll_get s VoteExtensionMap addr = Ok pub →
  ∃ ext s', ExtendVoteHandler sk {| ExtendVote_Hash := hash; ExtendVote_Height := height |} = Ok ext ∧
    VerifyVoteExtensionHandler {| Verify_Hash := hash; Verify_ValidatorAddress := addr;
      Verify_Height := height; Verify_VoteExtension := ext |} s = (Ok VERIFY_ACCEPT, s') ∧
    coll_get s' VoteExtensionMap addr = Ok pub.
Proof.
  intros HW Hs Hk Hh pub Hreg. destruct (Sign_total hash sk Hk Hh) as [sig Es].
  unfold ExtendVoteHandler. cbn [ExtendVote_Hash]. rewrite Es. cbn [catch_o].
  set (ext := Json.print _). destruct (decode_vote_extension_own sig) as (v & Ed & Ev).
  set (req := {| Verify_Hash := hash; Verify_ValidatorAddress := addr;
                 Verify_Height := height; Verify_VoteExtension := ext |}).
  assert (∀ s0, coll_get s0 VoteExtensionMap addr = Ok pub →
    verify_registered req (VoteExt_Signature v) s0 = (Ok VERIFY_ACCEPT, s0)) as Hv.
  { intros s0 Hg. destruct (verify_registered_spec req (VoteExt_Signature v) s0) as (r & -> & Hr).
    cbn [Verify_ValidatorAddress req] in Hr. rewrite Hg in Hr. cbn [Verify_Hash] in Hr.
    pose proof (Sign_length _ _ _ Es). pose proof (Sign_verify _ _ _ Es) as Hsv. fold pub in Hsv.
    unfold cap in Hr. rewrite Ev in Hr. cbv zeta in Hr. cbn [Verify_Hash req] in Hr.
    rewrite decide_True, take_app_le in Hr by lia. by rewrite Hr, Hsv. }
  destruct Hreg as [Hf|Hg].
  - destruct (HW s Hs) as [_ Hset].
    destruct (Hset VoteExtensionMap addr pub) as (s' & Eset & _).
    exists ext, s'. split; [done|]. pose proof (set_get _ _ _ _ _ Eset) as Hg. split; [|done].
    unfold VerifyVoteExtensionHandler, catch, lift, reads.
    cbn [Verify_VoteExtension Verify_ValidatorAddress Verify_Hash req].
    unfold ext. rewrite Ed, Hf. cbn [negb]. rewrite Ev, (Sign_recover _ _ _ Es).
    unfold mbind, gom_bind, ignore_error, catch. fold pub. rewrite Eset. by apply Hv.
  - exists ext, s. split; [done|]. split; [|done].
    unfold VerifyVoteExtensionHandler, catch, lift, reads.
    cbn [Verify_VoteExtension Verify_ValidatorAddress Verify_Hash req].
    unfold ext. rewrite Ed, (get_has _ _ _ _ Hg). cbn [negb]. by apply Hv.
Qed.

(** C17. The extension a validator makes with its usable key is accepted by
    every validator whose store works and has no key for it yet, or this one;
    afterwards the key is registered. *)
Theorem ExtendVote_accepted `{!EthCryptoLaws good} (W : Store → Prop) sk hash height addr s :
  working W → W s → good sk → length hash = 32 →
  let pub := FromECDSAPub (Some (PublicKeyOf sk)) in
  coll_has s VoteExtensionMap addr = Ok false ∨ coll_get s VoteExtensionMap addr = Ok pub →
  ∃ ext s', ExtendVoteHandler sk {| ExtendVote_Hash := hash; ExtendVote_Height := height |} = Ok ext ∧
    VerifyVoteExtensionHandler {| Verify_Hash := hash; Verify_ValidatorAddress := addr;
      Verify_Height := height; Verify_VoteExtension := ext |} s = (Ok VERIFY_ACCEPT, s') ∧
    coll_get s' VoteExtensionMap addr = Ok pub.
Proof. apply extension_accepted. Qed.

(** C22. When the store does not panic, verifying an extension panics exactly
    for a validator that already has a key and an extension whose signature has
    no room for 64 bytes, such as [null] or a document without the field. *)
Theorem Verify_panics_iff `{!EthCryptoLaws good} req s :
  calm →
  (∃ p, (VerifyVoteExtensionHandler req s).1 = Panic p) ↔
  coll_has s VoteExtensionMap (Verify_ValidatorAddress req) = Ok true ∧
  ∃ v, decode_vote_extension (Verify_VoteExtension req) = Ok v ∧ cap (VoteExt_Signature v) < 64.
Proof.
  intros Hc. destruct (Hc s VoteExtensionMap (Verify_ValidatorAddress req)) as (Hh & _ & Hset).
  assert (∀ s0 sig, (∃ p, (verify_registered req sig s0).1 = Panic p) ↔ cap sig < 64) as Hv.
  { intros s0 sig. destruct (verify_registered_spec req sig s0) as (r & -> & Hr). cbn.
    destruct (Hc s0 VoteExtensionMap (Verify_ValidatorAddress req)) as (_ & Hg & _).
    destruct (coll_get _ _ _); [| |done]; cbv zeta in Hr; case_decide; subst r;
      (split; [intros [??]|]);
      try done; try lia; intros; by eexists. }
  unfold VerifyVoteExtensionHandler, catch, lift, reads.
  destruct (decode_vote_extension _) as [v|e|p] eqn:Ed.
  2: split; [by intros [??]|by intros (_ & v & ? & _)].
  2: { unfold decode_vote_extension, Json.Unmarshal in Ed. destruct (Json.parse _); [|done].
       by destruct (Json.decode_struct _ _ _) as [? [?|]]. }
  destruct (coll_has _ _ _) as [[]|e|p]; cbn [negb]; [| | |done].
  - rewrite Hv. split; [intros; split; eauto|]. intros (_ & v' & ? & ?). congruence.
  - destruct (SigToPub _ _) as [key|e|p] eqn:Er.
    + specialize (Hset (FromECDSAPub (Some key))). unfold mbind, gom_bind, ignore_error, catch.
      apply SigToPub_length in Er. destruct (coll_set _ _ _ s) as [[[]|e|p] s1]; [..|done];
        cbn [mret gom_ret]; (split; [|by intros [??]]); intros Hp;
        change (∃ p, (verify_registered req (VoteExt_Signature v) s1).1 = Panic p) in Hp;
        apply Hv in Hp; unfold cap in Hp; lia.
    + split; [by intros [??]|by intros [??]].
    + pose proof (SigToPub_no_panic (Verify_Hash req) (elems (VoteExt_Signature v))) as Hn.
      by rewrite Er in Hn.
  - split; [by intros [??]|by intros [??]].
Qed.

(** ** Proposals *)

(** What a vote contributes: its validator and its signature, when it carries an
    extension that decodes. *)
Definition usable (vote : ExtendedVoteInfo) : option ValidatorSignature :=
  match Vote_VoteExtension vote, decode_vote_extension (Vote_VoteExtension vote) with
  | _ :: _, Ok v => Some {| ValidatorAddress := Vote_Address vote; ValSig_Signature := VoteExt_Signature v |}
  | _, _ => None
  end.

Lemma collect_usable votes : collect_signatures votes = omap usable votes.
Proof.
  induction votes as [|vote votes IH]; [done|]. cbn [collect_signatures omap list_omap]. rewrite IH.
  unfold usable. case_decide as Hd.
  - by destruct (Vote_VoteExtension vote).
  - destruct (Vote_VoteExtension vote) as [|c data] eqn:E; [done|].
    by destruct (decode_vote_extension (c :: data)).
Qed.

(** The signatures all recover to some key. *)
Definition all_recover (h : bytes) (l : list ValidatorSignature) : bool :=
  forallb (fun v => is_Ok (SigToPub h (elems (ValSig_Signature v)))) l.

Lemma process_signatures_working `{!EthCryptoLaws good} (W : Store → Prop) h l s :
  working W → W s →
  ∃ s', process_signatures h l s =
    (Ok (if all_recover h l then PROPOSAL_ACCEPT else PROPOSAL_REJECT), s') ∧ W s'.
Proof.
  intros HW. revert s. induction l as [|v l IH]; intros s Hs; [by exists s|].
  cbn [process_signatures all_recover forallb]. unfold catch, lift, reads.
  pose proof (SigToPub_no_panic h (elems (ValSig_Signature v))) as Hn.
  destruct (SigToPub h _) as [key|e|p]; [|by exists s|done]. cbn [is_Ok andb].
  destruct (HW s Hs) as [Hhas Hset].
  destruct (Hhas VoteExtensionMap (elems (ValidatorAddress v))) as [[] ->]; cbn [negb]; [by apply IH|].
  destruct (Hset VoteExtensionMap (elems (ValidatorAddress v)) (FromECDSAPub (Some key)))
    as (s1 & -> & H1). by apply IH.
Qed.

Lemma all_recover_same h l l' :
  Forall2 same_contents l l' → all_recover h l' = all_recover h l.
Proof.
  unfold all_recover. induction 1 as [|v v' l l' [_ E] _ IH]; [done|].
  cbn [forallb]. by rewrite E, IH.
Qed.

(** A proposal never fails to be built: the transactions of the request keep
    their order, and a first one is injected exactly when some vote carries a
    usable extension; it decodes to those validators and signatures, in the order
    of the votes. *)
Theorem PrepareProposal_spec req :
  let sigs := omap usable (LocalLastCommit_Votes req) in
  (sigs = [] → PrepareProposal req = Ok (Prepare_Txs req)) ∧
  (sigs ≠ [] → ∃ tx t, PrepareProposal req = Ok (tx :: Prepare_Txs req) ∧
     decode_injected tx = Ok t ∧ Forall2 same_contents sigs (elems (ValidatorSignatures t))).
Proof.
  cbv zeta. rewrite <-collect_usable. unfold PrepareProposal.
  set (l := collect_signatures _). split; intros Hl.
  - by rewrite Hl.
  - rewrite decide_False by (by destruct l).
    destruct (decode_injected_own l Hl) as (t & Ed & Hs). by eexists _, t.
Qed.

(** What the node has stored plays no part in the verdict on a proposal. *)
Lemma ProcessProposal_any_state `{!EthCryptoLaws good} (W : Store → Prop) req s s' :
  working W → W s → W s' → (ProcessProposal req s).1 = (ProcessProposal req s').1.
Proof.
  intros HW Hs Hs'. unfold ProcessProposal. destruct (Process_Txs req) as [|tx txs]; [done|].
  unfold catch, lift. destruct (decode_injected tx) as [t|e|p]; [|done..]. case_decide; [done|].
  destruct (process_signatures_working W (Process_HeaderHash req)
    (elems (ValidatorSignatures t)) s HW Hs) as (t1 & -> & _).
  by destruct (process_signatures_working W (Process_HeaderHash req)
    (elems (ValidatorSignatures t)) s' HW Hs') as (t2 & -> & _).
Qed.

(** C19. On a working store a proposal is always answered, and it is accepted
    exactly when it is empty or its first transaction decodes to a non-empty list
    of signatures that all recover to some key on the block hash: which key is
    registered for a validator plays no part. *)
Theorem ProcessProposal_accept_iff `{!EthCryptoLaws good} (W : Store → Prop) req s :
  working W → W s →
  ∃ st s', ProcessProposal req s = (Ok st, s') ∧
    (st = PROPOSAL_ACCEPT ↔
     match Process_Txs req with
     | [] => True
     | tx :: _ => ∃ t, decode_injected tx = Ok t ∧ elems (ValidatorSignatures t) ≠ [] ∧
         all_recover (Process_HeaderHash req) (elems (ValidatorSignatures t)) = true
     end).
Proof.
  intros HW Hs. unfold ProcessProposal. destruct (Process_Txs req) as [|tx txs]; [by eexists _, s|].
  unfold catch, lift. destruct (decode_injected tx) as [t|e|p] eqn:Ed.
  - unfold len. case_decide as Hl.
    + eexists _, s. split; [done|]. split; [done|]. intros (t' & [= <-] & Hne & _).
      by destruct (elems (ValidatorSignatures t)).
    + destruct (process_signatures_working W (Process_HeaderHash req)
        (elems (ValidatorSignatures t)) s HW Hs) as (s' & -> & _).
      eexists _, s'. split; [done|]. destruct (all_recover _ _) eqn:Ea.
      * split; [|done]. intros _. exists t. split_and!; [done| |done]. intros E. by rewrite E in Hl.
      * split; [done|]. intros (t' & [= <-] & _ & ?). congruence.
  - eexists _, s. split; [done|]. split; [done|]. by intros (? & ? & _).
  - unfold decode_injected, Json.Unmarshal in Ed. destruct (Json.parse tx); [|done].
    by destruct (Json.decode_struct _ _ _) as [? [?|]].
Qed.

(** The extension of a vote is missing or was made by some validator's key on
    the given hash. *)
Definition honest_vote (hash : bytes) (vote : ExtendedVoteInfo) : Prop :=
  Vote_VoteExtension vote = [] ∨
  ∃ sk height, ExtendVoteHandler sk {| ExtendVote_Hash := hash; ExtendVote_Height := height |}
               = Ok (Vote_VoteExtension vote).

Lemma usable_honest `{!EthCryptoLaws good} hash vote :
  honest_vote hash vote →
  (Vote_VoteExtension vote = [] ∧ usable vote = None) ∨
  (Vote_VoteExtension vote ≠ [] ∧ ∃ v, usable vote = Some v ∧
     is_Ok (SigToPub hash (elems (ValSig_Signature v))) = true).
Proof.
  intros [E|(sk & height & E)]; [left; unfold usable; by rewrite E|right].
  unfold ExtendVoteHandler in E. cbn [ExtendVote_Hash] in E.
  destruct (Sign hash sk) as [sig|e|p] eqn:Es; [|done..]. cbn [catch_o] in E.
  destruct (decode_vote_extension_own sig) as (v & Ed & Ev).
  assert (Vote_VoteExtension vote =
    Json.print (SignatureVoteExtend_json {| VoteExt_Signature := mk sig |})) as E' by congruence.
  unfold usable. rewrite E', Ed. cbn [Json.print SignatureVoteExtend_json app]. split; [done|].
  eexists. split; [done|]. cbn [ValSig_Signature]. by rewrite Ev, (Sign_recover _ _ _ Es).
Qed.

Lemma honest_recover `{!EthCryptoLaws good} hash votes :
  Forall (honest_vote hash) votes → all_recover hash (omap usable votes) = true.
Proof.
  unfold all_recover. induction 1 as [|vote votes Hv _ IH]; [done|]. cbn [omap list_omap].
  destruct (usable_honest hash vote Hv) as [[_ ->]|(_ & v & -> & E)]; [done|].
  cbn [forallb]. by rewrite E.
Qed.

Lemma honest_nonempty `{!EthCryptoLaws good} hash votes :
  Forall (honest_vote hash) votes → Exists (fun vote => Vote_VoteExtension vote ≠ []) votes →
  omap usable votes ≠ [].
Proof.
  intros Hh. induction 1 as [vote votes Hne|vote votes _ IH]; inversion Hh; subst;
    cbn [omap list_omap]; (destruct (usable_honest hash vote) as [[? ->]|(_ & v & -> & _)]; [done| |done]);
    [done|by apply IH].
Qed.

(** C18. A proposal built from votes that were extended on the proposed block's
    hash, at least one of them with an extension, is accepted by every node
    whose store works, whatever transactions follow. *)
Theorem honest_proposal_accepted `{!EthCryptoLaws good} (W : Store → Prop) req hash txs s :
  working W → W s → Forall (honest_vote hash) (LocalLastCommit_Votes req) →
  Exists (fun vote => Vote_VoteExtension vote ≠ []) (LocalLastCommit_Votes req) →
  PrepareProposal req = Ok txs →
  ∃ s', ProcessProposal {| Process_HeaderHash := hash; Process_Txs := txs |} s =
    (Ok PROPOSAL_ACCEPT, s').
Proof.
  intros HW Hs Hh He Hp. unfold PrepareProposal in Hp. rewrite collect_usable in Hp.
  set (l := omap usable (LocalLastCommit_Votes req)) in *.
  pose proof (honest_recover hash _ Hh : all_recover hash l = true) as Ha.
  pose proof (honest_nonempty hash _ Hh He : l ≠ []) as Hne.
  rewrite decide_False in Hp by (by destruct l).
  assert (txs = Json.print (InjectedVoteExtTx_json {| ValidatorSignatures := mk l |})
                :: Prepare_Txs req) as -> by congruence.
  destruct (decode_injected_own l Hne) as (t & Ed & Hst).
  unfold ProcessProposal, catch, lift. cbn [Process_Txs Process_HeaderHash]. rewrite Ed.
  rewrite decide_False by (unfold len; rewrite <-(list.Forall2_length _ _ _ Hst); by destruct l).
  destruct (process_signatures_working W hash (elems (ValidatorSignatures t)) s HW Hs)
    as (s' & -> & _). exists s'. by rewrite (all_recover_same _ _ _ Hst), Ha.
Qed.

(** C20. Without a usable extension nothing is injected, and then a block whose
    first transaction is not itself such a document is rejected by every node,
    the proposer included. *)
Theorem proposal_without_extensions_rejected req tx txs hash s :
  omap usable (LocalLastCommit_Votes req) = [] → Prepare_Txs req = tx :: txs →
  (∀ t, decode_injected tx ≠ Ok t) →
  PrepareProposal req = Ok (tx :: txs) ∧
  ProcessProposal {| Process_HeaderHash := hash; Process_Txs := tx :: txs |} s =
    (Ok PROPOSAL_REJECT, s).
Proof.
  intros Hu Ht Hd. unfold PrepareProposal. rewrite collect_usable, Hu, Ht. split; [done|].
  unfold ProcessProposal, catch, lift. cbn [Process_Txs].
  destruct (decode_injected tx) as [t|e|p] eqn:Ed; [by destruct (Hd t)|done|].
  unfold decode_injected, Json.Unmarshal in Ed. destruct (Json.parse tx); [|done].
  by destruct (Json.decode_struct _ _ _) as [? [?|]].
Qed.

End Theorems.

(** ** The properties at concrete inputs *)

Section Witnesses.
Import Concrete.

Definition mem_works (s : store) : Prop := readable s = true ∧ writable s = true.

Lemma mem_working : working mem_works.
Proof.
  intros [m r w] [Hr Hw]; cbn in Hr, Hw; subst r w. split.
  - intros p k. by eexists.
  - intros p k v. by eexists.
Qed.

Lemma mem_calm : @calm store _.
Proof.
  intros [m [] []] p k; cbn; unfold has, get, set; cbn; split_and!; try done; by destruct (m !! _).
Qed.

Definition block_hash : bytes := replicate 32 x11.
Definition val1 : bytes := str "validator-1".
Definition val_key : @ecdsa_PrivateKey toy_crypto := Some x07.
Definition other_key : @ecdsa_PrivateKey toy_crypto := Some x08.
Definition val_pub : bytes := FromECDSAPub (Some (PublicKeyOf val_key)).

(** The extension a key makes on the block hash. *)
Definition extension (sk : @ecdsa_PrivateKey toy_crypto) : bytes :=
  match ExtendVoteHandler sk {| ExtendVote_Hash := block_hash; ExtendVote_Height := 5 |} with
  | Ok ext => ext
  | _ => []
  end.

Definition verify_req (ext : bytes) : RequestVerifyVoteExtension := {|
  Verify_Hash := block_hash; Verify_ValidatorAddress := val1; Verify_Height := 5;
  Verify_VoteExtension := ext
|}.

(** The store after the first extension of the validator. *)
Definition val_store : store := (VerifyVoteExtensionHandler (verify_req (extension val_key)) MemStore.empty).2.

Lemma vote_handlers_tofu_witness :
  coll_get val_store VoteExtensionMap val1 = Ok val_pub ∧
  coll_get (VerifyVoteExtensionHandler (verify_req (extension other_key)) val_store).2
    VoteExtensionMap val1 = Ok val_pub.
Proof.
  split; [vm_compute; reflexivity|].
  apply (tofu_keeps _ _ (proj1 (vote_handlers_tofu val_store) (verify_req (extension other_key)))).
  vm_compute. reflexivity.
Defined.

Lemma Verify_accept_sound_witness :
  ∃ v pk, decode_vote_extension (extension val_key) = Ok v ∧
    coll_get val_store VoteExtensionMap val1 = Ok pk ∧
    VerifySignature pk block_hash (take 64 (elems (VoteExt_Signature v) ++ spare (VoteExt_Signature v)))
      = true ∧
    (∀ pk0, coll_get MemStore.empty VoteExtensionMap val1 = Ok pk0 → pk = pk0).
Proof.
  apply (Verify_accept_sound (verify_req (extension val_key)) MemStore.empty val_store).
  vm_compute. reflexivity.
Defined.

Lemma ExtendVote_accepted_witness :
  ∃ ext s', ExtendVoteHandler val_key {| ExtendVote_Hash := block_hash; ExtendVote_Height := 5 |} = Ok ext ∧
    VerifyVoteExtensionHandler (verify_req ext) MemStore.empty = (Ok VERIFY_ACCEPT, s') ∧
    coll_get s' VoteExtensionMap val1 = Ok val_pub.
Proof.
  apply (ExtendVote_accepted mem_works val_key block_hash 5 val1 MemStore.empty).
  - exact mem_working.
  - split; reflexivity.
  - by eexists.
  - reflexivity.
  - left. vm_compute. reflexivity.
Defined.

Lemma Verify_panics_iff_witness :
  ∃ p, (VerifyVoteExtensionHandler (verify_req (str "null")) val_store).1 = Panic p.
Proof.
  apply (Verify_panics_iff (verify_req (str "null")) val_store mem_calm).
  split; [vm_compute; reflexivity|]. exists SignatureVoteExtend_zero.
  split; [vm_compute; reflexivity|]. cbn. lia.
Defined.

(** Two votes, one without an extension, and one transaction. *)
Definition sample_votes : list ExtendedVoteInfo :=
  [{| Vote_Address := mk val1; Vote_VoteExtension := extension val_key |};
   {| Vote_Address := mk (str "validator-2"); Vote_VoteExtension := [] |}].
Definition sample_req : RequestPrepareProposal :=
  {| LocalLastCommit_Votes := sample_votes; Prepare_Txs := [str "tx"] |}.
Definition sample_txs : list bytes := match PrepareProposal sample_req with Ok txs => txs | _ => [] end.

Lemma PrepareProposal_spec_witness :
  omap usable sample_votes ≠ [] ∧
  ∃ tx t, PrepareProposal sample_req = Ok (tx :: [str "tx"]) ∧ decode_injected tx = Ok t ∧
    Forall2 same_contents (omap usable sample_votes) (elems (ValidatorSignatures t)).
Proof.
  assert (omap usable sample_votes ≠ []) as Hne by (vm_compute; discriminate).
  split; [exact Hne|]. exact (proj2 (PrepareProposal_spec sample_req) Hne).
Defined.

Lemma ProcessProposal_accept_iff_witness :
  ∃ st s', ProcessProposal {| Process_HeaderHash := replicate 32 x12; Process_Txs := sample_txs |}
      MemStore.empty = (Ok st, s') ∧
    (st = PROPOSAL_ACCEPT ↔
     match sample_txs with
     | [] => True
     | tx :: _ => ∃ t, decode_injected tx = Ok t ∧ elems (ValidatorSignatures t) ≠ [] ∧
         all_recover (replicate 32 x12) (elems (ValidatorSignatures t)) = true
     end).
Proof.
  apply (ProcessProposal_accept_iff mem_works
    {| Process_HeaderHash := replicate 32 x12; Process_Txs := sample_txs |} MemStore.empty mem_working).
  split; reflexivity.
Defined.

Lemma honest_proposal_accepted_witness :
  ∃ s', ProcessProposal {| Process_HeaderHash := block_hash; Process_Txs := sample_txs |}
    MemStore.empty = (Ok PROPOSAL_ACCEPT, s').
Proof.
  apply (honest_proposal_accepted mem_works sample_req block_hash sample_txs MemStore.empty mem_working).
  - split; reflexivity.
  - constructor; [right; exists val_key, 5%Z; vm_compute; reflexivity|].
    constructor; [by left|constructor].
  - left. vm_compute. discriminate.
  - vm_compute. reflexivity.
Defined.

Lemma proposal_without_extensions_rejected_witness :
  PrepareProposal {| LocalLastCommit_Votes := []; Prepare_Txs := [str "tx"] |} = Ok [str "tx"] ∧
  ProcessProposal {| Process_HeaderHash := block_hash; Process_Txs := [str "tx"] |} MemStore.empty =
    (Ok PROPOSAL_REJECT, MemStore.empty).
Proof.
  apply (proposal_without_extensions_rejected
    {| LocalLastCommit_Votes := []; Prepare_Txs := [str "tx"] |} (str "tx") []).
  - reflexivity.
  - reflexivity.
  - intros t. vm_compute. discriminate.
Defined.

End Witnesses.
