(* ===== verification/AppModule.v ===== *)
(** [x/secondarykeys/module] and [x/secondarykeys/simulation]: the application
    module around the keeper, its dependency injection, and its simulation
    operations.  A node has the module's store and the package variable that
    holds the validator's secondary key. *)
From S2P Require Import Prelude Json Crypto Store Common Wire SkTypes Expected Keeper VoteExtension.

#[local] Open Scope go_scope.

Section Module.
Context {Store : Type} `{!Collections Store, !AddressCodec, !CollValue Params,
  !JSONCodec GenesisState, !Json.GoRuntime, !EthCrypto}.

(** The store and [SecondaryPrivateKey]. *)
Record Node := { KVStore : Store; SecondaryPrivateKey : ecdsa_PrivateKey }.

Definition put_store (s : Store) (n : Node) : Node :=
  {| KVStore := s; SecondaryPrivateKey := SecondaryPrivateKey n |}.
Definition put_key (k : ecdsa_PrivateKey) (n : Node) : Node :=
  {| KVStore := KVStore n; SecondaryPrivateKey := k |}.
Definition on_store {A} (m : GoM Store A) : GoM Node A := zoom KVStore put_store m.

(** A process that starts: the variable has the zero value. *)
Definition started (s : Store) : Node := {| KVStore := s; SecondaryPrivateKey := zeroPrivateKey |}.

(** The codec is the section's [JSONCodec]; the keepers of other modules are kept
    and never called. *)
Record AppModule := { keeper : Keeper; authKeeper : AuthKeeper; bankKeeper : BankKeeper }.

Definition NewAppModule (keeper : Keeper) (authKeeper : AuthKeeper) (bankKeeper : BankKeeper)
    : AppModule :=
  {| keeper := keeper; authKeeper := authKeeper; bankKeeper := bankKeeper |}.
Definition Name : bytes := ModuleName.
Definition ConsensusVersion : Z := 1.

Definition AppModule_DefaultGenesis (am : AppModule) : outcome bytes := MustMarshalJSON DefaultGenesis.

Definition ValidateGenesis (am : AppModule) (bz : bytes) : outcome unit :=
  let! genState := UnmarshalJSON bz
    else err => Err (Wrapped "failed to unmarshal secondarykeys genesis state" err) in
  GenesisState_Validate genState.

(** [generated] is what [GenerateKey()] returns. *)
Definition AppModule_InitGenesis (am : AppModule) (generated : outcome ecdsa_PrivateKey) (gs : bytes)
    : GoM Node unit :=
  let? prv := lift generated else err => panic (ErrorString "err at generating key") in
  modify (put_key prv) ;;
  let? genState := lift (UnmarshalJSON gs)
    else err => panic (Wrapped "failed to unmarshal secondarykeys genesis state" err) in
  let? _ := on_store (InitGenesis genState)
    else err => panic (Wrapped "failed to initialize secondarykeys genesis state" err) in
  mret tt.

Definition AppModule_ExportGenesis (am : AppModule) (n : Node) : outcome bytes :=
  let! genState := ExportGenesis (KVStore n)
    else err => Panic (Wrapped "failed to export secondarykeys genesis state" err) in
  let! bz := MarshalJSON genState
    else err => Panic (Wrapped "failed to marshal secondarykeys genesis state" err) in
  Ok bz.

Definition BeginBlock (am : AppModule) : GoM Node unit := mret tt.
Definition EndBlock (am : AppModule) : GoM Node unit := mret tt.

(** ** [depinject.go] *)

(** What is injected, besides the store service, the codec and the address codec
    of the section. *)
Record ModuleInputs := {
  Inputs_Config : Module; Inputs_AuthKeeper : AuthKeeper; Inputs_BankKeeper : BankKeeper
}.

Record ModuleOutputs := { SecondarykeysKeeper : Keeper; Output_Module : AppModule }.

Definition ProvideModule (input : ModuleInputs) : outcome ModuleOutputs :=
  let authority := NewModuleAddress GovModuleName in
  let authority :=
    if negb (bool_decide (Module_Authority (Inputs_Config input) = []))
    then NewModuleAddressOrBech32Address (Module_Authority (Inputs_Config input)) else authority in
  k ← NewKeeper Store authority;
  let m := NewAppModule k (Inputs_AuthKeeper input) (Inputs_BankKeeper input) in
  Ok {| SecondarykeysKeeper := k; Output_Module := m |}.

(** ** [simulation] *)

(** [simState.GenState[types.ModuleName] = ...] *)
Definition GenerateGenesisState : GoM (gmap bytes bytes) unit :=
  let secondarykeysGenesis := MkGenesisState DefaultParams in
  bz ← lift (MustMarshalJSON secondarykeysGenesis);
  modify (fun genState => <[ModuleName := bz]> genState).

(** The operation only looks at the first account. *)
Definition SimulateMsgBroadcastData (k : Keeper) (memo : bytes) (accs : list bytes)
    : GoM Store unit :=
  match accs with
  | [] => panic (RuntimeError "index out of range")
  | acc :: _ =>
      let msg := MkMsgBroadcastData (AccAddress_String acc) memo in
      let? _ := BroadcastData k msg
        else err => panic (ErrorString "err at broadcast data inside simulate") in
      mret tt
  end.

Definition defaultWeightMsgBroadcastData : Z := 100.

(** The weighted operations: [weight] is what [GetOrGenerate] finds under
    ["op_weight_msg_secondarykeys"], or the default. *)
Definition WeightedOperations (am : AppModule) (weight : option Z)
    : list (Z * (list bytes → GoM Store unit)) :=
  let weightMsgBroadcastData := default defaultWeightMsgBroadcastData weight in
  [(weightMsgBroadcastData, SimulateMsgBroadcastData (keeper am) [])].

Definition ProposalMsgs (am : AppModule) : list MsgUpdateParams := [].

End Module.

Arguments Node Store {_}.
Arguments ProvideModule Store {_ _} input.

(** ** Properties *)

Section Theorems.
Context {Store : Type} `{!Collections Store, !CollectionsLaws Store, !AddressCodec,
  !CollValue Params, !CollValueLaws Params, !JSONCodec GenesisState, !JSONCodecLaws GenesisState,
  !Json.GoRuntime, !EthCrypto}.
Implicit Types (n : Node Store) (am : AppModule).

Lemma InitGenesis_inv am gen gs n n' :
  AppModule_InitGenesis am gen gs n = (Ok tt, n') →
  ∃ prv g s', gen = Ok prv ∧ UnmarshalJSON gs = Ok g ∧
    InitGenesis g (KVStore n) = (Ok tt, s') ∧
    n' = {| KVStore := s'; SecondaryPrivateKey := prv |}.
Proof.
  unfold AppModule_InitGenesis, catch, lift, mbind, gom_bind, modify, on_store, zoom.
  destruct gen as [prv|e|v]; [|done..]. destruct (UnmarshalJSON gs) as [g|e|v]; [|done..].
  cbn [KVStore put_key]. destruct (InitGenesis g (KVStore n)) as [[[]|e|v] s'] eqn:E; [|done..].
  intros Hr. exists prv, g, s'. split_and!; try done.
  by injection Hr as <-.
Qed.

(** Initialising the module from a genesis document installs the freshly
    generated secondary key and the document's parameters; exporting then gives
    a document for the same state, which initialises another node with the same
    parameters but with that node's own key. *)
Theorem InitGenesis_export am prv gs n n' bz prv2 n2 n2' :
  AppModule_InitGenesis am (Ok prv) gs n = (Ok tt, n') →
  AppModule_ExportGenesis am n' = Ok bz →
  AppModule_InitGenesis am (Ok prv2) bz n2 = (Ok tt, n2') →
  SecondaryPrivateKey n' = prv ∧ UnmarshalJSON bz = UnmarshalJSON gs ∧
  SecondaryPrivateKey n2' = prv2 ∧ Params_Get (KVStore n2') = Params_Get (KVStore n').
Proof.
  intros (p & g & s' & [= <-] & Hu & Hi & ->)%InitGenesis_inv He
    (p2 & g2 & s2' & [= <-] & Hu2 & Hi2 & ->)%InitGenesis_inv.
  unfold InitGenesis in Hi, Hi2. cbn [KVStore SecondaryPrivateKey].
  pose proof (params_set_get _ _ _ Hi) as Hp. pose proof (params_set_get _ _ _ Hi2) as Hp2.
  unfold AppModule_ExportGenesis, ExportGenesis in He. cbn [KVStore] in He. rewrite Hp in He.
  cbn [catch_o] in He. destruct (MarshalJSON _) as [b|e|v] eqn:Em; [|done..]. cbn [catch_o] in He.
  assert (b = bz) as -> by congruence. apply JSON_roundtrip in Em.
  assert (g2 = MkGenesisState (GenesisState_Params g)) as -> by congruence.
  rewrite Hp, Hp2. cbn. split_and!; try done. rewrite Em, Hu. by destruct g.
Qed.

(** The default genesis document is valid. *)
Theorem DefaultGenesis_valid am bz :
  AppModule_DefaultGenesis am = Ok bz → ValidateGenesis am bz = Ok tt.
Proof.
  unfold AppModule_DefaultGenesis, MustMarshalJSON. destruct (MarshalJSON _) as [b|e|v] eqn:E; [|done..].
  intros [= <-]. unfold ValidateGenesis. by rewrite (JSON_roundtrip _ _ E).
Qed.

(** The module's keeper is provided with the governance account as its
    authority unless the configuration names another one, and no configuration
    makes the collections conflict: providing panics only for an authority the
    address codec cannot write.  The module gets this keeper and the injected ones. *)
Theorem ProvideModule_authority input :
  let auth := match Module_Authority (Inputs_Config input) with
              | [] => NewModuleAddress GovModuleName
              | a => NewModuleAddressOrBech32Address a
              end in
  (∀ t, BytesToString auth = Ok t →
     ∃ out, ProvideModule Store input = Ok out ∧
       authority (SecondarykeysKeeper out) = auth ∧
       Output_Module out = NewAppModule (SecondarykeysKeeper out) (Inputs_AuthKeeper input)
                             (Inputs_BankKeeper input)) ∧
  ((∀ t, BytesToString auth ≠ Ok t) → ∃ v, ProvideModule Store input = Panic v).
Proof.
  cbv zeta. unfold ProvideModule. cbv zeta.
  replace (if negb _ then _ else _) with
    (match Module_Authority (Inputs_Config input) with
     | [] => NewModuleAddress GovModuleName
     | a => NewModuleAddressOrBech32Address a
     end) by (by destruct (Module_Authority (Inputs_Config input))).
  set (auth := match _ with [] => _ | _ :: _ => _ end).
  unfold NewKeeper. rewrite (build_ok (Store:=Store)) by apply schema_disjoint.
  destruct (BytesToString auth) as [t|e|v]; cbn; split.
  - intros _ _. by eexists.
  - intros Hn. by destruct (Hn t).
  - done.
  - by eexists.
  - done.
  - by eexists.
Qed.

(** The weighted operation of the module's simulation always panics: it
    broadcasts the empty memo, which is no document. *)
Theorem simulation_panics am weight op acc accs a s :
  op ∈ WeightedOperations am weight → StringToBytes (AccAddress_String acc) = Ok a →
  op.2 (acc :: accs) s = (Panic (Wrapped "invalid memo format" Json.SyntaxError), s).
Proof.
  intros ->%list_elem_of_singleton Ha. cbn [snd SimulateMsgBroadcastData]. unfold BroadcastData, catch, lift.
  cbn [MsgBroadcastData_Sender MsgBroadcastData_Data]. by rewrite Ha.
Qed.

End Theorems.

(** ** The properties at concrete inputs *)

(** A genesis codec for evaluation: the document is the protobuf encoding. *)
Module ToyJSON.

Definition decode_genesis (bz : bytes) : outcome GenesisState :=
  match GenesisState_Unmarshal bz GenesisState_zero with
  | (Ok _, g) => Ok g
  | (Err e, _) => Err e
  | (Panic v, _) => Panic v
  end.

#[export] Instance genesis_json : JSONCodec GenesisState :=
  {| MarshalJSON := GenesisState_Marshal; UnmarshalJSON := decode_genesis |}.

#[export] Instance genesis_json_laws : JSONCodecLaws GenesisState.
Proof.
  split. intros g b. unfold MarshalJSON, UnmarshalJSON, genesis_json, decode_genesis.
  pose proof (codec_ok (M:=GenesisState) g [] eq_refl) as (Hm & Hu & _).
  change (GenesisState_Marshal g = Ok (encoding g)) in Hm.
  change (GenesisState_Unmarshal (encoding g) GenesisState_zero = (Ok tt, g)) in Hu.
  intros E. assert (b = encoding g) as -> by congruence. by rewrite Hu.
Qed.

End ToyJSON.

Section Witnesses.
Import Concrete ToyJSON.

Definition am0 : AppModule := NewAppModule k0 (constant_AuthKeeper (S := store)) (constant_BankKeeper (S := store)).
Definition inputs0 : ModuleInputs := {|
  Inputs_Config := Module_zero; Inputs_AuthKeeper := authKeeper am0; Inputs_BankKeeper := bankKeeper am0 |}.
Definition node0 : Node store := started MemStore.empty.
Definition genesis0 : bytes := match AppModule_DefaultGenesis am0 with Ok bz => bz | _ => [] end.
Definition node1 : Node store := (AppModule_InitGenesis am0 (Ok val_key) genesis0 node0).2.
Definition exported : bytes := match AppModule_ExportGenesis am0 node1 with Ok bz => bz | _ => [] end.
Definition node2 : Node store := (AppModule_InitGenesis am0 (Ok other_key) exported node0).2.

Lemma InitGenesis_export_witness :
  SecondaryPrivateKey node1 = val_key ∧ UnmarshalJSON exported = UnmarshalJSON genesis0 ∧
  SecondaryPrivateKey node2 = other_key ∧ Params_Get (KVStore node2) = Params_Get (KVStore node1).
Proof.
  apply (InitGenesis_export am0 val_key genesis0 node0 node1 exported other_key node0 node2);
    vm_compute; reflexivity.
Defined.

Lemma DefaultGenesis_valid_witness : ValidateGenesis am0 genesis0 = Ok tt.
Proof. apply (DefaultGenesis_valid am0 genesis0). vm_compute. reflexivity. Defined.

Lemma ProvideModule_authority_witness :
  ∃ out, ProvideModule store inputs0 = Ok out ∧
    authority (SecondarykeysKeeper out) = str "module/gov" ∧
    Output_Module out = NewAppModule (SecondarykeysKeeper out) (authKeeper am0) (bankKeeper am0).
Proof.
  exact (proj1 (ProvideModule_authority (Store := store) inputs0) (hrp ++ str "module/gov") eq_refl).
Defined.

Lemma simulation_panics_witness :
  ∃ op, op ∈ WeightedOperations (Store := store) am0 None ∧
    op.2 [alice] MemStore.empty =
      (Panic (Wrapped "invalid memo format" Json.SyntaxError), MemStore.empty).
Proof.
  eexists. split; [left|]. eapply (simulation_panics am0 None _ alice [] alice).
  - left.
  - vm_compute. reflexivity.
Defined.

End Witnesses.
