(* ===== verification/ExampleModule.v ===== *)
(** [x/example]: the template module of the chain, with parameters and nothing
    else: its keeper, message and query handlers, genesis, and the application
    module around them. *)
From S2P Require Import Prelude Store Wire ExTypes Expected.

#[local] Open Scope go_scope.

(** ** [types] *)

Definition ModuleName : bytes := str "example".
Definition StoreKey : bytes := ModuleName.
Definition GovModuleName : bytes := str "gov".
Definition ParamsKey : bytes := str "p_example".
Definition ErrInvalidSigner : error := Sentinel "example" "1100".

Definition NewParams : Params := MkParams.
Definition DefaultParams : Params := NewParams.
Definition Params_Validate (p : Params) : outcome unit := Ok tt.

Definition DefaultGenesis : GenesisState := MkGenesisState DefaultParams.
Definition GenesisState_Validate (gs : GenesisState) : outcome unit :=
  Params_Validate (GenesisState_Params gs).

(** ** [keeper] *)

Record Keeper := { authority : bytes; Schema : list (bytes * bytes) }.

Definition collections_decl : list (bytes * bytes) := [(ParamsKey, str "params")].

Section Module.
Context {Store : Type} `{!Collections Store, !AddressCodec, !CollValue Params,
  !JSONCodec GenesisState}.

Definition NewKeeper (authority : bytes) : outcome Keeper :=
  let! _ := BytesToString authority
    else e => Panic (Wrapped "invalid authority address" e) in
  let! _ := SchemaBuilder_Build (Store := Store) collections_decl else e => Panic e in
  Ok {| authority := authority; Schema := collections_decl |}.

Definition GetAuthority (k : Keeper) : bytes := authority k.

Definition Params_Get (s : Store) : outcome Params := item_get ParamsKey s.
Definition Params_Set (p : Params) : GoM Store unit := item_set ParamsKey p.

Definition InitGenesis (genState : GenesisState) : GoM Store unit :=
  Params_Set (GenesisState_Params genState).

Definition ExportGenesis (s : Store) : outcome GenesisState :=
  let genesis := DefaultGenesis in
  let! params := Params_Get s else err => Err err in
  Ok (MkGenesisState params).

Definition Query_Params (s : Store) (req : option QueryParamsRequest)
    : outcome QueryParamsResponse :=
  match req with
  | None => Err (Wrapped "InvalidArgument" (ErrorString "invalid request"))
  | Some _ =>
      match Params_Get s with
      | Panic v => Panic v
      | Err err =>
          if negb (errors_Is err ErrNotFound)
          then Err (Wrapped "Internal" (ErrorString "internal error"))
          else Ok (MkQueryParamsResponse Params_zero)
      | Ok params => Ok (MkQueryParamsResponse params)
      end
  end.

Definition UpdateParams (k : Keeper) (req : MsgUpdateParams)
    : GoM Store MsgUpdateParamsResponse :=
  let? authority := lift (StringToBytes (MsgUpdateParams_Authority req))
    else err => fail (Wrapped "invalid authority address" err) in
  if negb (bytes_Equal (GetAuthority k) authority) then
    fail (Wrapped "invalid authority" ErrInvalidSigner)
  else
    let? _ := lift (Params_Validate (MsgUpdateParams_Params req)) else err => fail err in
    let? _ := Params_Set (MsgUpdateParams_Params req) else err => fail err in
    mret MkMsgUpdateParamsResponse.

(** ** [module] *)

(** [types/expected_keepers.go] *)
Definition ex_AuthKeeper : Type := AuthKeeper.
Definition ex_BankKeeper : Type := BankKeeper.
Definition ex_ParamSubspace : Type := ParamSubspace.

(** The codec is the section's [JSONCodec]. *)
Record AppModule := { keeper : Keeper; authKeeper : ex_AuthKeeper; bankKeeper : ex_BankKeeper }.

Definition NewAppModule (keeper : Keeper) (authKeeper : ex_AuthKeeper) (bankKeeper : ex_BankKeeper)
    : AppModule :=
  {| keeper := keeper; authKeeper := authKeeper; bankKeeper := bankKeeper |}.
Definition Name : bytes := ModuleName.
Definition ConsensusVersion : Z := 1.

Definition AppModule_DefaultGenesis (am : AppModule) : outcome bytes := MustMarshalJSON DefaultGenesis.

Definition ValidateGenesis (am : AppModule) (bz : bytes) : outcome unit :=
  let! genState := UnmarshalJSON bz
    else err => Err (Wrapped "failed to unmarshal example genesis state" err) in
  GenesisState_Validate genState.

Definition AppModule_InitGenesis (am : AppModule) (gs : bytes) : GoM Store unit :=
  let? genState := lift (UnmarshalJSON gs)
    else err => panic (Wrapped "failed to unmarshal example genesis state" err) in
  let? _ := InitGenesis genState
    else err => panic (Wrapped "failed to initialize example genesis state" err) in
  mret tt.

Definition AppModule_ExportGenesis (am : AppModule) (s : Store) : outcome bytes :=
  let! genState := ExportGenesis s
    else err => Panic (Wrapped "failed to export example genesis state" err) in
  let! bz := MarshalJSON genState
    else err => Panic (Wrapped "failed to marshal example genesis state" err) in
  Ok bz.

Definition BeginBlock (am : AppModule) : GoM Store unit := mret tt.
Definition EndBlock (am : AppModule) : GoM Store unit := mret tt.

(** What is injected, besides the store service, the codec and the address codec
    of the section. *)
Record ModuleInputs := {
  Inputs_Config : Module; Inputs_AuthKeeper : ex_AuthKeeper; Inputs_BankKeeper : ex_BankKeeper
}.

Record ModuleOutputs := { ExampleKeeper : Keeper; Output_Module : AppModule }.

Definition ProvideModule (input : ModuleInputs) : outcome ModuleOutputs :=
  let authority := NewModuleAddress GovModuleName in
  let authority :=
    if negb (bool_decide (Module_Authority (Inputs_Config input) = []))
    then NewModuleAddressOrBech32Address (Module_Authority (Inputs_Config input)) else authority in
  k ← NewKeeper authority;
  let m := NewAppModule k (Inputs_AuthKeeper input) (Inputs_BankKeeper input) in
  Ok {| ExampleKeeper := k; Output_Module := m |}.

Definition GenerateGenesisState : GoM (gmap bytes bytes) unit :=
  let exampleGenesis := MkGenesisState DefaultParams in
  bz ← lift (MustMarshalJSON exampleGenesis);
  modify (fun genState => <[ModuleName := bz]> genState).

Definition WeightedOperations (am : AppModule) : list (Z * (list bytes → GoM Store unit)) := [].
Definition ProposalMsgs (am : AppModule) : list MsgUpdateParams := [].

End Module.

Arguments NewKeeper Store {_ _} authority.
Arguments ProvideModule Store {_ _} input.

(** ** Properties *)

Section Theorems.
Context {Store : Type} `{!Collections Store, !CollectionsLaws Store, !AddressCodec,
  !CollValue Params, !CollValueLaws Params, !JSONCodec GenesisState, !JSONCodecLaws GenesisState}.
Implicit Types (s : Store) (k : Keeper) (am : AppModule).

Lemma params_set_inv p s r s' :
  Params_Set p s = (r, s') → (r = Ok tt → Params_Get s' = Ok p) ∧
  (∀ q a, q ++ a ≠ ParamsKey ++ [] → coll_get s' q a = coll_get s q a).
Proof.
  unfold Params_Set, item_set, Params_Get, item_get, mbind, gom_bind, lift.
  destruct (value_encode p) as [b|e|v] eqn:E; [|by intros [= <- <-]..]. intros Hs. split.
  - intros ->. rewrite (set_get _ _ _ _ _ Hs). by apply value_roundtrip.
  - intros q a Hne. eapply set_get_ne; [exact Hs|]. by apply not_eq_sym.
Qed.

(** In the template module too, parameters change only on the authority's
    request: another valid address is refused with the module's own
    [ErrInvalidSigner] and no write, an accepted request is what the query then
    answers, and no other key of the store changes. *)
Theorem example_UpdateParams_authority k req s r s' :
  UpdateParams k req s = (r, s') →
  (∀ a, StringToBytes (MsgUpdateParams_Authority req) = Ok a → a ≠ authority k →
     s' = s ∧ ∃ e, r = Err e ∧ errors_Is e ErrInvalidSigner = true) ∧
  (r = Ok MkMsgUpdateParamsResponse →
     StringToBytes (MsgUpdateParams_Authority req) = Ok (authority k) ∧
     Query_Params s' (Some MkQueryParamsRequest) =
       Ok (MkQueryParamsResponse (MsgUpdateParams_Params req))) ∧
  (∀ q a, q ++ a ≠ ParamsKey ++ [] → coll_get s' q a = coll_get s q a).
Proof.
  unfold UpdateParams, catch, lift, fail. intros Hr.
  destruct (StringToBytes _) as [a|e|v]; [|injection Hr as <- <-; done..].
  destruct (bytes_Equal _ _) eqn:Ea; cbn [negb] in Hr.
  - apply bytes_Equal_true in Ea. unfold GetAuthority in Ea. cbn [Params_Validate] in Hr.
    destruct (Params_Set _ s) as [[[]|e|v] s1] eqn:Es; injection Hr as <- <-;
      apply params_set_inv in Es as [Hg Hf]; (split_and!; [congruence| |done]); try done.
    intros _. split; [congruence|]. unfold Query_Params. by rewrite Hg.
  - injection Hr as <- <-. split_and!; [|done..]. intros a' [= <-] Hne. split; [done|].
    eexists. by split.
Qed.

(** The template module's genesis round trip: what a node exports after
    initialising from a document initialises another node to the same
    parameters. *)
Theorem example_genesis_roundtrip am gs s s' bz s2 s2' :
  AppModule_InitGenesis am gs s = (Ok tt, s') → AppModule_ExportGenesis am s' = Ok bz →
  AppModule_InitGenesis am bz s2 = (Ok tt, s2') →
  UnmarshalJSON bz = UnmarshalJSON gs ∧ Params_Get s2' = Params_Get s' ∧
  ValidateGenesis am bz = Ok tt.
Proof.
  unfold AppModule_InitGenesis, InitGenesis, catch, lift.
  destruct (UnmarshalJSON gs) as [g|e|v] eqn:Eg; [|done..].
  destruct (Params_Set (GenesisState_Params g) s) as [[[]|e|v] s1] eqn:Es; [|done..].
  intros [= <-]. apply params_set_inv in Es as [Hg _]. specialize (Hg eq_refl).
  unfold AppModule_ExportGenesis, ExportGenesis. rewrite Hg. cbn [catch_o].
  destruct (MarshalJSON _) as [b|e|v] eqn:Em; [|done..]. cbn [catch_o].
  intros E. assert (b = bz) as -> by congruence. apply JSON_roundtrip in Em. rewrite Em.
  cbn [GenesisState_Params]. destruct (Params_Set _ s2) as [[[]|e|v] s3] eqn:Es2; [|done..].
  intros [= <-]. apply params_set_inv in Es2 as [Hg2 _]. specialize (Hg2 eq_refl).
  split_and!; [by destruct g|congruence|]. unfold ValidateGenesis. by rewrite Em.
Qed.

End Theorems.

(** ** The properties at concrete inputs *)

Module Concrete.
Export MemStore ToyCodec.

#[export] Instance params_value : CollValue Params := {|
  value_encode := Params_Marshal;
  value_decode bz := match Params_Unmarshal bz Params_zero with
                     | (Ok _, p) => Ok p | (Err e, _) => Err e | (Panic v, _) => Panic v end
|}.

#[export] Instance params_value_laws : CollValueLaws Params.
Proof.
  split. intros p b. unfold value_encode, value_decode, params_value.
  pose proof (codec_ok (M:=Params) p [] fits_nil) as (Hm & Hu & _).
  change (Params_Marshal p = Ok (encoding p)) in Hm.
  change (Params_Unmarshal (encoding p) Params_zero = (Ok tt, p)) in Hu.
  intros E. assert (b = encoding p) as -> by congruence. by rewrite Hu.
Qed.

(** The document is the protobuf encoding. *)
#[export] Instance genesis_json : JSONCodec GenesisState := {|
  MarshalJSON := GenesisState_Marshal;
  UnmarshalJSON bz := match GenesisState_Unmarshal bz GenesisState_zero with
                      | (Ok _, g) => Ok g | (Err e, _) => Err e | (Panic v, _) => Panic v end
|}.

#[export] Instance genesis_json_laws : JSONCodecLaws GenesisState.
Proof.
  split. intros g b. unfold MarshalJSON, UnmarshalJSON, genesis_json.
  pose proof (codec_ok (M:=GenesisState) g [] eq_refl) as (Hm & Hu & _).
  change (GenesisState_Marshal g = Ok (encoding g)) in Hm.
  change (GenesisState_Unmarshal (encoding g) GenesisState_zero = (Ok tt, g)) in Hu.
  intros E. assert (b = encoding g) as -> by congruence. by rewrite Hu.
Qed.

Definition gov : bytes := str "module/gov".
Definition k0 : Keeper := {| authority := gov; Schema := collections_decl |}.
Definition am0 : AppModule := NewAppModule k0 (constant_AuthKeeper (S := store)) (constant_BankKeeper (S := store)).
Definition gov_req : MsgUpdateParams := MkMsgUpdateParams (hrp ++ gov) MkParams.
Definition alice_req : MsgUpdateParams := MkMsgUpdateParams (hrp ++ str "alice") MkParams.
Definition gov_store : store := (UpdateParams k0 gov_req MemStore.empty).2.
Definition genesis0 : bytes := match AppModule_DefaultGenesis am0 with Ok bz => bz | _ => [] end.
Definition store1 : store := (AppModule_InitGenesis am0 genesis0 MemStore.empty).2.
Definition exported : bytes := match AppModule_ExportGenesis am0 store1 with Ok bz => bz | _ => [] end.

End Concrete.

Section Witnesses.
Import Concrete.

Lemma example_UpdateParams_authority_witness :
  (∃ e, (UpdateParams k0 alice_req MemStore.empty).1 = Err e ∧ errors_Is e ErrInvalidSigner = true) ∧
  Query_Params gov_store (Some MkQueryParamsRequest) = Ok (MkQueryParamsResponse MkParams).
Proof.
  split.
  - refine (proj2 (proj1 (example_UpdateParams_authority k0 alice_req MemStore.empty
      (UpdateParams k0 alice_req MemStore.empty).1 (UpdateParams k0 alice_req MemStore.empty).2 _)
      (str "alice") _ _)); [apply surjective_pairing|vm_compute; reflexivity|by vm_compute].
  - refine (proj2 (proj1 (proj2 (example_UpdateParams_authority k0 gov_req MemStore.empty
      (Ok MkMsgUpdateParamsResponse) gov_store _)) _)); vm_compute; reflexivity.
Defined.

Lemma example_genesis_roundtrip_witness :
  UnmarshalJSON exported = UnmarshalJSON genesis0 ∧ Params_Get store1 = Params_Get store1 ∧
  ValidateGenesis am0 exported = Ok tt.
Proof.
  apply (example_genesis_roundtrip am0 genesis0 MemStore.empty store1 exported MemStore.empty store1);
    vm_compute; reflexivity.
Defined.

End Witnesses.
