(* ===== verification/Chain.v ===== *)
(** The secondary-keys subsystem as a state machine: a node starts from genesis
    and handles transactions, vote extensions, proposals and restarts in any
    order.  [baseapp] runs the handlers: it throws away what a failed or panicked
    message wrote, and it runs vote and proposal handlers on a branch of the
    state, which an event may keep or drop; the invariants hold either way. *)
From S2P Require Import Prelude Json Crypto Store Common Wire SkTypes Keeper.
From S2P Require Import AnteHandler VoteExtension AppModule.

#[local] Open Scope go_scope.

Section Chain.
Context {Store : Type} `{!Collections Store, !AddressCodec, !CollValue Params,
  !JSONCodec GenesisState, !Json.GoRuntime, !EthCrypto}.

Inductive event :=
| EvBroadcast (msg : MsgBroadcastData)
| EvUpdateParams (req : MsgUpdateParams)
| EvVerifyVote (req : RequestVerifyVoteExtension) (kept : bool)
| EvProcessProposal (req : RequestProcessProposal) (kept : bool)
| EvRestart.

(** The state after a message: kept when the handler returns. *)
Definition deliver {A} (m : GoM Store A) (n : Node Store) : Node Store :=
  let '(r, s') := m (KVStore n) in if is_Ok r then put_store s' n else n.

(** The state after a handler that runs on a branch. *)
Definition branch {A} (kept : bool) (m : GoM Store A) (n : Node Store) : Node Store :=
  if kept then put_store (m (KVStore n)).2 n else n.

Definition handle (k : Keeper) (e : event) (n : Node Store) : Node Store :=
  match e with
  | EvBroadcast msg => deliver (BroadcastData k msg) n
  | EvUpdateParams req => deliver (UpdateParams k req) n
  | EvVerifyVote req kept => branch kept (VerifyVoteExtensionHandler req) n
  | EvProcessProposal req kept => branch kept (ProcessProposal req) n
  | EvRestart => started (KVStore n)
  end.

(** A store nothing was written to. *)
Definition fresh (s : Store) : Prop := ∀ p k, coll_get s p k = Err ErrNotFound.

(** The states a node can be in, with the events that led there, last first. *)
Inductive reachable (am : AppModule) : list event → Node Store → Prop :=
| reach_genesis s generated gs n :
    fresh s → AppModule_InitGenesis am generated gs (started s) = (Ok tt, n) →
    reachable am [] n
| reach_event e tr n :
    reachable am tr n → reachable am (e :: tr) (handle (keeper am) e n).

(** ** What holds in every state *)

(** The broadcast [msg] proves possession of [pk] for [addr]. *)
Definition registers (msg : MsgBroadcastData) (addr pk : bytes) : Prop :=
  AccAddressFromBech32 (MsgBroadcastData_Sender msg) = Ok addr ∧
  ∃ sig, DecodeSecondSigFromMemo (mk (Trim (MsgBroadcastData_Data msg) (str "SECONDARY"))) = Ok sig ∧
    elems (PublicKey sig) = pk ∧ Validate sig = Ok tt ∧ proves_possession pk (elems (Signature sig)).

Record invariant (tr : list event) (n : Node Store) : Prop := {
  inv_ante : ∀ addr pk, coll_get (KVStore n) AnteHandlerMap addr = Ok pk →
    ∃ msg, EvBroadcast msg ∈ tr ∧ registers msg addr pk;
  inv_vote : ∀ addr pk, coll_get (KVStore n) VoteExtensionMap addr = Ok pk → recovered pk
}.

Context `{!CollectionsLaws Store, !CollValueLaws Params}.

Lemma invariant_weaken e tr n : invariant tr n → invariant (e :: tr) n.
Proof.
  intros [Ha Hv]. split; [|done]. intros addr pk (msg & ? & ?)%Ha. exists msg. split; [by right|done].
Qed.

Lemma invariant_tofu e tr n s' :
  invariant tr n → tofu (KVStore n) s' → invariant (e :: tr) (put_store s' n).
Proof.
  intros Hi [_ Hn Ha _]. apply (invariant_weaken e) in Hi as [Hia Hiv]. split; cbn.
  - intros addr pk. rewrite Ha. apply Hia.
  - intros addr pk [?|?]%Hn; [by eapply Hiv|done].
Qed.

Lemma invariant_branch {A} e tr kept (m : GoM Store A) n :
  tofu (KVStore n) (m (KVStore n)).2 → invariant tr n → invariant (e :: tr) (branch kept m n).
Proof.
  intros Ht Hi. destruct kept; [by apply invariant_tofu|by apply invariant_weaken].
Qed.

Lemma invariant_broadcast k msg tr n :
  invariant tr n → invariant (EvBroadcast msg :: tr) (deliver (BroadcastData k msg) n).
Proof.
  intros Hi. unfold deliver. destruct (BroadcastData k msg (KVStore n)) as [r s'] eqn:E.
  destruct (is_Ok r); [|by apply invariant_weaken].
  apply BroadcastData_effect in E as [->|(addr & sig & Ha & Hd & Hp & Hv & r' & Hs & _)].
  { apply (invariant_weaken (EvBroadcast msg)) in Hi as [Hia Hiv]. by split. }
  apply (invariant_weaken (EvBroadcast msg)) in Hi as [Hia Hiv]. split; cbn.
  - intros a pk Hg. destruct (set_get_inv _ _ _ _ _ _ _ _ Hs Hg) as [?|(_ & -> & ->)]; [by apply Hia|].
    exists msg. split; [left|]. split; [done|]. by exists sig.
  - intros a pk. rewrite (set_ante_vote _ _ _ _ _ a Hs). apply Hiv.
Qed.

Lemma invariant_update k req tr n :
  invariant tr n → invariant (EvUpdateParams req :: tr) (deliver (UpdateParams k req) n).
Proof.
  intros Hi. apply (invariant_weaken (EvUpdateParams req)) in Hi. unfold deliver.
  destruct (UpdateParams k req (KVStore n)) as [r s'] eqn:E. destruct (is_Ok r); [|done].
  pose proof (UpdateParams_maps _ _ _ _ _ E) as Em. destruct Hi as [Ha Hv]. split; cbn; intros a pk.
  - rewrite (proj1 (Em a)). apply Ha.
  - rewrite (proj2 (Em a)). apply Hv.
Qed.

Lemma invariant_handle k e tr n : invariant tr n → invariant (e :: tr) (handle k e n).
Proof.
  intros Hi. destruct e as [msg|req|req kept|req kept|]; cbn [handle].
  - by apply invariant_broadcast.
  - by apply invariant_update.
  - apply invariant_branch; [apply Verify_tofu|done].
  - apply invariant_branch; [apply ProcessProposal_tofu|done].
  - by apply (invariant_weaken EvRestart) in Hi as [Ha Hv].
Qed.

Lemma invariant_genesis am s generated gs n :
  fresh s → AppModule_InitGenesis am generated gs (started s) = (Ok tt, n) → invariant [] n.
Proof.
  intros Hf (prv & g & s' & _ & _ & Hi & ->)%InitGenesis_inv. cbn [KVStore started] in Hi.
  unfold InitGenesis in Hi. split; cbn; intros addr pk.
  - by rewrite (params_set_ante _ _ _ _ _ Hi), Hf.
  - by rewrite (params_set_vote _ _ _ _ _ Hi), Hf.
Qed.

Lemma reachable_inv am tr n : reachable am tr n → invariant tr n.
Proof.
  induction 1 as [s gen gs n Hf Hg|e tr n _ IH]; [by eapply invariant_genesis|].
  by apply invariant_handle.
Qed.

(** The parameters are there from genesis on. *)
Lemma params_kept k e n :
  (∃ p, Params_Get (KVStore n) = Ok p) → ∃ p, Params_Get (KVStore (handle k e n)) = Ok p.
Proof.
  intros Hp.
  assert (∀ s', coll_get s' ParamsKey [] = coll_get (KVStore n) ParamsKey [] →
    ∃ p, Params_Get s' = Ok p) as Hsame.
  { intros s' E. destruct Hp as [p Hp]. exists p. revert Hp. unfold Params_Get, item_get. by rewrite E. }
  destruct e as [msg|req|req kept|req kept|]; cbn [handle]; unfold deliver, branch; [| | | |done].
  - destruct (BroadcastData _ _ _) as [r s'] eqn:E. destruct (is_Ok r); [|done]. apply Hsame.
    apply BroadcastData_effect in E as [->|(a & sig & _ & _ & _ & _ & r' & Hs & _)]; [done|].
    exact (set_ante_params _ _ _ _ _ Hs).
  - destruct (UpdateParams _ _ _) as [[x|e|v] s'] eqn:E; cbn [is_Ok]; [|done..].
    apply UpdateParams_stored in E. by eexists.
  - destruct kept; [|done]. apply Hsame, (tofu_params _ _ (Verify_tofu req (KVStore n))).
  - destruct kept; [|done]. apply Hsame, (tofu_params _ _ (ProcessProposal_tofu req (KVStore n))).
Qed.

Lemma params_reachable am tr n : reachable am tr n → ∃ p, Params_Get (KVStore n) = Ok p.
Proof.
  induction 1 as [s gen gs n Hf Hg|e tr n _ IH]; [|by apply params_kept].
  apply InitGenesis_inv in Hg as (prv & g & s' & _ & _ & Hi & ->).
  apply params_set_get in Hi. by eexists.
Qed.

(** Validators' keys over any further events. *)
Lemma vote_key_kept k e n addr pk :
  coll_get (KVStore n) VoteExtensionMap addr = Ok pk →
  coll_get (KVStore (handle k e n)) VoteExtensionMap addr = Ok pk.
Proof.
  intros Hg. destruct e as [msg|req|req kept|req kept|]; cbn [handle]; unfold deliver, branch.
  - destruct (BroadcastData _ _ _) as [r s'] eqn:E. destruct (is_Ok r); [|done]. cbn.
    apply BroadcastData_effect in E as [->|(a & sig & _ & _ & _ & _ & r' & Hs & _)]; [done|].
    by rewrite (set_ante_vote _ _ _ _ _ addr Hs).
  - destruct (UpdateParams _ _ _) as [r s'] eqn:E. destruct (is_Ok r); [|done]. cbn.
    pose proof (UpdateParams_maps _ _ _ _ _ E) as Em. by rewrite (proj2 (Em addr)).
  - destruct kept; [|done]. cbn. by apply (tofu_keeps _ _ (Verify_tofu req (KVStore n))).
  - destruct kept; [|done]. cbn. by apply (tofu_keeps _ _ (ProcessProposal_tofu req (KVStore n))).
  - done.
Qed.

End Chain.

(** ** Properties *)

Section Theorems.
Context {Store : Type} `{!Collections Store, !CollectionsLaws Store, !AddressCodec,
  !CollValue Params, !CollValueLaws Params, !JSONCodec GenesisState, !Json.GoRuntime, !EthCrypto}.
Implicit Types (n : Node Store) (am : AppModule).

(** C1. In every state a node can reach, whatever transactions, votes, proposals
    and restarts led there, an account's registered key comes from a broadcast
    of that account that proved possession of the key, and a validator's key is
    one that some signature recovers to. *)
Theorem reachable_keys am tr n :
  reachable am tr n →
  (∀ addr pk, coll_get (KVStore n) AnteHandlerMap addr = Ok pk →
     ∃ msg, EvBroadcast msg ∈ tr ∧ registers msg addr pk) ∧
  (∀ addr pk, coll_get (KVStore n) VoteExtensionMap addr = Ok pk → recovered pk).
Proof. intros [Ha Hv]%reachable_inv. by split. Qed.

(** C2. In every reachable state, a transaction with a marked memo that the
    decorator lets through is signed first by an account that broadcast, some
    time before, a proof of possession of the very key in the memo. *)
Theorem accepted_memo_was_registered am tr n tx m simulate next :
  reachable am tr n → memoTx tx = Some (AnteHandlerPrefix ++ m) →
  is_Ok (AnteHandle (KVStore (Store := Store)) tx simulate next n).1 = true →
  ∃ addr sig msg, GetAddr tx = Ok addr ∧ DecodeSecondSigFromMemo (mk m) = Ok sig ∧
    EvBroadcast msg ∈ tr ∧ registers msg addr (elems (PublicKey sig)).
Proof.
  intros [Hi _]%reachable_inv Hm Ha%(AnteHandle_Ok KVStore tx simulate next n).
  destruct Ha as (memo & E & Hc). rewrite Hm in E.
  assert (memo = AnteHandlerPrefix ++ m) as -> by congruence.
  destruct Hc as [Hu|(m' & Em & sig & addr & Hd & Hv & Ha & Hg & Hp)].
  - unfold unmarked in Hu. by rewrite CutPrefix_marked in Hu.
  - apply app_inv_head in Em as <-. apply Hi in Hg as (msg & Hin & Hr).
    by exists addr, sig, msg.
Qed.

(** C24. A validator's key never changes: on any store, once registered it is the
    key of every later state, so every extension of that validator accepted later is signed
    with it. *)
Theorem validator_key_forever `{!EthCryptoLaws good} k n addr pk evs :
  coll_get (KVStore n) VoteExtensionMap addr = Ok pk →
  let n' := foldl (fun n e => handle k e n) n evs in
  coll_get (KVStore n') VoteExtensionMap addr = Ok pk ∧
  (∀ req s', Verify_ValidatorAddress req = addr →
     VerifyVoteExtensionHandler req (KVStore n') = (Ok VERIFY_ACCEPT, s') →
     ∃ v, decode_vote_extension (Verify_VoteExtension req) = Ok v ∧
       VerifySignature pk (Verify_Hash req)
         (take 64 (elems (VoteExt_Signature v) ++ spare (VoteExt_Signature v))) = true).
Proof.
  intros Hg. cbv zeta.
  assert (coll_get (KVStore (foldl (fun n e => handle k e n) n evs)) VoteExtensionMap addr
          = Ok pk) as Hk.
  { revert n Hg. induction evs as [|e evs IH]; intros n Hg; [done|]. cbn [foldl].
    by apply IH, vote_key_kept. }
  split; [done|]. intros req s' <- Hacc.
  destruct (Verify_accepted req _ _ Hacc) as (v & pk' & Hd & _ & Hs & Hkeep).
  exists v. split; [done|]. by rewrite <-(Hkeep pk Hk).
Qed.

(** C8. The store is well typed in every reachable state: the parameters decode,
    every validator's key is a serialized key of 65 bytes, and no account's key is
    empty. *)
Theorem reachable_well_typed `{!EthCryptoLaws good} am tr n :
  reachable am tr n →
  (∃ p, Params_Get (KVStore n) = Ok p) ∧
  (∀ addr pk, coll_get (KVStore n) VoteExtensionMap addr = Ok pk → length pk = 65) ∧
  (∀ addr pk, coll_get (KVStore n) AnteHandlerMap addr = Ok pk → pk ≠ []).
Proof.
  intros Hr. split; [by eapply params_reachable|]. apply reachable_inv in Hr as [Ha Hv].
  split; intros addr pk.
  - intros (h & sig & key & E & ->)%Hv. by apply (recovered_length _ _ _ E).
  - intros (msg & _ & _ & sig & _ & _ & _ & Hp)%Ha. by apply Verify_pubkey in Hp.
Qed.

End Theorems.

(** ** The properties at concrete inputs *)

Section Witnesses.
Import Concrete ToyJSON.

(** Genesis, alice's broadcast, then the validator's first vote extension and a
    restart. *)
Definition events : list event :=
  [EvRestart; EvVerifyVote (verify_req (extension val_key)) true; EvBroadcast alice_msg].
Definition node3 : Node store := foldr (handle k0) node1 events.

Lemma events_reachable : reachable am0 events node3.
Proof.
  change (reachable am0 events
    (handle (keeper am0) EvRestart
      (handle (keeper am0) (EvVerifyVote (verify_req (extension val_key)) true)
        (handle (keeper am0) (EvBroadcast alice_msg) node1)))).
  do 3 apply reach_event. apply (reach_genesis am0 MemStore.empty (Ok val_key) genesis0 node1).
  - done.
  - vm_compute. reflexivity.
Qed.

Lemma reachable_keys_witness :
  coll_get (KVStore node3) AnteHandlerMap alice = Ok alice_pub ∧
  (∃ msg, EvBroadcast msg ∈ events ∧ registers msg alice alice_pub) ∧
  coll_get (KVStore node3) VoteExtensionMap val1 = Ok val_pub ∧ recovered val_pub.
Proof.
  assert (coll_get (KVStore node3) AnteHandlerMap alice = Ok alice_pub) as E1
    by (vm_compute; reflexivity).
  assert (coll_get (KVStore node3) VoteExtensionMap val1 = Ok val_pub) as E2
    by (vm_compute; reflexivity).
  destruct (reachable_keys am0 events node3 events_reachable) as [H1 H2].
  split; [exact E1|]. split; [exact (H1 alice alice_pub E1)|]. split; [exact E2|].
  exact (H2 val1 val_pub E2).
Defined.

Lemma accepted_memo_was_registered_witness :
  ∃ addr sig msg, GetAddr alice_tx = Ok addr ∧
    DecodeSecondSigFromMemo (mk (drop 9 alice_memo)) = Ok sig ∧
    EvBroadcast msg ∈ events ∧ registers msg addr (elems (PublicKey sig)).
Proof.
  apply (accepted_memo_was_registered am0 events node3 alice_tx (drop 9 alice_memo) false
    (fun _ _ => mret tt) events_reachable); vm_compute; reflexivity.
Defined.

Lemma validator_key_forever_witness :
  coll_get (KVStore (handle k0 (EvVerifyVote (verify_req (extension other_key)) true) node3))
    VoteExtensionMap val1 = Ok val_pub.
Proof.
  apply (validator_key_forever k0 node3 val1 val_pub
    [EvVerifyVote (verify_req (extension other_key)) true]).
  vm_compute. reflexivity.
Defined.

Lemma reachable_well_typed_witness :
  (∃ p, Params_Get (KVStore node3) = Ok p) ∧ length val_pub = 65 ∧ alice_pub ≠ [].
Proof.
  destruct (reachable_well_typed am0 events node3 events_reachable) as (Hp & Hv & Ha).
  split; [exact Hp|]. split; [apply (Hv val1)|apply (Ha alice)]; vm_compute; reflexivity.
Defined.

End Witnesses.
