(* ===== verification/Registry.v ===== *)
(** What the secondary-keys subsystem promises, without stores, encodings of the
    state or error paths: a registry that maps accounts and validators to keys,
    with one transition function per event and one answer per question.  The
    chain of [Chain], on a store that works, refines it. *)
From S2P Require Import Prelude Json Crypto Store Common Wire SkTypes Keeper.
From S2P Require Import AnteHandler VoteExtension AppModule Chain.

#[local] Open Scope go_scope.

(** ** The registry *)

Record registry := { accounts : bytes → option bytes; validators : bytes → option bytes }.

#[export] Instance registry_equiv : Equiv registry := λ r r',
  (∀ a, accounts r a = accounts r' a) ∧ (∀ a, validators r a = validators r' a).

#[export] Instance registry_equivalence : Equivalence (≡@{registry}).
Proof.
  split.
  - by intros r.
  - intros r r' [Ha Hv]. by split.
  - intros r1 r2 r3 [A1 V1] [A2 V2]. split; intros a; [by rewrite A1|by rewrite V1].
Qed.

#[export] Instance accounts_proper : Proper ((≡) ==> (=) ==> (=)) accounts.
Proof. intros r r' [Ha _] a ? <-. apply Ha. Qed.
#[export] Instance validators_proper : Proper ((≡) ==> (=) ==> (=)) validators.
Proof. intros r r' [_ Hv] a ? <-. apply Hv. Qed.

Definition update (f : bytes → option bytes) (k v : bytes) : bytes → option bytes :=
  λ k', if decide (k' = k) then Some v else f k'.

Definition register (addr pk : bytes) (r : registry) : registry :=
  {| accounts := update (accounts r) addr pk; validators := validators r |}.

(** A validator's first key stays. *)
Definition learn (addr pk : bytes) (r : registry) : registry :=
  match validators r addr with
  | Some _ => r
  | None => {| accounts := accounts r; validators := update (validators r) addr pk |}
  end.

#[export] Instance register_proper : Proper ((=) ==> (=) ==> (≡) ==> (≡)) register.
Proof.
  intros a ? <- pk ? <- r r' [Ha Hv]. split; [|done]. intros b. cbn. unfold update.
  by rewrite Ha.
Qed.
#[export] Instance learn_proper : Proper ((=) ==> (=) ==> (≡) ==> (≡)) learn.
Proof.
  intros a ? <- pk ? <- r r' [Ha Hv]. unfold learn. rewrite <-Hv.
  destruct (validators r a); [done|]. split; [done|]. intros b. cbn. unfold update. by rewrite Hv.
Qed.

Section Registry.
Context `{!AddressCodec, !Json.GoRuntime, !EthCrypto}.

(** The account and the key a broadcast proves, if it proves one. *)
Definition registration (msg : MsgBroadcastData) : option (bytes * bytes) :=
  match StringToBytes (MsgBroadcastData_Sender msg),
        DecodeSecondSigFromMemo (mk (Trim (MsgBroadcastData_Data msg) (str "SECONDARY"))),
        AccAddressFromBech32 (MsgBroadcastData_Sender msg) with
  | Ok _, Ok sig, Ok addr =>
      if is_Ok (Validate sig) &&
         VerifySignature (elems (PublicKey sig)) (Keccak256 (elems (PublicKey sig)))
           (elems (Signature sig))
      then Some (addr, elems (PublicKey sig)) else None
  | _, _, _ => None
  end.

(** What a verified extension teaches. *)
Definition learn_vote (req : RequestVerifyVoteExtension) (r : registry) : registry :=
  match decode_vote_extension (Verify_VoteExtension req) with
  | Ok v =>
      match SigToPub (Verify_Hash req) (elems (VoteExt_Signature v)) with
      | Ok key => learn (Verify_ValidatorAddress req) (FromECDSAPub (Some key)) r
      | _ => r
      end
  | _ => r
  end.

(** What a proposal teaches: everything up to the first bad signature. *)
Fixpoint learn_signatures (hash : bytes) (l : list ValidatorSignature) (r : registry) : registry :=
  match l with
  | [] => r
  | v :: l =>
      match SigToPub hash (elems (ValSig_Signature v)) with
      | Ok key => learn_signatures hash l (learn (elems (ValidatorAddress v)) (FromECDSAPub (Some key)) r)
      | _ => r
      end
  end.

Definition learn_proposal (req : RequestProcessProposal) (r : registry) : registry :=
  match Process_Txs req with
  | [] => r
  | tx :: _ =>
      match decode_injected tx with
      | Ok t => learn_signatures (Process_HeaderHash req) (elems (ValidatorSignatures t)) r
      | _ => r
      end
  end.

Definition step (r : registry) (e : event) : registry :=
  match e with
  | EvBroadcast msg =>
      match registration msg with Some (addr, pk) => register addr pk r | None => r end
  | EvVerifyVote req true => learn_vote req r
  | EvProcessProposal req true => learn_proposal req r
  | _ => r
  end.

(** ** Its answers *)

(** Whether a transaction may pass. *)
Definition admits (r : registry) (tx : Tx) : Prop :=
  ∃ memo, memoTx tx = Some memo ∧
    (unmarked memo ∨
     ∃ m sig addr, memo = AnteHandlerPrefix ++ m ∧
       DecodeSecondSigFromMemo (mk m) = Ok sig ∧ Validate sig = Ok tt ∧ GetAddr tx = Ok addr ∧
       accounts r addr = Some (elems (PublicKey sig)) ∧
       proves_possession (elems (PublicKey sig)) (elems (Signature sig))).

(** The answer to a vote extension: the check against the validator's key, or
    against the one its signature gives. *)
Definition answer (r : registry) (req : RequestVerifyVoteExtension) : outcome VerifyStatus :=
  let check pk sig :=
    sig64 ← reslice sig 64;
    Ok (if VerifySignature pk (Verify_Hash req) (elems sig64) then VERIFY_ACCEPT else VERIFY_REJECT) in
  match decode_vote_extension (Verify_VoteExtension req) with
  | Ok v =>
      match validators r (Verify_ValidatorAddress req) with
      | Some pk => check pk (VoteExt_Signature v)
      | None =>
          match SigToPub (Verify_Hash req) (elems (VoteExt_Signature v)) with
          | Ok key => check (FromECDSAPub (Some key)) (VoteExt_Signature v)
          | Err _ => Ok VERIFY_REJECT
          | Panic p => Panic p
          end
      end
  | Err _ => Ok VERIFY_REJECT
  | Panic p => Panic p
  end.

#[export] Instance learn_vote_proper : Proper ((=) ==> (≡) ==> (≡)) learn_vote.
Proof.
  intros req ? <- r r' Hr. unfold learn_vote. destruct (decode_vote_extension _); [|done..].
  destruct (SigToPub _ _); [|done..]. by rewrite Hr.
Qed.
#[export] Instance learn_signatures_proper : Proper ((=) ==> (=) ==> (≡) ==> (≡)) learn_signatures.
Proof.
  intros h ? <- l ? <-. induction l as [|v l IH]; intros r r' Hr; cbn; [done|].
  destruct (SigToPub _ _); [|done..]. apply IH. by rewrite Hr.
Qed.
#[export] Instance step_proper : Proper ((≡) ==> (=) ==> (≡)) step.
Proof.
  intros r r' Hr e ? <-. destruct e as [msg| |req []|req []|]; cbn; try done.
  - destruct (registration msg) as [[]|]; [|done]. by rewrite Hr.
  - by rewrite Hr.
  - unfold learn_proposal. destruct (Process_Txs req); [done|].
    destruct (decode_injected _); [|done..]. by rewrite Hr.
Qed.
#[export] Instance admits_proper : Proper ((≡) ==> (=) ==> iff) admits.
Proof. intros r r' [Ha _] tx ? <-. unfold admits. by setoid_rewrite Ha. Qed.
#[export] Instance answer_proper : Proper ((≡) ==> (=) ==> (=)) answer.
Proof. intros r r' [_ Hv] req ? <-. unfold answer. destruct (decode_vote_extension _); [|done..]. by rewrite Hv. Qed.

End Registry.

(** ** The chain refines it *)

Section Refinement.
Context {Store : Type} `{!Collections Store, !CollectionsLaws Store, !AddressCodec,
  !CollValue Params, !Json.GoRuntime, !EthCrypto}.
Implicit Types (s : Store) (n : Node Store).

(** The registry a store holds. *)
Definition abs s : registry := {|
  accounts a := ok_value (coll_get s AnteHandlerMap a);
  validators a := ok_value (coll_get s VoteExtensionMap a)
|}.

(** A write is an update of the map that was written. *)
Lemma ok_value_set p k v s s' k' :
  coll_set p k v s = (Ok tt, s') →
  ok_value (coll_get s' p k') = update (fun a => ok_value (coll_get s p a)) k v k'.
Proof.
  intros Hs. unfold update. case_decide as E.
  - subst k'. by rewrite (set_get _ _ _ _ _ Hs).
  - by rewrite (set_get_other_key p k k' v s _ s' (not_eq_sym E) Hs).
Qed.

Lemma abs_register addr pk s s' :
  coll_set AnteHandlerMap addr pk s = (Ok tt, s') → abs s' ≡ register addr pk (abs s).
Proof.
  intros Hs. split; intros a; cbn.
  - by apply ok_value_set.
  - by rewrite (set_ante_vote _ _ _ _ _ a Hs).
Qed.

Lemma abs_learn addr pk s s' :
  coll_has s VoteExtensionMap addr = Ok false → coll_set VoteExtensionMap addr pk s = (Ok tt, s') →
  abs s' ≡ learn addr pk (abs s).
Proof.
  intros Hh Hs. unfold learn. cbn. rewrite (has_false _ _ _ Hh). split; intros a; cbn.
  - by rewrite (set_vote_ante _ _ _ _ _ a Hs).
  - by apply ok_value_set.
Qed.

Lemma abs_known addr pk s :
  coll_has s VoteExtensionMap addr = Ok true → learn addr pk (abs s) = abs s.
Proof. intros [v E]%has_true. unfold learn. cbn. by rewrite E. Qed.

Lemma has_Ok_get s p k b :
  coll_has s p k = Ok b → ok_value (coll_get s p k) = None ↔ b = false.
Proof.
  destruct b.
  - intros [v ->]%has_true. done.
  - by intros ->%has_false.
Qed.

Variable W : Store → Prop.
Hypothesis HW : working W.

Lemma refine_broadcast k msg s :
  W s →
  let '(r, s') := BroadcastData k msg s in
  let s1 := if is_Ok r then s' else s in
  W s1 ∧ abs s1 ≡ match registration msg with
                  | Some (addr, pk) => register addr pk (abs s) | None => abs s end.
Proof.
  intros Hs. unfold BroadcastData, registration, catch, lift.
  cbn [MsgBroadcastData_Sender MsgBroadcastData_Data].
  destruct (StringToBytes _); [|done..].
  destruct (DecodeSecondSigFromMemo _) as [sig|?|?]; [|done..].
  destruct (Validate sig) as [[]|?|?]; [|by destruct (AccAddressFromBech32 _)..].
  cbn [is_Ok andb].
  destruct (VerifySignature _ _ _); [|by destruct (AccAddressFromBech32 _)].
  destruct (AccAddressFromBech32 _) as [addr|?|?]; [|done..].
  destruct (HW s Hs) as [_ Hset].
  destruct (Hset AnteHandlerMap addr (elems (PublicKey sig))) as (s' & Es & Hs').
  unfold SetSecondaryPubKeyAnteHandler. rewrite Es. split; [done|]. by apply abs_register.
Qed.

Lemma W_item_set p (v : Params) s : W s → W (item_set p v s).2.
Proof.
  intros Hs. unfold item_set, mbind, gom_bind, lift. destruct (value_encode v); [|done..].
  destruct (HW s Hs) as [_ Hset]. by destruct (Hset p [] a) as (s' & -> & ?).
Qed.

Lemma W_update k req s : W s → W (UpdateParams k req s).2.
Proof.
  intros Hs. unfold UpdateParams, catch, lift. destruct (StringToBytes _); [|done..].
  destruct (negb _); [done|]. cbn [Params_Validate].
  pose proof (W_item_set ParamsKey (MsgUpdateParams_Params req) s Hs) as H'.
  unfold Params_Set. by destruct (item_set _ _ s) as [[] ?].
Qed.

(** Learning a key, as both vote handlers do it. *)
Lemma refine_learn addr key s :
  W s → coll_has s VoteExtensionMap addr = Ok false →
  ∃ s', coll_set VoteExtensionMap addr key s = (Ok tt, s') ∧ W s' ∧
    abs s' ≡ learn addr key (abs s).
Proof.
  intros Hs Hf. destruct (HW s Hs) as [_ Hset].
  destruct (Hset VoteExtensionMap addr key) as (s' & Es & Hs').
  exists s'. split_and!; [done..|]. by apply abs_learn.
Qed.

Lemma refine_signatures `{!EthCryptoLaws good} h l s :
  W s →
  let s' := (process_signatures h l s).2 in W s' ∧ abs s' ≡ learn_signatures h l (abs s).
Proof.
  revert s. induction l as [|v l IH]; intros s Hs; cbn [process_signatures learn_signatures]; [done|].
  unfold catch, lift, reads. destruct (SigToPub _ _) as [key|e|p]; [|done..].
  destruct (HW s Hs) as [Hhas _].
  destruct (Hhas VoteExtensionMap (elems (ValidatorAddress v))) as [[] Eh]; rewrite Eh; cbn [negb].
  - rewrite abs_known by done. by apply IH.
  - destruct (refine_learn _ (FromECDSAPub (Some key)) s Hs Eh) as (s1 & -> & Hw & Ha).
    destruct (IH s1 Hw) as [Hw2 Ha2]. split; [done|]. by rewrite Ha2, Ha.
Qed.

(** The end of the verification, against the key the registry knows. *)
Lemma refine_registered req sig pk s :
  coll_get s VoteExtensionMap (Verify_ValidatorAddress req) = Ok pk →
  verify_registered req sig s =
    (sig64 ← reslice sig 64;
     Ok (if VerifySignature pk (Verify_Hash req) (elems sig64) then VERIFY_ACCEPT else VERIFY_REJECT), s).
Proof.
  intros Hg. unfold verify_registered, ignore_error, catch, reads, lift, mbind, gom_bind.
  rewrite Hg. cbn [mret gom_ret]. destruct (reslice sig 64) as [g|e|p]; [|done..].
  cbn [outcome_bind]. by destruct (VerifySignature _ _ _).
Qed.

Lemma refine_verify `{!EthCryptoLaws good} req s :
  W s →
  let '(r, s') := VerifyVoteExtensionHandler req s in
  r = answer (abs s) req ∧ W s' ∧ abs s' ≡ learn_vote req (abs s).
Proof.
  intros Hs. unfold VerifyVoteExtensionHandler, answer, learn_vote, catch, lift, reads.
  destruct (decode_vote_extension _) as [v|e|p]; [|done..].
  destruct (HW s Hs) as [Hhas _].
  destruct (Hhas VoteExtensionMap (Verify_ValidatorAddress req)) as [[] Eh]; rewrite Eh; cbn [negb].
  - destruct (has_true _ _ _ Eh) as [pk Eg].
    rewrite (refine_registered _ _ pk _ Eg). cbn [abs validators]. rewrite Eg. cbn [ok_value].
    split; [done|]. split; [done|].
    destruct (SigToPub _ _); [|done..]. by rewrite abs_known.
  - cbn [abs validators]. rewrite (has_false _ _ _ Eh). cbn [ok_value].
    destruct (SigToPub _ _) as [key|e|p]; [|done..].
    destruct (refine_learn _ (FromECDSAPub (Some key)) s Hs Eh) as (s1 & Es & Hw & Ha).
    unfold mbind, gom_bind, ignore_error, catch. rewrite Es. cbn [mret gom_ret].
    rewrite (refine_registered _ _ _ _ (set_get _ _ _ _ _ Es)). done.
Qed.

Lemma refine_proposal `{!EthCryptoLaws good} req s :
  W s →
  let s' := (ProcessProposal req s).2 in W s' ∧ abs s' ≡ learn_proposal req (abs s).
Proof.
  intros Hs. unfold ProcessProposal, learn_proposal, catch, lift.
  destruct (Process_Txs req) as [|tx txs]; [done|]. destruct (decode_injected tx) as [t|?|?]; [|done..].
  case_decide as Hl.
  - unfold len in Hl. by destruct (elems (ValidatorSignatures t)).
  - by apply refine_signatures.
Qed.

(** One event of the chain is one step of the registry. *)
Lemma refine_step `{!EthCryptoLaws good} k e n :
  W (KVStore n) →
  let s' := KVStore (handle k e n) in W s' ∧ abs s' ≡ step (abs (KVStore n)) e.
Proof.
  intros Hn. destruct e as [msg|req|req kept|req kept|]; cbn [handle step]; unfold deliver, branch.
  - pose proof (refine_broadcast k msg _ Hn) as Hb.
    destruct (BroadcastData k msg _) as [r s']. by destruct (is_Ok r).
  - pose proof (W_update k req _ Hn) as Hu.
    destruct (UpdateParams k req _) as [r s'] eqn:E. destruct (is_Ok r); [|done]. split; [done|].
    pose proof (UpdateParams_maps _ _ _ _ _ E) as Em.
    split; intros a; cbn; [by rewrite (proj1 (Em a))|by rewrite (proj2 (Em a))].
  - destruct kept; [|done]. pose proof (refine_verify req _ Hn) as Hv.
    destruct (VerifyVoteExtensionHandler req _) as [r s']. by destruct Hv as (_ & ? & ?).
  - destruct kept; [|done]. by apply refine_proposal.
  - done.
Qed.

Lemma refine_steps `{!EthCryptoLaws good} k evs n :
  W (KVStore n) →
  let s' := KVStore (foldl (fun n e => handle k e n) n evs) in
  W s' ∧ abs s' ≡ foldl step (abs (KVStore n)) evs.
Proof.
  cbv zeta. revert n. induction evs as [|e evs IH]; intros n Hn; [done|]. cbn [foldl].
  destruct (refine_step k e n Hn) as [Hw He]. destruct (IH _ Hw) as [Hw' Hr]. split; [done|].
  rewrite Hr. clear -He. revert He. generalize (abs (KVStore (handle k e n))) (step (abs (KVStore n)) e).
  induction evs as [|e' evs IH]; intros r r' He; [done|]. cbn [foldl]. apply IH. by rewrite He.
Qed.

Lemma authorized_admits s tx : authorized s tx ↔ admits (abs s) tx.
Proof.
  unfold authorized, admits, carries_registered_key. cbn [abs accounts].
  setoid_rewrite ok_value_Some. naive_solver.
Qed.

End Refinement.

(** ** Keys over time *)

Section Steps.
Context `{!AddressCodec, !Json.GoRuntime, !EthCrypto}.

(** The event registers nothing for the account but this key. *)
Definition leaves (addr pk : bytes) (e : event) : Prop :=
  ∀ msg pk', e = EvBroadcast msg → registration msg = Some (addr, pk') → pk' = pk.

Lemma accounts_learn a pk r : accounts (learn a pk r) = accounts r.
Proof. unfold learn. by destruct (validators r a). Qed.

Lemma accounts_signatures h l r : accounts (learn_signatures h l r) = accounts r.
Proof.
  revert r. induction l as [|v l IH]; intros r; cbn; [done|].
  destruct (SigToPub _ _); [|done..]. by rewrite IH, accounts_learn.
Qed.

Lemma step_leaves addr pk e r :
  leaves addr pk e → accounts r addr = Some pk → accounts (step r e) addr = Some pk.
Proof.
  intros Hl Hr. destruct e as [msg| |req []|req []|]; cbn [step]; try done.
  - destruct (registration msg) as [[a k]|] eqn:E; [|done]. cbn. unfold update. case_decide; [|done].
    subst a. by rewrite (Hl msg k eq_refl E).
  - unfold learn_vote. destruct (decode_vote_extension _); [|done..].
    destruct (SigToPub _ _); [|done..]. by rewrite accounts_learn.
  - unfold learn_proposal. destruct (Process_Txs req); [done|].
    destruct (decode_injected _); [|done..]. by rewrite accounts_signatures.
Qed.

Lemma steps_leave addr pk evs r :
  Forall (leaves addr pk) evs → accounts r addr = Some pk →
  accounts (foldl step r evs) addr = Some pk.
Proof.
  intros Hl. revert r. induction Hl as [|e evs He _ IH]; intros r Hr; [done|].
  cbn [foldl]. apply IH. by apply step_leaves.
Qed.

End Steps.

(** ** Properties *)

Section Theorems.
Context {Store : Type} `{!Collections Store, !CollectionsLaws Store, !AddressCodec,
  !CollValue Params, !Json.GoRuntime, !EthCrypto, !EthCryptoLaws good}.
Implicit Types (n : Node Store) (next : AnteHandlerFn (Node Store)).

(** C3. The chain refines the registry.  From any node whose store works, after
    any broadcasts, parameter updates, votes, proposals and restarts, the keys in
    the store are the ones the registry has after the same events; the decorator
    lets through exactly the transactions the registry admits; and a vote
    extension gets the registry's answer. *)
Theorem chain_refines_registry (W : Store → Prop) k n evs :
  working W → W (KVStore n) →
  let n' := foldl (fun n e => handle k e n) n evs in
  let r := foldl step (abs (KVStore n)) evs in
  abs (KVStore n') ≡ r ∧
  (∀ tx simulate next,
     (admits r tx → AnteHandle KVStore tx simulate next n' = next tx simulate n') ∧
     (¬ admits r tx →
        ∃ res, AnteHandle KVStore tx simulate next n' = (res, n') ∧ is_Ok res = false)) ∧
  (∀ req, (VerifyVoteExtensionHandler req (KVStore n')).1 = answer r req).
Proof.
  intros HW Hn. cbv zeta. destruct (refine_steps W HW k evs n Hn) as [Hw Ha].
  split; [done|]. split.
  - intros tx simulate next. rewrite <-Ha, <-authorized_admits.
    split; [by apply AnteHandle_pass|by apply AnteHandle_block].
  - intros req. rewrite <-Ha. pose proof (refine_verify W HW req _ Hw) as Hv.
    destruct (VerifyVoteExtensionHandler req _). by destruct Hv.
Qed.

(** C4. An account always gets its transactions through in the end: from any
    state of a store that works, once it has broadcast the memo [CreateValidMemo]
    makes with its key, every transaction it signs first with that memo passes
    the decorator, whatever happens in between, as long as it registers no other
    key. *)
Theorem memo_stays_accepted (W : Store → Prop) k n sk sender a addr memo evs tx simulate next :
  working W → W (KVStore n) → good sk →
  StringToBytes sender = Ok a → AccAddressFromBech32 sender = Ok addr →
  CreateValidMemo (Ok sk) = Ok memo →
  Forall (leaves addr (FromECDSAPub (Some (PublicKeyOf sk)))) evs →
  memoTx tx = Some memo → GetAddr tx = Ok addr →
  let n' := foldl (fun n e => handle k e n) n (EvBroadcast (MkMsgBroadcastData sender memo) :: evs) in
  AnteHandle KVStore tx simulate next n' = next tx simulate n'.
Proof.
  intros HW Hn Hk Ha Haddr Hm Hl Hmemo Htx n'.
  destruct (own_memo sk memo Hk Hm) as (m & t & Em & Et & Ed & Hval & Ep & Hv).
  destruct (refine_steps W HW k (EvBroadcast (MkMsgBroadcastData sender memo) :: evs) n Hn) as [_ Hr].
  fold n' in Hr. refine (AnteHandle_pass KVStore tx simulate next n' _).
  apply (authorized_admits (KVStore n') tx). rewrite Hr. exists memo. split; [done|]. right.
  exists m, t, addr. split_and!; try done. rewrite Ep. cbn [foldl].
  apply steps_leave; [done|]. cbn [step]. unfold registration.
  cbn [MsgBroadcastData_Sender MsgBroadcastData_Data]. rewrite Ha, Et, Ed, Haddr, Hval.
  unfold proves_possession in Hv. rewrite Hv. cbn. unfold update. by rewrite decide_True, Ep.
Qed.

End Theorems.

(** ** The properties at concrete inputs *)

Section Witnesses.
Import Concrete ToyJSON.

(** Alice's broadcast, the validator's first extension, one made with another
    key, and a restart. *)
Definition history : list event :=
  [EvBroadcast alice_msg; EvVerifyVote (verify_req (extension val_key)) true;
   EvVerifyVote (verify_req (extension other_key)) true; EvRestart].

Lemma chain_refines_registry_witness :
  let n' := foldl (fun n e => handle k0 e n) node1 history in
  let r := foldl step (abs (KVStore node1)) history in
  accounts r alice = Some alice_pub ∧ validators r val1 = Some val_pub ∧
  AnteHandle KVStore alice_tx false terminator n' = (Ok tt, n') ∧
  answer r (verify_req (extension other_key)) = Ok VERIFY_REJECT.
Proof.
  assert (mem_works (KVStore node1)) as Hn by (split; vm_compute; reflexivity).
  destruct (chain_refines_registry mem_works k0 node1 history mem_working Hn) as ([Ra Rv] & Hc & Hq).
  split; [vm_compute; reflexivity|]. split; [vm_compute; reflexivity|]. split.
  - refine (proj1 (Hc alice_tx false terminator) _).
    exists alice_memo. split; [reflexivity|]. right. exists (drop 9 alice_memo).
    eexists _, alice. split_and!; vm_compute; reflexivity.
  - rewrite <-Hq. vm_compute. reflexivity.
Defined.

Lemma memo_stays_accepted_witness :
  let n' := foldl (fun n e => handle k0 e n) node1 history in
  AnteHandle KVStore alice_tx false terminator n' = (Ok tt, n').
Proof.
  assert (mem_works (KVStore node1)) as Hn by (split; vm_compute; reflexivity).
  assert (StringToBytes alice_bech32 = Ok alice) as Ha by (vm_compute; reflexivity).
  assert (AccAddressFromBech32 alice_bech32 = Ok alice) as Haddr by (vm_compute; reflexivity).
  assert (CreateValidMemo (Ok alice_key) = Ok alice_memo) as Hm by (vm_compute; reflexivity).
  assert (Forall (leaves alice (FromECDSAPub (Some (PublicKeyOf alice_key)))) (tail history)) as Hl.
  { repeat constructor; intros msg pk E; discriminate E. }
  exact (memo_stays_accepted mem_works k0 node1 alice_key alice_bech32 alice alice alice_memo
    (tail history) alice_tx false terminator mem_working Hn (ex_intro _ x2a eq_refl)
    Ha Haddr Hm Hl ltac:(vm_compute; reflexivity) ltac:(vm_compute; reflexivity)).
Defined.

End Witnesses.
