(* ===== verification/Lifecycle.v ===== *)
(** What the keys are worth over the life of a chain: how long a node keeps its
    own signing key, what remains of validators' keys when the state the vote and
    proposal handlers wrote is thrown away, which key a proposal registers, that
    nodes with different votes agree on accounts' keys, and how the chain behaves
    on stores that fail.  The events are those of [Chain], the registry is that of
    [Registry]. *)
From S2P Require Import Prelude Json Crypto Store Common Wire SkTypes Keeper.
From S2P Require Import AnteHandler VoteExtension AppModule Chain Registry.

#[local] Open Scope go_scope.

(** ** On any store *)

Section Simulation.
Context `{!AddressCodec, !Json.GoRuntime, !EthCrypto}.

(** What an event may do to the registry when the store may fail: nothing, its
    step, or for a proposal the keys up to the signature at which the store
    failed. *)
Inductive may (r : registry) (e : event) : registry → Prop :=
| may_nothing r' : r' ≡ r → may r e r'
| may_step r' : r' ≡ step r e → may r e r'
| may_prefix r' req tx txs t l1 l2 :
    e = EvProcessProposal req true → Process_Txs req = tx :: txs → decode_injected tx = Ok t →
    elems (ValidatorSignatures t) = l1 ++ l2 →
    r' ≡ learn_signatures (Process_HeaderHash req) l1 r → may r e r'.

Inductive may_steps (r : registry) : list event → registry → Prop :=
| may_refl r' : r' ≡ r → may_steps r [] r'
| may_more e evs r1 r2 : may r e r1 → may_steps r1 evs r2 → may_steps r (e :: evs) r2.

End Simulation.

Section Any.
Context {Store : Type} `{!Collections Store, !CollectionsLaws Store, !AddressCodec,
  !CollValue Params, !Json.GoRuntime, !EthCrypto}.
Implicit Types (s : Store) (n : Node Store).

(** A write that fails leaves the registry as it is. *)
Lemma abs_set_fail p k v s r s' : coll_set p k v s = (r, s') → r ≠ Ok tt → abs s' ≡ abs s.
Proof. intros Hs Hr. by split; intros a; cbn; rewrite (set_fail _ _ _ _ _ _ _ _ Hs Hr). Qed.

Lemma sim_signatures h l s :
  ∃ l1 l2, l = l1 ++ l2 ∧ abs (process_signatures h l s).2 ≡ learn_signatures h l1 (abs s).
Proof.
  revert s. induction l as [|v l IH]; intros s; cbn [process_signatures]; [by exists [], []|].
  unfold catch, lift, reads. destruct (SigToPub h _) as [key|e|p] eqn:Er;
    [|by exists [], (v :: l)..].
  destruct (coll_has _ _ _) as [[]|e|p] eqn:Eh; cbn [negb]; [| |by exists [], (v :: l)..].
  - destruct (IH s) as (l1 & l2 & -> & Hl). exists (v :: l1), l2. split; [done|].
    cbn [learn_signatures]. by rewrite Er, abs_known.
  - destruct (coll_set _ _ _ s) as [r s1] eqn:Es. destruct r as [[]|e|p].
    + destruct (IH s1) as (l1 & l2 & -> & Hl). exists (v :: l1), l2. split; [done|].
      cbn [learn_signatures]. rewrite Er, Hl. by rewrite (abs_learn _ _ _ _ Eh Es).
    + exists [], (v :: l). split; [done|]. by apply (abs_set_fail _ _ _ _ _ _ Es).
    + exists [], (v :: l). split; [done|]. by apply (abs_set_fail _ _ _ _ _ _ Es).
Qed.

Lemma sim_broadcast k msg n :
  may (abs (KVStore n)) (EvBroadcast msg) (abs (KVStore (deliver (BroadcastData k msg) n))).
Proof.
  unfold deliver. destruct (BroadcastData k msg (KVStore n)) as [[r|e|p] s'] eqn:E; cbn [is_Ok];
    [|by apply may_nothing..].
  revert E. unfold BroadcastData. rewrite catch_Ok by done. intros (a & s1 & [Ea <-]%lift_Ok & E).
  cbn [MsgBroadcastData_Sender MsgBroadcastData_Data] in E.
  rewrite catch_Ok in E by done. destruct E as (sig & s1 & [Ed <-]%lift_Ok & E).
  rewrite catch_Ok in E by done. destruct E as ([] & s1 & [Ev <-]%lift_Ok & E).
  destruct (VerifySignature _ _ _) eqn:Ep; [|apply ret_Ok in E as [_ <-]; by apply may_nothing].
  rewrite catch_Ok in E by done. destruct E as (addr & s1 & [Eaddr <-]%lift_Ok & E).
  rewrite catch_Ok in E by done. destruct E as ([] & s1 & Es & [_ <-]%ret_Ok).
  apply may_step. cbn [step]. unfold registration. rewrite Ea, Ed, Eaddr, Ev, Ep.
  by apply abs_register.
Qed.

Lemma verify_registered_state req sig s : (verify_registered req sig s).2 = s.
Proof. by destruct (verify_registered_spec req sig s) as (r & -> & _). Qed.

Lemma sim_verify req s :
  may (abs s) (EvVerifyVote req true) (abs (VerifyVoteExtensionHandler req s).2).
Proof.
  unfold VerifyVoteExtensionHandler, catch, lift, reads.
  destruct (decode_vote_extension _) as [v|e|p] eqn:Ed; [|by apply may_nothing..].
  destruct (coll_has _ _ _) as [[]|e|p] eqn:Eh; cbn [negb]; [| |by apply may_nothing..].
  { rewrite verify_registered_state. by apply may_nothing. }
  destruct (SigToPub _ _) as [key|e|p] eqn:Er; [|by apply may_nothing..].
  unfold mbind, gom_bind, ignore_error, catch.
  destruct (coll_set _ _ _ s) as [[[]|e|p] s1] eqn:Es; cbn [mret gom_ret snd].
  - change (may (abs s) (EvVerifyVote req true) (abs (verify_registered req (VoteExt_Signature v) s1).2)).
    rewrite verify_registered_state. apply may_step. cbn [step]. unfold learn_vote.
    rewrite Ed, Er. by apply abs_learn.
  - change (may (abs s) (EvVerifyVote req true) (abs (verify_registered req (VoteExt_Signature v) s1).2)).
    rewrite verify_registered_state. by apply may_nothing, (abs_set_fail _ _ _ _ _ _ Es).
  - by apply may_nothing, (abs_set_fail _ _ _ _ _ _ Es).
Qed.

Lemma sim_proposal req s :
  may (abs s) (EvProcessProposal req true) (abs (ProcessProposal req s).2).
Proof.
  unfold ProcessProposal. destruct (Process_Txs req) as [|tx txs] eqn:Et; [by apply may_nothing|].
  unfold catch, lift. destruct (decode_injected tx) as [t|e|p] eqn:Ed; [|by apply may_nothing..].
  case_decide; [by apply may_nothing|].
  destruct (sim_signatures (Process_HeaderHash req) (elems (ValidatorSignatures t)) s)
    as (l1 & l2 & El & Hl).
  by eapply may_prefix.
Qed.

Lemma sim_step k e n : may (abs (KVStore n)) e (abs (KVStore (handle k e n))).
Proof.
  destruct e as [msg|req|req kept|req kept|]; cbn [handle].
  - apply sim_broadcast.
  - unfold deliver. destruct (UpdateParams k req _) as [r s'] eqn:E. apply may_nothing.
    destruct (is_Ok r); [|done]. pose proof (UpdateParams_maps _ _ _ _ _ E) as Em.
    split; intros a; cbn; [by rewrite (proj1 (Em a))|by rewrite (proj2 (Em a))].
  - destruct kept; [apply sim_verify|by apply may_nothing].
  - destruct kept; [apply sim_proposal|by apply may_nothing].
  - by apply may_nothing.
Qed.

Lemma sim_steps k evs n :
  may_steps (abs (KVStore n)) evs (abs (KVStore (foldl (fun n e => handle k e n) n evs))).
Proof.
  revert n. induction evs as [|e evs IH]; intros n; [by apply may_refl|].
  eapply may_more; [apply sim_step|apply IH].
Qed.

End Any.

(** ** Accounts' keys depend on the broadcasts alone *)

Section Accounts.
Context `{!AddressCodec, !Json.GoRuntime, !EthCrypto}.

Definition broadcasts (evs : list event) : list MsgBroadcastData :=
  omap (λ e, match e with EvBroadcast msg => Some msg | _ => None end) evs.

Definition register_message (f : bytes → option bytes) (msg : MsgBroadcastData)
    : bytes → option bytes :=
  match registration msg with Some (addr, pk) => update f addr pk | None => f end.

Lemma accounts_step r e :
  accounts (step r e) = match e with EvBroadcast msg => register_message (accounts r) msg
                        | _ => accounts r end.
Proof.
  destruct e as [msg| |req []|req []|]; cbn [step]; try done.
  - unfold register_message. by destruct (registration msg) as [[]|].
  - unfold learn_vote. destruct (decode_vote_extension _); [|done..].
    destruct (SigToPub _ _); [|done..]. apply accounts_learn.
  - unfold learn_proposal. destruct (Process_Txs req); [done|].
    destruct (decode_injected _); [|done..]. apply accounts_signatures.
Qed.

Lemma accounts_steps evs r :
  accounts (foldl step r evs) = foldl register_message (accounts r) (broadcasts evs).
Proof.
  revert r. induction evs as [|e evs IH]; intros r; [done|]. cbn [foldl]. rewrite IH, accounts_step.
  by destruct e.
Qed.

Lemma register_messages_ext msgs f g :
  (∀ a, f a = g a) → ∀ a, foldl register_message f msgs a = foldl register_message g msgs a.
Proof.
  revert f g. induction msgs as [|msg msgs IH]; intros f g E; [done|]. cbn [foldl]. apply IH.
  intros a. unfold register_message, update. by destruct (registration msg) as [[]|]; rewrite ?E.
Qed.

End Accounts.

(** ** Validators' keys stay *)

Section Validators.
Context `{!AddressCodec, !Json.GoRuntime, !EthCrypto}.

Lemma learn_keeps a pk b k r :
  validators r a = Some pk → validators (learn b k r) a = Some pk.
Proof.
  intros Hr. unfold learn. destruct (validators r b) eqn:E; [done|]. cbn. unfold update.
  case_decide; [congruence|done].
Qed.

Lemma learn_signatures_keeps h l a pk r :
  validators r a = Some pk → validators (learn_signatures h l r) a = Some pk.
Proof.
  revert r. induction l as [|v l IH]; intros r Hr; cbn [learn_signatures]; [done|].
  destruct (SigToPub _ _); [|done..]. by apply IH, learn_keeps.
Qed.

Lemma step_keeps e a pk r : validators r a = Some pk → validators (step r e) a = Some pk.
Proof.
  intros Hr. destruct e as [msg| |req []|req []|]; cbn [step]; try done.
  - by destruct (registration msg) as [[]|].
  - unfold learn_vote. destruct (decode_vote_extension _); [|done..].
    destruct (SigToPub _ _); [|done..]. by apply learn_keeps.
  - unfold learn_proposal. destruct (Process_Txs req); [done|].
    destruct (decode_injected _); [|done..]. by apply learn_signatures_keeps.
Qed.

Lemma steps_keep evs a pk r :
  validators r a = Some pk → validators (foldl step r evs) a = Some pk.
Proof.
  revert r. induction evs as [|e evs IH]; intros r Hr; [done|]. cbn [foldl].
  by apply IH, step_keeps.
Qed.

(** The entry a list of signatures makes for a validator without a key: the one
    its first signature recovers to. *)
Definition passes_by (h : bytes) (a : bytes) (v : ValidatorSignature) : Prop :=
  elems (ValidatorAddress v) ≠ a ∧ is_Ok (SigToPub h (elems (ValSig_Signature v))) = true.

Lemma learn_signatures_first h l1 v l2 key r :
  Forall (passes_by h (elems (ValidatorAddress v))) l1 →
  SigToPub h (elems (ValSig_Signature v)) = Ok key →
  validators r (elems (ValidatorAddress v)) = None →
  validators (learn_signatures h (l1 ++ v :: l2) r) (elems (ValidatorAddress v)) =
    Some (FromECDSAPub (Some key)).
Proof.
  intros Hl Hk. revert r. induction Hl as [|u l1 [Hne Hu] _ IH]; intros r Hr; cbn [app learn_signatures].
  - rewrite Hk. apply learn_signatures_keeps. unfold learn. rewrite Hr. cbn. unfold update.
    by rewrite decide_True.
  - destruct (SigToPub h (elems (ValSig_Signature u))); [|done..]. apply IH.
    unfold learn. destruct (validators r (elems (ValidatorAddress u))); [done|]. cbn. unfold update.
    by rewrite decide_False.
Qed.

End Validators.

(** ** Own extensions, and states without validators' keys *)

Section Nodes.
Context {Store : Type} `{!Collections Store, !CollectionsLaws Store, !AddressCodec,
  !CollValue Params, !JSONCodec GenesisState, !Json.GoRuntime, !EthCrypto, !EthCryptoLaws good}.
Implicit Types (s : Store) (n : Node Store).

(** The verdict on what the extend handler made, when the validator has a key. *)
Lemma own_extension_verdict sk hash height ext addr pk s :
  ExtendVoteHandler sk {| ExtendVote_Hash := hash; ExtendVote_Height := height |} = Ok ext →
  coll_get s VoteExtensionMap addr = Ok pk →
  ∃ sig, Sign hash sk = Ok sig ∧
    VerifyVoteExtensionHandler {| Verify_Hash := hash; Verify_ValidatorAddress := addr;
      Verify_Height := height; Verify_VoteExtension := ext |} s =
    (Ok (if VerifySignature pk hash (take 64 sig) then VERIFY_ACCEPT else VERIFY_REJECT), s).
Proof.
  intros He Hg. unfold ExtendVoteHandler in He. cbn [ExtendVote_Hash] in He.
  destruct (Sign hash sk) as [sig|e|p] eqn:Es; [|done..]. cbn [catch_o] in He.
  exists sig. split; [done|]. destruct (decode_vote_extension_own sig) as (v & Ed & Ev).
  assert (ext = Json.print (SignatureVoteExtend_json {| VoteExt_Signature := mk sig |})) as -> by congruence.
  unfold VerifyVoteExtensionHandler, catch, lift, reads.
  cbn [Verify_VoteExtension Verify_ValidatorAddress Verify_Hash].
  rewrite Ed, (get_has _ _ _ _ Hg). cbn [negb].
  destruct (verify_registered_spec {| Verify_Hash := hash; Verify_ValidatorAddress := addr;
    Verify_Height := height; Verify_VoteExtension := Json.print
      (SignatureVoteExtend_json {| VoteExt_Signature := mk sig |}) |} (VoteExt_Signature v) s)
    as (r & -> & Hr).
  cbn [Verify_ValidatorAddress Verify_Hash] in Hr. rewrite Hg in Hr. cbv zeta in Hr.
  pose proof (Sign_length _ _ _ Es). unfold cap in Hr. rewrite Ev in Hr.
  rewrite decide_True, take_app_le in Hr by lia. by rewrite Hr.
Qed.

(** A kept verification of an own extension leaves the validator with its key,
    when it had none or that one. *)
Lemma own_extension_learned sk hash height ext addr r :
  ExtendVoteHandler sk {| ExtendVote_Hash := hash; ExtendVote_Height := height |} = Ok ext →
  (∀ pk, validators r addr = Some pk → pk = FromECDSAPub (Some (PublicKeyOf sk))) →
  validators (step r (EvVerifyVote {| Verify_Hash := hash; Verify_ValidatorAddress := addr;
    Verify_Height := height; Verify_VoteExtension := ext |} true)) addr =
    Some (FromECDSAPub (Some (PublicKeyOf sk))).
Proof.
  intros He Hr. unfold ExtendVoteHandler in He. cbn [ExtendVote_Hash] in He.
  destruct (Sign hash sk) as [sig|e|p] eqn:Es; [|done..]. cbn [catch_o] in He.
  destruct (decode_vote_extension_own sig) as (v & Ed & Ev).
  assert (ext = Json.print (SignatureVoteExtend_json {| VoteExt_Signature := mk sig |})) as -> by congruence.
  cbn [step]. unfold learn_vote. cbn [Verify_VoteExtension Verify_Hash Verify_ValidatorAddress].
  rewrite Ed, Ev, (Sign_recover _ _ _ Es). unfold learn.
  destruct (validators r addr) as [pk|] eqn:E; [by rewrite E, (Hr pk eq_refl)|].
  cbn. unfold update. by rewrite decide_True.
Qed.

(** The key a node holds for a validator after one of its extensions was verified
    and kept, whatever follows. *)
Lemma own_extension_kept (W : Store → Prop) k n sk hash height ext addr evs :
  working W → W (KVStore n) →
  ExtendVoteHandler sk {| ExtendVote_Hash := hash; ExtendVote_Height := height |} = Ok ext →
  (∀ pk, coll_get (KVStore n) VoteExtensionMap addr = Ok pk →
     pk = FromECDSAPub (Some (PublicKeyOf sk))) →
  coll_get (KVStore (foldl (fun n e => handle k e n) n
    (EvVerifyVote {| Verify_Hash := hash; Verify_ValidatorAddress := addr;
       Verify_Height := height; Verify_VoteExtension := ext |} true :: evs))) VoteExtensionMap addr =
    Ok (FromECDSAPub (Some (PublicKeyOf sk))).
Proof.
  intros HW Hw He Hn. set (evs' := _ :: evs).
  destruct (refine_steps W HW k evs' n Hw) as [_ [_ Hr]]. apply ok_value_Some.
  change (ok_value _) with (validators (abs (KVStore (foldl (fun n e => handle k e n) n evs'))) addr).
  rewrite Hr. cbn [foldl evs']. apply steps_keep, (own_extension_learned _ _ _ _ _ _ He).
  intros pk E. apply Hn. by apply ok_value_Some.
Qed.

(** The event's writes to validators' keys are thrown away. *)
Definition discarded (e : event) : Prop :=
  match e with EvVerifyVote _ kept | EvProcessProposal _ kept => kept = false | _ => True end.

Lemma discarded_no_key am tr n addr :
  reachable am tr n → Forall discarded tr →
  coll_get (KVStore n) VoteExtensionMap addr = Err ErrNotFound.
Proof.
  induction 1 as [s gen gs n Hf Hg|e tr n _ IH].
  - apply InitGenesis_inv in Hg as (prv & g & s' & _ & _ & Hi & ->). intros _. cbn.
    unfold InitGenesis in Hi. by rewrite (params_set_vote _ _ _ _ _ Hi), Hf.
  - intros [He Htr]%list.Forall_cons. specialize (IH Htr).
    destruct e as [msg|req|req kept|req kept|]; cbn [handle discarded] in *; try (by subst kept); [| |done].
    + unfold deliver. destruct (BroadcastData _ _ _) as [r s'] eqn:E. destruct (is_Ok r); [|done]. cbn.
      apply BroadcastData_effect in E as [->|(a & sig & _ & _ & _ & _ & r' & Hs & _)]; [done|].
      by rewrite (set_ante_vote _ _ _ _ _ addr Hs).
    + unfold deliver. destruct (UpdateParams _ _ _) as [r s'] eqn:E. destruct (is_Ok r); [|done]. cbn.
      pose proof (UpdateParams_maps _ _ _ _ _ E) as Em. by rewrite (proj2 (Em addr)).
Qed.

Lemma signing_key_step k e n :
  SecondaryPrivateKey (handle k e n) =
    match e with EvRestart => zeroPrivateKey | _ => SecondaryPrivateKey n end.
Proof.
  destruct e as [msg|req|req kept|req kept|]; cbn [handle]; unfold deliver, branch;
    [by destruct (BroadcastData _ _ _) as [[] ?]|by destruct (UpdateParams _ _ _) as [[] ?]
    |by destruct kept|by destruct kept|done].
Qed.

(** The signing key after any events: the one before them, or the zero value once
    the process has restarted. *)
Lemma signing_key k evs n :
  let n' := foldl (fun n e => handle k e n) n evs in
  (EvRestart ∉ evs → SecondaryPrivateKey n' = SecondaryPrivateKey n) ∧
  (EvRestart ∈ evs ∨ SecondaryPrivateKey n = zeroPrivateKey → SecondaryPrivateKey n' = zeroPrivateKey).
Proof.
  cbv zeta. revert n. induction evs as [|e evs IH]; intros n; cbn [foldl].
  { split; [done|by intros [?%not_elem_of_nil|?]]. }
  destruct (IH (handle k e n)) as [Hk Hz]. rewrite signing_key_step in Hk, Hz. split.
  - intros [Hne He]%not_elem_of_cons. rewrite (Hk He). by destruct e.
  - rewrite elem_of_cons. intros [[<-|He]|Hn]; apply Hz; auto. right. by destruct e.
Qed.

End Nodes.

(** ** What a proposal built from an honest vote registers *)

Section Proposals.
Context `{!AddressCodec, !Json.GoRuntime, !EthCrypto, !EthCryptoLaws good}.

(** The extension of the extend handler carries its signature. *)
Lemma usable_own sk hash height sig vote :
  ExtendVoteHandler sk {| ExtendVote_Hash := hash; ExtendVote_Height := height |}
    = Ok (Vote_VoteExtension vote) →
  Sign hash sk = Ok sig →
  ∃ v, usable vote = Some v ∧ ValidatorAddress v = Vote_Address vote ∧
    elems (ValSig_Signature v) = sig.
Proof.
  intros He Es. unfold ExtendVoteHandler in He. cbn [ExtendVote_Hash] in He.
  rewrite Es in He. cbn [catch_o] in He.
  destruct (decode_vote_extension_own sig) as (v & Ed & Ev).
  assert (Vote_VoteExtension vote =
    Json.print (SignatureVoteExtend_json {| VoteExt_Signature := mk sig |})) as E' by congruence.
  unfold usable. rewrite E', Ed. cbn [Json.print SignatureVoteExtend_json app].
  by eexists.
Qed.

Lemma learn_honest_proposal req txs before vote after sk hash height sig header key r :
  LocalLastCommit_Votes req = before ++ vote :: after → PrepareProposal req = Ok txs →
  ExtendVoteHandler sk {| ExtendVote_Hash := hash; ExtendVote_Height := height |}
    = Ok (Vote_VoteExtension vote) →
  Sign hash sk = Ok sig → SigToPub header sig = Ok key →
  Forall (passes_by header (elems (Vote_Address vote))) (omap usable before) →
  validators r (elems (Vote_Address vote)) = None →
  validators (learn_proposal {| Process_HeaderHash := header; Process_Txs := txs |} r)
    (elems (Vote_Address vote)) = Some (FromECDSAPub (Some key)).
Proof.
  intros Hv Hp He Es Ek Hb Hn. destruct (usable_own _ _ _ _ _ He Es) as (v & Hu & Ea & Ev).
  unfold PrepareProposal in Hp. rewrite collect_usable, Hv, omap_app in Hp.
  cbn [omap list_omap] in Hp. rewrite Hu in Hp. set (l := omap usable before ++ v :: _) in Hp.
  assert (l ≠ []) as Hne by (unfold l; by destruct (omap usable before)).
  rewrite decide_False in Hp by (by destruct l).
  destruct (decode_injected_own l Hne) as (t & Ed & Hs).
  assert (txs = Json.print (InjectedVoteExtTx_json {| ValidatorSignatures := mk l |})
                :: Prepare_Txs req) as -> by congruence.
  unfold learn_proposal. cbn [Process_Txs Process_HeaderHash]. rewrite Ed. unfold l in Hs.
  apply Forall2_app_inv_l in Hs as (l1 & l2 & Hl1 & Hl2 & ->).
  inversion Hl2 as [|? v' ? l2' [Ha' Hs'] _]; subst l2. rewrite <-Ea, <-Ha'. rewrite <-Ea in Hb, Hn.
  apply learn_signatures_first; rewrite ?Ha'; [|by rewrite Hs', Ev|done].
  clear -Hb Hl1. induction Hl1 as [|u u' ? ? [Eu1 Eu2] _ IH]; [done|].
  apply list.Forall_cons in Hb as [[Hne Hr] Hb]. constructor; [|by apply IH].
  split; [by rewrite Eu1|by rewrite Eu2].
Qed.

End Proposals.

(** ** Properties *)

Section Theorems.
Context {Store : Type} `{!Collections Store, !CollectionsLaws Store, !AddressCodec,
  !CollValue Params, !JSONCodec GenesisState, !Json.GoRuntime, !EthCrypto, !EthCryptoLaws good}.
Implicit Types (s : Store) (n : Node Store) (next : AnteHandlerFn (Node Store)).

(** C6. On any store, whatever fails in it, the chain does nothing the registry
    may not do: every event leaves the registry as it is, makes the event's step,
    or, for a proposal, learns the keys up to the signature where the store
    failed; and the decorator's verdicts are the registry's. *)
Theorem chain_simulates_registry k n evs :
  let n' := foldl (fun n e => handle k e n) n evs in
  ∃ r, may_steps (abs (KVStore n)) evs r ∧ abs (KVStore n') ≡ r ∧
    ∀ tx simulate next,
      (admits r tx → AnteHandle KVStore tx simulate next n' = next tx simulate n') ∧
      (¬ admits r tx →
         ∃ res, AnteHandle KVStore tx simulate next n' = (res, n') ∧ is_Ok res = false).
Proof.
  cbv zeta. eexists. split; [apply sim_steps|]. split; [done|]. intros tx simulate next.
  rewrite <-authorized_admits. split; [by apply AnteHandle_pass|by apply AnteHandle_block].
Qed.

(** C7. Nodes agree.  Two nodes whose stores work and hold the same account keys
    hold the same ones after the same broadcasts, let the same transactions
    through, and give the same verdict on every proposal, whatever votes and
    proposals each of them saw, kept or threw away, and however often each
    restarted. *)
Theorem nodes_agree (W : Store → Prop) k1 k2 n1 n2 evs1 evs2 :
  working W → W (KVStore n1) → W (KVStore n2) →
  (∀ a, coll_get (KVStore n1) AnteHandlerMap a = coll_get (KVStore n2) AnteHandlerMap a) →
  broadcasts evs1 = broadcasts evs2 →
  let n1' := foldl (fun n e => handle k1 e n) n1 evs1 in
  let n2' := foldl (fun n e => handle k2 e n) n2 evs2 in
  (∀ a pk, coll_get (KVStore n1') AnteHandlerMap a = Ok pk ↔
           coll_get (KVStore n2') AnteHandlerMap a = Ok pk) ∧
  (∀ tx, authorized (KVStore n1') tx ↔ authorized (KVStore n2') tx) ∧
  (∀ req, (ProcessProposal req (KVStore n1')).1 = (ProcessProposal req (KVStore n2')).1).
Proof.
  intros HW Hw1 Hw2 Ha Hb. cbv zeta.
  destruct (refine_steps W HW k1 evs1 n1 Hw1) as [Hw1' [Ea1 _]].
  destruct (refine_steps W HW k2 evs2 n2 Hw2) as [Hw2' [Ea2 _]].
  assert (∀ a, accounts (abs (KVStore (foldl (fun n e => handle k1 e n) n1 evs1))) a =
               accounts (abs (KVStore (foldl (fun n e => handle k2 e n) n2 evs2))) a) as E.
  { intros a. rewrite Ea1, Ea2, !accounts_steps, Hb. apply register_messages_ext.
    intros b. cbn. by rewrite Ha. }
  split_and!.
  - intros a pk. rewrite <-!ok_value_Some. specialize (E a). cbn in E. by rewrite E.
  - intros tx. rewrite !authorized_admits. unfold admits. by setoid_rewrite E.
  - intros req. by apply (ProcessProposal_any_state W).
Qed.

(** C9. The life of the signing key.  Whatever events follow genesis, as long as
    the process has not restarted the node makes an extension on every hash, and
    every store that holds the public key of the key this genesis generated
    accepts it.  From the first restart on the key is the zero value, and no
    extension the node makes is accepted by a store that holds that public key,
    if a signature of the zero key does not verify under it. *)
Theorem signing_key_lifetime am k prv gs n n0 evs :
  AppModule_InitGenesis am (Ok prv) gs n = (Ok tt, n0) → good prv →
  let n' := foldl (fun n e => handle k e n) n0 evs in
  let pub := FromECDSAPub (Some (PublicKeyOf prv)) in
  let verdict h ht ext addr s :=
    VerifyVoteExtensionHandler {| Verify_Hash := h; Verify_ValidatorAddress := addr;
      Verify_Height := ht; Verify_VoteExtension := ext |} s in
  (EvRestart ∉ evs → ∀ h ht, length h = 32 →
     ∃ ext, ExtendVoteHandler (SecondaryPrivateKey n')
              {| ExtendVote_Hash := h; ExtendVote_Height := ht |} = Ok ext ∧
       ∀ s addr, coll_get s VoteExtensionMap addr = Ok pub →
         verdict h ht ext addr s = (Ok VERIFY_ACCEPT, s)) ∧
  (EvRestart ∈ evs →
     SecondaryPrivateKey n' = zeroPrivateKey ∧
     ((∀ h sg, Sign h zeroPrivateKey = Ok sg → VerifySignature pub h (take 64 sg) = false) →
      ∀ h ht ext s addr,
        ExtendVoteHandler (SecondaryPrivateKey n')
          {| ExtendVote_Hash := h; ExtendVote_Height := ht |} = Ok ext →
        coll_get s VoteExtensionMap addr = Ok pub →
        verdict h ht ext addr s = (Ok VERIFY_REJECT, s))).
Proof.
  intros (prv' & g & s1 & [= <-] & _ & _ & ->)%InitGenesis_inv Hgood n' pub verdict.
  destruct (signing_key k evs {| KVStore := s1; SecondaryPrivateKey := prv |}) as [Hk Hz].
  fold n' in Hk, Hz. cbn [SecondaryPrivateKey] in Hk. split.
  - intros Hr h ht Hh. rewrite (Hk Hr). destruct (Sign_total h prv Hgood Hh) as [sg Es].
    assert (∃ ext, ExtendVoteHandler prv {| ExtendVote_Hash := h; ExtendVote_Height := ht |} = Ok ext)
      as [ext He] by (unfold ExtendVoteHandler; cbn [ExtendVote_Hash]; rewrite Es; by eexists).
    exists ext. split; [done|]. intros s addr Hg. unfold verdict.
    destruct (own_extension_verdict prv h ht ext _ _ _ He Hg) as (s2 & Hs2 & ->).
    unfold pub. by rewrite (Sign_verify _ _ _ Hs2).
  - intros Hr. rewrite (Hz (or_introl Hr)). split; [done|]. intros Hno h ht ext s addr He Hg. unfold verdict.
    destruct (own_extension_verdict zeroPrivateKey h ht ext _ _ _ He Hg) as (s2 & Hs2 & ->).
    by rewrite (Hno _ _ Hs2).
Qed.

(** C10. When the state that vote and proposal handlers write is thrown away, as
    it is for a branch that is not committed, no validator ever has a key, and
    any usable key passes for any validator: an extension made with it is
    accepted under every address. *)
Theorem discarded_votes_trust_anyone (W : Store → Prop) am tr n sk hash height addr :
  reachable am tr n → Forall discarded tr → working W → W (KVStore n) →
  good sk → length hash = 32 →
  (∀ a, coll_get (KVStore n) VoteExtensionMap a = Err ErrNotFound) ∧
  ∃ ext, ExtendVoteHandler sk {| ExtendVote_Hash := hash; ExtendVote_Height := height |} = Ok ext ∧
    (VerifyVoteExtensionHandler {| Verify_Hash := hash; Verify_ValidatorAddress := addr;
       Verify_Height := height; Verify_VoteExtension := ext |} (KVStore n)).1 = Ok VERIFY_ACCEPT.
Proof.
  intros Hr Hd HW Hw Hk Hh.
  assert (∀ a, coll_get (KVStore n) VoteExtensionMap a = Err ErrNotFound) as Hn
    by (intros a; by eapply discarded_no_key).
  split; [done|].
  assert (coll_has (KVStore n) VoteExtensionMap addr = Ok false) as Hf.
  { destruct (HW _ Hw) as [Hhas _]. destruct (Hhas VoteExtensionMap addr) as [[] E]; [|done].
    apply has_true in E as [v E]. by rewrite Hn in E. }
  destruct (extension_accepted W sk hash height addr (KVStore n) HW Hw Hk Hh (or_introl Hf))
    as (ext & s' & He & Ev & _).
  exists ext. split; [done|]. by rewrite Ev.
Qed.

(** C11. A proposal registers the key that a validator's signature gives on the
    header's hash, whatever hash the extension was made on.  When that is another
    key than the validator's, a proposal built from its honest extension, once
    kept, locks the validator out: through all later events the other key stays
    and every extension the validator makes is refused. *)
Theorem honest_vote_pins_header_key (W : Store → Prop) k n req before vote after sk hash height sig
    header key txs evs :
  working W → W (KVStore n) →
  LocalLastCommit_Votes req = before ++ vote :: after → PrepareProposal req = Ok txs →
  ExtendVoteHandler sk {| ExtendVote_Hash := hash; ExtendVote_Height := height |}
    = Ok (Vote_VoteExtension vote) →
  Sign hash sk = Ok sig → SigToPub header sig = Ok key →
  Forall (passes_by header (elems (Vote_Address vote))) (omap usable before) →
  (∀ pk, coll_get (KVStore n) VoteExtensionMap (elems (Vote_Address vote)) ≠ Ok pk) →
  (∀ h sg, Sign h sk = Ok sg → VerifySignature (FromECDSAPub (Some key)) h (take 64 sg) = false) →
  let n' := foldl (fun n e => handle k e n) n
    (EvProcessProposal {| Process_HeaderHash := header; Process_Txs := txs |} true :: evs) in
  coll_get (KVStore n') VoteExtensionMap (elems (Vote_Address vote)) = Ok (FromECDSAPub (Some key)) ∧
  ∀ h ht ext, ExtendVoteHandler sk {| ExtendVote_Hash := h; ExtendVote_Height := ht |} = Ok ext →
    (VerifyVoteExtensionHandler {| Verify_Hash := h; Verify_ValidatorAddress := elems (Vote_Address vote);
       Verify_Height := ht; Verify_VoteExtension := ext |} (KVStore n')).1 = Ok VERIFY_REJECT.
Proof.
  intros HW Hw Hv Hp He Es Ek Hb Hn Hno n'.
  destruct (refine_steps W HW k (EvProcessProposal {| Process_HeaderHash := header;
    Process_Txs := txs |} true :: evs) n Hw) as [_ [_ Hr]]. fold n' in Hr.
  assert (coll_get (KVStore n') VoteExtensionMap (elems (Vote_Address vote)) =
          Ok (FromECDSAPub (Some key))) as Hg.
  { apply ok_value_Some. change (ok_value _) with (validators (abs (KVStore n')) (elems (Vote_Address vote))).
    rewrite Hr. cbn [foldl]. apply steps_keep. cbn [step].
    eapply learn_honest_proposal; try done. cbn. apply eq_None_not_Some.
    intros [pk E%ok_value_Some]. by apply (Hn pk). }
  split; [done|]. intros h ht ext Hext.
  destruct (own_extension_verdict sk h ht ext _ _ _ Hext Hg) as (s2 & Hs2 & ->).
  by rewrite (Hno h s2 Hs2).
Qed.

(** C5. A validator always gets its votes accepted in the end: once one of its own
    extensions was verified with the writes kept, and it had no other key then, it
    holds its key for good, and every extension it makes with it, on any hash and
    at any height, is made and accepted without a write, whatever broadcasts,
    parameter updates, votes, proposals and restarts happen in between. *)
Theorem validator_stays_accepted (W : Store → Prop) k n sk hash height ext addr evs :
  working W → W (KVStore n) → good sk →
  ExtendVoteHandler sk {| ExtendVote_Hash := hash; ExtendVote_Height := height |} = Ok ext →
  (∀ pk, coll_get (KVStore n) VoteExtensionMap addr = Ok pk →
     pk = FromECDSAPub (Some (PublicKeyOf sk))) →
  let n' := foldl (fun n e => handle k e n) n
    (EvVerifyVote {| Verify_Hash := hash; Verify_ValidatorAddress := addr;
       Verify_Height := height; Verify_VoteExtension := ext |} true :: evs) in
  coll_get (KVStore n') VoteExtensionMap addr = Ok (FromECDSAPub (Some (PublicKeyOf sk))) ∧
  ∀ h ht, length h = 32 →
    ∃ ext', ExtendVoteHandler sk {| ExtendVote_Hash := h; ExtendVote_Height := ht |} = Ok ext' ∧
      VerifyVoteExtensionHandler {| Verify_Hash := h; Verify_ValidatorAddress := addr;
        Verify_Height := ht; Verify_VoteExtension := ext' |} (KVStore n') =
        (Ok VERIFY_ACCEPT, KVStore n').
Proof.
  intros HW Hw Hk He Hn n'.
  assert (coll_get (KVStore n') VoteExtensionMap addr = Ok (FromECDSAPub (Some (PublicKeyOf sk)))) as Hg
    by (by apply (own_extension_kept W)).
  split; [done|]. intros h ht Hh. destruct (Sign_total h sk Hk Hh) as [sig Es].
  assert (∃ ext', ExtendVoteHandler sk {| ExtendVote_Hash := h; ExtendVote_Height := ht |} = Ok ext')
    as [ext' He'] by (unfold ExtendVoteHandler; cbn [ExtendVote_Hash]; rewrite Es; by eexists).
  exists ext'. split; [done|].
  destruct (own_extension_verdict sk h ht ext' _ _ _ He' Hg) as (s2 & Hs2 & ->).
  by rewrite (Sign_verify _ _ _ Hs2).
Qed.

(** C12. The order of votes splits the network: when a validator without a key has
    sent extensions made with two keys, as after losing its first one, and the
    nodes keep the writes of their verification, a node that verified the one
    first and a node that verified the other first hold different keys for it
    through all later events, the other extension included; each accepts, and the
    other refuses, every later extension made with the key it holds. *)
Theorem vote_order_splits_nodes (W : Store → Prop) k1 k2 n1 n2 sk1 sk2 hash height ext1 ext2 addr evs1 evs2 :
  working W → W (KVStore n1) → W (KVStore n2) →
  ExtendVoteHandler sk1 {| ExtendVote_Hash := hash; ExtendVote_Height := height |} = Ok ext1 →
  ExtendVoteHandler sk2 {| ExtendVote_Hash := hash; ExtendVote_Height := height |} = Ok ext2 →
  (∀ pk, coll_get (KVStore n1) VoteExtensionMap addr ≠ Ok pk) →
  (∀ pk, coll_get (KVStore n2) VoteExtensionMap addr ≠ Ok pk) →
  let pub sk := FromECDSAPub (Some (PublicKeyOf sk)) in
  (∀ h sg, Sign h sk1 = Ok sg → VerifySignature (pub sk2) h (take 64 sg) = false) →
  (∀ h sg, Sign h sk2 = Ok sg → VerifySignature (pub sk1) h (take 64 sg) = false) →
  let vote ext := EvVerifyVote {| Verify_Hash := hash; Verify_ValidatorAddress := addr;
                    Verify_Height := height; Verify_VoteExtension := ext |} true in
  let n1' := foldl (fun n e => handle k1 e n) n1 (vote ext1 :: vote ext2 :: evs1) in
  let n2' := foldl (fun n e => handle k2 e n) n2 (vote ext2 :: vote ext1 :: evs2) in
  let verdict n h ht ext :=
    (VerifyVoteExtensionHandler {| Verify_Hash := h; Verify_ValidatorAddress := addr;
       Verify_Height := ht; Verify_VoteExtension := ext |} (KVStore n)).1 in
  coll_get (KVStore n1') VoteExtensionMap addr = Ok (pub sk1) ∧
  coll_get (KVStore n2') VoteExtensionMap addr = Ok (pub sk2) ∧ pub sk1 ≠ pub sk2 ∧
  ∀ h ht ext,
    (ExtendVoteHandler sk1 {| ExtendVote_Hash := h; ExtendVote_Height := ht |} = Ok ext →
       verdict n1' h ht ext = Ok VERIFY_ACCEPT ∧ verdict n2' h ht ext = Ok VERIFY_REJECT) ∧
    (ExtendVoteHandler sk2 {| ExtendVote_Hash := h; ExtendVote_Height := ht |} = Ok ext →
       verdict n1' h ht ext = Ok VERIFY_REJECT ∧ verdict n2' h ht ext = Ok VERIFY_ACCEPT).
Proof.
  intros HW Hw1 Hw2 He1 He2 Hn1 Hn2 pub Hno1 Hno2 vote n1' n2' verdict.
  assert (coll_get (KVStore n1') VoteExtensionMap addr = Ok (pub sk1)) as G1
    by exact (own_extension_kept W k1 n1 sk1 hash height ext1 addr (vote ext2 :: evs1) HW Hw1 He1
      (λ pk E, False_ind _ (Hn1 pk E))).
  assert (coll_get (KVStore n2') VoteExtensionMap addr = Ok (pub sk2)) as G2
    by exact (own_extension_kept W k2 n2 sk2 hash height ext2 addr (vote ext1 :: evs2) HW Hw2 He2
      (λ pk E, False_ind _ (Hn2 pk E))).
  assert (∀ sk pk n h ht ext,
    ExtendVoteHandler sk {| ExtendVote_Hash := h; ExtendVote_Height := ht |} = Ok ext →
    coll_get (KVStore n) VoteExtensionMap addr = Ok pk →
    ∃ sg, Sign h sk = Ok sg ∧
      verdict n h ht ext = Ok (if VerifySignature pk h (take 64 sg) then VERIFY_ACCEPT else VERIFY_REJECT))
    as Hv.
  { intros sk pk n h ht ext He Hg. destruct (own_extension_verdict sk h ht ext _ _ _ He Hg) as (sg & Hs & E).
    exists sg. split; [done|]. unfold verdict. by rewrite E. }
  split; [done|]. split; [done|]. split.
  - intros E. destruct (Hv sk1 _ n1' hash height ext1 He1 G1) as (sg & Hs & _).
    specialize (Hno1 _ _ Hs). rewrite <-E in Hno1. unfold pub in Hno1.
    by rewrite (Sign_verify _ _ _ Hs) in Hno1.
  - intros h ht ext. split; intros He; split.
    + destruct (Hv _ _ _ _ _ _ He G1) as (sg & Hs & ->).
      unfold pub. by rewrite (Sign_verify _ _ _ Hs).
    + destruct (Hv _ _ _ _ _ _ He G2) as (sg & Hs & ->). by rewrite (Hno1 _ _ Hs).
    + destruct (Hv _ _ _ _ _ _ He G1) as (sg & Hs & ->). by rewrite (Hno2 _ _ Hs).
    + destruct (Hv _ _ _ _ _ _ He G2) as (sg & Hs & ->).
      unfold pub. by rewrite (Sign_verify _ _ _ Hs).
Qed.

End Theorems.

(** A scheme in which a signature read on another hash still gives a key, as
    ECDSA recovery does: here always the key [x00]. *)
Module WideCrypto.
Import ToyCrypto.

Definition recover_any (h s : bytes) : outcome byte :=
  match recover h s with
  | Ok b => Ok b
  | r => if decide (length s = 65) then Ok x00 else r
  end.

#[export] Instance wide_crypto : EthCrypto := {|
  ecdsa_PublicKey := byte;
  ecdsa_PrivateKey := option byte;
  zeroPrivateKey := None;
  PublicKeyOf k := default x00 k;
  Sign := sign;
  SigToPub := recover_any;
  FromECDSAPub := serialize;
  VerifySignature := verify;
  Keccak256 s := take 32 (s ++ replicate 32 x00)
|}.

#[export] Instance wide_laws : EthCryptoLaws (λ k : @ecdsa_PrivateKey wide_crypto, is_Some k).
Proof.
  split.
  - exact (@Sign_total toy_crypto _ toy_laws).
  - exact (@Sign_length toy_crypto _ toy_laws).
  - intros h k s Hs. unfold SigToPub, wide_crypto, recover_any.
    pose proof (@Sign_recover toy_crypto _ toy_laws h k s Hs) as E. cbn -[recover] in E.
    by rewrite E.
  - exact (@Sign_verify toy_crypto _ toy_laws).
  - intros h s. unfold SigToPub, wide_crypto, recover_any.
    pose proof (@SigToPub_no_panic toy_crypto _ toy_laws h s) as E. cbn -[recover] in E.
    destruct (recover h s); [done|by case_decide|done].
  - intros h s pk. unfold SigToPub, wide_crypto, recover_any.
    pose proof (@SigToPub_length toy_crypto _ toy_laws h s) as E. cbn -[recover] in E.
    destruct (recover h s) as [b|e|v]; [by intros _; apply (E b)|by case_decide..].
  - exact (@Verify_length toy_crypto _ toy_laws).
  - exact (@Verify_pubkey toy_crypto _ toy_laws).
  - exact (@good_length toy_crypto _ toy_laws).
  - done.
  - exact (@Keccak256_length toy_crypto _ toy_laws).
Qed.

End WideCrypto.

(** ** The properties at concrete inputs *)

Section Witnesses.
Import Concrete ToyJSON.

Definition broken : store := {| mem := ∅; readable := true; writable := false |}.

(** On a store that takes no write, alice's broadcast and the validator's
    extension leave no key; her marked memo is refused. *)
Lemma chain_simulates_registry_witness :
  let n' := foldl (fun n e => handle k0 e n) (started broken) history in
  ∃ r, may_steps (abs broken) history r ∧ abs (KVStore n') ≡ r ∧
    ∃ res, AnteHandle KVStore alice_tx false terminator n' = (res, n') ∧ is_Ok res = false.
Proof.
  destruct (chain_simulates_registry k0 (started broken) history) as (r & Hr & Ha & Hc).
  exists r. split; [exact Hr|]. split; [exact Ha|].
  refine (proj2 (Hc alice_tx false terminator) _).
  intros (memo & Em & [Hu|(m & sig & addr & _ & _ & _ & Ea & Hg & _)]).
  - vm_compute in Em. injection Em as <-. vm_compute in Hu. discriminate.
  - destruct Ha as [Ha _]. rewrite <-Ha in Hg. vm_compute in Ea. injection Ea as <-.
    vm_compute in Hg. discriminate.
Defined.

(** One node sees the votes, the other restarts: alice's memo passes on both. *)
Lemma nodes_agree_witness :
  let n' := foldl (fun n e => handle k0 e n) node1 history in
  let n'' := foldl (fun n e => handle k0 e n) (started (KVStore node1)) [EvRestart; EvBroadcast alice_msg] in
  authorized (KVStore n') alice_tx ↔ authorized (KVStore n'') alice_tx.
Proof.
  assert (mem_works (KVStore node1)) as Hn by (split; vm_compute; reflexivity).
  exact (proj1 (proj2 (nodes_agree mem_works k0 k0 node1 (started (KVStore node1)) history
    [EvRestart; EvBroadcast alice_msg] mem_working Hn Hn (λ a, eq_refl) eq_refl)) alice_tx).
Defined.

(** Before a restart the node's extension is accepted, afterwards its key is gone. *)
Lemma signing_key_lifetime_witness :
  (∃ ext, ExtendVoteHandler (SecondaryPrivateKey (foldl (fun n e => handle k0 e n) node1 (take 3 history)))
            {| ExtendVote_Hash := replicate 32 x13; ExtendVote_Height := 6 |} = Ok ext ∧
     VerifyVoteExtensionHandler {| Verify_Hash := replicate 32 x13; Verify_ValidatorAddress := val1;
       Verify_Height := 6; Verify_VoteExtension := ext |} val_store = (Ok VERIFY_ACCEPT, val_store)) ∧
  SecondaryPrivateKey (foldl (fun n e => handle k0 e n) node1 history) = zeroPrivateKey.
Proof.
  assert (AppModule_InitGenesis am0 (Ok val_key) genesis0 node0 = (Ok tt, node1)) as Hg
    by (vm_compute; reflexivity).
  assert (is_Some val_key) as Hk by (by eexists). split.
  - destruct (proj1 (signing_key_lifetime am0 k0 val_key genesis0 node0 node1 (take 3 history) Hg Hk)
      ltac:(cbn; rewrite !not_elem_of_cons; by split_and!; try apply not_elem_of_nil)
      (replicate 32 x13) 6%Z eq_refl) as (ext & He & Hv).
    exists ext. split; [exact He|]. apply Hv. vm_compute. reflexivity.
  - refine (proj1 (proj2 (signing_key_lifetime am0 k0 val_key genesis0 node0 node1 history Hg Hk) _)).
    do 3 right. left.
Defined.

(** A vote whose writes are thrown away: afterwards another key's extension is
    accepted for the validator. *)
Definition thrown_away : list event := [EvVerifyVote (verify_req (extension val_key)) false].

Lemma thrown_away_reachable :
  reachable am0 thrown_away (handle k0 (EvVerifyVote (verify_req (extension val_key)) false) node1).
Proof.
  refine (reach_event am0 (EvVerifyVote (verify_req (extension val_key)) false) [] node1 _).
  apply (reach_genesis am0 MemStore.empty (Ok val_key) genesis0 node1); [done|].
  vm_compute. reflexivity.
Qed.

Lemma discarded_votes_trust_anyone_witness :
  ∃ ext, ExtendVoteHandler other_key {| ExtendVote_Hash := block_hash; ExtendVote_Height := 5 |} = Ok ext ∧
    (VerifyVoteExtensionHandler (verify_req ext)
       (KVStore (handle k0 (EvVerifyVote (verify_req (extension val_key)) false) node1))).1 = Ok VERIFY_ACCEPT.
Proof.
  refine (proj2 (discarded_votes_trust_anyone mem_works am0 thrown_away _ other_key block_hash 5 val1
    thrown_away_reachable _ mem_working _ _ eq_refl)).
  - by repeat constructor.
  - by split; vm_compute.
  - by eexists.
Defined.

(** Another key's extension, a broadcast and a restart later, the validator's own
    extension is still accepted. *)
Lemma validator_stays_accepted_witness :
  let n' := foldl (fun n e => handle k0 e n) node1
    [EvVerifyVote (verify_req (extension val_key)) true;
     EvVerifyVote (verify_req (extension other_key)) true; EvBroadcast alice_msg; EvRestart] in
  ∃ ext', ExtendVoteHandler val_key {| ExtendVote_Hash := replicate 32 x13; ExtendVote_Height := 9 |} = Ok ext' ∧
    VerifyVoteExtensionHandler {| Verify_Hash := replicate 32 x13; Verify_ValidatorAddress := val1;
      Verify_Height := 9; Verify_VoteExtension := ext' |} (KVStore n') = (Ok VERIFY_ACCEPT, KVStore n').
Proof.
  refine (proj2 (validator_stays_accepted mem_works k0 node1 val_key block_hash 5 (extension val_key) val1
    [EvVerifyVote (verify_req (extension other_key)) true; EvBroadcast alice_msg; EvRestart]
    mem_working _ _ _ _) (replicate 32 x13) 9%Z _).
  - by split; vm_compute.
  - by eexists.
  - vm_compute. reflexivity.
  - intros pk. vm_compute. discriminate.
  - reflexivity.
Defined.

Lemma foreign_key h (b b' : byte) sg :
  b ≠ b' → Sign h (Some b : @ecdsa_PrivateKey ToyCrypto.toy_crypto) = Ok sg →
  VerifySignature (FromECDSAPub (Some (PublicKeyOf (Some b' : @ecdsa_PrivateKey ToyCrypto.toy_crypto)))) h
    (take 64 sg) = false.
Proof.
  intros Hb Hs. destruct (ToyCrypto.sign_Ok h (Some b) sg Hs) as (b1 & [= <-] & Hh & ->).
  cbn -[replicate]. unfold ToyCrypto.verify. cbn. apply bool_decide_eq_false. intros (_ & E & _).
  rewrite take_app_ge in E by lia. apply app_inv_head in E. rewrite Hh in E. by injection E as [= <-].
Qed.

Lemma vote_order_splits_nodes_witness :
  let n' := foldl (fun n e => handle k0 e n) node1
    [EvVerifyVote (verify_req (extension val_key)) true; EvVerifyVote (verify_req (extension other_key)) true] in
  let n'' := foldl (fun n e => handle k0 e n) node1
    [EvVerifyVote (verify_req (extension other_key)) true; EvVerifyVote (verify_req (extension val_key)) true] in
  coll_get (KVStore n') VoteExtensionMap val1 ≠ coll_get (KVStore n'') VoteExtensionMap val1 ∧
  (VerifyVoteExtensionHandler (verify_req (extension val_key)) (KVStore n')).1 = Ok VERIFY_ACCEPT ∧
  (VerifyVoteExtensionHandler (verify_req (extension val_key)) (KVStore n'')).1 = Ok VERIFY_REJECT.
Proof.
  assert (mem_works (KVStore node1)) as Hn by (split; vm_compute; reflexivity).
  refine ((λ H, _) (vote_order_splits_nodes mem_works k0 k0 node1 node1 val_key other_key block_hash 5
    (extension val_key) (extension other_key) val1 [] [] mem_working Hn Hn _ _ _ _ _ _)).
  - destruct H as (E1 & E2 & Hne & Hv). split.
    + intros E. by pose proof (eq_trans (eq_sym E1) (eq_trans E E2)).
    + refine (proj1 (Hv block_hash 5%Z (extension val_key)) _). vm_compute. reflexivity.
  - vm_compute. reflexivity.
  - vm_compute. reflexivity.
  - intros pk. vm_compute. discriminate.
  - intros pk. vm_compute. discriminate.
  - intros h sg. by apply foreign_key.
  - intros h sg. by apply foreign_key.
Defined.

End Witnesses.

Section WideWitnesses.
Import MemStore ToyCodec ProtoValue DoublingRuntime WideCrypto.

Definition wide_extension : bytes :=
  match ExtendVoteHandler (Some x07) {| ExtendVote_Hash := block_hash; ExtendVote_Height := 5 |} with
  | Ok ext => ext
  | _ => []
  end.
Definition wide_vote : ExtendedVoteInfo := {| Vote_Address := mk val1; Vote_VoteExtension := wide_extension |}.
Definition wide_req : RequestPrepareProposal :=
  {| LocalLastCommit_Votes := [wide_vote]; Prepare_Txs := [str "tx"] |}.
Definition wide_txs : list bytes := match PrepareProposal wide_req with Ok txs => txs | _ => [] end.
Definition wide_node : Node store := {| KVStore := MemStore.empty; SecondaryPrivateKey := Some x07 |}.

(** The extension made on the last block's hash, in a proposal with another
    header hash: the validator's next extension is refused. *)
Lemma honest_vote_pins_header_key_witness :
  let n' := handle {| authority := []; Schema := collections_decl |}
    (EvProcessProposal {| Process_HeaderHash := replicate 32 x12; Process_Txs := wide_txs |} true) wide_node in
  ∃ ext, ExtendVoteHandler (Some x07) {| ExtendVote_Hash := replicate 32 x13; ExtendVote_Height := 7 |} = Ok ext ∧
    (VerifyVoteExtensionHandler {| Verify_Hash := replicate 32 x13; Verify_ValidatorAddress := val1;
       Verify_Height := 7; Verify_VoteExtension := ext |} (KVStore n')).1 = Ok VERIFY_REJECT.
Proof.
  intros n'. eexists. split; [vm_compute; reflexivity|].
  assert (∃ sig, Sign block_hash (Some x07) = Ok sig) as [sig Es] by (by eexists).
  refine (proj2 (honest_vote_pins_header_key mem_works {| authority := []; Schema := collections_decl |}
    wide_node wide_req [] wide_vote [] (Some x07) block_hash 5 sig (replicate 32 x12) x00 wide_txs []
    _ _ eq_refl _ _ Es _ _ _ _) _ _ _ _).
  - exact mem_working.
  - by split.
  - vm_compute. reflexivity.
  - vm_compute. reflexivity.
  - vm_compute in Es. injection Es as <-. vm_compute. reflexivity.
  - constructor.
  - intros pk. vm_compute. discriminate.
  - intros h sg Hs. destruct (ToyCrypto.sign_Ok h (Some x07) sg Hs) as (b & [= <-] & Hh & ->).
    cbn -[replicate]. unfold ToyCrypto.verify. cbn. apply bool_decide_eq_false. intros (_ & E & _).
    rewrite take_app_ge in E by lia. apply app_inv_head in E. rewrite Hh in E. discriminate.
  - vm_compute. reflexivity.
Defined.

End WideWitnesses.
