(* ===== verification/Gateway.v ===== *)
(** The REST gateway of the two modules, [x/*/types/query.pb.gw.go], and the
    query client of [query.pb.go] it calls.  The two files differ only in the
    path of their route, so the handlers are written once, for a unary [GET] whose
    request message has no fields.  The runtime of grpc-gateway, grpc and the HTTP
    server are the interface [GatewayRuntime]; [W] is the state they and the
    response writer share. *)
From S2P Require Import Prelude Store Wire SkTypes ExTypes Keeper ExampleModule.

#[local] Open Scope go_scope.

(** The outgoing or received headers of a call, [runtime.ServerMetadata] and
    [runtime.ServerTransportStream]. *)
Record ServerMetadata (MD : Type) := { HeaderMD : MD; TrailerMD : MD }.
Arguments HeaderMD {MD}.
Arguments TrailerMD {MD}.
Arguments Build_ServerMetadata {MD}.

Class GatewayRuntime (W Req Resp : Type) := {
  Ctx : Type;
  HttpRequest : Type;
  PathParams : Type;
  Marshaler : Type;
  ServeMux : Type;
  Pattern : Type;
  ForwardOpts : Type;
  DialOptions : Type;
  ClientConn : Type;
  (** [metadata.MD], its zero value and [metadata.Join] *)
  MD : Type;
  MD_zero : MD;
  metadata_Join : MD → MD → MD;
  Request_Context : HttpRequest → Ctx;
  (** [context.WithCancel] and its cancel function *)
  WithCancel : Ctx → GoM W (Ctx * GoM W unit);
  NewContextWithServerTransportStream : Ctx → Ctx;
  NewServerMetadataContext : Ctx → ServerMetadata MD → Ctx;
  AnnotateContext : Ctx → ServeMux → HttpRequest → outcome Ctx;
  AnnotateIncomingContext : Ctx → ServeMux → HttpRequest → outcome Ctx;
  MarshalerForRequest : ServeMux → HttpRequest → Marshaler * Marshaler;
  (** they write the response *)
  HTTPError : Ctx → ServeMux → Marshaler → HttpRequest → error → GoM W unit;
  ForwardResponseMessage :
    Ctx → ServeMux → Marshaler → HttpRequest → Resp → ForwardOpts → GoM W unit;
  GetForwardResponseOptions : ServeMux → ForwardOpts;
  Mux_Handle : ServeMux → bytes → Pattern → (HttpRequest → PathParams → GoM W unit) → GoM W unit;
  (** version, operations, string pool, verb, [AssumeColonVerbOpt] *)
  NewPattern : Z → list Z → list bytes → bytes → bool → outcome Pattern;
  grpc_Dial : bytes → DialOptions → GoM W ClientConn;
  Conn_Close : ClientConn → GoM W unit;
  (** [conn.Invoke(ctx, method, in, out, grpc.Header(_), grpc.Trailer(_))]: it
      fills the output message and the metadata *)
  Conn_Invoke : ClientConn → Ctx → bytes → Req → GoM (Resp * (ServerMetadata MD * W)) unit;
  grpclog_Infof : bytes → error → GoM W unit;
  (** [go func() { <-ctx.Done(); body }()] *)
  go_when_done : Ctx → GoM W unit → GoM W unit;
  (** what an error becomes on its way to a client *)
  status_Convert : error → error
}.

Section Gateway.
Context {W Req Resp : Type} `{!GatewayRuntime W Req Resp}.

(** [QueryServer] and [QueryClient]: the server may set the headers of the
    stream in its context, the client fills those of its call options. *)
Definition QueryServer : Type := Ctx → Req → GoM (ServerMetadata MD * W) Resp.
Definition QueryClient : Type := Ctx → Req → GoM (ServerMetadata MD * W) Resp.

Definition ServerMetadata_zero : ServerMetadata MD :=
  {| HeaderMD := MD_zero; TrailerMD := MD_zero |}.

(** The client of [query.pb.go]. *)
Definition queryClient_Params (method : bytes) (out : Resp) (cc : ClientConn) : QueryClient :=
  fun ctx in_ s =>
  match Conn_Invoke cc ctx method in_ (out, s) with
  | (Err err, (_, s')) => (Err err, s')
  | (Panic v, (_, s')) => (Panic v, s')
  | (Ok tt, (out, s')) => (Ok out, s')
  end.

(** The message or the error, with the metadata; the state is the world. *)
Definition Reply : Type := W → (outcome Resp * ServerMetadata MD) * W.

Definition request_Query_Params_0 (protoReq : Req) (ctx : Ctx) (client : QueryClient) : Reply :=
  fun w => let '(r, (metadata, w')) := client ctx protoReq (ServerMetadata_zero, w) in
           ((r, metadata), w').

(** The server writes the headers of the stream, not the metadata that is
    returned with the message. *)
Definition local_request_Query_Params_0 (protoReq : Req) (ctx : Ctx) (server : QueryServer)
    (stream : ServerMetadata MD) : W → (outcome Resp * ServerMetadata MD) * (ServerMetadata MD * W) :=
  fun w => let '(r, s') := server ctx protoReq (stream, w) in ((r, ServerMetadata_zero), s').

(** [defer d()]: it runs whatever the body does. *)
Definition deferred {A} (d : GoM W unit) (m : GoM W A) : GoM W A := fun w =>
  let '(r, w1) := m w in
  match d w1 with
  | (Ok _, w2) => (r, w2)
  | (Err e, w2) => (Err e, w2)
  | (Panic v, w2) => (Panic v, w2)
  end.

Definition forward_Query_Params_0 := ForwardResponseMessage.

(** The end of both handlers: an error or the message. *)
Definition respond (ctx : Ctx) (mux : ServeMux) (outbound : Marshaler) (req : HttpRequest)
    (r : outcome Resp) : GoM W unit :=
  let? resp := lift r else err => HTTPError ctx mux outbound req err in
  forward_Query_Params_0 ctx mux outbound req resp (GetForwardResponseOptions mux).

Definition server_handler (protoReq : Req) (mux : ServeMux) (server : QueryServer)
    (req : HttpRequest) (pathParams : PathParams) : GoM W unit :=
  c ← WithCancel (Request_Context req);
  deferred (snd c)
    (let ctx := NewContextWithServerTransportStream (fst c) in
     let '(inboundMarshaler, outboundMarshaler) := MarshalerForRequest mux req in
     let? rctx := lift (AnnotateIncomingContext ctx mux req)
       else err => HTTPError ctx mux outboundMarshaler req err in
     fun w =>
       let '((r, md), (stream, w1)) :=
         local_request_Query_Params_0 protoReq rctx server ServerMetadata_zero w in
       let md := {| HeaderMD := metadata_Join (HeaderMD md) (HeaderMD stream);
                    TrailerMD := metadata_Join (TrailerMD md) (TrailerMD stream) |} in
       respond (NewServerMetadataContext ctx md) mux outboundMarshaler req r w1).

Definition client_handler (protoReq : Req) (mux : ServeMux) (client : QueryClient)
    (req : HttpRequest) (pathParams : PathParams) : GoM W unit :=
  c ← WithCancel (Request_Context req);
  deferred (snd c)
    (let ctx := fst c in
     let '(inboundMarshaler, outboundMarshaler) := MarshalerForRequest mux req in
     let? rctx := lift (AnnotateContext ctx mux req)
       else err => HTTPError ctx mux outboundMarshaler req err in
     fun w =>
       let '((r, md), w1) := request_Query_Params_0 protoReq rctx client w in
       respond (NewServerMetadataContext ctx md) mux outboundMarshaler req r w1).

Definition RegisterQueryHandlerServer (protoReq : Req) (pattern : Pattern) (mux : ServeMux)
    (server : QueryServer) : GoM W unit :=
  _ ← Mux_Handle mux (str "GET") pattern (server_handler protoReq mux server);
  mret tt.

Definition RegisterQueryHandlerClient (protoReq : Req) (pattern : Pattern) (mux : ServeMux)
    (client : QueryClient) : GoM W unit :=
  _ ← Mux_Handle mux (str "GET") pattern (client_handler protoReq mux client);
  mret tt.

Definition RegisterQueryHandler (protoReq : Req) (method : bytes) (out : Resp) (pattern : Pattern)
    (mux : ServeMux) (conn : ClientConn) : GoM W unit :=
  RegisterQueryHandlerClient protoReq pattern mux (queryClient_Params method out conn).

Definition close_conn (endpoint : bytes) (conn : ClientConn) : GoM W unit :=
  let? _ := Conn_Close conn else cerr => grpclog_Infof endpoint cerr in mret tt.

(** The deferred function looks at the error the call is about to return, which
    is nil while it panics. *)
Definition RegisterQueryHandlerFromEndpoint (protoReq : Req) (method : bytes) (out : Resp)
    (pattern : Pattern) (ctx : Ctx) (mux : ServeMux) (endpoint : bytes) (opts : DialOptions)
    : GoM W unit :=
  let? conn := grpc_Dial endpoint opts else err => fail err in
  fun w =>
    let '(r, w1) := RegisterQueryHandler protoReq method out pattern mux conn w in
    deferred
      (match r with
       | Err err => close_conn endpoint conn
       | _ => go_when_done ctx (close_conn endpoint conn)
       end) (lift r) w1.

(** [runtime.MustPattern] *)
Definition MustPattern (p : outcome Pattern) : outcome Pattern :=
  let! pat := p else err => Panic err in Ok pat.

End Gateway.

(** ** A connection to a server *)

Section Agreement.
Context {W Req Resp : Type} `{!GatewayRuntime W Req Resp, !PbCodec Req, !PbCodec Resp}.

(** The connection reaches a server whose handler for the method is [handler]:
    the request travels as its wire encoding, the response comes back as its own
    and is decoded into the output message, an error as its status.  The call
    leaves the rest of the world alone. *)
Record served (conn : ClientConn) (method : bytes) (handler : bytes → W → outcome Resp) : Prop := {
  served_reply : ∀ ctx in_ out md w resp,
    fits (encoding in_) → handler (encoding in_) w = Ok resp → fits (encoding resp) →
    ∃ md', Conn_Invoke conn ctx method in_ (out, (md, w)) =
      let '(r, out') := pb_Unmarshal (encoding resp) out in (r, (out', (md', w)));
  served_error : ∀ ctx in_ out md w e,
    fits (encoding in_) → handler (encoding in_) w = Err e →
    ∃ md', Conn_Invoke conn ctx method in_ (out, (md, w)) =
      (Err (status_Convert e), (out, (md', w)))
}.

(** What the two ways to register the gateway have in common: from a world
    where the query answers [r], both requests give [r], and both handlers end
    by writing the response for [r]. *)
Definition agree (protoReq : Req) (server : QueryServer) (client : QueryClient) (w : W)
    (r : outcome Resp) : Prop :=
  (∀ ctx stream,
     local_request_Query_Params_0 protoReq ctx server stream w = ((r, ServerMetadata_zero), (stream, w))) ∧
  (∀ ctx, ∃ md, request_Query_Params_0 protoReq ctx client w = ((r, md), w)) ∧
  (∀ mux req pathParams w0 c cancel rctx rctx',
     WithCancel (Request_Context req) w0 = (Ok (c, cancel), w) →
     AnnotateIncomingContext (NewContextWithServerTransportStream c) mux req = Ok rctx →
     AnnotateContext c mux req = Ok rctx' →
     let respond_with ctx := deferred cancel (respond ctx mux (MarshalerForRequest mux req).2 req r) w in
     (∃ ctx, server_handler protoReq mux server req pathParams w0 = respond_with ctx) ∧
     (∃ ctx, client_handler protoReq mux client req pathParams w0 = respond_with ctx)).

Lemma agree_requests protoReq server client w r :
  (∀ ctx stream, server ctx protoReq (stream, w) = (r, (stream, w))) →
  (∀ ctx md, ∃ md', client ctx protoReq (md, w) = (r, (md', w))) →
  agree protoReq server client w r.
Proof.
  intros Hs Hc.
  assert (∀ ctx, ∃ md, request_Query_Params_0 protoReq ctx client w = ((r, md), w)) as Hr.
  { intros ctx. unfold request_Query_Params_0.
    destruct (Hc ctx ServerMetadata_zero) as [md ->]. by exists md. }
  assert (∀ ctx stream, local_request_Query_Params_0 protoReq ctx server stream w =
    ((r, ServerMetadata_zero), (stream, w))) as Hl.
  { intros ctx stream. unfold local_request_Query_Params_0. by rewrite Hs. }
  split; [exact Hl|]. split; [exact Hr|]. intros mux req pp w0 c cancel rctx rctx' Hw Hi Ho. cbv zeta.
  unfold server_handler, client_handler, mbind, gom_bind, catch, lift. rewrite Hw. cbn [fst snd].
  destruct (MarshalerForRequest mux req) as [inb outb]. rewrite Hi, Ho. unfold deferred.
  split.
  - rewrite Hl. by eexists.
  - destruct (Hr rctx') as [md ->]. by eexists.
Qed.

(** A generated client over such a connection, when the handler decodes the
    request and asks the server. *)
Lemma client_answers (conn : ClientConn) method handler ctx md w :
  served conn method handler → fits (encoding (pb_zero (M := Req))) →
  (∀ e, handler (encoding (pb_zero (M := Req))) w = Err e → status_Convert e = e) →
  (∀ resp, handler (encoding (pb_zero (M := Req))) w = Ok resp → fits (encoding resp)) →
  not_panic (handler (encoding (pb_zero (M := Req))) w) →
  ∃ md', queryClient_Params method pb_zero conn ctx pb_zero (md, w) =
    (handler (encoding (pb_zero (M := Req))) w, (md', w)).
Proof.
  intros Hs Hz He Hr Hp. unfold queryClient_Params.
  destruct (handler (encoding (pb_zero (M := Req))) w) as [resp|e|v] eqn:E; [| |done].
  - destruct (served_reply _ _ _ Hs ctx pb_zero pb_zero md w resp Hz E (Hr resp eq_refl)) as [md' ->].
    rewrite pb_roundtrip by by apply Hr. by exists md'.
  - destruct (served_error _ _ _ Hs ctx pb_zero pb_zero md w e Hz E) as [md' ->].
    rewrite He by done. by exists md'.
Qed.

End Agreement.

(** ** The gateway of secondarykeys *)
Module Sk.

Section Sk.
Context {W Store : Type} (KVStore : W → Store).
Context `{!GatewayRuntime W SkTypes.QueryParamsRequest SkTypes.QueryParamsResponse,
  !Collections Store, !CollValue SkTypes.Params}.

Definition pattern_Query_Params_0 : outcome Pattern :=
  MustPattern (NewPattern 1 [2; 0; 2; 1; 2; 2; 2; 3]%Z
    [str "example"; str "secondarykeys"; str "v1"; str "params"] [] false).

Definition Query_Params_method : bytes := str "/example.secondarykeys.v1.Query/Params".

(** The query server of the keeper on the store of the world. *)
Definition queryServer : QueryServer := fun ctx req s =>
  (Keeper.Query_Params (KVStore s.2) (Some req), s).

Definition NewQueryClient : ClientConn → QueryClient :=
  queryClient_Params Query_Params_method SkTypes.QueryParamsResponse_zero.

(** The service handler on the bytes of a request. *)
Definition handler (data : bytes) (w : W) : outcome SkTypes.QueryParamsResponse :=
  (Keeper.Query_Params_Handler (SkTypes.QueryParamsRequest_Unmarshal data) None (KVStore w)).1.

End Sk.
End Sk.

(** ** The gateway of example *)
Module Ex.

Section Ex.
Context {W Store : Type} (KVStore : W → Store).
Context `{!GatewayRuntime W ExTypes.QueryParamsRequest ExTypes.QueryParamsResponse,
  !Collections Store, !CollValue ExTypes.Params}.

Definition ex_request_Query_Params_0 := request_Query_Params_0 ExTypes.QueryParamsRequest_zero.
Definition ex_local_request_Query_Params_0 :=
  local_request_Query_Params_0 ExTypes.QueryParamsRequest_zero.

Definition ex_pattern_Query_Params_0 : outcome Pattern :=
  MustPattern (NewPattern 1 [2; 0; 2; 0; 2; 1; 2; 2]%Z
    [str "example"; str "v1"; str "params"] [] false).

Definition ex_Query_Params_method : bytes := str "/example.example.v1.Query/Params".

Definition ex_queryServer : QueryServer := fun ctx req s =>
  (ExampleModule.Query_Params (KVStore s.2) (Some req), s).

Definition ex_NewQueryClient : ClientConn → QueryClient :=
  queryClient_Params ex_Query_Params_method ExTypes.QueryParamsResponse_zero.

Definition ex_RegisterQueryHandlerServer := RegisterQueryHandlerServer ExTypes.QueryParamsRequest_zero.
Definition ex_RegisterQueryHandlerClient := RegisterQueryHandlerClient ExTypes.QueryParamsRequest_zero.
Definition ex_RegisterQueryHandler :=
  RegisterQueryHandler ExTypes.QueryParamsRequest_zero ex_Query_Params_method
    ExTypes.QueryParamsResponse_zero.
Definition ex_RegisterQueryHandlerFromEndpoint :=
  RegisterQueryHandlerFromEndpoint ExTypes.QueryParamsRequest_zero ex_Query_Params_method
    ExTypes.QueryParamsResponse_zero.

End Ex.
End Ex.

(** ** Properties *)

Section Theorems.
Context {W Store : Type} (KVStore : W → Store).
Context `{!GatewayRuntime W SkTypes.QueryParamsRequest SkTypes.QueryParamsResponse,
  !Collections Store, !CollValue SkTypes.Params}.

(** C21. The two gateways of the secondary keys are equivalent.  Over a connection
    that serves the module's query handler, the handlers registered for the
    endpoint answer every request as the ones registered for the server itself:
    the same parameters or the same error, written the same way, whatever the
    store holds.  Only the headers may differ. *)
Theorem gateway_local_remote conn w :
  served conn Sk.Query_Params_method (Sk.handler KVStore) →
  (∀ c m, status_Convert (Wrapped c (ErrorString m)) = Wrapped c (ErrorString m)) →
  not_panic (Keeper.Params_Get (KVStore w)) →
  agree SkTypes.QueryParamsRequest_zero (Sk.queryServer KVStore) (Sk.NewQueryClient conn) w
    (Keeper.Query_Params (KVStore w) (Some SkTypes.QueryParamsRequest_zero)).
Proof.
  intros Hs Hst Hp. apply agree_requests; [done|]. intros ctx md.
  apply (client_answers conn _ (Sk.handler KVStore) ctx md w Hs); [done|..];
    change (Sk.handler KVStore _ w)
      with (Keeper.Query_Params (KVStore w) (Some SkTypes.QueryParamsRequest_zero));
    cbn [Keeper.Query_Params]; destruct (Keeper.Params_Get (KVStore w)) as [p|e|v];
    try destruct (negb _); try done; intros ? [= <-]; [apply Hst|done..].
Qed.

(** Registering the gateway for an endpoint: a failed dial is returned as it
    is; a failed registration is returned after the connection is closed, whatever
    closing it answers; otherwise the connection is closed when the context is
    done. *)
Theorem from_endpoint_connection (protoReq : SkTypes.QueryParamsRequest) method out pattern ctx mux
    endpoint opts (w : W) :
  let run := RegisterQueryHandlerFromEndpoint protoReq method out pattern ctx mux endpoint opts w in
  (∀ e w1, grpc_Dial endpoint opts w = (Err e, w1) → run = (Err e, w1)) ∧
  (∀ conn w1, grpc_Dial endpoint opts w = (Ok conn, w1) →
     let register := Mux_Handle mux (str "GET") pattern
       (client_handler protoReq mux (queryClient_Params method out conn)) w1 in
     (∀ e w2 r w3, register = (Err e, w2) → Conn_Close conn w2 = (r, w3) →
        (∀ cerr, ∃ w4, grpclog_Infof endpoint cerr w3 = (Ok tt, w4)) → not_panic r →
        ∃ w4, run = (Err e, w4)) ∧
     (∀ w2, register = (Ok tt, w2) → run = go_when_done ctx (close_conn endpoint conn) w2)).
Proof.
  cbv zeta. unfold RegisterQueryHandlerFromEndpoint, RegisterQueryHandler,
    RegisterQueryHandlerClient, mbind, gom_bind, catch, fail.
  split; [by intros e w1 ->|]. intros conn w1 ->. split.
  - intros e w2 r w3 -> Hc Hlog Hr. unfold deferred, lift, close_conn, catch. rewrite Hc.
    destruct r as [[]|cerr|v]; [by eexists| |done].
    destruct (Hlog cerr) as [w4 ->]. by eexists.
  - intros w2 ->. unfold deferred, lift, mret, gom_ret.
    by destruct (go_when_done ctx _ w2) as [[[]|e|v] w3].
Qed.

End Theorems.

Section ExampleTheorems.
Context {W Store : Type} (KVStore : W → Store).
Context `{!GatewayRuntime W ExTypes.QueryParamsRequest ExTypes.QueryParamsResponse,
  !Collections Store, !CollValue ExTypes.Params}.

(** The same for the gateway of example, whose service has its own handler. *)
Theorem ex_gateway_local_remote conn w :
  served conn Ex.ex_Query_Params_method
    (fun data w => let '(r, req) := ExTypes.QueryParamsRequest_Unmarshal data ExTypes.QueryParamsRequest_zero in
       let! _ := r else e => Err e in ExampleModule.Query_Params (KVStore w) (Some req)) →
  (∀ c m, status_Convert (Wrapped c (ErrorString m)) = Wrapped c (ErrorString m)) →
  not_panic (ExampleModule.Params_Get (KVStore w)) →
  agree ExTypes.QueryParamsRequest_zero (Ex.ex_queryServer KVStore) (Ex.ex_NewQueryClient conn) w
    (ExampleModule.Query_Params (KVStore w) (Some ExTypes.QueryParamsRequest_zero)).
Proof.
  intros Hs Hst Hp. apply agree_requests; [done|]. intros ctx md.
  apply (client_answers conn _ _ ctx md w Hs); [done|..];
    cbn [encoding ExTypes.QueryParamsRequest_codec];
    change (ExTypes.QueryParamsRequest_Unmarshal [] ExTypes.QueryParamsRequest_zero)
      with (@Ok unit tt, ExTypes.QueryParamsRequest_zero); cbn [catch_o];
    cbn [ExampleModule.Query_Params]; destruct (ExampleModule.Params_Get (KVStore w)) as [p|e|v];
    try destruct (negb _); try done; intros ? [= <-]; [apply Hst|done..].
Qed.

End ExampleTheorems.

(** ** The properties at concrete inputs *)

(** A runtime whose world is the store and the responses written; a connection
    is a flag that says whether it is open. *)
Module ToyGateway.
Import MemStore ToyCodec Keeper.ProtoValue.

Record world := { ws : store; written : list (outcome unit); closed : nat }.

Definition write (r : outcome unit) : GoM world unit := fun w =>
  (Ok tt, {| ws := ws w; written := written w ++ [r]; closed := closed w |}).

(** The connection to a server on the same store. *)
Definition invoke (method : bytes) (in_ : SkTypes.QueryParamsRequest)
    (s : SkTypes.QueryParamsResponse * (ServerMetadata nat * world)) :
    outcome unit * (SkTypes.QueryParamsResponse * (ServerMetadata nat * world)) :=
  if decide (method = str "/example.secondarykeys.v1.Query/Params") then
    match SkTypes.QueryParamsRequest_Marshal in_ with
    | Ok data =>
        match Sk.handler ws data s.2.2 with
        | Ok resp =>
            match SkTypes.QueryParamsResponse_Marshal resp with
            | Ok bz => let '(r, out') := SkTypes.QueryParamsResponse_Unmarshal bz s.1 in (r, (out', s.2))
            | Err e => (Err e, s)
            | Panic v => (Panic v, s)
            end
        | Err e => (Err e, s)
        | Panic v => (Panic v, s)
        end
    | Err e => (Err e, s)
    | Panic v => (Panic v, s)
    end
  else (Err (status_Unimplemented "unknown method"), s).

#[export] Instance toy_gateway :
  GatewayRuntime world SkTypes.QueryParamsRequest SkTypes.QueryParamsResponse := {|
  Ctx := nat; HttpRequest := unit; PathParams := unit; Marshaler := unit; ServeMux := unit;
  Pattern := list bytes; ForwardOpts := unit; DialOptions := unit; ClientConn := unit;
  MD := nat; MD_zero := 0; metadata_Join := plus;
  Request_Context _ := 0; WithCancel c := mret (c, mret tt);
  NewContextWithServerTransportStream := id; NewServerMetadataContext c _ := c;
  AnnotateContext c _ _ := Ok c; AnnotateIncomingContext c _ _ := Ok c;
  MarshalerForRequest _ _ := (tt, tt);
  HTTPError _ _ _ _ e := write (Err e);
  ForwardResponseMessage _ _ _ _ _ _ := write (Ok tt);
  GetForwardResponseOptions _ := tt;
  Mux_Handle _ _ _ _ := mret tt;
  NewPattern _ _ pool _ _ := Ok pool;
  grpc_Dial endpoint _ := if decide (endpoint = []) then fail (ErrorString "missing address") else mret tt;
  Conn_Close _ := modify (fun w => {| ws := ws w; written := written w; closed := S (closed w) |});
  Conn_Invoke _ _ := invoke;
  grpclog_Infof _ _ := mret tt;
  go_when_done _ m := m;
  status_Convert := id
|}.

Lemma toy_served : served tt Sk.Query_Params_method (Sk.handler ws).
Proof.
  split; intros ctx in_ out md w x Hf Hh; cbn [Conn_Invoke toy_gateway]; unfold invoke;
    rewrite decide_True by done; cbn [fst snd];
    rewrite (pb_Marshal in_ Hf : SkTypes.QueryParamsRequest_Marshal in_ = Ok (encoding in_)), Hh.
  - intros Hx. exists md.
    rewrite (pb_Marshal x Hx : SkTypes.QueryParamsResponse_Marshal x = Ok (encoding x)). done.
  - by exists md.
Qed.

Definition world0 : world := {| ws := MemStore.empty; written := []; closed := 0 |}.

Lemma gateway_local_remote_witness :
  agree SkTypes.QueryParamsRequest_zero (Sk.queryServer ws) (Sk.NewQueryClient tt) world0
    (Ok (SkTypes.MkQueryParamsResponse SkTypes.MkParams)).
Proof.
  refine (gateway_local_remote ws tt world0 toy_served _ _); [done|].
  vm_compute. exact I.
Defined.

Definition route : Pattern := [str "params"].
Definition background : Ctx := 0.

Lemma from_endpoint_connection_witness :
  let run endpoint := RegisterQueryHandlerFromEndpoint SkTypes.QueryParamsRequest_zero
    Sk.Query_Params_method SkTypes.QueryParamsResponse_zero route background tt endpoint tt world0 in
  run [] = (Err (ErrorString "missing address"), world0) ∧
  closed (run (str "localhost:9090")).2 = 1.
Proof.
  split.
  - apply (from_endpoint_connection SkTypes.QueryParamsRequest_zero Sk.Query_Params_method
      SkTypes.QueryParamsResponse_zero route background tt [] tt world0). reflexivity.
  - rewrite (proj2 (proj2 (from_endpoint_connection SkTypes.QueryParamsRequest_zero
      Sk.Query_Params_method SkTypes.QueryParamsResponse_zero route background tt (str "localhost:9090") tt
      world0) tt world0 eq_refl) world0 eq_refl). reflexivity.
Defined.

End ToyGateway.
