(* ===== verification/Services.v ===== *)
(** How the two modules present themselves to the node and to the command line:
    the service descriptors of [tx.pb.go] and [query.pb.go] and their
    registration, the registration of the messages as [sdk.Msg] in
    [types/codec.go], the gateway routes and the [AutoCLIOptions] of
    [module/autocli.go]. *)
From S2P Require Import Prelude Json Crypto Store Common Wire SkTypes ExTypes Keeper ExampleModule Gateway.

#[local] Open Scope go_scope.

(** ** Service descriptors *)

(** A handler of a unary method: it decodes its request, runs the interceptor if
    there is one, and calls the server, here a keeper. *)
Inductive MethodHandler (Srv Store : Type) :=
| Unary {Req Resp : Type}
    (h : Srv → GoM Req unit → option (Req → (Req → GoM Store Resp) → GoM Store Resp) → GoM Store Resp).
Arguments Unary {Srv Store Req Resp}.

Record MethodDesc (Srv Store : Type) := { MethodName : bytes; Handler : MethodHandler Srv Store }.
Arguments MethodName {Srv Store}.
Arguments Handler {Srv Store}.
Arguments Build_MethodDesc {Srv Store}.

Record ServiceDesc (Srv Store : Type) := {
  ServiceName : bytes; Methods : list (MethodDesc Srv Store); Metadata : bytes
}.
Arguments ServiceName {Srv Store}.
Arguments Methods {Srv Store}.
Arguments Metadata {Srv Store}.
Arguments Build_ServiceDesc {Srv Store}.

(** A registrar keeps the services it was given, each with its server. *)
Definition Registrar (Srv Store : Type) : Type := list (ServiceDesc Srv Store * Srv).
Definition RegisterService {Srv Store} (desc : ServiceDesc Srv Store) (srv : Srv)
    : GoM (Registrar Srv Store) unit := modify (λ r, r ++ [(desc, srv)]).

(** ** Command-line options *)

Record RpcCommandOptions := {
  RpcMethod : bytes; Use : bytes; Short : bytes; Skip : bool; PositionalArgs : list bytes
}.
Record ServiceCommandDescriptor := {
  Service : bytes; EnhanceCustomCommand : bool; Options : list RpcCommandOptions
}.
Record ModuleOptions := { Query : ServiceCommandDescriptor; Tx : ServiceCommandDescriptor }.

Definition ParamsCommand : RpcCommandOptions := {|
  RpcMethod := str "Params"; Use := str "params"; Short := str "Shows the parameters of the module";
  Skip := false; PositionalArgs := [] |}.
Definition UpdateParamsCommand : RpcCommandOptions := {|
  RpcMethod := str "UpdateParams"; Use := []; Short := []; Skip := true; PositionalArgs := [] |}.

(** [codectypes.InterfaceRegistry]: registering implementations of [sdk.Msg], by
    the name of the message, and the messages of a service. *)
Class InterfaceRegistryLib (R : Type) := {
  RegisterImplementations : list bytes → GoM R unit;
  RegisterMsgServiceDesc : bytes → GoM R unit
}.

(** ** secondarykeys *)

Section Sk.
Context {Store : Type} `{!Collections Store, !AddressCodec, !CollValue SkTypes.Params,
  !Json.GoRuntime, !EthCrypto}.

(** [msgServer] and [queryServer] embed the keeper. *)
Definition NewMsgServerImpl (keeper : Keeper.Keeper) : Keeper.Keeper := keeper.
Definition NewQueryServerImpl (k : Keeper.Keeper) : Keeper.Keeper := k.

Definition Msg_serviceDesc : ServiceDesc Keeper.Keeper Store :=
  Build_ServiceDesc (str "example.secondarykeys.v1.Msg")
    [Build_MethodDesc (str "UpdateParams") (Unary Keeper.Msg_UpdateParams_Handler);
     Build_MethodDesc (str "BroadcastData") (Unary Keeper.Msg_BroadcastData_Handler)]
    (str "example/secondarykeys/v1/tx.proto").

Definition Query_serviceDesc : ServiceDesc Keeper.Keeper Store :=
  Build_ServiceDesc (str "example.secondarykeys.v1.Query")
    [Build_MethodDesc (str "Params") (Unary (λ _, Keeper.Query_Params_Handler))]
    (str "example/secondarykeys/v1/query.proto").

Definition RegisterMsgServer (srv : Keeper.Keeper) : GoM (Registrar Keeper.Keeper Store) unit :=
  RegisterService Msg_serviceDesc srv.
Definition RegisterQueryServer (srv : Keeper.Keeper) : GoM (Registrar Keeper.Keeper Store) unit :=
  RegisterService Query_serviceDesc srv.

Definition RegisterServices (keeper : Keeper.Keeper) : GoM (Registrar Keeper.Keeper Store) unit :=
  _ ← RegisterMsgServer (NewMsgServerImpl keeper);
  _ ← RegisterQueryServer (NewQueryServerImpl keeper);
  mret tt.

Definition AutoCLIOptions : ModuleOptions := {|
  Query := {| Service := ServiceName Query_serviceDesc; EnhanceCustomCommand := false;
              Options := [ParamsCommand] |};
  Tx := {| Service := ServiceName Msg_serviceDesc; EnhanceCustomCommand := true;
           Options := [UpdateParamsCommand;
             {| RpcMethod := str "BroadcastData"; Use := str "broadcast-data [data]";
                Short := str "Send a broadcast-data tx"; Skip := false;
                PositionalArgs := [str "data"] |}] |}
|}.

Definition RegisterInterfaces {R : Type} `{!InterfaceRegistryLib R} : GoM R unit :=
  _ ← RegisterImplementations [str "MsgBroadcastData"];
  _ ← RegisterImplementations [str "MsgUpdateParams"];
  RegisterMsgServiceDesc (ServiceName Msg_serviceDesc).

End Sk.

(** The client context is also the connection of the query client. *)
Definition RegisterGRPCGatewayRoutes
    {W : Type} `{!GatewayRuntime W SkTypes.QueryParamsRequest SkTypes.QueryParamsResponse}
    (pattern : Pattern) (mux : ServeMux) (clientCtx : ClientConn) : GoM W unit :=
  let? _ := RegisterQueryHandlerClient SkTypes.QueryParamsRequest_zero pattern mux
              (Sk.NewQueryClient clientCtx) else err => panic err in
  mret tt.

(** ** example *)

Section Ex.
Context {Store : Type} `{!Collections Store, !AddressCodec, !CollValue ExTypes.Params}.

Definition ex_Msg_UpdateParams_Handler (srv : ExampleModule.Keeper)
    (dec : GoM ExTypes.MsgUpdateParams unit) interceptor :=
  Keeper.unary_handler ExTypes.MsgUpdateParams_zero dec interceptor (ExampleModule.UpdateParams srv).

Definition ex_Query_Params_Handler (srv : ExampleModule.Keeper)
    (dec : GoM ExTypes.QueryParamsRequest unit) interceptor :=
  Keeper.unary_handler ExTypes.QueryParamsRequest_zero dec interceptor
    (fun req => reads (fun s : Store => ExampleModule.Query_Params s (Some req))).

Definition ex_NewMsgServerImpl (keeper : ExampleModule.Keeper) : ExampleModule.Keeper := keeper.
Definition ex_NewQueryServerImpl (k : ExampleModule.Keeper) : ExampleModule.Keeper := k.

Definition ex_Msg_serviceDesc : ServiceDesc ExampleModule.Keeper Store :=
  Build_ServiceDesc (str "example.example.v1.Msg")
    [Build_MethodDesc (str "UpdateParams") (Unary ex_Msg_UpdateParams_Handler)]
    (str "example/example/v1/tx.proto").

Definition ex_Query_serviceDesc : ServiceDesc ExampleModule.Keeper Store :=
  Build_ServiceDesc (str "example.example.v1.Query")
    [Build_MethodDesc (str "Params") (Unary ex_Query_Params_Handler)]
    (str "example/example/v1/query.proto").

Definition ex_RegisterServices (keeper : ExampleModule.Keeper)
    : GoM (Registrar ExampleModule.Keeper Store) unit :=
  _ ← RegisterService ex_Msg_serviceDesc (ex_NewMsgServerImpl keeper);
  _ ← RegisterService ex_Query_serviceDesc (ex_NewQueryServerImpl keeper);
  mret tt.

Definition ex_AutoCLIOptions : ModuleOptions := {|
  Query := {| Service := ServiceName ex_Query_serviceDesc; EnhanceCustomCommand := false;
              Options := [ParamsCommand] |};
  Tx := {| Service := ServiceName ex_Msg_serviceDesc; EnhanceCustomCommand := true;
           Options := [UpdateParamsCommand] |}
|}.

Definition ex_RegisterInterfaces {R : Type} `{!InterfaceRegistryLib R} : GoM R unit :=
  _ ← RegisterImplementations [str "MsgUpdateParams"];
  RegisterMsgServiceDesc (ServiceName ex_Msg_serviceDesc).

End Ex.

Definition ex_RegisterGRPCGatewayRoutes
    {W : Type} `{!GatewayRuntime W ExTypes.QueryParamsRequest ExTypes.QueryParamsResponse}
    (pattern : Pattern) (mux : ServeMux) (clientCtx : ClientConn) : GoM W unit :=
  let? _ := Ex.ex_RegisterQueryHandlerClient pattern mux (Ex.ex_NewQueryClient clientCtx)
    else err => panic err in
  mret tt.

(** ** Properties *)

(** How a server finds a method: by the path [/service/method]. *)
Definition method_path (service method : bytes) : bytes := str "/" ++ service ++ str "/" ++ method.

Definition resolve {Srv Store} (r : Registrar Srv Store) (path : bytes)
    : option (MethodHandler Srv Store * Srv) :=
  head (r ≫= λ '(desc, srv), omap (λ m,
    if decide (method_path (ServiceName desc) (MethodName m) = path)
    then Some (Handler m, srv) else None) (Methods desc)).

(** The commands of a module's options, by path. *)
Definition command_paths (d : ServiceCommandDescriptor) : list bytes :=
  map (λ o, method_path (Service d) (RpcMethod o)) (Options d).

Section Theorems.
Context {Store : Type} `{!Collections Store, !AddressCodec, !CollValue SkTypes.Params,
  !Json.GoRuntime, !EthCrypto}.

(** A node that registered the services of the secondary keys serves what
    their clients call: the gateway's method is the keeper's query handler; every
    command the module gives the command line is a method of a registered
    service, served by the same keeper, and every method has its command; only
    the authority-gated one is skipped. *)
Theorem services_resolve (keeper : Keeper.Keeper) u (r : Registrar Keeper.Keeper Store) :
  RegisterServices keeper [] = (Ok u, r) →
  resolve r Sk.Query_Params_method = Some (Unary (λ _, Keeper.Query_Params_Handler), keeper) ∧
  resolve r (str "/example.secondarykeys.v1.Msg/BroadcastData") =
    Some (Unary Keeper.Msg_BroadcastData_Handler, keeper) ∧
  Forall (λ path, ∃ h, resolve r path = Some (h, keeper))
    (command_paths (Query (AutoCLIOptions (Store := Store))) ++
     command_paths (Tx (AutoCLIOptions (Store := Store)))) ∧
  (∀ desc, (desc, keeper) ∈ r →
     Forall (λ m, method_path (ServiceName desc) (MethodName m) ∈
       command_paths (Query (AutoCLIOptions (Store := Store))) ++
       command_paths (Tx (AutoCLIOptions (Store := Store)))) (Methods desc)) ∧
  map RpcMethod (filter (λ o, Skip o = true) (Options (Tx (AutoCLIOptions (Store := Store))))) =
    [str "UpdateParams"].
Proof.
  unfold RegisterServices, RegisterMsgServer, RegisterQueryServer, RegisterService.
  cbn. intros [= <- <-]. split_and!; [reflexivity..| | |reflexivity].
  - repeat constructor; eexists; reflexivity.
  - intros desc [E|[E|[]%not_elem_of_nil]%elem_of_cons]%elem_of_cons; injection E as ->;
      repeat constructor; apply (bool_decide_eq_true_1 _); reflexivity.
Qed.

End Theorems.

(** ** The property at a concrete input *)

Section Witnesses.
Import Keeper.Concrete.

Definition registrar : Registrar Keeper.Keeper MemStore.store := (RegisterServices Keeper.Concrete.k0 []).2.

Lemma services_resolve_witness :
  resolve registrar (str "/example.secondarykeys.v1.Msg/BroadcastData") =
    Some (Unary Keeper.Msg_BroadcastData_Handler, Keeper.Concrete.k0).
Proof. apply (services_resolve Keeper.Concrete.k0 tt registrar eq_refl). Defined.

End Witnesses.
