(* ===== verification/AppConfig.v ===== *)
(** [app/app_config.go], the account tables of [app/app.go], [app/genesis.go] and
    [app/genesis_account.go]: which module accounts exist with which
    permissions, which of them may not receive funds, the order in which the
    modules' blockers and genesis run, and the modules the application is
    composed of.  The names the SDK and ibc-go packages declare are the
    interface [SdkNames]; nothing depends on their values but that the names of
    one kind are distinct. *)
From S2P Require Import Prelude.
From S2P Require Keeper ExampleModule.
From stdpp Require Import list_relations.

#[local] Open Scope go_scope.

Class SdkNames := {
  authtypes_FeeCollectorName : bytes; authtypes_ModuleName : bytes;
  authtypes_Minter : bytes; authtypes_Burner : bytes;
  distrtypes_ModuleName : bytes; minttypes_ModuleName : bytes;
  stakingtypes_BondedPoolName : bytes; stakingtypes_NotBondedPoolName : bytes;
  stakingtypes_ModuleName : bytes; govtypes_ModuleName : bytes; nft_ModuleName : bytes;
  ibctransfertypes_ModuleName : bytes; icatypes_ModuleName : bytes;
  ibcexported_ModuleName : bytes; runtime_ModuleName : bytes;
  upgradetypes_ModuleName : bytes; slashingtypes_ModuleName : bytes;
  evidencetypes_ModuleName : bytes; authz_ModuleName : bytes; epochstypes_ModuleName : bytes;
  feegrant_ModuleName : bytes; group_ModuleName : bytes; consensustypes_ModuleName : bytes;
  banktypes_ModuleName : bytes; genutiltypes_ModuleName : bytes; vestingtypes_ModuleName : bytes;
  circuittypes_ModuleName : bytes; paramstypes_ModuleName : bytes;
  ibctm_ModuleName : bytes; solomachine_ModuleName : bytes
}.

Definition examplemoduletypes_ModuleName : bytes := ExampleModule.ModuleName.
Definition secondarykeysmoduletypes_ModuleName : bytes := Keeper.ModuleName.

(** [app.go] *)
Definition Name : bytes := str "example".
Definition AccountAddressPrefix : bytes := str "cosmos".
Definition ChainCoinType : Z := 118.

(** [config.go]: the SDK's package variable and its configuration, whose setters
    panic once it is sealed. *)
Class SdkConfig (S : Type) := {
  set_DefaultBondDenom : bytes → GoM S unit;
  SetCoinType : Z → GoM S unit;
  SetBech32PrefixForAccount : bytes → bytes → GoM S unit;
  SetBech32PrefixForValidator : bytes → bytes → GoM S unit;
  SetBech32PrefixForConsensusNode : bytes → bytes → GoM S unit;
  Seal : GoM S unit
}.

Definition config_init {S} `{!SdkConfig S} : GoM S unit :=
  _ ← set_DefaultBondDenom (str "stake");
  let accountPubKeyPrefix := AccountAddressPrefix ++ str "pub" in
  let validatorAddressPrefix := AccountAddressPrefix ++ str "valoper" in
  let validatorPubKeyPrefix := AccountAddressPrefix ++ str "valoperpub" in
  let consNodeAddressPrefix := AccountAddressPrefix ++ str "valcons" in
  let consNodePubKeyPrefix := AccountAddressPrefix ++ str "valconspub" in
  _ ← SetCoinType ChainCoinType;
  _ ← SetBech32PrefixForAccount AccountAddressPrefix accountPubKeyPrefix;
  _ ← SetBech32PrefixForValidator validatorAddressPrefix validatorPubKeyPrefix;
  _ ← SetBech32PrefixForConsensusNode consNodeAddressPrefix consNodePubKeyPrefix;
  Seal.

(** [authmodulev1.ModuleAccountPermission] *)
Record ModuleAccountPermission := { Account : bytes; Permissions : slice bytes }.

(** A module's options; the options of a module that takes the defaults are an
    empty message. *)
Record RuntimeModule := {
  AppName : bytes; PreBlockers : list bytes; BeginBlockers : list bytes;
  EndBlockers : list bytes; OverrideStoreKeys : list (bytes * bytes); InitGenesis : list bytes
}.
Record AuthModule := {
  Bech32Prefix : bytes; ModuleAccountPermissions : list ModuleAccountPermission;
  EnableUnorderedTransactions : bool
}.
Inductive Config :=
| RuntimeConfig (m : RuntimeModule)
| AuthConfig (m : AuthModule)
| BankConfig (BlockedModuleAccountsOverride : list bytes)
| GroupConfig (MaxExecutionPeriod MaxMetadataLen : Z)
| Defaults.
Record ModuleConfig := { Config_Name : bytes; Config_Config : Config }.

(** [authtypes.GenesisAccount]'s and [authtypes.ModuleAccount]'s code: the
    validation of the embedded base account and of a module account made of it. *)
Class AccountLib := {
  BaseAccount_t : Type;
  Coins_t : Type;
  Coins_IsZero : Coins_t → bool;
  BaseAccount_Validate : BaseAccount_t → outcome unit;
  ModuleAccount_Validate : BaseAccount_t → bytes → list bytes → outcome unit
}.

Section AppConfig.
Context `{!SdkNames}.

Definition moduleAccPerms : list ModuleAccountPermission :=
  [{| Account := authtypes_FeeCollectorName; Permissions := NilSlice |};
   {| Account := distrtypes_ModuleName; Permissions := NilSlice |};
   {| Account := minttypes_ModuleName; Permissions := mk [authtypes_Minter] |};
   {| Account := stakingtypes_BondedPoolName;
      Permissions := mk [authtypes_Burner; stakingtypes_ModuleName] |};
   {| Account := stakingtypes_NotBondedPoolName;
      Permissions := mk [authtypes_Burner; stakingtypes_ModuleName] |};
   {| Account := govtypes_ModuleName; Permissions := mk [authtypes_Burner] |};
   {| Account := nft_ModuleName; Permissions := NilSlice |};
   {| Account := ibctransfertypes_ModuleName;
      Permissions := mk [authtypes_Minter; authtypes_Burner] |};
   {| Account := icatypes_ModuleName; Permissions := NilSlice |}].

Definition blockAccAddrs : list bytes :=
  [authtypes_FeeCollectorName; distrtypes_ModuleName; minttypes_ModuleName;
   stakingtypes_BondedPoolName; stakingtypes_NotBondedPoolName; nft_ModuleName].

Definition runtimeModule : RuntimeModule := {|
  AppName := Name;
  PreBlockers := [upgradetypes_ModuleName; authtypes_ModuleName];
  BeginBlockers :=
    [minttypes_ModuleName; distrtypes_ModuleName; slashingtypes_ModuleName;
     evidencetypes_ModuleName; stakingtypes_ModuleName; authz_ModuleName;
     epochstypes_ModuleName; ibcexported_ModuleName; examplemoduletypes_ModuleName;
     secondarykeysmoduletypes_ModuleName];
  EndBlockers :=
    [govtypes_ModuleName; stakingtypes_ModuleName; feegrant_ModuleName; group_ModuleName;
     examplemoduletypes_ModuleName; secondarykeysmoduletypes_ModuleName];
  OverrideStoreKeys := [(authtypes_ModuleName, str "acc")];
  InitGenesis :=
    [consensustypes_ModuleName; authtypes_ModuleName; banktypes_ModuleName;
     distrtypes_ModuleName; stakingtypes_ModuleName; slashingtypes_ModuleName;
     govtypes_ModuleName; minttypes_ModuleName; genutiltypes_ModuleName;
     evidencetypes_ModuleName; authz_ModuleName; feegrant_ModuleName; vestingtypes_ModuleName;
     nft_ModuleName; group_ModuleName; upgradetypes_ModuleName; circuittypes_ModuleName;
     epochstypes_ModuleName; ibcexported_ModuleName; ibctransfertypes_ModuleName;
     icatypes_ModuleName; examplemoduletypes_ModuleName; secondarykeysmoduletypes_ModuleName]
|}.

Definition defaults (name : bytes) : ModuleConfig :=
  {| Config_Name := name; Config_Config := Defaults |}.

Definition authModule : ModuleConfig := {|
  Config_Name := authtypes_ModuleName;
  Config_Config := AuthConfig {| Bech32Prefix := AccountAddressPrefix;
                                 ModuleAccountPermissions := moduleAccPerms;
                                 EnableUnorderedTransactions := true |} |}.

(** The SDK's modules after the auth module, and the chain's own. *)
Definition sdkModules : list ModuleConfig :=
  [defaults vestingtypes_ModuleName;
   {| Config_Name := banktypes_ModuleName; Config_Config := BankConfig blockAccAddrs |};
   defaults stakingtypes_ModuleName; defaults slashingtypes_ModuleName; defaults (str "tx");
   defaults genutiltypes_ModuleName; defaults authz_ModuleName; defaults upgradetypes_ModuleName;
   defaults distrtypes_ModuleName; defaults evidencetypes_ModuleName;
   defaults minttypes_ModuleName;
   {| Config_Name := group_ModuleName;
      Config_Config := GroupConfig (10 ^ 9 * 1209600) 255 |};
   defaults nft_ModuleName; defaults feegrant_ModuleName; defaults govtypes_ModuleName;
   defaults consensustypes_ModuleName; defaults circuittypes_ModuleName;
   defaults paramstypes_ModuleName; defaults epochstypes_ModuleName].
Definition chainModules : list ModuleConfig :=
  [defaults examplemoduletypes_ModuleName; defaults secondarykeysmoduletypes_ModuleName].

Definition appConfig : list ModuleConfig :=
  {| Config_Name := runtime_ModuleName; Config_Config := RuntimeConfig runtimeModule |}
  :: authModule :: sdkModules ++ chainModules.

(** What dependency injection starts from: the composed modules, and the supplied
    basics of modules that need their own. *)
Record DepConfig (Basic : Type) := {
  composed : list ModuleConfig; supplied_basics : gmap bytes Basic
}.

(** [AppConfig] of [app.go], with [genutil]'s module basic. *)
Definition AppConfig {Basic : Type} (genutil_basic : Basic) : DepConfig Basic := {|
  composed := appConfig; supplied_basics := {[ genutiltypes_ModuleName := genutil_basic ]} |}.

(** The modules [ibc.go] registers by hand. *)
Definition ibcModules : list bytes :=
  [ibcexported_ModuleName; ibctransfertypes_ModuleName; icatypes_ModuleName;
   ibctm_ModuleName; solomachine_ModuleName].

(** [dup[perms.GetAccount()] = perms.GetPermissions()], account by account. *)
Definition GetMaccPerms : gmap bytes (slice bytes) :=
  foldl (λ dup perms, <[Account perms := Permissions perms]> dup) ∅ moduleAccPerms.

Definition BlockedAddresses : gmap bytes bool :=
  if (0 <? length blockAccAddrs)%nat then
    foldl (λ result addr, <[addr := true]> result) ∅ blockAccAddrs
  else
    foldl (λ result addr, <[addr := true]> result) ∅ (map fst (map_to_list GetMaccPerms)).

(** ** [genesis.go] and [genesis_account.go] *)

(** The genesis documents of the modules, by the modules' names. *)
Definition GenesisState : Type := gmap bytes bytes.

Context `{!AccountLib}.

Record GenesisAccount := {
  BaseAccount : BaseAccount_t;
  OriginalVesting : Coins_t; DelegatedFree : Coins_t; DelegatedVesting : Coins_t;
  StartTime : Z; EndTime : Z;
  GenesisAccount_ModuleName : bytes; ModulePermissions : list bytes
}.

Definition Validate (sga : GenesisAccount) : outcome unit :=
  if negb (Coins_IsZero (OriginalVesting sga)) && (StartTime sga >=? EndTime sga)%Z
  then Err (ErrorString "vesting start-time cannot be before end-time")
  else
    if negb (bool_decide (GenesisAccount_ModuleName sga = [])) then
      let! _ := ModuleAccount_Validate (BaseAccount sga) (GenesisAccount_ModuleName sga)
                  (ModulePermissions sga)
        else err => Err err in
      BaseAccount_Validate (BaseAccount sga)
    else BaseAccount_Validate (BaseAccount sga).

End AppConfig.

(** ** Properties *)

Lemma foldl_insert_lookup {V A} (f : V → bytes) (g : V → A) (l : list V) (m : gmap bytes A) k x :
  NoDup (map f l) → (∀ v, v ∈ l → m !! f v = None) →
  foldl (λ r v, <[f v := g v]> r) m l !! k = Some x ↔
  m !! k = Some x ∨ ∃ v, v ∈ l ∧ f v = k ∧ g v = x.
Proof.
  revert m. induction l as [|v l IH]; intros m; cbn; [set_solver|].
  intros [Hv Hl]%NoDup_cons Hm. rewrite list_elem_of_fmap in Hv.
  assert (Hnew : ∀ w, w ∈ l → <[f v := g v]> m !! f w = None).
  { intros w Hw. rewrite lookup_insert_ne; [by apply Hm; right|].
    intros E. apply Hv. by exists w. }
  rewrite (IH _ Hl Hnew), lookup_insert_Some. pose proof (Hm v (list_elem_of_here _ _)) as Hmv.
  setoid_rewrite elem_of_cons. split.
  - intros [[[<- <-]|[_ ?]]|(w & ? & ? & ?)]; eauto 6.
  - intros [Hk|(w & [->|?] & <- & <-)]; [|by left; left|eauto 6].
    left. right. split; [congruence|done].
Qed.

(** A list read off another at the given positions. *)
Definition pick {A} (l : list A) (idx : list nat) : list A := omap (l !!.) idx.

Lemma pick_NoDup {A} (l : list A) idx : NoDup l → NoDup idx → NoDup (pick l idx).
Proof.
  intros Hl. induction 1 as [|i idx Hi His IH]; cbn; [constructor|].
  destruct (l !! i) as [x|] eqn:E; [|done]. apply NoDup_cons. split; [|done].
  intros (j & Hj & E')%list_elem_of_omap. apply Hi. by rewrite (NoDup_lookup l i j x).
Qed.

Lemma pick_subseteq {A} (l : list A) idx : pick l idx ⊆ l.
Proof. intros x (j & _ & E)%list_elem_of_omap. by eapply list_elem_of_lookup_2. Qed.

(** Every [a] of [l] stands in front of every [b], and both occur. *)
Definition runs_before (l : list bytes) (a b : bytes) : Prop :=
  a ∈ l ∧ b ∈ l ∧ ∀ i j, l !! i = Some a → l !! j = Some b → (i < j)%nat.

Lemma runs_before_split l1 l2 a b :
  NoDup (l1 ++ a :: l2) → b ∈ l2 → runs_before (l1 ++ a :: l2) a b.
Proof.
  intros Hnd Hb. split_and!; [set_solver..|]. intros i j Hi Hj.
  assert (Ha : (l1 ++ a :: l2) !! length l1 = Some a) by (by apply list_lookup_middle).
  assert (i = length l1) as -> by (by eapply NoDup_lookup).
  apply list_elem_of_lookup in Hb as [n Hn].
  assert (Hb : (l1 ++ a :: l2) !! (length l1 + S n)%nat = Some b).
  { rewrite lookup_app_r by lia. by replace (_ - _)%nat with (S n) by lia. }
  assert (j = (length l1 + S n)%nat) as -> by (by eapply NoDup_lookup). lia.
Qed.

Lemma runs_before_last l a b :
  NoDup (l ++ [b]) → a ∈ l ++ [b] → a ≠ b → runs_before (l ++ [b]) a b.
Proof.
  intros Hnd Ha Hne. assert (a ∈ l) as (l1 & l2 & ->)%list_elem_of_split by set_solver.
  rewrite <-app_assoc in Hnd |- *. apply runs_before_split; [done|set_solver].
Qed.

Section Theorems.
Context `{!SdkNames}.

(** The names the application uses for its modules. *)
Definition moduleNames : list bytes := map Config_Name appConfig ++ ibcModules.

Lemma accounts_split :
  map Account moduleAccPerms ≡ₚ
    blockAccAddrs ++ [govtypes_ModuleName; ibctransfertypes_ModuleName; icatypes_ModuleName].
Proof. cbn. do 5 apply Permutation_skip. apply Permutation_swap. Qed.

Lemma GetMaccPerms_lookup a perms :
  NoDup (map Account moduleAccPerms) →
  GetMaccPerms !! a = Some perms ↔ {| Account := a; Permissions := perms |} ∈ moduleAccPerms.
Proof.
  intros Hnd. unfold GetMaccPerms.
  rewrite (foldl_insert_lookup Account Permissions) by done. split.
  - intros [?|([] & ? & <- & <-)]; done.
  - intros ?. right. by eexists.
Qed.

Lemma accounts_is_Some a :
  NoDup (map Account moduleAccPerms) →
  is_Some (GetMaccPerms !! a) ↔ a ∈ map Account moduleAccPerms.
Proof.
  intros Hnd. unfold is_Some. setoid_rewrite GetMaccPerms_lookup; [|done].
  rewrite list_elem_of_fmap. split; [intros [p ?]; by exists {| Account := a; Permissions := p |}|].
  intros ([a' p] & -> & ?). by exists p.
Qed.

(** Exactly the module accounts of the permission table other than the
    governance, the IBC transfer and the interchain accounts' are blocked from
    receiving funds; no other address is ever blocked; and the permission table
    hands out each account's own permissions. *)
Theorem BlockedAddresses_spec a :
  NoDup (map Account moduleAccPerms) →
  (BlockedAddresses !! a = Some true ↔
     is_Some (GetMaccPerms !! a) ∧
     a ∉ [govtypes_ModuleName; ibctransfertypes_ModuleName; icatypes_ModuleName]) ∧
  BlockedAddresses !! a ≠ Some false ∧
  (∀ perms, GetMaccPerms !! a = Some perms ↔
     {| Account := a; Permissions := perms |} ∈ moduleAccPerms).
Proof.
  intros Hnd.
  assert (Hb : ∀ b, BlockedAddresses !! a = Some b ↔ a ∈ blockAccAddrs ∧ true = b).
  { intros b. transitivity ((∅ : gmap bytes bool) !! a = Some b ∨
      ∃ v, v ∈ blockAccAddrs ∧ v = a ∧ true = b); [|rewrite lookup_empty; naive_solver].
    apply (foldl_insert_lookup id (λ _, true)); [|done].
    rewrite map_id. refine (sublist_NoDup _ _ Hnd _). repeat constructor. }
  split_and!; [|naive_solver|intros; by apply GetMaccPerms_lookup]. rewrite Hb, accounts_is_Some by done.
  rewrite accounts_split in Hnd |- *. apply NoDup_app in Hnd as (_ & Hnd & _).
  rewrite elem_of_app. naive_solver.
Qed.

(** The orderings of the modules: every module they name is part of the
    application; each runs once; and the orders the configuration's comments ask
    for hold: upgrades first, distribution before slashing in [BeginBlock], and
    in the genesis the accounts and the stakes before the genesis
    transactions and the chain's own modules last. *)
Theorem app_config_orders :
  NoDup moduleNames →
  let r := runtimeModule in
  Forall (λ l, l ⊆ moduleNames) [PreBlockers r; BeginBlockers r; EndBlockers r; InitGenesis r] ∧
  NoDup (PreBlockers r) ∧ NoDup (BeginBlockers r) ∧ NoDup (EndBlockers r) ∧
  NoDup (InitGenesis r) ∧
  head (PreBlockers r) = Some upgradetypes_ModuleName ∧
  runs_before (BeginBlockers r) distrtypes_ModuleName slashingtypes_ModuleName ∧
  runs_before (InitGenesis r) authtypes_ModuleName genutiltypes_ModuleName ∧
  runs_before (InitGenesis r) stakingtypes_ModuleName genutiltypes_ModuleName ∧
  (∀ m, m ∈ InitGenesis r → m ≠ secondarykeysmoduletypes_ModuleName →
     runs_before (InitGenesis r) m secondarykeysmoduletypes_ModuleName).
Proof.
  intros Hnd r.
  assert (Hpick : ∀ idx, bool_decide (NoDup idx) = true → NoDup (pick moduleNames idx)).
  { intros idx ?%bool_decide_eq_true. by apply pick_NoDup. }
  pose proof (Hpick [12; 10; 5; 11; 4; 8; 20; 23; 21; 22]%nat eq_refl) as Hb.
  pose proof (Hpick [17; 1; 3; 10; 4; 5; 16; 12; 7; 11; 8; 15; 2; 14; 13; 9; 18; 20; 23; 24; 25;
    21; 22]%nat eq_refl) as Hg.
  split_and!.
  - rewrite !Forall_cons. split_and!; [..|by constructor].
    + apply (pick_subseteq moduleNames [9; 1]%nat).
    + apply (pick_subseteq moduleNames [12; 10; 5; 11; 4; 8; 20; 23; 21; 22]%nat).
    + apply (pick_subseteq moduleNames [16; 4; 15; 13; 21; 22]%nat).
    + apply (pick_subseteq moduleNames [17; 1; 3; 10; 4; 5; 16; 12; 7; 11; 8; 15; 2; 14; 13; 9; 18;
        20; 23; 24; 25; 21; 22]%nat).
  - apply (Hpick [9; 1]%nat). reflexivity.
  - exact Hb.
  - by apply (Hpick [16; 4; 15; 13; 21; 22]%nat).
  - exact Hg.
  - done.
  - apply (runs_before_split [minttypes_ModuleName]); [exact Hb|cbn; set_solver].
  - apply (runs_before_split [consensustypes_ModuleName]); [exact Hg|cbn; set_solver].
  - apply (runs_before_split [consensustypes_ModuleName; authtypes_ModuleName;
      banktypes_ModuleName; distrtypes_ModuleName]); [exact Hg|cbn; set_solver].
  - intros m Hm Hne. exact (runs_before_last (take 22 (InitGenesis r)) _ _ Hg Hm Hne).
Qed.
(** A genesis account is valid exactly when a vesting account vests
    over a non-empty period, a module account is a valid one, and the base
    account is valid; the period is checked before everything else, and the base
    account last. *)
Lemma GenesisAccount_Validate_spec `{!AccountLib} (sga : GenesisAccount) :
  (Validate sga = Ok tt ↔
     (Coins_IsZero (OriginalVesting sga) = true ∨ (StartTime sga < EndTime sga)%Z) ∧
     (GenesisAccount_ModuleName sga = [] ∨
      ModuleAccount_Validate (BaseAccount sga) (GenesisAccount_ModuleName sga)
        (ModulePermissions sga) = Ok tt) ∧
     BaseAccount_Validate (BaseAccount sga) = Ok tt) ∧
  (Coins_IsZero (OriginalVesting sga) = false → (EndTime sga ≤ StartTime sga)%Z →
     Validate sga = Err (ErrorString "vesting start-time cannot be before end-time")).
Proof.
  unfold Validate, catch_o. rewrite Z.geb_leb.
  destruct (Coins_IsZero _), (Z.leb_spec (EndTime sga) (StartTime sga)),
    (ModuleAccount_Validate _ _ _) as [[]|e|v], (BaseAccount_Validate _) as [[]|e'|v'],
    (bool_decide_reflect (GenesisAccount_ModuleName sga = []));
    cbn [negb andb]; intuition (congruence || lia).
Qed.

End Theorems.

(** ** The SDK's names *)

Module SdkValues.

#[export] Instance sdk_names : SdkNames := {|
  authtypes_FeeCollectorName := str "fee_collector"; authtypes_ModuleName := str "auth";
  authtypes_Minter := str "minter"; authtypes_Burner := str "burner";
  distrtypes_ModuleName := str "distribution"; minttypes_ModuleName := str "mint";
  stakingtypes_BondedPoolName := str "bonded_tokens_pool";
  stakingtypes_NotBondedPoolName := str "not_bonded_tokens_pool";
  stakingtypes_ModuleName := str "staking"; govtypes_ModuleName := str "gov";
  nft_ModuleName := str "nft"; ibctransfertypes_ModuleName := str "transfer";
  icatypes_ModuleName := str "interchainaccounts"; ibcexported_ModuleName := str "ibc";
  runtime_ModuleName := str "runtime"; upgradetypes_ModuleName := str "upgrade";
  slashingtypes_ModuleName := str "slashing"; evidencetypes_ModuleName := str "evidence";
  authz_ModuleName := str "authz"; epochstypes_ModuleName := str "epochs";
  feegrant_ModuleName := str "feegrant"; group_ModuleName := str "group";
  consensustypes_ModuleName := str "consensus"; banktypes_ModuleName := str "bank";
  genutiltypes_ModuleName := str "genutil"; vestingtypes_ModuleName := str "vesting";
  circuittypes_ModuleName := str "circuit"; paramstypes_ModuleName := str "params";
  ibctm_ModuleName := str "07-tendermint"; solomachine_ModuleName := str "06-solomachine"
|}.

Lemma BlockedAddresses_spec_witness :
  BlockedAddresses !! str "mint" = Some true ∧ ¬ BlockedAddresses !! str "gov" = Some true.
Proof.
  assert (NoDup (map Account moduleAccPerms)) as Hnd
    by (apply (bool_decide_eq_true_1 _); vm_compute; reflexivity).
  destruct (BlockedAddresses_spec (str "mint") Hnd) as [Hm _].
  destruct (BlockedAddresses_spec (str "gov") Hnd) as [Hg _].
  split; [apply Hm; split; [by eexists; vm_compute|apply (bool_decide_eq_true_1 _); by vm_compute]|].
  intros [_ Hn]%Hg. apply Hn. left.
Defined.

Lemma app_config_orders_witness :
  runs_before (InitGenesis runtimeModule) (str "staking") (str "genutil").
Proof.
  refine (proj1 (proj2 (proj2 (proj2 (proj2 (proj2 (proj2 (proj2 (proj2 _))))))))).
  apply (app_config_orders (H := sdk_names)). apply (bool_decide_eq_true_1 _). vm_compute. reflexivity.
Defined.

End SdkValues.

(** ** A configuration *)

Module ToyConfig.

(** The bond denomination, the coin type, the six prefixes and the seal. *)
Record config := { denom : bytes; coin_type : Z; prefixes : list bytes; sealed : bool }.

Definition set (f : config → config) : GoM config unit := fun c =>
  if sealed c then (Panic (ErrorString "Config is sealed"), c) else (Ok tt, f c).
Definition add_prefixes (a b : bytes) : GoM config unit :=
  set (λ c, {| denom := denom c; coin_type := coin_type c; prefixes := prefixes c ++ [a; b];
               sealed := false |}).

#[export] Instance toy_config : SdkConfig config := {|
  set_DefaultBondDenom d := modify (λ c,
    {| denom := d; coin_type := coin_type c; prefixes := prefixes c; sealed := sealed c |});
  SetCoinType n := set (λ c,
    {| denom := denom c; coin_type := n; prefixes := prefixes c; sealed := false |});
  SetBech32PrefixForAccount := add_prefixes; SetBech32PrefixForValidator := add_prefixes;
  SetBech32PrefixForConsensusNode := add_prefixes;
  Seal := modify (λ c, {| denom := denom c; coin_type := coin_type c; prefixes := prefixes c;
    sealed := true |})
|}.

Definition configured : outcome unit * config :=
  config_init {| denom := []; coin_type := 0; prefixes := []; sealed := false |}.

(** The prefixes differ, and the configuration cannot be changed again. *)
Lemma config_init_seals :
  configured.1 = Ok tt ∧ NoDup (prefixes configured.2) ∧ sealed configured.2 = true ∧
  (config_init configured.2).1 = Panic (ErrorString "Config is sealed").
Proof. split_and!; [done|by apply (bool_decide_eq_true_1 _); vm_compute|done..]. Qed.

End ToyConfig.
