(* ===== verification/Cobra.v ===== *)
(** The command line's library, [spf13/cobra] and [spf13/pflag]: the fields of a
    command the program sets, the tree of commands, and sets of flags, which are
    the interface [Pflag] with its documented behaviour. *)
From S2P Require Import Prelude.
From stdpp Require Import list_relations.

#[local] Open Scope go_scope.

(** ** Flags *)

Inductive FlagValue := FlagString (s : bytes) | FlagInt (n : Z).

Class Pflag := {
  FlagSet : Type;
  NewFlagSet : FlagSet;
  (** name, shorthand, default and usage; declaring a flag twice panics *)
  AddFlag : bytes → bytes → FlagValue → bytes → FlagSet → outcome FlagSet;
  SetNormalizeFunc : (bytes → bytes) → FlagSet → outcome FlagSet;
  GetString : FlagSet → bytes → outcome bytes;
  GetInt : FlagSet → bytes → outcome Z
}.

Section Declare.
Context `{!Pflag}.

(** [Flags().String], [Flags().StringP], [Flags().Int] *)
Definition Flags_String (name value usage : bytes) : FlagSet → outcome FlagSet :=
  AddFlag name [] (FlagString value) usage.
Definition Flags_StringP (name shorthand value usage : bytes) : FlagSet → outcome FlagSet :=
  AddFlag name shorthand (FlagString value) usage.
Definition Flags_Int (name : bytes) (value : Z) (usage : bytes) : FlagSet → outcome FlagSet :=
  AddFlag name [] (FlagInt value) usage.

End Declare.

(** What a set of flags holds: values under normalized names, the function that
    normalizes names, and the shorthands in use. *)
Class PflagView `{!Pflag} := {
  flag_value : FlagSet → bytes → option FlagValue;
  normal : FlagSet → bytes → bytes;
  shorthands : FlagSet → list bytes
}.

Class PflagLaws `{!Pflag, !PflagView} : Prop := {
  new_flags : (∀ n, flag_value NewFlagSet n = None) ∧ (∀ n, normal NewFlagSet n = n) ∧
    shorthands NewFlagSet = [];
  AddFlag_new : ∀ n sh v u fs,
    flag_value fs (normal fs n) = None → (sh = [] ∨ length sh = 1 ∧ sh ∉ shorthands fs) →
    ∃ fs', AddFlag n sh v u fs = Ok fs' ∧
      (∀ m, flag_value fs' m = if decide (m = normal fs n) then Some v else flag_value fs m) ∧
      (∀ m, normal fs' m = normal fs m) ∧
      shorthands fs' = if decide (sh = []) then shorthands fs else sh :: shorthands fs;
  AddFlag_twice : ∀ n sh v u fs,
    is_Some (flag_value fs (normal fs n)) → ∃ p, AddFlag n sh v u fs = Panic p;
  SetNormalizeFunc_fixes : ∀ f fs,
    (∀ n v, flag_value fs n = Some v → f n = n) →
    ∃ fs', SetNormalizeFunc f fs = Ok fs' ∧ (∀ m, flag_value fs' m = flag_value fs m) ∧
      (∀ m, normal fs' m = f m) ∧ shorthands fs' = shorthands fs;
  GetString_spec : ∀ fs n s,
    GetString fs n = Ok s ↔ flag_value fs (normal fs n) = Some (FlagString s);
  GetInt_spec : ∀ fs n i, GetInt fs n = Ok i ↔ flag_value fs (normal fs n) = Some (FlagInt i)
}.

Section FlagLemmas.
Context `{!Pflag, !PflagView, !PflagLaws}.

(** The set holds exactly these flags. *)
Record holds (fs : FlagSet) (l : list (bytes * FlagValue)) (f : bytes → bytes) (shs : list bytes)
    : Prop := {
  holds_value : ∀ n, flag_value fs n = (list_to_map l : gmap bytes FlagValue) !! n;
  holds_normal : ∀ n, normal fs n = f n;
  holds_shorthands : shorthands fs = shs
}.

Lemma holds_new : holds NewFlagSet [] id [].
Proof. destruct new_flags as (Hv & Hn & Hs). split; [intros n; by rewrite Hv|done..]. Qed.

Lemma holds_add {A} (P : outcome A → Prop) n sh v u fs l f shs k :
  holds fs l f shs → n ∉ l.*1 → f n = n → (sh = [] ∨ length sh = 1 ∧ sh ∉ shs) →
  (∀ fs', holds fs' ((n, v) :: l) f (if decide (sh = []) then shs else sh :: shs) → P (k fs')) →
  P (AddFlag n sh v u fs ≫= k).
Proof.
  intros [Hv Hn <-] Hl Hf Hsh Hk. specialize (Hn n) as En. rewrite Hf in En.
  destruct (AddFlag_new n sh v u fs) as (fs' & -> & Hv' & Hn' & Hs'); [|done|].
  { rewrite En, Hv. by apply not_elem_of_list_to_map_1. }
  apply Hk. split; [|by intros m; rewrite Hn'|done].
  intros m. rewrite Hv', En. rewrite list_to_map_cons.
  destruct (decide (m = n)) as [->|E]; [by rewrite lookup_insert_eq|].
  by rewrite lookup_insert_ne, Hv by done.
Qed.

Lemma holds_normalize {A} (P : outcome A → Prop) g fs l f shs k :
  holds fs l f shs → Forall (λ n, g n = n) l.*1 →
  (∀ fs', holds fs' l g shs → P (k fs')) → P (SetNormalizeFunc g fs ≫= k).
Proof.
  intros [Hv Hn <-] Hg Hk. destruct (SetNormalizeFunc_fixes g fs) as (fs' & -> & Hv' & Hn' & Hs').
  { intros n v E. rewrite Hv in E. apply elem_of_list_to_map_2 in E.
    rewrite list.Forall_forall in Hg. apply Hg. apply list_elem_of_fmap. by exists (n, v). }
  apply Hk. split; [intros n; by rewrite Hv'|done..].
Qed.

Lemma holds_GetString fs l f shs n s :
  holds fs l f shs → NoDup l.*1 → (f n, FlagString s) ∈ l → GetString fs n = Ok s.
Proof.
  intros [Hv Hn _] Hd Hin. apply GetString_spec. rewrite Hn, Hv. by apply elem_of_list_to_map_1.
Qed.

Lemma holds_GetInt fs l f shs n i :
  holds fs l f shs → NoDup l.*1 → (f n, FlagInt i) ∈ l → GetInt fs n = Ok i.
Proof.
  intros [Hv Hn _] Hd Hin. apply GetInt_spec. rewrite Hn, Hv. by apply elem_of_list_to_map_1.
Qed.

End FlagLemmas.

(** ** Commands *)

(** A text in quotation marks. *)
Definition quoted (s : bytes) : bytes := x22 :: s ++ [x22].

Section Commands.
Context `{!Pflag}.

(** The fields of a [cobra.Command] the program sets.  A running command is
    handed to its functions as its set of flags; the contexts it carries are
    functions of it. *)
Record CommandSpec (S : Type) := {
  Use : bytes; Aliases : list bytes; Short : bytes; Long : bytes; DisableFlagParsing : bool;
  SuggestionsMinimumDistance : Z; SilenceErrors : bool; Flags : FlagSet;
  RunE : option (FlagSet → GoM S unit);
  PersistentPreRunE : option (FlagSet → GoM S unit)
}.

#[warnings="-register-all"]
Inductive Command (S L : Type) :=
| Command_node (head : CommandSpec S + L) (children : list (Command S L)).

End Commands.
Arguments Use {_ _}. Arguments Aliases {_ _}. Arguments Short {_ _}. Arguments Long {_ _}.
Arguments DisableFlagParsing {_ _}. Arguments SuggestionsMinimumDistance {_ _}.
Arguments SilenceErrors {_ _}. Arguments Flags {_ _}. Arguments RunE {_ _}. Arguments PersistentPreRunE {_ _}.
Arguments Command_node {_ S L}.

Section Tree.
Context `{!Pflag} {S L : Type}.

(** A command of the program without children, and one of the SDK. *)
Definition Cmd (spec : CommandSpec S) : Command S L := Command_node (inl spec) [].
Definition LibCmd (c : L) : Command S L := Command_node (inr c) [].

(** [cmd.AddCommand(cs...)] *)
Definition AddCommand (cs : list (Command S L)) (cmd : Command S L) : Command S L :=
  match cmd with Command_node head children => Command_node head (children ++ cs) end.

End Tree.

(** ** Flags in a list *)

Module ToyFlags.

Record flag_set := {
  toy_flags : list (bytes * FlagValue);
  toy_normal : bytes → bytes;
  toy_shorthands : list bytes
}.

Definition toy_value (fs : flag_set) (n : bytes) : option FlagValue :=
  (list_to_map (toy_flags fs) : gmap bytes FlagValue) !! n.

Definition add (n sh : bytes) (v : FlagValue) (u : bytes) (fs : flag_set) : outcome flag_set :=
  let n := toy_normal fs n in
  if decide (is_Some (toy_value fs n)) then Panic (ErrorString "flag redefined")
  else if decide (sh = []) then
    Ok {| toy_flags := (n, v) :: toy_flags fs; toy_normal := toy_normal fs;
          toy_shorthands := toy_shorthands fs |}
  else if decide (length sh = 1 ∧ sh ∉ toy_shorthands fs) then
    Ok {| toy_flags := (n, v) :: toy_flags fs; toy_normal := toy_normal fs;
          toy_shorthands := sh :: toy_shorthands fs |}
  else Panic (ErrorString "bad shorthand").

Definition no_flag : error := ErrorString "flag accessed but not defined".

#[export] Instance toy_pflag : Pflag := {|
  FlagSet := flag_set;
  NewFlagSet := {| toy_flags := []; toy_normal := id; toy_shorthands := [] |};
  AddFlag := add;
  SetNormalizeFunc f fs := Ok {| toy_flags := map (λ nv, (f nv.1, nv.2)) (toy_flags fs);
    toy_normal := f; toy_shorthands := toy_shorthands fs |};
  GetString fs n := match toy_value fs (toy_normal fs n) with Some (FlagString s) => Ok s | _ => Err no_flag end;
  GetInt fs n := match toy_value fs (toy_normal fs n) with Some (FlagInt i) => Ok i | _ => Err no_flag end
|}.

#[export] Instance toy_view : PflagView := {|
  flag_value := toy_value; normal := toy_normal; shorthands := toy_shorthands
|}.

#[export] Instance toy_pflag_laws : PflagLaws.
Proof.
  split; cbn.
  - done.
  - intros n sh v u fs Hn Hsh. change (toy_value fs (toy_normal fs n) = None) in Hn. unfold add.
    rewrite decide_False by (rewrite Hn; by intros [? ?]).
    assert (∀ m shs, toy_value {| toy_flags := (toy_normal fs n, v) :: toy_flags fs;
        toy_normal := toy_normal fs; toy_shorthands := shs |} m =
      if decide (m = toy_normal fs n) then Some v else toy_value fs m) as E.
    { intros m shs. unfold toy_value. cbn [toy_flags]. rewrite list_to_map_cons. destruct (decide _) as [->|E]; [by rewrite lookup_insert_eq|].
      by rewrite lookup_insert_ne. }
    destruct Hsh as [->|[Hl Hs]]; [|assert (sh ≠ []) as Hne by by destruct sh].
    + eexists. split; [done|]. by split; [intros m; apply E|].
    + rewrite (decide_False (P := sh = [])), (decide_True (P := length sh = 1 ∧ _)) by done.
      eexists. split; [done|]. split; [intros m; apply E|]. split; [done|]. cbn.
      by rewrite decide_False.
  - intros n sh v u fs Hs. unfold add. rewrite decide_True by done. by eexists.
  - intros f fs Hf. eexists. split; [done|]. split; [|done]. intros m. unfold toy_value. cbn.
    assert (∀ l : list (bytes * FlagValue), (∀ n, n ∈ l.*1 → f n = n) →
      map (λ nv, (f nv.1, nv.2)) l = l) as E.
    { induction l as [|[a b] l IH]; intros Hl; [done|]. cbn. rewrite IH, (Hl a) by set_solver.
      done. }
    rewrite E; [done|]. intros n Hn.
    assert (is_Some ((list_to_map (toy_flags fs) : gmap bytes FlagValue) !! n)) as [v Hv].
    { apply not_eq_None_Some. intros E'. by apply not_elem_of_list_to_map in E'. }
    by apply (Hf n v).
  - intros fs n s. fold (toy_value fs (toy_normal fs n)). destruct (toy_value fs _) as [[]|]; split; congruence.
  - intros fs n s. fold (toy_value fs (toy_normal fs n)). destruct (toy_value fs _) as [[]|]; split; congruence.
Qed.

End ToyFlags.
