(* ===== verification/Docs.v ===== *)
(** [docs/docs.go]: the page of the OpenAPI console.  The embedded directories,
    the HTTP server, the templates and the router are the interface [Http]. *)
From S2P Require Import Prelude.

#[local] Open Scope go_scope.

(** The anonymous struct the page's template is executed on. *)
Record page := { Title : bytes; URL : bytes }.

(** [W] is what a response is written to. *)
Class Http (S W : Type) := {
  (** [embed.FS], and the [go:embed] directive on a directory *)
  FS : Type; embed : bytes → FS;
  HttpRequest : Type; HttpHandler : Type; ApiRouter : Type; HtmlTemplate : Type;
  FileServer : FS → HttpHandler;
  HandlerFunc : (HttpRequest → GoM W unit) → HttpHandler;
  Router_Handle : ApiRouter → bytes → HttpHandler → GoM S unit;
  ParseFS : FS → bytes → outcome HtmlTemplate;
  (** on a possibly nil template *)
  Execute : option HtmlTemplate → page → GoM W unit
}.

Definition apiFile : bytes := str "/static/openapi.json".
Definition indexFile : bytes := str "template/index.tpl".

Section Docs.
Context {S W : Type} `{!Http S W}.

Definition Static : FS := embed (str "static").
Definition template : FS := embed (str "template").

(** The page handler; the errors of parsing and of writing are dropped. *)
Definition handler (title : bytes) : outcome (HttpRequest → GoM W unit) :=
  let! t := (let! t := ParseFS template indexFile else _ => Ok None in Ok (Some t)) else e => Err e in
  Ok (fun _ => catch (Execute t {| Title := title; URL := apiFile |}) (fun _ => mret tt) mret).

Definition RegisterOpenAPIService (appName : bytes) (rtr : ApiRouter) : GoM S unit :=
  _ ← Router_Handle rtr apiFile (FileServer Static);
  h ← lift (handler appName);
  Router_Handle rtr (str "/") (HandlerFunc h).

(** A request for the page never ends in an error, and the page's script loads
    the path at which the embedded specification is served. *)
Lemma handler_spec title h :
  handler title = Ok h →
  ∃ t, (∀ t', t = Some t' → ParseFS template indexFile = Ok t') ∧
    ∀ req w, h req w = match Execute t {| Title := title; URL := apiFile |} w with
                       | (Err _, w') => (Ok tt, w')
                       | r => r
                       end.
Proof.
  unfold handler. destruct (ParseFS template indexFile) as [t|e|v] eqn:Et; cbn [catch_o];
    [| |done]; intros [= <-]; [exists (Some t)|exists None]; (split; [by intros ? [= <-]|]);
    intros req w; unfold catch; by destruct (Execute _ _ w) as [[[]|?|?] w'].
Qed.

Lemma RegisterOpenAPIService_routes appName rtr h s s1 s2 :
  handler appName = Ok h →
  Router_Handle rtr apiFile (FileServer Static) s = (Ok tt, s1) →
  Router_Handle rtr (str "/") (HandlerFunc h) s1 = (Ok tt, s2) →
  RegisterOpenAPIService appName rtr s = (Ok tt, s2).
Proof.
  intros Hh E1 E2. unfold RegisterOpenAPIService, mbind, gom_bind, lift. by rewrite E1, Hh, E2.
Qed.

End Docs.
