(* ===== verification/App.v ===== *)
(** [app/app.go] and [app/ibc.go]: the construction of the application.  The
    fields of the [App] struct are a record that the code assigns step by step,
    next to the state [S] of the SDK and ibc-go objects it calls, which are the
    interfaces [Sdk] and [Ibc].  What [baseapp] does with the handlers the
    application sets is [SdkLaws]: it keeps the last one of each kind. *)
From S2P Require Import Prelude Json Crypto Store Common Wire SkTypes Keeper.
From S2P Require Import AnteHandler VoteExtension AppModule.
From S2P Require ExampleModule AppConfig Docs.

#[local] Open Scope go_scope.

(** ** The handlers an application sets *)

(** [VoteExtensionHandler] and [ProposalHandler] *)
Record VoteExtensionHandler := { vote_keeper : Keeper }.
Definition NewVoteExtensionHandler (keeper : Keeper) : VoteExtensionHandler :=
  {| vote_keeper := keeper |}.
Record ProposalHandler (Logger_t : Type) := { Logger : Logger_t; proposal_keeper : Keeper }.
Arguments Logger {Logger_t}.
Arguments proposal_keeper {Logger_t}.
Arguments Build_ProposalHandler {Logger_t}.

(** The callbacks of [baseapp]: nil until they are set.  [N] is the state the
    vote and proposal handlers run on, [Ctx] the context of the ante handler. *)
Record Callbacks (N Ctx Init : Type) := {
  extendVote : option (RequestExtendVote → GoM N bytes);
  verifyVoteExt : option (RequestVerifyVoteExtension → GoM N VerifyStatus);
  prepareProposal : option (RequestPrepareProposal → outcome (list bytes));
  processProposal : option (RequestProcessProposal → GoM N ProposalStatus);
  anteHandler : option (AnteHandlerFn Ctx);
  initChainer : option Init
}.
Arguments extendVote {N Ctx Init}.
Arguments verifyVoteExt {N Ctx Init}.
Arguments prepareProposal {N Ctx Init}.
Arguments processProposal {N Ctx Init}.
Arguments anteHandler {N Ctx Init}.
Arguments initChainer {N Ctx Init}.
Arguments Build_Callbacks {N Ctx Init}.

(** ** The SDK *)

Class Sdk (S N Ctx : Type) `{!AnteLib Ctx} := {
  Codec : Type; LegacyAmino_t : Type; TxConfig_t : Type; InterfaceRegistry_t : Type;
  Logger_t : Type; DB : Type; TraceStore : Type; AppOptions : Type;
  BaseAppOption : Type; SetOptimisticExecution : BaseAppOption;
  StakingKeeper_t : Type; SlashingKeeper_t : Type; MintKeeper_t : Type; DistrKeeper_t : Type;
  GovKeeper_t : Type; UpgradeKeeper_t : Type; AuthzKeeper_t : Type;
  ConsensusParamsKeeper_t : Type; CircuitBreakerKeeper_t : Type; ParamsKeeper_t : Type;
  IBCKeeper_t : Type;
  AppBuilder : Type;
  (** [*runtime.App] *)
  RuntimeApp : Type;
  AppModule_t : Type; SimulationManager_t : Type;
  (** what the running application works on: its modules and the stores *)
  Run : Type;
  VersionMap : Type; RequestInitChain : Type; ResponseInitChain : Type;
  StoreKey : Type; KVStoreKey : Type; Subspace_t : Type;
  ApiServer : Type; ApiConfig : Type; ClientContext : Type;
  (** the router and what answers on it *)
  Response : Type; Sdk_Http :: Docs.Http S Response;
  (** [genutil.NewAppModuleBasic(genutiltypes.DefaultMessageValidator)] *)
  AppModuleBasic : Type; genutil_AppModuleBasic : AppModuleBasic;
  NewKVStoreKey : bytes → KVStoreKey;
  (** the type assertion [key.( *storetypes.KVStoreKey)] *)
  is_KVStoreKey : StoreKey → option KVStoreKey;
  SignModeHandler : TxConfig_t → option SignModeHandler_t;
  DefaultSigVerificationGasConsumer : SigGasConsumer_t;
  (** the nil values of the options the application leaves out *)
  nil_ExtensionOptionChecker : ExtensionOptionChecker_t;
  nil_FeegrantKeeper : FeegrantKeeper_t;
  nil_TxFeeChecker : TxFeeChecker_t;
  AppBuilder_Build : AppBuilder → DB → TraceStore → list BaseAppOption → GoM S RuntimeApp;
  ModuleManager_Modules : RuntimeApp → S → gmap bytes AppModule_t;
  GetVersionMap : RuntimeApp → Run → VersionMap;
  SetModuleVersionMap : UpgradeKeeper_t → Ctx → VersionMap → GoM Run unit;
  Runtime_InitChainer : RuntimeApp → Ctx → RequestInitChain → GoM Run ResponseInitChain;
  (** [auth.NewAppModule(cdc, keeper, RandomGenesisAccounts, nil)] *)
  auth_NewAppModule : Codec → AccountKeeper_t → AppModule_t;
  NewSimulationManagerFromAppModules :
    gmap bytes AppModule_t → gmap bytes AppModule_t → GoM S SimulationManager_t;
  RegisterStoreDecoders : SimulationManager_t → GoM S unit;
  RegisterStores : RuntimeApp → list KVStoreKey → GoM S unit;
  RegisterModules : RuntimeApp → list AppModule_t → GoM S unit;
  UnsafeFindStoreKey : RuntimeApp → bytes → S → StoreKey;
  Params_GetSubspace : ParamsKeeper_t → bytes → S → Subspace_t * bool;
  Runtime_Load : RuntimeApp → bool → GoM S unit;
  Runtime_RegisterAPIRoutes : RuntimeApp → ApiServer → ApiConfig → GoM S unit;
  ApiServer_ClientCtx : ApiServer → ClientContext;
  ApiServer_Router : ApiServer → Docs.ApiRouter;
  ApiConfig_Swagger : ApiConfig → bool;
  RegisterSwaggerAPI : ClientContext → Docs.ApiRouter → bool → GoM S unit;
  (** the callbacks an app holds, and the functions that set them *)
  callbacks : RuntimeApp → S → Callbacks N Ctx (Ctx → RequestInitChain → GoM Run ResponseInitChain);
  SetExtendVoteHandler : RuntimeApp → (RequestExtendVote → GoM N bytes) → GoM S unit;
  SetVerifyVoteExtensionHandler :
    RuntimeApp → (RequestVerifyVoteExtension → GoM N VerifyStatus) → GoM S unit;
  SetPrepareProposal : RuntimeApp → (RequestPrepareProposal → outcome (list bytes)) → GoM S unit;
  SetProcessProposal : RuntimeApp → (RequestProcessProposal → GoM N ProposalStatus) → GoM S unit;
  SetAnteHandler : RuntimeApp → AnteHandlerFn Ctx → GoM S unit;
  SetInitChainer : RuntimeApp → (Ctx → RequestInitChain → GoM Run ResponseInitChain) → GoM S unit
}.

Section Laws.
Context {S N Ctx : Type} `{!AnteLib Ctx, !Sdk S N Ctx}.

(** A call that returns leaves the callbacks [f] makes of the old ones. *)
Definition sets {A} (rt : RuntimeApp) (m : GoM S A)
    (f : Callbacks N Ctx (Ctx → RequestInitChain → GoM Run ResponseInitChain) →
         Callbacks N Ctx (Ctx → RequestInitChain → GoM Run ResponseInitChain)) : Prop :=
  ∀ s a s', m s = (Ok a, s') → callbacks rt s' = f (callbacks rt s).

End Laws.

(** Documented behaviour of [baseapp]: a setter sets its callback, loading keeps
    them. *)
Class SdkLaws (S N Ctx : Type) `{!AnteLib Ctx, !Sdk S N Ctx} : Prop := {
  SetExtendVoteHandler_sets : ∀ rt h, sets rt (SetExtendVoteHandler rt h) (λ c,
    Build_Callbacks (Some h) (verifyVoteExt c) (prepareProposal c) (processProposal c)
      (anteHandler c) (initChainer c));
  SetVerifyVoteExtensionHandler_sets : ∀ rt h, sets rt (SetVerifyVoteExtensionHandler rt h) (λ c,
    Build_Callbacks (extendVote c) (Some h) (prepareProposal c) (processProposal c)
      (anteHandler c) (initChainer c));
  SetPrepareProposal_sets : ∀ rt h, sets rt (SetPrepareProposal rt h) (λ c,
    Build_Callbacks (extendVote c) (verifyVoteExt c) (Some h) (processProposal c)
      (anteHandler c) (initChainer c));
  SetProcessProposal_sets : ∀ rt h, sets rt (SetProcessProposal rt h) (λ c,
    Build_Callbacks (extendVote c) (verifyVoteExt c) (prepareProposal c) (Some h)
      (anteHandler c) (initChainer c));
  SetAnteHandler_sets : ∀ rt h, sets rt (SetAnteHandler rt h) (λ c,
    Build_Callbacks (extendVote c) (verifyVoteExt c) (prepareProposal c) (processProposal c)
      (Some h) (initChainer c));
  SetInitChainer_sets : ∀ rt h, sets rt (SetInitChainer rt h) (λ c,
    Build_Callbacks (extendVote c) (verifyVoteExt c) (prepareProposal c) (processProposal c)
      (anteHandler c) (Some h));
  Runtime_Load_sets : ∀ rt latest, sets rt (Runtime_Load rt latest) id
}.

(** ** ibc-go *)

Class Ibc (S N Ctx : Type) `{!AnteLib Ctx, !Sdk S N Ctx} := {
  ibcexported_StoreKey : bytes; ibctransfertypes_StoreKey : bytes;
  icahosttypes_StoreKey : bytes; icacontrollertypes_StoreKey : bytes;
  ibctransfertypes_PortID : bytes;
  icahosttypes_SubModuleName : bytes; icacontrollertypes_SubModuleName : bytes;
  TransferKeeper_t : Type; ICAHostKeeper_t : Type; ICAControllerKeeper_t : Type;
  ChannelKeeper_t : Type; ClientKeeper_t : Type; MsgServiceRouter_t : Type;
  GRPCQueryRouter_t : Type; KeyTable : Type; ParamSet : Type; StoreService : Type;
  IBCModule : Type; IBCModuleV2 : Type; StoreProvider : Type; LightClientModule : Type;
  (** key tables: a registration is made in the table itself *)
  ibcclient_ParamKeyTable : KeyTable; ibctransfer_ParamKeyTable : KeyTable;
  icacontroller_ParamKeyTable : KeyTable; icahost_ParamKeyTable : KeyTable;
  ibcconnection_Params : ParamSet;
  RegisterParamSet : KeyTable → ParamSet → KeyTable;
  (** [ParamsKeeper.Subspace(name).WithKeyTable(table)] *)
  Subspace_WithKeyTable : ParamsKeeper_t → bytes → KeyTable → GoM S unit;
  AddressCodec_BytesToString : AccountKeeper_t → bytes → outcome bytes;
  module_address : bytes → bytes;
  (** on a possibly nil key *)
  NewKVStoreService : option KVStoreKey → StoreService;
  MsgServiceRouter : RuntimeApp → MsgServiceRouter_t;
  GRPCQueryRouter : RuntimeApp → GRPCQueryRouter_t;
  ibckeeper_NewKeeper : Codec → StoreService → Subspace_t → UpgradeKeeper_t → bytes → GoM S IBCKeeper_t;
  ChannelKeeper : IBCKeeper_t → ChannelKeeper_t;
  ClientKeeper : IBCKeeper_t → ClientKeeper_t;
  ibctransferkeeper_NewKeeper : Codec → StoreService → Subspace_t → ChannelKeeper_t →
    ChannelKeeper_t → MsgServiceRouter_t → AccountKeeper_t → BankKeeper_t → bytes →
    GoM S TransferKeeper_t;
  icahostkeeper_NewKeeper : Codec → StoreService → Subspace_t → ChannelKeeper_t →
    ChannelKeeper_t → AccountKeeper_t → MsgServiceRouter_t → GRPCQueryRouter_t → bytes →
    GoM S ICAHostKeeper_t;
  icacontrollerkeeper_NewKeeper : Codec → StoreService → Subspace_t → ChannelKeeper_t →
    ChannelKeeper_t → MsgServiceRouter_t → bytes → GoM S ICAControllerKeeper_t;
  ibctransfer_NewIBCModule : TransferKeeper_t → IBCModule;
  ibctransferv2_NewIBCModule : TransferKeeper_t → IBCModuleV2;
  icacontroller_NewIBCMiddleware : ICAControllerKeeper_t → IBCModule;
  icahost_NewIBCModule : ICAHostKeeper_t → IBCModule;
  (** routers: [AddRoute] panics on a name that is taken or not alphanumeric *)
  Router : Type; RouterV2 : Type; NewRouter : Router; NewRouterV2 : RouterV2;
  AddRoute : bytes → IBCModule → Router → outcome Router;
  AddRouteV2 : bytes → IBCModuleV2 → RouterV2 → outcome RouterV2;
  SetRouter : IBCKeeper_t → Router → GoM S unit;
  SetRouterV2 : IBCKeeper_t → RouterV2 → GoM S unit;
  GetStoreProvider : ClientKeeper_t → StoreProvider;
  ibctm_NewLightClientModule : Codec → StoreProvider → LightClientModule;
  solomachine_NewLightClientModule : Codec → StoreProvider → LightClientModule;
  ClientKeeper_AddRoute : ClientKeeper_t → bytes → LightClientModule → GoM S unit;
  ibc_NewAppModule : IBCKeeper_t → AppModule_t;
  ibctransfer_NewAppModule : TransferKeeper_t → AppModule_t;
  icamodule_NewAppModule : ICAControllerKeeper_t → ICAHostKeeper_t → AppModule_t;
  ibctm_NewAppModule : LightClientModule → AppModule_t;
  solomachine_NewAppModule : LightClientModule → AppModule_t;
  (** the zero values [RegisterIBC] makes its modules of *)
  IBCKeeper_zero : IBCKeeper_t; TransferKeeper_zero : TransferKeeper_t;
  ICAHostKeeper_zero : ICAHostKeeper_t; ICAControllerKeeper_zero : ICAControllerKeeper_t;
  StoreProvider_zero : StoreProvider;
  (** [cdc.InterfaceRegistry()], and [RegisterInterfaces] of a module that is an
      [AppModuleBasic] *)
  Codec_InterfaceRegistry : Codec → InterfaceRegistry_t;
  RegisterInterfaces : AppModule_t → option (InterfaceRegistry_t → GoM S unit)
}.

(** ** The [App] struct *)

Section App.
Context {S Ctx Store : Type} (KVStore : Ctx → Store)
  `{!Collections Store, !Json.GoRuntime, !EthCrypto, !AnteLib Ctx, !Sdk S (Node Store) Ctx,
    !Ibc S (Node Store) Ctx, !AppConfig.SdkNames}.

(** The fields dependency injection fills in. *)
Record Injected := {
  appCodec : Codec; legacyAmino : LegacyAmino_t; txConfig : TxConfig_t;
  interfaceRegistry : InterfaceRegistry_t; AuthKeeper : AccountKeeper_t;
  BankKeeper : BankKeeper_t; StakingKeeper : StakingKeeper_t; SlashingKeeper : SlashingKeeper_t;
  MintKeeper : MintKeeper_t; DistrKeeper : DistrKeeper_t; GovKeeper : GovKeeper_t;
  UpgradeKeeper : UpgradeKeeper_t; AuthzKeeper : AuthzKeeper_t;
  ConsensusParamsKeeper : ConsensusParamsKeeper_t; CircuitBreakerKeeper : CircuitBreakerKeeper_t;
  ParamsKeeper : ParamsKeeper_t; ExampleKeeper : ExampleModule.Keeper;
  SecondarykeysKeeper : Keeper
}.

(** The fields [registerIBCModules] assigns. *)
Record IbcKeepers := {
  IBCKeeper : IBCKeeper_t; TransferKeeper : TransferKeeper_t; ICAHostKeeper : ICAHostKeeper_t;
  ICAControllerKeeper : ICAControllerKeeper_t
}.

Record App := {
  App_App : RuntimeApp; App_Injected : Injected; App_Ibc : IbcKeepers;
  sm : SimulationManager_t; voteExtHandler : VoteExtensionHandler;
  proposalHandler : ProposalHandler Logger_t
}.

Definition depinject_config : AppConfig.DepConfig AppModuleBasic :=
  AppConfig.AppConfig genutil_AppModuleBasic.

(** [depinject.Inject] on the application's configuration, with the options and
    the logger supplied.  The third thing the code supplies, the method
    [app.GetIBCKeeper], is for modules to call once the application is built. *)
Context (Inject : AppConfig.DepConfig AppModuleBasic → AppOptions → Logger_t → GoM S (AppBuilder * Injected)).

(** The package's [init]: the prefix of environment variables, and
    [DefaultNodeHome] from the library's [GetNodeHomeDirectory]. *)
Definition init (GetNodeHomeDirectory : bytes → outcome bytes) : outcome (bytes * bytes) :=
  let EnvPrefix := AppConfig.Name in
  let! DefaultNodeHome := GetNodeHomeDirectory (str "." ++ AppConfig.Name) else err => Panic err in
  Ok (EnvPrefix, DefaultNodeHome).

Definition GetKey (app : RuntimeApp) (storeKey : bytes) (s : S) : option KVStoreKey :=
  is_KVStoreKey (UnsafeFindStoreKey app storeKey s).

Definition GetSubspace (d : Injected) (moduleName : bytes) (s : S) : Subspace_t :=
  (Params_GetSubspace (ParamsKeeper d) moduleName s).1.

Definition LegacyAmino (app : App) : LegacyAmino_t := legacyAmino (App_Injected app).
Definition AppCodec (app : App) : Codec := appCodec (App_Injected app).
Definition InterfaceRegistry (app : App) : InterfaceRegistry_t := interfaceRegistry (App_Injected app).
Definition TxConfig (app : App) : TxConfig_t := txConfig (App_Injected app).
Definition SimulationManager (app : App) : SimulationManager_t := sm app.
Definition GetIBCKeeper (app : App) : IBCKeeper_t := IBCKeeper (App_Ibc app).

Definition RegisterAPIRoutes (app : App) (apiSvr : ApiServer) (apiConfig : ApiConfig) : GoM S unit :=
  _ ← Runtime_RegisterAPIRoutes (App_App app) apiSvr apiConfig;
  let? _ := RegisterSwaggerAPI (ApiServer_ClientCtx apiSvr) (ApiServer_Router apiSvr)
              (ApiConfig_Swagger apiConfig) else err => panic err in
  Docs.RegisterOpenAPIService AppConfig.Name (ApiServer_Router apiSvr).

(** ** [ibc.go] *)

(** The store and the parameter subspace of a module. *)
Definition store_service (app : RuntimeApp) (key : bytes) : GoM S StoreService :=
  reads (λ s, Ok (NewKVStoreService (GetKey app key s))).
Definition subspace (d : Injected) (name : bytes) : GoM S Subspace_t :=
  reads (λ s, Ok (GetSubspace d name s)).

(** A string and an error of which the error is dropped. *)
Definition govModuleAddr (d : Injected) : GoM S bytes :=
  lift (let! a := AddressCodec_BytesToString (AuthKeeper d) (module_address AppConfig.govtypes_ModuleName)
        else err => Ok [] in Ok a).

Definition register_key_tables (d : Injected) : GoM S unit :=
  let keyTable := RegisterParamSet ibcclient_ParamKeyTable ibcconnection_Params in
  _ ← Subspace_WithKeyTable (ParamsKeeper d) AppConfig.ibcexported_ModuleName keyTable;
  _ ← Subspace_WithKeyTable (ParamsKeeper d) AppConfig.ibctransfertypes_ModuleName ibctransfer_ParamKeyTable;
  _ ← Subspace_WithKeyTable (ParamsKeeper d) icacontrollertypes_SubModuleName icacontroller_ParamKeyTable;
  Subspace_WithKeyTable (ParamsKeeper d) icahosttypes_SubModuleName icahost_ParamKeyTable.

Definition ibc_keepers (app : RuntimeApp) (d : Injected) (govModuleAddr : bytes) : GoM S IbcKeepers :=
  let cdc := appCodec d in
  svc ← store_service app ibcexported_StoreKey;
  sub ← subspace d AppConfig.ibcexported_ModuleName;
  ibc ← ibckeeper_NewKeeper cdc svc sub (UpgradeKeeper d) govModuleAddr;
  svc ← store_service app ibctransfertypes_StoreKey;
  sub ← subspace d AppConfig.ibctransfertypes_ModuleName;
  transfer ← ibctransferkeeper_NewKeeper cdc svc sub (ChannelKeeper ibc) (ChannelKeeper ibc)
    (MsgServiceRouter app) (AuthKeeper d) (BankKeeper d) govModuleAddr;
  svc ← store_service app icahosttypes_StoreKey;
  sub ← subspace d icahosttypes_SubModuleName;
  host ← icahostkeeper_NewKeeper cdc svc sub (ChannelKeeper ibc) (ChannelKeeper ibc)
    (AuthKeeper d) (MsgServiceRouter app) (GRPCQueryRouter app) govModuleAddr;
  svc ← store_service app icacontrollertypes_StoreKey;
  sub ← subspace d icacontrollertypes_SubModuleName;
  controller ← icacontrollerkeeper_NewKeeper cdc svc sub (ChannelKeeper ibc) (ChannelKeeper ibc)
    (MsgServiceRouter app) govModuleAddr;
  mret {| IBCKeeper := ibc; TransferKeeper := transfer; ICAHostKeeper := host;
          ICAControllerKeeper := controller |}.

(** The IBC modules from bottom to top of the stack, by route. *)
Definition routes (k : IbcKeepers) : list (bytes * IBCModule) :=
  let transferStack := ibctransfer_NewIBCModule (TransferKeeper k) in
  let icaControllerStack := icacontroller_NewIBCMiddleware (ICAControllerKeeper k) in
  let icaHostStack := icahost_NewIBCModule (ICAHostKeeper k) in
  [(AppConfig.ibctransfertypes_ModuleName, transferStack);
   (icacontrollertypes_SubModuleName, icaControllerStack);
   (icahosttypes_SubModuleName, icaHostStack)].

Fixpoint add_routes (l : list (bytes * IBCModule)) (r : Router) : outcome Router :=
  match l with
  | [] => Ok r
  | (name, m) :: l => r' ← AddRoute name m r; add_routes l r'
  end.

Definition set_routers (k : IbcKeepers) : GoM S unit :=
  ibcRouter ← lift (add_routes (routes k) NewRouter);
  ibcv2Router ← lift (AddRouteV2 ibctransfertypes_PortID
                        (ibctransferv2_NewIBCModule (TransferKeeper k)) NewRouterV2);
  _ ← SetRouter (IBCKeeper k) ibcRouter;
  SetRouterV2 (IBCKeeper k) ibcv2Router.

Definition registerIBCModules (app : RuntimeApp) (d : Injected) : GoM S IbcKeepers :=
  let? _ := RegisterStores app
    [NewKVStoreKey ibcexported_StoreKey; NewKVStoreKey ibctransfertypes_StoreKey;
     NewKVStoreKey icahosttypes_StoreKey; NewKVStoreKey icacontrollertypes_StoreKey]
    else err => fail err in
  _ ← register_key_tables d;
  govModuleAddr ← govModuleAddr d;
  k ← ibc_keepers app d govModuleAddr;
  _ ← set_routers k;
  let clientKeeper := ClientKeeper (IBCKeeper k) in
  let storeProvider := GetStoreProvider clientKeeper in
  let tmLightClientModule := ibctm_NewLightClientModule (appCodec d) storeProvider in
  _ ← ClientKeeper_AddRoute clientKeeper AppConfig.ibctm_ModuleName tmLightClientModule;
  let soloLightClientModule := solomachine_NewLightClientModule (appCodec d) storeProvider in
  _ ← ClientKeeper_AddRoute clientKeeper AppConfig.solomachine_ModuleName soloLightClientModule;
  let? _ := RegisterModules app
    [ibc_NewAppModule (IBCKeeper k); ibctransfer_NewAppModule (TransferKeeper k);
     icamodule_NewAppModule (ICAControllerKeeper k) (ICAHostKeeper k);
     ibctm_NewAppModule tmLightClientModule; solomachine_NewAppModule soloLightClientModule]
    else err => fail err in
  mret k.

(** The client side: the modules by name, made of zero keepers, and the
    registration of their interfaces in the order [range] gives them. *)
Definition ibc_client_modules (cdc : Codec) : gmap bytes AppModule_t :=
  list_to_map
    [(AppConfig.ibcexported_ModuleName, ibc_NewAppModule IBCKeeper_zero);
     (AppConfig.ibctransfertypes_ModuleName, ibctransfer_NewAppModule TransferKeeper_zero);
     (AppConfig.icatypes_ModuleName, icamodule_NewAppModule ICAControllerKeeper_zero ICAHostKeeper_zero);
     (AppConfig.ibctm_ModuleName, ibctm_NewAppModule (ibctm_NewLightClientModule cdc StoreProvider_zero));
     (AppConfig.solomachine_ModuleName,
      solomachine_NewAppModule (solomachine_NewLightClientModule cdc StoreProvider_zero))].

Definition RegisterIBC (order : gmap bytes AppModule_t → list (bytes * AppModule_t)) (cdc : Codec)
    : GoM S (gmap bytes AppModule_t) :=
  let modules := ibc_client_modules cdc in
  _ ← foldM (λ _ m, match RegisterInterfaces m.2 with
                    | Some register => register (Codec_InterfaceRegistry cdc)
                    | None => mret tt
                    end) (order modules) tt;
  mret modules.

(** ** [New] *)

(** The handlers of [x/secondarykeys/VoteExtension] on the state of a node; the
    signing key is the module's package variable.  What a handler reads and writes
    through its keeper is in the store of the node. *)
Definition extend_vote (h : VoteExtensionHandler) (req : RequestExtendVote) : GoM (Node Store) bytes :=
  reads (λ n, ExtendVoteHandler (SecondaryPrivateKey n) req).
Definition verify_vote_extension (h : VoteExtensionHandler) (req : RequestVerifyVoteExtension)
    : GoM (Node Store) VerifyStatus := on_store (VerifyVoteExtensionHandler req).
Definition process_proposal (h : ProposalHandler Logger_t) (req : RequestProcessProposal)
    : GoM (Node Store) ProposalStatus := on_store (ProcessProposal req).
Definition prepare_proposal (h : ProposalHandler Logger_t) (req : RequestPrepareProposal)
    : outcome (list bytes) := PrepareProposal req.

(** The options of the ante handler: fields that are left out are nil. *)
Definition ante_options (d : Injected) : HandlerOptions := {|
  AccountKeeper := Some (AuthKeeper d);
  AnteHandler.BankKeeper := Some (BankKeeper d);
  AnteHandler.SignModeHandler := SignModeHandler (txConfig d);
  ExtensionOptionChecker := nil_ExtensionOptionChecker;
  FeegrantKeeper := nil_FeegrantKeeper;
  SigGasConsumer := DefaultSigVerificationGasConsumer;
  TxFeeChecker := nil_TxFeeChecker
|}.

(** The custom [InitChainer]: the version map first. *)
Definition init_chainer (app : RuntimeApp) (d : Injected) (ctx : Ctx) (req : RequestInitChain)
    : GoM Run ResponseInitChain :=
  versions ← reads (λ s, Ok (GetVersionMap app s));
  let? _ := SetModuleVersionMap (UpgradeKeeper d) ctx versions else err => fail err in
  Runtime_InitChainer app ctx req.

Definition simulation_manager (app : RuntimeApp) (d : Injected) : GoM S SimulationManager_t :=
  let overrideModules : gmap bytes AppModule_t :=
    {[AppConfig.authtypes_ModuleName := auth_NewAppModule (appCodec d) (AuthKeeper d) ]} in
  modules ← reads (λ s, Ok (ModuleManager_Modules app s));
  sm ← NewSimulationManagerFromAppModules modules overrideModules;
  _ ← RegisterStoreDecoders sm;
  mret sm.

(** The callbacks, the ante handler and the load, in the order of the code. *)
Definition set_callbacks (app : RuntimeApp) (d : Injected) (vh : VoteExtensionHandler)
    (ph : ProposalHandler Logger_t) (loadLatest : bool) : GoM S unit :=
  _ ← SetExtendVoteHandler app (extend_vote vh);
  _ ← SetVerifyVoteExtensionHandler app (verify_vote_extension vh);
  _ ← SetPrepareProposal app (prepare_proposal ph);
  _ ← SetProcessProposal app (process_proposal ph);
  let? handler := lift (NewAnteHandler KVStore (ante_options d)) else err => panic err in
  _ ← SetAnteHandler app handler;
  _ ← SetInitChainer app (init_chainer app d);
  let? _ := Runtime_Load app loadLatest else err => panic err in
  mret tt.

Definition New (logger : Logger_t) (db : DB) (traceStore : TraceStore) (loadLatest : bool)
    (appOpts : AppOptions) (baseAppOptions : list BaseAppOption) : GoM S App :=
  let? injected := Inject depinject_config appOpts logger else err => panic err in
  let '(appBuilder, d) := injected in
  let baseAppOptions := baseAppOptions ++ [SetOptimisticExecution] in
  app ← AppBuilder_Build appBuilder db traceStore baseAppOptions;
  let? k := registerIBCModules app d else err => panic err in
  sm ← simulation_manager app d;
  let vh := NewVoteExtensionHandler (SecondarykeysKeeper d) in
  let ph := {| Logger := logger; proposal_keeper := SecondarykeysKeeper d |} in
  _ ← set_callbacks app d vh ph loadLatest;
  mret {| App_App := app; App_Injected := d; App_Ibc := k; sm := sm;
          voteExtHandler := vh; proposalHandler := ph |}.

End App.

(** ** Properties *)

Section Theorems.
Context {S Ctx Store : Type} (KVStore : Ctx → Store)
  `{!Collections Store, !Json.GoRuntime, !EthCrypto, !AnteLib Ctx, !Sdk S (Node Store) Ctx,
    !Ibc S (Node Store) Ctx, !AppConfig.SdkNames}
  (Inject : AppConfig.DepConfig AppModuleBasic → AppOptions → Logger_t → GoM S (AppBuilder * Injected)).

(** What [set_callbacks] leaves, whatever was set before. *)
Lemma set_callbacks_Ok `{!SdkLaws S (Node Store) Ctx} app d vh ph latest s u s' :
  set_callbacks KVStore app d vh ph latest s = (Ok u, s') →
  ∃ handler, NewAnteHandler KVStore (ante_options d) = Ok handler ∧
    callbacks app s' = Build_Callbacks (Some (extend_vote vh)) (Some (verify_vote_extension vh))
      (Some (prepare_proposal ph)) (Some (process_proposal ph)) (Some handler)
      (Some (init_chainer app d)).
Proof.
  unfold set_callbacks.
  intros ([] & s1 & E1 & ([] & s2 & E2 & ([] & s3 & E3 & ([] & s4 & E4 & E)%bind_Ok)%bind_Ok)%bind_Ok)%bind_Ok.
  rewrite catch_Ok in E by done. destruct E as (h & s4' & [Eh ->]%lift_Ok & E).
  apply bind_Ok in E as ([] & s5 & E5 & ([] & s6 & E6 & E)%bind_Ok).
  rewrite catch_Ok in E by done. destruct E as ([] & s7 & E7 & [_ <-]%ret_Ok).
  exists h. split; [done|].
  rewrite (Runtime_Load_sets _ _ _ _ _ E7), (SetInitChainer_sets _ _ _ _ _ E6),
    (SetAnteHandler_sets _ _ _ _ _ E5), (SetProcessProposal_sets _ _ _ _ _ E4),
    (SetPrepareProposal_sets _ _ _ _ _ E3), (SetVerifyVoteExtensionHandler_sets _ _ _ _ _ E2),
    (SetExtendVoteHandler_sets _ _ _ _ _ E1). done.
Qed.

(** C27. An application that was built answers with the handlers of this
    repository: its callbacks are the vote-extension and proposal handlers around
    the injected keeper, the custom [InitChainer], and the ante handler
    [NewAnteHandler] makes of the injected keepers, which checks secondary
    signatures.  Nothing that runs later in the construction replaces one. *)
Theorem New_wiring `{!SdkLaws S (Node Store) Ctx} logger db ts latest opts bopts s app s' :
  New KVStore Inject logger db ts latest opts bopts s = (Ok app, s') →
  ∃ builder d handler s1, Inject depinject_config opts logger s = (Ok (builder, d), s1) ∧
    App_Injected app = d ∧ vote_keeper (voteExtHandler app) = SecondarykeysKeeper d ∧
    proposal_keeper (proposalHandler app) = SecondarykeysKeeper d ∧
    NewAnteHandler KVStore (ante_options d) = Ok handler ∧
    callbacks (App_App app) s' = Build_Callbacks (Some (extend_vote (voteExtHandler app)))
      (Some (verify_vote_extension (voteExtHandler app)))
      (Some (prepare_proposal (proposalHandler app)))
      (Some (process_proposal (proposalHandler app))) (Some handler)
      (Some (init_chainer (App_App app) d)).
Proof.
  unfold New. rewrite catch_Ok by done. intros ([builder d] & s1 & Ei & E).
  apply bind_Ok in E as (rt & s2 & _ & E). rewrite catch_Ok in E by done.
  destruct E as (k & s3 & _ & (m & s4 & _ & ([] & s5 & Ec & [<- <-]%ret_Ok)%bind_Ok)%bind_Ok).
  apply set_callbacks_Ok in Ec as (handler & Eh & Ec). by exists builder, d, handler, s1.
Qed.

(** Building the application stops the process when dependency injection
    fails, with its error, and when the transaction configuration has no sign-mode
    handler; and genesis is not run when the module versions cannot be stored. *)
Theorem New_stops logger db ts latest opts bopts s :
  let run := New KVStore Inject logger db ts latest opts bopts s in
  (∀ e s1, Inject depinject_config opts logger s = (Err e, s1) → run = (Panic e, s1)) ∧
  (∀ builder d s1, Inject depinject_config opts logger s = (Ok (builder, d), s1) →
     SignModeHandler (txConfig d) = None → is_Ok run.1 = false) ∧
  (∀ rt d ctx req r e r1, SetModuleVersionMap (UpgradeKeeper d) ctx (GetVersionMap rt r) r = (Err e, r1) →
     init_chainer rt d ctx req r = (Err e, r1)).
Proof.
  cbv zeta. split_and!.
  - intros e s1 E. unfold New, catch. by rewrite E.
  - intros builder d s1 Ei Hn.
    destruct (New _ _ _ _ _ _ _ _ s) as [[app|?|?] s'] eqn:E; [exfalso|done..]. revert E.
    unfold New. rewrite catch_Ok by done. rewrite Ei. intros ([b d'] & s1' & [= <- <- <-] & E).
    apply bind_Ok in E as (rt & s2 & _ & E). rewrite catch_Ok in E by done.
    destruct E as (k & s3 & _ & (m & s4 & _ & ([] & s5 & Ec & _)%bind_Ok)%bind_Ok).
    unfold set_callbacks in Ec.
    do 4 (apply bind_Ok in Ec as ([] & ? & _ & Ec)). rewrite catch_Ok in Ec by done.
    destruct Ec as (h & ? & [Eh _]%lift_Ok & _).
    unfold NewAnteHandler in Eh. cbn in Eh. by rewrite Hn in Eh.
  - intros rt d ctx req r e r1 E. unfold init_chainer, mbind, gom_bind, reads, catch. by rewrite E.
Qed.

Lemma RegisterIBC_permute order1 order2 cdc (s : S) :
  (∀ m, order1 m ≡ₚ map_to_list m) → (∀ m, order2 m ≡ₚ map_to_list m) →
  (∀ m1 m2 f1 f2 reg t, RegisterInterfaces m1 = Some f1 → RegisterInterfaces m2 = Some f2 →
     (f1 reg ;; f2 reg) t = (f2 reg ;; f1 reg) t) →
  RegisterIBC order1 cdc s = RegisterIBC order2 cdc s.
Proof.
  intros Ho1 Ho2 Hc. unfold RegisterIBC, mbind, gom_bind.
  erewrite foldM_permute; [reflexivity| |by rewrite Ho1, <-Ho2].
  intros [n1 m1] [n2 m2] t. cbn [snd].
  destruct (RegisterInterfaces m1) as [f1|] eqn:E1, (RegisterInterfaces m2) as [f2|] eqn:E2;
    [by eapply Hc| | |done]; unfold mbind, gom_bind, mret, gom_ret;
    [by destruct (f1 _ t) as [[[]|?|?] ?]|by destruct (f2 _ t) as [[[]|?|?] ?]].
Qed.

(** The order in which Go ranges over the map of IBC modules does not matter:
    when registering two modules' interfaces gives the same in either order, any
    two orders of all the modules leave the same registry, and the same map, which
    has one module for each of the five names. *)
Theorem RegisterIBC_order order1 order2 cdc (s : S) :
  (∀ m, order1 m ≡ₚ map_to_list m) → (∀ m, order2 m ≡ₚ map_to_list m) →
  (∀ m1 m2 f1 f2 reg t, RegisterInterfaces m1 = Some f1 → RegisterInterfaces m2 = Some f2 →
     (f1 reg ;; f2 reg) t = (f2 reg ;; f1 reg) t) →
  RegisterIBC order1 cdc s = RegisterIBC order2 cdc s ∧
  ∀ modules s', RegisterIBC order1 cdc s = (Ok modules, s') →
    ∀ name, is_Some (modules !! name) ↔ name ∈ AppConfig.ibcModules.
Proof.
  intros Ho1 Ho2 Hc. split; [by apply RegisterIBC_permute|].
  unfold RegisterIBC. intros modules s' ([] & s1 & _ & [<- _]%ret_Ok)%bind_Ok name.
  unfold ibc_client_modules, AppConfig.ibcModules. rewrite <-elem_of_dom, dom_list_to_map_L.
  by rewrite elem_of_list_to_set.
Qed.

End Theorems.

(** ** The properties at concrete inputs *)

(** Libraries that only remember the callbacks; the ante handler is the traced
    chain of [ToyAnte], and options without a home do not inject. *)
Module ToyApp.
Import Concrete ToyAnte AppConfig.SdkValues.

Abbreviation state :=
  (Callbacks (Node store) ToyAnte.ctx (ToyAnte.ctx → unit → GoM unit unit)).

Definition none : state := Build_Callbacks None None None None None None.

#[export] Instance toy_http : Docs.Http state unit := {|
  Docs.FS := bytes; Docs.embed := id; Docs.HttpRequest := unit; Docs.HttpHandler := unit;
  Docs.ApiRouter := unit; Docs.HtmlTemplate := unit; Docs.FileServer _ := tt;
  Docs.HandlerFunc _ := tt; Docs.Router_Handle _ _ _ := mret tt; Docs.ParseFS _ _ := Ok tt;
  Docs.Execute _ _ := mret tt
|}.

#[export] Instance toy_sdk : Sdk state (Node store) ToyAnte.ctx := {|
  Codec := unit; LegacyAmino_t := unit; TxConfig_t := bool; InterfaceRegistry_t := unit;
  Logger_t := unit; DB := unit; TraceStore := unit; AppOptions := bytes;
  BaseAppOption := unit; SetOptimisticExecution := tt;
  StakingKeeper_t := unit; SlashingKeeper_t := unit; MintKeeper_t := unit; DistrKeeper_t := unit;
  GovKeeper_t := unit; UpgradeKeeper_t := bool; AuthzKeeper_t := unit;
  ConsensusParamsKeeper_t := unit; CircuitBreakerKeeper_t := unit; ParamsKeeper_t := unit;
  IBCKeeper_t := unit; AppBuilder := unit; RuntimeApp := unit; AppModule_t := nat;
  SimulationManager_t := unit; Run := unit; VersionMap := unit; RequestInitChain := unit;
  ResponseInitChain := unit; StoreKey := bytes; KVStoreKey := bytes; Subspace_t := unit;
  ApiServer := unit; ApiConfig := unit; ClientContext := unit; Response := unit; AppModuleBasic := unit;
  genutil_AppModuleBasic := tt;
  Sdk_Http := toy_http;
  NewKVStoreKey := id; is_KVStoreKey := Some;
  SignModeHandler b := if b : bool then Some tt else None;
  DefaultSigVerificationGasConsumer := tt; nil_ExtensionOptionChecker := tt;
  nil_FeegrantKeeper := tt; nil_TxFeeChecker := tt;
  AppBuilder_Build _ _ _ _ := mret tt; ModuleManager_Modules _ _ := ∅; GetVersionMap _ _ := tt;
  SetModuleVersionMap b _ _ := if b : bool then mret tt else fail (ErrorString "no upgrade store");
  Runtime_InitChainer _ _ _ := mret tt; auth_NewAppModule _ _ := 0;
  NewSimulationManagerFromAppModules _ _ := mret tt; RegisterStoreDecoders _ := mret tt;
  RegisterStores _ _ := mret tt; RegisterModules _ _ := mret tt;
  UnsafeFindStoreKey _ key _ := key; Params_GetSubspace _ _ _ := (tt, true);
  Runtime_Load _ _ := mret tt; Runtime_RegisterAPIRoutes _ _ _ := mret tt;
  ApiServer_ClientCtx := id; ApiServer_Router _ := (tt : Docs.ApiRouter); ApiConfig_Swagger _ := true;
  RegisterSwaggerAPI _ _ _ := mret tt;
  callbacks _ c := c;
  SetExtendVoteHandler _ h := modify (λ c, Build_Callbacks (Some h) (verifyVoteExt c)
    (prepareProposal c) (processProposal c) (anteHandler c) (initChainer c));
  SetVerifyVoteExtensionHandler _ h := modify (λ c, Build_Callbacks (extendVote c) (Some h)
    (prepareProposal c) (processProposal c) (anteHandler c) (initChainer c));
  SetPrepareProposal _ h := modify (λ c, Build_Callbacks (extendVote c) (verifyVoteExt c)
    (Some h) (processProposal c) (anteHandler c) (initChainer c));
  SetProcessProposal _ h := modify (λ c, Build_Callbacks (extendVote c) (verifyVoteExt c)
    (prepareProposal c) (Some h) (anteHandler c) (initChainer c));
  SetAnteHandler _ h := modify (λ c, Build_Callbacks (extendVote c) (verifyVoteExt c)
    (prepareProposal c) (processProposal c) (Some h) (initChainer c));
  SetInitChainer _ h := modify (λ c, Build_Callbacks (extendVote c) (verifyVoteExt c)
    (prepareProposal c) (processProposal c) (anteHandler c) (Some h))
|}.

#[export] Instance toy_sdk_laws : SdkLaws state (Node store) ToyAnte.ctx.
Proof. split; intros; intros s [] s' [= <-]; done. Qed.

Definition add_route (name : bytes) (r : list bytes) : outcome (list bytes) :=
  if decide (name ∈ r) then Panic (ErrorString "route exists") else Ok (name :: r).

Definition done_tt : GoM state unit := mret tt.

#[export] Instance toy_ibc : Ibc state (Node store) ToyAnte.ctx := {|
  ibcexported_StoreKey := str "ibc"; ibctransfertypes_StoreKey := str "transfer";
  icahosttypes_StoreKey := str "icahost"; icacontrollertypes_StoreKey := str "icacontroller";
  ibctransfertypes_PortID := str "transfer"; icahosttypes_SubModuleName := str "icahost";
  icacontrollertypes_SubModuleName := str "icacontroller";
  TransferKeeper_t := unit; ICAHostKeeper_t := unit; ICAControllerKeeper_t := unit;
  ChannelKeeper_t := unit; ClientKeeper_t := unit; MsgServiceRouter_t := unit;
  GRPCQueryRouter_t := unit; KeyTable := unit; ParamSet := unit; StoreService := unit;
  IBCModule := unit; IBCModuleV2 := unit; StoreProvider := unit; LightClientModule := unit;
  ibcclient_ParamKeyTable := tt; ibctransfer_ParamKeyTable := tt;
  icacontroller_ParamKeyTable := tt; icahost_ParamKeyTable := tt; ibcconnection_Params := tt;
  RegisterParamSet _ _ := tt; Subspace_WithKeyTable _ _ _ := done_tt;
  AddressCodec_BytesToString _ := Ok; module_address := id; NewKVStoreService _ := tt;
  MsgServiceRouter _ := tt; GRPCQueryRouter _ := tt;
  ibckeeper_NewKeeper _ _ _ _ _ := done_tt; ChannelKeeper _ := tt; ClientKeeper _ := tt;
  ibctransferkeeper_NewKeeper _ _ _ _ _ _ _ _ _ := done_tt;
  icahostkeeper_NewKeeper _ _ _ _ _ _ _ _ _ := done_tt;
  icacontrollerkeeper_NewKeeper _ _ _ _ _ _ _ := done_tt;
  ibctransfer_NewIBCModule _ := tt; ibctransferv2_NewIBCModule _ := tt;
  icacontroller_NewIBCMiddleware _ := tt; icahost_NewIBCModule _ := tt;
  Router := list bytes; RouterV2 := list bytes; NewRouter := []; NewRouterV2 := [];
  AddRoute name _ r := add_route name r; AddRouteV2 name _ r := add_route name r;
  SetRouter _ _ := done_tt; SetRouterV2 _ _ := done_tt; GetStoreProvider _ := tt;
  ibctm_NewLightClientModule _ _ := tt; solomachine_NewLightClientModule _ _ := tt;
  ClientKeeper_AddRoute _ _ _ := done_tt;
  ibc_NewAppModule _ := 1; ibctransfer_NewAppModule _ := 2; icamodule_NewAppModule _ _ := 3;
  ibctm_NewAppModule _ := 4; solomachine_NewAppModule _ := 5;
  IBCKeeper_zero := tt; TransferKeeper_zero := tt; ICAHostKeeper_zero := tt;
  ICAControllerKeeper_zero := tt; StoreProvider_zero := tt; Codec_InterfaceRegistry := id;
  RegisterInterfaces n := if decide (n = 5) then None else Some (λ _, done_tt)
|}.

Definition injected (signs : bool) : Injected := {|
  appCodec := (tt : Codec); legacyAmino := (tt : LegacyAmino_t); txConfig := (signs : TxConfig_t);
  interfaceRegistry := (tt : InterfaceRegistry_t); AuthKeeper := (tt : AccountKeeper_t);
  BankKeeper := (tt : BankKeeper_t); StakingKeeper := (tt : StakingKeeper_t);
  SlashingKeeper := (tt : SlashingKeeper_t); MintKeeper := (tt : MintKeeper_t);
  DistrKeeper := (tt : DistrKeeper_t); GovKeeper := (tt : GovKeeper_t);
  UpgradeKeeper := (false : UpgradeKeeper_t); AuthzKeeper := (tt : AuthzKeeper_t);
  ConsensusParamsKeeper := (tt : ConsensusParamsKeeper_t);
  CircuitBreakerKeeper := (tt : CircuitBreakerKeeper_t); ParamsKeeper := (tt : ParamsKeeper_t);
  ExampleKeeper := ExampleModule.Concrete.k0; SecondarykeysKeeper := k0
|}.

Definition inject (_ : AppConfig.DepConfig AppModuleBasic) (opts : AppOptions) (_ : Logger_t) : GoM state (AppBuilder * Injected) :=
  fun s => if decide (opts = ([] : bytes)) then (Err (ErrorString "missing options"), s)
  else (Ok ((tt : AppBuilder), injected (bool_decide (opts = str "signing"))), s).

Definition logger : Logger_t := tt.
Definition db : DB := tt.
Definition trace_store : TraceStore := tt.
Definition cdc : Codec := tt.
Definition runtime : RuntimeApp := tt.
Definition request : RequestInitChain := tt.
Definition running : Run := tt.
Definition options (o : bytes) : AppOptions := o.

(** The application built with signing options. *)
Definition built : outcome App * state :=
  New fst inject logger db trace_store true (options (str "signing")) [] none.

Lemma New_wiring_witness :
  ∃ app s', built = (Ok app, s') ∧
    ∃ builder d handler s1, inject depinject_config (options (str "signing")) logger none = (Ok (builder, d), s1) ∧
      NewAnteHandler fst (ante_options d) = Ok handler ∧ anteHandler s' = Some handler.
Proof.
  assert (is_Ok built.1 = true) as Hok by (vm_compute; reflexivity).
  destruct built as [[app|e|v] s'] eqn:E; [|discriminate Hok..].
  exists app, s'. split; [reflexivity|].
  destruct (New_wiring fst inject logger db trace_store true (options (str "signing")) [] none app s' E)
    as (builder & d & handler & s1 & Hi & _ & _ & _ & Hh & Hc).
  exists builder, d, handler, s1. split; [exact Hi|]. split; [exact Hh|].
  exact (f_equal anteHandler Hc).
Defined.

Lemma New_stops_witness :
  New fst inject logger db trace_store true (options []) [] none =
    (Panic (ErrorString "missing options"), none) ∧
  is_Ok (New fst inject logger db trace_store true (options (str "unsigned")) [] none).1 = false ∧
  init_chainer runtime (injected true) (MemStore.empty, []) request running =
    (Err (ErrorString "no upgrade store"), running).
Proof.
  split; [|split].
  - apply (proj1 (New_stops fst inject logger db trace_store true (options []) [] none)).
    reflexivity.
  - refine (proj1 (proj2 (New_stops fst inject logger db trace_store true
      (options (str "unsigned")) [] none)) _ _ none eq_refl _). reflexivity.
  - apply (proj2 (proj2 (New_stops fst inject logger db trace_store true (options []) [] none))).
    reflexivity.
Defined.

Lemma RegisterIBC_order_witness :
  RegisterIBC map_to_list cdc none =
    RegisterIBC (λ m, reverse (map_to_list m)) cdc none ∧
  ∃ modules s', RegisterIBC map_to_list cdc none = (Ok modules, s') ∧
    is_Some (modules !! str "transfer").
Proof.
  destruct (RegisterIBC_order map_to_list (λ m, reverse (map_to_list m)) cdc none)
    as [H1 H2].
  - intros m. reflexivity.
  - intros m. apply reverse_Permutation.
  - intros m1 m2 f1 f2 reg t. cbn. do 2 case_decide; intros E1 E2; try discriminate.
    injection E1 as <-. injection E2 as <-. reflexivity.
  - split; [exact H1|].
    assert (is_Ok (RegisterIBC map_to_list cdc none).1 = true) as Hok
      by (vm_compute; reflexivity).
    destruct (RegisterIBC map_to_list cdc none) as [[modules|e|v] s'] eqn:E;
      [|discriminate Hok..].
    exists modules, s'. split; [reflexivity|]. apply (H2 modules s' eq_refl).
    apply (bool_decide_eq_true_1 _); vm_compute; reflexivity.
Defined.

End ToyApp.
