(* ===== verification/StateExport.v ===== *)
(** [app/export.go]: exporting the application's state, and the preparation of
    a restart at height zero.  The keepers of the staking, distribution and
    slashing modules are the interface [ExportKeepers]; what the preparation
    relies on is [ExportLaws].  A context is its block height. *)
From S2P Require Import Prelude.

#[local] Open Scope go_scope.

(** The fields the code reads or writes; [Other] stands for the rest. *)
Record Validator := {
  OperatorAddress : bytes; Jailed : bool; UnbondingHeight : Z; Validator_Other : bytes
}.
Record Delegation := { DelegatorAddress : bytes; ValidatorAddress : bytes }.
Record Entry := { CreationHeight : Z; Entry_Other : bytes }.
(** The [Key] of a redelegation or an unbonding delegation: the addresses it is
    stored under. *)
Record Redelegation := { Red_Key : bytes; Red_Entries : list Entry }.
Record UnbondingDelegation := { Ubd_Key : bytes; Ubd_Entries : list Entry }.
Record ValidatorSigningInfo := { StartHeight : Z; Info_Other : bytes }.

Class ExportKeepers (S : Type) := {
  DecCoins : Type;
  DecCoins_Add : DecCoins → DecCoins → DecCoins;
  (** [InterfaceRegistry().SigningContext()] *)
  ValidatorAddressCodec_StringToBytes : bytes → outcome bytes;
  AddressCodec_StringToBytes : bytes → outcome bytes;
  (** [StakingKeeper] *)
  StakingKeeper_StringToBytes : bytes → outcome bytes;
  StakingKeeper_BytesToString : bytes → outcome bytes;
  IterateValidators : Z → (Z → Validator → GoM S bool) → GoM S unit;
  GetAllDelegations : Z → GoM S (list Delegation);
  IterateRedelegations : Z → (Z → Redelegation → GoM S bool) → GoM S unit;
  SetRedelegation : Z → Redelegation → GoM S unit;
  IterateUnbondingDelegations : Z → (Z → UnbondingDelegation → GoM S bool) → GoM S unit;
  SetUnbondingDelegation : Z → UnbondingDelegation → GoM S unit;
  GetValidator : Z → bytes → S → outcome Validator;
  SetValidator : Z → Validator → GoM S unit;
  ApplyAndReturnValidatorSetUpdates : Z → GoM S unit;
  (** the keys under [ValidatorsKey], last first, and closing their iterator *)
  ReversePrefixKeys : S → list bytes;
  AddressFromValidatorsKey : bytes → bytes;
  Iterator_Close : GoM S unit;
  (** [DistrKeeper] *)
  WithdrawValidatorCommission : Z → bytes → GoM S unit;
  WithdrawDelegationRewards : Z → bytes → bytes → GoM S unit;
  DeleteAllValidatorSlashEvents : Z → GoM S unit;
  DeleteAllValidatorHistoricalRewards : Z → GoM S unit;
  GetValidatorOutstandingRewardsCoins : Z → bytes → GoM S DecCoins;
  FeePool_Get : Z → GoM S DecCoins;
  FeePool_Set : Z → DecCoins → GoM S unit;
  AfterValidatorCreated : Z → bytes → GoM S unit;
  BeforeDelegationCreated : Z → bytes → bytes → GoM S unit;
  AfterDelegationModified : Z → bytes → bytes → GoM S unit;
  (** [SlashingKeeper] *)
  IterateValidatorSigningInfos : Z → (bytes → ValidatorSigningInfo → GoM S bool) → GoM S unit;
  SetValidatorSigningInfo : Z → bytes → ValidatorSigningInfo → GoM S unit;
  (** [ModuleManager], [staking] and [BaseApp] *)
  LastBlockHeight : S → Z;
  GenesisMap : Type;
  ExportGenesisForModules : Z → list bytes → GoM S GenesisMap;
  MarshalIndent : GenesisMap → outcome bytes;
  GenesisValidator : Type;
  WriteValidators : Z → GoM S (list GenesisValidator);
  ConsensusParams : Type;
  GetConsensusParams : Z → S → ConsensusParams
}.

Section Preparation.
Context {S : Type} `{!ExportKeepers S}.

(** [if err != nil { panic(err) }] *)
Definition must {A} (m : GoM S A) : GoM S A := let? x := m else err => panic err in mret x.
(** [_ = m] and [_, _ = m] *)
Definition discard {A} (m : GoM S A) : GoM S unit := let? _ := m else err => mret tt in mret tt.

(** [for _, x := range l] *)
Fixpoint range {X} (l : list X) (f : X → GoM S unit) : GoM S unit :=
  match l with
  | [] => mret tt
  | x :: l' => _ ← f x; range l' f
  end.

(** The map of the allowed addresses; an address that does not decode panics. *)
Fixpoint allowedAddrs (jailAllowedAddrs : list bytes) (allowedAddrsMap : gset bytes)
    : GoM S (gset bytes) :=
  match jailAllowedAddrs with
  | [] => mret allowedAddrsMap
  | addr :: l =>
      _ ← must (lift (ValidatorAddressCodec_StringToBytes addr));
      allowedAddrs l ({[addr]} ∪ allowedAddrsMap)
  end.

(** Withdraw all validator commission. *)
Definition withdraw_commissions (ctx : Z) : GoM S unit :=
  must (IterateValidators ctx (λ _ val,
    valBz ← must (lift (StakingKeeper_StringToBytes (OperatorAddress val)));
    _ ← discard (WithdrawValidatorCommission ctx valBz);
    mret false)).

(** Withdraw all delegator rewards. *)
Definition withdraw_rewards (ctx : Z) (dels : list Delegation) : GoM S unit :=
  range dels (λ delegation,
    valAddr ← must (lift (ValidatorAddressCodec_StringToBytes (ValidatorAddress delegation)));
    delAddr ← must (lift (AddressCodec_StringToBytes (DelegatorAddress delegation)));
    discard (WithdrawDelegationRewards ctx delAddr valAddr)).

(** Reinitialize all validators, donating what was not withdrawn. *)
Definition reinitialize_validators (ctx : Z) : GoM S unit :=
  must (IterateValidators ctx (λ _ val,
    valBz ← must (lift (StakingKeeper_StringToBytes (OperatorAddress val)));
    rewards ← must (GetValidatorOutstandingRewardsCoins ctx valBz);
    communityPool ← must (FeePool_Get ctx);
    _ ← must (FeePool_Set ctx (DecCoins_Add communityPool rewards));
    _ ← must (AfterValidatorCreated ctx valBz);
    mret false)).

(** Reinitialize all delegations. *)
Definition reinitialize_delegations (ctx : Z) (dels : list Delegation) : GoM S unit :=
  range dels (λ del,
    valAddr ← must (lift (ValidatorAddressCodec_StringToBytes (ValidatorAddress del)));
    delAddr ← must (lift (AddressCodec_StringToBytes (DelegatorAddress del)));
    _ ← (let? _ := BeforeDelegationCreated ctx delAddr valAddr
           else err => panic (Wrapped "error while incrementing period" err) in mret tt);
    let? _ := AfterDelegationModified ctx delAddr valAddr
      else err => panic (Wrapped "error while creating a new delegation period record" err) in
    mret tt).

Definition reset_entries (l : list Entry) : list Entry :=
  map (λ e, {| CreationHeight := 0; Entry_Other := Entry_Other e |}) l.

Definition reset_redelegations (ctx : Z) : GoM S unit :=
  must (IterateRedelegations ctx (λ _ red,
    _ ← must (SetRedelegation ctx
                {| Red_Key := Red_Key red; Red_Entries := reset_entries (Red_Entries red) |});
    mret false)).

Definition reset_unbondings (ctx : Z) : GoM S unit :=
  must (IterateUnbondingDelegations ctx (λ _ ubd,
    _ ← must (SetUnbondingDelegation ctx
                {| Ubd_Key := Ubd_Key ubd; Ubd_Entries := reset_entries (Ubd_Entries ubd) |});
    mret false)).

(** Reset the bond heights, and jail the validators that are not allowed. *)
Definition reset_validators (ctx : Z) (applyAllowedAddrs : bool) (allowedAddrsMap : gset bytes)
    (keys : list bytes) : GoM S unit :=
  range keys (λ key,
    let addr := AddressFromValidatorsKey key in
    validator ← (let? v := reads (GetValidator ctx addr)
                   else err => panic (ErrorString "expected validator, not found") in mret v);
    valAddr ← must (lift (StakingKeeper_BytesToString addr));
    let jailed :=
      if applyAllowedAddrs && negb (bool_decide (valAddr ∈ allowedAddrsMap)) then true
      else Jailed validator in
    must (SetValidator ctx {|
      OperatorAddress := OperatorAddress validator; Jailed := jailed; UnbondingHeight := 0;
      Validator_Other := Validator_Other validator |})).

Definition reset_signing_infos (ctx : Z) : GoM S unit :=
  must (IterateValidatorSigningInfos ctx (λ addr info,
    _ ← discard (SetValidatorSigningInfo ctx addr
                   {| StartHeight := 0; Info_Other := Info_Other info |});
    mret false)).

(** The end of the preparation, from the iterator over the validators on: when
    the iterator does not close, the function returns. *)
Definition reset_validator_state (ctx : Z) (applyAllowedAddrs : bool)
    (allowedAddrsMap : gset bytes) : GoM S unit :=
  keys ← reads (λ s, Ok (ReversePrefixKeys s));
  _ ← reset_validators ctx applyAllowedAddrs allowedAddrsMap keys;
  let? _ := Iterator_Close else err => mret tt in
  _ ← must (ApplyAndReturnValidatorSetUpdates ctx);
  reset_signing_infos ctx.

Definition prepForZeroHeightGenesis (ctx : Z) (jailAllowedAddrs : list bytes) : GoM S unit :=
  let applyAllowedAddrs := (0 <? length jailAllowedAddrs)%nat in
  allowedAddrsMap ← allowedAddrs jailAllowedAddrs ∅;
  _ ← withdraw_commissions ctx;
  dels ← must (GetAllDelegations ctx);
  _ ← withdraw_rewards ctx dels;
  _ ← DeleteAllValidatorSlashEvents ctx;
  _ ← DeleteAllValidatorHistoricalRewards ctx;
  _ ← reinitialize_validators 0;
  _ ← reinitialize_delegations 0 dels;
  _ ← reset_redelegations ctx;
  _ ← reset_unbondings ctx;
  reset_validator_state ctx applyAllowedAddrs allowedAddrsMap.

Record ExportedApp := {
  AppState : bytes; Validators : list GenesisValidator; Height : Z;
  Exported_ConsensusParams : ConsensusParams
}.

Definition ExportAppStateAndValidators (forZeroHeight : bool)
    (jailAllowedAddrs modulesToExport : list bytes) : GoM S ExportedApp :=
  ctx ← reads (λ s, Ok (LastBlockHeight s));
  height ← (if forZeroHeight
            then _ ← prepForZeroHeightGenesis ctx jailAllowedAddrs; mret 0%Z
            else mret (int64 (ctx + 1)));
  genState ← ExportGenesisForModules ctx modulesToExport;
  appState ← lift (MarshalIndent genState);
  validators ← WriteValidators ctx;
  params ← reads (λ s, Ok (GetConsensusParams ctx s));
  mret {| AppState := appState; Validators := validators; Height := height;
          Exported_ConsensusParams := params |}.

End Preparation.

(** ** What the preparation relies on *)

(** [IterateX] hands the entries of a store to its callback one by one, until
    the callback says stop. *)
Fixpoint for_each {S X} (f : X → GoM S bool) (l : list X) : GoM S unit :=
  match l with
  | [] => mret tt
  | x :: l' => stop ← f x; if (stop : bool) then mret tt else for_each f l'
  end.

(** The parts of the state the preparation resets. *)
Class ExportViews (S : Type) := {
  redelegations : S → list Redelegation;
  unbondings : S → list UnbondingDelegation;
  signing_infos : S → list (bytes * ValidatorSigningInfo)
}.

Section Laws.
Context {S : Type} `{!ExportKeepers S, !ExportViews S}.
Implicit Types s : S.

(** The staking state is the same. *)
Record staking_same s s' : Prop := {
  same_redelegations : redelegations s' = redelegations s;
  same_unbondings : unbondings s' = unbondings s;
  same_validators : ∀ c a, GetValidator c a s' = GetValidator c a s;
  same_keys : ReversePrefixKeys s' = ReversePrefixKeys s
}.

Class ExportLaws : Prop := {
  (** distribution does not touch the staking state *)
  law_commission c a s : staking_same s (WithdrawValidatorCommission c a s).2;
  law_rewards c d a s : staking_same s (WithdrawDelegationRewards c d a s).2;
  law_slash_events c s : staking_same s (DeleteAllValidatorSlashEvents c s).2;
  law_historical c s : staking_same s (DeleteAllValidatorHistoricalRewards c s).2;
  law_outstanding c a s : staking_same s (GetValidatorOutstandingRewardsCoins c a s).2;
  law_pool_get c s : staking_same s (FeePool_Get c s).2;
  law_pool_set c p s : staking_same s (FeePool_Set c p s).2;
  law_created c a s : staking_same s (AfterValidatorCreated c a s).2;
  law_before c d a s : staking_same s (BeforeDelegationCreated c d a s).2;
  law_after c d a s : staking_same s (AfterDelegationModified c d a s).2;
  law_delegations c s : staking_same s (GetAllDelegations c s).2;
  law_close s : (Iterator_Close s).2 = s;
  (** iteration *)
  law_iterate_validators c f s s' :
    IterateValidators c f s = (Ok tt, s') →
    ∃ il, for_each (λ p, f p.1 p.2) il s = (Ok tt, s');
  law_iterate_redelegations c f s s' :
    IterateRedelegations c f s = (Ok tt, s') →
    ∃ il, map snd il = redelegations s ∧ for_each (λ p, f p.1 p.2) il s = (Ok tt, s');
  law_iterate_unbondings c f s s' :
    IterateUnbondingDelegations c f s = (Ok tt, s') →
    ∃ il, map snd il = unbondings s ∧ for_each (λ p, f p.1 p.2) il s = (Ok tt, s');
  law_iterate_infos c f s s' :
    IterateValidatorSigningInfos c f s = (Ok tt, s') →
    for_each (λ p, f p.1 p.2) (signing_infos s) s = (Ok tt, s');
  (** writing an entry replaces the one under its key, and nothing else *)
  law_set_redelegation c r s s' :
    SetRedelegation c r s = (Ok tt, s') →
    (∀ r', r' ∈ redelegations s' → r' = r ∨ r' ∈ redelegations s ∧ Red_Key r' ≠ Red_Key r) ∧
    unbondings s' = unbondings s ∧ (∀ c a, GetValidator c a s' = GetValidator c a s) ∧
    ReversePrefixKeys s' = ReversePrefixKeys s;
  law_set_unbonding c u s s' :
    SetUnbondingDelegation c u s = (Ok tt, s') →
    (∀ u', u' ∈ unbondings s' → u' = u ∨ u' ∈ unbondings s ∧ Ubd_Key u' ≠ Ubd_Key u) ∧
    redelegations s' = redelegations s ∧ (∀ c a, GetValidator c a s' = GetValidator c a s) ∧
    ReversePrefixKeys s' = ReversePrefixKeys s;
  law_set_validator c v s s' :
    SetValidator c v s = (Ok tt, s') →
    redelegations s' = redelegations s ∧ unbondings s' = unbondings s ∧
    ∀ c a, GetValidator c a s' =
      if decide (StakingKeeper_StringToBytes (OperatorAddress v) = Ok a) then Ok v
      else GetValidator c a s;
  law_set_info c a i s r s' :
    SetValidatorSigningInfo c a i s = (r, s') →
    staking_same s s' ∧
    (r = Ok tt → ∀ p, p ∈ signing_infos s' → p = (a, i) ∨ p ∈ signing_infos s ∧ p.1 ≠ a);
  (** validators: each is stored under its operator's address, among the keys *)
  law_operator c a s v :
    GetValidator c a s = Ok v → StakingKeeper_StringToBytes (OperatorAddress v) = Ok a;
  law_context c c' a s : GetValidator c a s = GetValidator c' a s;
  law_keys c a s v : GetValidator c a s = Ok v → a ∈ map AddressFromValidatorsKey (ReversePrefixKeys s);
  (** applying the validator set jails nobody and leaves the entries alone *)
  law_apply c s s' :
    ApplyAndReturnValidatorSetUpdates c s = (Ok tt, s') →
    redelegations s' = redelegations s ∧ unbondings s' = unbondings s ∧
    ∀ a v', GetValidator c a s' = Ok v' → ∃ v, GetValidator c a s = Ok v ∧ Jailed v' = Jailed v
}.
End Laws.

(** ** Runs that return *)

Section Runs.
Context {S : Type}.
Implicit Types s : S.

Lemma must_Ok {A} (m : GoM S A) s x s' : must m s = (Ok x, s') ↔ m s = (Ok x, s').
Proof.
  unfold must. rewrite catch_Ok by done. setoid_rewrite ret_Ok. split; [|by eauto].
  by intros (? & ? & ? & -> & ->).
Qed.

(** What every returning step of a computation does to the state. *)
Definition keeps (R : S → S → Prop) {A} (m : GoM S A) : Prop :=
  ∀ s x s', m s = (Ok x, s') → R s s'.

Context (R : S → S → Prop) `{!PreOrder R}.

Lemma keeps_ret {A} (x : A) : keeps R (mret x).
Proof. intros s y s' [_ ->]%ret_Ok. reflexivity. Qed.
Lemma keeps_lift {A} (m : outcome A) : keeps R (lift m).
Proof. intros s y s' [_ ->]%lift_Ok. reflexivity. Qed.
Lemma keeps_reads {A} (f : S → outcome A) : keeps R (reads f).
Proof. intros s y s' [_ ->]%reads_Ok. reflexivity. Qed.
Lemma keeps_bind {A B} (m : GoM S A) (f : A → GoM S B) :
  keeps R m → (∀ x, keeps R (f x)) → keeps R (m ≫= f).
Proof. intros Hm Hf s y s' (x & s1 & E1 & E2)%bind_Ok. etransitivity; [by eapply Hm|by eapply Hf]. Qed.
Lemma keeps_must {A} (m : GoM S A) : keeps R m → keeps R (must m).
Proof. intros Hm s x s'. rewrite must_Ok. apply Hm. Qed.
Lemma keeps_all {A} (m : GoM S A) : (∀ s, R s (m s).2) → keeps R m.
Proof. intros Hm s x s' E. specialize (Hm s). by rewrite E in Hm. Qed.
Lemma keeps_discard {A} (m : GoM S A) : (∀ s, R s (m s).2) → keeps R (discard m).
Proof.
  intros Hm. apply keeps_all. intros s. unfold discard, catch. specialize (Hm s).
  by destruct (m s) as [[] s1].
Qed.
Lemma keeps_catch {A B} (m : GoM S A) h (k : A → GoM S B) :
  (∀ e t x, (h e t).1 ≠ Ok x) → keeps R m → (∀ x, keeps R (k x)) → keeps R (catch m h k).
Proof.
  intros Hh Hm Hk s y s'. rewrite catch_Ok by (intros; apply Hh). intros (x & s1 & E1 & E2).
  etransitivity; [by eapply Hm|by eapply Hk].
Qed.
Lemma keeps_range {X} (l : list X) f : (∀ x, keeps R (f x)) → keeps R (range l f).
Proof. intros Hf. induction l; [apply keeps_ret|by apply keeps_bind]. Qed.
Lemma keeps_for_each {X} (l : list X) f : (∀ x, keeps R (f x)) → keeps R (for_each f l).
Proof.
  intros Hf. induction l; [apply keeps_ret|]. apply keeps_bind; [done|].
  intros []; [apply keeps_ret|done].
Qed.

End Runs.

Section Rewrites.
Context {S : Type}.
Implicit Types s : S.

(** Rewriting the entries one by one: it goes through the whole list, leaves
    nothing but rewritten entries, and does not touch what no step touches. *)
Lemma rewriter_Ok (m : GoM S unit) s b s' :
  (_ ← must m; mret false) s = (Ok b, s') → b = false ∧ m s = (Ok tt, s').
Proof. intros ([] & s1 & E & [<- <-]%ret_Ok)%bind_Ok. by rewrite must_Ok in E. Qed.

Lemma rewrites_frame {X V} (v : S → V) (body : X → GoM S unit) l s s' :
  (∀ x t t', body x t = (Ok tt, t') → v t' = v t) →
  for_each (λ x, _ ← must (body x); mret false) l s = (Ok tt, s') → v s' = v s.
Proof.
  intros Hb. revert s. induction l as [|x l IH]; intros s; cbn [for_each].
  { by intros [_ ->]%ret_Ok. }
  intros (b & s1 & [-> E1]%rewriter_Ok & E2)%bind_Ok. rewrite (IH _ E2). by eapply Hb.
Qed.

Lemma rewrites_all {X Y K} (proj : Y → X) (key : X → K) (view : S → list X) (new : X → X)
    (P : X → Prop) (step : Y → GoM S bool) l s s' :
  for_each step l s = (Ok tt, s') → map proj l = view s → (∀ x, P (new x)) →
  (∀ x t b t', step x t = (Ok b, t') → b = false ∧
     ∀ y, y ∈ view t' → y = new (proj x) ∨ y ∈ view t ∧ key y ≠ key (proj x)) →
  ∀ y, y ∈ view s' → P y.
Proof.
  intros E Hl HP Hstep y Hy.
  assert ((∃ x, y = new x) ∨ y ∈ view s ∧ ∀ x, x ∈ l → key y ≠ key (proj x))
    as [[x ->]|[Hys Hne]]; [|done|].
  - clear Hl HP. revert s E. induction l as [|x l IH]; intros s; cbn [for_each].
    { intros [_ ->]%ret_Ok. right. split; [done|]. by intros x ?%elem_of_nil. }
    intros (b & s1 & [-> H1]%Hstep & E2)%bind_Ok.
    destruct (IH _ E2) as [?|[Hy1 ?]]; [by left|].
    destruct (H1 y Hy1) as [->|[? ?]]; [left; by eexists|].
    right. split; [done|]. intros x' [->|?]%elem_of_cons; auto.
  - rewrite <-Hl in Hys. apply list_elem_of_fmap in Hys as (x & -> & Hx). by destruct (Hne x Hx).
Qed.
End Rewrites.

(** One step of a computation at a time; the database has the primitive ones. *)
Create HintDb keeps discriminated.
Ltac solve_keeps :=
  repeat match goal with
  | |- PreOrder _ => apply _
  | |- _ ≠ _ => discriminate
  | |- ∀ _, _ => intro
  | |- keeps _ (mret _) => apply keeps_ret
  | |- keeps _ (lift _) => apply keeps_lift
  | |- keeps _ (reads _) => apply keeps_reads
  | |- keeps _ (_ ≫= _) => apply keeps_bind
  | |- keeps _ (must _) => apply keeps_must
  | |- keeps _ (discard _) => apply keeps_discard
  | |- keeps _ (catch _ _ _) => apply keeps_catch
  | |- keeps _ (range _ _) => apply keeps_range
  | |- keeps _ (for_each _ _) => apply keeps_for_each
  | |- _ => solve [eauto with keeps]
  | |- keeps _ _ => apply keeps_all
  end.

Section Theorems.
Context {S : Type} `{!ExportKeepers S, !ExportViews S, !ExportLaws}.
Implicit Types s : S.

#[local] Instance staking_same_preorder : PreOrder (staking_same (S := S)).
Proof.
  split; [done|]. intros s1 s2 s3 [R1 U1 V1 K1] [R2 U2 V2 K2]. split; [congruence..| |congruence].
  intros c a. by rewrite V2.
Qed.

#[local] Hint Resolve law_commission law_rewards law_slash_events law_historical law_outstanding
  law_pool_get law_pool_set law_created law_before law_after law_delegations : keeps.
Lemma keeps_iterate_validators c f :
  (∀ i v, keeps staking_same (f i v)) → keeps staking_same (IterateValidators c f).
Proof.
  intros Hf s [] s' (il & E)%law_iterate_validators. revert E. apply keeps_for_each; [apply _|].
  intros p. apply Hf.
Qed.

(** The distribution part of the preparation. *)
Lemma distribution_same ctx dels :
  keeps staking_same (withdraw_commissions ctx) ∧
  keeps staking_same (withdraw_rewards ctx dels) ∧
  keeps staking_same (reinitialize_validators ctx) ∧
  keeps staking_same (reinitialize_delegations ctx dels).
Proof.
  unfold withdraw_commissions, withdraw_rewards, reinitialize_validators,
    reinitialize_delegations. split_and!.
  1, 3: apply keeps_must, keeps_iterate_validators.
  all: solve_keeps.
Qed.

(** *** The entries *)

Definition zero_entries (l : list Entry) : Prop := Forall (λ e, CreationHeight e = 0%Z) l.

Lemma zero_reset_entries l : zero_entries (reset_entries l).
Proof. induction l; by constructor. Qed.

Lemma reset_redelegations_Ok ctx s s' :
  reset_redelegations ctx s = (Ok tt, s') →
  (∀ r, r ∈ redelegations s' → zero_entries (Red_Entries r)) ∧
  unbondings s' = unbondings s ∧ (∀ c a, GetValidator c a s' = GetValidator c a s) ∧
  ReversePrefixKeys s' = ReversePrefixKeys s.
Proof.
  unfold reset_redelegations. rewrite must_Ok. intros (il & Hil & E)%law_iterate_redelegations.
  split_and!; [|intros; eapply rewrites_frame; [|exact E];
    intros p t t' (? & ? & HV & ?)%law_set_redelegation; solve [done|apply HV] ..].
  eapply (rewrites_all snd Red_Key redelegations
    (λ x, {| Red_Key := Red_Key x; Red_Entries := reset_entries (Red_Entries x) |})); [exact E|exact Hil|..].
  - intros x. apply zero_reset_entries.
  - intros p t b t' [-> Ht]%rewriter_Ok. split; [done|]. exact (proj1 (law_set_redelegation _ _ _ _ Ht)).
Qed.

Lemma reset_unbondings_Ok ctx s s' :
  reset_unbondings ctx s = (Ok tt, s') →
  (∀ u, u ∈ unbondings s' → zero_entries (Ubd_Entries u)) ∧
  redelegations s' = redelegations s ∧ (∀ c a, GetValidator c a s' = GetValidator c a s) ∧
  ReversePrefixKeys s' = ReversePrefixKeys s.
Proof.
  unfold reset_unbondings. rewrite must_Ok. intros (il & Hil & E)%law_iterate_unbondings.
  split_and!; [|intros; eapply rewrites_frame; [|exact E];
    intros p t t' (? & ? & HV & ?)%law_set_unbonding; solve [done|apply HV] ..].
  eapply (rewrites_all snd Ubd_Key unbondings
    (λ x, {| Ubd_Key := Ubd_Key x; Ubd_Entries := reset_entries (Ubd_Entries x) |})); [exact E|exact Hil|..].
  - intros x. apply zero_reset_entries.
  - intros p t b t' [-> Ht]%rewriter_Ok. split; [done|]. exact (proj1 (law_set_unbonding _ _ _ _ Ht)).
Qed.

(** *** The validators *)

(** The list of allowed addresses, if any, does not name the validator. *)
Definition jailed_by (jailAllowedAddrs : list bytes) (addr : bytes) : bool :=
  negb (bool_decide (jailAllowedAddrs = [])) &&
  match StakingKeeper_BytesToString addr with
  | Ok valAddr => negb (bool_decide (valAddr ∈ jailAllowedAddrs))
  | _ => false
  end.

Lemma allowedAddrs_Ok l m s r s' :
  allowedAddrs l m s = (Ok r, s') →
  s' = s ∧ r = list_to_set l ∪ m ∧ Forall (λ a, is_Ok (ValidatorAddressCodec_StringToBytes a)) l.
Proof.
  revert m. induction l as [|a l IH]; intros m; cbn [allowedAddrs].
  { intros [<- <-]%ret_Ok. split_and!; [done|set_solver|done]. }
  intros (x & s1 & E & Hl)%bind_Ok. rewrite must_Ok in E. apply lift_Ok in E as [E ->].
  apply IH in Hl as (-> & -> & Hf). split_and!; [done|set_solver|].
  constructor; [by rewrite E|done].
Qed.

(** What resetting one validator does to any validator. *)
Definition reset_one (apply : bool) (allowed : gset bytes) (addr : bytes) (v : Validator) : bool :=
  Jailed v || (apply && match StakingKeeper_BytesToString addr with
                        | Ok t => negb (bool_decide (t ∈ allowed))
                        | _ => false
                        end).

Lemma reset_validators_Ok ctx apply allowed keys s s' :
  reset_validators ctx apply allowed keys s = (Ok tt, s') →
  redelegations s' = redelegations s ∧ unbondings s' = unbondings s ∧
  ∀ c a v', GetValidator c a s' = Ok v' →
    ∃ v, GetValidator c a s = Ok v ∧
      Jailed v' = if decide (a ∈ map AddressFromValidatorsKey keys)
                  then reset_one apply allowed a v else Jailed v.
Proof.
  unfold reset_validators. revert s. induction keys as [|k keys IH]; intros s; cbn [range].
  { intros [_ ->]%ret_Ok. split_and!; [done..|]. intros c a v' Hv'. exists v'. done. }
  intros ([] & s1 & E1 & E2)%bind_Ok. apply IH in E2 as (HR & HU & HV).
  apply bind_Ok in E1 as (v0 & s2 & E0 & E1).
  rewrite catch_Ok in E0 by done. destruct E0 as (v0' & s2' & [Hg <-]%reads_Ok & [<- <-]%ret_Ok).
  apply bind_Ok in E1 as (t & s3 & Ht & E1). rewrite must_Ok in Ht. apply lift_Ok in Ht as [Ht <-].
  rewrite must_Ok in E1. apply law_set_validator in E1 as (HR1 & HU1 & HV1). cbn in HV1.
  split_and!; [congruence..|]. intros c a v' (v1 & Hv1 & Hj)%HV.
  rewrite HV1, (law_operator _ _ _ _ Hg) in Hv1. cbn [map].
  set (addr := AddressFromValidatorsKey k) in *.
  destruct (decide (Ok addr = Ok a)) as [[= <-]|Hne].
  - injection Hv1 as <-. exists v0'. rewrite (law_context c ctx). split; [done|].
    rewrite Hj, (decide_True (P := _ ∈ addr :: _)) by left. cbn.
    unfold reset_one; cbn. rewrite Ht.
    destruct (decide _), apply, (bool_decide _), (Jailed v0'); done.
  - exists v1. split; [done|]. rewrite Hj.
    assert (a ∈ map AddressFromValidatorsKey keys ↔ a ∈ addr :: map AddressFromValidatorsKey keys).
    { rewrite elem_of_cons. naive_solver. }
    by apply decide_ext.
Qed.

Lemma reset_signing_infos_Ok ctx s s' :
  (∀ c a i t, is_Ok (SetValidatorSigningInfo c a i t).1) →
  reset_signing_infos ctx s = (Ok tt, s') →
  staking_same s s' ∧ ∀ p, p ∈ signing_infos s' → StartHeight p.2 = 0%Z.
Proof.
  intros Hset. unfold reset_signing_infos. rewrite must_Ok. intros E%law_iterate_infos.
  assert (Hd : ∀ c a i t x t', discard (SetValidatorSigningInfo c a i) t = (Ok x, t') →
    SetValidatorSigningInfo c a i t = (Ok tt, t')).
  { intros c a i t x t'. unfold discard, catch. specialize (Hset c a i t).
    destruct (SetValidatorSigningInfo c a i t) as [[[]| |] t'']; [|done..]. by intros [= _ ->]. }
  split.
  - revert E. apply keeps_for_each; [apply _|]. intros p t b t' ([] & t1 & E%Hd & [_ <-]%ret_Ok)%bind_Ok.
    by apply law_set_info in E as [? _].
  - eapply (rewrites_all id fst signing_infos
      (λ p, (p.1, {| StartHeight := 0; Info_Other := Info_Other p.2 |}))); [exact E|apply map_id|done|].
    intros q t b t' ([] & t1 & Ht%Hd & [<- <-]%ret_Ok)%bind_Ok. split; [done|].
    exact (proj2 (law_set_info _ _ _ _ _ _ Ht) eq_refl).
Qed.
(** *** The whole preparation *)

Lemma prep_distribution ctx dels s s' :
  (_ ← withdraw_rewards ctx dels; _ ← DeleteAllValidatorSlashEvents ctx;
   _ ← DeleteAllValidatorHistoricalRewards ctx; _ ← reinitialize_validators 0;
   reinitialize_delegations 0 dels) s = (Ok tt, s') → staking_same s s'.
Proof.
  apply (keeps_bind staking_same); [apply distribution_same|]. intros _.
  apply (keeps_bind staking_same); [solve_keeps|]. intros _.
  apply (keeps_bind staking_same); [solve_keeps|]. intros _.
  apply (keeps_bind staking_same); [apply (distribution_same 0 [])|]. intros _.
  apply distribution_same.
Qed.

(** The steps of a preparation that returns. *)
Lemma prep_Ok ctx allowed s s' :
  prepForZeroHeightGenesis ctx allowed s = (Ok tt, s') →
  ∃ s1 s2 s3 s4, staking_same s s1 ∧
    reset_redelegations ctx s1 = (Ok tt, s2) ∧ reset_unbondings ctx s2 = (Ok tt, s3) ∧
    reset_validators ctx (0 <? length allowed)%nat (list_to_set allowed ∪ ∅)
      (ReversePrefixKeys s3) s3 = (Ok tt, s4) ∧
    (let? _ := Iterator_Close else err => mret tt in
     _ ← must (ApplyAndReturnValidatorSetUpdates ctx); reset_signing_infos ctx) s4 = (Ok tt, s').
Proof.
  unfold prepForZeroHeightGenesis.
  intros (m & t0 & (-> & -> & _)%allowedAddrs_Ok & E)%bind_Ok.
  apply bind_Ok in E as ([] & t1 & E1%(proj1 (distribution_same ctx [])) & E).
  apply bind_Ok in E as (dels & t2 & E2 & E). rewrite must_Ok in E2.
  apply (keeps_all staking_same _ (law_delegations ctx)) in E2.
  apply bind_Ok in E as ([] & t3 & W & E). apply bind_Ok in E as ([] & t4 & D & E).
  apply bind_Ok in E as ([] & t5 & H' & E). apply bind_Ok in E as ([] & t6 & V & E).
  apply bind_Ok in E as ([] & t7 & L & E).
  assert (staking_same t2 t7) as E3.
  { apply (prep_distribution ctx dels). rewrite bind_Ok. exists tt, t3. split; [done|].
    rewrite bind_Ok. exists tt, t4. split; [done|]. rewrite bind_Ok. exists tt, t5.
    split; [done|]. rewrite bind_Ok. by exists tt, t6. }
  apply bind_Ok in E as ([] & s2 & R & E). apply bind_Ok in E as ([] & s3 & U & E).
  unfold reset_validator_state in E.
  apply bind_Ok in E as (keys & t8 & [[= <-] <-]%reads_Ok & E).
  apply bind_Ok in E as ([] & s4 & RV & E).
  exists t7, s2, s3, s4. split_and!; try done. by rewrite E1, E2.
Qed.

(** C23. When the preparation for height zero returns, and closing the iterator
    and writing signing infos does not fail: no redelegation or unbonding entry
    has a creation height and no signing info a start height; and the jailed
    validators are those that were jailed before and, when a list of allowed
    addresses is given, those it does not name. *)
Theorem zero_height_state ctx allowed s s' :
  (∀ t, Iterator_Close t = (Ok tt, t)) →
  (∀ c a i t, is_Ok (SetValidatorSigningInfo c a i t).1) →
  prepForZeroHeightGenesis ctx allowed s = (Ok tt, s') →
  (∀ r, r ∈ redelegations s' → zero_entries (Red_Entries r)) ∧
  (∀ u, u ∈ unbondings s' → zero_entries (Ubd_Entries u)) ∧
  (∀ p, p ∈ signing_infos s' → StartHeight p.2 = 0%Z) ∧
  (∀ c a v', GetValidator c a s' = Ok v' →
     ∃ v, GetValidator c a s = Ok v ∧ Jailed v' = Jailed v || jailed_by allowed a).
Proof.
  intros Hclose Hset (s1 & s2 & s3 & s4 & E1 & R & U & V & E)%prep_Ok.
  unfold catch in E. rewrite Hclose in E. apply bind_Ok in E as ([] & s5 & A & I). rewrite must_Ok in A.
  apply reset_redelegations_Ok in R as (HR & _ & RV & RK).
  apply reset_unbondings_Ok in U as (HU & UR & UV & UK).
  apply reset_validators_Ok in V as (VR & VU & HV).
  apply law_apply in A as (AR & AU & HA).
  apply reset_signing_infos_Ok in I as ([IR IU IV _] & HI); [|done].
  split_and!; [|..|done|].
  - intros r. rewrite IR, AR, VR, UR. apply HR.
  - intros u. rewrite IU, AU, VU. apply HU.
  - intros c a v'. rewrite IV, (law_context c ctx). intros (v1 & Hv1 & ->)%HA.
    apply HV in Hv1 as (v & Hv & ->). exists v. pose proof (law_keys _ _ _ _ Hv) as Ha.
    rewrite decide_True by done. split.
    + by rewrite (law_context c ctx), <-(same_validators _ _ E1), <-RV, <-UV.
    + unfold reset_one, jailed_by. f_equal. f_equal; [by destruct allowed|].
      destruct (StakingKeeper_BytesToString a) as [t| |]; [|done..]. f_equal.
      apply bool_decide_ext. set_solver.
Qed.

(** An allowed address that does not decode panics before anything is
    written; and an iterator that fails to close is only logged: the preparation
    returns without applying the validator set and without resetting the
    signing infos, and the export goes on. *)
Theorem zero_height_early_exits ctx allowed s :
  (∀ pre a post e, allowed = pre ++ a :: post →
     Forall (λ b, is_Ok (ValidatorAddressCodec_StringToBytes b)) pre →
     ValidatorAddressCodec_StringToBytes a = Err e →
     prepForZeroHeightGenesis ctx allowed s = (Panic e, s)) ∧
  (∀ s' e, (∀ t, (Iterator_Close t).1 = Err e) →
     prepForZeroHeightGenesis ctx allowed s = (Ok tt, s') →
     ∃ s3, reset_validators ctx (0 <? length allowed)%nat (list_to_set allowed ∪ ∅)
       (ReversePrefixKeys s3) s3 = (Ok tt, s')).
Proof.
  split.
  - intros pre a post e -> Hpre Ha. unfold prepForZeroHeightGenesis.
    assert (Hp : ∀ m, allowedAddrs (pre ++ a :: post) m s = (Panic e, s)).
    { induction Hpre as [|b pre Hb Hpre IH]; intros m; cbn [allowedAddrs app];
        unfold must, lift, mbind, gom_bind, catch.
      - by rewrite Ha.
      - destruct (ValidatorAddressCodec_StringToBytes b); [|done..]. apply IH. }
    unfold mbind at 1, gom_bind at 1. by rewrite Hp.
  - intros s' e Hclose (s1 & s2 & s3 & s4 & _ & _ & _ & V & E)%prep_Ok. exists s3. rewrite V.
    unfold catch in E. pose proof (law_close s4) as Hs. specialize (Hclose s4).
    destruct (Iterator_Close s4) as [r t]. cbn in Hclose, Hs. subst r t.
    apply ret_Ok in E as [_ ->]. done.
Qed.
End Theorems.

(** ** A state in memory *)

Module ToyExport.

Record state := {
  reds : list Redelegation; ubds : list UnbondingDelegation;
  vals : gmap bytes Validator; infos : list (bytes * ValidatorSigningInfo)
}.

Definition replace {X} (key : X → bytes) (x : X) (l : list X) : list X :=
  map (λ y, if decide (key y = key x) then x else y) l.

Lemma replace_spec {X} (key : X → bytes) x l y :
  y ∈ replace key x l → y = x ∨ y ∈ l ∧ key y ≠ key x.
Proof. intros (z & -> & Hz)%list_elem_of_fmap. case_decide; [by left|by right]. Qed.

Definition indexed {X} (l : list X) : list (Z * X) := imap (λ i x, (Z.of_nat i, x)) l.

Lemma indexed_snd {X} (l : list X) : map snd (indexed l) = l.
Proof.
  unfold indexed. change (snd <$> imap (λ i x, (Z.of_nat i, x)) l = l).
  rewrite fmap_imap. induction l as [|x l IH]; [done|]. cbn. f_equal. exact IH.
Qed.

Definition addr_codec (b : bytes) : outcome bytes :=
  if decide (b = []) then Err (ErrorString "empty address") else Ok b.

Definition get_validator (a : bytes) (s : state) : outcome Validator :=
  match vals s !! a with
  | Some v => if decide (addr_codec (OperatorAddress v) = Ok a) then Ok v
              else Err (ErrorString "corrupt")
  | None => Err (ErrorString "not found")
  end.

#[export] Instance toy_keepers : ExportKeepers state := {|
  DecCoins := Z; DecCoins_Add := Z.add;
  ValidatorAddressCodec_StringToBytes := addr_codec; AddressCodec_StringToBytes := addr_codec;
  StakingKeeper_StringToBytes := addr_codec; StakingKeeper_BytesToString := Ok;
  IterateValidators _ f s :=
    for_each (λ p, f p.1 p.2) (indexed (map snd (map_to_list (vals s)))) s;
  GetAllDelegations _ := mret [{| DelegatorAddress := str "d"; ValidatorAddress := str "a" |}];
  IterateRedelegations _ f s := for_each (λ p, f p.1 p.2) (indexed (reds s)) s;
  SetRedelegation _ r := modify (λ s, {| reds := replace Red_Key r (reds s); ubds := ubds s;
                                         vals := vals s; infos := infos s |});
  IterateUnbondingDelegations _ f s := for_each (λ p, f p.1 p.2) (indexed (ubds s)) s;
  SetUnbondingDelegation _ u := modify (λ s, {| reds := reds s; ubds := replace Ubd_Key u (ubds s);
                                                vals := vals s; infos := infos s |});
  GetValidator _ := get_validator;
  SetValidator _ v :=
    match addr_codec (OperatorAddress v) with
    | Ok a => modify (λ s, {| reds := reds s; ubds := ubds s;
                              vals := <[a := v]> (vals s); infos := infos s |})
    | _ => fail (ErrorString "bad operator")
    end;
  ApplyAndReturnValidatorSetUpdates _ := mret tt;
  ReversePrefixKeys s := reverse (map fst (map_to_list (vals s)));
  AddressFromValidatorsKey := id;
  Iterator_Close := mret tt;
  WithdrawValidatorCommission _ _ := fail (ErrorString "no commission");
  WithdrawDelegationRewards _ _ _ := mret tt;
  DeleteAllValidatorSlashEvents _ := mret tt;
  DeleteAllValidatorHistoricalRewards _ := mret tt;
  GetValidatorOutstandingRewardsCoins _ _ := mret 1%Z;
  FeePool_Get _ := mret 1%Z; FeePool_Set _ _ := mret tt;
  AfterValidatorCreated _ _ := mret tt;
  BeforeDelegationCreated _ _ _ := mret tt; AfterDelegationModified _ _ _ := mret tt;
  IterateValidatorSigningInfos _ f s := for_each (λ p, f p.1 p.2) (infos s) s;
  SetValidatorSigningInfo _ a i := modify (λ s, {| reds := reds s; ubds := ubds s;
                                                   vals := vals s;
                                                   infos := replace fst (a, i) (infos s) |});
  LastBlockHeight _ := 7%Z;
  GenesisMap := unit; ExportGenesisForModules _ _ := mret tt; MarshalIndent _ := Ok [];
  GenesisValidator := unit; WriteValidators _ := mret [];
  ConsensusParams := unit; GetConsensusParams _ _ := tt
|}.

#[export] Instance toy_views : ExportViews state :=
  {| redelegations := reds; unbondings := ubds; signing_infos := infos |}.

#[export] Instance toy_laws : ExportLaws (S := state).
Proof.
  split; try (intros; cbn; by repeat split).
  - intros c f s s' E. exists (indexed (map snd (map_to_list (vals s)))). exact E.
  - intros c f s s' E. exists (indexed (reds s)). split; [apply indexed_snd|done].
  - intros c f s s' E. exists (indexed (ubds s)). split; [apply indexed_snd|done].
  - intros c r s s' [= <-]. split; [|done]. apply replace_spec.
  - intros c u s s' [= <-]. split; [|done]. apply replace_spec.
  - intros c v s s'. cbn. destruct (addr_codec (OperatorAddress v)) as [a0|e|e] eqn:Ha; [|done..].
    intros [= <-]. split_and!; [done..|]. intros _ a. unfold get_validator. cbn.
    destruct (decide (Ok a0 = Ok a)) as [[= <-]|Hne].
    + rewrite lookup_insert_eq. by rewrite decide_True.
    + rewrite lookup_insert_ne by congruence. done.
  - intros c a i s r s' [= <- <-]. split; [done|]. intros _ p. apply (replace_spec fst (a, i)).
  - intros c a s v. cbn. unfold get_validator. destruct (vals s !! a); [|done].
    case_decide; [|done]. by intros [= <-].
  - intros c a s v. cbn. unfold get_validator. destruct (vals s !! a) as [w|] eqn:E; [|done].
    intros _. rewrite map_id, elem_of_reverse, list_elem_of_fmap. exists (a, w). split; [done|].
    by apply elem_of_map_to_list.
  - intros c s s' [= <-]. split_and!; try done. by eauto.
Qed.

Definition validator (name : string) (jailed : bool) : Validator :=
  {| OperatorAddress := str name; Jailed := jailed; UnbondingHeight := 5; Validator_Other := [] |}.

Definition before : state := {|
  reds := [{| Red_Key := str "r"; Red_Entries := [{| CreationHeight := 3; Entry_Other := [] |}] |}];
  ubds := [{| Ubd_Key := str "u"; Ubd_Entries := [{| CreationHeight := 4; Entry_Other := [] |}] |}];
  vals := <[str "a" := validator "a" false]> (<[str "b" := validator "b" false]> ∅);
  infos := [(str "c", {| StartHeight := 6; Info_Other := [] |})]
|}.

Definition after : state := (prepForZeroHeightGenesis 7 [str "a"] before).2.

Lemma zero_height_state_witness :
  prepForZeroHeightGenesis 7 [str "a"] before = (Ok tt, after) ∧
  (∃ v, GetValidator 0 (str "a") after = Ok v ∧ Jailed v = false) ∧
  (∃ v, GetValidator 0 (str "b") after = Ok v ∧ Jailed v = true) ∧
  (∀ p, p ∈ signing_infos after → StartHeight p.2 = 0%Z).
Proof.
  assert (E : prepForZeroHeightGenesis 7 [str "a"] before = (Ok tt, after)).
  { unfold after. by rewrite (surjective_pairing (prepForZeroHeightGenesis _ _ _)) at 1. }
  destruct (zero_height_state 7 [str "a"] before after) as (_ & _ & HI & HV);
    [done|done|exact E|].
  split_and!; [exact E| | |exact HI].
  - exists (Build_Validator (str "a") false 0 []). split; vm_compute; reflexivity.
  - destruct (HV 0%Z (str "b") (Build_Validator (str "b") true 0 []) ltac:(vm_compute; reflexivity))
      as (v & _ & _).
    exists (Build_Validator (str "b") true 0 []). split; vm_compute; reflexivity.
Defined.

Lemma zero_height_early_exits_witness :
  prepForZeroHeightGenesis 7 [str "a"; []] before = (Panic (ErrorString "empty address"), before).
Proof.
  apply (proj1 (zero_height_early_exits 7 [str "a"; []] before) [str "a"] [] []); [done| |done].
  by constructor.
Defined.

End ToyExport.
