(* ===== verification/Path.v ===== *)
(** [path/filepath] and [strings.Join] as the testnet commands use them, on
    Unix paths: lexical cleaning, joining, and relative paths, with the lemmas
    on absolute paths made of plain names. *)
From S2P Require Import Prelude.
From stdpp Require Import list_relations.

#[local] Open Scope go_scope.

Definition slash : byte := "/"%byte.
Definition dot : bytes := str ".".
Definition dotdot : bytes := str "..".

(** [strings.Join(l, sep)] *)
Fixpoint strings_Join (l : list bytes) (sep : bytes) : bytes :=
  match l with
  | [] => []
  | [s] => s
  | s :: l => s ++ sep ++ strings_Join l sep
  end.

Definition HasPrefix (s prefix : bytes) : bool := bool_decide (take (length prefix) s = prefix).

Definition IsAbs (path : bytes) : bool := HasPrefix path [slash].

(** The elements of the cleaned path; [stack] has the ones so far, last first. *)
Fixpoint clean_elems (rooted : bool) (stack : list bytes) (l : list bytes) : list bytes :=
  match l with
  | [] => rev stack
  | c :: l =>
      if decide (c = []) then clean_elems rooted stack l
      else if decide (c = dot) then clean_elems rooted stack l
      else if decide (c = dotdot) then
        match stack with
        | top :: stack' =>
            if decide (top = dotdot) then clean_elems rooted (dotdot :: stack) l
            else clean_elems rooted stack' l
        | [] => if rooted then clean_elems rooted [] l else clean_elems rooted [dotdot] l
        end
      else clean_elems rooted (c :: stack) l
  end.

Definition render (rooted : bool) (l : list bytes) : bytes :=
  if rooted then slash :: strings_Join l [slash]
  else if decide (l = []) then dot else strings_Join l [slash].

Definition Clean (path : bytes) : bytes :=
  render (IsAbs path) (clean_elems (IsAbs path) [] (Split slash path)).

(** Empty elements are ignored. *)
Definition Join (elem : list bytes) : bytes :=
  let l := filter (λ e, e ≠ []) elem in
  if decide (l = []) then [] else Clean (strings_Join l [slash]).

(** The last element, trailing slashes removed. *)
Definition Base (path : bytes) : bytes :=
  match path with
  | [] => dot
  | _ =>
      match rev (filter (λ e : bytes, e ≠ []) (Split slash path)) with
      | e :: _ => e
      | [] => [slash]
      end
  end.

Fixpoint strip_common (b t : list bytes) : list bytes * list bytes :=
  match b, t with
  | x :: b', y :: t' => if decide (x = y) then strip_common b' t' else (b, t)
  | _, _ => (b, t)
  end.

Definition Rel (basepath targpath : bytes) : outcome bytes :=
  let elems p := clean_elems (IsAbs p) [] (Split slash p) in
  if bool_decide (IsAbs basepath = IsAbs targpath) then
    let '(b, t) := strip_common (elems basepath) (elems targpath) in
    match b with
    | x :: _ =>
        if decide (x = dotdot)
        then Err (ErrorString "Rel: can't make target relative to base")
        else Ok (strings_Join (replicate (length b) dotdot ++ t) [slash])
    | [] => Ok (if decide (t = []) then dot else strings_Join t [slash])
    end
  else Err (ErrorString "Rel: can't make target relative to base").

Definition Abs (Getwd : outcome bytes) (path : bytes) : outcome bytes :=
  if IsAbs path then Ok (Clean path)
  else wd ← Getwd; Ok (Join [wd; path]).

(** ** Cleaned paths *)

(** The names that stay in a cleaned path as they are. *)
Definition plain (c : bytes) : Prop := c ≠ [] ∧ c ≠ dot ∧ c ≠ dotdot ∧ slash ∉ c.
Definition abs_path (l : list bytes) : bytes := render true l.

#[global] Instance plain_dec c : Decision (plain c).
Proof. apply _. Defined.

(** The elements of a cleaned path: plain names, after some steps up when the
    path is relative. *)
Definition normal (rooted : bool) (l : list bytes) : Prop :=
  ∃ k ps, l = replicate k dotdot ++ ps ∧ Forall plain ps ∧ (rooted = true → k = 0).

(** The elements of a path. *)
Definition elems_of (p : bytes) : list bytes := clean_elems (IsAbs p) [] (Split slash p).

Lemma Split_nonempty sep s : Split sep s ≠ [].
Proof. destruct s; cbn; [done|]. case_decide; [done|]. by destruct (Split sep s). Qed.

Lemma Split_plain sep s : sep ∉ s → Split sep s = [s].
Proof.
  induction s as [|c s IH]; [done|]. intros Hs. cbn.
  rewrite decide_False by (intros ->; apply Hs; left).
  rewrite IH by (intros H; apply Hs; by right). done.
Qed.

Lemma Split_app sep a b : Split sep (a ++ sep :: b) = Split sep a ++ Split sep b.
Proof.
  induction a as [|c a IH]; cbn; [by rewrite decide_True|].
  rewrite IH. case_decide; [done|].
  by destruct (Split sep a) eqn:E; [destruct (Split_nonempty sep a)|].
Qed.

Lemma Split_free sep s : Forall (λ c, sep ∉ c) (Split sep s).
Proof.
  induction s as [|c s IH]; cbn; [by apply Forall_singleton, not_elem_of_nil|].
  case_decide as E; [apply Forall_cons; split; [apply not_elem_of_nil|done]|].
  destruct (Split sep s) as [|x l]; [apply Forall_singleton; rewrite not_elem_of_cons; split; [done|apply not_elem_of_nil]|].
  apply Forall_cons in IH as [Hx Hl]. apply Forall_cons. split; [|done].
  rewrite not_elem_of_cons. by split; [intros ->|].
Qed.

Lemma Split_Join l : l ≠ [] → Forall (λ c, slash ∉ c) l → Split slash (strings_Join l [slash]) = l.
Proof.
  intros Hne Hl. induction Hl as [|c l Hc Hl IH]; [done|].
  destruct l as [|d l]; [by apply Split_plain|].
  change (Split slash (c ++ slash :: strings_Join (d :: l) [slash]) = c :: d :: l).
  rewrite Split_app, IH, Split_plain by done. done.
Qed.

Lemma strings_Join_app l1 l2 sep :
  l1 ≠ [] → l2 ≠ [] → strings_Join (l1 ++ l2) sep = strings_Join l1 sep ++ sep ++ strings_Join l2 sep.
Proof.
  intros H1 H2. induction l1 as [|a [|b l1] IH]; [done| |].
  - by destruct l2.
  - change (a ++ sep ++ strings_Join ((b :: l1) ++ l2) sep =
            (a ++ sep ++ strings_Join (b :: l1) sep) ++ sep ++ strings_Join l2 sep).
    rewrite IH by done. by rewrite <-!app_assoc.
Qed.

Lemma IsAbs_slash p : IsAbs (slash :: p) = true.
Proof. unfold IsAbs, HasPrefix. by apply bool_decide_eq_true. Qed.

Lemma IsAbs_app p q : p ≠ [] → IsAbs (p ++ q) = IsAbs p.
Proof. by destruct p. Qed.

Lemma IsAbs_plain c p : plain c → IsAbs (c ++ p) = false.
Proof.
  intros (Hn & _ & _ & Hs). destruct c as [|x c]; [done|]. unfold IsAbs, HasPrefix.
  apply bool_decide_eq_false. cbn. intros [= ->]. apply Hs. left.
Qed.

(** *** Cleaning *)

Lemma clean_elems_app r stack l1 l2 :
  clean_elems r stack (l1 ++ l2) = clean_elems r (rev (clean_elems r stack l1)) l2.
Proof.
  revert stack. induction l1 as [|c l1 IH]; intros stack; cbn; [by rewrite rev_involutive|].
  repeat case_decide; try apply IH. destruct stack as [|top stack]; [by destruct r; apply IH|].
  case_decide; apply IH.
Qed.

Lemma clean_elems_plain r stack l : Forall plain l → clean_elems r stack l = rev stack ++ l.
Proof.
  intros Hl. revert stack. induction Hl as [|c l (H1 & H2 & H3 & _) Hl IH]; intros stack; cbn.
  - by rewrite app_nil_r.
  - rewrite !decide_False by done. rewrite IH. cbn. by rewrite <-app_assoc.
Qed.

Lemma rev_replicate {A} k (x : A) : rev (replicate k x) = replicate k x.
Proof. induction k as [|k IH]; [done|]. cbn. by rewrite IH, <-replicate_cons_app. Qed.

Lemma clean_elems_up k j :
  clean_elems false (replicate j dotdot) (replicate k dotdot) = replicate (j + k) dotdot.
Proof.
  revert j. induction k as [|k IH]; intros j; cbn.
  - rewrite rev_replicate. by rewrite Nat.add_0_r.
  - rewrite Nat.add_succ_r. destruct j as [|j]; cbn; [apply (IH 1)|apply (IH (S (S j)))].
Qed.

Lemma clean_elems_normal r l : normal r l → clean_elems r [] l = l.
Proof.
  intros (k & ps & -> & Hps & Hr). destruct r.
  - rewrite (Hr eq_refl). by apply clean_elems_plain.
  - rewrite clean_elems_app. change [] with (replicate 0 dotdot) at 1.
    rewrite clean_elems_up, clean_elems_plain by done. by rewrite rev_involutive.
Qed.

Lemma normal_app r l names : normal r l → Forall plain names → normal r (l ++ names).
Proof.
  intros (k & ps & -> & Hps & Hr) Hn. exists k, (ps ++ names). rewrite app_assoc.
  split_and!; [done|by apply Forall_app|done].
Qed.

Lemma normal_snoc r l top :
  normal r (l ++ [top]) → normal r l ∧ (top = dotdot → r = false ∧ ∃ k, l = replicate k dotdot).
Proof.
  intros (k & ps & E & Hps & Hr). destruct (decide (ps = [])) as [->|Hne].
  - rewrite app_nil_r in E. destruct k as [|k]; [by destruct l|].
    rewrite replicate_S, replicate_cons_app in E. apply app_inj_tail in E as [-> ->].
    split.
    + exists k, []. rewrite app_nil_r. split_and!; [done|done|]. intros ->. by specialize (Hr eq_refl).
    + intros _. split; [|by exists k]. destruct r; [by specialize (Hr eq_refl)|done].
  - destruct (exists_last Hne) as (ps' & c & ->). rewrite app_assoc in E.
    apply app_inj_tail in E as [-> ->]. apply Forall_app in Hps as [Hps' Hc].
    apply Forall_singleton in Hc as (_ & _ & Hc & _). split; [by exists k, ps'|done].
Qed.

Lemma clean_elems_is_normal r stack l :
  Forall (λ c, slash ∉ c) l → normal r (rev stack) → normal r (clean_elems r stack l).
Proof.
  intros Hl. revert stack. induction Hl as [|c l Hc Hl IH]; intros stack Hs; cbn; [done|].
  case_decide as E1; [by apply IH|]. case_decide as E2; [by apply IH|]. case_decide as E3.
  - destruct stack as [|top stack].
    + destruct r; apply IH; [done|]. by exists 1, [].
    + cbn [rev] in Hs. apply normal_snoc in Hs as [Hs Htop]. case_decide as E; [|by apply IH].
      destruct (Htop E) as (-> & k & Ek). apply IH. cbn [rev]. rewrite Ek, E.
      exists (k + 1 + 1), []. rewrite app_nil_r, !replicate_add. split_and!; done.
  - apply IH. cbn. apply normal_app; [done|]. by apply Forall_singleton.
Qed.

Lemma elems_normal p : normal (IsAbs p) (elems_of p).
Proof. apply clean_elems_is_normal; [apply Split_free|]. by exists 0, []. Qed.

Lemma normal_free r l : normal r l → Forall (λ c, c ≠ [] ∧ slash ∉ c) l.
Proof.
  intros (k & ps & -> & Hps & _). apply Forall_app. split.
  - apply Forall_replicate. split; [done|]. by apply (bool_decide_eq_true_1 _).
  - eapply Forall_impl; [exact Hps|]. by intros c (? & _ & _ & ?).
Qed.

Lemma normal_slash_free r l : normal r l → Forall (λ c, slash ∉ c) l.
Proof. intros Hl%normal_free. by eapply Forall_impl; [exact Hl|intros c []]. Qed.

(** A cleaned path has the elements it was made of. *)
Lemma render_elems r l : normal r l → IsAbs (render r l) = r ∧ elems_of (render r l) = l.
Proof.
  intros Hl. assert (IsAbs (render r l) = r) as Ha.
  { destruct r; [apply IsAbs_slash|]. cbn. case_decide; [done|].
    apply normal_free in Hl. destruct Hl as [|c l [Hc Hs] _]; [done|].
    destruct c as [|x c]; [done|]. assert (x ≠ slash) by (intros ->; apply Hs; left).
    unfold IsAbs, HasPrefix. apply bool_decide_eq_false. destruct l; cbn; congruence. }
  split; [done|]. unfold elems_of. rewrite Ha. destruct r; cbn [render].
  - cbn [Split]. rewrite decide_True by done. destruct (decide (l = [])) as [->|Hne]; [done|].
    rewrite Split_Join by (done || by eapply normal_slash_free).
    change (clean_elems true [] l = l). by apply clean_elems_normal.
  - case_decide as E; [by subst|]. rewrite Split_Join by (done || by eapply normal_slash_free).
    by apply clean_elems_normal.
Qed.

Lemma render_inj r l l' : normal r l → normal r l' → render r l = render r l' → l = l'.
Proof.
  intros [_ E]%render_elems [_ E']%render_elems H. by rewrite <-E, <-E', H.
Qed.

Lemma plain_nonempty l : Forall plain l → filter (λ e : bytes, e ≠ []) l = l.
Proof.
  induction 1 as [|c l [Hc _] _ IH]; [done|]. rewrite filter_cons_True by done. by rewrite IH.
Qed.

Lemma plain_slash_free l : Forall plain l → Forall (λ c, slash ∉ c) l.
Proof. intros H. by eapply Forall_impl; [exact H|intros c (_ & _ & _ & ?)]. Qed.

(** Joining plain names to any path. *)
Lemma Join_names p names :
  names ≠ [] → Forall plain names → Join (p :: names) = render (IsAbs p) (elems_of p ++ names).
Proof.
  intros Hne Hn. unfold Join. destruct (decide (p = [])) as [->|Hp].
  - rewrite filter_cons_False, plain_nonempty, decide_False by naive_solver. unfold Clean.
    assert (IsAbs (strings_Join names [slash]) = false) as ->.
    { destruct Hn as [|c names Hc _]; [done|]. destruct names as [|d names].
      - rewrite <-(app_nil_r c). by apply IsAbs_plain.
      - by apply IsAbs_plain. }
    rewrite Split_Join, clean_elems_plain by (done || by apply plain_slash_free). done.
  - rewrite filter_cons_True, plain_nonempty, decide_False by done.
    change (p :: names) with ([p] ++ names). rewrite strings_Join_app by done. cbn [strings_Join].
    unfold Clean. rewrite IsAbs_app by done.
    change ([slash] ++ ?x) with (slash :: x). rewrite Split_app, Split_Join by
      (done || by apply plain_slash_free).
    rewrite clean_elems_app, clean_elems_plain by done. by rewrite rev_involutive.
Qed.

(** Joining them to a cleaned path. *)
Lemma Join_render r l names :
  normal r l → names ≠ [] → Forall plain names → Join (render r l :: names) = render r (l ++ names).
Proof. intros [Ha He]%render_elems Hne Hn. by rewrite Join_names, Ha, He. Qed.

(** The absolute form of the paths below a directory. *)
Lemma Abs_names p wd :
  (IsAbs p = false → ∃ d, wd = Ok d ∧ IsAbs d = true) →
  ∃ base, Forall plain base ∧
    ∀ names, names ≠ [] → Forall plain names →
      Abs wd (render (IsAbs p) (elems_of p ++ names)) = Ok (abs_path (base ++ names)).
Proof.
  intros Hwd. pose proof (elems_normal p) as Hp. destruct (IsAbs p).
  - exists (elems_of p). split; [destruct Hp as (k & ps & -> & Hps & Hk); by rewrite (Hk eq_refl)|].
    intros names _ Hn. destruct (render_elems true (elems_of p ++ names)) as [Ha He];
      [by apply normal_app|].
    unfold Abs, Clean. unfold elems_of in He at 1. rewrite Ha in *. by rewrite He.
  - destruct (Hwd eq_refl) as (d & -> & Hd).
    exists (clean_elems true [] (Split slash d ++ elems_of p)). split.
    + destruct (clean_elems_is_normal true [] (Split slash d ++ elems_of p)) as (k & ps & -> & Hps & Hk);
        [apply Forall_app; split; [apply Split_free|by eapply normal_slash_free]|by exists 0, []|].
      by rewrite (Hk eq_refl).
    + intros names Hne Hn. set (l := elems_of p ++ names).
      assert (normal false l) as Hl by (by apply normal_app).
      assert (l ≠ []) as Hlne by (unfold l; by destruct (elems_of p)).
      destruct (render_elems false l Hl) as [Ha _]. unfold Abs. rewrite Ha. cbn [mbind outcome_bind].
      assert (strings_Join l [slash] ≠ []) as Hj.
      { intros E. pose proof (Split_Join l Hlne (normal_slash_free _ _ Hl)) as Es. rewrite E in Es.
        apply normal_free in Hl. rewrite <-Es in Hl. apply Forall_singleton in Hl as [Hl _]. done. }
      cbn [render]. rewrite decide_False by done. f_equal. unfold Join.
      rewrite !filter_cons_True, filter_nil, decide_False by (done || by destruct d).
      change [d; strings_Join l [slash]] with ([d] ++ [strings_Join l [slash]]).
      rewrite strings_Join_app by done. cbn [strings_Join]. unfold Clean.
      rewrite IsAbs_app by (by destruct d). rewrite Hd.
      change ([slash] ++ ?x) with (slash :: x). rewrite Split_app, Split_Join by
        (done || by eapply normal_slash_free).
      unfold l. rewrite app_assoc, clean_elems_app, clean_elems_plain by done. by rewrite rev_involutive.
Qed.

Lemma strip_common_app p b t : strip_common (p ++ b) (p ++ t) = strip_common b t.
Proof. induction p as [|x p IH]; cbn; [done|]. by rewrite decide_True. Qed.

Lemma strip_common_spec b t :
  ∃ p, b = p ++ (strip_common b t).1 ∧ t = p ++ (strip_common b t).2.
Proof.
  revert t. induction b as [|x b IH]; intros [|y t]; cbn; try by (exists []).
  case_decide as E; [|by exists []]. subst y. destruct (IH t) as (p & Hb & Ht).
  exists (x :: p). cbn. by rewrite <-Hb, <-Ht.
Qed.

Lemma plain_normal r l : Forall plain l → normal r l.
Proof. intros Hl. by exists 0, l. Qed.

(** From a directory to a file: the remaining names, or up and then down. *)
Lemma Rel_abs b t :
  Forall plain b → Forall plain t →
  Rel (abs_path b) (abs_path t) =
    let '(b', t') := strip_common b t in
    Ok (if decide (b' = []) then if decide (t' = []) then dot else strings_Join t' [slash]
        else strings_Join (replicate (length b') dotdot ++ t') [slash]).
Proof.
  intros Hb Ht. unfold Rel.
  destruct (render_elems true b (plain_normal _ _ Hb)) as [Ab Eb].
  destruct (render_elems true t (plain_normal _ _ Ht)) as [At Et].
  unfold elems_of in Eb, Et. fold (abs_path b) in Ab, Eb. fold (abs_path t) in At, Et.
  rewrite Eb, Et, Ab, At. rewrite bool_decide_true by done.
  destruct (strip_common_spec b t) as (p & Ep & _).
  destruct (strip_common b t) as [[|x b'] t']; [done|]. cbn [fst] in Ep.
  rewrite Ep in Hb. apply Forall_app in Hb as [_ Hx]. inversion Hx as [|? ? (_ & _ & Hd & _)].
  by rewrite !decide_False.
Qed.

Lemma Base_render r l c : normal r l → plain c → Base (render r (l ++ [c])) = c.
Proof.
  intros Hl Hc. assert (l ++ [c] ≠ []) as Hne by (by destruct l).
  assert (normal r (l ++ [c])) as Hn by (apply normal_app; [done|by apply Forall_singleton]).
  pose proof (Split_Join _ Hne (normal_slash_free _ _ Hn)) as Es. destruct Hc as [Hc _].
  assert (∀ l', rev (filter (λ e : bytes, e ≠ []) (l' ++ [c])) =
                c :: rev (filter (λ e : bytes, e ≠ []) l')) as Hf.
  { intros l'. rewrite filter_app, filter_cons_True, filter_nil, rev_app_distr by done. done. }
  destruct r; cbn [render]; [|rewrite decide_False by done].
  - unfold Base. cbn [Split]. rewrite decide_True, Es by done.
    change ([] :: l ++ [c]) with (([] :: l) ++ [c]). by rewrite Hf.
  - unfold Base. rewrite Es, Hf. by destruct (strings_Join (l ++ [c]) [slash]); [destruct l as [|? []]; cbn in Es; congruence|].
Qed.

(** *** What lies below a directory *)

Definition under (dir path : bytes) : Prop := ∃ rest, path = dir ++ slash :: rest.

Lemma under_render r l names :
  l ≠ [] → names ≠ [] → under (render r l) (render r (l ++ names)).
Proof.
  intros Hl Hn. exists (strings_Join names [slash]). destruct r; cbn [render].
  - by rewrite strings_Join_app.
  - rewrite !decide_False by (done || by destruct l). by rewrite strings_Join_app.
Qed.

Lemma not_under r l c c' names :
  normal r l → plain c → Forall plain (c' :: names) → c ≠ c' →
  ¬ under (render r (l ++ [c])) (render r (l ++ c' :: names)).
Proof.
  intros Hl Hc Hc' Hne [rest E].
  assert (∀ l1, l1 ≠ [] → render r l1 = (if r then [slash] else []) ++ strings_Join l1 [slash]) as Hr.
  { intros l1 H1. destruct r; cbn [render]; [done|]. by rewrite decide_False. }
  rewrite !Hr in E by (by destruct l). rewrite <-app_assoc in E. apply app_inv_head in E.
  apply (f_equal (Split slash)) in E. rewrite Split_app in E.
  assert (normal r (l ++ [c])) as H1 by (apply normal_app; [done|by apply Forall_singleton]).
  assert (normal r (l ++ c' :: names)) as H2 by (by apply normal_app).
  rewrite !Split_Join in E by (by eapply normal_slash_free || by destruct l).
  rewrite <-app_assoc in E. apply app_inv_head in E. injection E as E _. by destruct Hne.
Qed.
