(* ===== verification/Testnet.v ===== *)
(** [cmd/exampled/cmd/testnet_multi_node.go]: the generation of the files of a
    local testnet with several validators.  The file system and the SDK's and CometBFT's file,
    key and genesis helpers are the interfaces [OS] and [TestnetLib]. *)
From S2P Require Import Prelude.
From stdpp Require Import list_relations.
From S2P Require Import Json Path.

#[local] Open Scope go_scope.

(** ** Interfaces *)

(** [os] and [io] on files: [Open] gives what the file holds, [Copy] writes to a
    file that was created. *)
Class OS (F : Type) := {
  Getwd : outcome bytes;
  MkdirAll : bytes → GoM F unit;
  RemoveAll : bytes → GoM F unit;
  WriteFile : bytes → bytes → GoM F unit;
  Open : bytes → GoM F bytes;
  Create : bytes → GoM F unit;
  Copy : bytes → bytes → GoM F Z;
  Sync : bytes → GoM F unit
}.

(** The fields of CometBFT's [config.Config] the code writes. *)
Record NodeConfig (Rest : Type) := {
  RootDir : bytes; Moniker : bytes; RPC_ListenAddress : bytes;
  P2P_PersistentPeers : bytes; P2P_AllowDuplicateIP : bool; P2P_ListenAddress : bytes;
  ProxyApp : bytes; PrometheusListenAddr : bytes; Prometheus : bool; NodeConfig_Rest : Rest
}.
Arguments RootDir {_} _. Arguments Moniker {_} _. Arguments RPC_ListenAddress {_} _.
Arguments P2P_PersistentPeers {_} _. Arguments P2P_AllowDuplicateIP {_} _.
Arguments P2P_ListenAddress {_} _. Arguments ProxyApp {_} _. Arguments PrometheusListenAddr {_} _.
Arguments Prometheus {_} _. Arguments NodeConfig_Rest {_} _.

(** The fields of the SDK's server configuration the code writes.  [MinGasPrices]
    is a field of the embedded base configuration. *)
Record SrvConfig (Rest : Type) := {
  MinGasPrices : bytes; API_Enable : bool; API_Address : bytes; GRPC_Address : bytes;
  Telemetry_EnableHostnameLabel : bool; Telemetry_Enabled : bool;
  Telemetry_PrometheusRetentionTime : Z; SrvConfig_Rest : Rest
}.
Arguments MinGasPrices {_} _. Arguments API_Enable {_} _. Arguments API_Address {_} _.
Arguments GRPC_Address {_} _. Arguments Telemetry_EnableHostnameLabel {_} _.
Arguments Telemetry_Enabled {_} _. Arguments Telemetry_PrometheusRetentionTime {_} _.
Arguments SrvConfig_Rest {_} _.

Record Coin := { Denom : bytes; Amount : Z }.
Record Balance := { Balance_Address : bytes; Balance_Coins : list Coin }.
Record BankGenesis (Rest : Type) := {
  Balances : list Balance; Supply : list Coin; BankGenesis_Rest : Rest
}.
Arguments Balances {_} _. Arguments Supply {_} _. Arguments BankGenesis_Rest {_} _.
Record GenesisDoc := { Doc_ChainID : bytes; Doc_AppState : bytes }.

(** [BM] is the manager of the modules' basics. *)
Class TestnetLib (F BM : Type) := {
  PubKey : Type; Keyring : Type; Algo : Type; Msg : Type; TxBuilder : Type;
  GenesisAccount : Type; AuthGenesis : Type; AnyAccounts : Type; Time : Type; AppGenesis : Type;
  NodeRest : Type; SrvRest : Type; BankRest : Type;
  BondDenom : bytes;
  NewIntFromString : bytes → option Z;
  TokensFromConsensusPower : Z → Z;
  Coins_Sort : list Coin → list Coin;
  Coins_Add : list Coin → list Coin → list Coin;
  GenesisFile : NodeConfig NodeRest → bytes;
  InitializeNodeValidatorFiles : NodeConfig NodeRest → GoM F (bytes * PubKey);
  Keyring_New : bytes → bytes → GoM F Keyring;
  NewSigningAlgoFromString : bytes → Keyring → outcome Algo;
  GenerateSaveCoinKey : Keyring → bytes → Algo → GoM F (bytes * bytes);
  AccAddress_String : bytes → bytes;
  ValAddress_String : bytes → bytes;
  NewBaseAccount : bytes → GenesisAccount;
  NewMsgCreateValidator : bytes → PubKey → Coin → bytes → outcome Msg;
  SetMsgs : Msg → outcome TxBuilder;
  SetMemo : bytes → TxBuilder → TxBuilder;
  Sign : bytes → bytes → Keyring → bytes → TxBuilder → GoM F TxBuilder;
  TxJSONEncoder : TxBuilder → outcome bytes;
  DefaultConfig : SrvConfig SrvRest;
  WriteSrvConfigFile : bytes → SrvConfig SrvRest → GoM F unit;
  WriteNodeConfigFile : bytes → NodeConfig NodeRest → GoM F unit;
  (** genesis *)
  GenesisState : Type;
  DefaultGenesis : BM → GenesisState;
  get_auth : GenesisState → outcome AuthGenesis;
  set_auth : AuthGenesis → GenesisState → outcome GenesisState;
  set_accounts : AnyAccounts → AuthGenesis → AuthGenesis;
  PackAccounts : list GenesisAccount → outcome AnyAccounts;
  get_bank : GenesisState → outcome (BankGenesis BankRest);
  set_bank : BankGenesis BankRest → GenesisState → outcome GenesisState;
  SanitizeGenesisBalances : list Balance → list Balance;
  MarshalIndent : GenesisState → outcome bytes;
  SaveAs : GenesisDoc → bytes → GoM F unit;
  AppGenesisFromFile : bytes → GoM F AppGenesis;
  GenAppStateFromConfig : NodeConfig NodeRest → bytes → bytes → bytes → PubKey → AppGenesis →
    GoM F (slice byte);
  ExportGenesisFileWithTime : bytes → bytes → slice byte → Time → GoM F unit
}.

(** [0], ..., [n - 1] *)
Definition upto (n : Z) : list Z := map Z.of_nat (seq 0 (Z.to_nat n)).

(** ** Flags *)

Record initArgs := {
  algo : bytes; chainID : bytes; keyringBackend : bytes; minGasPrices : bytes;
  nodeDirPrefix : bytes; numValidators : Z; outputDir : bytes; startingIPAddress : bytes;
  validatorsStakesAmount : gmap Z Coin; ports : gmap Z bytes
}.

(** The values of the flags; reading a flag gives nothing when it is not
    declared or has another type. *)
Record Flags := {
  flag_outputDir : option bytes; flag_keyringBackend : option bytes; flag_chainID : option bytes;
  flag_minGasPrices : option bytes; flag_nodeDirPrefix : option bytes;
  flag_startingIPAddress : option bytes; flag_numValidators : option Z; flag_algo : option bytes;
  flag_stakes : option bytes; flag_ports : option bytes
}.

Definition p2p_port (i : Z) : Z := 26656 - 3 * i.
Definition rpc_port (i : Z) : Z := 26657 - 3 * i.
Definition proxy_port (i : Z) : Z := 26658 - 3 * i.
Definition prometheus_port (i : Z) : Z := 26660 + i.
Definition grpc_port (i : Z) : Z := 9090 - 2 * i.
Definition api_port (i : Z) : Z := 1317 - i.

Section Flags.
Context {F BM : Type} `{!TestnetLib F BM}.

(** [sdk.NewCoin(sdk.DefaultBondDenom, a)] panics on a negative amount. *)
Definition NewCoin (denom : bytes) (a : Z) : outcome Coin :=
  if (a <? 0)%Z then Panic (ErrorString "negative coin amount")
  else Ok {| Denom := denom; Amount := a |}.

(** Amounts that are no integers are skipped, and do not use up an index. *)
Fixpoint parse_stakes (amounts : list bytes) (top : Z) (m : gmap Z Coin)
    : outcome (gmap Z Coin) :=
  match amounts with
  | [] => Ok m
  | amount :: amounts =>
      match NewIntFromString amount with
      | None => parse_stakes amounts top m
      | Some a =>
          c ← NewCoin BondDenom a;
          parse_stakes amounts (top + 1) (<[top := c]> m)
      end
  end.

(** [m[top] = x; top += 1] for every element. *)
Fixpoint number {A} (l : list A) (top : Z) (m : gmap Z A) : gmap Z A :=
  match l with
  | [] => m
  | x :: l => number l (top + 1) (<[top := x]> m)
  end.

Definition parse_ports (s : bytes) (numValidators : Z) : gmap Z bytes :=
  if decide (s = []) then
    number (map (λ i, Itoa (rpc_port i)) (upto numValidators)) 0 ∅
  else number (Split ","%byte s) 0 ∅.

Definition parse_args (flags : Flags) : outcome initArgs :=
  let get f := default [] (f flags) in
  let numValidators := default 0%Z (flag_numValidators flags) in
  stakes ← match flag_stakes flags with
           | Some s => parse_stakes (Split ","%byte s) 0 ∅
           | None => Ok ∅
           end;
  let ports := match flag_ports flags with
               | Some s => parse_ports s numValidators
               | None => ∅
               end in
  Ok {| algo := get flag_algo; chainID := get flag_chainID;
        keyringBackend := get flag_keyringBackend; minGasPrices := get flag_minGasPrices;
        nodeDirPrefix := get flag_nodeDirPrefix; numValidators := numValidators;
        outputDir := get flag_outputDir; startingIPAddress := get flag_startingIPAddress;
        validatorsStakesAmount := stakes; ports := ports |}.

End Flags.

(** ** Files of the validators *)

Section Files.
Context {F BM : Type} `{!OS F, !TestnetLib F BM}.

Definition nodeDirName (args : initArgs) (i : Z) : bytes := nodeDirPrefix args ++ Itoa i.
Definition nodeDir (args : initArgs) (i : Z) : bytes := Join [outputDir args; nodeDirName args i].
Definition gentxsDir (args : initArgs) (i : Z) : bytes :=
  Join [outputDir args; nodeDirName args i; str "config"; str "gentx"].
Definition port_of (args : initArgs) (i : Z) : bytes := default [] (ports args !! i).

Definition writeFile (file dir contents : bytes) : GoM F unit :=
  let? _ := MkdirAll dir else err => fail (Wrapped "could not create directory" err) in
  let? _ := WriteFile file contents else err => fail err in
  mret tt.

(** What the loop over the validators accumulates; [nodeIDs] and [valPubKeys]
    are filled index by index. *)
Record Progress := {
  p_nodeConfig : NodeConfig NodeRest; p_appConfig : SrvConfig SrvRest;
  p_nodeIDs : list bytes; p_valPubKeys : list PubKey;
  genAccounts : list GenesisAccount; genBalances : list Balance;
  genFiles : list bytes; persistentPeers : bytes; gentxsFiles : list bytes
}.

Definition set_node (root moniker rpc : bytes) (c : NodeConfig NodeRest) : NodeConfig NodeRest := {|
  RootDir := root; Moniker := moniker; RPC_ListenAddress := rpc;
  P2P_PersistentPeers := P2P_PersistentPeers c; P2P_AllowDuplicateIP := P2P_AllowDuplicateIP c;
  P2P_ListenAddress := P2P_ListenAddress c; ProxyApp := ProxyApp c;
  PrometheusListenAddr := PrometheusListenAddr c; Prometheus := Prometheus c;
  NodeConfig_Rest := NodeConfig_Rest c |}.

Definition set_addresses (grpc api : bytes) (c : SrvConfig SrvRest) : SrvConfig SrvRest := {|
  MinGasPrices := MinGasPrices c; API_Enable := API_Enable c; API_Address := api;
  GRPC_Address := grpc; Telemetry_EnableHostnameLabel := Telemetry_EnableHostnameLabel c;
  Telemetry_Enabled := Telemetry_Enabled c;
  Telemetry_PrometheusRetentionTime := Telemetry_PrometheusRetentionTime c;
  SrvConfig_Rest := SrvConfig_Rest c |}.

(** [appConfig.MinGasPrices] and [appConfig.BaseConfig.MinGasPrices] are one
    field: the second assignment wins. *)
Definition initial_appConfig (args : initArgs) : SrvConfig SrvRest :=
  let with_gas p (c : SrvConfig SrvRest) := {|
    MinGasPrices := p; API_Enable := API_Enable c; API_Address := API_Address c;
    GRPC_Address := GRPC_Address c;
    Telemetry_EnableHostnameLabel := Telemetry_EnableHostnameLabel c;
    Telemetry_Enabled := Telemetry_Enabled c;
    Telemetry_PrometheusRetentionTime := Telemetry_PrometheusRetentionTime c;
    SrvConfig_Rest := SrvConfig_Rest c |} in
  let c := with_gas (minGasPrices args) DefaultConfig in
  let c := with_gas (str "0.0001" ++ BondDenom) c in
  {| MinGasPrices := MinGasPrices c; API_Enable := false; API_Address := API_Address c;
     GRPC_Address := GRPC_Address c; Telemetry_EnableHostnameLabel := false;
     Telemetry_Enabled := false; Telemetry_PrometheusRetentionTime := 0;
     SrvConfig_Rest := SrvConfig_Rest c |}.

(** [_ = os.RemoveAll(args.outputDir); return err] *)
Definition clean_up {A} (args : initArgs) (err : error) : GoM F A :=
  let? _ := RemoveAll (outputDir args) else e => fail err in fail err.

(** The body of the loop over the validators. *)
Definition init_node (args : initArgs) (p : Progress) (i : Z) : GoM F Progress :=
  let dirName := nodeDirName args i in
  let dir := nodeDir args i in
  let config := set_node dir dirName (str "tcp://0.0.0.0:" ++ port_of args i) (p_nodeConfig p) in
  let? _ := MkdirAll (Join [dir; str "config"]) else err => clean_up args err in
  let? files := InitializeNodeValidatorFiles config else err => clean_up args err in
  let '(nodeID, valPubKey) := files in
  let memo := nodeID ++ str "@" ++ startingIPAddress args ++ str ":" ++ Itoa (p2p_port i) in
  let peers := if decide (persistentPeers p = []) then memo
               else persistentPeers p ++ str "," ++ memo in
  let? kb := Keyring_New (keyringBackend args) dir else err => fail err in
  let? alg := lift (NewSigningAlgoFromString (algo args) kb) else err => fail err in
  let? key := GenerateSaveCoinKey kb dirName alg else err => clean_up args err in
  let '(addr, secret) := key in
  let cliPrint := Json.print (Json.JObj [(str "secret", Json.encode_string secret)]) in
  let? _ := writeFile (Join [dir; str "key_seed.json"]) dir cliPrint else err => fail err in
  coin1 ← lift (NewCoin (str "testtoken") (TokensFromConsensusPower 1000));
  coin2 ← lift (NewCoin BondDenom (TokensFromConsensusPower 500));
  let balance := {| Balance_Address := AccAddress_String addr;
                    Balance_Coins := Coins_Sort [coin1; coin2] |} in
  valTokens ← (match validatorsStakesAmount args !! i with
               | Some c => mret c
               | None => lift (NewCoin BondDenom (TokensFromConsensusPower 100))
               end);
  let? createValMsg := lift (NewMsgCreateValidator (ValAddress_String addr) valPubKey valTokens dirName)
    else err => fail err in
  let? txBuilder := lift (SetMsgs createValMsg) else err => fail err in
  let txBuilder := SetMemo memo txBuilder in
  let? txBuilder := Sign (chainID args) memo kb dirName txBuilder else err => fail err in
  let? txBz := lift (TxJSONEncoder txBuilder) else err => fail err in
  let file := Join [gentxsDir args i; str "gentx-" ++ nodeID ++ str ".json"] in
  let? _ := writeFile file (gentxsDir args i) txBz else err => fail err in
  let appConfig := set_addresses (startingIPAddress args ++ str ":" ++ Itoa (grpc_port i))
                     (str "tcp://localhost:" ++ Itoa (api_port i)) (p_appConfig p) in
  _ ← WriteSrvConfigFile (Join [dir; str "config"; str "app.toml"]) appConfig;
  mret {|
    p_nodeConfig := config; p_appConfig := appConfig;
    p_nodeIDs := p_nodeIDs p ++ [nodeID]; p_valPubKeys := p_valPubKeys p ++ [valPubKey];
    genAccounts := genAccounts p ++ [NewBaseAccount addr];
    genBalances := genBalances p ++ [balance];
    genFiles := genFiles p ++ [GenesisFile config]; persistentPeers := peers;
    gentxsFiles := gentxsFiles p ++ [file] |}.

Definition isSubDir (src dstDir : bytes) : outcome bool :=
  absSrc ← Abs Getwd src;
  absDstDir ← Abs Getwd dstDir;
  relativePath ← Rel absDstDir absSrc;
  Ok (negb (HasPrefix relativePath dotdot) && negb (IsAbs relativePath)).

Definition copyFile (src dstDir : bytes) : GoM F Z :=
  let fileName := Base src in
  let dst := Join [dstDir; fileName] in
  let? sourceFile := Open src else err => fail err in
  let? _ := Create dst else err => fail err in
  let? bytesCopied := Copy dst sourceFile else err => fail err in
  let? _ := Sync dst else err => fail err in
  mret bytesCopied.

(** The inner loop: a file that is in the directory already, or whose place
    cannot be told, is left out. *)
Definition copy_gentx (args : initArgs) (i : Z) (file : bytes) : GoM F unit :=
  let dir := Join [nodeDir args i; str "config"; str "gentx"] in
  match isSubDir file dir with
  | Err _ | Ok true => mret tt
  | Panic v => panic v
  | Ok false => let? _ := copyFile file dir else err => fail err in mret tt
  end.

Definition copy_gentxs (args : initArgs) (files : list bytes) : GoM F unit :=
  foldM (λ _ i, foldM (λ _ file, copy_gentx args i file) files tt) (upto (numValidators args)) tt.

Definition initGenFiles (mbm : BM) (chainID : bytes) (genAccounts : list GenesisAccount)
    (genBalances : list Balance) (genFiles : list bytes) (numValidators : Z) : GoM F unit :=
  let appGenState := DefaultGenesis mbm in
  authGenState ← lift (get_auth appGenState);
  let? accounts := lift (PackAccounts genAccounts) else err => fail err in
  appGenState ← lift (set_auth (set_accounts accounts authGenState) appGenState);
  bankGenState ← lift (get_bank appGenState);
  let balances := SanitizeGenesisBalances genBalances in
  let supply := foldl (λ supply bal, Coins_Add supply (Balance_Coins bal))
                  (Supply bankGenState) balances in
  appGenState ← lift (set_bank {| Balances := balances; Supply := supply;
                                  BankGenesis_Rest := BankGenesis_Rest bankGenState |} appGenState);
  let? appGenStateJSON := lift (MarshalIndent appGenState) else err => fail err in
  let genDoc := {| Doc_ChainID := chainID; Doc_AppState := appGenStateJSON |} in
  foldM (λ _ i,
    match genFiles !! Z.to_nat i with
    | Some file => let? _ := SaveAs genDoc file else err => fail err in mret tt
    | None => panic (RuntimeError "index out of range")
    end) (upto numValidators) tt.

(** The network settings of one validator's [config.toml]. *)
Definition set_network (peers : bytes) (args : initArgs) (i : Z) (c : NodeConfig NodeRest)
    : NodeConfig NodeRest := {|
  RootDir := RootDir c; Moniker := Moniker c;
  RPC_ListenAddress := str "tcp://127.0.0.1:" ++ port_of args i;
  P2P_PersistentPeers := peers; P2P_AllowDuplicateIP := true;
  P2P_ListenAddress := str "tcp://0.0.0.0:" ++ Itoa (p2p_port i);
  ProxyApp := str "tcp://127.0.0.1:" ++ Itoa (proxy_port i);
  PrometheusListenAddr := str ":" ++ Itoa (prometheus_port i); Prometheus := true;
  NodeConfig_Rest := NodeConfig_Rest c |}.

(** The body of the loop: the first validator's application state, when it is
    not nil, is everybody's. *)
Definition collect_node (nodeIDs : list bytes) (valPubKeys : list PubKey) (persistentPeers : bytes)
    (args : initArgs) (genTime : Time) (st : NodeConfig NodeRest * slice byte) (i : Z)
    : GoM F (NodeConfig NodeRest * slice byte) :=
  let '(nodeConfig, appState) := st in
  let nodeConfig := set_node (nodeDir args i) (nodeDirName args i) (RPC_ListenAddress nodeConfig)
                      nodeConfig in
  match nodeIDs !! Z.to_nat i, valPubKeys !! Z.to_nat i with
  | Some nodeID, Some valPubKey =>
      let? appGenesis := AppGenesisFromFile (GenesisFile nodeConfig) else err => fail err in
      let? nodeAppState := GenAppStateFromConfig nodeConfig (chainID args)
                             (Join [nodeDir args i; str "config"; str "gentx"]) nodeID valPubKey appGenesis
        else err => fail err in
      let nodeConfig := set_network persistentPeers args i nodeConfig in
      _ ← WriteNodeConfigFile (Join [RootDir nodeConfig; str "config"; str "config.toml"]) nodeConfig;
      let appState := match appState with NilSlice => nodeAppState | _ => appState end in
      let? _ := ExportGenesisFileWithTime (GenesisFile nodeConfig) (chainID args) appState genTime
        else err => fail err in
      mret (nodeConfig, appState)
  | _, _ => panic (RuntimeError "index out of range")
  end.

Definition collectGenFiles (nodeConfig : NodeConfig NodeRest) (nodeIDs : list bytes)
    (valPubKeys : list PubKey) (persistentPeers : bytes) (args : initArgs) (genTime : Time)
    : GoM F unit :=
  _ ← foldM (collect_node nodeIDs valPubKeys persistentPeers args genTime)
        (upto (numValidators args)) (nodeConfig, NilSlice);
  mret tt.

(** [Intn] gives the next random number below its argument. *)
Definition generateRandomString (Intn : nat → nat → nat) (length : nat) : bytes :=
  let charset := str "abcdefghijklmnopqrstuvwxyz0123456789" in
  map (λ i, default x00 (charset !! Intn i (List.length charset))) (seq 0 length).

Definition with_chainID (id : bytes) (a : initArgs) : initArgs := {|
  algo := algo a; chainID := id; keyringBackend := keyringBackend a;
  minGasPrices := minGasPrices a; nodeDirPrefix := nodeDirPrefix a;
  numValidators := numValidators a; outputDir := outputDir a;
  startingIPAddress := startingIPAddress a;
  validatorsStakesAmount := validatorsStakesAmount a; ports := ports a |}.

(** The arguments, with a chain identifier made up when none is given. *)
Definition testnet_args (Intn : nat → nat → nat) (args : initArgs) : initArgs :=
  if decide (chainID args = [])
  then with_chainID (str "chain-" ++ generateRandomString Intn 6) args else args.

(** The accumulators before the loop. *)
Definition no_progress (args : initArgs) (nodeConfig : NodeConfig NodeRest) : Progress := {|
  p_nodeConfig := nodeConfig; p_appConfig := initial_appConfig args;
  p_nodeIDs := []; p_valPubKeys := []; genAccounts := []; genBalances := [];
  genFiles := []; persistentPeers := []; gentxsFiles := [] |}.

(** The end of the command, once every validator has its files: the genesis
    files, the gentxs copied to every node, and the gentxs collected. *)
Definition assemble_genesis (mbm : BM) (genTime : Time) (args : initArgs) (p : Progress)
    : GoM F unit :=
  let? _ := initGenFiles mbm (chainID args) (genAccounts p) (genBalances p) (genFiles p)
              (numValidators args)
    else err => fail err in
  _ ← copy_gentxs args (gentxsFiles p);
  let? _ := collectGenFiles (p_nodeConfig p) (p_nodeIDs p) (p_valPubKeys p) (persistentPeers p)
              args genTime
    else err => fail err in
  mret tt.

Definition initTestnetFiles (Intn : nat → nat → nat) (genTime : Time)
    (nodeConfig : NodeConfig NodeRest) (mbm : BM) (args : initArgs) : GoM F unit :=
  let args := testnet_args Intn args in
  if (numValidators args <? 0)%Z then panic (RuntimeError "makeslice: len out of range")
  else
    p ← foldM (init_node args) (upto (numValidators args))
          (no_progress args nodeConfig);
    assemble_genesis mbm genTime args p.

End Files.

(** ** Properties *)

Section ArgsTheorems.
Context {F BM : Type} `{!TestnetLib F BM}.

Lemma number_lookup {A} (l : list A) top m z :
  number l top m !! z =
    match (if (z <? top)%Z then None else l !! Z.to_nat (z - top)) with
    | Some x => Some x
    | None => m !! z
    end.
Proof.
  revert top m. induction l as [|x l IH]; intros top m; cbn [number].
  { by destruct (z <? top)%Z. }
  rewrite IH. destruct (Z.ltb_spec z (top + 1)), (Z.ltb_spec z top); try lia.
  - by rewrite lookup_insert_ne by lia.
  - assert (z = top) as -> by lia. rewrite Z.sub_diag, lookup_insert_eq. done.
  - replace (Z.to_nat (z - top)) with (S (Z.to_nat (z - (top + 1)))) by lia.
    change ((x :: l) !! S (Z.to_nat (z - (top + 1)))) with (l !! Z.to_nat (z - (top + 1))).
    destruct (l !! Z.to_nat (z - (top + 1))); [done|]. by rewrite lookup_insert_ne by lia.
Qed.

Lemma parse_stakes_number amounts top m :
  let coins := map (λ a, {| Denom := BondDenom; Amount := a |}) (omap NewIntFromString amounts) in
  (Forall (λ a, 0 ≤ a)%Z (omap NewIntFromString amounts) →
     parse_stakes amounts top m = Ok (number coins top m)) ∧
  (¬ Forall (λ a, 0 ≤ a)%Z (omap NewIntFromString amounts) →
     parse_stakes amounts top m = Panic (ErrorString "negative coin amount")).
Proof.
  revert top m. induction amounts as [|s l IH]; intros top m; cbn [parse_stakes omap list_omap].
  { split; [done|]. intros []. constructor. }
  cbn. destruct (NewIntFromString s) as [a|]; [|apply IH].
  unfold NewCoin. rewrite Forall_cons. destruct (Z.ltb_spec a 0); cbn; split; intros Hf.
  - lia.
  - done.
  - apply IH, Hf.
  - apply IH. intros ?. by apply Hf.
Qed.

Lemma lookup_map {A B} (f : A → B) l i : map f l !! i = f <$> l !! i.
Proof. apply list_lookup_fmap. Qed.

Lemma upto_lookup n i : (0 ≤ i)%Z → upto n !! Z.to_nat i = if (i <? n)%Z then Some i else None.
Proof.
  intros Hi. unfold upto. rewrite lookup_map.
  destruct (Z.ltb_spec i n).
  - rewrite lookup_seq_lt by lia. cbn. f_equal. lia.
  - by rewrite lookup_seq_ge by lia.
Qed.

Lemma parse_args_Ok flags stakes portlist :
  flag_stakes flags = Some stakes → flag_ports flags = Some portlist →
  let amounts := omap NewIntFromString (Split ","%byte stakes) in
  (Forall (λ a, 0 ≤ a)%Z amounts →
     ∃ args, parse_args flags = Ok args ∧
       ∀ i, (0 ≤ i)%Z →
         validatorsStakesAmount args !! i =
           (λ a, {| Denom := BondDenom; Amount := a |}) <$> amounts !! Z.to_nat i ∧
         port_of args i =
           if decide (portlist = [])
           then if (i <? numValidators args)%Z then Itoa (26657 - 3 * i) else []
           else default [] (Split ","%byte portlist !! Z.to_nat i)) ∧
  (¬ Forall (λ a, 0 ≤ a)%Z amounts →
     parse_args flags = Panic (ErrorString "negative coin amount")).
Proof.
  intros Hs Hp amounts. unfold parse_args. rewrite Hs, Hp.
  destruct (parse_stakes_number (Split ","%byte stakes) 0 ∅) as [Hok Hneg].
  split; intros Hf; [|by rewrite (Hneg Hf)].
  rewrite (Hok Hf). eexists. split; [reflexivity|]. intros i Hi. cbn. unfold port_of. cbn.
  assert ((i <? 0)%Z = false) as H0 by lia. split.
  - rewrite number_lookup, H0, Z.sub_0_r, lookup_empty.
    rewrite lookup_map. fold amounts.
    by destruct (amounts !! _).
  - unfold parse_ports. destruct (decide (portlist = [])) as [->|Hne]; cbn.
    + rewrite number_lookup, H0, Z.sub_0_r, lookup_empty.
      rewrite lookup_map, upto_lookup by done.
      by destruct (i <? default 0 (flag_numValidators flags))%Z.
    + rewrite number_lookup, H0, Z.sub_0_r, lookup_empty.
      by destruct (Split ","%byte portlist !! Z.to_nat i).
Qed.

(** The other arguments are the flags' values. *)
Lemma parse_args_fields flags args :
  parse_args flags = Ok args →
  let get f := default [] (f flags) in
  algo args = get flag_algo ∧ chainID args = get flag_chainID ∧ outputDir args = get flag_outputDir ∧
  keyringBackend args = get flag_keyringBackend ∧ minGasPrices args = get flag_minGasPrices ∧
  nodeDirPrefix args = get flag_nodeDirPrefix ∧
  startingIPAddress args = get flag_startingIPAddress ∧
  numValidators args = default 0%Z (flag_numValidators flags).
Proof.
  unfold parse_args. destruct (match flag_stakes flags with Some _ => _ | None => _ end); [|done..].
  by intros [= <-].
Qed.

(** C39. The tables made of the flags: the i-th validator stakes the i-th amount
    of the list that is an integer, and has the i-th port of the list, or
    26657 - 3i when no list is given; a negative amount panics. *)
Theorem parse_args_tables flags stakes portlist :
  flag_stakes flags = Some stakes → flag_ports flags = Some portlist →
  let amounts := omap NewIntFromString (Split ","%byte stakes) in
  (Forall (λ a, 0 ≤ a)%Z amounts →
     ∃ args, parse_args flags = Ok args ∧
       ∀ i, (0 ≤ i)%Z →
         validatorsStakesAmount args !! i =
           (λ a, {| Denom := BondDenom; Amount := a |}) <$> amounts !! Z.to_nat i ∧
         port_of args i =
           if decide (portlist = [])
           then if (i <? numValidators args)%Z then Itoa (26657 - 3 * i) else []
           else default [] (Split ","%byte portlist !! Z.to_nat i)) ∧
  (¬ Forall (λ a, 0 ≤ a)%Z amounts →
     parse_args flags = Panic (ErrorString "negative coin amount")).
Proof. apply parse_args_Ok. Qed.
End ArgsTheorems.

(** The ports the files of validator [i] name when no ports are given. *)
Definition node_ports (i : Z) : list Z :=
  [p2p_port i; rpc_port i; proxy_port i; prometheus_port i; grpc_port i; api_port i].

(** On a testnet of up to 1317 validators every port named in a validator's
    files is a port number, and no two services, of one validator or of two,
    share one. *)
Theorem default_ports_distinct n i j a b x :
  (0 ≤ i < n)%Z → (0 ≤ j < n)%Z → (n ≤ 1317)%Z →
  node_ports i !! a = Some x → node_ports j !! b = Some x →
  i = j ∧ a = b ∧ (1 ≤ x ≤ 65535)%Z.
Proof.
  unfold node_ports, p2p_port, rpc_port, proxy_port, prometheus_port, grpc_port, api_port.
  intros Hi Hj Hn Ha Hb.
  destruct a as [|[|[|[|[|[|a]]]]]]; cbn in Ha; try discriminate; injection Ha as Ha;
  destruct b as [|[|[|[|[|[|b]]]]]]; cbn in Hb; try discriminate; injection Hb as Hb;
  first [exfalso; clear -Hi Hj Hn Ha Hb; lia | split_and!; lia].
Qed.

(** ** A file system in memory *)

Module ToyTestnet.

(** Files by absolute path, in the working directory [/home/op]. *)
Definition files : Type := gmap bytes bytes.
Definition home : outcome bytes := Ok (str "/home/op").

Definition put (p c : bytes) : GoM files unit :=
  a ← lift (Abs home p); modify (<[a := c]>).
Definition get (p : bytes) : GoM files bytes := fun s =>
  match Abs home p with
  | Ok a => match s !! a with Some c => (Ok c, s) | None => (Err (ErrorString "not found"), s) end
  | _ => (Err (ErrorString "no working directory"), s)
  end.

#[export] Instance toy_os : OS files := {|
  Getwd := home; MkdirAll _ := mret tt;
  RemoveAll _ := modify (λ _, ∅);
  WriteFile := put; Open := get; Create p := put p [];
  Copy p c := _ ← put p c; mret (Z.of_nat (length c));
  Sync _ := mret tt
|}.

Definition parse_int (s : bytes) : option Z :=
  match s with
  | "-"%byte :: s => match ParseUint s with (n, None) => Some (- n)%Z | _ => None end
  | _ => match ParseUint s with (n, None) => Some n | _ => None end
  end.

Definition toy_app_toml (c : SrvConfig unit) : bytes :=
  MinGasPrices c ++ str " " ++ GRPC_Address c ++ str " " ++ API_Address c.
Definition toy_config_toml (c : NodeConfig unit) : bytes :=
  Moniker c ++ str " " ++ RPC_ListenAddress c ++ str " " ++ P2P_ListenAddress c ++ str " " ++
  ProxyApp c ++ str " " ++ PrometheusListenAddr c ++ str " " ++ P2P_PersistentPeers c.
Definition toy_genesis (d : GenesisDoc) : bytes := Doc_ChainID d ++ str " " ++ Doc_AppState d.
Definition toy_exported (id : bytes) (st : slice byte) (_ : unit) : bytes := id ++ str "!" ++ elems st.

(** Over any state with [write] and [read] of a file. *)
Definition toy_testnet_on (F BM : Type) (write : bytes → bytes → GoM F unit)
    (read : bytes → GoM F bytes) : TestnetLib F BM := {|
  PubKey := unit; Keyring := bytes; Algo := unit; Msg := bytes; TxBuilder := bytes;
  GenesisAccount := bytes; AuthGenesis := unit; AnyAccounts := unit; Time := unit;
  AppGenesis := bytes; NodeRest := unit; SrvRest := unit; BankRest := unit;
  BondDenom := str "stake"; NewIntFromString := parse_int;
  TokensFromConsensusPower p := (p * 1000000)%Z; Coins_Sort := id; Coins_Add := app;
  GenesisFile c := Join [RootDir c; str "config"; str "genesis.json"];
  InitializeNodeValidatorFiles c := mret (filter (λ b, b ≠ slash) (Moniker c), tt);
  Keyring_New _ dir := mret dir; NewSigningAlgoFromString _ _ := Ok tt;
  GenerateSaveCoinKey _ name _ := mret (name, str "seed words");
  AccAddress_String := id; ValAddress_String := id; NewBaseAccount := id;
  NewMsgCreateValidator a _ _ _ := Ok a; SetMsgs := Ok; SetMemo memo b := b ++ memo;
  Sign _ _ _ _ b := mret b; TxJSONEncoder := Ok;
  DefaultConfig := {| MinGasPrices := []; API_Enable := true; API_Address := []; GRPC_Address := [];
    Telemetry_EnableHostnameLabel := true; Telemetry_Enabled := true;
    Telemetry_PrometheusRetentionTime := 9; SrvConfig_Rest := tt |};
  WriteSrvConfigFile p c := write p (toy_app_toml c);
  WriteNodeConfigFile p c := write p (toy_config_toml c);
  GenesisState := unit; DefaultGenesis _ := tt; get_auth _ := Ok tt; set_auth _ _ := Ok tt;
  set_accounts _ _ := tt; PackAccounts _ := Ok tt;
  get_bank _ := Ok {| Balances := []; Supply := []; BankGenesis_Rest := tt |};
  set_bank _ _ := Ok tt; SanitizeGenesisBalances := id; MarshalIndent _ := Ok (str "{}");
  SaveAs d p := write p (toy_genesis d);
  AppGenesisFromFile := read; GenAppStateFromConfig _ _ _ _ _ g := mret (mk g);
  ExportGenesisFileWithTime p id st t := write p (toy_exported id st t)
|}.

#[export] Instance toy_testnet : TestnetLib files unit := toy_testnet_on files unit put get.

Definition flags0 : Flags := {|
  flag_outputDir := Some (str "./.testnets"); flag_keyringBackend := None; flag_chainID := Some (str "c");
  flag_minGasPrices := Some (str "5stake"); flag_nodeDirPrefix := Some (str "node");
  flag_startingIPAddress := Some (str "localhost"); flag_numValidators := Some 3%Z;
  flag_algo := None; flag_stakes := Some (str "100,x,300"); flag_ports := Some []
|}.

Definition args0 : initArgs :=
  match parse_args flags0 with Ok a => a | _ => Build_initArgs [] [] [] [] [] 0 [] [] ∅ ∅ end.

(** The amount of the third validator is the second one's. *)
Lemma parse_args_tables_witness :
  ∃ args, parse_args flags0 = Ok args ∧
    validatorsStakesAmount args !! 1%Z = Some {| Denom := str "stake"; Amount := 300 |} ∧
    port_of args 2 = str "26651".
Proof.
  destruct (parse_args_tables flags0 (str "100,x,300") [] eq_refl eq_refl) as [Hok _].
  destruct Hok as (args & E & Hargs); [vm_compute; repeat constructor; discriminate|].
  exists args. split; [exact E|]. split.
  - rewrite (proj1 (Hargs 1%Z ltac:(lia))). vm_compute. reflexivity.
  - rewrite (proj2 (Hargs 2%Z ltac:(lia))). unfold parse_args in E. injection E as <-.
    vm_compute. reflexivity.
Defined.

Lemma default_ports_distinct_witness : p2p_port 4 ≠ rpc_port 7 ∧ (1 ≤ grpc_port 1316 ≤ 65535)%Z.
Proof.
  split.
  - intros E.
    destruct (default_ports_distinct 10 4 7 0 1 (p2p_port 4)) as [Hij _];
      [lia|lia|lia|done|cbn; by rewrite E|discriminate].
  - apply (default_ports_distinct 1317 1316 1316 4 4); [lia|lia|lia|done|done].
Defined.

Definition config0 : NodeConfig (NodeRest (F := files)) := {|
  RootDir := []; Moniker := []; RPC_ListenAddress := []; P2P_PersistentPeers := [];
  P2P_AllowDuplicateIP := false; P2P_ListenAddress := []; ProxyApp := [];
  PrometheusListenAddr := []; Prometheus := false; NodeConfig_Rest := tt |}.

End ToyTestnet.
