(* ===== verification/TestnetFiles.v ===== *)
(** What a run of the multi-node testnet command leaves in the file system:
    [Testnet.initTestnetFiles] followed through its writes, over the documented
    effects of the file, key and genesis helpers it calls. *)
From S2P Require Import Prelude.
From stdpp Require Import list_relations.
From S2P Require Import Json Path Testnet.

#[local] Open Scope go_scope.

(** ** Files and what the helpers do to them *)

(** What the file at an absolute, cleaned path holds. *)
Class FileView (F : Type) := file_at : F → bytes → option bytes.

Section Effects.
Context {F : Type} `{!OS F, !FileView F}.
Implicit Types s : F.

Definition unchanged s s' : Prop := ∀ q, file_at s' q = file_at s q.
(** The file at [path] holds [c], the others what they held. *)
Definition writes (path c : bytes) s s' : Prop :=
  ∀ a, Abs Getwd path = Ok a → ∀ q, file_at s' q = if decide (q = a) then Some c else file_at s q.
(** Only files below [dir] have changed. *)
Definition within (dir : bytes) s s' : Prop :=
  ∀ a, Abs Getwd dir = Ok a → ∀ q, ¬ under a q → file_at s' q = file_at s q.
(** Only the files at these paths have changed. *)
Definition only (paths : list bytes) s s' : Prop :=
  ∀ q, Forall (λ p, Abs Getwd p ≠ Ok q) paths → file_at s' q = file_at s q.

Definition content s (path : bytes) : option bytes :=
  match Abs Getwd path with Ok a => file_at s a | _ => None end.
End Effects.

(** [os] and [io], on files that are no links. *)
Class OSLaws (F : Type) `{!OS F, !FileView F} : Prop := {
  MkdirAll_files p (s s' : F) : MkdirAll p s = (Ok tt, s') → unchanged s s';
  WriteFile_files p c (s s' : F) : WriteFile p c s = (Ok tt, s') → writes p c s s';
  Open_files p (s : F) c s' : Open p s = (Ok c, s') → unchanged s s' ∧ content s p = Some c;
  Create_files p (s s' : F) : Create p s = (Ok tt, s') → writes p [] s s';
  Copy_files p c (s : F) n s' : Copy p c s = (Ok n, s') → writes p c s s';
  Sync_files p (s s' : F) : Sync p s = (Ok tt, s') → unchanged s s'
}.

(** The texts the helpers write, and the directory of a keyring. *)
Class LibView (F BM : Type) `{!TestnetLib F BM} := {
  app_toml : SrvConfig SrvRest → bytes;
  config_toml : NodeConfig NodeRest → bytes;
  genesis_json : GenesisDoc → bytes;
  exported_json : bytes → slice byte → Time → bytes;
  parse_genesis : bytes → option AppGenesis;
  keyring_dir : Keyring → bytes
}.

(** Node identifiers are hexadecimal; a node's keys and its keyring are below its
    directory; the application's state is never nil, and computing it rewrites
    the node's configuration and genesis file. *)
Class LibLaws (F BM : Type) `{!OS F, !FileView F, !TestnetLib F BM, !LibView F BM} : Prop := {
  InitializeNodeValidatorFiles_files c (s : F) id pk s' :
    InitializeNodeValidatorFiles c s = (Ok (id, pk), s') → within (RootDir c) s s' ∧ slash ∉ id;
  Keyring_New_files b dir (s : F) kb s' :
    Keyring_New b dir s = (Ok kb, s') → within dir s s' ∧ keyring_dir kb = dir;
  GenerateSaveCoinKey_files kb name alg (s : F) key s' :
    GenerateSaveCoinKey kb name alg s = (Ok key, s') → within (keyring_dir kb) s s';
  Sign_files chain memo kb name b (s : F) b' s' :
    Sign chain memo kb name b s = (Ok b', s') → unchanged s s';
  WriteSrvConfigFile_files p c (s s' : F) :
    WriteSrvConfigFile p c s = (Ok tt, s') → writes p (app_toml c) s s';
  WriteNodeConfigFile_files p c (s s' : F) :
    WriteNodeConfigFile p c s = (Ok tt, s') → writes p (config_toml c) s s';
  SaveAs_files d p (s s' : F) : SaveAs d p s = (Ok tt, s') → writes p (genesis_json d) s s';
  AppGenesisFromFile_files p (s : F) g s' :
    AppGenesisFromFile p s = (Ok g, s') → unchanged s s' ∧ content s p ≫= parse_genesis = Some g;
  GenAppStateFromConfig_files c chain dir id pk g (s : F) st s' :
    GenAppStateFromConfig c chain dir id pk g s = (Ok st, s') →
    st ≠ NilSlice ∧ only [GenesisFile c; Join [RootDir c; str "config"; str "config.toml"]] s s';
  ExportGenesisFileWithTime_files p id st t (s s' : F) :
    ExportGenesisFileWithTime p id st t s = (Ok tt, s') → writes p (exported_json id st t) s s'
}.

(** ** What a run leaves *)

Section Spec.
Context {F BM : Type} `{!OS F, !TestnetLib F BM, !FileView F, !LibView F BM}.

(** What the helpers make for a validator: its node's identifier and consensus
    key, its account and seed words, and its signed genesis transaction. *)
Record Node := {
  node_id : bytes; node_key : PubKey; node_addr : bytes; node_secret : bytes; node_tx : bytes
}.

Variable args : initArgs.

Definition node_memo (k : nat) (id : bytes) : bytes :=
  id ++ str "@" ++ startingIPAddress args ++ str ":" ++ Itoa (26656 - 3 * Z.of_nat k).

(** The amount asked for, or 100 units of power. *)
Definition stake (i : Z) : Coin :=
  default {| Denom := BondDenom; Amount := TokensFromConsensusPower 100 |}
    (validatorsStakesAmount args !! i).

Definition balance_of (n : Node) : Balance := {|
  Balance_Address := AccAddress_String (node_addr n);
  Balance_Coins := Coins_Sort
    [{| Denom := str "testtoken"; Amount := TokensFromConsensusPower 1000 |};
     {| Denom := BondDenom; Amount := TokensFromConsensusPower 500 |}] |}.

(** Where validator [i] has the genesis transaction of the node [id]. *)
Definition gentx_path (i : Z) (id : bytes) : bytes :=
  Join [nodeDir args i; str "config"; str "gentx"; str "gentx-" ++ id ++ str ".json"].

(** [n] is what the helpers gave for validator [k]: its transaction declares it a
    validator with its stake, and is signed with the key of its account. *)
Definition node_made (k : nat) (n : Node) : Prop :=
  let i := Z.of_nat k in
  ∃ config kb alg msg b b' (t0 t0' t1 t1' t2 t2' : F),
    RootDir config = nodeDir args i ∧ Moniker config = nodeDirName args i ∧
    InitializeNodeValidatorFiles config t0 = (Ok (node_id n, node_key n), t0') ∧
    keyring_dir kb = nodeDir args i ∧ NewSigningAlgoFromString (algo args) kb = Ok alg ∧
    GenerateSaveCoinKey kb (nodeDirName args i) alg t1 = (Ok (node_addr n, node_secret n), t1') ∧
    NewMsgCreateValidator (ValAddress_String (node_addr n)) (node_key n) (stake i)
      (nodeDirName args i) = Ok msg ∧
    SetMsgs msg = Ok b ∧
    Sign (chainID args) (node_memo k (node_id n)) kb (nodeDirName args i)
      (SetMemo (node_memo k (node_id n)) b) t2 = (Ok b', t2') ∧
    TxJSONEncoder b' = Ok (node_tx n).

(** The application's part of the genesis: the default one with these accounts,
    these balances, and a supply raised by them. *)
Definition genesis_state (mbm : BM) (accounts : list GenesisAccount) (balances : list Balance)
    (js : bytes) : Prop :=
  ∃ auth packed g1 bank g2,
    get_auth (DefaultGenesis mbm) = Ok auth ∧ PackAccounts accounts = Ok packed ∧
    set_auth (set_accounts packed auth) (DefaultGenesis mbm) = Ok g1 ∧ get_bank g1 = Ok bank ∧
    set_bank {| Balances := SanitizeGenesisBalances balances;
                Supply := foldl (λ sum b, Coins_Add sum (Balance_Coins b)) (Supply bank)
                            (SanitizeGenesisBalances balances);
                BankGenesis_Rest := BankGenesis_Rest bank |} g1 = Ok g2 ∧
    MarshalIndent g2 = Ok js.

(** The state everyone starts from was computed in the first validator's
    directory, with every validator's transaction in it, from the genesis of all
    accounts and balances. *)
Definition canonical_state (mbm : BM) (ns : list Node) (st : slice byte) : Prop :=
  ∃ config n0 js g (t t' : F),
    RootDir config = nodeDir args 0 ∧ ns !! 0 = Some n0 ∧
    genesis_state mbm (map (λ n, NewBaseAccount (node_addr n)) ns) (map balance_of ns) js ∧
    parse_genesis (genesis_json {| Doc_ChainID := chainID args; Doc_AppState := js |}) = Some g ∧
    Forall (λ n, content t (gentx_path 0 (node_id n)) = Some (node_tx n)) ns ∧
    GenAppStateFromConfig config (chainID args) (Join [nodeDir args 0; str "config"; str "gentx"])
      (node_id n0) (node_key n0) g t = (Ok st, t').

(** The files of validator [k]. *)
Record node_files (rest : NodeRest) (ids : list bytes) (genesis : bytes) (k : nat) (n : Node) (s : F)
    : Prop := {
  seed_file : content s (Join [nodeDir args (Z.of_nat k); str "key_seed.json"]) =
    Some (Json.print (Json.JObj [(str "secret", Json.encode_string (node_secret n))]));
  app_file : content s (Join [nodeDir args (Z.of_nat k); str "config"; str "app.toml"]) =
    Some (app_toml {|
      MinGasPrices := str "0.0001" ++ BondDenom; API_Enable := false;
      API_Address := str "tcp://localhost:" ++ Itoa (1317 - Z.of_nat k);
      GRPC_Address := startingIPAddress args ++ str ":" ++ Itoa (9090 - 2 * Z.of_nat k);
      Telemetry_EnableHostnameLabel := false; Telemetry_Enabled := false;
      Telemetry_PrometheusRetentionTime := 0; SrvConfig_Rest := SrvConfig_Rest DefaultConfig |});
  config_file : content s (Join [nodeDir args (Z.of_nat k); str "config"; str "config.toml"]) =
    Some (config_toml {|
      RootDir := nodeDir args (Z.of_nat k); Moniker := nodeDirName args (Z.of_nat k);
      RPC_ListenAddress := str "tcp://127.0.0.1:" ++ port_of args (Z.of_nat k);
      P2P_PersistentPeers := strings_Join (imap node_memo ids) (str ",");
      P2P_AllowDuplicateIP := true;
      P2P_ListenAddress := str "tcp://0.0.0.0:" ++ Itoa (26656 - 3 * Z.of_nat k);
      ProxyApp := str "tcp://127.0.0.1:" ++ Itoa (26658 - 3 * Z.of_nat k);
      PrometheusListenAddr := str ":" ++ Itoa (26660 + Z.of_nat k); Prometheus := true;
      NodeConfig_Rest := rest |});
  genesis_file : content s (Join [nodeDir args (Z.of_nat k); str "config"; str "genesis.json"]) =
    Some genesis
}.
End Spec.

(** ** The files of the nodes *)

Lemma Itoa_plain prefix i : slash ∉ prefix → (0 ≤ i)%Z → plain (prefix ++ Itoa i).
Proof.
  intros Hp Hi. destruct (Itoa_decimal i Hi) as [Hne Hd].
  assert (∀ c, is_decimal c → c ≠ slash ∧ c ≠ "."%byte) as Hdec
    by (unfold is_decimal; intros c [H _]; split; intros ->; apply H; reflexivity).
  assert (∃ l c, prefix ++ Itoa i = l ++ [c] ∧ c ≠ "."%byte) as (l & c & E & Hc).
  { destruct (exists_last Hne) as (l & c & E). exists (prefix ++ l), c.
    rewrite E, app_assoc. split; [done|]. apply Hdec.
    rewrite E in Hd. apply Forall_app in Hd as [_ Hd]. by inversion Hd. }
  split_and!.
  - rewrite E. by destruct l.
  - rewrite E. intros Ed. destruct l as [|a l]; [|by destruct l]. cbn in Ed. congruence.
  - rewrite E. intros Ed. destruct l as [|a [|b l]]; [done| |by destruct l]. cbn in Ed. congruence.
  - rewrite not_elem_of_app. split; [done|]. intros Hin.
    rewrite Forall_forall in Hd. by apply Hd, Hdec in Hin as [? _].
Qed.

(** The files of a node, below its directory. *)
Definition seed : list bytes := [str "key_seed.json"].
Definition app_conf : list bytes := [str "config"; str "app.toml"].
Definition node_conf : list bytes := [str "config"; str "config.toml"].
Definition gen : list bytes := [str "config"; str "genesis.json"].
Definition gentx_dir : list bytes := [str "config"; str "gentx"].
Definition gentx (id : bytes) : list bytes :=
  [str "config"; str "gentx"; str "gentx-" ++ id ++ str ".json"].

Lemma fixed_plain : Forall (Forall plain) [seed; app_conf; node_conf; gen; gentx_dir].
Proof. apply (bool_decide_eq_true_1 _). vm_compute. reflexivity. Qed.

Lemma gentx_plain id : slash ∉ id → Forall plain (gentx id).
Proof.
  intros Hid. unfold gentx. change (str "config" :: str "gentx" :: ?l) with (gentx_dir ++ l).
  apply Forall_app. split; [by apply (bool_decide_eq_true_1 _)|]. apply Forall_singleton.
  split_and!; try done. rewrite !not_elem_of_app. split_and!; [|done|];
    apply (bool_decide_eq_false_1 _); reflexivity.
Qed.

Lemma gentx_inj id id' : gentx id = gentx id' → id = id'.
Proof. unfold gentx. intros [= E]. by apply app_inv_tail in E. Qed.

Section Nodes.
Context {F BM : Type} `{!OS F, !TestnetLib F BM, !FileView F, !LibView F BM, !OSLaws F, !LibLaws F BM}.
Implicit Types s t : F.

(** [base] is where the testnet's directory is: absolute, and cleaned. *)
Variables (args : initArgs) (base : list bytes).
Hypothesis base_plain : Forall plain base.
Hypothesis base_abs : ∀ names, names ≠ [] → Forall plain names →
  Abs Getwd (render (IsAbs (outputDir args)) (elems_of (outputDir args) ++ names)) =
    Ok (abs_path (base ++ names)).
Hypothesis prefix_plain : slash ∉ nodeDirPrefix args.

Definition at_node (i : Z) (names : list bytes) : bytes :=
  abs_path (base ++ nodeDirName args i :: names).
(** What a file of node [i] holds. *)
Definition node_file s (i : Z) (names : list bytes) : option bytes := file_at s (at_node i names).

Lemma dir_plain i : (0 ≤ i)%Z → plain (nodeDirName args i).
Proof. by apply Itoa_plain. Qed.

Lemma dir_inj i j : (0 ≤ i)%Z → (0 ≤ j)%Z → nodeDirName args i = nodeDirName args j → i = j.
Proof. intros Hi Hj E. apply app_inv_head in E. by apply Itoa_inj. Qed.

Lemma node_names i names : (0 ≤ i)%Z → Forall plain names → Forall plain (nodeDirName args i :: names).
Proof. intros Hi Hn. apply list.Forall_cons. split; [by apply dir_plain|done]. Qed.

Lemma Join_out i names :
  (0 ≤ i)%Z → Forall plain names →
  Join (outputDir args :: nodeDirName args i :: names) =
    render (IsAbs (outputDir args)) (elems_of (outputDir args) ++ nodeDirName args i :: names).
Proof. intros Hi Hn. apply Join_names; [done|by apply node_names]. Qed.

Lemma Join_node i names :
  (0 ≤ i)%Z → names ≠ [] → Forall plain names →
  Join (nodeDir args i :: names) =
    render (IsAbs (outputDir args)) (elems_of (outputDir args) ++ nodeDirName args i :: names).
Proof.
  intros Hi Hne Hn. unfold nodeDir. rewrite Join_out by done.
  rewrite Join_render, <-app_assoc by
    (done || (apply normal_app; [apply elems_normal|by apply node_names])). done.
Qed.

Lemma Abs_node i names :
  (0 ≤ i)%Z → names ≠ [] → Forall plain names →
  Abs Getwd (Join (nodeDir args i :: names)) = Ok (at_node i names).
Proof. intros Hi Hne Hn. rewrite Join_node by done. apply base_abs; [done|by apply node_names]. Qed.

Lemma Abs_nodeDir i : (0 ≤ i)%Z → Abs Getwd (nodeDir args i) = Ok (at_node i []).
Proof. intros Hi. unfold nodeDir. rewrite Join_out by done. apply base_abs; [done|by apply node_names]. Qed.

Lemma at_node_inj i j names names' :
  (0 ≤ i)%Z → (0 ≤ j)%Z → Forall plain names → Forall plain names' →
  at_node i names = at_node j names' → i = j ∧ names = names'.
Proof.
  intros Hi Hj Hn Hn' E. unfold at_node, abs_path in E.
  apply render_inj in E; [|by apply plain_normal, Forall_app; split; [|apply node_names]..].
  apply app_inv_head in E. injection E as E ->. split; [by apply dir_inj|done].
Qed.

Lemma content_node s i names :
  (0 ≤ i)%Z → names ≠ [] → Forall plain names →
  content s (Join (nodeDir args i :: names)) = node_file s i names.
Proof. intros Hi Hne Hn. unfold content. by rewrite Abs_node. Qed.

(** What a call has done to the files of the nodes. *)
Definition frame (P : Z → list bytes → Prop) s s' : Prop :=
  ∀ i names, (0 ≤ i)%Z → Forall plain names → ¬ P i names → node_file s' i names = node_file s i names.

Lemma frame_trans P s s' s'' : frame P s s' → frame P s' s'' → frame P s s''.
Proof. intros H1 H2 i names Hi Hn Hp. by rewrite H2, H1. Qed.

Lemma frame_mono (P Q : Z → list bytes → Prop) s s' :
  (∀ i names, P i names → Q i names) → frame P s s' → frame Q s s'.
Proof. intros HPQ H i names Hi Hn Hq. apply H; auto. Qed.

Lemma unchanged_node P s s' : unchanged s s' → frame P s s'.
Proof. intros H i names _ _ _. apply H. Qed.

Lemma within_node i s s' : (0 ≤ i)%Z → within (nodeDir args i) s s' → frame (λ j _, j = i) s s'.
Proof.
  intros Hi H j names Hj Hn Hne. apply (H _ (Abs_nodeDir i Hi)).
  apply not_under; [by apply plain_normal|by apply dir_plain|by apply node_names|].
  intros E. apply Hne. by apply dir_inj.
Qed.

Lemma writes_node i names c s s' :
  (0 ≤ i)%Z → names ≠ [] → Forall plain names → writes (Join (nodeDir args i :: names)) c s s' →
  node_file s' i names = Some c ∧ frame (λ j names', j = i ∧ names' = names) s s'.
Proof.
  intros Hi Hne Hn H. specialize (H _ (Abs_node i names Hi Hne Hn)). split.
  - unfold node_file. by rewrite H, decide_True.
  - intros j names' Hj Hn' Hd. unfold node_file. rewrite H, decide_False; [done|].
    intros [-> ->]%at_node_inj; [|done..]. by apply Hd.
Qed.

Lemma writeFile_writes file dir c s s' : writeFile file dir c s = (Ok tt, s') → writes file c s s'.
Proof.
  unfold writeFile. rewrite catch_Ok by done. intros ([] & t & Hm%MkdirAll_files & E).
  rewrite catch_Ok in E by done. destruct E as ([] & t' & Hw%WriteFile_files & [_ ->]%ret_Ok).
  intros a Ha q. rewrite (Hw a Ha). by rewrite Hm.
Qed.

Lemma clean_up_not_Ok {A} e (x : A) s : (clean_up args e s).1 ≠ Ok x.
Proof. unfold clean_up, catch. by destruct (RemoveAll _ s) as [[]]. Qed.

Lemma NewCoin_Ok d a c : NewCoin d a = Ok c → c = {| Denom := d; Amount := a |}.
Proof. unfold NewCoin. case_match; [done|]. by intros [= <-]. Qed.
(** Takes a returning run of a sequence of calls apart. *)
Ltac run E :=
  repeat (first
    [ rewrite catch_Ok in E by (first [done | intros; apply clean_up_not_Ok])
    | rewrite bind_Ok in E ];
    let x := fresh "x" in let t := fresh "t" in let Hx := fresh "H" in
    destruct E as (x & t & Hx & E); cbv beta iota zeta in E;
    try match type of Hx with
        | lift _ _ = _ => let Ht := fresh in apply lift_Ok in Hx as [Hx Ht]; subst t
        end;
    try match type of E with context [let '(_, _) := ?v in _] => destruct v end).

(** ** The loop over the validators *)

(** What one round adds to the tables. *)
Definition add_node (k : nat) (n : Node) (p p' : Progress) : Prop :=
  let i := Z.of_nat k in
  let memo := node_memo args k (node_id n) in
  NodeConfig_Rest (p_nodeConfig p') = NodeConfig_Rest (p_nodeConfig p) ∧
  p_appConfig p' = set_addresses (startingIPAddress args ++ str ":" ++ Itoa (9090 - 2 * i))
                     (str "tcp://localhost:" ++ Itoa (1317 - i)) (p_appConfig p) ∧
  p_nodeIDs p' = p_nodeIDs p ++ [node_id n] ∧ p_valPubKeys p' = p_valPubKeys p ++ [node_key n] ∧
  genAccounts p' = genAccounts p ++ [NewBaseAccount (node_addr n)] ∧
  genBalances p' = genBalances p ++ [balance_of n] ∧
  genFiles p' = genFiles p ++ [GenesisFile (p_nodeConfig p')] ∧ RootDir (p_nodeConfig p') = nodeDir args i ∧
  persistentPeers p' = (if decide (persistentPeers p = []) then memo else persistentPeers p ++ str "," ++ memo) ∧
  gentxsFiles p' = gentxsFiles p ++ [gentx_path args i (node_id n)].

(** The files a round writes. *)
Definition node_start (k : nat) (n : Node) (srv : SrvConfig SrvRest) s : Prop :=
  let i := Z.of_nat k in
  node_file s i seed =
    Some (Json.print (Json.JObj [(str "secret", Json.encode_string (node_secret n))])) ∧
  node_file s i app_conf = Some (app_toml srv) ∧
  node_file s i (gentx (node_id n)) = Some (node_tx n).

Lemma gentx_join i id :
  (0 ≤ i)%Z → slash ∉ id →
  Join [gentxsDir args i; str "gentx-" ++ id ++ str ".json"] = Join (nodeDir args i :: gentx id).
Proof.
  intros Hi Hid. pose proof (gentx_plain id Hid) as Hg. rewrite Join_node by done.
  change (gentx id) with (gentx_dir ++ [str "gentx-" ++ id ++ str ".json"]) in *.
  apply Forall_app in Hg as [Hd Hl]. unfold gentxsDir.
  change [outputDir args; nodeDirName args i; str "config"; str "gentx"]
    with (outputDir args :: nodeDirName args i :: gentx_dir).
  rewrite Join_out, Join_render by
    (done || (apply normal_app; [apply elems_normal|by apply node_names])).
  by rewrite <-app_assoc.
Qed.

Lemma stake_Ok i s c s' :
  (match validatorsStakesAmount args !! i with
   | Some c => mret c
   | None => lift (NewCoin BondDenom (TokensFromConsensusPower 100))
   end) s = (Ok c, s') → c = stake args i ∧ s' = s.
Proof.
  unfold stake. destruct (validatorsStakesAmount args !! i).
  - by intros [<- <-]%ret_Ok.
  - by intros [->%NewCoin_Ok <-]%lift_Ok.
Qed.

(** The files after the seed words, the transaction and the configuration. *)
Lemma node_writes k id secret tx srv s t1 t2 t3 t4 :
  let i := Z.of_nat k in
  let n := {| node_id := id; node_key := secret.1; node_addr := secret.2.1;
              node_secret := secret.2.2; node_tx := tx |} in
  slash ∉ id → frame (λ j _, j = i) s t1 →
  writes (Join [nodeDir args i; str "key_seed.json"])
    (Json.print (Json.JObj [(str "secret", Json.encode_string (node_secret n))])) t1 t2 →
  writes (Join [gentxsDir args i; str "gentx-" ++ id ++ str ".json"]) tx t2 t3 →
  writes (Join [nodeDir args i; str "config"; str "app.toml"]) (app_toml srv) t3 t4 →
  node_start k n srv t4 ∧ frame (λ j _, j = i) s t4.
Proof.
  intros i n Hid H1 H2 H3 H4. assert (0 ≤ i)%Z as Hi by lia.
  pose proof fixed_plain as Hp. rewrite !list.Forall_cons in Hp. destruct Hp as (Ps & Pa & _ & _ & _ & _).
  pose proof (gentx_plain id Hid) as Pg. rewrite gentx_join in H3 by done.
  apply writes_node in H2 as [F2 K2]; [|done..].
  apply writes_node in H3 as [F3 K3]; [|done..].
  apply writes_node in H4 as [F4 K4]; [|done..].
  split; [split_and!|].
  - rewrite K4, K3 by (done || by intros [_ ?]). exact F2.
  - exact F4.
  - rewrite K4 by (done || by intros [_ ?]). exact F3.
  - apply frame_trans with t1; [done|]. apply frame_trans with t2; [|apply frame_trans with t3];
      (eapply frame_mono; [|eassumption]); by intros ?? [].
Qed.

Lemma init_node_Ok k p s p' s' :
  init_node args p (Z.of_nat k) s = (Ok p', s') →
  ∃ n, (slash ∉ node_id n) ∧ node_made args k n ∧ add_node k n p p' ∧ node_start k n (p_appConfig p') s' ∧
    frame (λ j _, j = Z.of_nat k) s s'.
Proof.
  unfold init_node. set (i := Z.of_nat k). assert (0 ≤ i)%Z as Hi by lia. intros E. run E.
  apply ret_Ok in E as [<- <-]. destruct x, x2, x10, x11.
  apply MkdirAll_files in H. apply NewCoin_Ok in H5 as ->. apply NewCoin_Ok in H6 as ->.
  apply stake_Ok in H7 as [-> ->].
  pose proof (InitializeNodeValidatorFiles_files _ _ _ _ _ H0) as [Hw0 Hid].
  apply Keyring_New_files in H1 as [Hw1 Hk].
  pose proof (GenerateSaveCoinKey_files _ _ _ _ _ _ H3) as Hw3. rewrite Hk in Hw3.
  pose proof (Sign_files _ _ _ _ _ _ _ _ H10) as Hs.
  apply writeFile_writes in H4, H12. apply WriteSrvConfigFile_files in H13.
  assert (frame (λ j _, j = i) s t2) as Hf.
  { apply frame_trans with t; [by apply unchanged_node|].
    apply frame_trans with t0; [by apply within_node|].
    apply frame_trans with t1; by apply within_node. }
  exists {| node_id := l; node_key := p0; node_addr := l0; node_secret := l1; node_tx := x9 |}.
  split; [done|]. split.
  { exists (set_node (nodeDir args i) (nodeDirName args i) (str "tcp://0.0.0.0:" ++ port_of args i)
      (p_nodeConfig p)), x0, x1, x6, x7, x8, t, t0, t1, t2, t3, t5. by split_and!. }
  split; [split_and!; try reflexivity; cbn [gentxsFiles node_id]; by rewrite gentx_join|].
  apply (node_writes k l (p0, (l0, l1)) x9 _ s t2 t3 t6 t7); try done.
  intros a Ha q. rewrite (H12 a Ha). by rewrite Hs.
Qed.

Variable rest : NodeRest.
Hypothesis genesis_path : ∀ c, NodeConfig_Rest c = rest →
  GenesisFile c = Join [RootDir c; str "config"; str "genesis.json"].

Definition srv_config (k : nat) : SrvConfig SrvRest :=
  set_addresses (startingIPAddress args ++ str ":" ++ Itoa (9090 - 2 * Z.of_nat k))
    (str "tcp://localhost:" ++ Itoa (1317 - Z.of_nat k)) (initial_appConfig args).

(** The tables of the nodes [ns]. *)
Record tables (ns : list Node) (p : Progress) : Prop := {
  tables_rest : NodeConfig_Rest (p_nodeConfig p) = rest;
  tables_srv : ∀ g a, set_addresses g a (p_appConfig p) = set_addresses g a (initial_appConfig args);
  tables_ids : p_nodeIDs p = map node_id ns;
  tables_keys : p_valPubKeys p = map node_key ns;
  tables_accounts : genAccounts p = map (λ n, NewBaseAccount (node_addr n)) ns;
  tables_balances : genBalances p = map balance_of ns;
  tables_files : genFiles p = imap (λ k _, Join (nodeDir args (Z.of_nat k) :: gen)) ns;
  tables_peers : persistentPeers p = strings_Join (imap (node_memo args) (map node_id ns)) (str ",");
  tables_gentxs : gentxsFiles p = imap (λ k n, gentx_path args (Z.of_nat k) (node_id n)) ns
}.

Lemma strings_Join_snoc l x sep :
  strings_Join (l ++ [x]) sep = if decide (l = []) then x else strings_Join l sep ++ sep ++ x.
Proof. case_decide as E; [by subst|]. by apply strings_Join_app. Qed.

Lemma node_memo_nonempty k id : node_memo args k id ≠ [].
Proof. unfold node_memo. by destruct id. Qed.

Lemma peers_nil ids : strings_Join (imap (node_memo args) ids) (str ",") = [] ↔ ids = [].
Proof.
  split; [|by intros ->]. destruct ids as [|id [|id' ids]]; [done|..]; cbn; intros E.
  - by destruct (node_memo_nonempty 0 id).
  - apply app_eq_nil in E as [E _]. by destruct (node_memo_nonempty 0 id).
Qed.

Lemma tables_snoc ns n p p' :
  tables ns p → add_node (length ns) n p p' → tables (ns ++ [n]) p'.
Proof.
  intros [Hr Hs Hi Hk Ha Hb Hf Hp Hg] (Er & Es & Ei & Ek & Ea & Eb & Ef & Ed & Ep & Eg).
  split; rewrite ?map_app, ?imap_app; cbn [imap map compose]; rewrite ?length_map, ?Nat.add_0_r.
  - congruence.
  - intros g a. rewrite Es. cbn. apply (Hs g a).
  - congruence.
  - congruence.
  - congruence.
  - congruence.
  - rewrite Ef, Hf, genesis_path, Ed by congruence. done.
  - rewrite Ep, Hp, strings_Join_snoc. destruct (decide (ns = [])) as [->|Hne]; [done|].
    rewrite !decide_False; [done| |].
    + by destruct ns.
    + by rewrite peers_nil; destruct ns.
  - rewrite Eg, Hg. done.
Qed.

(** What the loop has made of the nodes [ns]. *)
Definition made (ns : list Node) s : Prop :=
  ∀ k n, ns !! k = Some n → (slash ∉ node_id n) ∧ node_made args k n ∧ node_start k n (srv_config k) s.

Lemma node_start_frame (P : Z → list bytes → Prop) k n srv s s' :
  (slash ∉ node_id n) → frame P s s' →
  (∀ names, names ∈ [seed; app_conf; gentx (node_id n)] → ¬ P (Z.of_nat k) names) →
  node_start k n srv s → node_start k n srv s'.
Proof.
  intros Hid Hf HP (H1 & H2 & H3). pose proof fixed_plain as Hp. rewrite !list.Forall_cons in Hp.
  destruct Hp as (Ps & Pa & _). pose proof (gentx_plain _ Hid).
  split_and!; rewrite Hf; try done; try lia; apply HP; set_solver.
Qed.

Lemma made_snoc ns n p p' s s' :
  made ns s → tables ns p → add_node (length ns) n p p' → (slash ∉ node_id n) →
  node_made args (length ns) n → node_start (length ns) n (p_appConfig p') s' →
  frame (λ j _, j = Z.of_nat (length ns)) s s' → made (ns ++ [n]) s'.
Proof.
  intros Hm Ht Ha Hid Hn Hs Hf k m Hk. destruct (decide (k = length ns)) as [->|Hne].
  - rewrite lookup_app_r, Nat.sub_diag in Hk by lia. injection Hk as <-. split_and!; [done|done|].
    unfold srv_config. destruct Ha as (_ & Es & _). by rewrite <-(tables_srv _ _ Ht), <-Es.
  - pose proof (lookup_lt_Some _ _ _ Hk) as Hl. rewrite length_app in Hl. cbn in Hl.
    rewrite lookup_app_l in Hk by lia. destruct (Hm k m Hk) as (? & ? & Hst). split_and!; [done|done|].
    eapply node_start_frame; [done|exact Hf| |done]. intros names _ E. lia.
Qed.

Lemma init_nodes_Ok c ns p s p' s' :
  tables ns p → made ns s →
  foldM (init_node args) (map Z.of_nat (seq (length ns) c)) p s = (Ok p', s') →
  ∃ ns', length ns' = length ns + c ∧ tables ns' p' ∧ made ns' s'.
Proof.
  revert ns p s. induction c as [|c IH]; intros ns p s Ht Hm; cbn [seq map foldM].
  { intros [<- <-]%ret_Ok. exists ns. by rewrite Nat.add_0_r. }
  intros (p1 & s1 & (n & Hid & Hn & Ha & Hs & Hf)%init_node_Ok & E2)%bind_Ok.
  rewrite <-Nat.add_succ_comm. replace (S (length ns)) with (length (ns ++ [n])) in *
    by (rewrite length_app; cbn; lia).
  apply (IH (ns ++ [n]) p1 s1); [by eapply tables_snoc|by eapply made_snoc|done].
Qed.

(** ** Genesis, copies, configurations *)

(** A loop in whose rounds [I] is kept, and each reaches its goal and keeps the
    others'. *)
Lemma foldM_each {A X} (f : A → X → GoM F A) (I : A → F → Prop) (G : X → A → F → Prop) (L l : list X) a s a' s' :
  (∀ x a t a' t', x ∈ L → I a t → f a x t = (Ok a', t') →
     I a' t' ∧ G x a' t' ∧ ∀ y, y ∈ L → G y a t → G y a' t') →
  (∀ x, x ∈ l → x ∈ L) → I a s → foldM f l a s = (Ok a', s') →
  I a' s' ∧ (∀ x, x ∈ l → G x a' s') ∧ ∀ y, y ∈ L → G y a s → G y a' s'.
Proof.
  intros Hf. revert a s. induction l as [|x l IH]; intros a s Hl Ha; cbn [foldM].
  { intros [<- <-]%ret_Ok. split_and!; [done| |done]. by intros x ?%elem_of_nil. }
  intros (a1 & s1 & E1 & E2)%bind_Ok. apply Hf in E1 as (H1 & Hx & Hk1); [|apply Hl; left|done].
  destruct (IH a1 s1 ltac:(intros; apply Hl; by right) H1 E2) as (H2 & Hr & Hk2).
  split_and!; [done| |by auto]. intros y [->|Hy]%elem_of_cons; [|by apply Hr].
  apply Hk2; [apply Hl; left|done].
Qed.

Lemma upto_nat n i : i ∈ upto n ↔ ∃ k : nat, i = Z.of_nat k ∧ k < Z.to_nat n.
Proof.
  unfold upto. change (map Z.of_nat) with (fmap (M := list) Z.of_nat).
  rewrite list_elem_of_fmap. setoid_rewrite elem_of_seq. split; intros (k & -> & ?); exists k; lia.
Qed.

Lemma initGenFiles_Ok mbm chain accounts balances (ns : list Node) num s s' :
  length ns = Z.to_nat num →
  initGenFiles mbm chain accounts balances (imap (λ k _, Join (nodeDir args (Z.of_nat k) :: gen)) ns)
    num s = (Ok tt, s') →
  ∃ js, genesis_state mbm accounts balances js ∧ frame (λ _ names, names = gen) s s' ∧
    ∀ k, k < length ns → node_file s' (Z.of_nat k) gen =
                           Some (genesis_json {| Doc_ChainID := chain; Doc_AppState := js |}).
Proof.
  intros Hlen. unfold initGenFiles. intros E. run E.
  set (doc := {| Doc_ChainID := chain; Doc_AppState := x4 |}) in *. exists x4.
  split; [by exists x, x0, x1, x2, x3|].
  pose proof fixed_plain as Hp. rewrite !list.Forall_cons in Hp. destruct Hp as (_ & _ & _ & Pg & _).
  apply (foldM_each _ (λ _ t, frame (λ _ names, names = gen) s t)
    (λ i _ t, node_file t i gen = Some (genesis_json doc)) (upto num)) in E;
    [|clear E|done|done].
  - destruct E as (Hf & Hg & _). split; [done|]. intros k Hk. apply Hg, upto_nat. exists k. lia.
  - intros i a t a' t' (k & -> & Hk)%upto_nat Ht. rewrite Nat2Z.id, list_lookup_imap.
    destruct (lookup_lt_is_Some_2 ns k) as [m ->]; [lia|]. cbn [fmap option_fmap option_map].
    rewrite catch_Ok by done. intros ([] & u & Hw%SaveAs_files & [_ ->]%ret_Ok).
    apply writes_node in Hw as [Hw Hf]; [|done||lia..]. split_and!; [|done|].
    + eapply frame_trans; [exact Ht|]. eapply frame_mono; [|exact Hf]. by intros ?? [].
    + intros y (k' & -> & Hk')%upto_nat Hy. destruct (decide (k' = k)) as [->|Hne]; [done|].
      rewrite Hf; [done|lia|done|]. intros [? _]. lia.
Qed.

(** Whether the directory of [i] has the file of [j] already. *)
Lemma isSubDir_gentx i j id :
  (0 ≤ i)%Z → (0 ≤ j)%Z → (slash ∉ id) →
  isSubDir (gentx_path args j id) (Join (nodeDir args i :: gentx_dir)) = Ok (bool_decide (i = j)).
Proof.
  intros Hi Hj Hid. pose proof (gentx_plain id Hid) as Hg.
  pose proof fixed_plain as Hp. rewrite !list.Forall_cons in Hp. destruct Hp as (_ & _ & _ & _ & Pd & _).
  unfold isSubDir, gentx_path. fold (gentx id).
  rewrite !Abs_node by done. cbn [mbind outcome_bind]. unfold at_node.
  rewrite Rel_abs by (apply Forall_app; split; [done|by apply node_names]).
  rewrite strip_common_app. cbn [strip_common gentx gentx_dir]. destruct (decide (i = j)) as [->|Hne].
  - rewrite bool_decide_true, !decide_True by done. reflexivity.
  - rewrite bool_decide_false by done.
    rewrite (decide_False (P := nodeDirName args i = nodeDirName args j)) by (by intros ?%dir_inj).
    reflexivity.
Qed.

Lemma Base_gentx i id :
  (0 ≤ i)%Z → (slash ∉ id) → Base (gentx_path args i id) = str "gentx-" ++ id ++ str ".json".
Proof.
  intros Hi Hid. pose proof (gentx_plain id Hid) as Hg. unfold gentx_path. fold (gentx id).
  rewrite Join_node by done. change (gentx id) with (gentx_dir ++ [str "gentx-" ++ id ++ str ".json"]) in *.
  apply Forall_app in Hg as [Hd [Hn _]%list.Forall_cons].
  change (nodeDirName args i :: ?a ++ ?b) with ((nodeDirName args i :: a) ++ b). rewrite app_assoc.
  apply Base_render; [|done]. apply normal_app; [apply elems_normal|by apply node_names].
Qed.

Lemma Join_gentx i id :
  (0 ≤ i)%Z → (slash ∉ id) →
  Join [Join (nodeDir args i :: gentx_dir); str "gentx-" ++ id ++ str ".json"] = gentx_path args i id.
Proof.
  intros Hi Hid. pose proof (gentx_plain id Hid) as Hg. unfold gentx_path. fold (gentx id).
  change (gentx id) with (gentx_dir ++ [str "gentx-" ++ id ++ str ".json"]) in *.
  pose proof Hg as [Hd Hn]%Forall_app. rewrite !Join_node by done.
  rewrite Join_render, <-app_assoc by (done || (apply normal_app; [apply elems_normal|by apply node_names])).
  done.
Qed.

(** Copying puts the transaction of [j] where [i] has it, and changes no other
    file. *)
Lemma copy_gentx_Ok i j id s s' :
  (0 ≤ i)%Z → (0 ≤ j)%Z → (slash ∉ id) → copy_gentx args i (gentx_path args j id) s = (Ok tt, s') →
  node_file s' i (gentx id) = node_file s j (gentx id) ∧
  frame (λ i' names, i' = i ∧ names = gentx id) s s'.
Proof.
  intros Hi Hj Hid. pose proof (gentx_plain id Hid) as Hg. unfold copy_gentx.
  change [nodeDir args i; str "config"; str "gentx"] with (nodeDir args i :: gentx_dir).
  rewrite isSubDir_gentx by done. case_bool_decide as E.
  { intros [_ <-]%ret_Ok. subst j. done. }
  rewrite catch_Ok by done. unfold copyFile. intros (c & t & Ec & [_ ->]%ret_Ok).
  rewrite Base_gentx, Join_gentx in Ec by done.
  rewrite catch_Ok in Ec by done. destruct Ec as (src & t1 & [Ho Hsrc]%Open_files & Ec).
  rewrite catch_Ok in Ec by done. destruct Ec as ([] & t2 & Hc%Create_files & Ec).
  rewrite catch_Ok in Ec by done. destruct Ec as (m & t3 & Hw%Copy_files & Ec).
  rewrite catch_Ok in Ec by done. destruct Ec as ([] & t4 & Hy%Sync_files & [_ <-]%ret_Ok).
  unfold gentx_path in *. fold (gentx id) in *. rewrite content_node in Hsrc by done.
  apply writes_node in Hw as [Hw Hf]; [|done..]. apply writes_node in Hc as [_ Hf']; [|done..]. split.
  - rewrite Hsrc. unfold node_file in *. by rewrite Hy.
  - intros i' names Hi' Hn Hne. unfold node_file at 1. rewrite Hy.
    change (node_file t3 i' names = node_file s i' names). rewrite Hf, Hf' by done. apply Ho.
Qed.

Definition gentxs (ns : list Node) : list bytes :=
  imap (λ k n, gentx_path args (Z.of_nat k) (node_id n)) ns.

Lemma gentxs_in ns file :
  file ∈ gentxs ns ↔ ∃ k n, ns !! k = Some n ∧ file = gentx_path args (Z.of_nat k) (node_id n).
Proof. unfold gentxs. rewrite elem_of_lookup_imap. naive_solver. Qed.

Lemma gentx_path_inj i j id id' :
  (0 ≤ i)%Z → (0 ≤ j)%Z → (slash ∉ id) → (slash ∉ id') →
  gentx_path args i id = gentx_path args j id' → i = j ∧ id = id'.
Proof.
  intros Hi Hj Hid Hid' E. apply (f_equal (Abs Getwd)) in E. unfold gentx_path in E.
  fold (gentx id) (gentx id') in E. pose proof (gentx_plain _ Hid). pose proof (gentx_plain _ Hid').
  rewrite !Abs_node in E by done. 
  assert (at_node i (gentx id) = at_node j (gentx id')) as Ea by congruence.
  apply at_node_inj in Ea as [-> ->%gentx_inj]; done.
Qed.

Definition has_gentx (ns : list Node) t (i : Z) (k : nat) : Prop :=
  ∀ n, ns !! k = Some n → node_file t i (gentx (node_id n)) = Some (node_tx n).

(** Copying one file keeps every transaction that is in its place. *)
Lemma copy_has_gentx ns i j n s s' :
  (∀ k n, ns !! k = Some n → slash ∉ node_id n) → NoDup (map node_id ns) →
  (0 ≤ i)%Z → ns !! j = Some n → has_gentx ns s (Z.of_nat j) j →
  copy_gentx args i (gentx_path args (Z.of_nat j) (node_id n)) s = (Ok tt, s') →
  has_gentx ns s' i j ∧ ∀ i' k, (0 ≤ i')%Z → has_gentx ns s i' k → has_gentx ns s' i' k.
Proof.
  intros Hids Hnd Hi Hj Hown [Hc Hf]%copy_gentx_Ok; [|lia|lia|by eapply Hids].
  rewrite (Hown n Hj) in Hc. split.
  - intros m Hm. congruence.
  - intros i' k Hi' Hk m Hm. destruct (decide (i' = i ∧ node_id m = node_id n)) as [[-> E]|Hne].
    + assert (k = j) as ->.
      { apply (NoDup_lookup _ _ _ (node_id n) Hnd); change (map node_id ns) with (node_id <$> ns);
          rewrite list_lookup_fmap, ?Hm, ?Hj; cbn; by rewrite ?E. }
      congruence.
    + rewrite Hf; [by apply Hk|done|by eapply gentx_plain, Hids|].
      intros [-> E%gentx_inj]. by apply Hne.
Qed.

(** Copying changes genesis transactions only, and with different identifiers
    gives every validator those of all. *)
Lemma copy_gentxs_Ok ns s s' :
  (∀ k n, ns !! k = Some n → slash ∉ node_id n) → copy_gentxs args (gentxs ns) s = (Ok tt, s') →
  frame (λ _ names, ∃ id, names = gentx id) s s' ∧
  (NoDup (map node_id ns) → (∀ k, has_gentx ns s (Z.of_nat k) k) →
   ∀ i k, (0 ≤ i < numValidators args)%Z → has_gentx ns s' i k).
Proof.
  intros Hids E. unfold copy_gentxs in E. split.
  - apply (foldM_each _ (λ _ t, frame (λ _ names, ∃ id, names = gentx id) s t) (λ _ _ _, True)
      (upto (numValidators args))) in E as [Hf _]; [done|clear E|done|done].
    intros i [] t [] t' (k & -> & _)%upto_nat Ht E. split_and!; [|done|done].
    apply (foldM_each _ (λ _ t, frame (λ _ names, ∃ id, names = gentx id) s t) (λ _ _ _, True)
      (gentxs ns)) in E as [Hf _]; [done|clear E|done|done].
    intros file [] u [] u' (j & n & Hj & ->)%gentxs_in Hu [_ Hc]%copy_gentx_Ok; [|lia|lia|by eapply Hids].
    split_and!; [|done|done]. eapply frame_trans; [exact Hu|]. eapply frame_mono; [|exact Hc].
    intros ?? [_ ->]. by eexists.
  - intros Hnd Hown.
    apply (foldM_each _ (λ _ t, ∀ k, has_gentx ns t (Z.of_nat k) k)
      (λ i _ t, ∀ k, has_gentx ns t i k) (upto (numValidators args))) in E as (_ & Hg & _); [|clear E|done|done].
    { intros i k Hi. apply Hg, upto_nat. exists (Z.to_nat i). lia. }
    intros i [] t [] t' (i0 & -> & _)%upto_nat Ht E.
    apply (foldM_each _ (λ _ u, ∀ i' k, (0 ≤ i')%Z → has_gentx ns t i' k → has_gentx ns u i' k)
      (λ file _ u, ∀ k n, ns !! k = Some n → file = gentx_path args (Z.of_nat k) (node_id n) →
         has_gentx ns u (Z.of_nat i0) k) (gentxs ns)) in E as (Hk & Hg & _); [|clear E|done|done].
    + split_and!.
      * intros k. apply Hk; [lia|done].
      * intros k n Hn. apply (Hg (gentx_path args (Z.of_nat k) (node_id n))) with (k := k) (n := n);
          [apply gentxs_in; by exists k, n|done|done|done].
      * intros y (y0 & -> & _)%upto_nat Hy k. apply Hk; [lia|done].
    + intros file [] u [] u' (j & n & Hj & ->)%gentxs_in Hu E.
      apply (copy_has_gentx ns) in E as [Hnew Hold]; [|done|done|lia|done|by apply Hu; [lia|]].
      split_and!.
      * intros i' k Hi' H'. by apply Hold, Hu.
      * intros k m Hm Eq. apply gentx_path_inj in Eq as [Eq _]; [|lia|lia|by eapply Hids..].
        by assert (k = j) as -> by lia.
      * intros file' _ Hf k m Hm Eq. apply Hold; [lia|]. by eapply Hf.
Qed.

Definition final_config (peers : bytes) (k : nat) : NodeConfig NodeRest := {|
  RootDir := nodeDir args (Z.of_nat k); Moniker := nodeDirName args (Z.of_nat k);
  RPC_ListenAddress := str "tcp://127.0.0.1:" ++ port_of args (Z.of_nat k);
  P2P_PersistentPeers := peers; P2P_AllowDuplicateIP := true;
  P2P_ListenAddress := str "tcp://0.0.0.0:" ++ Itoa (26656 - 3 * Z.of_nat k);
  ProxyApp := str "tcp://127.0.0.1:" ++ Itoa (26658 - 3 * Z.of_nat k);
  PrometheusListenAddr := str ":" ++ Itoa (26660 + Z.of_nat k); Prometheus := true;
  NodeConfig_Rest := rest |}.

Lemma only_node i a b s s' :
  (0 ≤ i)%Z → a ≠ [] → b ≠ [] → Forall plain a → Forall plain b →
  only [Join (nodeDir args i :: a); Join (nodeDir args i :: b)] s s' →
  frame (λ j names, j = i ∧ (names = a ∨ names = b)) s s'.
Proof.
  intros Hi Ha Hb Pa Pb Ho j names Hj Hn Hne. apply Ho. rewrite !list.Forall_cons, !Abs_node by done.
  split_and!; [..|constructor]; intros [= E].
  - assert (at_node i a = at_node j names) as [-> ->]%at_node_inj by (unfold at_node, abs_path; cbn; congruence);
      auto.
  - assert (at_node i b = at_node j names) as [-> ->]%at_node_inj by (unfold at_node, abs_path; cbn; congruence);
      auto.
Qed.

(** The files of a node whose configuration and genesis file are written last. *)
Definition collected (chain peers : bytes) (genTime : Time) (k : nat) (st : slice byte) t : Prop :=
  node_file t (Z.of_nat k) node_conf = Some (config_toml (final_config peers k)) ∧
  node_file t (Z.of_nat k) gen = Some (exported_json chain st genTime).

Lemma collect_node_Ok ns peers genTime k n cfg st cfg' st' t t' :
  ns !! k = Some n → NodeConfig_Rest cfg = rest →
  collect_node (map node_id ns) (map node_key ns) peers args genTime (cfg, st) (Z.of_nat k) t =
    (Ok (cfg', st'), t') →
  NodeConfig_Rest cfg' = rest ∧ st' ≠ NilSlice ∧ (st ≠ NilSlice → st' = st) ∧
  collected (chainID args) peers genTime k st' t' ∧
  frame (λ j names, j = Z.of_nat k ∧ (names = gen ∨ names = node_conf)) t t' ∧
  (st = NilSlice → ∃ config g u u', RootDir config = nodeDir args (Z.of_nat k) ∧
     node_file t (Z.of_nat k) gen ≫= parse_genesis = Some g ∧ unchanged t u ∧
     GenAppStateFromConfig config (chainID args) (Join (nodeDir args (Z.of_nat k) :: gentx_dir))
       (node_id n) (node_key n) g u = (Ok st', u')).
Proof.
  intros Hn Hrest. pose proof fixed_plain as Hp. rewrite !list.Forall_cons in Hp.
  destruct Hp as (_ & _ & Pn & Pg & _ & _). assert (0 ≤ Z.of_nat k)%Z as Hi by lia.
  unfold collect_node. change (@map) with (λ A B, fmap (M := list) (A := A) (B := B)). cbv beta.
  rewrite Nat2Z.id, !list_lookup_fmap, Hn. cbn [fmap option_fmap option_map].
  rewrite !genesis_path by exact Hrest. cbn [set_network set_node RootDir].
  change [nodeDir args (Z.of_nat k); str "config"; str "genesis.json"] with (nodeDir args (Z.of_nat k) :: gen).
  change [nodeDir args (Z.of_nat k); str "config"; str "config.toml"] with (nodeDir args (Z.of_nat k) :: node_conf).
  change [nodeDir args (Z.of_nat k); str "config"; str "gentx"] with (nodeDir args (Z.of_nat k) :: gentx_dir).
  intros E. run E. apply ret_Ok in E as [[= <- <-] <-]. destruct x1, x2.
  apply AppGenesisFromFile_files in H as [Hu Hg]. rewrite content_node in Hg by done.
  pose proof (GenAppStateFromConfig_files _ _ _ _ _ _ _ _ _ H0) as [Hnil Ho].
  rewrite genesis_path in Ho by exact Hrest. cbn [set_node RootDir] in Ho.
  apply only_node in Ho; [|done..].
  apply WriteNodeConfigFile_files, writes_node in H1 as [Hc Hfc]; [|done..].
  apply ExportGenesisFileWithTime_files, writes_node in H2 as [He Hfe]; [|done..].
  split_and!; try done.
  - by destruct st.
  - by destruct st.
  - split; [|exact He]. rewrite Hfe by (done || by intros [_ ?]). rewrite Hc. unfold final_config. rewrite <-Hrest. reflexivity.
  - apply frame_trans with t0; [by apply unchanged_node|]. apply frame_trans with t1; [exact Ho|].
    apply frame_trans with t2; (eapply frame_mono; [|eassumption]); intros ?? []; auto.
  - intros ->. eexists _, x, t0, t1. split_and!; [|exact Hg|exact Hu|exact H0]. done.
Qed.

Lemma collectGenFiles_Ok ns peers genTime cfg s s' :
  length ns = Z.to_nat (numValidators args) → NodeConfig_Rest cfg = rest →
  collectGenFiles cfg (map node_id ns) (map node_key ns) peers args genTime s = (Ok tt, s') →
  frame (λ _ names, names = gen ∨ names = node_conf) s s' ∧
  ∃ st, (∀ k, k < length ns → collected (chainID args) peers genTime k st s') ∧
    ∀ n, ns !! 0 = Some n → ∃ config g u u', RootDir config = nodeDir args 0 ∧
      node_file s 0 gen ≫= parse_genesis = Some g ∧ unchanged s u ∧
      GenAppStateFromConfig config (chainID args) (Join (nodeDir args 0 :: gentx_dir))
        (node_id n) (node_key n) g u = (Ok st, u').
Proof.
  intros Hlen Hrest. unfold collectGenFiles, upto. rewrite <-Hlen. intros E. run E.
  apply ret_Ok in E as [_ <-]. clear Hlen. destruct (length ns) as [|c] eqn:Elen.
  { apply ret_Ok in H as [_ <-]. split; [done|]. exists NilSlice. split; [lia|].
    intros n Hn%lookup_lt_Some. lia. }
  destruct (lookup_lt_is_Some_2 ns 0) as [n0 Hn0]; [lia|]. cbn [seq map foldM] in H. apply bind_Ok in H as ([cfg1 st] & s1 & H0 & H).
  apply (collect_node_Ok ns peers genTime 0 n0) in H0 as (Hr & Hnil & _ & Hc & Hf & Ho);
    [|done..].
  set (P := λ (_ : Z) names, names = gen ∨ names = node_conf).
  set (G := λ i (_ : NodeConfig NodeRest * slice byte) t', ∀ k, i = Z.of_nat k →
              collected (chainID args) peers genTime k st t').
  apply (foldM_each _ (λ a t', NodeConfig_Rest a.1 = rest ∧ a.2 = st ∧ frame P s t') G
    (map Z.of_nat (seq 0 (S c)))) in H as ((_ & _ & Hframe) & Hall & Hold).
  - split; [done|]. exists st. split; [|by intros n Hn; rewrite Hn0 in Hn; injection Hn as <-; apply Ho]. intros k Hk.
    destruct k as [|k].
    + apply (Hold 0%Z); [left|by intros k ?; by assert (k = 0) as -> by lia|done].
    + apply (Hall (Z.of_nat (S k))); [|done]. apply (list_elem_of_fmap_2 Z.of_nat), elem_of_seq. lia.
  - clear H Hc Ho. intros i [a a'] u [b b'] u' Hi (Ha & Hst0 & Hu) E. cbn in Ha, Hst0. subst a'.
    apply (list_elem_of_fmap Z.of_nat) in Hi as (k & -> & Hk%elem_of_seq).
    destruct (lookup_lt_is_Some_2 ns k) as [n Hn]; [lia|].
    destruct (collect_node_Ok ns peers genTime k n a st b b' u u' Hn Ha E)
      as (Hb & _ & Hst & Hcol & Hfk & _).
    cbn. pose proof (Hst Hnil) as ->. split_and!; [done|done| | |].
    + eapply frame_trans; [exact Hu|]. eapply frame_mono; [|exact Hfk]. by intros ?? [].
    + by intros k' ->%Nat2Z.inj.
    + intros y _ Hy k' ->. destruct (decide (k' = k)) as [->|Hne]; [done|].
      pose proof fixed_plain as Hp. rewrite !list.Forall_cons in Hp.
      destruct Hp as (_ & _ & Pn & Pg & _ & _). destruct (Hy k' eq_refl) as [H1 H2].
      split; rewrite Hfk; try done; try lia; intros [? _]; lia.
  - intros y Hy. by right.
  - cbn. split_and!; [done|done|]. eapply frame_mono; [|exact Hf]. by intros ?? [].
Qed.

(** The side conditions of a frame: another file of the node. *)
Ltac other := first [done|lia|by intros [? [=]]|by intros [[=]|[=]]].

(** The two halves of the command, on the nodes the first one makes. *)
Lemma run_Ok mbm genTime nodeConfig s p s1 s' :
  (0 ≤ numValidators args)%Z → NodeConfig_Rest nodeConfig = rest →
  foldM (init_node args) (upto (numValidators args)) (no_progress args nodeConfig) s = (Ok p, s1) →
  assemble_genesis mbm genTime args p s1 = (Ok tt, s') →
  ∃ ns st, length ns = Z.to_nat (numValidators args) ∧
    (∀ k n, ns !! k = Some n → node_made args k n ∧
       node_files args rest (map node_id ns) (exported_json (chainID args) st genTime) k n s') ∧
    (NoDup (map node_id ns) →
       (∀ i n, (0 ≤ i < numValidators args)%Z → n ∈ ns →
          content s' (gentx_path args i (node_id n)) = Some (node_tx n)) ∧
       (ns ≠ [] → canonical_state args mbm ns st)).
Proof.
  intros Hnum Hrest Hloop. unfold assemble_genesis. intros E. run E. apply ret_Ok in E as [_ <-].
  destruct x, x0, x1.
  apply (init_nodes_Ok _ []) in Hloop as (ns & Hlen & Ht & Hm); [|split; try done|by intros ??].
  cbn [length Nat.add] in Hlen. destruct Ht as [Hr _ Hids Hkeys Hacc Hbal Hfiles Hpeers Hgentxs].
  assert (∀ k n, ns !! k = Some n → slash ∉ node_id n) as Hfree by (intros k n Hk; apply (Hm k n Hk)).
  rewrite Hfiles, Hacc, Hbal in H. apply initGenFiles_Ok in H as (js & Hjs & Fg & Hg); [|done].
  rewrite Hgentxs in H0. apply copy_gentxs_Ok in H0 as [Fc Hc]; [|done].
  rewrite Hids, Hkeys in H1. apply collectGenFiles_Ok in H1 as (Fe & st & Hcol & Hfirst); [|done..].
  exists ns, st. split; [done|]. pose proof fixed_plain as Hp. rewrite !list.Forall_cons in Hp.
  destruct Hp as (Ps & Pa & Pn & Pg & _).
  assert (∀ k, has_gentx ns t (Z.of_nat k) k) as Hown.
  { intros k n Hk. destruct (Hm k n Hk) as (Hid & _ & _ & _ & H). pose proof (gentx_plain _ Hid).
    by rewrite Fg by other. }
  split.
  - intros k n Hk. destruct (Hm k n Hk) as (Hid & Hmade & H1 & H2 & _). split; [done|].
    pose proof (lookup_lt_Some _ _ _ Hk) as Hlt. destruct (Hcol k Hlt) as [H3 H4].
    rewrite Hpeers in H3.
    split; rewrite content_node by (done || lia).
    + rewrite Fe, Fc, Fg by other. exact H1.
    + rewrite Fe, Fc, Fg by other. exact H2.
    + exact H3.
    + exact H4.
  - intros Hnd. specialize (Hc Hnd Hown). split.
    + intros i n Hi [k Hk]%list_elem_of_lookup. pose proof (gentx_plain _ (Hfree _ _ Hk)).
      unfold gentx_path. fold (gentx (node_id n)). rewrite content_node by (done || lia).
      rewrite Fe by other. exact (Hc i k Hi n Hk).
    + intros Hne. destruct ns as [|n0 ns0] eqn:Ens; [done|]. rewrite <-Ens in *.
      destruct (Hfirst n0) as (config & g & u & u' & Hd & Hparse & Hu & Hgen); [by rewrite Ens|].
      exists config, n0, js, g, u, u'. split_and!; try done; [by rewrite Ens| |].
      * rewrite Fc in Hparse by other.
        change 0%Z with (Z.of_nat 0) in Hparse.
        rewrite Hg in Hparse by (rewrite Ens; cbn; lia). exact Hparse.
      * apply list.Forall_forall. intros n [k Hk]%list_elem_of_lookup.
        pose proof (gentx_plain _ (Hfree _ _ Hk)). unfold gentx_path. fold (gentx (node_id n)).
        rewrite content_node by (done || lia). unfold node_file. rewrite Hu.
        apply (Hc 0%Z k); [|done]. apply lookup_lt_Some in Hk. lia.
Qed.
End Nodes.

(** ** Theorems *)

Section Theorems.
Context {F BM : Type} `{!OS F, !TestnetLib F BM, !FileView F, !LibView F BM, !OSLaws F, !LibLaws F BM}.
Variables (Intn : nat → nat → nat) (genTime : Time) (nodeConfig : NodeConfig NodeRest) (mbm : BM).

(** The working directory is known when the testnet's directory is relative to
    it, a node's directory is one level below the testnet's, and the server's
    configuration has the genesis file where the default one has it. *)
Definition placed (args : initArgs) : Prop :=
  (IsAbs (outputDir args) = false → ∃ d, Getwd = Ok d ∧ IsAbs d = true) ∧
  (slash ∉ nodeDirPrefix args) ∧
  ∀ c, NodeConfig_Rest c = NodeConfig_Rest nodeConfig →
    GenesisFile c = Join [RootDir c; str "config"; str "genesis.json"].

Lemma testnet_args_fields args :
  outputDir (testnet_args Intn args) = outputDir args ∧
  nodeDirPrefix (testnet_args Intn args) = nodeDirPrefix args ∧
  numValidators (testnet_args Intn args) = numValidators args.
Proof. unfold testnet_args. by case_decide. Qed.

Lemma initTestnetFiles_Ok args0 (s s' : F) :
  let args := testnet_args Intn args0 in
  placed args0 → initTestnetFiles Intn genTime nodeConfig mbm args0 s = (Ok tt, s') →
  ∃ ns st, length ns = Z.to_nat (numValidators args) ∧
    (∀ k n, ns !! k = Some n → node_made args k n ∧
       node_files args (NodeConfig_Rest nodeConfig) (map node_id ns)
         (exported_json (chainID args) st genTime) k n s') ∧
    (NoDup (map node_id ns) →
       (∀ i n, (0 ≤ i < numValidators args)%Z → n ∈ ns →
          content s' (gentx_path args i (node_id n)) = Some (node_tx n)) ∧
       (ns ≠ [] → canonical_state args mbm ns st)).
Proof.
  intros args (Hwd & Hprefix & Hgen) E. destruct (testnet_args_fields args0) as (Eo & Ep & _).
  fold args in Eo, Ep. rewrite <-Ep in Hprefix. rewrite <-Eo in Hwd.
  destruct (Abs_names (outputDir args) Getwd Hwd) as (base & Hbase & Habs).
  unfold initTestnetFiles in E. fold args in E.
  destruct (Z.ltb_spec (numValidators args) 0); [discriminate|].
  apply bind_Ok in E as (p & s1 & Hloop & E).
  by apply (run_Ok args base Hbase Habs Hprefix (NodeConfig_Rest nodeConfig) Hgen mbm genTime nodeConfig s p s1).
Qed.


(** C26. The genesis transactions are collected: after a successful run whose nodes
    have different identifiers, every validator's directory holds the signed
    transaction of every validator, and every validator's genesis file holds the
    one state computed, with all of these transactions in place, from the genesis
    of all accounts, their balances and the supply these add up to. *)
Theorem gentxs_collected args0 (s s' : F) :
  let args := testnet_args Intn args0 in
  placed args0 → initTestnetFiles Intn genTime nodeConfig mbm args0 s = (Ok tt, s') →
  ∃ (ns : list Node) (st : slice byte), length ns = Z.to_nat (numValidators args0) ∧
    (∀ k n, ns !! k = Some n → node_made args k n) ∧
    (NoDup (map node_id ns) → ∀ i n, (0 ≤ i < numValidators args0)%Z → n ∈ ns →
       content s' (gentx_path args i (node_id n)) = Some (node_tx n) ∧
       content s' (Join [nodeDir args i; str "config"; str "genesis.json"]) =
         Some (exported_json (chainID args) st genTime) ∧
       canonical_state args mbm ns st).
Proof.
  cbv zeta. intros Hp E. destruct (testnet_args_fields args0) as (_ & _ & En). rewrite <-En.
  destruct (initTestnetFiles_Ok args0 s s' Hp E) as (ns & st & Hlen & Hns & Hg).
  exists ns, st. split; [done|]. split; [by intros k n [? _]%Hns|].
  intros Hnd i n Hi Hn. destruct (Hg Hnd) as [Htx Hst]. split_and!; [by apply Htx| |].
  - destruct (lookup_lt_is_Some_2 ns (Z.to_nat i)) as [m Hm]; [lia|].
    destruct (Hns _ _ Hm) as [_ Hf]. apply genesis_file in Hf. by rewrite Z2Nat.id in Hf by lia.
  - apply Hst. by intros ->; apply elem_of_nil in Hn.
Qed.
End Theorems.

(** ** On the files in memory *)

Module ToyTestnetFiles.
Import ToyTestnet.

#[export] Instance toy_view : FileView files := λ s p, s !! p.

#[export] Instance toy_lib_view : LibView files unit := {|
  app_toml := toy_app_toml : SrvConfig (SrvRest (F := files)) → bytes;
  config_toml := toy_config_toml : NodeConfig (NodeRest (F := files)) → bytes;
  genesis_json := toy_genesis; exported_json := toy_exported;
  parse_genesis := Some; keyring_dir := id
|}.

Lemma put_writes p c s s' : put p c s = (Ok tt, s') → writes p c s s'.
Proof.
  unfold put. rewrite bind_Ok. intros (a & t & [Ha ->]%lift_Ok & [= <-]) b Hb q.
  cbn in Hb. assert (b = a) as -> by congruence. unfold file_at, toy_view.
  case_decide as E; [subst q; apply lookup_insert_eq|by apply lookup_insert_ne].
Qed.

Lemma get_content p s c s' : get p s = (Ok c, s') → unchanged s s' ∧ content s p = Some c.
Proof.
  unfold get, content. change (Getwd (F := files)) with home. intros E.
  destruct (Abs home p) as [a| |]; [|done..]. unfold file_at, toy_view.
  destruct (s !! a); [|done]. by injection E as -> ->.
Qed.

#[export] Instance toy_os_laws : OSLaws files.
Proof.
  split; cbn.
  - by intros p s s' [= <-].
  - intros p c s s'. apply put_writes.
  - intros p s c s'. apply get_content.
  - intros p s s'. apply put_writes.
  - intros p c s n s'. rewrite bind_Ok. intros ([] & t & H & [_ <-]%ret_Ok). by apply put_writes.
  - by intros p s s' [= <-].
Qed.

#[export] Instance toy_lib_laws : LibLaws files unit.
Proof.
  split; cbn.
  - intros c s id pk s' [= <- <- <-]. split; [by intros ??|]. intros Hin%list_elem_of_filter. by destruct Hin.
  - by intros b dir s kb s' [= <- <-].
  - by intros kb name alg s key s' [= _ <-].
  - by intros chain memo kb name b s b' s' [= _ <-].
  - intros p c s s'. apply put_writes.
  - intros p c s s'. apply put_writes.
  - intros d p s s'. apply put_writes.
  - intros p s g s' [Hu Hc]%get_content. split; [done|]. by rewrite Hc.
  - by intros c chain dir id pk g s st s' [= <- <-].
  - intros p id st t s s'. apply put_writes.
Qed.

(** Three validators in [./.testnets]. *)
Definition first_index (i n : nat) : nat := i mod n.
Definition now : Time (F := files) := tt.
Definition run0 : outcome unit * files := initTestnetFiles first_index now config0 tt args0 ∅.

Lemma run0_Ok : initTestnetFiles first_index now config0 tt args0 ∅ = (Ok tt, run0.2).
Proof.
  fold run0.
  destruct run0 as [[[]|e|v] s] eqn:E; [done|exfalso..];
    apply (f_equal (λ r, is_Ok r.1)) in E; vm_compute in E; discriminate.
Qed.

Lemma args0_placed : placed config0 args0.
Proof.
  split_and!; [|apply (bool_decide_eq_true_1 _); vm_compute; reflexivity|done].
  intros _. exists (str "/home/op"). by split; [|apply (bool_decide_eq_true_1 _)].
Qed.

(** What the helpers make in memory. *)
Lemma toy_made args k n :
  node_made (F := files) (BM := unit) args k n →
  node_id n = filter (λ b, b ≠ slash) (nodeDirName args (Z.of_nat k)) ∧
  node_tx n = nodeDirName args (Z.of_nat k) ++ node_memo args k (node_id n).
Proof.
  intros (config & kb & alg & msg & b & b' & t0 & t0' & t1 & t1' & t2 & t2' &
    _ & Hm & H0 & _ & _ & H1 & H2 & H3 & H4 & H5). cbn in H0, H1, H2, H3, H4, H5.
  unfold mret, gom_ret in H0, H1, H4. injection H0 as Hid _ _. injection H1 as Ha _ _.
  injection H2 as <-. injection H3 as <-. injection H4 as <- _. injection H5 as <-.
  rewrite <-Hid, <-Ha. split; [exact (f_equal (filter (λ b, b ≠ slash)) Hm)|done].
Qed.


Lemma gentxs_collected_witness :
  content run0.2 (str ".testnets/node2/config/gentx/gentx-node0.json") =
    Some (str "node0node0@localhost:26656").
Proof.
  destruct (gentxs_collected first_index now config0 tt args0 ∅ run0.2 args0_placed run0_Ok)
    as (ns & st & Hlen & Hmade & Hall).
  revert Hall. generalize (run0.2) as s. intros s Hall. change (Z.to_nat _) with 3 in Hlen.
  destruct ns as [|a [|b [|c [|d ns]]]]; try discriminate.
  destruct (toy_made _ 0 a (Hmade 0 a eq_refl)) as [Ia Ta].
  destruct (toy_made _ 1 b (Hmade 1 b eq_refl)) as [Ib _].
  destruct (toy_made _ 2 c (Hmade 2 c eq_refl)) as [Ic _].
  destruct (Hall ltac:(cbn [map]; rewrite Ia, Ib, Ic;
    apply (bool_decide_eq_true_1 _); vm_compute; reflexivity) 2%Z a
    ltac:(vm_compute; split; congruence) (list_elem_of_here a _)) as [H _].
  rewrite Ta, Ia in H.
  refine (eq_trans (eq_trans (f_equal (content s) _) H) _); vm_compute; reflexivity.
Defined.
End ToyTestnetFiles.
