(* ===== verification/TestnetCmd.v ===== *)
(** [cmd/exampled/cmd/testnet_multi_node.go], [NewTestnetMultiNodeCmd]: the
    command with its flags, and how running it reads them. *)
From S2P Require Import Prelude Cobra.
From stdpp Require Import list_relations.
From S2P Require Import Json Path Testnet.

#[local] Open Scope go_scope.

(** The SDK's names of the flags it shares, and its default key type. *)
Class SharedFlags := {
  FlagKeyringBackend : bytes; FlagChainID : bytes; FlagMinGasPrices : bytes; FlagKeyType : bytes;
  Secp256k1Type : bytes
}.

Definition flagNodeDirPrefix : bytes := str "node-dir-prefix".
Definition flagPorts : bytes := str "list-ports".
Definition flagNumValidators : bytes := str "v".
Definition flagOutputDir : bytes := str "output-dir".
Definition flagValidatorsStakeAmount : bytes := str "validators-stake-amount".
Definition flagStartingIPAddress : bytes := str "starting-ip-address".

Definition multi_node_Long : bytes :=
  str "multi-node will setup " ++ quoted (str "v") ++
  str " number of directories and populate each with
necessary files (private validator, genesis, config, etc.) for running " ++ quoted (str "v") ++
  str " validator nodes.

Booting up a network with these validator folders is intended to be used with Docker Compose,
or a similar setup where each node has a manually configurable IP address.

Note, strict routability for addresses is turned off in the config file.

Example:
	exampled multi-node --v 4 --output-dir ./.testnets --validators-stake-amount 1000000,200000,300000,400000 --list-ports 47222,50434,52851,44210
	".

Section Command.
Context {F BM : Type} `{!OS F, !TestnetLib F BM, !Pflag, !SharedFlags}
  (Intn : nat → nat → nat) (genTime : Time)
  (** what the contexts stored in the command hold: [client.GetClientQueryContext],
      and the configuration of [server.GetServerContextFromCmd] *)
  (GetClientQueryContext : FlagSet → GoM F unit) (ServerConfig : FlagSet → NodeConfig NodeRest).

(** A flag that cannot be read has no value. *)
Definition read_flags (fs : FlagSet) : Flags := {|
  flag_outputDir := ok_value (GetString fs flagOutputDir);
  flag_keyringBackend := ok_value (GetString fs FlagKeyringBackend);
  flag_chainID := ok_value (GetString fs FlagChainID);
  flag_minGasPrices := ok_value (GetString fs FlagMinGasPrices);
  flag_nodeDirPrefix := ok_value (GetString fs flagNodeDirPrefix);
  flag_startingIPAddress := ok_value (GetString fs flagStartingIPAddress);
  flag_numValidators := ok_value (GetInt fs flagNumValidators);
  flag_algo := ok_value (GetString fs FlagKeyType);
  flag_stakes := ok_value (GetString fs flagValidatorsStakeAmount);
  flag_ports := ok_value (GetString fs flagPorts)
|}.

Definition NewTestnetMultiNodeCmd_RunE (mbm : BM) (cmd : FlagSet) : GoM F unit :=
  let? _ := GetClientQueryContext cmd else err => fail err in
  args ← lift (parse_args (read_flags cmd));
  initTestnetFiles Intn genTime (ServerConfig cmd) mbm args.

(** [SetNormalizeFunc]'s argument: the old name of the key type's flag. *)
Definition normalize_algo (name : bytes) : bytes :=
  if decide (name = str "algo") then FlagKeyType else name.

Definition addTestnetFlagsToCmd (fs : FlagSet) : outcome FlagSet :=
  fs ← Flags_Int flagNumValidators 4 (str "Number of validators to initialize the testnet with") fs;
  fs ← Flags_StringP flagOutputDir (str "o") (str "./.testnets")
    (str "Directory to store initialization data for the testnet") fs;
  fs ← Flags_String FlagChainID []
    (str "genesis file chain-id, if left blank will be randomly created") fs;
  fs ← Flags_String FlagMinGasPrices (str "0.0001" ++ BondDenom)
    (str "Minimum gas prices to accept for transactions; All fees in a tx must meet this minimum (e.g. 0.01photino,0.001stake)") fs;
  fs ← Flags_String FlagKeyType Secp256k1Type
    (str "Key signing algorithm to generate keys for") fs;
  SetNormalizeFunc normalize_algo fs.

(** The command before and after its flags are added. *)
Definition multi_node_spec (mbm : BM) (fs : FlagSet) : CommandSpec F := {|
  Use := str "multi-node"; Aliases := [];
  Short := str "Initialize config directories & files for a multi-validator testnet running locally via separate processes (e.g. Docker Compose or similar)";
  Long := multi_node_Long; DisableFlagParsing := false; SuggestionsMinimumDistance := 0;
  SilenceErrors := false; Cobra.Flags := fs; RunE := Some (NewTestnetMultiNodeCmd_RunE mbm);
  PersistentPreRunE := None
|}.

Definition NewTestnetMultiNodeCmd (mbm : BM) : outcome (CommandSpec F) :=
  fs ← addTestnetFlagsToCmd NewFlagSet;
  fs ← Flags_String flagPorts [] (str "Ports of nodes (default 26657,26654,26651,26648.. )") fs;
  fs ← Flags_String flagNodeDirPrefix (str "validator")
    (str "Prefix the directory name for each node with (node results in node0, node1, ...)") fs;
  fs ← Flags_String flagValidatorsStakeAmount (str "100000000,100000000,100000000,100000000")
    (str "Amount of stake for each validator") fs;
  fs ← Flags_String flagStartingIPAddress (str "localhost")
    (str "Starting IP address (192.168.0.1 results in persistent peers list ID0@192.168.0.1:46656, ID1@192.168.0.2:46656, ...)") fs;
  fs ← Flags_String FlagKeyringBackend (str "test")
    (str "Select keyring's backend (os|file|test)") fs;
  Ok (multi_node_spec mbm fs).

End Command.

(** ** The flags the command declares *)

Section Declared.
Context {F BM : Type} `{!OS F, !TestnetLib F BM, !Pflag, !PflagView, !PflagLaws, !SharedFlags}
  (Intn : nat → nat → nat) (genTime : Time)
  (GetClientQueryContext : FlagSet → GoM F unit) (ServerConfig : FlagSet → NodeConfig NodeRest).

Lemma bind_assoc {A B C} (m : outcome A) (f : A → outcome B) (g : B → outcome C) :
  (m ≫= f) ≫= g = m ≫= (λ x, f x ≫= g).
Proof. by destruct m. Qed.

(** The flags, the last one first, with their defaults. *)
Definition declared : list (bytes * FlagValue) :=
  [(FlagKeyringBackend, FlagString (str "test"));
   (flagStartingIPAddress, FlagString (str "localhost"));
   (flagValidatorsStakeAmount, FlagString (str "100000000,100000000,100000000,100000000"));
   (flagNodeDirPrefix, FlagString (str "validator")); (flagPorts, FlagString []);
   (FlagKeyType, FlagString Secp256k1Type);
   (FlagMinGasPrices, FlagString (str "0.0001" ++ BondDenom)); (FlagChainID, FlagString []);
   (flagOutputDir, FlagString (str "./.testnets")); (flagNumValidators, FlagInt 4)].

(** The names are different, and none is the old name of the key type's flag. *)
Definition names_ok : Prop := NoDup (str "algo" :: declared.*1).

Lemma normalize_other name : name ≠ str "algo" → normalize_algo name = name.
Proof. intros Hn. unfold normalize_algo. by rewrite decide_False. Qed.

(** One more flag of [names_ok] in the set that [Hh] describes. *)
Ltac declare P Hh :=
  apply (holds_add P _ _ _ _ _ _ _ _ _ Hh);
  [assumption|assumption || reflexivity|first [by left|right; split; [reflexivity|by apply not_elem_of_nil]]|];
  clear Hh; cbn [decide]; intros ? Hh.

Ltac listed := unfold declared; repeat first [by apply list_elem_of_here|apply list_elem_of_further].

Definition declares (mbm : BM) (r : outcome (CommandSpec F)) : Prop :=
  ∃ spec, r = Ok spec ∧ holds (Cobra.Flags spec) declared normalize_algo [str "o"] ∧
    RunE spec = Some (NewTestnetMultiNodeCmd_RunE Intn genTime GetClientQueryContext ServerConfig mbm).

Lemma NewTestnetMultiNodeCmd_declares mbm :
  names_ok →
  declares mbm (NewTestnetMultiNodeCmd Intn genTime GetClientQueryContext ServerConfig mbm).
Proof.
  intros [Ha Hd]%NoDup_cons.
  assert (Forall (λ n, normalize_algo n = n) declared.*1) as Hnorm.
  { apply list.Forall_forall. intros n Hn. apply normalize_other. congruence. }
  cbn [declared fmap list_fmap fst] in Hd, Hnorm.
  repeat (apply NoDup_cons in Hd as [? Hd]). repeat (apply list.Forall_cons in Hnorm as [? Hnorm]).
  unfold NewTestnetMultiNodeCmd, addTestnetFlagsToCmd, Flags_Int, Flags_StringP, Flags_String.
  set (P := declares mbm).
  pose proof holds_new as Hh.
  do 5 (rewrite bind_assoc; declare P Hh).
  apply (holds_normalize P _ _ _ _ _ _ Hh); [repeat (constructor; [assumption|]); constructor|].
  clear Hh. intros fs Hh.
  do 5 declare P Hh.
  eexists. split; [reflexivity|]. by split.
Qed.

(** Running the command with no arguments: four validators with 100000000 of the
    bond denomination each, ports 26657 and down by three, in [./.testnets], with
    the SDK's key type, which also answers to its old name. *)
Theorem multi_node_defaults mbm :
  names_ok → NewIntFromString (str "100000000") = Some 100000000%Z →
  ∃ spec args, NewTestnetMultiNodeCmd Intn genTime GetClientQueryContext ServerConfig mbm = Ok spec ∧
    parse_args (read_flags (Cobra.Flags spec)) = Ok args ∧
    GetString (Cobra.Flags spec) (str "algo") = Ok (algo args) ∧
    algo args = Secp256k1Type ∧ chainID args = [] ∧ outputDir args = str "./.testnets" ∧
    keyringBackend args = str "test" ∧ nodeDirPrefix args = str "validator" ∧
    startingIPAddress args = str "localhost" ∧ numValidators args = 4%Z ∧
    ∀ i, (0 ≤ i < 4)%Z →
      validatorsStakesAmount args !! i = Some {| Denom := BondDenom; Amount := 100000000 |} ∧
      port_of args i = Itoa (26657 - 3 * i).
Proof.
  intros Hn Hi. destruct (NewTestnetMultiNodeCmd_declares mbm Hn) as (spec & E & Hh & _).
  pose proof Hn as [Ha Hd]%NoDup_cons.
  assert (∀ n, n ∈ declared.*1 → normalize_algo n = n) as Hnorm
    by (intros n Hin; apply normalize_other; congruence).
  assert (∀ n s, (n, FlagString s) ∈ declared → GetString (Cobra.Flags spec) n = Ok s) as Hs.
  { intros n s Hin. apply (holds_GetString _ _ _ _ _ _ Hh Hd). rewrite Hnorm; [done|].
    apply list_elem_of_fmap. by exists (n, FlagString s). }
  assert (GetInt (Cobra.Flags spec) flagNumValidators = Ok 4%Z) as Hv.
  { apply (holds_GetInt _ _ _ _ _ _ Hh Hd). rewrite Hnorm; listed. }
  assert (GetString (Cobra.Flags spec) (str "algo") = Ok Secp256k1Type) as Halgo.
  { apply (holds_GetString _ _ _ _ _ _ Hh Hd). unfold normalize_algo. rewrite decide_True by done. listed. }
  set (fs := Cobra.Flags spec) in *.
  assert (read_flags fs = {| flag_outputDir := Some (str "./.testnets");
    flag_keyringBackend := Some (str "test"); flag_chainID := Some [];
    flag_minGasPrices := Some (str "0.0001" ++ BondDenom); flag_nodeDirPrefix := Some (str "validator");
    flag_startingIPAddress := Some (str "localhost"); flag_numValidators := Some 4%Z;
    flag_algo := Some Secp256k1Type;
    flag_stakes := Some (str "100000000,100000000,100000000,100000000"); flag_ports := Some [] |}) as Er.
  { unfold read_flags. rewrite Hv. f_equal; apply ok_value_Some, Hs; listed. }
  destruct (parse_args_Ok (read_flags fs) (str "100000000,100000000,100000000,100000000") [])
    as [Hok _]; [by rewrite Er..|].
  change (Split ","%byte (str "100000000,100000000,100000000,100000000"))
    with (replicate 4 (str "100000000")) in Hok.
  cbn [omap list_omap replicate] in Hok. rewrite !Hi in Hok.
  destruct Hok as (args & Ep & Htab); [by repeat constructor|].
  exists spec, args. fold fs. rewrite Halgo. split; [done|]. split; [done|].
  pose proof (parse_args_fields _ _ Ep) as Hf. rewrite Er in Hf.
  destruct Hf as (-> & -> & -> & -> & _ & -> & -> & En). do 8 (split; [done|]).
  intros i Hir. destruct (Htab i) as [-> ->]; [lia|]. rewrite En. split.
  - by assert (i = 0 ∨ i = 1 ∨ i = 2 ∨ i = 3)%Z as [->|[->|[->| ->]]] by lia.
  - rewrite decide_True by done. cbn. destruct (Z.ltb_spec i 4); [done|lia].
Qed.
End Declared.

(** The SDK's names, and the command on the flags of [ToyFlags]. *)
Module ToyTestnetCmd.
Import ToyTestnet ToyFlags.

#[export] Instance shared_flags : SharedFlags := {|
  FlagKeyringBackend := str "keyring-backend"; FlagChainID := str "chain-id";
  FlagMinGasPrices := str "minimum-gas-prices"; FlagKeyType := str "key-type";
  Secp256k1Type := str "secp256k1"
|}.

Lemma shared_names_ok : names_ok.
Proof. apply (bool_decide_eq_true_1 _). vm_compute. reflexivity. Qed.

Definition now : Time (F := files) := tt.
Definition first_index (i n : nat) : nat := i mod n.
Definition no_context (_ : FlagSet) : GoM files unit := mret tt.
Definition server_config (_ : FlagSet) : NodeConfig (NodeRest (F := files)) := config0.

Lemma multi_node_defaults_witness :
  ∃ spec args, NewTestnetMultiNodeCmd first_index now no_context server_config tt = Ok spec ∧
    parse_args (read_flags (Cobra.Flags spec)) = Ok args ∧ numValidators args = 4%Z ∧
    port_of args 3 = str "26648".
Proof.
  destruct (multi_node_defaults first_index now no_context server_config tt
    shared_names_ok eq_refl) as (spec & args & E & Ep & _ & _ & _ & _ & _ & _ & _ & Hn & Ht).
  exists spec, args. split; [exact E|]. split; [exact Ep|]. split; [exact Hn|].
  destruct (Ht 3%Z ltac:(lia)) as [_ ->]. vm_compute. reflexivity.
Defined.

End ToyTestnetCmd.
