(* ===== verification/InPlace.v ===== *)
(** [cmd/exampled/cmd/testnet.go]: the options of an in-place testnet and the
    state it starts from, the validators of a running chain replaced by one of
    the operator's own.  The keepers are the interface [InPlaceLib]. *)
From S2P Require Import Prelude.

#[local] Open Scope go_scope.

(** ** The in-place testnet's options *)

(** The values a configuration key can have, as far as the code tells them
    apart. *)
Inductive option_value :=
| OptNil
| OptHexBytes (b : bytes)
| OptPubKey (key : bytes)
| OptString (s : bytes)
| OptOther (v : bytes).

Record valArgs := {
  newValAddr : bytes; newOperatorAddress : bytes; newValPubKey : bytes;
  accountsToFund : list bytes; upgradeToTrigger : bytes; homeDir : bytes
}.

Record AppOptions := {
  KeyNewValAddr : option_value; KeyUserPubKey : option_value; KeyNewOpAddr : option_value;
  KeyTriggerTestnetUpgrade : option_value; FlagAccountsToFund : option_value;
  FlagHome : option_value
}.

(** [cast.ToString] *)
Class Cast := cast_ToString : option_value → bytes.

Definition getCommandArgs `{!Cast} (appOpts : AppOptions) : outcome valArgs :=
  match KeyNewValAddr appOpts with
  | OptHexBytes newValAddr =>
      match KeyUserPubKey appOpts with
      | OptPubKey newValPubKey =>
          match KeyNewOpAddr appOpts with
          | OptString newOperatorAddress =>
              match KeyTriggerTestnetUpgrade appOpts with
              | OptString upgradeToTrigger =>
                  let accountsString := cast_ToString (FlagAccountsToFund appOpts) in
                  let home := cast_ToString (FlagHome appOpts) in
                  if decide (home = []) then Err (ErrorString "invalid home dir")
                  else Ok {| newValAddr := newValAddr; newOperatorAddress := newOperatorAddress;
                             newValPubKey := newValPubKey;
                             accountsToFund := Split ","%byte accountsString;
                             upgradeToTrigger := upgradeToTrigger; homeDir := home |}
              | _ => Err (ErrorString "upgradeToTrigger is not of type string")
              end
          | _ => Err (ErrorString "newOperatorAddress is not of type string")
          end
      | _ => Err (ErrorString "newValPubKey is not of type crypto.PubKey")
      end
  | _ => Err (ErrorString "newValAddr is not of type bytes.HexBytes")
  end.

(** ** The in-place testnet's state *)

Record Coin := { Denom : bytes; Amount : Z }.

(** The validator the testnet runs with; amounts and rates as the code
    writes them. *)
Record NewValidator (Any : Type) := {
  NV_OperatorAddress : bytes; NV_ConsensusPubkey : Any; NV_Jailed : bool; NV_Bonded : bool;
  NV_Tokens : Z; NV_DelegatorShares : bytes; NV_Moniker : bytes; NV_Rate : bytes;
  NV_MaxRate : bytes; NV_MaxChangeRate : bytes; NV_MinSelfDelegation : Z
}.
Arguments NV_OperatorAddress {_} _.
Record SigningInfo := { SI_Address : bytes; SI_StartHeight : Z; SI_Tombstoned : bool }.

Class InPlaceLib (S : Type) := {
  Any_t : Type;
  NewAnyWithValue : bytes → outcome Any_t;
  Validator_StringToBytes : bytes → outcome bytes;
  Account_StringToBytes : bytes → outcome bytes;
  ConsAddress_String : bytes → bytes;
  (** the keys an iterator visits *)
  ValidatorsPowerStoreIterator : S → outcome (list bytes);
  LastValidatorsIterator : S → outcome (list bytes);
  Store_Iterator : bytes → bytes → S → list bytes;
  Store_Delete : bytes → GoM S unit;
  PrefixEndBytes : bytes → bytes;
  ValidatorsKey : bytes; ValidatorQueueKey : bytes; MintModule : bytes;
  SetValidator : NewValidator Any_t → GoM S unit;
  SetValidatorByConsAddr : NewValidator Any_t → GoM S unit;
  SetValidatorByPowerIndex : NewValidator Any_t → GoM S unit;
  SetLastValidatorPower : bytes → Z → GoM S unit;
  AfterValidatorCreated : bytes → GoM S unit;
  InitHistoricalRewards : bytes → Z → Z → GoM S unit;
  InitCurrentRewards : bytes → Z → GoM S unit;
  InitAccumulatedCommission : bytes → GoM S unit;
  InitOutstandingRewards : bytes → GoM S unit;
  LastBlockHeight : S → Z;
  SetValidatorSigningInfo : bytes → SigningInfo → GoM S unit;
  BondDenom_get : S → outcome bytes;
  MintCoins : bytes → Coin → GoM S unit;
  SendCoinsFromModuleToAccount : bytes → bytes → Coin → GoM S unit
}.

Definition valVotingPower : Z := 900000000000000.

(** [os.Exit(1)]: nothing after it runs. *)
Definition os_Exit : error := Sentinel "os" "Exit(1)".
Definition handleErr {S A} (m : GoM S A) : GoM S A := let? x := m else err => panic os_Exit in mret x.

Section InPlace.
Context {S : Type} `{!InPlaceLib S}.

Definition delete_all (keys : list bytes) : GoM S unit := foldM (λ _ k, Store_Delete k) keys tt.

Definition newValidator (args : valArgs) (pubkeyAny : Any_t) : NewValidator Any_t := {|
  NV_OperatorAddress := newOperatorAddress args; NV_ConsensusPubkey := pubkeyAny;
  NV_Jailed := false; NV_Bonded := true; NV_Tokens := valVotingPower;
  NV_DelegatorShares := str "10000000"; NV_Moniker := str "Testnet Validator";
  NV_Rate := str "0.05"; NV_MaxRate := str "0.1"; NV_MaxChangeRate := str "0.05";
  NV_MinSelfDelegation := 1 |}.

(** Every account gets freshly minted coins. *)
Definition fund (defaultCoins : Coin) (accountStr : bytes) : GoM S unit :=
  _ ← handleErr (MintCoins MintModule defaultCoins);
  account ← handleErr (lift (Account_StringToBytes accountStr));
  handleErr (SendCoinsFromModuleToAccount MintModule account defaultCoins).

(** The validators are replaced by the operator's own; the coins to fund accounts
    with come out. *)
Definition replace_validators (args : valArgs) : GoM S Coin :=
  pubkeyAny ← handleErr (lift (NewAnyWithValue (newValPubKey args)));
  let newVal := newValidator args pubkeyAny in
  validator ← handleErr (lift (Validator_StringToBytes (NV_OperatorAddress newVal)));
  keys ← handleErr (reads ValidatorsPowerStoreIterator);
  _ ← delete_all keys;
  keys ← handleErr (reads LastValidatorsIterator);
  _ ← delete_all keys;
  keys ← reads (λ s, Ok (Store_Iterator ValidatorsKey (PrefixEndBytes ValidatorsKey) s));
  _ ← delete_all keys;
  keys ← reads (λ s, Ok (Store_Iterator ValidatorQueueKey (PrefixEndBytes ValidatorQueueKey) s));
  _ ← delete_all keys;
  _ ← handleErr (SetValidator newVal);
  _ ← handleErr (SetValidatorByConsAddr newVal);
  _ ← handleErr (SetValidatorByPowerIndex newVal);
  _ ← handleErr (SetLastValidatorPower validator 0);
  _ ← handleErr (AfterValidatorCreated validator);
  _ ← handleErr (InitHistoricalRewards validator 0 1);
  _ ← handleErr (InitCurrentRewards validator 1);
  _ ← handleErr (InitAccumulatedCommission validator);
  _ ← handleErr (InitOutstandingRewards validator);
  height ← reads (λ s, Ok (LastBlockHeight s));
  let info := {| SI_Address := ConsAddress_String (newValAddr args);
                 SI_StartHeight := int64 (height - 1); SI_Tombstoned := false |} in
  _ ← (let? _ := SetValidatorSigningInfo (newValAddr args) info else err => mret tt in mret tt);
  bondDenom ← handleErr (reads BondDenom_get);
  mret {| Denom := bondDenom; Amount := 1000000000 |}.

Definition initAppForTestnet (args : valArgs) : GoM S unit :=
  defaultCoins ← replace_validators args;
  foldM (λ _ accountStr, fund defaultCoins accountStr) (accountsToFund args) tt.

(** [newTestnetApp], on the state of the application [newApp] opened. *)
Definition newTestnetApp `{!Cast} (appOpts : AppOptions) : GoM S unit :=
  let? args := lift (getCommandArgs appOpts) else err => panic err in
  initAppForTestnet args.

End InPlace.

(** ** Properties *)

Section InPlaceTheorems.
Context {S : Type} `{!InPlaceLib S, !Cast}.
Implicit Types s : S.

Lemma handleErr_Ok {A} (m : GoM S A) s x s' : handleErr m s = (Ok x, s') ↔ m s = (Ok x, s').
Proof.
  unfold handleErr. rewrite catch_Ok by done. setoid_rewrite ret_Ok. split; [|by eauto].
  by intros (? & ? & ? & -> & ->).
Qed.

(** The coins are of the bond denomination. *)
Lemma replace_validators_coins a s c t :
  replace_validators a s = (Ok c, t) →
  BondDenom_get t = Ok (Denom c) ∧ Amount c = 1000000000%Z.
Proof.
  unfold replace_validators. intros E.
  repeat (let Hx := fresh "Hx" in apply bind_Ok in E as (? & ? & Hx & E); cbv beta zeta in E).
  apply ret_Ok in E as [<- ->].
  match goal with H : handleErr (reads BondDenom_get) _ = _ |- _ =>
    rewrite handleErr_Ok in H; by apply reads_Ok in H as [? ->] end.
Qed.

(** Funding an account the codec refuses mints the coins and exits. *)
Lemma fund_refused c a s e t :
  MintCoins MintModule c s = (Ok tt, t) → Account_StringToBytes a = Err e →
  fund c a s = (Panic os_Exit, t).
Proof.
  intros Em Ea. unfold fund, mbind, gom_bind, handleErr, catch, lift. by rewrite Em, Ea.
Qed.

End InPlaceTheorems.

Module ToyInPlace.

#[export] Instance toy_cast : Cast := λ v, match v with OptString s => s | _ => [] end.

#[export] Instance toy_in_place {S : Type} : InPlaceLib S := {|
  Any_t := unit; NewAnyWithValue _ := Ok tt; Validator_StringToBytes := Ok;
  Account_StringToBytes s := if decide (s = []) then Err (ErrorString "empty address") else Ok s;
  ConsAddress_String := id;
  ValidatorsPowerStoreIterator _ := Ok []; LastValidatorsIterator _ := Ok [];
  Store_Iterator _ _ _ := []; Store_Delete _ := mret tt; PrefixEndBytes := id;
  ValidatorsKey := [x21]; ValidatorQueueKey := [x43]; MintModule := str "mint";
  SetValidator _ := mret tt; SetValidatorByConsAddr _ := mret tt;
  SetValidatorByPowerIndex _ := mret tt; SetLastValidatorPower _ _ := mret tt;
  AfterValidatorCreated _ := mret tt; InitHistoricalRewards _ _ _ := mret tt;
  InitCurrentRewards _ _ := mret tt; InitAccumulatedCommission _ := mret tt;
  InitOutstandingRewards _ := mret tt; LastBlockHeight _ := 5%Z;
  SetValidatorSigningInfo _ _ := mret tt; BondDenom_get _ := Ok (str "stake");
  MintCoins _ _ := mret tt; SendCoinsFromModuleToAccount _ _ _ := mret tt
|}.

Definition options (accounts : string) : AppOptions := {|
  KeyNewValAddr := OptHexBytes [x01]; KeyUserPubKey := OptPubKey [x02];
  KeyNewOpAddr := OptString (str "op"); KeyTriggerTestnetUpgrade := OptString [];
  FlagAccountsToFund := OptString (str accounts); FlagHome := OptString (str "/home")
|}.


End ToyInPlace.
