(* ===== verification/Commands.v ===== *)
(** [cmd/exampled]: the root command with its subcommands, the client context,
    and the functions that open an application to run it or to export its state.
    Commands of the SDK are values of the interface [Cli]; a command the program
    makes itself is a [Cmd] of [Cobra] with its children. *)
From S2P Require Import Prelude Json Crypto Store AnteHandler AppModule Cobra App.
From S2P Require AppConfig StateExport ExampleModule Keeper Testnet TestnetCmd InPlace.
From stdpp Require Import list_relations.

#[local] Open Scope go_scope.

Definition in_place_Long : bytes := str "The test command modifies both application and consensus stores within a local mainnet node and starts the node,
with the aim of facilitating testing procedures. This command replaces existing validator data with updated information,
thereby removing the old validator set and introducing a new set suitable for local testing purposes. By altering the state extracted from the mainnet node,
it enables developers to configure their local environments to reflect mainnet conditions more accurately.".

Definition in_place_Example : bytes :=
  str "exampled in-place-testnet testing-1 cosmosvaloper1w7f3xx7e75p4l7qdym5msqem9rd4dyc4mq79dm --home $HOME/.exampled/validator1 --validator-privkey=6dq+/KHNvyiw2TToCgOpUpQKIzrLs69Rb8Az39xvmxPHNoPxY1Cil8FY+4DhT9YwD6s0tFABMlLcpaylzKKBOg== --accounts-to-fund=" ++
  quoted (str "cosmos1f7twgcq4ypzg7y24wuywy06xmdet8pc4473tnq,cosmos1qvuhm5m644660nd8377d6l7yz9e9hhm9evmx3x").

Class Cli (S N Ctx : Type) `{!AnteLib Ctx, !Sdk S N Ctx, !Pflag} := {
  LibCommand : Type;
  BasicModule : Type;
  ClientCtx : Type;
  TxConfigOptions : Type;
  CmtConfig : Type;
  ServerConfig : Type;
  ExportedApp_t : Type;
  (** [module.CoreAppModuleBasicAdaptor(name, mod)] *)
  CoreAppModuleBasicAdaptor : bytes → AppModule_t → BasicModule;
  (** the commands of the SDK *)
  genutil_InitCmd : gmap bytes BasicModule → bytes → LibCommand;
  debug_Cmd : LibCommand; confix_ConfigCommand : LibCommand;
  genutil_Commands : TxConfig_t → gmap bytes BasicModule → bytes → LibCommand;
  server_StatusCommand : LibCommand; keys_Commands : LibCommand;
  rpc_WaitTxCmd : LibCommand; rpc_ValidatorCommand : LibCommand; server_QueryBlockCmd : LibCommand;
  QueryTxsByEventsCmd : LibCommand; server_QueryBlocksCmd : LibCommand; QueryTxCmd : LibCommand;
  server_QueryBlockResultsCmd : LibCommand;
  GetSignCommand : LibCommand; GetSignBatchCommand : LibCommand;
  GetMultiSignCommand : LibCommand; GetMultiSignBatchCmd : LibCommand;
  GetValidateSignaturesCommand : LibCommand; flags_LineBreak : LibCommand;
  GetBroadcastCommand : LibCommand; GetEncodeCommand : LibCommand; GetDecodeCommand : LibCommand;
  GetSimulateCmd : LibCommand;
  client_ValidateCmd : FlagSet → GoM S unit;
  (** assignments to the fields of a command of the SDK, and its flags *)
  set_Short : bytes → LibCommand → LibCommand;
  set_Long : bytes → LibCommand → LibCommand;
  set_Example : bytes → LibCommand → LibCommand;
  with_Flags : (FlagSet → outcome FlagSet) → LibCommand → outcome LibCommand;
  (** options: [Get(flags.FlagHome).(string)], [opts.( *viper.Viper)] *)
  HomeFlag : AppOptions → option bytes;
  as_viper : AppOptions → option AppOptions;
  (** what [Get] returns for the keys the in-place testnet reads *)
  testnet_options : AppOptions → InPlace.AppOptions;
  DefaultBaseappOptions : AppOptions → list BaseAppOption;
  LoadHeight : RuntimeApp → Z → GoM S unit;
  (** the client context *)
  ClientCtx_zero : ClientCtx;
  (** the variable [clientCtx] of [NewRootCmd], which a closure captures *)
  clientCtx_var : S → ClientCtx;
  assign_clientCtx : ClientCtx → GoM S unit;
  ClientCtx_Codec : ClientCtx → Codec;
  ClientCtx_TxConfig : ClientCtx → TxConfig_t;
  WithCodec : Codec → ClientCtx → ClientCtx;
  WithInterfaceRegistry : InterfaceRegistry_t → ClientCtx → ClientCtx;
  WithLegacyAmino : LegacyAmino_t → ClientCtx → ClientCtx;
  WithInput_Stdin : ClientCtx → ClientCtx;
  WithAccountRetriever : ClientCtx → ClientCtx;
  WithHomeDir : bytes → ClientCtx → ClientCtx;
  WithViper : bytes → ClientCtx → ClientCtx;
  WithTxConfig : TxConfig_t → ClientCtx → ClientCtx;
  WithCmdContext : FlagSet → ClientCtx → ClientCtx;
  (** they return a context with the error *)
  ReadPersistentCommandFlags : ClientCtx → FlagSet → outcome ClientCtx;
  ReadFromClientConfig : ClientCtx → GoM S (ClientCtx * option error);
  SetCmdClientContextHandler : ClientCtx → FlagSet → GoM S unit;
  SetOut_default : FlagSet → GoM S unit;
  SetErr_default : FlagSet → GoM S unit;
  InterceptConfigsPreRunHandler : FlagSet → bytes → ServerConfig → CmtConfig → GoM S unit;
  cmt_DefaultConfig : CmtConfig; server_DefaultConfig : ServerConfig; DefaultConfigTemplate : bytes;
  set_TextualCoinMetadataQueryFn : ClientCtx → TxConfigOptions → TxConfigOptions;
  NewTxConfigWithOptions : Codec → TxConfigOptions → outcome TxConfig_t;
  (** [autoCliOpts.EnhanceRootCommand] *)
  EnhanceRootCommand : gmap bytes AppModule_t → Command S LibCommand → GoM S (Command S LibCommand);
  (** [svrcmd.Execute(rootCmd, EnvPrefix, home)], and printing its error *)
  svrcmd_Execute : Command S LibCommand → bytes → bytes → GoM S unit;
  Println_stderr : Command S LibCommand → error → GoM S unit
}.

Section Commands.
Context {S Ctx Store : Type} (KVStore : Ctx → Store)
  `{!Collections Store, !Json.GoRuntime, !EthCrypto, !AnteLib Ctx, !Sdk S (Node Store) Ctx,
    !Ibc S (Node Store) Ctx, !AppConfig.SdkNames, !Pflag, !Cli S (Node Store) Ctx,
    !StateExport.ExportKeepers S, !Testnet.OS S, !Testnet.TestnetLib S (gmap bytes BasicModule),
    !TestnetCmd.SharedFlags, !InPlace.InPlaceLib S, !InPlace.Cast}
  (Inject : AppConfig.DepConfig AppModuleBasic → AppOptions → Logger_t → GoM S (AppBuilder * Injected))
  (DefaultNodeHome : bytes).

(** ** [config.go] *)

Definition initCometBFTConfig : CmtConfig := cmt_DefaultConfig.
Definition initAppConfig : bytes * ServerConfig := (DefaultConfigTemplate, server_DefaultConfig).

(** ** [commands.go] *)

Definition newApp (logger : Logger_t) (db : DB) (traceStore : TraceStore) (appOpts : AppOptions)
    : GoM S App :=
  let baseappOptions := DefaultBaseappOptions appOpts in
  New KVStore Inject logger db traceStore true appOpts baseappOptions.

Definition ErrNoHome : error := ErrorString "application home not set".
Definition ErrNotViper : error := ErrorString "appOpts is not viper.Viper".

Definition appExport (logger : Logger_t) (db : DB) (traceStore : TraceStore) (height : Z)
    (forZeroHeight : bool) (jailAllowedAddrs : list bytes) (appOpts : AppOptions)
    (modulesToExport : list bytes) : GoM S StateExport.ExportedApp :=
  match HomeFlag appOpts with
  | None | Some [] => fail ErrNoHome
  | Some _ =>
      match as_viper appOpts with
      | None => fail ErrNotViper
      | Some appOpts =>
          if negb (height =? -1)%Z then
            bApp ← New KVStore Inject logger db traceStore false appOpts [];
            let? _ := LoadHeight (App_App bApp) height else err => fail err in
            StateExport.ExportAppStateAndValidators forZeroHeight jailAllowedAddrs modulesToExport
          else
            bApp ← New KVStore Inject logger db traceStore true appOpts [];
            StateExport.ExportAppStateAndValidators forZeroHeight jailAllowedAddrs modulesToExport
      end
  end.

(** ** [testnet.go] *)

(** The assertion that [newApp] made an [App] holds. *)
Definition newTestnetApp (logger : Logger_t) (db : DB) (traceStore : TraceStore)
    (appOpts : AppOptions) : GoM S App :=
  testApp ← newApp logger db traceStore appOpts;
  _ ← InPlace.newTestnetApp (testnet_options appOpts);
  mret testApp.

Definition flagAccountsToFund : bytes := str "accounts-to-fund".

(** ** The command tree *)

(** Nothing is added to the start command. *)
Definition addModuleInitFlags (startCmd : Command S LibCommand) : Command S LibCommand := startCmd.

(** The commands of the SDK that take the program's functions, and what the
    context and the clock give the multi-node command. *)
Context (Intn : nat → nat → nat) (genTime : Testnet.Time)
  (GetClientQueryContext : FlagSet → GoM S unit)
  (ServerConfig_of : FlagSet → Testnet.NodeConfig Testnet.NodeRest)
  (InPlaceTestnetCreator : (Logger_t → DB → TraceStore → AppOptions → GoM S App) → LibCommand)
  (pruning_Cmd : (Logger_t → DB → TraceStore → AppOptions → GoM S App) → bytes → LibCommand)
  (snapshot_Cmd : (Logger_t → DB → TraceStore → AppOptions → GoM S App) → LibCommand)
  (AddCommandsWithStartCmdOptions : Command S LibCommand → bytes →
     (Logger_t → DB → TraceStore → AppOptions → GoM S App) →
     (Logger_t → DB → TraceStore → Z → bool → list bytes → AppOptions → list bytes →
        GoM S StateExport.ExportedApp) →
     (Command S LibCommand → Command S LibCommand) → Command S LibCommand).

Definition queryCommand : Command S LibCommand :=
  AddCommand
    (map LibCmd [rpc_WaitTxCmd; rpc_ValidatorCommand; server_QueryBlockCmd; QueryTxsByEventsCmd;
       server_QueryBlocksCmd; QueryTxCmd; server_QueryBlockResultsCmd])
    (Cmd {| Use := str "query"; Aliases := [str "q"]; Short := str "Querying subcommands";
            Long := []; DisableFlagParsing := false; SuggestionsMinimumDistance := 2;
            SilenceErrors := false; Flags := NewFlagSet; RunE := Some client_ValidateCmd;
            PersistentPreRunE := None |}).

Definition txCommand : Command S LibCommand :=
  AddCommand
    (map LibCmd [GetSignCommand; GetSignBatchCommand; GetMultiSignCommand; GetMultiSignBatchCmd;
       GetValidateSignaturesCommand; flags_LineBreak; GetBroadcastCommand; GetEncodeCommand;
       GetDecodeCommand; GetSimulateCmd])
    (Cmd {| Use := str "tx"; Aliases := []; Short := str "Transactions subcommands";
            Long := []; DisableFlagParsing := false; SuggestionsMinimumDistance := 2;
            SilenceErrors := false; Flags := NewFlagSet; RunE := Some client_ValidateCmd;
            PersistentPreRunE := None |}).

Definition NewInPlaceTestnetCmd : outcome LibCommand :=
  let cmd := InPlaceTestnetCreator newTestnetApp in
  let cmd := set_Short (str "Updates chain's application and consensus state with provided validator info and starts the node") cmd in
  let cmd := set_Long in_place_Long cmd in
  let cmd := set_Example in_place_Example cmd in
  with_Flags (Flags_String flagAccountsToFund []
    (str "Comma-separated list of account addresses that will be funded for testing purposes")) cmd.

Definition initRootCmd (rootCmd : Command S LibCommand) (txConfig : TxConfig_t)
    (basicManager : gmap bytes BasicModule) : outcome (Command S LibCommand) :=
  inPlace ← NewInPlaceTestnetCmd;
  multiNode ← TestnetCmd.NewTestnetMultiNodeCmd Intn genTime GetClientQueryContext ServerConfig_of
    basicManager;
  let rootCmd := AddCommand
    [LibCmd (genutil_InitCmd basicManager DefaultNodeHome); LibCmd inPlace; Cmd multiNode;
     LibCmd debug_Cmd; LibCmd confix_ConfigCommand; LibCmd (pruning_Cmd newApp DefaultNodeHome);
     LibCmd (snapshot_Cmd newApp)] rootCmd in
  let rootCmd := AddCommandsWithStartCmdOptions rootCmd DefaultNodeHome newApp appExport
    addModuleInitFlags in
  Ok (AddCommand
    [LibCmd server_StatusCommand; LibCmd (genutil_Commands txConfig basicManager DefaultNodeHome);
     queryCommand; txCommand; LibCmd keys_Commands] rootCmd).

(** ** [root.go] *)

Definition ProvideClientContext (appCodec : Codec) (interfaceRegistry : InterfaceRegistry_t)
    (txConfigOpts : TxConfigOptions) (legacyAmino : LegacyAmino_t) : GoM S ClientCtx :=
  let clientCtx :=
    WithViper AppConfig.Name (WithHomeDir DefaultNodeHome (WithAccountRetriever (WithInput_Stdin
      (WithLegacyAmino legacyAmino (WithInterfaceRegistry interfaceRegistry
        (WithCodec appCodec ClientCtx_zero)))))) in
  read ← ReadFromClientConfig clientCtx;
  let clientCtx := fst read in
  let txConfigOpts := set_TextualCoinMetadataQueryFn clientCtx txConfigOpts in
  let? txConfig := lift (NewTxConfigWithOptions (ClientCtx_Codec clientCtx) txConfigOpts)
    else err => panic err in
  mret (WithTxConfig txConfig clientCtx).

(** [PersistentPreRunE] of the root command: the first assignment is to the
    captured variable, the later ones to the closure's own [clientCtx]. *)
Definition root_PersistentPreRunE (cmd : FlagSet) : GoM S unit :=
  _ ← SetOut_default cmd;
  _ ← SetErr_default cmd;
  clientCtx ← reads (λ s, Ok (clientCtx_var s));
  let clientCtx := WithViper AppConfig.Name (WithCmdContext cmd clientCtx) in
  _ ← assign_clientCtx clientCtx;
  let? clientCtx := lift (ReadPersistentCommandFlags clientCtx cmd) else err => fail err in
  read ← ReadFromClientConfig clientCtx;
  match read with
  | (_, Some err) => fail err
  | (clientCtx, None) =>
      let? _ := SetCmdClientContextHandler clientCtx cmd else err => fail err in
      let '(customAppTemplate, customAppConfig) := initAppConfig in
      let customCMTConfig := initCometBFTConfig in
      InterceptConfigsPreRunHandler cmd customAppTemplate customAppConfig customCMTConfig
  end.

Definition rootSpec : CommandSpec S := {|
  Use := AppConfig.Name ++ str "d"; Aliases := []; Short := str "example node";
  Long := []; DisableFlagParsing := false; SuggestionsMinimumDistance := 0; SilenceErrors := true;
  Flags := NewFlagSet; RunE := None; PersistentPreRunE := Some root_PersistentPreRunE |}.

(** The loop over the IBC modules, in the order [range] gives. *)
Definition add_modules (l : list (bytes * AppModule_t))
    (acc : gmap bytes BasicModule * gmap bytes AppModule_t) :
    gmap bytes BasicModule * gmap bytes AppModule_t :=
  foldl (λ acc nm, (<[nm.1 := CoreAppModuleBasicAdaptor nm.1 nm.2]> acc.1, <[nm.1 := nm.2]> acc.2))
    acc l.

(** [inject] is the injection from the configuration and the context provider, of
    the client's options, module manager and
    context; the two orders are those of the two loops over the modules. *)
Definition NewRootCmd
    (inject : AppConfig.DepConfig AppModuleBasic →
       (Codec → InterfaceRegistry_t → TxConfigOptions → LegacyAmino_t → GoM S ClientCtx) →
       GoM S (gmap bytes AppModule_t * gmap bytes BasicModule * ClientCtx))
    (order1 order2 : gmap bytes AppModule_t → list (bytes * AppModule_t))
    : GoM S (Command S LibCommand) :=
  let? injected := inject depinject_config ProvideClientContext else err => panic err in
  let '(modules, moduleBasicManager, clientCtx) := injected in
  _ ← assign_clientCtx clientCtx;
  let rootCmd := Cmd rootSpec in
  ibcModules ← RegisterIBC order1 (ClientCtx_Codec clientCtx);
  let '(moduleBasicManager, modules) :=
    add_modules (order2 ibcModules) (moduleBasicManager, modules) in
  rootCmd ← lift (initRootCmd rootCmd (ClientCtx_TxConfig clientCtx) moduleBasicManager);
  let? rootCmd := EnhanceRootCommand modules rootCmd else err => panic err in
  mret rootCmd.

(** ** [main.go] *)

(** [os.Exit(1)] ends the process. *)
Definition main
    (inject : AppConfig.DepConfig AppModuleBasic →
       (Codec → InterfaceRegistry_t → TxConfigOptions → LegacyAmino_t → GoM S ClientCtx) →
       GoM S (gmap bytes AppModule_t * gmap bytes BasicModule * ClientCtx))
    (order1 order2 : gmap bytes AppModule_t → list (bytes * AppModule_t)) (EnvPrefix : bytes)
    : GoM S unit :=
  rootCmd ← NewRootCmd inject order1 order2;
  let? _ := svrcmd_Execute rootCmd EnvPrefix DefaultNodeHome
    else err => (_ ← Println_stderr rootCmd err; panic (Sentinel "os" "Exit(1)")) in
  mret tt.

End Commands.

(** ** Properties *)

Section Theorems.
Context {S Ctx Store : Type} (KVStore : Ctx → Store)
  `{!Collections Store, !Json.GoRuntime, !EthCrypto, !AnteLib Ctx, !Sdk S (Node Store) Ctx,
    !Ibc S (Node Store) Ctx, !AppConfig.SdkNames, !Pflag, !Cli S (Node Store) Ctx,
    !StateExport.ExportKeepers S, !Testnet.OS S, !Testnet.TestnetLib S (gmap bytes BasicModule),
    !TestnetCmd.SharedFlags, !InPlace.InPlaceLib S, !InPlace.Cast}
  (Inject : AppConfig.DepConfig AppModuleBasic → AppOptions → Logger_t → GoM S (AppBuilder * Injected))
  (DefaultNodeHome : bytes).

(** C28. Exporting the state.  Without a home, or with options that are not
    viper's, the export is refused before an application is opened.  An export
    comes from an application opened at the latest version for height -1, and for
    any other height from one that was opened without loading and then loaded at
    exactly that height; when that height cannot be loaded, its error is the
    result and nothing is exported. *)
Theorem appExport_spec logger db ts height zero jail opts modules s :
  let run := appExport KVStore Inject logger db ts height zero jail opts modules s in
  (HomeFlag opts = None ∨ HomeFlag opts = Some [] → run = (Err ErrNoHome, s)) ∧
  (∀ home, HomeFlag opts = Some home → home ≠ [] →
     (as_viper opts = None → run = (Err ErrNotViper, s)) ∧
     (∀ vopts, as_viper opts = Some vopts →
        (∀ x s', run = (Ok x, s') →
           ∃ app s1 s2, New KVStore Inject logger db ts (height =? -1)%Z vopts [] s = (Ok app, s1) ∧
             (height = (-1)%Z ∧ s2 = s1 ∨
              height ≠ (-1)%Z ∧ LoadHeight (App_App app) height s1 = (Ok tt, s2)) ∧
             StateExport.ExportAppStateAndValidators zero jail modules s2 = (Ok x, s')) ∧
        (∀ app s1 e s2, height ≠ (-1)%Z →
           New KVStore Inject logger db ts false vopts [] s = (Ok app, s1) →
           LoadHeight (App_App app) height s1 = (Err e, s2) → run = (Err e, s2)))).
Proof.
  cbv zeta. unfold appExport. split; [by intros [-> | ->]|].
  intros home -> Hne. destruct home as [|c home]; [done|]. split; [by intros ->|].
  intros vopts ->. destruct (Z.eqb_spec height (-1)) as [->|Hh]; cbn [negb]; split.
  - intros x s' (app & s1 & E & Ex)%bind_Ok. exists app, s1, s1. auto.
  - done.
  - intros x s' (app & s1 & E & Ex)%bind_Ok. rewrite catch_Ok in Ex by done.
    destruct Ex as ([] & s2 & El & Ex). exists app, s1, s2. auto.
  - intros app s1 e s2 _ E El. unfold mbind, gom_bind, catch, fail. by rewrite E, El.
Qed.

Lemma add_modules_permute l l' acc :
  NoDup l.*1 → l ≡ₚ l' → add_modules l acc = add_modules l' acc.
Proof.
  intros Hnd Hp. revert acc Hnd.
  induction Hp as [|x l l' _ IH|[x mx] [y my] l|l1 l2 l3 H12 IH1 _ IH2]; intros acc Hnd; [done| | |].
  - unfold add_modules. cbn [foldl]. apply IH. by apply NoDup_cons in Hnd as [_ ?].
  - unfold add_modules. cbn [foldl fst snd]. f_equal.
    assert (x ≠ y) as Hne.
    { cbn in Hnd. apply NoDup_cons in Hnd as [Hn _]. intros ->. apply Hn. left. }
    f_equal; by apply insert_insert_ne.
  - rewrite IH1 by done. apply IH2. by rewrite <-H12.
Qed.

(** The command line is the same whatever the order in which Go ranges over
    the maps of modules: the root command, its error and its effects do not
    depend on the orders of the two loops, when two modules' interfaces can be
    registered in either order. *)
Theorem NewRootCmd_order Intn genTime ctx config in_place pruning snapshot servers inject o1 o2 o1' o2' (s : S) :
  Forall (λ o : gmap bytes AppModule_t → list (bytes * AppModule_t), ∀ m, o m ≡ₚ map_to_list m)
    [o1; o2; o1'; o2'] →
  (∀ m1 m2 f1 f2 reg t, RegisterInterfaces m1 = Some f1 → RegisterInterfaces m2 = Some f2 →
     (f1 reg ;; f2 reg) t = (f2 reg ;; f1 reg) t) →
  NewRootCmd KVStore Inject DefaultNodeHome Intn genTime ctx config in_place pruning snapshot servers inject o1 o2 s =
  NewRootCmd KVStore Inject DefaultNodeHome Intn genTime ctx config in_place pruning snapshot servers inject o1' o2' s.
Proof.
  intros Ho Hc. rewrite !Forall_cons in Ho. destruct Ho as (Ho1 & Ho2 & Ho1' & Ho2' & _).
  unfold NewRootCmd, catch. destruct (inject _ _ s) as [[[[modules mgr] clientCtx]|e|v] s1]; [|done..].
  unfold mbind, gom_bind. destruct (assign_clientCtx clientCtx s1) as [[[]|e|v] s1']; [|done..].
  rewrite (RegisterIBC_permute o1 o1' _ s1' Ho1 Ho1' Hc).
  destruct (RegisterIBC o1' _ s1') as [[ibc|e|v] s2]; [|done..].
  rewrite (add_modules_permute (o2 ibc) (o2' ibc)); [done| |by rewrite Ho2, Ho2'].
  rewrite Ho2. apply NoDup_fst_map_to_list.
Qed.

End Theorems.

(** ** The properties at concrete inputs *)

(** Commands are names, the home is the options, the chain has 9 heights, and
    the application is the one of [ToyApp]. *)
Module ToyCli.
Import Keeper.Concrete ToyAnte AppConfig.SdkValues ToyApp ToyFlags.
Import TestnetCmd.ToyTestnetCmd.

Definition quiet : GoM ToyApp.state unit := fun s => (Ok tt, s).

#[export] Instance toy_cli : Cli ToyApp.state (Node store) ToyAnte.ctx := {|
  LibCommand := bytes; BasicModule := bytes; ClientCtx := unit; TxConfigOptions := unit;
  CmtConfig := unit; ServerConfig := unit; ExportedApp_t := unit;
  CoreAppModuleBasicAdaptor name _ := name; genutil_InitCmd _ _ := str "init";
  debug_Cmd := str "debug"; confix_ConfigCommand := str "config"; genutil_Commands _ _ _ := str "genesis";
  server_StatusCommand := str "status"; keys_Commands := str "keys"; rpc_WaitTxCmd := str "wait-tx";
  rpc_ValidatorCommand := str "comet-validator-set"; server_QueryBlockCmd := str "block";
  QueryTxsByEventsCmd := str "txs"; server_QueryBlocksCmd := str "blocks"; QueryTxCmd := str "tx";
  server_QueryBlockResultsCmd := str "block-results"; GetSignCommand := str "sign";
  GetSignBatchCommand := str "sign-batch"; GetMultiSignCommand := str "multi-sign";
  GetMultiSignBatchCmd := str "multisign-batch"; GetValidateSignaturesCommand := str "validate-signatures";
  flags_LineBreak := []; GetBroadcastCommand := str "broadcast"; GetEncodeCommand := str "encode";
  GetDecodeCommand := str "decode"; GetSimulateCmd := str "simulate";
  client_ValidateCmd _ := quiet; set_Short _ c := c; set_Long _ c := c; set_Example _ c := c;
  with_Flags f c := _ ← f NewFlagSet; Ok c;
  testnet_options _ := InPlace.ToyInPlace.options "a,b";
  HomeFlag o := Some o; as_viper o := Some o; DefaultBaseappOptions _ := [];
  LoadHeight _ h := fun s => if (h <? 10)%Z then (Ok tt, s) else (Err (ErrorString "no version"), s);
  ClientCtx_zero := tt; clientCtx_var _ := tt; assign_clientCtx _ := quiet; ClientCtx_Codec _ := ToyApp.cdc; ClientCtx_TxConfig _ := true;
  WithCodec _ c := c; WithInterfaceRegistry _ c := c; WithLegacyAmino _ c := c;
  WithInput_Stdin c := c; WithAccountRetriever c := c; WithHomeDir _ c := c; WithViper _ c := c;
  WithTxConfig _ c := c; WithCmdContext _ c := c; ReadPersistentCommandFlags c _ := Ok c;
  ReadFromClientConfig c := fun s => (Ok (c, None), s); SetCmdClientContextHandler _ _ := quiet;
  SetOut_default _ := quiet; SetErr_default _ := quiet;
  InterceptConfigsPreRunHandler _ _ _ _ := quiet; cmt_DefaultConfig := tt; server_DefaultConfig := tt;
  DefaultConfigTemplate := []; set_TextualCoinMetadataQueryFn _ o := o;
  NewTxConfigWithOptions _ _ := Ok true; EnhanceRootCommand _ cmd := fun s => (Ok cmd, s);
  svrcmd_Execute _ _ _ := quiet; Println_stderr _ _ := quiet
|}.

#[export] Existing Instance InPlace.ToyInPlace.toy_in_place.
#[export] Existing Instance InPlace.ToyInPlace.toy_cast.

#[export] Instance toy_os : Testnet.OS ToyApp.state := {|
  Testnet.Getwd := Ok (str "/"); Testnet.MkdirAll _ := quiet; Testnet.RemoveAll _ := quiet;
  Testnet.WriteFile _ _ := quiet; Testnet.Open _ := fun s => (Ok [], s); Testnet.Create _ := quiet;
  Testnet.Copy _ _ := fun s => (Ok 0%Z, s); Testnet.Sync _ := quiet
|}.

#[export] Instance toy_multi_node : Testnet.TestnetLib ToyApp.state (gmap bytes BasicModule) :=
  Testnet.ToyTestnet.toy_testnet_on _ _ (λ _ _, quiet) (λ _ s, (Ok [], s)).

#[export] Instance toy_export : StateExport.ExportKeepers ToyApp.state := {|
  StateExport.DecCoins := unit; StateExport.DecCoins_Add _ _ := tt;
  StateExport.ValidatorAddressCodec_StringToBytes := Ok; StateExport.AddressCodec_StringToBytes := Ok;
  StateExport.StakingKeeper_StringToBytes := Ok; StateExport.StakingKeeper_BytesToString := Ok;
  StateExport.IterateValidators _ _ := quiet; StateExport.GetAllDelegations _ := fun s => (Ok [], s);
  StateExport.IterateRedelegations _ _ := quiet; StateExport.SetRedelegation _ _ := quiet;
  StateExport.IterateUnbondingDelegations _ _ := quiet;
  StateExport.SetUnbondingDelegation _ _ := quiet;
  StateExport.GetValidator _ _ _ := Err (ErrorString "no validator");
  StateExport.SetValidator _ _ := quiet; StateExport.ApplyAndReturnValidatorSetUpdates _ := quiet;
  StateExport.ReversePrefixKeys _ := []; StateExport.AddressFromValidatorsKey := id;
  StateExport.Iterator_Close := quiet; StateExport.WithdrawValidatorCommission _ _ := quiet;
  StateExport.WithdrawDelegationRewards _ _ _ := quiet;
  StateExport.DeleteAllValidatorSlashEvents _ := quiet;
  StateExport.DeleteAllValidatorHistoricalRewards _ := quiet;
  StateExport.GetValidatorOutstandingRewardsCoins _ _ := quiet;
  StateExport.FeePool_Get _ := quiet; StateExport.FeePool_Set _ _ := quiet;
  StateExport.AfterValidatorCreated _ _ := quiet; StateExport.BeforeDelegationCreated _ _ _ := quiet;
  StateExport.AfterDelegationModified _ _ _ := quiet;
  StateExport.IterateValidatorSigningInfos _ _ := quiet;
  StateExport.SetValidatorSigningInfo _ _ _ := quiet; StateExport.LastBlockHeight _ := 9%Z;
  StateExport.GenesisMap := unit; StateExport.ExportGenesisForModules _ _ := quiet;
  StateExport.MarshalIndent _ := Ok (str "{}"); StateExport.GenesisValidator := unit;
  StateExport.WriteValidators _ := fun s => (Ok [], s); StateExport.ConsensusParams := unit;
  StateExport.GetConsensusParams _ _ := tt
|}.

Definition export (height : Z) (opts : AppOptions) : outcome StateExport.ExportedApp * ToyApp.state :=
  appExport fst inject logger db trace_store height false [] opts [] none.

Lemma appExport_spec_witness :
  export 5 (options []) = (Err ErrNoHome, none) ∧
  (∃ x s', export 5 (options (str "signing")) = (Ok x, s') ∧
     ∃ app s1, New fst inject logger db trace_store false (options (str "signing")) [] none = (Ok app, s1)).
Proof.
  split.
  - apply (appExport_spec fst inject logger db trace_store 5 false [] (options []) [] none).
    right. reflexivity.
  - assert (is_Ok (export 5 (options (str "signing"))).1 = true) as Hok by (vm_compute; reflexivity).
    destruct (export 5 (options (str "signing"))) as [[x|e|v] s'] eqn:E; [|discriminate Hok..].
    exists x, s'. split; [reflexivity|].
    destruct (appExport_spec fst inject logger db trace_store 5 false [] (options (str "signing")) [] none)
      as [_ Hs].
    destruct (Hs (str "signing") eq_refl ltac:(discriminate)) as [_ Hv].
    destruct (proj1 (Hv (options (str "signing")) eq_refl) x s' E) as (app & s1 & s2 & Hn & _).
    exists app, s1. exact Hn.
Defined.

Definition client_inject (_ : AppConfig.DepConfig AppModuleBasic)
    (_ : Codec → InterfaceRegistry_t → TxConfigOptions → LegacyAmino_t → GoM ToyApp.state ClientCtx)
    : GoM ToyApp.state (gmap bytes AppModule_t * gmap bytes BasicModule * ClientCtx) :=
  fun s => (Ok (∅, ∅, ClientCtx_zero), s).

Definition genesis_time : Testnet.Time (F := ToyApp.state) := tt.
Definition node_config (_ : FlagSet) : Testnet.NodeConfig (Testnet.NodeRest (F := ToyApp.state)) :=
  Testnet.Build_NodeConfig _ [] [] [] [] false [] [] [] false tt.

(** The root command, with one server command. *)
Definition root (order : gmap bytes AppModule_t → list (bytes * AppModule_t)) :=
  NewRootCmd fst inject (str "/home") first_index genesis_time (λ _, quiet) node_config
    (λ _, str "in-place-testnet") (λ _ _, str "prune") (λ _, str "snapshots")
    (λ cmd _ _ _ _, AddCommand [LibCmd (str "start")] cmd) client_inject order order none.

Lemma NewRootCmd_order_witness :
  root map_to_list = root (λ m, reverse (map_to_list m)) ∧ is_Ok (root map_to_list).1 = true.
Proof.
  split; [|vm_compute; reflexivity].
  apply (NewRootCmd_order fst inject (str "/home")).
  - repeat constructor; intros m; try reflexivity; apply reverse_Permutation.
  - intros m1 m2 f1 f2 reg t. cbn. do 2 case_decide; intros E1 E2; try discriminate.
    injection E1 as <-. injection E2 as <-. reflexivity.
Defined.

End ToyCli.
